(* ===== verification/_CoqProject ===== *)
-Q . S2P
Prelude.v
Codes.v
Reasons.v
Pkid.v
IndexMap.v
Buffers.v
Bytes.v
Encoders.v
Varint.v
Utf8.v
Strings.v
Filters.v
Convert.v
Property.v
PacketMeta.v
Acks.v
Publish.v
Subscriptions.v
ConnAck.v
Connect.v
UserProperties.v
UserPackets.v
Packet.v
Reencode.v
Copies.v
Comparisons.v
PacketEq.v
Fuzz.v
Reader.v
Writer.v
TestTransport.v
Proxy.v
DebugFmt.v
PacketTests.v
StringTests.v
ConversionTests.v
WebSocket.v
IoTests.v
Transport.v
Requests.v
Session.v
SessionInv.v
SessionSystem.v
Tokens.v
SessionTests.v
UnitTests.v
SessionProps.v
KeepAliveProps.v
Notifiers.v
Client.v
ClientProps.v
Connecting.v
