(* ===== verification/Prelude.v ===== *)
(** * Verification of the MQTT client library

    A model of the MQTT 3.1.1 and 5.0 client in [src/src], and the theorems that
    make it correct. All source paths below are relative to [src/src].

    ** The program

    An application holds a [Client] and calls its operations (client.rs), which
    convert the packets and properties of the public API (packet.rs, topic.rs) to
    those of the codec (mqtt_proto) and queue a request for the [Session]
    (client/session.rs); it gets a completion token, and acknowledges what it
    receives with acknowledgement tokens (client/token). [connect] opens a
    transport (transport.rs, io/stream.rs and io/tokio_*.rs), possibly through a
    proxy, and exchanges CONNECT and CONNACK; [run_until_disconnect] then drives the
    connection: it asks the session for the next outgoing packet, encodes it
    into an accumulator (buffer_pool/accumulators) and writes it with [Writer]
    (io/writer.rs); it reads frames with [Reader] (io/reader.rs), decodes them and
    hands each packet to a handler of the session, which completes the notifier
    of the operation or passes a PUBLISH to the application. Packet identifiers
    come from [PkidPool] (client/session/pkid.rs).

    ** How it is modelled

    Rust integers are [Z] with their range as a predicate ([is_u8], ...);
    [Result] is [result], [Option] is [option], and a function that can panic
    returns an [outcome] ([Returns] or [Panics]). A [Shared] buffer is the list
    of its bytes; a decoder returns the rest of it. An [async] function returns a
    [poll], up to the point where it would wait; in the transports, where only
    the order of the calls matters, it is run to its end (the monad [io] of
    Proxy). Traits are type classes ([BytesAccumulator], [Owned], [PacketMeta],
    [ReadableStream], [WritableStream], [PacketSource]) with their laws in a class
    of their own, against which the clients are proved. Code outside the
    repository is a parameter with its documented behaviour as laws: [Unicode]
    (UTF-8 decoding and character classes), [FormatTables] (the tables of
    [char::escape_debug] and the text of a buffer), [BytesMut] (the bytes crate),
    [ProxyStream] and [Network] (tokio and openssl), [Base64] (openssl),
    [MessageStream] and [WebSockets] (tungstenite); each has instances that
    witness that its laws can hold.

    - Prelude: integers, results and their notations, tactics, list lemmas.
    - Codes, Reasons: error types, protocol version, packet identifiers, the
      reason codes of the codec (mqtt_proto.rs and the enums of the packet files)
      and the public reason enums of packet.rs.
    - Buffers, Bytes, Encoders: buffers, the four accumulators and the byte
      counter, the pool on the bytes crate (buffer_pool/bytes), and a
      weakest-precondition calculus for encoders that are generic over the
      accumulator.
    - Varint, Utf8, Strings, Filters, Property: mqtt_proto.rs (variable byte
      integers), byte_str.rs, binary_data.rs, topic.rs, filter.rs, property.rs.
    - PacketMeta, Acks, Publish, Subscriptions, ConnAck, Connect: the fifteen
      packet types; [Packet] dispatches over them and writes the fixed header.
      Reencode shows that what was decoded can be encoded again.
    - Copies, Comparisons, PacketEq: copies into another pool ([to_shared]), the
      equality, order and hash of the codec's strings, and [PartialEq] of the
      packets, as a class with an instance per type.
    - DebugFmt: the [Debug] of the packets, the text that the formatter makes of it, and
      the two lines of the driver's log that show packets.
    - Fuzz: the targets of the fuzzer (fuzz/, beside src/src).
    - Convert, UserProperties, UserPackets: topic.rs and packet.rs, the public
      topics, property structs and packets with their conversions, a class
      [Converts] for those that invert each other, and the results that the
      acknowledgements stand for.
    - Reader, Writer: framing and vectored writing, and [mqtt_receive] of
      client.rs.
    - Proxy, WebSocket, Transport: the CONNECT exchange of io/stream.rs, the byte
      stream over messages of io/tokio_ws.rs, and the transports with
      [transport_connect]; their streams are instances of the classes that
      Reader and Writer are proved against.
    - TestTransport: io/test.rs, the in-memory stream of packets that stands for
      a network in the integration tests.
    - PacketTests, StringTests, ConversionTests, IoTests, SessionTests, UnitTests:
      the unit tests of the crate, each translated to a computation that
      evaluates its assertions on the model.
    - Pkid, IndexMap, Requests: the identifier pool, insertion-ordered maps,
      the messages and tokens of the client, and [Timer] (client/timer.rs).
    - Session: [struct Session] and all its methods, one definition each; its
      channels are lists, its notifications an event log.
    - SessionInv, SessionSystem, SessionProps: the invariants, the transition
      system formed by the session, the application and the server, and the
      theorems about its runs. KeepAliveProps adds the times at which the session
      is polled.
    - Tokens, Notifiers: what acknowledgement, reauthentication and completion
      tokens send (client/token), and what becomes of every notifier in a run.
    - Client, ClientProps: client.rs. A step of [drive] is the code between two
      suspension points of the loop of [run_until_disconnect]; time is an argument of
      each step.
    - Connecting: [connect] with the transport it opens, as one operation.

    ** What the theorems show

    - Codec: decoding inverts encoding for every packet type and both versions
      ([packet_roundtrip]); everything that decodes is well formed and
      re-encodes to an equal packet ([packet_reencode]); every accumulator gets
      the same bytes, as many as the byte counter predicts, and after reserving
      them encoding cannot fail; property lists and strings round-trip and are
      checked on the way in; [Filter::new] and [matches_topic] decide their
      declarative readings. The round-trip oracle of the fuzzer fails on no input
      ([fuzz_roundtrip_never_panics]); a copy into an empty buffer
      equals its original. The log line of an outgoing packet does not depend on its
      credentials, and [Debug] passes on everything else ([log_hides_credentials]).
    - Public API: property structs survive the conversion to the codec and back,
      or panic exactly if something is too long; [as_result] reports exactly the
      failures; the numbers of the reason enums are those on the wire but one.
    - Streams: the reader yields exactly the frames that were sent however the
      stream cuts them, and terminates on every stream; the writer sends what
      was enqueued once and in order; together they deliver the sequence of
      packets ([connection_in_order]), over WebSocket messages too. The test
      transport loses and reorders nothing in either direction.
    - Transports: a connection leads to the configured host, through the proxy
      and inside TLS where configured ([transport_connect_route]); the CONNECT
      request cannot be forged by its arguments and the response is accepted exactly
      when it should be.
    - Session: as long as the server's acknowledgements match the operations they are
      for, the operations in flight have distinct, leased packet identifiers; the
      outgoing side does not panic; PUBACKs
      leave in the order of arrival and are not held back; unacknowledged
      packets are replayed with DUP after a reconnect; completion and expiry
      notify exactly the operations concerned; every operation is resolved at
      most once and never lost; a PUBACK token acknowledges exactly once. A connection is
      silent for no longer than the negotiated keep-alive interval, and a PINGREQ is sent
      only when it is due ([keep_alive_met]).
    - Client: driving a connection takes steps of the session's transition system
      ([driver_refines]); connecting sends exactly the CONNECT packet that was asked for, on a
      stream that leads where the configuration says, succeeds by the CONNACK in the first
      frame that this stream delivers, and leaves the session alone on failure
      ([connect_over_transport]); a publish whose strings MQTT allows reaches the peer with
      what the application gave.
    - Beside these, the unit tests of the crate pass on the model ([unit_tests_pass]).
    - Deviations: what wildcards do not match; an acknowledgement of the wrong
      type releases an identifier in use; PUBREL identifiers leak on expiry; the
      PUBLISHes that make the client panic; when a missing PINGRESP goes unnoticed.

    ** Fuel

    Loops that are not structural take fuel, and a lemma shows that what is
    supplied is enough: the length of the input for decoding loops
    ([decode_while_fuel], [validate_loop_fuel]); six rounds for the fixed header
    and the bytes still missing for a body ([Reader_read]); the bytes to send
    for [write_all]; the size of the pool for [lease_loop] ([lease_spec]); the
    pending and queued acknowledgements for [next_outgoing_request]
    ([next_request_loop_spec]); the limit on the size of the headers for
    [read_headers]; the messages still to come for a WebSocket read
    ([ws_read_spec]); the bytes in the buffer for [test_deliver]. The theorems state that a result is returned. Loops that wait for
    the network ([run], [maybe_timeout]) take the list of the times at which they
    are polled.

    ** The environment of a session

    [step] (SessionSystem) lists what can happen to a session. The application
    may submit any request but acknowledges a PUBLISH only with the token it got
    for it, as the token types enforce; AUTH requests carry a method. QoS 2
    tokens do not arise, since the client does not expose QoS 2 yet; the QoS 2
    branches of the handlers are modelled all the same. A server may send
    anything in any order, except an acknowledgement whose type does not match
    the operation in flight under its identifier, and PUBLISHes on which the
    client panics. [any_run] adds those acknowledgements as events of their own
    ([Mismatched]); a run without them is [compliant] and reaches the states of [step]
    ([compliant_reachable]). Fewer than 2^64 connections are made. A task is polled
    when a timer that it waits for fires, so that what completes after a deadline has
    timed out ([maybe_timeout_io]).

    ** What is not modelled

    Sockets, TLS, the WebSocket handshake and the bytes crate are foreign code behind the
    classes above, and so are the Unicode tables and the [Debug] of the buffers. The [Display]
    text of the errors is left out, since nothing depends on it, and so are the other lines of
    the log, the unit tests about the size of types and about tokens sent between threads, the
    integration tests under tests/, and the example applications under examples/, which use the
    library but are not part of it. The two halves of a split stream are modelled as two
    directions that do not interfere; a wake-up of a task is a poll of it. *)

From stdpp Require Export base tactics list strings numbers gmap.
From Stdlib Require Export ZArith Lia.

Local Open Scope Z_scope.

(** ** Machine integers

    A Rust [u8], [u16], [u32], [u64] or [usize] is a [Z]; the range it ranges
    over is stated by the predicates below, and every place where the code
    wraps, shifts or truncates writes the operation out. *)

Abbreviation u8 := Z (only parsing).
Abbreviation u16 := Z (only parsing).
Abbreviation u32 := Z (only parsing).
Abbreviation u64 := Z (only parsing).
Abbreviation usize := Z (only parsing).

Definition u8_MAX : Z := 255.
Definition u16_MAX : Z := 65535.
Definition u32_MAX : Z := 4294967295.

Definition is_u8 (z : Z) : Prop := 0 <= z <= u8_MAX.
Definition is_u16 (z : Z) : Prop := 0 <= z <= u16_MAX.
Definition is_u32 (z : Z) : Prop := 0 <= z <= u32_MAX.

(** [NonZeroU16] and [NonZeroU32]. *)
Definition is_nonzero_u16 (z : Z) : Prop := 1 <= z <= u16_MAX.
Definition is_nonzero_u32 (z : Z) : Prop := 1 <= z <= u32_MAX.

Definition bytes_ok (bs : list u8) : Prop := Forall is_u8 bs.

(** A slice's length as a [usize]. *)
Definition len {A} (l : list A) : Z := Z.of_nat (length l).

(** ** Results and panics *)

(** Rust's [Result<A, E>], with the error type first so that it is a functor in
    the value. *)
Inductive result (E A : Type) : Type :=
  | Ok (a : A)
  | Err (e : E).
Arguments Ok {E A} _.
Arguments Err {E A} _.

(** A call that may panic ([assert!], [expect], [todo!], [unreachable!]). *)
Inductive outcome (A : Type) : Type :=
  | Returns (a : A)
  | Panics (msg : string).
Arguments Returns {A} _.
Arguments Panics {A} _.

(** The result of polling an [async] function. *)
Inductive poll (A : Type) : Type :=
  | Ready (a : A)
  | Pending
  | Panicked (msg : string)
  | OutOfFuel.
Arguments Ready {_} _.
Arguments Pending {_}.
Arguments Panicked {_} _.
Arguments OutOfFuel {_}.

Declare Scope rust_scope.
Delimit Scope rust_scope with rust.

(** [let? x := e in k] is Rust's [let x = e?; k]. *)
Notation "'let?' x := c 'in' k" :=
  (match c with Ok x => k | Err e => Err e end)
  (at level 10, x pattern, c at level 200, k at level 200)
  : rust_scope.

(** [let?? x := e in k] propagates a [None] ([e?] in a function returning
    [Option]). *)
Notation "'let??' x := c 'in' k" :=
  (match c with Some x => k | None => None end)
  (at level 10, x pattern, c at level 200, k at level 200)
  : rust_scope.

(** [let! x := e in k] propagates a panic. *)
Notation "'let!' x := c 'in' k" :=
  (match c with Returns x => k | Panics m => Panics m end)
  (at level 10, x pattern, c at level 200, k at level 200)
  : rust_scope.

Open Scope rust_scope.

Section results.
Context {E E' A B : Type}.

(** [Option::ok_or]. *)
Definition ok_or (o : option A) (e : E) : result E A :=
  match o with Some a => Ok a | None => Err e end.

(** [Result::map_err]. *)
Definition map_err (f : E -> E') (r : result E A) : result E' A :=
  match r with Ok a => Ok a | Err e => Err (f e) end.

(** [Option::unwrap_or]. *)
Definition unwrap_or (o : option A) (d : A) : A :=
  match o with Some a => a | None => d end.

Definition is_some (o : option A) : bool :=
  match o with Some _ => true | None => false end.

Definition is_ok (r : result E A) : bool :=
  match r with Ok _ => true | Err _ => false end.
End results.

(** A fallible left fold: [for x in l { acc = f(acc, x)?; }]. *)
Fixpoint foldM {E A B : Type} (f : A -> B -> result E A) (acc : A) (l : list B) : result E A :=
  match l with
  | [] => Ok acc
  | x :: l' => let? acc := f acc x in foldM f acc l'
  end.

(** [iter().map(f).collect::<Result<Vec<_>, _>>()]: stops at the first error. *)
Fixpoint mapM_result {E A B : Type} (f : A -> result E B) (l : list A) : result E (list B) :=
  match l with
  | [] => Ok []
  | x :: l' =>
      let? y := f x in
      let? ys := mapM_result f l' in
      Ok (y :: ys)
  end.

Definition list_is_empty {A} (l : list A) : bool :=
  match l with [] => true | _ => false end.

(** [Option] seen as an iterator of at most one element. *)
Definition option_list {A} (o : option A) : list A :=
  match o with Some a => [a] | None => [] end.

(** ** Big-endian integers: [to_be_bytes] and [from_be_bytes] *)

Fixpoint to_be_bytes (n : nat) (z : Z) : list u8 :=
  match n with
  | O => []
  | S n' => Z.land (Z.shiftr z (8 * Z.of_nat n')) 255 :: to_be_bytes n' z
  end.

Definition from_be_bytes (bs : list u8) : Z :=
  foldl (fun acc b => acc * 256 + b) 0 bs.

(** ** Tactics *)

(** Split every boolean conjunction and comparison of the context into
    propositions [lia] understands. *)
Ltac bool_to_prop :=
  repeat match goal with
  | H : _ && _ = true |- _ => apply andb_true_iff in H; destruct H
  | H : _ || _ = false |- _ => apply orb_false_iff in H; destruct H
  | H : negb _ = true |- _ => apply negb_true_iff in H
  | H : negb _ = false |- _ => apply negb_false_iff in H
  | H : (_ =? _) = true |- _ => apply Z.eqb_eq in H
  | H : (_ =? _) = false |- _ => apply Z.eqb_neq in H
  | H : (_ <? _) = true |- _ => apply Z.ltb_lt in H
  | H : (_ <? _) = false |- _ => apply Z.ltb_ge in H
  | H : (_ <=? _) = true |- _ => apply Z.leb_le in H
  | H : (_ <=? _) = false |- _ => apply Z.leb_gt in H
  end.

(** The innermost scrutinee of a nest of matches. *)
Ltac innermost t :=
  lazymatch t with
  | match ?u with _ => _ end => innermost u
  | _ => t
  end.

(** Case analysis on the scrutinee of every [let?] of a hypothesis that says a
    computation succeeded. *)
Ltac inv_ok H :=
  repeat match type of H with
  | Ok _ = Ok _ => injection H as H; subst
  | Err _ = Ok _ => discriminate H
  | Some _ = Some _ => injection H as H; subst
  | None = Some _ => discriminate H
  | match ?c with _ => _ end = _ =>
      let c := innermost c in
      let E := fresh "E" in destruct c eqn:E; cbv beta iota in H; try discriminate H
  end.

(** Decide a comparison of integers, with division and modulo by literals. *)
Ltac zarith := Z.div_mod_to_equations; lia.

Ltac decide_ltb x y :=
  first [ replace (x <? y) with true by (symmetry; apply Z.ltb_lt; zarith)
        | replace (x <? y) with false by (symmetry; apply Z.ltb_ge; zarith) ].

Ltac solve_range :=
  unfold is_u8, is_u16, is_u32, is_nonzero_u16, is_nonzero_u32,
    u8_MAX, u16_MAX, u32_MAX in *; lia.

(** [bytes_ok] of a literal. *)
Ltac solve_bytes :=
  unfold bytes_ok; repeat (apply Forall_cons; split; [solve_range|]); apply Forall_nil; exact I.

Create HintDb mqtt.
Create Rewrite HintDb len.

(** ** Lemmas on results *)

Lemma foldM_app {E A B} (f : A -> B -> result E A) acc l1 l2 :
  foldM f acc (l1 ++ l2) = let? acc := foldM f acc l1 in foldM f acc l2.
Proof.
  revert acc; induction l1 as [|x l1 IH]; intros acc; cbn; [done|].
  destruct (f acc x); cbn; auto.
Qed.

Lemma mapM_result_length {E A B} (f : A -> result E B) l ys :
  mapM_result f l = Ok ys -> length ys = length l.
Proof.
  revert ys; induction l as [|x l IH]; intros ys H; cbn in H; inv_ok H; [done|].
  cbn; f_equal; auto.
Qed.

Lemma mapM_result_Forall {E A B} (f : A -> result E B) (P : B -> Prop) l ys :
  (forall x y, f x = Ok y -> P y) -> mapM_result f l = Ok ys -> Forall P ys.
Proof.
  intros Hf; revert ys; induction l as [|x l IH]; intros ys H; cbn in H; inv_ok H; eauto.
Qed.

Lemma mapM_result_map {E A B} (f : A -> result E B) (g : B -> A) l :
  (forall y, y ∈ l -> f (g y) = Ok y) -> mapM_result f (map g l) = Ok l.
Proof.
  induction l as [|y l IH]; intros H; cbn; [done|].
  rewrite H by constructor. rewrite IH; [done|]. intros; apply H; by constructor.
Qed.

(** ** Lemmas on lengths and list splitting *)

Lemma len_nonneg {A} (l : list A) : 0 <= len l.
Proof. unfold len; lia. Qed.

Lemma len_app {A} (l1 l2 : list A) : len (l1 ++ l2) = len l1 + len l2.
Proof. unfold len. rewrite length_app. lia. Qed.

Lemma len_cons {A} (x : A) l : len (x :: l) = 1 + len l.
Proof. unfold len. cbn [length]. lia. Qed.

Lemma len_nil {A} : len (@nil A) = 0.
Proof. done. Qed.

Lemma len_drop {A} (l : list A) n : len (drop n l) <= len l.
Proof. unfold len. rewrite length_drop. lia. Qed.

Lemma take_len_app {A} (l1 l2 : list A) : take (Z.to_nat (len l1)) (l1 ++ l2) = l1.
Proof. unfold len. rewrite Nat2Z.id. apply take_app_length. Qed.

Lemma drop_len_app {A} (l1 l2 : list A) : drop (Z.to_nat (len l1)) (l1 ++ l2) = l2.
Proof. unfold len. rewrite Nat2Z.id. apply drop_app_length. Qed.

#[export] Hint Resolve len_nonneg : mqtt.
#[export] Hint Rewrite @len_app @len_cons @len_nil : len.

Lemma bytes_ok_take bs n : bytes_ok bs -> bytes_ok (take n bs).
Proof. apply Forall_take. Qed.

Lemma bytes_ok_drop bs n : bytes_ok bs -> bytes_ok (drop n bs).
Proof. apply Forall_drop. Qed.

#[export] Hint Resolve bytes_ok_take bytes_ok_drop : mqtt.

(** ** Lemmas on big-endian integers *)

Lemma land_255 z : Z.land z 255 = z mod 256.
Proof. change 255 with (Z.ones 8). by rewrite Z.land_ones by lia. Qed.

Lemma length_to_be_bytes n z : length (to_be_bytes n z) = n.
Proof. induction n; cbn; auto. Qed.

Lemma to_be_bytes_ok n z : bytes_ok (to_be_bytes n z).
Proof.
  induction n as [|n IH]; cbn; constructor; [|done].
  rewrite land_255. unfold is_u8, u8_MAX.
  pose proof (Z.mod_pos_bound (Z.shiftr z (8 * Z.of_nat n)) 256). lia.
Qed.

Lemma foldl_to_be_bytes n z acc :
  foldl (fun acc b => acc * 256 + b) acc (to_be_bytes n z)
  = acc * 256 ^ Z.of_nat n + z mod 256 ^ Z.of_nat n.
Proof.
  revert acc; induction n as [|n IH]; intros acc.
  { cbn. rewrite Z.mod_1_r. lia. }
  cbn [to_be_bytes foldl]. rewrite IH, land_255, Z.shiftr_div_pow2 by lia.
  rewrite Z.pow_mul_r, Nat2Z.inj_succ, Z.pow_succ_r by lia.
  change (2 ^ 8) with 256. rewrite (Z.mul_comm 256 (256 ^ _)).
  rewrite Z.rem_mul_r by (try apply Z.pow_nonzero; lia). lia.
Qed.

(** A value that fits in [n] bytes survives [to_be_bytes] then
    [from_be_bytes]. *)
Lemma from_to_be_bytes n z :
  0 <= z < 256 ^ Z.of_nat n -> from_be_bytes (to_be_bytes n z) = z.
Proof.
  intros Hz. unfold from_be_bytes. rewrite foldl_to_be_bytes.
  rewrite Z.mod_small by lia. lia.
Qed.

Lemma from_be_bytes_range_acc bs acc :
  bytes_ok bs -> 0 <= acc ->
  0 <= foldl (fun acc b => acc * 256 + b) acc bs < (acc + 1) * 256 ^ len bs.
Proof.
  revert acc; induction bs as [|b bs IH]; intros acc Hbs Hacc.
  { cbn [foldl]. change (len (@nil Z)) with 0. rewrite Z.pow_0_r. lia. }
  inversion_clear Hbs as [|? ? Hb Hbs']. cbn [foldl].
  unfold is_u8, u8_MAX in Hb.
  specialize (IH (acc * 256 + b) Hbs' ltac:(lia)). rewrite len_cons.
  rewrite Z.pow_add_r by (pose proof (len_nonneg bs); lia).
  pose proof (Z.pow_pos_nonneg 256 (len bs) ltac:(lia) (len_nonneg _)). nia.
Qed.

Lemma from_be_bytes_range bs :
  bytes_ok bs -> 0 <= from_be_bytes bs < 256 ^ len bs.
Proof.
  intros H. pose proof (from_be_bytes_range_acc bs 0 H ltac:(lia)).
  unfold from_be_bytes; lia.
Qed.

(** ** Lemmas on bits *)

(** A property of bytes checked by running through all 256 of them. *)
Lemma byte_check (P : Z -> bool) :
  forallb P (seqZ 0 256) = true -> forall z, is_u8 z -> P z = true.
Proof.
  intros H z Hz. rewrite forallb_forall in H. apply H.
  apply list_elem_of_In, elem_of_seqZ. solve_range.
Qed.

Lemma land_127 z : Z.land z 127 = z mod 128.
Proof. change 127 with (Z.ones 7). by rewrite Z.land_ones by lia. Qed.

(** Or-ing in a value shifted past the bits in use is an addition. *)
Lemma lor_shiftl r x k : 0 <= k -> 0 <= r < 2 ^ k -> Z.lor r (Z.shiftl x k) = r + x * 2 ^ k.
Proof.
  intros Hk Hr. rewrite <- Z.shiftl_mul_pow2 by done.
  rewrite <- (Z.add_lor_land r (Z.shiftl x k)). replace (Z.land r (Z.shiftl x k)) with 0; [lia|].
  symmetry. apply Z.bits_inj'. intros n Hn. rewrite Z.land_spec, Z.bits_0.
  destruct (Z.lt_ge_cases n k).
  - rewrite (Z.shiftl_spec_low x k n) by done. apply andb_false_r.
  - rewrite <- (Z.mod_small r (2 ^ k)) by done. by rewrite Z.mod_pow2_bits_high by lia.
Qed.

Lemma to_be_bytes_1 n : is_u8 n -> to_be_bytes 1 n = [n].
Proof.
  intros Hn. cbn [to_be_bytes]. change (8 * Z.of_nat 0) with 0.
  rewrite Z.shiftr_0_r, land_255, Z.mod_small by solve_range. done.
Qed.
