(* ===== verification/Codes.v ===== *)
(** * Errors, protocol version and one-byte codes

    The shared vocabulary of the codec (mqtt_proto.rs): [DecodeError] and
    [EncodeError], [ProtocolVersion], [PacketIdentifier], and every enum that
    the macro [define_u8_code!] generates, each with its [TryFrom<u8>] and
    [Into<u8>] conversions and the instance of the laws the codec relies on. *)

From S2P Require Export Prelude.
Local Open Scope Z_scope.

(** [enum DecodeError]. A Rust string is the list of its bytes; the foreign
    error values of [BufferPool] and [Io], which the codec only forwards, carry
    no payload. *)
Module DecodeError.
Inductive t : Set :=
  | BufferPool
  | ConnectReservedSet
  | ConnectZeroLengthIdWithExistingSession
  | EmptyFilter
  | EmptyTopic
  | IncompletePacket
  | InvalidByteStr (what : string)
  | InvalidFilter (s : list u8)
  | InvalidTopic (s : list u8)
  | Io
  | NoTopics
  | PublishDupAtMostOnce
  | TrailingGarbage
  | UnrecognizedConnAckFlags (b : u8)
  | UnrecognizedPacket (packet_type : u8) (flags : u8) (remaining_length : usize)
  | UnrecognizedProtocolName (s : list u8)
  | UnrecognizedProtocolVersion (b : u8)
  | UnrecognizedQoS (b : u8)
  | UnrecognizedRejectKind (b : u8)
  | VarintTooHigh
  | WillPropertiesFlagsSetButNotWillFlag
  | ZeroPacketIdentifier
  | ZeroValueOfNonZeroType
  | ConnectPasswordFlagSetButNotUsernameFlag
  | DuplicateProperty (name : string)
  | MissingRequiredProperty (name : string)
  | UnexpectedProperty
  | UnrecognizedPropertyIdentifier (b : u8)
  | InvalidMaximumPacketSize (n : u32)
  | InvalidReceiveMaximum (n : u16)
  | InvalidSubscriptionIdentifier (n : u32)
  | InvalidTopicAlias (n : u16)
  | UnrecognizedAuthenticateReasonCode (b : u8)
  | UnrecognizedConnectReasonCode (b : u8)
  | UnrecognizedConnectReturnCode (b : u8)
  | UnrecognizedDisconnectReasonCode (b : u8)
  | UnrecognizedMaximumQoS (b : u8)
  | UnrecognizedPayloadFormatIndicator (b : u8)
  | UnrecognizedPubAckReasonCode (b : u8)
  | UnrecognizedPubCompReasonCode (b : u8)
  | UnrecognizedPubRecReasonCode (b : u8)
  | UnrecognizedPubRelReasonCode (b : u8)
  | UnrecognizedRequestProblemInformation (b : u8)
  | UnrecognizedRequestResponseInformation (b : u8)
  | UnrecognizedRetainAvailable (b : u8)
  | UnrecognizedRetainHandling (b : u8)
  | UnrecognizedSharedSubscriptionAvailable (b : u8)
  | UnrecognizedSubscribeReasonCode (b : u8)
  | UnrecognizedSubscriptionIdentifiersAvailable (b : u8)
  | UnrecognizedUnsubAckReasonCode (b : u8)
  | UnrecognizedWildcardSubscriptionAvailable (b : u8)
  | SubscriptionOptionsReservedSet
  | NoLocalWithSharedSubscription.
End DecodeError.

(** [enum ProtocolVersion] and its methods. *)
Inductive ProtocolVersion : Set := V3 | V5.

#[export] Instance ProtocolVersion_eq_dec : EqDecision ProtocolVersion.
Proof. solve_decision. Defined.

Definition PROTOCOL_VERSION_V3 : u8 := 0x04.
Definition PROTOCOL_VERSION_V5 : u8 := 0x05.

Definition is_v3 (v : ProtocolVersion) : bool := match v with V3 => true | V5 => false end.
Definition is_v5 (v : ProtocolVersion) : bool := match v with V5 => true | V3 => false end.

Definition ProtocolVersion_to_u8 (v : ProtocolVersion) : u8 :=
  match v with V3 => PROTOCOL_VERSION_V3 | V5 => PROTOCOL_VERSION_V5 end.

(** [PROTOCOL_NAME = b"\x00\x04MQTT"]. *)
Definition PROTOCOL_NAME : list u8 := [0; 4; 77; 81; 84; 84].

(** ** [PacketIdentifier] *)

(** [struct PacketIdentifier(NonZeroU16)]. *)
Record PacketIdentifier : Set := mkPacketIdentifier { pkid_get : u16 }.

#[export] Instance PacketIdentifier_eq_dec : EqDecision PacketIdentifier.
Proof. solve_decision. Defined.

Definition pkid_wf (p : PacketIdentifier) : Prop := is_nonzero_u16 (pkid_get p).

Definition PacketIdentifier_MAX : PacketIdentifier := mkPacketIdentifier u16_MAX.

(** [PacketIdentifier::new]. *)
Definition PacketIdentifier_new (raw : u16) : option PacketIdentifier :=
  if raw =? 0 then None else Some (mkPacketIdentifier raw).

(** [impl Add<u16> for PacketIdentifier]: wraps at 2^16 and skips zero. *)
Definition PacketIdentifier_add (p : PacketIdentifier) (other : u16) : PacketIdentifier :=
  let result := (pkid_get p + other) mod 65536 in
  match PacketIdentifier_new result with
  | Some result => result
  | None => mkPacketIdentifier 1
  end.

(** ** Codes *)

(** The two conversions [define_u8_code!] writes for an enum. *)
Class U8Code (T : Type) := {
  try_from_u8 : u8 -> result DecodeError.t T;
  into_u8 : T -> u8;
}.

(** What the codec relies on: the conversions are inverse to one another and
    every code is a byte. *)
Class U8CodeLaws (T : Type) `{U8Code T} := {
  try_from_into : forall c : T, try_from_u8 (into_u8 c) = Ok c;
  into_try_from : forall b c, try_from_u8 (T := T) b = Ok c -> into_u8 c = b;
  into_u8_range : forall c : T, is_u8 (into_u8 c);
}.

Ltac u8_code_laws :=
  split; cbn;
  [ intros []; reflexivity
  | intros b c H;
    match type of H with ?f _ = _ => unfold f in H end;
    repeat (match type of H with
            | context [match ?x with _ => _ end] => is_var x; destruct x
            end; try discriminate H);
    injection H as <-; reflexivity
  | intros []; cbn; solve_range ].

(** [enum QoS], mqtt_proto.rs. *)
Module QoS.
Inductive t : Set :=
  | AtMostOnce
  | AtLeastOnce
  | ExactlyOnce.

Definition try_from (code : u8) : result DecodeError.t t :=
  match code with
  | 0x00 => Ok AtMostOnce
  | 0x01 => Ok AtLeastOnce
  | 0x02 => Ok ExactlyOnce
  | code => Err (DecodeError.UnrecognizedQoS code)
  end.

Definition to_u8 (code : t) : u8 :=
  match code with
  | AtMostOnce => 0x00
  | AtLeastOnce => 0x01
  | ExactlyOnce => 0x02
  end.
End QoS.

#[export] Instance QoS_eq_dec : EqDecision QoS.t.
Proof. solve_decision. Defined.

#[export] Instance QoS_code : U8Code QoS.t :=
  { try_from_u8 := QoS.try_from; into_u8 := QoS.to_u8 }.

#[export] Instance QoS_code_laws : U8CodeLaws QoS.t.
Proof. u8_code_laws. Qed.

(** [enum RetainHandling], mqtt_proto/subscribe.rs. *)
Module RetainHandling.
Inductive t : Set :=
  | Send
  | SendOnlyIfSubscriptionDoesNotCurrentlyExist
  | DoNotSend.

Definition try_from (code : u8) : result DecodeError.t t :=
  match code with
  | 0x00 => Ok Send
  | 0x01 => Ok SendOnlyIfSubscriptionDoesNotCurrentlyExist
  | 0x02 => Ok DoNotSend
  | code => Err (DecodeError.UnrecognizedRetainHandling code)
  end.

Definition to_u8 (code : t) : u8 :=
  match code with
  | Send => 0x00
  | SendOnlyIfSubscriptionDoesNotCurrentlyExist => 0x01
  | DoNotSend => 0x02
  end.
End RetainHandling.

#[export] Instance RetainHandling_eq_dec : EqDecision RetainHandling.t.
Proof. solve_decision. Defined.

#[export] Instance RetainHandling_code : U8Code RetainHandling.t :=
  { try_from_u8 := RetainHandling.try_from; into_u8 := RetainHandling.to_u8 }.

#[export] Instance RetainHandling_code_laws : U8CodeLaws RetainHandling.t.
Proof. u8_code_laws. Qed.

(** [enum AuthenticateReasonCode], mqtt_proto/auth.rs. *)
Module AuthenticateReasonCode.
Inductive t : Set :=
  | Success
  | ContinueAuthentication
  | ReAuthenticate.

Definition try_from (code : u8) : result DecodeError.t t :=
  match code with
  | 0x00 => Ok Success
  | 0x18 => Ok ContinueAuthentication
  | 0x19 => Ok ReAuthenticate
  | code => Err (DecodeError.UnrecognizedAuthenticateReasonCode code)
  end.

Definition to_u8 (code : t) : u8 :=
  match code with
  | Success => 0x00
  | ContinueAuthentication => 0x18
  | ReAuthenticate => 0x19
  end.
End AuthenticateReasonCode.

#[export] Instance AuthenticateReasonCode_eq_dec : EqDecision AuthenticateReasonCode.t.
Proof. solve_decision. Defined.

#[export] Instance AuthenticateReasonCode_code : U8Code AuthenticateReasonCode.t :=
  { try_from_u8 := AuthenticateReasonCode.try_from; into_u8 := AuthenticateReasonCode.to_u8 }.

#[export] Instance AuthenticateReasonCode_code_laws : U8CodeLaws AuthenticateReasonCode.t.
Proof. u8_code_laws. Qed.

(** [enum ConnectionRefusedReason], mqtt_proto/connack.rs. *)
Module ConnectionRefusedReason.
Inductive t : Set :=
  | UnspecifiedError
  | MalformedPacket
  | ProtocolError
  | ImplementationSpecificError
  | UnsupportedProtocolVersion
  | ClientIdentifierNotValid
  | BadUserNameOrPassword
  | NotAuthorized
  | ServerUnavailable
  | ServerBusy
  | Banned
  | BadAuthenticationMethod
  | TopicNameInvalid
  | PacketTooLarge
  | QuotaExceeded
  | PayloadFormatInvalid
  | RetainNotSupported
  | QoSNotSupported
  | UseAnotherServer
  | ServerMoved
  | ConnectionRateExceeded.

Definition try_from (code : u8) : result DecodeError.t t :=
  match code with
  | 0x80 => Ok UnspecifiedError
  | 0x81 => Ok MalformedPacket
  | 0x82 => Ok ProtocolError
  | 0x83 => Ok ImplementationSpecificError
  | 0x84 => Ok UnsupportedProtocolVersion
  | 0x85 => Ok ClientIdentifierNotValid
  | 0x86 => Ok BadUserNameOrPassword
  | 0x87 => Ok NotAuthorized
  | 0x88 => Ok ServerUnavailable
  | 0x89 => Ok ServerBusy
  | 0x8a => Ok Banned
  | 0x8c => Ok BadAuthenticationMethod
  | 0x90 => Ok TopicNameInvalid
  | 0x95 => Ok PacketTooLarge
  | 0x97 => Ok QuotaExceeded
  | 0x99 => Ok PayloadFormatInvalid
  | 0x9a => Ok RetainNotSupported
  | 0x9b => Ok QoSNotSupported
  | 0x9c => Ok UseAnotherServer
  | 0x9d => Ok ServerMoved
  | 0x9f => Ok ConnectionRateExceeded
  | code => Err (DecodeError.UnrecognizedConnectReasonCode code)
  end.

Definition to_u8 (code : t) : u8 :=
  match code with
  | UnspecifiedError => 0x80
  | MalformedPacket => 0x81
  | ProtocolError => 0x82
  | ImplementationSpecificError => 0x83
  | UnsupportedProtocolVersion => 0x84
  | ClientIdentifierNotValid => 0x85
  | BadUserNameOrPassword => 0x86
  | NotAuthorized => 0x87
  | ServerUnavailable => 0x88
  | ServerBusy => 0x89
  | Banned => 0x8a
  | BadAuthenticationMethod => 0x8c
  | TopicNameInvalid => 0x90
  | PacketTooLarge => 0x95
  | QuotaExceeded => 0x97
  | PayloadFormatInvalid => 0x99
  | RetainNotSupported => 0x9a
  | QoSNotSupported => 0x9b
  | UseAnotherServer => 0x9c
  | ServerMoved => 0x9d
  | ConnectionRateExceeded => 0x9f
  end.
End ConnectionRefusedReason.

#[export] Instance ConnectionRefusedReason_eq_dec : EqDecision ConnectionRefusedReason.t.
Proof. solve_decision. Defined.

#[export] Instance ConnectionRefusedReason_code : U8Code ConnectionRefusedReason.t :=
  { try_from_u8 := ConnectionRefusedReason.try_from; into_u8 := ConnectionRefusedReason.to_u8 }.

#[export] Instance ConnectionRefusedReason_code_laws : U8CodeLaws ConnectionRefusedReason.t.
Proof. u8_code_laws. Qed.

(** [enum DisconnectReasonCode], mqtt_proto/disconnect.rs. *)
Module DisconnectReasonCode.
Inductive t : Set :=
  | Normal
  | DisconnectWithWillMessage
  | UnspecifiedError
  | MalformedPacket
  | ProtocolError
  | ImplementationSpecificError
  | NotAuthorized
  | ServerBusy
  | ServerShuttingDown
  | KeepAliveTimeout
  | SessionTakenOver
  | TopicFilterInvalid
  | TopicNameInvalid
  | ReceiveMaximumExceeded
  | TopicAliasInvalid
  | PacketTooLarge
  | MessageRateTooHigh
  | QuotaExceeded
  | AdministrativeAction
  | PayloadFormatInvalid
  | RetainNotSupported
  | QosNotSupported
  | UseAnotherServer
  | ServerMoved
  | SharedSubscriptionsNotSupported
  | ConnectionRateExceeded
  | MaximumConnectTime
  | SubscriptionIdentifiersNotSupported
  | WildcardSubscriptionsNotSupported.

Definition try_from (code : u8) : result DecodeError.t t :=
  match code with
  | 0x00 => Ok Normal
  | 0x04 => Ok DisconnectWithWillMessage
  | 0x80 => Ok UnspecifiedError
  | 0x81 => Ok MalformedPacket
  | 0x82 => Ok ProtocolError
  | 0x83 => Ok ImplementationSpecificError
  | 0x87 => Ok NotAuthorized
  | 0x89 => Ok ServerBusy
  | 0x8b => Ok ServerShuttingDown
  | 0x8d => Ok KeepAliveTimeout
  | 0x8e => Ok SessionTakenOver
  | 0x8f => Ok TopicFilterInvalid
  | 0x90 => Ok TopicNameInvalid
  | 0x93 => Ok ReceiveMaximumExceeded
  | 0x94 => Ok TopicAliasInvalid
  | 0x95 => Ok PacketTooLarge
  | 0x96 => Ok MessageRateTooHigh
  | 0x97 => Ok QuotaExceeded
  | 0x98 => Ok AdministrativeAction
  | 0x99 => Ok PayloadFormatInvalid
  | 0x9a => Ok RetainNotSupported
  | 0x9b => Ok QosNotSupported
  | 0x9c => Ok UseAnotherServer
  | 0x9d => Ok ServerMoved
  | 0x9e => Ok SharedSubscriptionsNotSupported
  | 0x9f => Ok ConnectionRateExceeded
  | 0xa0 => Ok MaximumConnectTime
  | 0xa1 => Ok SubscriptionIdentifiersNotSupported
  | 0xa2 => Ok WildcardSubscriptionsNotSupported
  | code => Err (DecodeError.UnrecognizedDisconnectReasonCode code)
  end.

Definition to_u8 (code : t) : u8 :=
  match code with
  | Normal => 0x00
  | DisconnectWithWillMessage => 0x04
  | UnspecifiedError => 0x80
  | MalformedPacket => 0x81
  | ProtocolError => 0x82
  | ImplementationSpecificError => 0x83
  | NotAuthorized => 0x87
  | ServerBusy => 0x89
  | ServerShuttingDown => 0x8b
  | KeepAliveTimeout => 0x8d
  | SessionTakenOver => 0x8e
  | TopicFilterInvalid => 0x8f
  | TopicNameInvalid => 0x90
  | ReceiveMaximumExceeded => 0x93
  | TopicAliasInvalid => 0x94
  | PacketTooLarge => 0x95
  | MessageRateTooHigh => 0x96
  | QuotaExceeded => 0x97
  | AdministrativeAction => 0x98
  | PayloadFormatInvalid => 0x99
  | RetainNotSupported => 0x9a
  | QosNotSupported => 0x9b
  | UseAnotherServer => 0x9c
  | ServerMoved => 0x9d
  | SharedSubscriptionsNotSupported => 0x9e
  | ConnectionRateExceeded => 0x9f
  | MaximumConnectTime => 0xa0
  | SubscriptionIdentifiersNotSupported => 0xa1
  | WildcardSubscriptionsNotSupported => 0xa2
  end.
End DisconnectReasonCode.

#[export] Instance DisconnectReasonCode_eq_dec : EqDecision DisconnectReasonCode.t.
Proof. solve_decision. Defined.

#[export] Instance DisconnectReasonCode_code : U8Code DisconnectReasonCode.t :=
  { try_from_u8 := DisconnectReasonCode.try_from; into_u8 := DisconnectReasonCode.to_u8 }.

#[export] Instance DisconnectReasonCode_code_laws : U8CodeLaws DisconnectReasonCode.t.
Proof. u8_code_laws. Qed.

(** [enum PubAckReasonCode], mqtt_proto/puback.rs. *)
Module PubAckReasonCode.
Inductive t : Set :=
  | Success
  | NoMatchingSubscribers
  | UnspecifiedError
  | ImplementationSpecificError
  | NotAuthorized
  | TopicNameInvalid
  | PacketIdentifierInUse
  | QuotaExceeded
  | PayloadFormatInvalid.

Definition try_from (code : u8) : result DecodeError.t t :=
  match code with
  | 0x00 => Ok Success
  | 0x10 => Ok NoMatchingSubscribers
  | 0x80 => Ok UnspecifiedError
  | 0x83 => Ok ImplementationSpecificError
  | 0x87 => Ok NotAuthorized
  | 0x90 => Ok TopicNameInvalid
  | 0x91 => Ok PacketIdentifierInUse
  | 0x97 => Ok QuotaExceeded
  | 0x99 => Ok PayloadFormatInvalid
  | code => Err (DecodeError.UnrecognizedPubAckReasonCode code)
  end.

Definition to_u8 (code : t) : u8 :=
  match code with
  | Success => 0x00
  | NoMatchingSubscribers => 0x10
  | UnspecifiedError => 0x80
  | ImplementationSpecificError => 0x83
  | NotAuthorized => 0x87
  | TopicNameInvalid => 0x90
  | PacketIdentifierInUse => 0x91
  | QuotaExceeded => 0x97
  | PayloadFormatInvalid => 0x99
  end.
End PubAckReasonCode.

#[export] Instance PubAckReasonCode_eq_dec : EqDecision PubAckReasonCode.t.
Proof. solve_decision. Defined.

#[export] Instance PubAckReasonCode_code : U8Code PubAckReasonCode.t :=
  { try_from_u8 := PubAckReasonCode.try_from; into_u8 := PubAckReasonCode.to_u8 }.

#[export] Instance PubAckReasonCode_code_laws : U8CodeLaws PubAckReasonCode.t.
Proof. u8_code_laws. Qed.

(** [enum PubRecReasonCode], mqtt_proto/pubrec.rs. *)
Module PubRecReasonCode.
Inductive t : Set :=
  | Success
  | NoMatchingSubscribers
  | UnspecifiedError
  | ImplementationSpecificError
  | NotAuthorized
  | TopicNameInvalid
  | PacketIdentifierInUse
  | QuotaExceeded
  | PayloadFormatInvalid.

Definition try_from (code : u8) : result DecodeError.t t :=
  match code with
  | 0x00 => Ok Success
  | 0x10 => Ok NoMatchingSubscribers
  | 0x80 => Ok UnspecifiedError
  | 0x83 => Ok ImplementationSpecificError
  | 0x87 => Ok NotAuthorized
  | 0x90 => Ok TopicNameInvalid
  | 0x91 => Ok PacketIdentifierInUse
  | 0x97 => Ok QuotaExceeded
  | 0x99 => Ok PayloadFormatInvalid
  | code => Err (DecodeError.UnrecognizedPubRecReasonCode code)
  end.

Definition to_u8 (code : t) : u8 :=
  match code with
  | Success => 0x00
  | NoMatchingSubscribers => 0x10
  | UnspecifiedError => 0x80
  | ImplementationSpecificError => 0x83
  | NotAuthorized => 0x87
  | TopicNameInvalid => 0x90
  | PacketIdentifierInUse => 0x91
  | QuotaExceeded => 0x97
  | PayloadFormatInvalid => 0x99
  end.
End PubRecReasonCode.

#[export] Instance PubRecReasonCode_eq_dec : EqDecision PubRecReasonCode.t.
Proof. solve_decision. Defined.

#[export] Instance PubRecReasonCode_code : U8Code PubRecReasonCode.t :=
  { try_from_u8 := PubRecReasonCode.try_from; into_u8 := PubRecReasonCode.to_u8 }.

#[export] Instance PubRecReasonCode_code_laws : U8CodeLaws PubRecReasonCode.t.
Proof. u8_code_laws. Qed.

(** [enum PubRelReasonCode], mqtt_proto/pubrel.rs. *)
Module PubRelReasonCode.
Inductive t : Set :=
  | Success
  | PacketIdentifierNotFound.

Definition try_from (code : u8) : result DecodeError.t t :=
  match code with
  | 0x00 => Ok Success
  | 0x92 => Ok PacketIdentifierNotFound
  | code => Err (DecodeError.UnrecognizedPubRelReasonCode code)
  end.

Definition to_u8 (code : t) : u8 :=
  match code with
  | Success => 0x00
  | PacketIdentifierNotFound => 0x92
  end.
End PubRelReasonCode.

#[export] Instance PubRelReasonCode_eq_dec : EqDecision PubRelReasonCode.t.
Proof. solve_decision. Defined.

#[export] Instance PubRelReasonCode_code : U8Code PubRelReasonCode.t :=
  { try_from_u8 := PubRelReasonCode.try_from; into_u8 := PubRelReasonCode.to_u8 }.

#[export] Instance PubRelReasonCode_code_laws : U8CodeLaws PubRelReasonCode.t.
Proof. u8_code_laws. Qed.

(** [enum PubCompReasonCode], mqtt_proto/pubcomp.rs. *)
Module PubCompReasonCode.
Inductive t : Set :=
  | Success
  | PacketIdentifierNotFound.

Definition try_from (code : u8) : result DecodeError.t t :=
  match code with
  | 0x00 => Ok Success
  | 0x92 => Ok PacketIdentifierNotFound
  | code => Err (DecodeError.UnrecognizedPubCompReasonCode code)
  end.

Definition to_u8 (code : t) : u8 :=
  match code with
  | Success => 0x00
  | PacketIdentifierNotFound => 0x92
  end.
End PubCompReasonCode.

#[export] Instance PubCompReasonCode_eq_dec : EqDecision PubCompReasonCode.t.
Proof. solve_decision. Defined.

#[export] Instance PubCompReasonCode_code : U8Code PubCompReasonCode.t :=
  { try_from_u8 := PubCompReasonCode.try_from; into_u8 := PubCompReasonCode.to_u8 }.

#[export] Instance PubCompReasonCode_code_laws : U8CodeLaws PubCompReasonCode.t.
Proof. u8_code_laws. Qed.

(** [enum SubscribeReasonCode], mqtt_proto/suback.rs. *)
Module SubscribeReasonCode.
Inductive t : Set :=
  | GrantedQoS0
  | GrantedQoS1
  | GrantedQoS2
  | UnspecifiedError
  | ImplementationSpecificError
  | NotAuthorized
  | TopicFilterInvalid
  | PacketIdentifierInUse
  | QuotaExceeded
  | SharedSubscriptionsNotSupported
  | SubscriptionIdentifiersNotSupported
  | WildcardSubscriptionsNotSupported.

Definition try_from (code : u8) : result DecodeError.t t :=
  match code with
  | 0x00 => Ok GrantedQoS0
  | 0x01 => Ok GrantedQoS1
  | 0x02 => Ok GrantedQoS2
  | 0x80 => Ok UnspecifiedError
  | 0x83 => Ok ImplementationSpecificError
  | 0x87 => Ok NotAuthorized
  | 0x8f => Ok TopicFilterInvalid
  | 0x91 => Ok PacketIdentifierInUse
  | 0x97 => Ok QuotaExceeded
  | 0x9e => Ok SharedSubscriptionsNotSupported
  | 0xa1 => Ok SubscriptionIdentifiersNotSupported
  | 0xa2 => Ok WildcardSubscriptionsNotSupported
  | code => Err (DecodeError.UnrecognizedSubscribeReasonCode code)
  end.

Definition to_u8 (code : t) : u8 :=
  match code with
  | GrantedQoS0 => 0x00
  | GrantedQoS1 => 0x01
  | GrantedQoS2 => 0x02
  | UnspecifiedError => 0x80
  | ImplementationSpecificError => 0x83
  | NotAuthorized => 0x87
  | TopicFilterInvalid => 0x8f
  | PacketIdentifierInUse => 0x91
  | QuotaExceeded => 0x97
  | SharedSubscriptionsNotSupported => 0x9e
  | SubscriptionIdentifiersNotSupported => 0xa1
  | WildcardSubscriptionsNotSupported => 0xa2
  end.
End SubscribeReasonCode.

#[export] Instance SubscribeReasonCode_eq_dec : EqDecision SubscribeReasonCode.t.
Proof. solve_decision. Defined.

#[export] Instance SubscribeReasonCode_code : U8Code SubscribeReasonCode.t :=
  { try_from_u8 := SubscribeReasonCode.try_from; into_u8 := SubscribeReasonCode.to_u8 }.

#[export] Instance SubscribeReasonCode_code_laws : U8CodeLaws SubscribeReasonCode.t.
Proof. u8_code_laws. Qed.

(** [enum UnsubAckReasonCode], mqtt_proto/unsuback.rs. *)
Module UnsubAckReasonCode.
Inductive t : Set :=
  | Success
  | NoSubscriptionExisted
  | UnspecifiedError
  | ImplementationSpecificError
  | NotAuthorized
  | TopicFilterInvalid
  | PacketIdentifierInUse.

Definition try_from (code : u8) : result DecodeError.t t :=
  match code with
  | 0x00 => Ok Success
  | 0x11 => Ok NoSubscriptionExisted
  | 0x80 => Ok UnspecifiedError
  | 0x83 => Ok ImplementationSpecificError
  | 0x87 => Ok NotAuthorized
  | 0x8f => Ok TopicFilterInvalid
  | 0x91 => Ok PacketIdentifierInUse
  | code => Err (DecodeError.UnrecognizedUnsubAckReasonCode code)
  end.

Definition to_u8 (code : t) : u8 :=
  match code with
  | Success => 0x00
  | NoSubscriptionExisted => 0x11
  | UnspecifiedError => 0x80
  | ImplementationSpecificError => 0x83
  | NotAuthorized => 0x87
  | TopicFilterInvalid => 0x8f
  | PacketIdentifierInUse => 0x91
  end.
End UnsubAckReasonCode.

#[export] Instance UnsubAckReasonCode_eq_dec : EqDecision UnsubAckReasonCode.t.
Proof. solve_decision. Defined.

#[export] Instance UnsubAckReasonCode_code : U8Code UnsubAckReasonCode.t :=
  { try_from_u8 := UnsubAckReasonCode.try_from; into_u8 := UnsubAckReasonCode.to_u8 }.

#[export] Instance UnsubAckReasonCode_code_laws : U8CodeLaws UnsubAckReasonCode.t.
Proof. u8_code_laws. Qed.

(** [enum EncodeError]. [Panicked] is not a variant of the source: it is the
    outcome of an [unreachable!] that an encoder runs into, which ends the
    encoding as an error does. *)
Module EncodeError.
Inductive t : Set :=
  | InsufficientBuffer
  | Io
  | NoTopics
  | RemainingLengthTooHigh (n : usize)
  | StringTooLarge (n : usize)
  | VarintTooHigh (n : u32)
  | WillTooLarge (n : usize)
  | ConnectPasswordWithoutUsername
  | NegativePubAck (code : PubAckReasonCode.t)
  | NegativePubComp (code : PubCompReasonCode.t)
  | NegativePubRec (code : PubRecReasonCode.t)
  | NegativePubRel (code : PubRelReasonCode.t)
  | NegativeUnsubAck (code : UnsubAckReasonCode.t)
  | BinaryDataTooLarge (n : usize)
  | Panicked (msg : string).
End EncodeError.

Abbreviation decode_result A := (result DecodeError.t A) (only parsing).
Abbreviation encode_result A := (result EncodeError.t A) (only parsing).

(** ** [PacketIdentifierDupQoS] *)

(** [enum PacketIdentifierDupQoS]. *)
Module PacketIdentifierDupQoS.
Inductive t : Set :=
  | AtMostOnce
  | AtLeastOnce (packet_identifier : PacketIdentifier) (dup : bool)
  | ExactlyOnce (packet_identifier : PacketIdentifier) (dup : bool).

(** [impl From<PacketIdentifierDupQoS> for (QoS, bool, Option<PacketIdentifier>)]. *)
Definition into (value : t) : QoS.t * bool * option PacketIdentifier :=
  match value with
  | AtMostOnce => (QoS.AtMostOnce, false, None)
  | AtLeastOnce packet_id dup => (QoS.AtLeastOnce, dup, Some packet_id)
  | ExactlyOnce packet_id dup => (QoS.ExactlyOnce, dup, Some packet_id)
  end.

Definition qos (value : t) : QoS.t := fst (fst (into value)).

Definition wf (value : t) : Prop :=
  match value with
  | AtMostOnce => True
  | AtLeastOnce p _ | ExactlyOnce p _ => pkid_wf p
  end.
End PacketIdentifierDupQoS.

(** ** Lemmas on packet identifiers *)

Lemma PacketIdentifier_new_Some raw p :
  is_u16 raw -> PacketIdentifier_new raw = Some p -> pkid_wf p /\ pkid_get p = raw.
Proof.
  unfold PacketIdentifier_new, pkid_wf. intros Hr H.
  destruct (raw =? 0) eqn:E; [done|]. injection H as <-. bool_to_prop.
  cbn; split; [solve_range | done].
Qed.

Lemma PacketIdentifier_new_get p :
  pkid_wf p -> PacketIdentifier_new (pkid_get p) = Some p.
Proof.
  unfold PacketIdentifier_new, pkid_wf, is_nonzero_u16. intros Hp.
  destruct (pkid_get p =? 0) eqn:E; bool_to_prop; [lia|]. by destruct p.
Qed.

Lemma PacketIdentifier_add_wf p n : pkid_wf (PacketIdentifier_add p n).
Proof.
  unfold PacketIdentifier_add.
  pose proof (Z.mod_pos_bound (pkid_get p + n) 65536 ltac:(lia)).
  destruct (PacketIdentifier_new _) as [r|] eqn:E; [|unfold pkid_wf; cbn; solve_range].
  eapply PacketIdentifier_new_Some in E as [? _]; [done | solve_range].
Qed.
