(* ===== verification/Reasons.v ===== *)
(** * Reason codes of the public API

    The enums of packet.rs that mirror one-byte codes of the codec: their
    variants and discriminants, and the conversions in both directions. *)

From S2P Require Export Codes.
Local Open Scope Z_scope.

(** [packet::QoS]. *)
Module packet_QoS.
Inductive t : Set :=
  | AtMostOnce
  | AtLeastOnce
  | ExactlyOnce.

(** The discriminants. *)
Definition code (value : t) : u8 :=
  match value with
  | AtMostOnce => 0
  | AtLeastOnce => 1
  | ExactlyOnce => 2
  end.

Definition from (value : QoS.t) : t :=
  match value with
  | QoS.AtMostOnce => AtMostOnce
  | QoS.AtLeastOnce => AtLeastOnce
  | QoS.ExactlyOnce => ExactlyOnce
  end.

Definition into (value : t) : QoS.t :=
  match value with
  | AtMostOnce => QoS.AtMostOnce
  | AtLeastOnce => QoS.AtLeastOnce
  | ExactlyOnce => QoS.ExactlyOnce
  end.
End packet_QoS.

(** [packet::ConnAckReason]. *)
Module ConnAckReason.
Inductive t : Set :=
  | Success
  | UnspecifiedError
  | MalformedPacket
  | ProtocolError
  | ImplementationSpecificError
  | UnsupportedProtocolVersion
  | ClientIdentifierNotValid
  | BadUserNameOrPassword
  | NotAuthorized
  | ServerUnavailable
  | ServerBusy
  | Banned
  | BadAuthenticationMethod
  | TopicNameInvalid
  | PacketTooLarge
  | QuotaExceeded
  | PayloadFormatInvalid
  | RetainNotSupported
  | QoSNotSupported
  | UseAnotherServer
  | ServerMoved
  | ConnectionRateExceeded.

(** The discriminants. *)
Definition code (value : t) : u8 :=
  match value with
  | Success => 0x00
  | UnspecifiedError => 0x80
  | MalformedPacket => 0x81
  | ProtocolError => 0x82
  | ImplementationSpecificError => 0x83
  | UnsupportedProtocolVersion => 0x84
  | ClientIdentifierNotValid => 0x85
  | BadUserNameOrPassword => 0x86
  | NotAuthorized => 0x87
  | ServerUnavailable => 0x88
  | ServerBusy => 0x89
  | Banned => 0x8a
  | BadAuthenticationMethod => 0x8c
  | TopicNameInvalid => 0x90
  | PacketTooLarge => 0x95
  | QuotaExceeded => 0x97
  | PayloadFormatInvalid => 0x99
  | RetainNotSupported => 0x9a
  | QoSNotSupported => 0x9b
  | UseAnotherServer => 0x9c
  | ServerMoved => 0x9d
  | ConnectionRateExceeded => 0x9f
  end.

(** [derive(Debug)]. *)
Definition debug (value : t) : string :=
  match value with
  | Success => "Success"
  | UnspecifiedError => "UnspecifiedError"
  | MalformedPacket => "MalformedPacket"
  | ProtocolError => "ProtocolError"
  | ImplementationSpecificError => "ImplementationSpecificError"
  | UnsupportedProtocolVersion => "UnsupportedProtocolVersion"
  | ClientIdentifierNotValid => "ClientIdentifierNotValid"
  | BadUserNameOrPassword => "BadUserNameOrPassword"
  | NotAuthorized => "NotAuthorized"
  | ServerUnavailable => "ServerUnavailable"
  | ServerBusy => "ServerBusy"
  | Banned => "Banned"
  | BadAuthenticationMethod => "BadAuthenticationMethod"
  | TopicNameInvalid => "TopicNameInvalid"
  | PacketTooLarge => "PacketTooLarge"
  | QuotaExceeded => "QuotaExceeded"
  | PayloadFormatInvalid => "PayloadFormatInvalid"
  | RetainNotSupported => "RetainNotSupported"
  | QoSNotSupported => "QoSNotSupported"
  | UseAnotherServer => "UseAnotherServer"
  | ServerMoved => "ServerMoved"
  | ConnectionRateExceeded => "ConnectionRateExceeded"
  end.

Definition from (value : ConnectionRefusedReason.t) : t :=
  match value with
  | ConnectionRefusedReason.UnspecifiedError => UnspecifiedError
  | ConnectionRefusedReason.MalformedPacket => MalformedPacket
  | ConnectionRefusedReason.ProtocolError => ProtocolError
  | ConnectionRefusedReason.ImplementationSpecificError => ImplementationSpecificError
  | ConnectionRefusedReason.UnsupportedProtocolVersion => UnsupportedProtocolVersion
  | ConnectionRefusedReason.ClientIdentifierNotValid => ClientIdentifierNotValid
  | ConnectionRefusedReason.BadUserNameOrPassword => BadUserNameOrPassword
  | ConnectionRefusedReason.NotAuthorized => NotAuthorized
  | ConnectionRefusedReason.ServerUnavailable => ServerUnavailable
  | ConnectionRefusedReason.ServerBusy => ServerBusy
  | ConnectionRefusedReason.Banned => Banned
  | ConnectionRefusedReason.BadAuthenticationMethod => BadAuthenticationMethod
  | ConnectionRefusedReason.TopicNameInvalid => TopicNameInvalid
  | ConnectionRefusedReason.PacketTooLarge => PacketTooLarge
  | ConnectionRefusedReason.QuotaExceeded => QuotaExceeded
  | ConnectionRefusedReason.PayloadFormatInvalid => PayloadFormatInvalid
  | ConnectionRefusedReason.RetainNotSupported => RetainNotSupported
  | ConnectionRefusedReason.QoSNotSupported => QoSNotSupported
  | ConnectionRefusedReason.UseAnotherServer => UseAnotherServer
  | ConnectionRefusedReason.ServerMoved => ServerMoved
  | ConnectionRefusedReason.ConnectionRateExceeded => ConnectionRateExceeded
  end.
End ConnAckReason.

(** [packet::PubAckReason]. *)
Module PubAckReason.
Inductive t : Set :=
  | Success
  | NoMatchingSubscribers
  | UnspecifiedError
  | ImplementationSpecificError
  | NotAuthorized
  | TopicNameInvalid
  | PacketIdentifierInUse
  | QuotaExceeded
  | PayloadFormatInvalid.

(** The discriminants. *)
Definition code (value : t) : u8 :=
  match value with
  | Success => 0x00
  | NoMatchingSubscribers => 0x10
  | UnspecifiedError => 0x80
  | ImplementationSpecificError => 0x83
  | NotAuthorized => 0x87
  | TopicNameInvalid => 0x90
  | PacketIdentifierInUse => 0x91
  | QuotaExceeded => 0x97
  | PayloadFormatInvalid => 0x99
  end.

(** [derive(Debug)]. *)
Definition debug (value : t) : string :=
  match value with
  | Success => "Success"
  | NoMatchingSubscribers => "NoMatchingSubscribers"
  | UnspecifiedError => "UnspecifiedError"
  | ImplementationSpecificError => "ImplementationSpecificError"
  | NotAuthorized => "NotAuthorized"
  | TopicNameInvalid => "TopicNameInvalid"
  | PacketIdentifierInUse => "PacketIdentifierInUse"
  | QuotaExceeded => "QuotaExceeded"
  | PayloadFormatInvalid => "PayloadFormatInvalid"
  end.

Definition from (value : PubAckReasonCode.t) : t :=
  match value with
  | PubAckReasonCode.Success => Success
  | PubAckReasonCode.NoMatchingSubscribers => NoMatchingSubscribers
  | PubAckReasonCode.UnspecifiedError => UnspecifiedError
  | PubAckReasonCode.ImplementationSpecificError => ImplementationSpecificError
  | PubAckReasonCode.NotAuthorized => NotAuthorized
  | PubAckReasonCode.TopicNameInvalid => TopicNameInvalid
  | PubAckReasonCode.PacketIdentifierInUse => PacketIdentifierInUse
  | PubAckReasonCode.QuotaExceeded => QuotaExceeded
  | PubAckReasonCode.PayloadFormatInvalid => PayloadFormatInvalid
  end.

Definition into (value : t) : PubAckReasonCode.t :=
  match value with
  | Success => PubAckReasonCode.Success
  | NoMatchingSubscribers => PubAckReasonCode.NoMatchingSubscribers
  | UnspecifiedError => PubAckReasonCode.UnspecifiedError
  | ImplementationSpecificError => PubAckReasonCode.ImplementationSpecificError
  | NotAuthorized => PubAckReasonCode.NotAuthorized
  | TopicNameInvalid => PubAckReasonCode.TopicNameInvalid
  | PacketIdentifierInUse => PubAckReasonCode.PacketIdentifierInUse
  | QuotaExceeded => PubAckReasonCode.QuotaExceeded
  | PayloadFormatInvalid => PubAckReasonCode.PayloadFormatInvalid
  end.
End PubAckReason.

(** [packet::PubRecReason]. *)
Module PubRecReason.
Inductive t : Set :=
  | Success
  | NoMatchingSubscribers
  | UnspecifiedError
  | ImplementationSpecificError
  | NotAuthorized
  | TopicNameInvalid
  | PacketIdentifierInUse
  | QuotaExceeded
  | PayloadFormatInvalid.

(** The discriminants. *)
Definition code (value : t) : u8 :=
  match value with
  | Success => 0x00
  | NoMatchingSubscribers => 0x10
  | UnspecifiedError => 0x80
  | ImplementationSpecificError => 0x83
  | NotAuthorized => 0x87
  | TopicNameInvalid => 0x90
  | PacketIdentifierInUse => 0x91
  | QuotaExceeded => 0x97
  | PayloadFormatInvalid => 0x99
  end.

(** [derive(Debug)]. *)
Definition debug (value : t) : string :=
  match value with
  | Success => "Success"
  | NoMatchingSubscribers => "NoMatchingSubscribers"
  | UnspecifiedError => "UnspecifiedError"
  | ImplementationSpecificError => "ImplementationSpecificError"
  | NotAuthorized => "NotAuthorized"
  | TopicNameInvalid => "TopicNameInvalid"
  | PacketIdentifierInUse => "PacketIdentifierInUse"
  | QuotaExceeded => "QuotaExceeded"
  | PayloadFormatInvalid => "PayloadFormatInvalid"
  end.

Definition from (value : PubRecReasonCode.t) : t :=
  match value with
  | PubRecReasonCode.Success => Success
  | PubRecReasonCode.NoMatchingSubscribers => NoMatchingSubscribers
  | PubRecReasonCode.UnspecifiedError => UnspecifiedError
  | PubRecReasonCode.ImplementationSpecificError => ImplementationSpecificError
  | PubRecReasonCode.NotAuthorized => NotAuthorized
  | PubRecReasonCode.TopicNameInvalid => TopicNameInvalid
  | PubRecReasonCode.PacketIdentifierInUse => PacketIdentifierInUse
  | PubRecReasonCode.QuotaExceeded => QuotaExceeded
  | PubRecReasonCode.PayloadFormatInvalid => PayloadFormatInvalid
  end.

Definition into (value : t) : PubRecReasonCode.t :=
  match value with
  | Success => PubRecReasonCode.Success
  | NoMatchingSubscribers => PubRecReasonCode.NoMatchingSubscribers
  | UnspecifiedError => PubRecReasonCode.UnspecifiedError
  | ImplementationSpecificError => PubRecReasonCode.ImplementationSpecificError
  | NotAuthorized => PubRecReasonCode.NotAuthorized
  | TopicNameInvalid => PubRecReasonCode.TopicNameInvalid
  | PacketIdentifierInUse => PubRecReasonCode.PacketIdentifierInUse
  | QuotaExceeded => PubRecReasonCode.QuotaExceeded
  | PayloadFormatInvalid => PubRecReasonCode.PayloadFormatInvalid
  end.
End PubRecReason.

(** [packet::PubRejectReason]. *)
Module PubRejectReason.
Inductive t : Set :=
  | UnspecifiedError
  | ImplementationSpecificError
  | NotAuthorized
  | TopicNameInvalid
  | PacketIdentifierInUse
  | QuotaExceeded
  | PayloadFormatInvalid.

(** The discriminants. *)
Definition code (value : t) : u8 :=
  match value with
  | UnspecifiedError => 0x80
  | ImplementationSpecificError => 0x83
  | NotAuthorized => 0x87
  | TopicNameInvalid => 0x90
  | PacketIdentifierInUse => 0x91
  | QuotaExceeded => 0x97
  | PayloadFormatInvalid => 0x99
  end.

Definition into_PubAckReason (value : t) : PubAckReason.t :=
  match value with
  | UnspecifiedError => PubAckReason.UnspecifiedError
  | ImplementationSpecificError => PubAckReason.ImplementationSpecificError
  | NotAuthorized => PubAckReason.NotAuthorized
  | TopicNameInvalid => PubAckReason.TopicNameInvalid
  | PacketIdentifierInUse => PubAckReason.PacketIdentifierInUse
  | QuotaExceeded => PubAckReason.QuotaExceeded
  | PayloadFormatInvalid => PubAckReason.PayloadFormatInvalid
  end.

Definition into_PubAckReasonCode (value : t) : PubAckReasonCode.t :=
  match value with
  | UnspecifiedError => PubAckReasonCode.UnspecifiedError
  | ImplementationSpecificError => PubAckReasonCode.ImplementationSpecificError
  | NotAuthorized => PubAckReasonCode.NotAuthorized
  | TopicNameInvalid => PubAckReasonCode.TopicNameInvalid
  | PacketIdentifierInUse => PubAckReasonCode.PacketIdentifierInUse
  | QuotaExceeded => PubAckReasonCode.QuotaExceeded
  | PayloadFormatInvalid => PubAckReasonCode.PayloadFormatInvalid
  end.

Definition into_PubRecReason (value : t) : PubRecReason.t :=
  match value with
  | UnspecifiedError => PubRecReason.UnspecifiedError
  | ImplementationSpecificError => PubRecReason.ImplementationSpecificError
  | NotAuthorized => PubRecReason.NotAuthorized
  | TopicNameInvalid => PubRecReason.TopicNameInvalid
  | PacketIdentifierInUse => PubRecReason.PacketIdentifierInUse
  | QuotaExceeded => PubRecReason.QuotaExceeded
  | PayloadFormatInvalid => PubRecReason.PayloadFormatInvalid
  end.

Definition into_PubRecReasonCode (value : t) : PubRecReasonCode.t :=
  match value with
  | UnspecifiedError => PubRecReasonCode.UnspecifiedError
  | ImplementationSpecificError => PubRecReasonCode.ImplementationSpecificError
  | NotAuthorized => PubRecReasonCode.NotAuthorized
  | TopicNameInvalid => PubRecReasonCode.TopicNameInvalid
  | PacketIdentifierInUse => PubRecReasonCode.PacketIdentifierInUse
  | QuotaExceeded => PubRecReasonCode.QuotaExceeded
  | PayloadFormatInvalid => PubRecReasonCode.PayloadFormatInvalid
  end.
End PubRejectReason.

(** [packet::PubRelReason]. *)
Module PubRelReason.
Inductive t : Set :=
  | Success
  | PacketIdentifierNotFound.

(** The discriminants. *)
Definition code (value : t) : u8 :=
  match value with
  | Success => 0x00
  | PacketIdentifierNotFound => 0x92
  end.

Definition from (value : PubRelReasonCode.t) : t :=
  match value with
  | PubRelReasonCode.Success => Success
  | PubRelReasonCode.PacketIdentifierNotFound => PacketIdentifierNotFound
  end.

Definition into (value : t) : PubRelReasonCode.t :=
  match value with
  | Success => PubRelReasonCode.Success
  | PacketIdentifierNotFound => PubRelReasonCode.PacketIdentifierNotFound
  end.
End PubRelReason.

(** [packet::PubCompReason]. *)
Module PubCompReason.
Inductive t : Set :=
  | Success
  | PacketIdentifierNotFound.

(** The discriminants. *)
Definition code (value : t) : u8 :=
  match value with
  | Success => 0x00
  | PacketIdentifierNotFound => 0x92
  end.

Definition from (value : PubCompReasonCode.t) : t :=
  match value with
  | PubCompReasonCode.Success => Success
  | PubCompReasonCode.PacketIdentifierNotFound => PacketIdentifierNotFound
  end.

Definition into (value : t) : PubCompReasonCode.t :=
  match value with
  | Success => PubCompReasonCode.Success
  | PacketIdentifierNotFound => PubCompReasonCode.PacketIdentifierNotFound
  end.
End PubCompReason.

(** [packet::SubAckReason]. *)
Module SubAckReason.
Inductive t : Set :=
  | GrantedQoS0
  | GrantedQoS1
  | GrantedQoS2
  | UnspecifiedError
  | ImplementationSpecificError
  | NotAuthorized
  | TopicFilterInvalid
  | PacketIdentifierInUse
  | QuotaExceeded
  | SharedSubscriptionsNotSupported
  | SubscriptionIdentifiersNotSupported
  | WildcardSubscriptionsNotSupported.

(** The discriminants. *)
Definition code (value : t) : u8 :=
  match value with
  | GrantedQoS0 => 0x00
  | GrantedQoS1 => 0x01
  | GrantedQoS2 => 0x02
  | UnspecifiedError => 0x80
  | ImplementationSpecificError => 0x83
  | NotAuthorized => 0x87
  | TopicFilterInvalid => 0x8f
  | PacketIdentifierInUse => 0x91
  | QuotaExceeded => 0x97
  | SharedSubscriptionsNotSupported => 0x9a
  | SubscriptionIdentifiersNotSupported => 0xa1
  | WildcardSubscriptionsNotSupported => 0xa2
  end.

(** [derive(Debug)]. *)
Definition debug (value : t) : string :=
  match value with
  | GrantedQoS0 => "GrantedQoS0"
  | GrantedQoS1 => "GrantedQoS1"
  | GrantedQoS2 => "GrantedQoS2"
  | UnspecifiedError => "UnspecifiedError"
  | ImplementationSpecificError => "ImplementationSpecificError"
  | NotAuthorized => "NotAuthorized"
  | TopicFilterInvalid => "TopicFilterInvalid"
  | PacketIdentifierInUse => "PacketIdentifierInUse"
  | QuotaExceeded => "QuotaExceeded"
  | SharedSubscriptionsNotSupported => "SharedSubscriptionsNotSupported"
  | SubscriptionIdentifiersNotSupported => "SubscriptionIdentifiersNotSupported"
  | WildcardSubscriptionsNotSupported => "WildcardSubscriptionsNotSupported"
  end.

Definition from (value : SubscribeReasonCode.t) : t :=
  match value with
  | SubscribeReasonCode.GrantedQoS0 => GrantedQoS0
  | SubscribeReasonCode.GrantedQoS1 => GrantedQoS1
  | SubscribeReasonCode.GrantedQoS2 => GrantedQoS2
  | SubscribeReasonCode.UnspecifiedError => UnspecifiedError
  | SubscribeReasonCode.ImplementationSpecificError => ImplementationSpecificError
  | SubscribeReasonCode.NotAuthorized => NotAuthorized
  | SubscribeReasonCode.TopicFilterInvalid => TopicFilterInvalid
  | SubscribeReasonCode.PacketIdentifierInUse => PacketIdentifierInUse
  | SubscribeReasonCode.QuotaExceeded => QuotaExceeded
  | SubscribeReasonCode.SharedSubscriptionsNotSupported => SharedSubscriptionsNotSupported
  | SubscribeReasonCode.SubscriptionIdentifiersNotSupported => SubscriptionIdentifiersNotSupported
  | SubscribeReasonCode.WildcardSubscriptionsNotSupported => WildcardSubscriptionsNotSupported
  end.

Definition into (value : t) : SubscribeReasonCode.t :=
  match value with
  | GrantedQoS0 => SubscribeReasonCode.GrantedQoS0
  | GrantedQoS1 => SubscribeReasonCode.GrantedQoS1
  | GrantedQoS2 => SubscribeReasonCode.GrantedQoS2
  | UnspecifiedError => SubscribeReasonCode.UnspecifiedError
  | ImplementationSpecificError => SubscribeReasonCode.ImplementationSpecificError
  | NotAuthorized => SubscribeReasonCode.NotAuthorized
  | TopicFilterInvalid => SubscribeReasonCode.TopicFilterInvalid
  | PacketIdentifierInUse => SubscribeReasonCode.PacketIdentifierInUse
  | QuotaExceeded => SubscribeReasonCode.QuotaExceeded
  | SharedSubscriptionsNotSupported => SubscribeReasonCode.SharedSubscriptionsNotSupported
  | SubscriptionIdentifiersNotSupported => SubscribeReasonCode.SubscriptionIdentifiersNotSupported
  | WildcardSubscriptionsNotSupported => SubscribeReasonCode.WildcardSubscriptionsNotSupported
  end.
End SubAckReason.

(** [packet::UnsubAckReason]. *)
Module UnsubAckReason.
Inductive t : Set :=
  | Success
  | NoSubscriptionExisted
  | UnspecifiedError
  | ImplementationSpecificError
  | NotAuthorized
  | TopicFilterInvalid
  | PacketIdentifierInUse.

(** The discriminants. *)
Definition code (value : t) : u8 :=
  match value with
  | Success => 0x00
  | NoSubscriptionExisted => 0x11
  | UnspecifiedError => 0x80
  | ImplementationSpecificError => 0x83
  | NotAuthorized => 0x87
  | TopicFilterInvalid => 0x8f
  | PacketIdentifierInUse => 0x91
  end.

(** [derive(Debug)]. *)
Definition debug (value : t) : string :=
  match value with
  | Success => "Success"
  | NoSubscriptionExisted => "NoSubscriptionExisted"
  | UnspecifiedError => "UnspecifiedError"
  | ImplementationSpecificError => "ImplementationSpecificError"
  | NotAuthorized => "NotAuthorized"
  | TopicFilterInvalid => "TopicFilterInvalid"
  | PacketIdentifierInUse => "PacketIdentifierInUse"
  end.

Definition from (value : UnsubAckReasonCode.t) : t :=
  match value with
  | UnsubAckReasonCode.Success => Success
  | UnsubAckReasonCode.NoSubscriptionExisted => NoSubscriptionExisted
  | UnsubAckReasonCode.UnspecifiedError => UnspecifiedError
  | UnsubAckReasonCode.ImplementationSpecificError => ImplementationSpecificError
  | UnsubAckReasonCode.NotAuthorized => NotAuthorized
  | UnsubAckReasonCode.TopicFilterInvalid => TopicFilterInvalid
  | UnsubAckReasonCode.PacketIdentifierInUse => PacketIdentifierInUse
  end.

Definition into (value : t) : UnsubAckReasonCode.t :=
  match value with
  | Success => UnsubAckReasonCode.Success
  | NoSubscriptionExisted => UnsubAckReasonCode.NoSubscriptionExisted
  | UnspecifiedError => UnsubAckReasonCode.UnspecifiedError
  | ImplementationSpecificError => UnsubAckReasonCode.ImplementationSpecificError
  | NotAuthorized => UnsubAckReasonCode.NotAuthorized
  | TopicFilterInvalid => UnsubAckReasonCode.TopicFilterInvalid
  | PacketIdentifierInUse => UnsubAckReasonCode.PacketIdentifierInUse
  end.
End UnsubAckReason.

(** [packet::DisconnectReason]. *)
Module DisconnectReason.
Inductive t : Set :=
  | NormalDisconnection
  | DisconnectWithWillMessage
  | UnspecifiedError
  | MalformedPacket
  | ProtocolError
  | ImplementationSpecificError
  | NotAuthorized
  | ServerBusy
  | ServerShuttingDown
  | KeepAliveTimeout
  | SessionTakenOver
  | TopicFilterInvalid
  | TopicNameInvalid
  | ReceiveMaximumExceeded
  | TopicAliasInvalid
  | PacketTooLarge
  | MessageRateTooHigh
  | QuotaExceeded
  | AdministrativeAction
  | PayloadFormatInvalid
  | RetainNotSupported
  | QoSNotSupported
  | UseAnotherServer
  | ServerMoved
  | SharedSubscriptionsNotSupported
  | ConnectionRateExceeded
  | MaximumConnectTime
  | SubscriptionIdentifiersNotSupported
  | WildcardSubscriptionsNotSupported.

(** The discriminants. *)
Definition code (value : t) : u8 :=
  match value with
  | NormalDisconnection => 0x00
  | DisconnectWithWillMessage => 0x04
  | UnspecifiedError => 0x80
  | MalformedPacket => 0x81
  | ProtocolError => 0x82
  | ImplementationSpecificError => 0x83
  | NotAuthorized => 0x87
  | ServerBusy => 0x89
  | ServerShuttingDown => 0x8b
  | KeepAliveTimeout => 0x8d
  | SessionTakenOver => 0x8e
  | TopicFilterInvalid => 0x8f
  | TopicNameInvalid => 0x90
  | ReceiveMaximumExceeded => 0x93
  | TopicAliasInvalid => 0x94
  | PacketTooLarge => 0x95
  | MessageRateTooHigh => 0x96
  | QuotaExceeded => 0x97
  | AdministrativeAction => 0x98
  | PayloadFormatInvalid => 0x99
  | RetainNotSupported => 0x9a
  | QoSNotSupported => 0x9b
  | UseAnotherServer => 0x9c
  | ServerMoved => 0x9d
  | SharedSubscriptionsNotSupported => 0x9e
  | ConnectionRateExceeded => 0x9f
  | MaximumConnectTime => 0xa0
  | SubscriptionIdentifiersNotSupported => 0xa1
  | WildcardSubscriptionsNotSupported => 0xa2
  end.

Definition from (value : DisconnectReasonCode.t) : t :=
  match value with
  | DisconnectReasonCode.Normal => NormalDisconnection
  | DisconnectReasonCode.DisconnectWithWillMessage => DisconnectWithWillMessage
  | DisconnectReasonCode.UnspecifiedError => UnspecifiedError
  | DisconnectReasonCode.MalformedPacket => MalformedPacket
  | DisconnectReasonCode.ProtocolError => ProtocolError
  | DisconnectReasonCode.ImplementationSpecificError => ImplementationSpecificError
  | DisconnectReasonCode.NotAuthorized => NotAuthorized
  | DisconnectReasonCode.ServerBusy => ServerBusy
  | DisconnectReasonCode.ServerShuttingDown => ServerShuttingDown
  | DisconnectReasonCode.KeepAliveTimeout => KeepAliveTimeout
  | DisconnectReasonCode.SessionTakenOver => SessionTakenOver
  | DisconnectReasonCode.TopicFilterInvalid => TopicFilterInvalid
  | DisconnectReasonCode.TopicNameInvalid => TopicNameInvalid
  | DisconnectReasonCode.ReceiveMaximumExceeded => ReceiveMaximumExceeded
  | DisconnectReasonCode.TopicAliasInvalid => TopicAliasInvalid
  | DisconnectReasonCode.PacketTooLarge => PacketTooLarge
  | DisconnectReasonCode.MessageRateTooHigh => MessageRateTooHigh
  | DisconnectReasonCode.QuotaExceeded => QuotaExceeded
  | DisconnectReasonCode.AdministrativeAction => AdministrativeAction
  | DisconnectReasonCode.PayloadFormatInvalid => PayloadFormatInvalid
  | DisconnectReasonCode.RetainNotSupported => RetainNotSupported
  | DisconnectReasonCode.QosNotSupported => QoSNotSupported
  | DisconnectReasonCode.UseAnotherServer => UseAnotherServer
  | DisconnectReasonCode.ServerMoved => ServerMoved
  | DisconnectReasonCode.SharedSubscriptionsNotSupported => SharedSubscriptionsNotSupported
  | DisconnectReasonCode.ConnectionRateExceeded => ConnectionRateExceeded
  | DisconnectReasonCode.MaximumConnectTime => MaximumConnectTime
  | DisconnectReasonCode.SubscriptionIdentifiersNotSupported => SubscriptionIdentifiersNotSupported
  | DisconnectReasonCode.WildcardSubscriptionsNotSupported => WildcardSubscriptionsNotSupported
  end.

Definition into (value : t) : DisconnectReasonCode.t :=
  match value with
  | NormalDisconnection => DisconnectReasonCode.Normal
  | DisconnectWithWillMessage => DisconnectReasonCode.DisconnectWithWillMessage
  | UnspecifiedError => DisconnectReasonCode.UnspecifiedError
  | MalformedPacket => DisconnectReasonCode.MalformedPacket
  | ProtocolError => DisconnectReasonCode.ProtocolError
  | ImplementationSpecificError => DisconnectReasonCode.ImplementationSpecificError
  | NotAuthorized => DisconnectReasonCode.NotAuthorized
  | ServerBusy => DisconnectReasonCode.ServerBusy
  | ServerShuttingDown => DisconnectReasonCode.ServerShuttingDown
  | KeepAliveTimeout => DisconnectReasonCode.KeepAliveTimeout
  | SessionTakenOver => DisconnectReasonCode.SessionTakenOver
  | TopicFilterInvalid => DisconnectReasonCode.TopicFilterInvalid
  | TopicNameInvalid => DisconnectReasonCode.TopicNameInvalid
  | ReceiveMaximumExceeded => DisconnectReasonCode.ReceiveMaximumExceeded
  | TopicAliasInvalid => DisconnectReasonCode.TopicAliasInvalid
  | PacketTooLarge => DisconnectReasonCode.PacketTooLarge
  | MessageRateTooHigh => DisconnectReasonCode.MessageRateTooHigh
  | QuotaExceeded => DisconnectReasonCode.QuotaExceeded
  | AdministrativeAction => DisconnectReasonCode.AdministrativeAction
  | PayloadFormatInvalid => DisconnectReasonCode.PayloadFormatInvalid
  | RetainNotSupported => DisconnectReasonCode.RetainNotSupported
  | QoSNotSupported => DisconnectReasonCode.QosNotSupported
  | UseAnotherServer => DisconnectReasonCode.UseAnotherServer
  | ServerMoved => DisconnectReasonCode.ServerMoved
  | SharedSubscriptionsNotSupported => DisconnectReasonCode.SharedSubscriptionsNotSupported
  | ConnectionRateExceeded => DisconnectReasonCode.ConnectionRateExceeded
  | MaximumConnectTime => DisconnectReasonCode.MaximumConnectTime
  | SubscriptionIdentifiersNotSupported => DisconnectReasonCode.SubscriptionIdentifiersNotSupported
  | WildcardSubscriptionsNotSupported => DisconnectReasonCode.WildcardSubscriptionsNotSupported
  end.
End DisconnectReason.

(** [packet::AuthReason]. *)
Module AuthReason.
Inductive t : Set :=
  | Success
  | ContinueAuthentication
  | Reauthenticate.

(** The discriminants. *)
Definition code (value : t) : u8 :=
  match value with
  | Success => 0x00
  | ContinueAuthentication => 0x18
  | Reauthenticate => 0x19
  end.

Definition from (value : AuthenticateReasonCode.t) : t :=
  match value with
  | AuthenticateReasonCode.Success => Success
  | AuthenticateReasonCode.ContinueAuthentication => ContinueAuthentication
  | AuthenticateReasonCode.ReAuthenticate => Reauthenticate
  end.

Definition into (value : t) : AuthenticateReasonCode.t :=
  match value with
  | Success => AuthenticateReasonCode.Success
  | ContinueAuthentication => AuthenticateReasonCode.ContinueAuthentication
  | Reauthenticate => AuthenticateReasonCode.ReAuthenticate
  end.
End AuthReason.

(** ** The conversions are inverse to each other *)

Class Inverse {U P : Type} (into : U -> P) (from : P -> U) : Prop := {
  from_into : forall u, from (into u) = u;
  into_from : forall p, into (from p) = p;
}.

Ltac inverse_enum := split; intros []; reflexivity.

#[export] Instance QoS_inverse : Inverse packet_QoS.into packet_QoS.from.
Proof. inverse_enum. Qed.
#[export] Instance PubAckReason_inverse : Inverse PubAckReason.into PubAckReason.from.
Proof. inverse_enum. Qed.
#[export] Instance PubRecReason_inverse : Inverse PubRecReason.into PubRecReason.from.
Proof. inverse_enum. Qed.
#[export] Instance PubRelReason_inverse : Inverse PubRelReason.into PubRelReason.from.
Proof. inverse_enum. Qed.
#[export] Instance PubCompReason_inverse : Inverse PubCompReason.into PubCompReason.from.
Proof. inverse_enum. Qed.
#[export] Instance SubAckReason_inverse : Inverse SubAckReason.into SubAckReason.from.
Proof. inverse_enum. Qed.
#[export] Instance UnsubAckReason_inverse : Inverse UnsubAckReason.into UnsubAckReason.from.
Proof. inverse_enum. Qed.
#[export] Instance DisconnectReason_inverse : Inverse DisconnectReason.into DisconnectReason.from.
Proof. inverse_enum. Qed.
#[export] Instance AuthReason_inverse : Inverse AuthReason.into AuthReason.from.
Proof. inverse_enum. Qed.

(** ** Discriminants and the wire *)

(** A discriminant that is the byte of the code on the wire. *)
Definition wire_code {U P} `{U8Code P} (code : U -> u8) (into : U -> P) (u : U) : Prop :=
  code u = into_u8 (into u).

(** Every reason of a refusal comes from the codec. *)
Lemma ConnAckReason_from_surj r :
  match r with
  | ConnAckReason.Success => ConnAckReason.code r = 0x00
  | _ => exists c, r = ConnAckReason.from c
  end.
Proof.
  destruct r; [done|..];
    match goal with |- exists c, ?r = _ =>
      let c := eval vm_compute in (ConnectionRefusedReason.try_from (ConnAckReason.code r)) in
      match c with Ok ?c => by exists c end
    end.
Qed.

(** C36: the discriminants of the public enums are the bytes the codec writes for
    them, with one exception: [SubAckReason::SharedSubscriptionsNotSupported] is
    0x9A where the codec, like the MQTT specification, has 0x9E. A rejection
    reason has the discriminant of the PUBACK or PUBREC reason it stands for. For a
    CONNACK the codec has an enum of the refusals only; every other public reason comes from
    one of them, and [Success] is 0x00. *)
Theorem reason_codes_wire :
  (forall r, wire_code packet_QoS.code packet_QoS.into r) /\
  (forall r, match r with
     | ConnAckReason.Success => ConnAckReason.code r = 0x00
     | _ => exists c, r = ConnAckReason.from c
     end) /\
  (forall c, ConnAckReason.code (ConnAckReason.from c) = into_u8 c) /\
  (forall r, wire_code PubAckReason.code PubAckReason.into r) /\
  (forall r, wire_code PubRecReason.code PubRecReason.into r) /\
  (forall r, wire_code PubRelReason.code PubRelReason.into r) /\
  (forall r, wire_code PubCompReason.code PubCompReason.into r) /\
  (forall r, wire_code UnsubAckReason.code UnsubAckReason.into r) /\
  (forall r, wire_code DisconnectReason.code DisconnectReason.into r) /\
  (forall r, wire_code AuthReason.code AuthReason.into r) /\
  (forall r, wire_code SubAckReason.code SubAckReason.into r <->
     r <> SubAckReason.SharedSubscriptionsNotSupported) /\
  SubAckReason.code SubAckReason.SharedSubscriptionsNotSupported = 0x9a /\
  into_u8 SubscribeReasonCode.SharedSubscriptionsNotSupported = 0x9e /\
  (forall r, PubRejectReason.code r = PubAckReason.code (PubRejectReason.into_PubAckReason r) /\
     PubRejectReason.code r = into_u8 (PubRejectReason.into_PubAckReasonCode r) /\
     PubRejectReason.code r = PubRecReason.code (PubRejectReason.into_PubRecReason r) /\
     PubRejectReason.code r = into_u8 (PubRejectReason.into_PubRecReasonCode r) /\
     0x80 <= PubRejectReason.code r).
Proof.
  split; [by intros []|]. split; [exact ConnAckReason_from_surj|].
  repeat match goal with |- _ /\ _ => split end; try reflexivity; intros []; unfold wire_code; cbn;
    repeat split; try reflexivity; try discriminate; try lia; intros H; by destruct H || discriminate H.
Qed.
