(* ===== verification/Pkid.v ===== *)
(** * Packet identifiers

    [PkidRange] and [PkidPool] of client/session/pkid.rs: leasing identifiers in
    a round-robin over 1..=max and releasing them. *)

From S2P Require Export Codes.
From stdpp Require Import gmap fin_sets.
Local Open Scope Z_scope.

#[export] Instance PacketIdentifier_countable : Countable PacketIdentifier.
Proof.
  refine (inj_countable pkid_get (fun z => Some (mkPacketIdentifier z)) _). by intros [].
Defined.

(** [struct PkidRange]. *)
Record PkidRange : Set := mkPkidRange {
  pr_current : PacketIdentifier;
  pr_end : PacketIdentifier;
  pr_finished : bool;
}.

Definition PkidRange_new (start end_ : PacketIdentifier) : PkidRange := mkPkidRange start end_ false.

(** [impl Iterator for PkidRange]. *)
Definition PkidRange_next (r : PkidRange) : option PacketIdentifier * PkidRange :=
  if pr_finished r then (None, r)
  else
    let result := pr_current r in
    if decide (pr_current r = pr_end r) then
      (Some result, mkPkidRange (pr_current r) (pr_end r) true)
    else (Some result, mkPkidRange (PacketIdentifier_add (pr_current r) 1) (pr_end r) (pr_finished r)).

(** [std::iter::Cycle]: restarts from a clone of the original iterator. *)
Record Cycle : Set := mkCycle { cycle_orig : PkidRange; cycle_iter : PkidRange }.

Definition Cycle_next (c : Cycle) : option PacketIdentifier * Cycle :=
  match PkidRange_next (cycle_iter c) with
  | (None, _) =>
      let '(y, iter) := PkidRange_next (cycle_orig c) in (y, mkCycle (cycle_orig c) iter)
  | (Some y, iter) => (Some y, mkCycle (cycle_orig c) iter)
  end.

(** [struct PkidPool]. *)
Record PkidPool : Set := mkPkidPool {
  leased : gset PacketIdentifier;
  pool_cycle : Cycle;
  max_pkid : PacketIdentifier;
}.

Definition PkidPool_new (max_pkid : PacketIdentifier) : PkidPool :=
  let range := PkidRange_new (mkPacketIdentifier 1) max_pkid in
  mkPkidPool ∅ (mkCycle range range) max_pkid.

(** The [loop] of [lease_next_pkid]; [None] is out of fuel. *)
Fixpoint lease_loop (fuel : nat) (leased : gset PacketIdentifier) (cycle : Cycle) :
    option (outcome (PacketIdentifier * Cycle)) :=
  match fuel with
  | O => None
  | S fuel =>
      match Cycle_next cycle with
      | (None, _) => Some (Panics "Cycle is infinite and non-empty")
      | (Some pkid, cycle) =>
          if decide (pkid ∈ leased) then lease_loop fuel leased cycle
          else Some (Returns (pkid, cycle))
      end
  end.

(** [PkidPool::lease_next_pkid]. The loop never runs out of its fuel of
    [max_pkid] rounds ([lease_loop_finds]). *)
Definition lease_next_pkid (p : PkidPool) : option (outcome (option PacketIdentifier * PkidPool)) :=
  if Z.of_nat (size (leased p)) =? pkid_get (max_pkid p) then Some (Returns (None, p))
  else
    match lease_loop (Z.to_nat (pkid_get (max_pkid p))) (leased p) (pool_cycle p) with
    | None => None
    | Some (Panics m) => Some (Panics m)
    | Some (Returns (pkid, cycle)) =>
        Some (Returns (Some pkid, mkPkidPool ({[pkid]} ∪ leased p) cycle (max_pkid p)))
    end.

(** [PkidPool::release_pkid]. *)
Definition release_pkid (pkid : PacketIdentifier) (p : PkidPool) : bool * PkidPool :=
  (bool_decide (pkid ∈ leased p), mkPkidPool (leased p ∖ {[pkid]}) (pool_cycle p) (max_pkid p)).

(** ** Invariant *)

Definition in_range (max pkid : PacketIdentifier) : Prop := 1 <= pkid_get pkid <= pkid_get max.

Definition cycle_wf (max : PacketIdentifier) (c : Cycle) : Prop :=
  cycle_orig c = PkidRange_new (mkPacketIdentifier 1) max /\
  pr_end (cycle_iter c) = max /\ in_range max (pr_current (cycle_iter c)).

Definition pool_wf (p : PkidPool) : Prop :=
  pkid_wf (max_pkid p) /\ cycle_wf (max_pkid p) (pool_cycle p) /\
  forall pkid, pkid ∈ leased p -> in_range (max_pkid p) pkid.

(** The identifiers of the pool. *)
Definition all_pkids (max : PacketIdentifier) : gset PacketIdentifier :=
  list_to_set (map mkPacketIdentifier (seqZ 1 (pkid_get max))).

Lemma elem_of_all_pkids max pkid : pkid ∈ all_pkids max <-> in_range max pkid.
Proof.
  unfold all_pkids, in_range. rewrite elem_of_list_to_set, list_elem_of_fmap. split.
  - intros (z & -> & Hz%elem_of_seqZ). cbn. lia.
  - intros Hp. exists (pkid_get pkid). split; [by destruct pkid|]. apply elem_of_seqZ. lia.
Qed.

Lemma size_all_pkids max : 0 <= pkid_get max -> Z.of_nat (size (all_pkids max)) = pkid_get max.
Proof.
  intros H. unfold all_pkids. rewrite size_list_to_set.
  - rewrite length_map, length_seqZ. lia.
  - apply NoDup_fmap_2; [by intros ? ? [=]|]. apply NoDup_seqZ.
Qed.

(** The identifier the cycle yields next, and the one after [z]. *)
Definition next_value (c : Cycle) : Z :=
  if pr_finished (cycle_iter c) then 1 else pkid_get (pr_current (cycle_iter c)).
Definition succ_value (max : PacketIdentifier) (z : Z) : Z := if z =? pkid_get max then 1 else z + 1.

Lemma next_value_range max c :
  pkid_wf max -> cycle_wf max c -> 1 <= next_value c <= pkid_get max.
Proof.
  unfold pkid_wf, next_value, in_range. intros Hm (_ & _ & Hc). destruct (pr_finished _); [solve_range|exact Hc].
Qed.

Lemma PkidRange_next_spec max r :
  pkid_wf max -> pr_end r = max -> in_range max (pr_current r) -> pr_finished r = false ->
  exists r', PkidRange_next r = (Some (pr_current r), r') /\ pr_end r' = max /\
    in_range max (pr_current r') /\
    (if pr_finished r' then 1 else pkid_get (pr_current r')) = succ_value max (pkid_get (pr_current r)).
Proof.
  unfold pkid_wf, in_range, succ_value. intros Hm He Hr Hf. unfold PkidRange_next. rewrite Hf, He.
  destruct (decide (pr_current r = max)) as [Heq|Hne].
  - eexists. split; [done|]. cbn. rewrite Heq, Z.eqb_refl. by rewrite Heq in Hr.
  - eexists. split; [done|]. cbn [pr_end pr_current pr_finished].
    assert (pkid_get (pr_current r) <> pkid_get max).
    { intros E. apply Hne. destruct (pr_current r), max. cbn in E. congruence. }
    destruct (_ =? _) eqn:E; bool_to_prop; [lia|].
    assert (Ha : pkid_get (PacketIdentifier_add (pr_current r) 1) = pkid_get (pr_current r) + 1).
    { unfold PacketIdentifier_add, PacketIdentifier_new. rewrite Z.mod_small by solve_range.
      destruct (_ =? 0) eqn:E0; bool_to_prop; [lia|done]. }
    rewrite Ha. split; [done|]. split; [lia|done].
Qed.

Lemma Cycle_next_spec max c :
  pkid_wf max -> cycle_wf max c ->
  exists c', Cycle_next c = (Some (mkPacketIdentifier (next_value c)), c') /\
    cycle_wf max c' /\ next_value c' = succ_value max (next_value c).
Proof.
  intros Hm (Ho & He & Hr). unfold Cycle_next, next_value.
  destruct (pr_finished (cycle_iter c)) eqn:Ef.
  - unfold PkidRange_next at 1. rewrite Ef, Ho.
    destruct (PkidRange_next_spec max (PkidRange_new (mkPacketIdentifier 1) max)) as (r' & -> & ? & ? & Hn);
      [done|done|unfold pkid_wf, in_range in *; cbn; solve_range|done|].
    eexists. split; [reflexivity|]. unfold cycle_wf. cbn. auto.
  - destruct (PkidRange_next_spec max (cycle_iter c) Hm He Hr Ef) as (r' & -> & ? & ? & Hn).
    eexists. split; [by destruct (pr_current (cycle_iter c))|]. unfold cycle_wf. cbn. auto.
Qed.

(** The values the cycle yields in [n] rounds. *)
Fixpoint values (max : PacketIdentifier) (n : nat) (z : Z) : list Z :=
  match n with O => [] | S n => z :: values max n (succ_value max z) end.

Lemma lease_loop_finds max n leased c :
  pkid_wf max -> cycle_wf max c ->
  match lease_loop n leased c with
  | None => forall z, z ∈ values max n (next_value c) -> mkPacketIdentifier z ∈ leased
  | Some (Panics _) => False
  | Some (Returns (pkid, c')) => (pkid ∉ leased) /\ in_range max pkid /\ cycle_wf max c' /\
      next_value c' = succ_value max (pkid_get pkid) /\
      exists before, (length before < n)%nat /\
        values max (S (length before)) (next_value c) = before ++ [pkid_get pkid] /\
        Forall (fun z => mkPacketIdentifier z ∈ leased) before
  end.
Proof.
  intros Hm. revert c; induction n as [|n IH]; intros c Hc; cbn [lease_loop values].
  { intros z Hz. by apply elem_of_nil in Hz. }
  pose proof (next_value_range max c Hm Hc) as Hr.
  destruct (Cycle_next_spec max c Hm Hc) as (c' & -> & Hc' & Hn). specialize (IH c' Hc'). rewrite Hn in IH.
  destruct (decide (mkPacketIdentifier (next_value c) ∈ leased)) as [Hin|Hout].
  - destruct (lease_loop n leased c') as [[[pkid c'']|m]|]; [|done|].
    + destruct IH as (? & ? & ? & ? & before & Hl & Hv & Hb). split_and!; try done.
      exists (next_value c :: before). cbn [length]. split; [lia|]. split; [|by constructor].
      cbn [values] in Hv |- *. cbn. by rewrite Hv.
    + intros z [->|Hz]%elem_of_cons; auto.
  - split_and!; try done. exists []. cbn. split_and!; try done. lia.
Qed.

(** A whole round visits every identifier. *)
Lemma values_ascending max n z :
  z + Z.of_nat n - 1 <= pkid_get max -> values max n z = seqZ z (Z.of_nat n).
Proof.
  revert z; induction n as [|n IH]; intros z Hz; [done|]. cbn [values].
  rewrite seqZ_cons by lia. f_equal. destruct n as [|n]; [done|].
  unfold succ_value. destruct (z =? pkid_get max) eqn:E; bool_to_prop; [lia|].
  rewrite IH by lia. f_equal; lia.
Qed.

Lemma values_wrap max n z :
  1 <= z -> pkid_get max - z + 1 = Z.of_nat n -> forall m,
  values max (n + m) z = seqZ z (Z.of_nat n) ++ values max m (if decide (n = 0%nat) then z else 1).
Proof.
  revert z; induction n as [|n IH]; intros z Hz Hn m; [done|]. cbn [Nat.add values].
  rewrite seqZ_cons by lia. cbn [app]. f_equal. unfold succ_value.
  destruct (z =? pkid_get max) eqn:E; bool_to_prop.
  - replace n with 0%nat by lia. done.
  - rewrite IH by lia. f_equal; [f_equal; lia|]. f_equal.
    destruct (decide (n = 0%nat)); [lia|done].
Qed.

Lemma values_complete max z pkid :
  1 <= z <= pkid_get max -> in_range max pkid ->
  pkid_get pkid ∈ values max (Z.to_nat (pkid_get max)) z.
Proof.
  unfold in_range. intros Hz Hp.
  replace (Z.to_nat (pkid_get max)) with
    (Z.to_nat (pkid_get max - z + 1) + Z.to_nat (z - 1))%nat by lia.
  rewrite values_wrap by lia. apply elem_of_app. rewrite elem_of_seqZ.
  destruct (Z.le_gt_cases z (pkid_get pkid)); [left; lia|right].
  destruct (decide _); [lia|]. rewrite values_ascending by lia. apply elem_of_seqZ. lia.
Qed.

(** [None] is returned exactly when every identifier is leased. *)
Lemma full_iff p :
  pool_wf p ->
  Z.of_nat (size (leased p)) = pkid_get (max_pkid p) <->
  forall pkid, in_range (max_pkid p) pkid -> pkid ∈ leased p.
Proof.
  intros (Hm & _ & Hl). pose proof (size_all_pkids (max_pkid p)) as Hs.
  unfold pkid_wf in Hm. specialize (Hs ltac:(solve_range)).
  assert (Hsub : leased p ⊆ all_pkids (max_pkid p)).
  { intros x Hx. by apply elem_of_all_pkids, Hl. }
  split.
  - intros E pkid Hp. apply elem_of_all_pkids in Hp.
    assert (all_pkids (max_pkid p) = leased p) as <-; [|done]. symmetry.
    apply leibniz_equiv, set_subseteq_size_equiv; [done|lia].
  - intros Hall. assert (leased p = all_pkids (max_pkid p)) as ->; [|done].
    apply set_eq. intros x. rewrite elem_of_all_pkids. split; auto.
Qed.

(** What [lease_next_pkid] does: the first identifier that is not leased, in
    round-robin order. *)
Lemma lease_spec p :
  pool_wf p ->
  exists r p', lease_next_pkid p = Some (Returns (r, p')) /\ pool_wf p' /\ max_pkid p' = max_pkid p /\
    match r with
    | None => p' = p /\ forall pkid, in_range (max_pkid p) pkid -> pkid ∈ leased p
    | Some pkid => (pkid ∉ leased p) /\ in_range (max_pkid p) pkid /\ leased p' = {[pkid]} ∪ leased p /\
        next_value (pool_cycle p') = succ_value (max_pkid p) (pkid_get pkid) /\
        exists before, values (max_pkid p) (S (length before)) (next_value (pool_cycle p))
            = before ++ [pkid_get pkid] /\
          Forall (fun z => mkPacketIdentifier z ∈ leased p) before
    end.
Proof.
  intros Hwf. pose proof (full_iff p Hwf) as Hfull. destruct Hwf as (Hm & Hc & Hl).
  unfold lease_next_pkid. destruct (_ =? _) eqn:E; bool_to_prop.
  { do 2 eexists. split; [done|]. split; [done|]. split; [done|]. split; [done|]. by apply Hfull. }
  pose proof (lease_loop_finds (max_pkid p) (Z.to_nat (pkid_get (max_pkid p))) (leased p) _ Hm Hc) as H.
  destruct (lease_loop _ _ _) as [[[pkid c']|m]|]; [|done|].
  - destruct H as (Hn & Hr & Hc' & Hs & before & _ & Hv & Hb). do 2 eexists. split; [done|].
    split; [|split; [done|]; split_and!; eauto]. split; [done|]. split; [done|]. cbn.
    intros q Hq. apply elem_of_union in Hq as [Hq|Hq]; [|auto]. by apply elem_of_singleton in Hq as ->.
  - exfalso. apply E, Hfull. intros pkid Hp.
    destruct pkid as [z]. apply H. apply (values_complete _ _ (mkPacketIdentifier z)); [|done].
    by apply next_value_range.
Qed.

Lemma pool_wf_new max : pkid_wf max -> pool_wf (PkidPool_new max).
Proof.
  intros Hm. split; [done|]. split; [|set_solver]. split; [done|]. split; [done|].
  unfold in_range; cbn. unfold pkid_wf in Hm. solve_range.
Qed.

Lemma pool_wf_release pkid p : pool_wf p -> pool_wf (snd (release_pkid pkid p)).
Proof.
  intros (? & ? & Hl). split; [done|]. split; [done|]. cbn.
  intros q Hq. apply Hl. by apply elem_of_difference in Hq as [? _].
Qed.

(** ** Properties *)

(** C29: [lease_next_pkid] terminates without a panic on every pool that leasing
    and releasing can produce. It yields the first identifier, in round-robin
    order over 1..=max from where the last call stopped, that is not leased; it marks
    it leased, and the next call starts after it. It yields [None], and changes
    nothing, exactly when all identifiers are leased. *)
Theorem lease_next_pkid_correct p :
  pool_wf p ->
  exists r p', lease_next_pkid p = Some (Returns (r, p')) /\ pool_wf p' /\ max_pkid p' = max_pkid p /\
    match r with
    | None => p' = p /\ forall pkid, in_range (max_pkid p) pkid -> pkid ∈ leased p
    | Some pkid => (pkid ∉ leased p) /\ in_range (max_pkid p) pkid /\ leased p' = {[pkid]} ∪ leased p /\
        next_value (pool_cycle p') = succ_value (max_pkid p) (pkid_get pkid) /\
        exists before, values (max_pkid p) (S (length before)) (next_value (pool_cycle p))
            = before ++ [pkid_get pkid] /\
          Forall (fun z => mkPacketIdentifier z ∈ leased p) before
    end.
Proof. apply lease_spec. Qed.

Definition small_pool : PkidPool :=
  mkPkidPool {[mkPacketIdentifier 3; mkPacketIdentifier 1]}
    (mkCycle (PkidRange_new (mkPacketIdentifier 1) (mkPacketIdentifier 3))
      (mkPkidRange (mkPacketIdentifier 3) (mkPacketIdentifier 3) false)) (mkPacketIdentifier 3).

Lemma small_pool_wf : pool_wf small_pool.
Proof.
  split; [unfold pkid_wf; cbn; solve_range|]. split; [by repeat split|].
  unfold in_range. cbn. intros pkid Hp. apply elem_of_union in Hp.
  destruct Hp as [Hp|Hp]; apply elem_of_singleton in Hp as ->; cbn; lia.
Qed.

Lemma lease_next_pkid_correct_witness :
  exists p', lease_next_pkid small_pool = Some (Returns (Some (mkPacketIdentifier 2), p')) /\
    pool_wf p' /\ (mkPacketIdentifier 2 ∉ leased small_pool) /\ next_value (pool_cycle p') = 3.
Proof.
  destruct (lease_next_pkid_correct small_pool small_pool_wf) as (r & p' & E & Hwf & _ & Hr).
  assert (Er : exists q, Some (Returns (Some (mkPacketIdentifier 2), q)) = Some (Returns (r, p')))
    by (rewrite <- E; eexists; vm_compute; reflexivity).
  destruct Er as [q Er]. injection Er as <- _. exists p'. split; [exact E|]. split; [exact Hwf|].
  destruct Hr as (Hn & _ & _ & Hv & _). split; [exact Hn|exact Hv].
Defined.
