(* ===== verification/IndexMap.v ===== *)
(** * Insertion-ordered maps

    [indexmap::IndexMap], which the session uses where order matters, as the
    list of its entries in order; only the operations the session calls. *)

From S2P Require Export Prelude.

Section index_map.
Context {K V : Type} `{EqDecision K}.

Definition IndexMap : Type := list (K * V).

Definition im_keys (m : IndexMap) : list K := map fst m.
Definition im_values (m : IndexMap) : list V := map snd m.

Fixpoint im_get (k : K) (m : IndexMap) : option V :=
  match m with
  | [] => None
  | (k', v) :: m => if decide (k = k') then Some v else im_get k m
  end.

(** [insert]: an existing key keeps its position and its old value is returned;
    a new one goes to the end. [get_mut] followed by an assignment is the first
    case. *)
Fixpoint im_insert (k : K) (v : V) (m : IndexMap) : option V * IndexMap :=
  match m with
  | [] => (None, [(k, v)])
  | (k', v') :: m =>
      if decide (k = k') then (Some v', (k', v) :: m)
      else let '(r, m) := im_insert k v m in (r, (k', v') :: m)
  end.

(** [shift_remove]: the entries after the removed one keep their order. *)
Fixpoint im_shift_remove (k : K) (m : IndexMap) : option V * IndexMap :=
  match m with
  | [] => (None, [])
  | (k', v) :: m =>
      if decide (k = k') then (Some v, m)
      else let '(r, m) := im_shift_remove k m in (r, (k', v) :: m)
  end.

Lemma im_get_None k m : im_get k m = None <-> k ∉ im_keys m.
Proof.
  induction m as [|[k' v] m IH]; cbn; [by split; [intros _; apply not_elem_of_nil|]|].
  rewrite not_elem_of_cons. destruct (decide (k = k')); [by split; [|intros []]|]. rewrite IH. tauto.
Qed.

Lemma im_insert_new k v m : k ∉ im_keys m -> im_insert k v m = (None, m ++ [(k, v)]).
Proof.
  induction m as [|[k' v'] m IH]; cbn; [done|]. rewrite not_elem_of_cons. intros [Hne Hk].
  destruct (decide (k = k')); [done|]. by rewrite IH.
Qed.

Lemma im_insert_fst k v m : fst (im_insert k v m) = im_get k m.
Proof.
  induction m as [|[k' v'] m IH]; cbn; [done|]. destruct (decide (k = k')); [done|].
  by destruct (im_insert k v m).
Qed.

Lemma im_insert_keys k v m : k ∈ im_keys m -> im_keys (snd (im_insert k v m)) = im_keys m.
Proof.
  induction m as [|[k' v'] m IH]; cbn; [by intros ?%elem_of_nil|]. rewrite elem_of_cons.
  destruct (decide (k = k')); [done|]. intros [?|Hk]; [done|]. specialize (IH Hk).
  destruct (im_insert k v m). cbn in *. by rewrite IH.
Qed.

Lemma im_shift_remove_spec k m :
  match im_shift_remove k m with
  | (None, m') => (k ∉ im_keys m) /\ m' = m
  | (Some v, m') => exists m1 m2, m = m1 ++ (k, v) :: m2 /\ m' = m1 ++ m2 /\ k ∉ im_keys m1
  end.
Proof.
  induction m as [|[k' v] m IH]; cbn; [split; [apply not_elem_of_nil|done]|].
  destruct (decide (k = k')) as [->|Hne].
  - exists [], m. split_and!; [done..|apply not_elem_of_nil].
  - destruct (im_shift_remove k m) as [[w|] m'].
    + destruct IH as (m1 & m2 & -> & -> & Hk). exists ((k', v) :: m1), m2.
      split_and!; [done..|]. cbn. by apply not_elem_of_cons.
    + destruct IH as [Hk ->]. split; [|done]. by apply not_elem_of_cons.
Qed.

Lemma im_shift_remove_fst k m : fst (im_shift_remove k m) = im_get k m.
Proof.
  induction m as [|[k' v'] m IH]; cbn; [done|]. destruct (decide (k = k')); [done|].
  by destruct (im_shift_remove k m).
Qed.

Lemma im_keys_app m1 m2 : im_keys (m1 ++ m2) = im_keys m1 ++ im_keys m2.
Proof. apply map_app. Qed.

Lemma im_shift_remove_keys k v m m' :
  im_shift_remove k m = (Some v, m') -> im_keys m ≡ₚ k :: im_keys m'.
Proof.
  intros E. pose proof (im_shift_remove_spec k m) as H. rewrite E in H.
  destruct H as (m1 & m2 & -> & -> & _). rewrite !im_keys_app. cbn. by rewrite Permutation_middle.
Qed.

Lemma im_insert_Forall (P : K * V -> Prop) k v m :
  Forall P m -> P (k, v) -> Forall P (snd (im_insert k v m)).
Proof.
  intros Hm Hk. induction Hm as [|[k' v'] m Hx Hm IH]; cbn; [by constructor|].
  destruct (decide (k = k')) as [->|_]; [by constructor|]. destruct (im_insert k v m). by constructor.
Qed.

Lemma im_shift_remove_Forall (P : K * V -> Prop) k m : Forall P m -> Forall P (snd (im_shift_remove k m)).
Proof.
  intros Hm. pose proof (im_shift_remove_spec k m) as Hs. destruct (im_shift_remove k m) as [[v|] m'].
  - destruct Hs as (m1 & m2 & -> & -> & _). apply Forall_app in Hm as [H1 [_ H2]%Forall_cons].
    by apply Forall_app.
  - by destruct Hs as [_ ->].
Qed.
End index_map.
Arguments IndexMap : clear implicits.
