(* ===== verification/Buffers.v ===== *)
(** * Buffers and accumulators

    buffer_pool.rs, buffer_pool/accumulators/*.rs, mqtt_proto/buffer.rs and
    mqtt_proto/byte_counter.rs.

    A [Shared] is an immutable view of bytes that shrinks from the front: it is
    the list of the bytes [as_ref()] returns, and a decoder threads it as a
    state. [Owned], whose implementation is the foreign [bytes::BytesMut], is an
    interface with laws. [BytesAccumulator] is the trait the encoders are
    generic over; [wp] is a weakest-precondition calculus for such encoders,
    which yields at once what an encoder writes, that the two-pass length
    computation of the codec is right, and that the space it reserves is enough. *)

From S2P Require Export Codes.
Local Open Scope Z_scope.

(** ** [trait Shared] *)

Abbreviation Shared := (list u8) (only parsing).

(** [Shared::split_to]; the callers check [i <= len] first. *)
Definition split_to (i : usize) (src : Shared) : Shared * Shared :=
  (take (Z.to_nat i) src, drop (Z.to_nat i) src).

(** The provided methods [get_u8], [get_u16_be], [get_u32_be] and [get_u64_be]:
    [size] bytes, big-endian, or [None] and an unchanged buffer. *)
Definition get_be (size : nat) (src : Shared) : option (Z * Shared) :=
  if len src <? Z.of_nat size then None
  else Some (from_be_bytes (take size src), drop size src).

Definition get_u8 := get_be 1.
Definition get_u16_be := get_be 2.
Definition get_u32_be := get_be 4.
Definition get_u64_be := get_be 8.

(** ** [trait SharedExt] (mqtt_proto/buffer.rs) *)

Definition try_get_u8 (src : Shared) : decode_result (u8 * Shared) :=
  ok_or (get_u8 src) DecodeError.IncompletePacket.

Definition try_get_u16_be (src : Shared) : decode_result (u16 * Shared) :=
  ok_or (get_u16_be src) DecodeError.IncompletePacket.

Definition try_get_u32_be (src : Shared) : decode_result (u32 * Shared) :=
  ok_or (get_u32_be src) DecodeError.IncompletePacket.

Definition try_get_u64_be (src : Shared) : decode_result (u64 * Shared) :=
  ok_or (get_u64_be src) DecodeError.IncompletePacket.

Definition try_get_packet_identifier (src : Shared) : decode_result (PacketIdentifier * Shared) :=
  let? (n, src) := try_get_u16_be src in
  let? p := ok_or (PacketIdentifier_new n) DecodeError.ZeroPacketIdentifier in
  Ok (p, src).

(** ** [trait BytesAccumulator] *)

(** [struct Error] of buffer_pool.rs. *)
Inductive PoolError : Set := InsufficientCapacity.

(** [struct Iovecs], with the slices that [to_iovecs] stores in its argument. *)
Record Iovecs : Set := mkIovecs {
  iovecs : list (list u8);
  num_iovecs : usize;
  total_len : usize;
}.

Class BytesAccumulator (B : Type) := {
  can_accept_more : B -> bool;
  reserve : usize -> B -> result PoolError B;
  try_put_slice : list u8 -> B -> option B;
  put_shared : Shared -> B -> B;
  put_done : B -> B;
  to_iovecs : nat -> B -> outcome Iovecs;
  drain : usize -> B -> outcome B;
  acc_is_empty : B -> outcome bool;
}.

Section provided.
Context {B : Type} `{BytesAccumulator B}.

Definition try_put_u8 (n : u8) (dst : B) : option B := try_put_slice (to_be_bytes 1 n) dst.
Definition try_put_u16_be (n : u16) (dst : B) : option B := try_put_slice (to_be_bytes 2 n) dst.
Definition try_put_u32_be (n : u32) (dst : B) : option B := try_put_slice (to_be_bytes 4 n) dst.
Definition try_put_u64_be (n : u64) (dst : B) : option B := try_put_slice (to_be_bytes 8 n) dst.
End provided.

(** *** [ByteCounter<S, COUNT_SHARED>] (mqtt_proto/byte_counter.rs) *)

Record ByteCounter (COUNT_SHARED : bool) : Set := mkByteCounter { into_count : usize }.
Arguments mkByteCounter {_} _.
Arguments into_count {_} _.

Definition ByteCounter_new {COUNT_SHARED} : ByteCounter COUNT_SHARED := mkByteCounter 0.

#[export] Instance ByteCounter_accumulator COUNT_SHARED :
  BytesAccumulator (ByteCounter COUNT_SHARED) := {
  can_accept_more _ := true;
  reserve _ b := Ok b;
  try_put_slice src b := Some (mkByteCounter (into_count b + len src));
  put_shared src b := if COUNT_SHARED then mkByteCounter (into_count b + len src) else b;
  put_done b := b;
  to_iovecs _ _ := Panics "ByteCounter is never used for actually writing";
  drain _ _ := Panics "ByteCounter is never used for actually writing";
  acc_is_empty _ := Panics "ByteCounter is never used in situations where this is called";
}.

(** *** [SingleAccumulator] (buffer_pool/accumulators/single.rs)

    The inner [BytesMut] is used as a growable byte vector. [advance] panics
    when asked to go past the end. *)

Record SingleAccumulator : Set := mkSingle { single_bytes : list u8 }.

Definition SingleAccumulator_new : SingleAccumulator := mkSingle [].

Definition advance_bytes (n : usize) (bs : list u8) : outcome (list u8) :=
  if len bs <? n then Panics "cannot advance past `remaining`"
  else Returns (drop (Z.to_nat n) bs).

Definition single_to_iovecs (bs : list u8) (n : nat) : Iovecs :=
  match n with
  | O => mkIovecs [] 0 0
  | S _ => if list_is_empty bs then mkIovecs [] 0 0 else mkIovecs [bs] 1 (len bs)
  end.

#[export] Instance Single_accumulator : BytesAccumulator SingleAccumulator := {
  can_accept_more _ := true;
  reserve _ b := Ok b;
  try_put_slice src b := Some (mkSingle (single_bytes b ++ src));
  put_shared src b := mkSingle (single_bytes b ++ src);
  put_done b := b;
  to_iovecs n b := Returns (single_to_iovecs (single_bytes b) n);
  drain n b := let! bs := advance_bytes n (single_bytes b) in Returns (mkSingle bs);
  acc_is_empty b := Returns (list_is_empty (single_bytes b));
}.

(** *** [TestAccumulator] (buffer_pool/accumulators/test.rs): enforces that
    [reserve] was called for enough bytes. *)

Record TestAccumulator : Set := mkTest {
  inner : list u8;
  unfilled_len : usize;
  put_done_required : bool;
}.

Definition TestAccumulator_with_capacity (n : usize) : TestAccumulator := mkTest [] n false.

#[export] Instance Test_accumulator : BytesAccumulator TestAccumulator := {
  can_accept_more _ := true;
  reserve additional b :=
    Ok (mkTest (inner b) (Z.max (unfilled_len b) additional) (put_done_required b));
  try_put_slice src b :=
    if unfilled_len b <? len src then None
    else Some (mkTest (inner b ++ src) (unfilled_len b - len src) true);
  put_shared src b := mkTest (inner b ++ src) (unfilled_len b) false;
  put_done b := mkTest (inner b) (unfilled_len b) false;
  to_iovecs n b :=
    if put_done_required b then Panics "assertion failed: !self.put_done_required"
    else Returns (single_to_iovecs (inner b) n);
  drain n b :=
    let! bs := advance_bytes n (inner b) in
    Returns (mkTest bs (unfilled_len b) (put_done_required b));
  acc_is_empty b := Returns (list_is_empty (inner b));
}.

(** *** [trait Owned]

    The operations [IovecsAccumulator] uses. [unfilled_mut] may reallocate, so
    it returns the buffer with the length of the unfilled region; [fill_with]
    is the copy into that region followed by [fill]; [split_to_freeze i] is
    [split_to(i).freeze()] for an [i] within the filled region, and [split_filled] is
    [split_to(filled_len()).freeze()]. *)

Class Owned (O : Type) := {
  filled : O -> list u8;
  unfilled_mut : O -> O * usize;
  fill_with : list u8 -> O -> O;
  split_to_freeze : usize -> O -> Shared * O;
  owned_drain : usize -> O -> O;
  owned_reserve : usize -> O -> result PoolError O;
}.

Definition split_filled {O} `{Owned O} (o : O) : Shared * O :=
  split_to_freeze (len (filled o)) o.

(** What the trait's documentation promises. [capacity o n]: the unfilled
    region of [o] has at least [n] bytes. *)
Class LawfulOwned (O : Type) `{Owned O} := {
  capacity : O -> Z -> Prop;
  capacity_mono : forall o m n, m <= n -> capacity o n -> capacity o m;
  unfilled_mut_filled : forall o, filled (fst (unfilled_mut o)) = filled o;
  unfilled_mut_nonneg : forall o, 0 <= snd (unfilled_mut o);
  unfilled_mut_len : forall o n, capacity o n -> n <= snd (unfilled_mut o);
  unfilled_mut_capacity : forall o, capacity (fst (unfilled_mut o)) (snd (unfilled_mut o));
  fill_with_filled : forall bs o n, capacity o n -> len bs <= n ->
    filled (fill_with bs o) = filled o ++ bs;
  fill_with_capacity : forall bs o n, capacity o n -> len bs <= n ->
    capacity (fill_with bs o) (n - len bs);
  split_to_shared : forall i o, 0 <= i <= len (filled o) ->
    fst (split_to_freeze i o) = take (Z.to_nat i) (filled o);
  split_to_rest : forall i o, 0 <= i <= len (filled o) ->
    filled (snd (split_to_freeze i o)) = drop (Z.to_nat i) (filled o);
  split_to_capacity : forall i o n, 0 <= i <= len (filled o) -> capacity o n ->
    capacity (snd (split_to_freeze i o)) n;
  owned_drain_filled : forall i o, 0 <= i <= len (filled o) ->
    filled (owned_drain i o) = drop (Z.to_nat i) (filled o);
  owned_reserve_filled : forall n o o', owned_reserve n o = Ok o' -> filled o' = filled o;
  owned_reserve_capacity : forall n o o', owned_reserve n o = Ok o' -> capacity o' n;
}.
Arguments LawfulOwned O {_}.

Section split_filled.
Context {O : Type} `{LawfulOwned O}.

Lemma split_filled_shared (o : O) : fst (split_filled o) = filled o.
Proof.
  pose proof (len_nonneg (filled o)). unfold split_filled. rewrite split_to_shared by lia.
  apply take_ge. unfold len. lia.
Qed.

Lemma split_filled_rest (o : O) : filled (snd (split_filled o)) = [].
Proof.
  pose proof (len_nonneg (filled o)). unfold split_filled. rewrite split_to_rest by lia.
  apply drop_ge. unfold len. lia.
Qed.

Lemma split_filled_capacity (o : O) n : capacity o n -> capacity (snd (split_filled o)) n.
Proof. pose proof (len_nonneg (filled o)). apply split_to_capacity. lia. Qed.
End split_filled.

(** A growable buffer that satisfies the laws, used to evaluate the model. *)
Record VecOwned : Set := mkVecOwned { vec_bytes : list u8; vec_free : usize }.

#[export] Instance VecOwned_owned : Owned VecOwned := {
  filled := vec_bytes;
  unfilled_mut o := (o, Z.max 0 (vec_free o));
  fill_with bs o := mkVecOwned (vec_bytes o ++ bs) (Z.max 0 (vec_free o) - len bs);
  split_to_freeze i o :=
    (take (Z.to_nat i) (vec_bytes o), mkVecOwned (drop (Z.to_nat i) (vec_bytes o)) (vec_free o));
  owned_drain i o := mkVecOwned (drop (Z.to_nat i) (vec_bytes o)) (vec_free o);
  owned_reserve n o := Ok (mkVecOwned (vec_bytes o) (Z.max n (vec_free o)));
}.

#[export] Instance VecOwned_lawful : LawfulOwned VecOwned.
Proof.
  refine {| capacity o n := n <= Z.max 0 (vec_free o) |}; cbn; try done; try lia; intros.
  - by inv_ok H.
  - inv_ok H. cbn. lia.
Qed.

(** *** [IovecsAccumulator] (buffer_pool/accumulators/iovecs.rs) *)

Record IovecsAccumulator (O : Type) := mkIov {
  owned : O;
  chunks : list Shared;
  total_size : usize;
}.
Arguments mkIov {_} _ _ _.
Arguments owned {_} _.
Arguments chunks {_} _.
Arguments total_size {_} _.

Definition IovecsAccumulator_new {O} (o : O) : IovecsAccumulator O := mkIov o [] 0.

(** The sum of the chunks' lengths, as the loop of [to_iovecs] adds them up. *)
Fixpoint chunks_len (cs : list Shared) : Z :=
  match cs with [] => 0 | c :: cs' => len c + chunks_len cs' end.

Section iovecs.
Context {O : Type} `{Owned O}.
Implicit Types b : IovecsAccumulator O.

Definition iov_put_done b : IovecsAccumulator O :=
  if list_is_empty (filled (owned b)) then b
  else
    let '(shared, rest) := split_filled (owned b) in
    mkIov rest (chunks b ++ [shared]) (total_size b + len shared).

Definition iov_put_shared (src : Shared) b : IovecsAccumulator O :=
  if list_is_empty src then b
  else
    let b := iov_put_done b in
    mkIov (owned b) (chunks b ++ [src]) (total_size b + len src).

Definition iov_try_put_slice (src : list u8) b : option (IovecsAccumulator O) :=
  let '(o, dst_len) := unfilled_mut (owned b) in
  if len src <=? dst_len then
    Some (mkIov (fill_with src o) (chunks b) (total_size b))
  else None.

Definition iov_to_iovecs (n : nat) b : outcome Iovecs :=
  if list_is_empty (filled (owned b)) then
    let used := take n (chunks b) in
    Returns (mkIovecs used (len used) (chunks_len used))
  else Panics "assertion failed: self.owned.filled_is_empty()".

(** [drain_slow]: drops the chunks that were written completely and drains the
    one that was not. Returns the chunks, the size and what is left of [n]. *)
Fixpoint drain_slow (cs : list Shared) (size : usize) (n : usize) :
    list Shared * usize * usize :=
  match cs with
  | [] => ([], size, n)
  | chunk :: cs' =>
      let size := size - len chunk in
      if len chunk <=? n then drain_slow cs' size (n - len chunk)
      else
        let chunk := drop (Z.to_nat n) chunk in
        (chunk :: cs', size + len chunk, 0)
  end.

Definition iov_drain (n : usize) b : outcome (IovecsAccumulator O) :=
  if total_size b =? n then Returns (mkIov (owned b) [] 0)
  else
    let '(cs, size, n) := drain_slow (chunks b) (total_size b) n in
    if n =? 0 then Returns (mkIov (owned b) cs size)
    else Panics "assertion failed: n == 0".

#[export] Instance Iovecs_accumulator : BytesAccumulator (IovecsAccumulator O) := {
  can_accept_more b := len (chunks b) <? 128 - 10;
  reserve additional b :=
    let? o := owned_reserve additional (owned b) in
    Ok (mkIov o (chunks b) (total_size b));
  try_put_slice := iov_try_put_slice;
  put_shared := iov_put_shared;
  put_done := iov_put_done;
  to_iovecs := iov_to_iovecs;
  drain := iov_drain;
  acc_is_empty b :=
    Returns (list_is_empty (filled (owned b)) && forallb list_is_empty (chunks b));
}.
End iovecs.

(** *** [EitherAccumulator] (buffer_pool/accumulators/either.rs) *)

Inductive EitherAccumulator (O : Type) :=
  | EitherIovecs (ba : IovecsAccumulator O)
  | EitherSingle (ba : SingleAccumulator).
Arguments EitherIovecs {_} _.
Arguments EitherSingle {_} _.

#[export] Instance Either_accumulator {O} `{Owned O} : BytesAccumulator (EitherAccumulator O) := {
  can_accept_more b :=
    match b with EitherIovecs ba => can_accept_more ba | EitherSingle ba => can_accept_more ba end;
  reserve n b :=
    match b with
    | EitherIovecs ba => let? ba := reserve n ba in Ok (EitherIovecs ba)
    | EitherSingle ba => let? ba := reserve n ba in Ok (EitherSingle ba)
    end;
  try_put_slice src b :=
    match b with
    | EitherIovecs ba => let?? ba := try_put_slice src ba in Some (EitherIovecs ba)
    | EitherSingle ba => let?? ba := try_put_slice src ba in Some (EitherSingle ba)
    end;
  put_shared src b :=
    match b with
    | EitherIovecs ba => EitherIovecs (put_shared src ba)
    | EitherSingle ba => EitherSingle (put_shared src ba)
    end;
  put_done b :=
    match b with
    | EitherIovecs ba => EitherIovecs (put_done ba)
    | EitherSingle ba => EitherSingle (put_done ba)
    end;
  to_iovecs n b :=
    match b with EitherIovecs ba => to_iovecs n ba | EitherSingle ba => to_iovecs n ba end;
  drain n b :=
    match b with
    | EitherIovecs ba => let! ba := drain n ba in Returns (EitherIovecs ba)
    | EitherSingle ba => let! ba := drain n ba in Returns (EitherSingle ba)
    end;
  acc_is_empty b :=
    match b with EitherIovecs ba => acc_is_empty ba | EitherSingle ba => acc_is_empty ba end;
}.

(** ** Lemmas on reading *)

Lemma get_be_app (n : nat) z rest :
  0 <= z < 256 ^ Z.of_nat n -> get_be n (to_be_bytes n z ++ rest) = Some (z, rest).
Proof.
  intros Hz. unfold get_be. rewrite len_app.
  assert (Hl : len (to_be_bytes n z) = Z.of_nat n) by (unfold len; by rewrite length_to_be_bytes).
  rewrite Hl. pose proof (len_nonneg rest).
  destruct (_ <? _) eqn:E; bool_to_prop; [lia|].
  rewrite take_app_le, drop_app_le by (rewrite length_to_be_bytes; lia).
  rewrite take_ge, drop_ge by (rewrite length_to_be_bytes; lia).
  by rewrite from_to_be_bytes.
Qed.

Lemma get_be_ok n src z rest :
  bytes_ok src -> get_be n src = Some (z, rest) ->
  0 <= z < 256 ^ Z.of_nat n /\ bytes_ok rest /\ len src = Z.of_nat n + len rest.
Proof.
  unfold get_be. intros Hs H. destruct (_ <? _) eqn:E; [done|]. bool_to_prop.
  injection H as <- <-. split; [|split; [by apply bytes_ok_drop|]].
  - pose proof (from_be_bytes_range (take n src) (bytes_ok_take _ _ Hs)) as Hr.
    unfold len in *. rewrite length_take in Hr. by replace (n `min` length src)%nat with n in Hr by lia.
  - unfold len in *. rewrite length_drop. lia.
Qed.

Lemma try_get_u8_put n rest :
  is_u8 n -> try_get_u8 (to_be_bytes 1 n ++ rest) = Ok (n, rest).
Proof. intros. unfold try_get_u8, get_u8. rewrite get_be_app; [done | cbn; solve_range]. Qed.

Lemma try_get_u16_be_put n rest :
  is_u16 n -> try_get_u16_be (to_be_bytes 2 n ++ rest) = Ok (n, rest).
Proof. intros. unfold try_get_u16_be, get_u16_be. rewrite get_be_app; [done | cbn; solve_range]. Qed.

Lemma try_get_u32_be_put n rest :
  is_u32 n -> try_get_u32_be (to_be_bytes 4 n ++ rest) = Ok (n, rest).
Proof. intros. unfold try_get_u32_be, get_u32_be. rewrite get_be_app; [done | cbn; solve_range]. Qed.

Lemma try_get_packet_identifier_put p rest :
  pkid_wf p -> try_get_packet_identifier (to_be_bytes 2 (pkid_get p) ++ rest) = Ok (p, rest).
Proof.
  intros Hp. unfold try_get_packet_identifier. rewrite try_get_u16_be_put.
  - by rewrite PacketIdentifier_new_get.
  - unfold pkid_wf in Hp. solve_range.
Qed.

Lemma try_get_u8_ok src n rest :
  bytes_ok src -> try_get_u8 src = Ok (n, rest) ->
  is_u8 n /\ bytes_ok rest /\ len src = 1 + len rest.
Proof.
  intros Hs H. unfold try_get_u8, get_u8, ok_or in H. inv_ok H.
  apply get_be_ok in E as (?&?&?); [|done]. cbn in *. split; [solve_range|done].
Qed.

Lemma try_get_u16_be_ok src n rest :
  bytes_ok src -> try_get_u16_be src = Ok (n, rest) ->
  is_u16 n /\ bytes_ok rest /\ len src = 2 + len rest.
Proof.
  intros Hs H. unfold try_get_u16_be, get_u16_be, ok_or in H. inv_ok H.
  apply get_be_ok in E as (?&?&?); [|done]. cbn in *. split; [solve_range|done].
Qed.

Lemma try_get_u32_be_ok src n rest :
  bytes_ok src -> try_get_u32_be src = Ok (n, rest) ->
  is_u32 n /\ bytes_ok rest /\ len src = 4 + len rest.
Proof.
  intros Hs H. unfold try_get_u32_be, get_u32_be, ok_or in H. inv_ok H.
  apply get_be_ok in E as (?&?&?); [|done]. cbn in *. split; [solve_range|done].
Qed.

Lemma try_get_packet_identifier_ok src p rest :
  bytes_ok src -> try_get_packet_identifier src = Ok (p, rest) ->
  pkid_wf p /\ bytes_ok rest /\ len src = 2 + len rest.
Proof.
  intros Hs H. unfold try_get_packet_identifier, ok_or in H. inv_ok H.
  apply try_get_u16_be_ok in E as (?&?&?); [|done].
  apply PacketIdentifier_new_Some in E1 as [? _]; done.
Qed.

(** ** Accumulators that hold bytes

    [view b] is every byte put so far, committed or not; [has_room b n] says
    that slices of [n] bytes in all are accepted. *)

Class LawfulAccumulator (B : Type) `{BytesAccumulator B} := {
  view : B -> list u8;
  has_room : B -> Z -> Prop;
  put_slice_view : forall bs b b', try_put_slice bs b = Some b' -> view b' = view b ++ bs;
  put_slice_room : forall bs b n, has_room b n -> len bs <= n ->
    exists b', try_put_slice bs b = Some b' /\ has_room b' (n - len bs);
  put_shared_view : forall bs b, view (put_shared bs b) = view b ++ bs;
  put_shared_room : forall bs b n, has_room b n -> has_room (put_shared bs b) n;
  put_done_view : forall b, view (put_done b) = view b;
  put_done_room : forall b n, has_room b n -> has_room (put_done b) n;
  reserve_view : forall n b b', reserve n b = Ok b' -> view b' = view b;
  reserve_room : forall n b b', reserve n b = Ok b' -> has_room b' n;
}.
Arguments LawfulAccumulator B {_}.

#[export] Instance Single_lawful : LawfulAccumulator SingleAccumulator.
Proof.
  refine {| view := single_bytes; has_room _ _ := True |}; cbn; intros;
    simplify_eq/=; eauto.
Defined.

#[export] Instance Test_lawful : LawfulAccumulator TestAccumulator.
Proof.
  refine {| view := inner; has_room b n := n <= unfilled_len b |}; cbn; intros;
    try (destruct (_ <? _) eqn:E; bool_to_prop); simplify_eq/=; try done; try lia.
  eexists; split; [done|]. cbn. lia.
Defined.

Section iovecs_lawful.
Context {O : Type} `{LawfulOwned O}.
Implicit Types b : IovecsAccumulator O.

Definition iov_view b : list u8 := concat (chunks b) ++ filled (owned b).

Lemma iov_put_done_view b : iov_view (iov_put_done b) = iov_view b.
Proof.
  unfold iov_put_done, iov_view. destruct (list_is_empty _) eqn:E; [done|].
  destruct (split_filled (owned b)) as [shared rest] eqn:Es. cbn.
  pose proof (split_filled_shared (owned b)) as H1. pose proof (split_filled_rest (owned b)) as H2.
  rewrite Es in *. cbn in *. rewrite H2, concat_app. cbn. by rewrite !app_nil_r, H1.
Qed.

Lemma iov_put_done_filled b : filled (owned (iov_put_done b)) = [].
Proof.
  unfold iov_put_done. destruct (list_is_empty _) eqn:E.
  { by destruct (filled (owned b)). }
  pose proof (split_filled_rest (owned b)). by destruct (split_filled (owned b)).
Qed.

Lemma iov_put_shared_view bs b : iov_view (iov_put_shared bs b) = iov_view b ++ bs.
Proof.
  destruct bs as [|x bs]; [by rewrite app_nil_r|].
  rewrite <- (iov_put_done_view b). unfold iov_put_shared, iov_view.
  cbn [list_is_empty chunks owned]. rewrite iov_put_done_filled, concat_app.
  cbn [concat]. by rewrite !app_nil_r.
Qed.

Lemma iov_put_done_capacity b n : capacity (owned b) n -> capacity (owned (iov_put_done b)) n.
Proof.
  unfold iov_put_done. intros Hc. destruct (list_is_empty _); [done|].
  pose proof (split_filled_capacity _ _ Hc). by destruct (split_filled (owned b)).
Qed.

Lemma iov_put_slice_eq bs b b' :
  iov_try_put_slice bs b = Some b' ->
  let '(o, n) := unfilled_mut (owned b) in
  len bs <= n /\ b' = mkIov (fill_with bs o) (chunks b) (total_size b).
Proof.
  unfold iov_try_put_slice. destruct (unfilled_mut (owned b)) as [o n].
  destruct (len bs <=? n) eqn:E; [|done]. intros [= <-]. bool_to_prop. done.
Qed.

Lemma iov_put_slice_view bs b b' :
  iov_try_put_slice bs b = Some b' -> iov_view b' = iov_view b ++ bs.
Proof.
  intros H'%iov_put_slice_eq.
  pose proof (unfilled_mut_filled (owned b)) as H1.
  pose proof (unfilled_mut_capacity (owned b)) as H2.
  destruct (unfilled_mut (owned b)) as [o n]. cbn in *. destruct H' as [Hl ->].
  unfold iov_view. cbn. rewrite (fill_with_filled bs o n) by done. by rewrite H1, app_assoc.
Qed.

Lemma iov_put_slice_room bs b n :
  (exists m, n <= m /\ capacity (owned b) m) -> len bs <= n ->
  exists b', iov_try_put_slice bs b = Some b' /\
    exists m, n - len bs <= m /\ capacity (owned b') m.
Proof.
  intros (m & Hm & Hc) Hl. unfold iov_try_put_slice.
  pose proof (unfilled_mut_len _ _ Hc) as H1.
  pose proof (unfilled_mut_capacity (owned b)) as H2.
  destruct (unfilled_mut (owned b)) as [o k]. cbn in *.
  destruct (len bs <=? k) eqn:E; bool_to_prop; [|lia].
  eexists; split; [done|]. cbn. exists (k - len bs). split; [lia|].
  by apply fill_with_capacity.
Qed.

#[export] Instance Iovecs_lawful : LawfulAccumulator (IovecsAccumulator O).
Proof.
  refine {| view := iov_view;
            has_room b n := exists m, n <= m /\ capacity (owned b) m |}; cbn.
  - apply iov_put_slice_view.
  - apply iov_put_slice_room.
  - apply iov_put_shared_view.
  - intros bs b n (m & ? & ?). unfold iov_put_shared. destruct bs; cbn; [eauto|].
    eauto using iov_put_done_capacity.
  - apply iov_put_done_view.
  - intros b n (m & ? & ?). eauto using iov_put_done_capacity.
  - intros n b b' H'. inv_ok H'. unfold iov_view. cbn. by erewrite owned_reserve_filled.
  - intros n b b' H'. inv_ok H'. cbn. eauto using owned_reserve_capacity, Z.le_refl.
Defined.
End iovecs_lawful.

#[export] Instance Either_lawful {O} `{LawfulOwned O} : LawfulAccumulator (EitherAccumulator O).
Proof.
  refine {| view b := match b with EitherIovecs ba => view ba | EitherSingle ba => view ba end;
            has_room b n :=
              match b with EitherIovecs ba => has_room ba n | EitherSingle ba => has_room ba n end |}.
  - intros bs [ba|ba] b' E; cbn in E; inv_ok E.
    + by apply (put_slice_view (B := IovecsAccumulator O)).
    + done.
  - intros bs [ba|ba] n Hr Hl; cbn.
    + destruct (put_slice_room bs ba n Hr Hl) as (b' & E & ?). cbn in E. rewrite E. eauto.
    + eauto.
  - intros bs [ba|ba]; [apply (put_shared_view bs ba) | done].
  - intros bs [ba|ba] n Hr; [apply (put_shared_room bs ba n Hr) | done].
  - intros [ba|ba]; [apply (put_done_view ba) | done].
  - intros [ba|ba] n Hr; [apply (put_done_room ba n Hr) | done].
  - intros n [ba|ba] b' E; cbn in E; inv_ok E; [|done].
    apply (reserve_view n ba). cbn. by rewrite E0.
  - intros n [ba|ba] b' E; cbn in E; inv_ok E; [|done].
    apply (reserve_room n ba). cbn. by rewrite E0.
Defined.

(** ** The queue of chunks of [IovecsAccumulator] *)


(** [total_size] is the number of bytes in [chunks], and no chunk is empty. *)
Definition iov_wf {O} (b : IovecsAccumulator O) : Prop :=
  total_size b = chunks_len (chunks b) /\ Forall (fun c => c <> []) (chunks b).

Lemma chunks_len_app cs1 cs2 : chunks_len (cs1 ++ cs2) = chunks_len cs1 + chunks_len cs2.
Proof. induction cs1; cbn in *; lia. Qed.

Lemma chunks_len_concat cs : chunks_len cs = len (concat cs).
Proof. induction cs as [|c cs IH]; cbn; [done|]. by rewrite len_app, <- IH. Qed.

Lemma drain_slow_spec cs size n :
  size = chunks_len cs -> 0 <= n <= size -> Forall (fun c => c <> []) cs ->
  exists cs', drain_slow cs size n = (cs', chunks_len cs', 0) /\
    concat cs' = drop (Z.to_nat n) (concat cs) /\ Forall (fun c => c <> []) cs'.
Proof.
  revert size n; induction cs as [|c cs IH]; intros size n Hs Hn Hne; cbn in *.
  { exists []. replace n with 0 by lia. by subst. }
  inversion_clear Hne as [|? ? Hc Hne'].
  destruct (len c <=? n) eqn:E; bool_to_prop.
  - destruct (IH (size - len c) (n - len c)) as (cs' & H1 & H2 & H3); [lia..|done|].
    exists cs'. split_and!; [done| |done]. rewrite H2, drop_app_ge by (unfold len in *; lia).
    f_equal. unfold len in *. lia.
  - exists (drop (Z.to_nat n) c :: cs). cbn. split_and!.
    + f_equal. f_equal. lia.
    + rewrite drop_app_le by (unfold len in *; lia). done.
    + constructor; [|done]. intros H%(f_equal length). rewrite length_drop in H.
      unfold len in *. cbn in H. lia.
Qed.

Section iovecs_queue.
Context {O : Type} `{LawfulOwned O}.
Implicit Types b : IovecsAccumulator O.

Lemma iov_wf_put_done b : iov_wf b -> iov_wf (iov_put_done b).
Proof.
  unfold iov_put_done. intros [Hs Hne]. destruct (filled (owned b)) as [|x bs] eqn:E; [done|]. cbn.
  pose proof (split_filled_shared (owned b)) as H1. destruct (split_filled (owned b)) as [sh o].
  cbn in H1. split; cbn.
  - rewrite chunks_len_app, Hs. cbn. lia.
  - apply Forall_app; split; [done|]. constructor; [|done]. congruence.
Qed.

Lemma iov_wf_put_shared bs b : iov_wf b -> iov_wf (iov_put_shared bs b).
Proof.
  unfold iov_put_shared. intros Hb. destruct bs as [|x bs]; [done|].
  destruct (iov_wf_put_done b Hb) as [Hs Hne]. split; cbn.
  - rewrite chunks_len_app, Hs. cbn. lia.
  - apply Forall_app; split; [done|]. by constructor.
Qed.

Lemma iov_wf_put_slice bs b b' : iov_wf b -> iov_try_put_slice bs b = Some b' -> iov_wf b'.
Proof.
  intros Hb E%iov_put_slice_eq. destruct (unfilled_mut _). destruct E as [_ ->]. exact Hb.
Qed.

(** Draining [n] bytes removes exactly the first [n] bytes of the queue,
    whether the fast path or the slow path is taken. *)
Lemma iov_drain_ok n b :
  iov_wf b -> 0 <= n <= total_size b ->
  exists b', iov_drain n b = Returns b' /\ iov_wf b' /\ owned b' = owned b /\
    concat (chunks b') = drop (Z.to_nat n) (concat (chunks b)).
Proof.
  intros [Hs Hne] Hn. unfold iov_drain. destruct (total_size b =? n) eqn:E; bool_to_prop.
  - eexists; split_and!; [done|by split|done|]. cbn. rewrite drop_ge; [done|].
    rewrite chunks_len_concat in Hs. unfold len in *. lia.
  - destruct (drain_slow_spec (chunks b) (total_size b) n Hs Hn Hne) as (cs' & -> & H1 & H2).
    cbn. eexists; split_and!; [done|by split|done|done].
Qed.
End iovecs_queue.
