(* ===== verification/Bytes.v ===== *)
(** * The buffer pool on the bytes crate

    [BytesPool] of buffer_pool/bytes.rs and [impl Owned for BytesMut] of
    buffer_pool/bytes/buffers.rs: the calls that implement the trait, and the proof that
    they keep its contract. [BytesMut] itself is foreign code. *)

From S2P Require Export Buffers.
Local Open Scope Z_scope.

(** [bytes::BytesMut], with [Buf] and [BufMut]. A call that would panic is not
    made within the contract of [Owned]. [chunk_mut] can grow the buffer and yields
    the length of the slice; [fill_chunk] stands for writing into that slice
    and [advance_mut]. *)
Class BytesMut (B : Type) := {
  with_capacity : usize -> B;
  bytes_chunk : B -> list u8;
  bytes_capacity : B -> usize;
  chunk_mut : B -> B * usize;
  fill_chunk : list u8 -> B -> B;
  advance : usize -> B -> B;
  split_off : usize -> B -> B * B;
  bytes_freeze : B -> Shared;
  bytes_reserve : usize -> B -> B;
}.

(** The documentation of the crate: [split_off(at)] leaves the elements [0, at) and
    returns those in [at, capacity); [advance] drops from the front; [reserve] makes room;
    [chunk_mut] is the room at the end. *)
Class BytesMutLaws (B : Type) `{BytesMut B} : Prop := {
  with_capacity_empty : forall n, bytes_chunk (with_capacity n) = [];
  len_le_capacity : forall b, len (bytes_chunk b) <= bytes_capacity b;
  chunk_mut_chunk : forall b, bytes_chunk (fst (chunk_mut b)) = bytes_chunk b;
  chunk_mut_capacity : forall b, bytes_capacity b <= bytes_capacity (fst (chunk_mut b));
  chunk_mut_len : forall b,
    snd (chunk_mut b) = bytes_capacity (fst (chunk_mut b)) - len (bytes_chunk b);
  fill_chunk_spec : forall bs b, len (bytes_chunk b) + len bs <= bytes_capacity b ->
    bytes_chunk (fill_chunk bs b) = bytes_chunk b ++ bs /\ bytes_capacity (fill_chunk bs b) = bytes_capacity b;
  advance_chunk : forall n b, 0 <= n <= len (bytes_chunk b) ->
    bytes_chunk (advance n b) = drop (Z.to_nat n) (bytes_chunk b);
  split_off_chunk : forall n b, 0 <= n <= bytes_capacity b ->
    bytes_chunk (fst (split_off n b)) = take (Z.to_nat n) (bytes_chunk b) /\
    bytes_chunk (snd (split_off n b)) = drop (Z.to_nat n) (bytes_chunk b);
  split_off_capacity : forall n b, 0 <= n <= bytes_capacity b ->
    bytes_capacity (snd (split_off n b)) = bytes_capacity b - n;
  freeze_chunk : forall b, bytes_freeze b = bytes_chunk b;
  reserve_chunk : forall n b, bytes_chunk (bytes_reserve n b) = bytes_chunk b;
  reserve_room : forall n b, len (bytes_chunk b) + n <= bytes_capacity (bytes_reserve n b);
}.

Section bytes_pool.
Context {B : Type} `{BytesMut B}.

(** [BytesPool::take_owned] and [take_empty_owned]. *)
Definition BytesPool_take_owned (n : usize) : result PoolError B := Ok (with_capacity n).
Definition BytesPool_take_empty_owned : B := with_capacity 0.

(** [Owned::split_to]: what is returned, and what stays in the buffer. *)
Definition bytes_split_to (i : usize) (b : B) : B * B :=
  let '(this, other) := split_off i b in
  let '(this, other) := (other, this) in
  (other, this).

Definition unfilled_len_bytes (b : B) : usize := bytes_capacity b - len (bytes_chunk b).

#[export] Instance BytesMut_owned : Owned B := {|
  filled := bytes_chunk;
  unfilled_mut := chunk_mut;
  fill_with := fill_chunk;
  split_to_freeze i b := let '(front, rest) := bytes_split_to i b in (bytes_freeze front, rest);
  owned_drain := advance;
  owned_reserve n b := Ok (bytes_reserve n b);
|}.

(** The contract of the trait. *)
#[export] Instance BytesMut_lawful `{!BytesMutLaws B} : LawfulOwned B.
Proof.
  refine {| capacity b n := n <= unfilled_len_bytes b |}; unfold unfilled_len_bytes; cbn.
  - lia.
  - apply chunk_mut_chunk.
  - intros b. rewrite chunk_mut_len. pose proof (len_le_capacity (fst (chunk_mut b))) as Hl.
    rewrite chunk_mut_chunk in Hl. lia.
  - intros b n Hn. rewrite chunk_mut_len. pose proof (chunk_mut_capacity b). lia.
  - intros b. rewrite chunk_mut_len, chunk_mut_chunk. reflexivity.
  - intros bs b n Hc Hb. apply fill_chunk_spec. lia.
  - intros bs b n Hc Hb. destruct (fill_chunk_spec bs b) as [Hf Hcap]; [lia|]. rewrite Hf, Hcap, len_app. lia.
  - intros i b Hi. pose proof (len_le_capacity b). destruct (split_off_chunk i b) as [Hf _]; [lia|].
    unfold bytes_split_to. destruct (split_off i b) as [front rest]. cbn in *. by rewrite freeze_chunk.
  - intros i b Hi. pose proof (len_le_capacity b). destruct (split_off_chunk i b) as [_ Hr]; [lia|].
    unfold bytes_split_to. by destruct (split_off i b) as [front rest].
  - intros i b n Hi Hc. pose proof (len_le_capacity b). destruct (split_off_chunk i b) as [_ Hr]; [lia|].
    assert (Hcap : bytes_capacity (snd (split_off i b)) = bytes_capacity b - i) by (apply split_off_capacity; lia).
    unfold bytes_split_to.
    destruct (split_off i b) as [front rest]. cbn in *. rewrite Hr, Hcap.
    unfold len in *. rewrite length_drop. lia.
  - apply advance_chunk.
  - intros n b b' E. injection E as <-. apply reserve_chunk.
  - intros n b b' E. injection E as <-. pose proof (reserve_room n b). rewrite reserve_chunk. lia.
Defined.

(** The pool has no limit, which the theorems about [Reader] assume. *)
Lemma bytes_pool_unlimited n (b : B) : exists b', owned_reserve n b = Ok b'.
Proof. eexists. reflexivity. Qed.

Lemma take_empty_owned_empty `{!BytesMutLaws B} : filled BytesPool_take_empty_owned = [].
Proof. apply with_capacity_empty. Qed.
End bytes_pool.

(** A vector with room at the end, used to see that the laws can hold. *)
Record Room : Set := mkRoom { room_bytes : list u8; room_free : nat }.

#[export] Instance Room_bytes : BytesMut Room := {|
  with_capacity n := mkRoom [] (Z.to_nat n);
  bytes_chunk := room_bytes;
  bytes_capacity b := len (room_bytes b) + Z.of_nat (room_free b);
  chunk_mut b :=
    let b := if (room_free b =? 0)%nat then mkRoom (room_bytes b) 64 else b in (b, Z.of_nat (room_free b));
  fill_chunk bs b := mkRoom (room_bytes b ++ bs) (room_free b - length bs);
  advance n b := mkRoom (drop (Z.to_nat n) (room_bytes b)) (room_free b);
  split_off n b :=
    (mkRoom (take (Z.to_nat n) (room_bytes b)) (Z.to_nat n - length (room_bytes b)),
     mkRoom (drop (Z.to_nat n) (room_bytes b)) (room_free b - (Z.to_nat n - length (room_bytes b))));
  bytes_freeze := room_bytes;
  bytes_reserve n b := mkRoom (room_bytes b) (Nat.max (Z.to_nat n) (room_free b));
|}.

#[export] Instance Room_laws : BytesMutLaws Room.
Proof.
  assert (Hz : forall b, snd (chunk_mut b) = bytes_capacity (fst (chunk_mut b)) - len (room_bytes b) /\
    room_bytes (fst (chunk_mut b)) = room_bytes b /\ bytes_capacity b <= bytes_capacity (fst (chunk_mut b))).
  { intros [bs n]. cbn. destruct (Nat.eqb_spec n 0); cbn; split_and!; lia || done. }
  split.
  - done.
  - intros b. cbn. lia.
  - apply Hz.
  - apply Hz.
  - apply Hz.
  - intros bs b Hb. cbn in *. split; [done|]. unfold len in *. rewrite length_app. lia.
  - done.
  - done.
  - intros n b Hn. cbn in *. unfold len in *. rewrite length_drop. lia.
  - done.
  - done.
  - intros n b. cbn. lia.
Qed.
