(* ===== verification/Encoders.v ===== *)
(** * Encoders that are generic over the accumulator

    Every [encode] of the codec is generic over [BytesAccumulator]. [runs E ps
    fin] says that the encoder [E], on any accumulator whatsoever, performs the
    puts [ps] in order, stops at the first one that is refused, and then
    succeeds or fails as [fin] says: it cannot look at the accumulator. [wp E Q]
    says that [E] is such an encoder and that the bytes it writes when it
    succeeds satisfy [Q]; its rules are applied along the structure of the code.

    The consequences at the end of the file are what the client relies on:
    counting with [ByteCounter] gives the number of bytes that are written
    afterwards, space reserved from [ByteCounter<false>] is enough, and the
    bytes written do not depend on the accumulator. *)

From S2P Require Export Buffers.
Local Open Scope Z_scope.

Inductive Put : Set :=
  | PutSlice (bs : list u8) (refused : EncodeError.t)
  | PutShared (bs : Shared)
  | PutDone.

Section exec.
Context {B : Type} `{BytesAccumulator B}.

Definition exec1 (p : Put) (b : B) : encode_result B :=
  match p with
  | PutSlice bs e => ok_or (try_put_slice bs b) e
  | PutShared bs => Ok (put_shared bs b)
  | PutDone => Ok (put_done b)
  end.

Definition exec (ps : list Put) (b : B) : encode_result B :=
  foldM (fun b p => exec1 p b) b ps.

Lemma exec_app ps1 ps2 b : exec (ps1 ++ ps2) b = let? b := exec ps1 b in exec ps2 b.
Proof. apply foldM_app. Qed.
End exec.

Definition put_bytes (p : Put) : list u8 :=
  match p with PutSlice bs _ => bs | PutShared bs => bs | PutDone => [] end.

Definition trace_bytes (ps : list Put) : list u8 := concat (map put_bytes ps).

(** The bytes that need room: those put as slices. *)
Definition slice_bytes (p : Put) : list u8 :=
  match p with PutSlice bs _ => bs | _ => [] end.

Definition trace_slice_len (ps : list Put) : Z := len (concat (map slice_bytes ps)).

Lemma trace_bytes_app ps1 ps2 : trace_bytes (ps1 ++ ps2) = trace_bytes ps1 ++ trace_bytes ps2.
Proof. unfold trace_bytes. by rewrite map_app, concat_app. Qed.

(** ** Encoders *)

Definition Encoder : Type := forall B : Type, BytesAccumulator B -> B -> encode_result B.

Definition runs (E : Encoder) (ps : list Put) (fin : option EncodeError.t) : Prop :=
  forall (B : Type) (BA : BytesAccumulator B) (b : B),
    E B BA b = let? b := exec ps b in match fin with None => Ok b | Some e => Err e end.

Definition wp (E : Encoder) (Q : list u8 -> Prop) : Prop :=
  exists ps fin, runs E ps fin /\ (fin = None -> Q (trace_bytes ps)).

(** [E] writes the same puts on every accumulator. *)
Definition traceable (E : Encoder) : Prop := wp E (fun _ => True).

Lemma wp_mono (E : Encoder) (Q Q' : list u8 -> Prop) :
  wp E Q -> (forall bs, Q bs -> Q' bs) -> wp E Q'.
Proof. intros (ps & fin & Hr & HQ) H. exists ps, fin. auto. Qed.

Lemma wp_traceable E Q : wp E Q -> traceable E.
Proof. intros H. by eapply wp_mono. Qed.

Lemma wp_ext (E E' : Encoder) Q :
  (forall B BA b, E' B BA b = E B BA b) -> wp E Q -> wp E' Q.
Proof.
  intros H (ps & fin & Hr & HQ). exists ps, fin. split; [|done].
  intros B BA b. by rewrite H.
Qed.

Lemma wp_ok (Q : list u8 -> Prop) : Q [] -> wp (fun _ _ dst => Ok dst) Q.
Proof. exists [], None. by split. Qed.

Lemma wp_err e Q : wp (fun _ _ _ => Err e) Q.
Proof. exists [], (Some e). by split. Qed.

Lemma wp_bind (E K : Encoder) Q :
  wp E (fun bs => wp K (fun bs' => Q (bs ++ bs'))) ->
  wp (fun B BA dst => let? dst := E B BA dst in K B BA dst) Q.
Proof.
  intros (ps & [e|] & Hr & HQ).
  - exists ps, (Some e). split; [|done]. intros B BA b. rewrite Hr. by destruct (exec ps b).
  - destruct (HQ eq_refl) as (ps' & fin & Hr' & HQ').
    exists (ps ++ ps'), fin. split.
    + intros B BA b. rewrite Hr, exec_app. destruct (exec ps b); [apply Hr' | done].
    + intros ->. rewrite trace_bytes_app. auto.
Qed.

Lemma wp_put (p : Put) (K : Encoder) Q :
  wp K (fun bs => Q (put_bytes p ++ bs)) ->
  wp (fun B BA dst => let? dst := exec1 p dst in K B BA dst) Q.
Proof.
  intros H. apply wp_bind. exists [p], None. split.
  - intros B BA b. unfold exec; cbn. by destruct (exec1 p b).
  - intros _. eapply wp_mono; [exact H|]. cbn. unfold trace_bytes; cbn.
    intros. by rewrite app_nil_r.
Qed.

Lemma wp_put1 (p : Put) (Q : list u8 -> Prop) :
  Q (put_bytes p) -> wp (fun B BA dst => exec1 p dst) Q.
Proof.
  intros HQ. exists [p], None. split.
  - intros B BA b. unfold exec; cbn. by destruct (exec1 p b).
  - intros _. unfold trace_bytes; cbn. by rewrite app_nil_r.
Qed.

Lemma wp_put_slice src e (K : Encoder) Q :
  wp K (fun bs => Q (src ++ bs)) ->
  wp (fun B BA dst => let? dst := ok_or (try_put_slice src dst) e in K B BA dst) Q.
Proof. apply (wp_put (PutSlice src e)). Qed.

Lemma wp_put_u8 n e (K : Encoder) Q :
  wp K (fun bs => Q (to_be_bytes 1 n ++ bs)) ->
  wp (fun B BA dst => let? dst := ok_or (try_put_u8 n dst) e in K B BA dst) Q.
Proof. apply (wp_put (PutSlice (to_be_bytes 1 n) e)). Qed.

Lemma wp_put_u16 n e (K : Encoder) Q :
  wp K (fun bs => Q (to_be_bytes 2 n ++ bs)) ->
  wp (fun B BA dst => let? dst := ok_or (try_put_u16_be n dst) e in K B BA dst) Q.
Proof. apply (wp_put (PutSlice (to_be_bytes 2 n) e)). Qed.

Lemma wp_put_u32 n e (K : Encoder) Q :
  wp K (fun bs => Q (to_be_bytes 4 n ++ bs)) ->
  wp (fun B BA dst => let? dst := ok_or (try_put_u32_be n dst) e in K B BA dst) Q.
Proof. apply (wp_put (PutSlice (to_be_bytes 4 n) e)). Qed.

Lemma wp_put_shared src (K : Encoder) Q :
  wp K (fun bs => Q (src ++ bs)) -> wp (fun B BA dst => K B BA (put_shared src dst)) Q.
Proof. apply (wp_put (PutShared src)). Qed.

Lemma wp_put_shared_ok src (Q : list u8 -> Prop) :
  Q src -> wp (fun B BA dst => Ok (put_shared src dst)) Q.
Proof. intros H. apply (wp_put_shared src (fun _ _ dst => Ok dst)), wp_ok. by rewrite app_nil_r. Qed.

Lemma wp_put_done (K : Encoder) Q :
  wp K Q -> wp (fun B BA dst => K B BA (put_done dst)) Q.
Proof. apply (wp_put PutDone). Qed.

Lemma wp_map_err (f : EncodeError.t -> EncodeError.t) (E : Encoder) Q :
  wp E Q -> wp (fun B BA dst => map_err f (E B BA dst)) Q.
Proof.
  intros (ps & fin & Hr & HQ).
  set (g p := match p with PutSlice bs e => PutSlice bs (f e) | _ => p end).
  exists (map g ps), (option_map f fin). split.
  - intros B BA b. rewrite Hr. clear Hr HQ. revert b.
    unfold exec. induction ps as [|p ps IH]; intros b; cbn; [by destruct fin|].
    destruct p as [bs e| |]; cbn; try apply IH.
    unfold ok_or. destruct (try_put_slice bs b); [apply IH | done].
  - intros Hf. destruct fin; [done|]. replace (trace_bytes (map g ps)) with (trace_bytes ps); auto.
    unfold trace_bytes. rewrite map_map. f_equal. apply map_ext. by intros [].
Qed.

(** [for x in l { E(x, dst)?; }] *)
Lemma wp_foldM {A} (E : A -> Encoder) (l : list A) (Q : list u8 -> Prop) (R : A -> list u8 -> Prop) :
  (forall x, x ∈ l -> wp (E x) (R x)) ->
  (forall bss, Forall2 R l bss -> Q (concat bss)) ->
  wp (fun B BA dst => foldM (fun dst x => E x B BA dst) dst l) Q.
Proof.
  revert Q; induction l as [|x l IH]; intros Q HE HQ.
  { apply wp_ok. by apply (HQ []). }
  cbn [foldM]. apply wp_bind. eapply wp_mono; [apply HE; left|]. cbn. intros bs Hbs.
  apply IH; [intros; apply HE; by right|]. intros bss Hbss. apply (HQ (bs :: bss)). by constructor.
Qed.

(** ** Consequences *)

Lemma exec_ByteCounter {c} ps (n : Z) :
  exec ps (mkByteCounter (COUNT_SHARED := c) n)
  = Ok (mkByteCounter (n + if c then len (trace_bytes ps) else trace_slice_len ps)).
Proof.
  revert n. induction ps as [|p ps IH]; intros n.
  { unfold exec; cbn. do 2 f_equal. destruct c; unfold trace_bytes, trace_slice_len, len; cbn; lia. }
  change (exec (p :: ps) (mkByteCounter n))
    with (let? b := exec1 p (mkByteCounter (COUNT_SHARED := c) n) in exec ps b).
  unfold trace_bytes, trace_slice_len in *. cbn [map concat]. rewrite !len_app.
  destruct p, c; cbn [exec1 put_bytes slice_bytes]; unfold ok_or; cbn [try_put_slice put_shared
    put_done ByteCounter_accumulator into_count]; rewrite IH; do 2 f_equal; rewrite ?len_nil; lia.
Qed.

Lemma runs_ByteCounter {c} E ps :
  runs E ps None ->
  E _ (ByteCounter_accumulator c) ByteCounter_new
  = Ok (mkByteCounter (if c then len (trace_bytes ps) else trace_slice_len ps)).
Proof. intros Hr. rewrite Hr. unfold ByteCounter_new. by rewrite exec_ByteCounter. Qed.

Lemma runs_ByteCounter_err {c} E ps e :
  runs E ps (Some e) -> E _ (ByteCounter_accumulator c) ByteCounter_new = Err e.
Proof. intros Hr. rewrite Hr. unfold ByteCounter_new. by rewrite exec_ByteCounter. Qed.

(** Encoders that count the bytes of [E] first, as [encode_inner] and the
    property encoder do. *)
Lemma wp_counted (E : Encoder) (F : Z -> Encoder) (Q Q' : list u8 -> Prop) :
  wp E Q' ->
  (forall ps, runs E ps None -> Q' (trace_bytes ps) ->
    wp (F (len (trace_bytes ps))) Q) ->
  wp (fun B BA dst =>
        let? counter := E _ (ByteCounter_accumulator true) ByteCounter_new in
        F (into_count counter) B BA dst) Q.
Proof.
  intros (ps & [e|] & Hr & HQ') HF.
  - exists [], (Some e). split; [|done]. intros B BA b. by rewrite (runs_ByteCounter_err _ _ _ Hr).
  - eapply wp_ext; [|apply (HF ps Hr (HQ' eq_refl))].
    intros B BA b. by rewrite (runs_ByteCounter _ _ Hr).
Qed.

Lemma wp_runs E ps (Q : list u8 -> Prop) : runs E ps None -> Q (trace_bytes ps) -> wp E Q.
Proof. intros Hr HQ. exists ps, None. auto. Qed.

(** A [SingleAccumulator] never refuses. *)
Lemma exec_single ps s : exec ps (mkSingle s) = Ok (mkSingle (s ++ trace_bytes ps)).
Proof.
  revert s. unfold exec. induction ps as [|p ps IH]; intros s; cbn.
  - unfold trace_bytes; cbn. by rewrite app_nil_r.
  - unfold trace_bytes in *. destruct p; cbn; rewrite IH; cbn; by rewrite <- ?app_assoc.
Qed.

Lemma wp_single E Q s b :
  wp E Q -> E _ Single_accumulator (mkSingle s) = Ok b ->
  exists bs, b = mkSingle (s ++ bs) /\ Q bs.
Proof.
  intros (ps & [e|] & Hr & HQ) HE; rewrite Hr, exec_single in HE; [done|].
  injection HE as <-. exists (trace_bytes ps). auto.
Qed.

Section lawful.
Context {B : Type} `{LawfulAccumulator B}.

Lemma exec_view ps (b b' : B) : exec ps b = Ok b' -> view b' = view b ++ trace_bytes ps.
Proof.
  revert b. induction ps as [|p ps IH]; unfold exec in *; intros b E; cbn in E.
  { injection E as ->. unfold trace_bytes; cbn. by rewrite app_nil_r. }
  inv_ok E. rewrite (IH _ E). unfold trace_bytes; cbn. rewrite app_assoc. f_equal.
  destruct p; cbn in E0; unfold ok_or in E0; inv_ok E0; cbn.
  - by apply put_slice_view.
  - apply put_shared_view.
  - by rewrite app_nil_r, put_done_view.
Qed.

Lemma exec_room ps (b : B) :
  has_room b (trace_slice_len ps) -> exists b', exec ps b = Ok b'.
Proof.
  revert b. induction ps as [|p ps IH]; unfold exec in *; intros b Hr; cbn; [eauto|].
  unfold trace_slice_len in *. cbn in Hr. destruct p; cbn in *.
  - rewrite len_app in Hr. pose proof (len_nonneg (concat (map slice_bytes ps))).
    destruct (put_slice_room bs b _ Hr ltac:(lia)) as (b1 & -> & Hr1). cbn.
    apply IH. by replace (len (concat (map slice_bytes ps)))
      with (len bs + len (concat (map slice_bytes ps)) - len bs) by lia.
  - apply IH. by apply put_shared_room.
  - apply IH. by apply put_done_room.
Qed.

(** The bytes written are those a [SingleAccumulator] collects, and counting
    predicts their number. *)
Lemma traceable_view E (b b' : B) :
  traceable E -> E B _ b = Ok b' ->
  exists bs, view b' = view b ++ bs /\
    E _ Single_accumulator SingleAccumulator_new = Ok (mkSingle bs) /\
    E _ (ByteCounter_accumulator true) ByteCounter_new = Ok (mkByteCounter (len bs)).
Proof.
  intros (ps & [e|] & Hr & _) HE; rewrite Hr in HE; inv_ok HE.
  exists (trace_bytes ps). split; [|split].
  - by apply exec_view.
  - rewrite Hr. unfold SingleAccumulator_new. by rewrite exec_single.
  - apply (runs_ByteCounter (c := true) _ _ Hr).
Qed.

(** After [ByteCounter<false>] has counted, an accumulator with that much room
    accepts the whole encoding. *)
Lemma traceable_room E c (b : B) :
  traceable E ->
  E _ (ByteCounter_accumulator false) ByteCounter_new = Ok c ->
  has_room b (into_count c) -> exists b', E B _ b = Ok b'.
Proof.
  intros (ps & [e|] & Hr & _) HE Hroom.
  - rewrite (runs_ByteCounter_err _ _ _ Hr) in HE. done.
  - rewrite (runs_ByteCounter _ _ Hr) in HE. injection HE as <-. cbn in Hroom.
    destruct (exec_room ps b Hroom) as [b' Eb]. exists b'. by rewrite Hr, Eb.
Qed.
End lawful.
