(* ===== verification/Varint.v ===== *)
(** * Variable byte integers and the fixed header

    [decode_varint], [encode_varint], [decode_remaining_length],
    [encode_remaining_length] and [decode_fixed_header] of mqtt_proto.rs. *)

From S2P Require Export Encoders.
Local Open Scope Z_scope.

Definition DEFAULT_REMAINING_LENGTH_FIELD_MAX_LENGTH : usize := 4.

(** The largest value four groups of seven bits hold. *)
Definition VARINT_MAX : Z := 268435455.

(** [u32 << n] drops the bits shifted out. *)
Definition shl_u32 (x n : Z) : u32 := Z.shiftl x n mod 2 ^ 32.

(** The [loop] of [decode_varint]; [src] shrinks with every iteration. [Ok None]:
    the buffer ends before the integer does. *)
Fixpoint decode_varint_loop (result : u32) (num_bytes_read : usize) (src : list u8) :
    decode_result (option (u32 * list u8)) :=
  match src with
  | [] => Ok None
  | encoded_byte :: rest =>
      let result := Z.lor result (shl_u32 (Z.land encoded_byte 0x7F) (num_bytes_read * 7)) in
      let num_bytes_read := num_bytes_read + 1 in
      if Z.land encoded_byte 0x80 =? 0 then Ok (Some (result, rest))
      else if num_bytes_read =? DEFAULT_REMAINING_LENGTH_FIELD_MAX_LENGTH then
        Err DecodeError.VarintTooHigh
      else decode_varint_loop result num_bytes_read rest
  end.

Definition decode_varint (src : list u8) : decode_result (option (u32 * list u8)) :=
  decode_varint_loop 0 0 src.

(** [usize] is at least as wide as [u32], so the conversion never fails. *)
Definition decode_remaining_length (src : list u8) : decode_result (option (usize * list u8)) :=
  decode_varint src.

Definition decode_fixed_header (src : list u8) : decode_result (option (u8 * usize * list u8)) :=
  match src with
  | [] => Ok None
  | first_byte :: rest =>
      let? r := decode_remaining_length rest in
      match r with
      | None => Ok None
      | Some (remaining_length, rest) => Ok (Some (first_byte, remaining_length, rest))
      end
  end.

Section encode.
Context {B : Type} `{BytesAccumulator B}.

(** The [loop] of [encode_varint]. It leaves the loop at the latest when
    [num_bytes_written] is 4, so a fuel of 4 is never exhausted
    ([encode_varint_loop_fuel]). *)
Fixpoint encode_varint_loop (fuel : nat) (original item : u32) (num_bytes_written : usize)
    (dst : B) : encode_result B :=
  match fuel with
  | O => Err (EncodeError.VarintTooHigh original)
  | S fuel =>
      let encoded_byte := Z.land item 0x7F in
      let item := Z.shiftr item 7 in
      let encoded_byte := if item >? 0 then Z.lor encoded_byte 0x80 else encoded_byte in
      let? dst := ok_or (try_put_u8 encoded_byte dst) EncodeError.InsufficientBuffer in
      let num_bytes_written := num_bytes_written + 1 in
      if item =? 0 then Ok dst
      else if num_bytes_written =? DEFAULT_REMAINING_LENGTH_FIELD_MAX_LENGTH then
        Err (EncodeError.VarintTooHigh original)
      else encode_varint_loop fuel original item num_bytes_written dst
  end.

Definition encode_varint (item : u32) (dst : B) : encode_result B :=
  encode_varint_loop 4 item item 0 dst.

Definition encode_remaining_length (item : usize) (dst : B) : encode_result B :=
  if item >? u32_MAX then Err (EncodeError.RemainingLengthTooHigh item)
  else map_err (fun _ => EncodeError.RemainingLengthTooHigh item) (encode_varint item dst).

Lemma encode_varint_loop_fuel fuel fuel' original item num dst :
  4 - num <= Z.of_nat fuel -> 4 - num <= Z.of_nat fuel' -> 0 <= num < 4 ->
  encode_varint_loop fuel original item num dst = encode_varint_loop fuel' original item num dst.
Proof.
  revert fuel' item num dst; induction fuel as [|fuel IH]; intros [|fuel'] item num dst H1 H2 H3;
    try lia; cbn.
  destruct (ok_or _ _); [|done]. destruct (_ =? 0); [done|].
  destruct (num + 1 =? _) eqn:E; [done|].
  unfold DEFAULT_REMAINING_LENGTH_FIELD_MAX_LENGTH in E. bool_to_prop. apply IH; lia.
Qed.
End encode.

(** ** Lemmas *)

Lemma shl_u32_small x n :
  0 <= x -> 0 <= n -> x * 2 ^ n < 2 ^ 32 -> shl_u32 x n = Z.shiftl x n.
Proof.
  intros. unfold shl_u32. apply Z.mod_small. rewrite Z.shiftl_mul_pow2 by lia.
  split; [|lia]. apply Z.mul_nonneg_nonneg; lia.
Qed.

(** One iteration of the decoder: it adds the low seven bits, shifted. *)
Lemma decode_varint_loop_cons result num b rest :
  0 <= num < 4 -> is_u8 b -> 0 <= result < 2 ^ (num * 7) ->
  decode_varint_loop result num (b :: rest) =
    (let result := result + b mod 128 * 2 ^ (num * 7) in
     if b <? 128 then Ok (Some (result, rest))
     else if num =? 3 then Err DecodeError.VarintTooHigh
     else decode_varint_loop result (num + 1) rest).
Proof.
  intros Hn Hb Hr. cbn -[Z.mul Z.pow Z.modulo].
  rewrite land_127, shl_u32_small, lor_shiftl by
    (try lia; try (pose proof (Z.mod_pos_bound b 128 ltac:(lia));
      assert (num = 0 \/ num = 1 \/ num = 2 \/ num = 3) as [->|[->|[->| ->]]] by lia; cbn; lia)).
  replace (Z.land b 128 =? 0) with (b <? 128).
  2:{ symmetry. pose proof (byte_check (fun b => eqb (Z.land b 128 =? 0) (b <? 128)) eq_refl b Hb).
      by apply eqb_prop. }
  replace (num + 1 =? _) with (num =? 3); [done|].
  unfold DEFAULT_REMAINING_LENGTH_FIELD_MAX_LENGTH.
  destruct (num =? 3) eqn:E1, (num + 1 =? 4) eqn:E2; bool_to_prop; lia || done.
Qed.

Lemma byte_cont m : 0 <= m < 128 -> Z.lor m 128 = m + 128.
Proof.
  intros Hm.
  pose proof (byte_check (fun m => (m >=? 128) || (Z.lor m 128 =? m + 128)) eq_refl m
    ltac:(solve_range)) as H.
  apply orb_true_iff in H as [H|H]; [apply Z.geb_le in H; lia | bool_to_prop; lia].
Qed.

(** What the encoder's loop writes, the decoder's loop reads back. *)
Lemma encode_varint_loop_wp fuel original item num :
  4 - num <= Z.of_nat fuel -> 0 <= num < 4 -> 0 <= item ->
  wp (fun B BA dst => encode_varint_loop (H := BA) fuel original item num dst) (fun bs =>
    bytes_ok bs /\ 1 <= len bs <= 4 - num /\ item < 2 ^ (7 * (4 - num)) /\
    forall result rest, 0 <= result < 2 ^ (num * 7) ->
      decode_varint_loop result num (bs ++ rest) =
        Ok (Some (result + item * 2 ^ (num * 7), rest))).
Proof.
  revert item num; induction fuel as [|fuel IH]; intros item num Hf Hn Hi; [lia|].
  cbn [encode_varint_loop].
  rewrite land_127, Z.shiftr_div_pow2 by lia. change (2 ^ 7) with 128.
  pose proof (Z.mod_pos_bound item 128 ltac:(lia)) as Hm.
  pose proof (Z.div_mod item 128 ltac:(lia)) as Hd.
  pose proof (Z.div_pos item 128 Hi ltac:(lia)) as Hq.
  apply wp_put_u8. rewrite Z.gtb_ltb.
  destruct (item / 128 =? 0) eqn:E0; bool_to_prop.
  - apply wp_ok. rewrite E0 in *. cbn [Z.ltb Z.compare].
    assert (Hb : is_u8 (item mod 128)) by solve_range.
    rewrite to_be_bytes_1 by done. rewrite app_nil_r.
    split; [constructor; [done|constructor]|]. split; [rewrite len_cons, len_nil; lia|].
    split; [apply Z.lt_le_trans with (2 ^ 7); [cbn; lia | apply Z.pow_le_mono_r; lia]|].
    intros result rest Hr. cbn [app]. rewrite decode_varint_loop_cons by done. cbv zeta.
    replace (item mod 128 <? 128) with true by (symmetry; apply Z.ltb_lt; lia).
    rewrite Zmod_mod. do 3 f_equal. lia.
  - unfold DEFAULT_REMAINING_LENGTH_FIELD_MAX_LENGTH.
    destruct (num + 1 =? 4) eqn:E4; bool_to_prop; [apply wp_err|].
    eapply wp_mono; [apply IH; lia|]. cbv beta. intros bs (Hok & Hl & Hlt & Hdec).
    replace (0 <? item / 128) with true by (symmetry; apply Z.ltb_lt; lia).
    rewrite byte_cont by lia. set (b := item mod 128 + 128).
    assert (Hb : is_u8 b) by (unfold b; solve_range).
    rewrite to_be_bytes_1 by done. cbn [app]. split; [by constructor|].
    rewrite len_cons. split; [lia|]. split.
    { replace (7 * (4 - num)) with (7 + 7 * (4 - (num + 1))) by lia.
      rewrite Z.pow_add_r by lia. change (2 ^ 7) with 128. lia. }
    intros result rest Hr. rewrite decode_varint_loop_cons by done. cbv zeta.
    replace (b <? 128) with false by (symmetry; apply Z.ltb_ge; unfold b; lia).
    replace (num =? 3) with false by (symmetry; apply Z.eqb_neq; lia).
    replace (b mod 128) with (item mod 128) by
      (unfold b; rewrite <- Zplus_mod_idemp_r, Z_mod_same_full, Z.add_0_r; by rewrite Zmod_mod).
    assert (Hp : 2 ^ ((num + 1) * 7) = 2 ^ (num * 7) * 128) by
      (rewrite Z.mul_add_distr_r, Z.pow_add_r by lia; done).
    pose proof (Z.pow_pos_nonneg 2 (num * 7) ltac:(lia) ltac:(lia)).
    rewrite Hdec by (rewrite Hp; nia). do 3 f_equal. rewrite Hp. nia.
Qed.

(** What [encode_varint] writes: at most four bytes, which decode to the same
    number with nothing else consumed. *)
Lemma encode_varint_wp item :
  0 <= item ->
  wp (fun B BA dst => encode_varint (H := BA) item dst) (fun bs =>
    bytes_ok bs /\ 1 <= len bs <= 4 /\ item <= VARINT_MAX /\
    forall rest, decode_varint (bs ++ rest) = Ok (Some (item, rest))).
Proof.
  intros Hi. eapply wp_mono; [apply (encode_varint_loop_wp 4 item item 0); lia|].
  cbv beta. intros bs (Hok & Hl & Hlt & Hdec). split_and!; try done; try lia.
  - change (item < VARINT_MAX + 1) in Hlt. lia.
  - intros rest. unfold decode_varint. rewrite Hdec by (cbn; lia). do 3 f_equal. cbn; lia.
Qed.

Lemma encode_remaining_length_wp item :
  0 <= item ->
  wp (fun B BA dst => encode_remaining_length (H := BA) item dst) (fun bs =>
    bytes_ok bs /\ 1 <= len bs <= 4 /\ item <= VARINT_MAX /\
    forall rest, decode_remaining_length (bs ++ rest) = Ok (Some (item, rest))).
Proof.
  intros Hi. unfold encode_remaining_length. destruct (item >? u32_MAX); [apply wp_err|].
  apply wp_map_err. by apply encode_varint_wp.
Qed.

(** Whatever the number, the encoder's puts do not depend on the accumulator. *)
Lemma encode_varint_loop_traceable fuel original item num :
  traceable (fun B BA dst => encode_varint_loop (H := BA) fuel original item num dst).
Proof.
  revert item num; induction fuel as [|fuel IH]; intros item num; cbn [encode_varint_loop].
  { apply wp_err. }
  apply wp_put_u8. destruct (Z.shiftr item 7 =? 0); [by apply wp_ok|].
  destruct (num + 1 =? _); [apply wp_err | apply IH].
Qed.

Lemma encode_remaining_length_traceable item :
  traceable (fun B BA dst => encode_remaining_length (H := BA) item dst).
Proof.
  unfold encode_remaining_length. destruct (item >? u32_MAX); [apply wp_err|].
  apply wp_map_err, encode_varint_loop_traceable.
Qed.

Lemma encode_varint_wp_any item :
  wp (fun B BA dst => encode_varint (H := BA) item dst) (fun bs => 0 <= item ->
    bytes_ok bs /\ 1 <= len bs <= 4 /\ item <= VARINT_MAX /\
    forall rest, decode_varint (bs ++ rest) = Ok (Some (item, rest))).
Proof.
  destruct (Z.le_gt_cases 0 item).
  - eapply wp_mono; [by apply encode_varint_wp | auto].
  - eapply wp_mono; [apply encode_varint_loop_traceable | lia].
Qed.

(** A decoded integer fits in four groups of seven bits, and one to four bytes
    were consumed. *)
Lemma decode_varint_loop_ok src result num n rest :
  bytes_ok src -> 0 <= num < 4 -> 0 <= result < 2 ^ (num * 7) ->
  decode_varint_loop result num src = Ok (Some (n, rest)) ->
  0 <= n <= VARINT_MAX /\ bytes_ok rest /\ 1 <= len src - len rest <= 4 - num.
Proof.
  revert result num; induction src as [|b src IH]; intros result num Hs Hn Hr H; [done|].
  inversion_clear Hs as [|? ? Hb Hs'].
  rewrite decode_varint_loop_cons in H by done. cbv zeta in H.
  pose proof (Z.mod_pos_bound b 128 ltac:(lia)) as Hm. rewrite len_cons.
  assert (Hp : 2 ^ ((num + 1) * 7) = 2 ^ (num * 7) * 128) by
    (rewrite Z.mul_add_distr_r, Z.pow_add_r by lia; done).
  assert (Hpm : 2 ^ ((num + 1) * 7) <= 2 ^ 28) by (apply Z.pow_le_mono_r; lia).
  pose proof (Z.pow_pos_nonneg 2 (num * 7) ltac:(lia) ltac:(lia)).
  destruct (b <? 128).
  - injection H as <- <-. split; [|split; [done|lia]].
    change (2 ^ 28) with (VARINT_MAX + 1) in Hpm. nia.
  - destruct (num =? 3) eqn:E; [done|]. bool_to_prop.
    apply IH in H as (?&?&?); [|done|lia|rewrite Hp; nia]. split_and!; try done; lia.
Qed.

Lemma decode_varint_ok src n rest :
  bytes_ok src -> decode_varint src = Ok (Some (n, rest)) ->
  0 <= n <= VARINT_MAX /\ bytes_ok rest /\ 1 <= len src - len rest <= 4.
Proof.
  intros Hs H. apply decode_varint_loop_ok in H; try done; try (cbn; lia).
Qed.

(** More bytes never change what was decoded, and a failure stays one. *)
Lemma decode_varint_loop_app src more result num :
  decode_varint_loop result num src <> Ok None ->
  decode_varint_loop result num (src ++ more) =
    match decode_varint_loop result num src with
    | Ok (Some (n, rest)) => Ok (Some (n, rest ++ more))
    | r => r
    end.
Proof.
  revert result num; induction src as [|b src IH]; intros result num H; [done|].
  cbn -[Z.mul Z.pow Z.land] in *. destruct (Z.land b 128 =? 0); [done|].
  destruct (num + 1 =? _); [done|]. by apply IH.
Qed.

(** What the decoder of a variable byte integer leaves is a suffix, and what it
    consumed does not depend on it. *)
Lemma decode_varint_loop_split result num src n rest :
  decode_varint_loop result num src = Ok (Some (n, rest)) ->
  exists pre, src = pre ++ rest /\
    forall more, decode_varint_loop result num (pre ++ more) = Ok (Some (n, more)).
Proof.
  revert result num; induction src as [|b src IH]; intros result num E; [done|].
  cbn -[Z.mul Z.land] in E. destruct (Z.land b 128 =? 0) eqn:E1.
  - injection E as <- <-. exists [b]. split; [done|]. intros more. cbn -[Z.mul Z.land]. by rewrite E1.
  - destruct (num + 1 =? _) eqn:E2; [done|]. apply IH in E as (pre & -> & Hm). exists (b :: pre).
    split; [done|]. intros more. cbn -[Z.mul Z.land]. by rewrite E1, E2.
Qed.

(** On a growing buffer only the value decides whether [encode_varint] succeeds. *)
Lemma encode_varint_loop_single fuel original item num s :
  4 - num <= Z.of_nat fuel -> 0 <= num < 4 -> 0 <= item ->
  if item <? 2 ^ (7 * (4 - num))
  then is_ok (encode_varint_loop fuel original item num (mkSingle s)) = true
  else encode_varint_loop fuel original item num (mkSingle s)
       = Err (EncodeError.VarintTooHigh original).
Proof.
  revert item num s; induction fuel as [|fuel IH]; intros item num s Hf Hn Hi; [lia|].
  cbn [encode_varint_loop]. unfold ok_or, try_put_u8. cbn [try_put_slice Single_accumulator].
  rewrite Z.shiftr_div_pow2 by lia. change (2 ^ 7) with 128.
  pose proof (Z.div_mod item 128 ltac:(lia)) as Hd.
  pose proof (Z.mod_pos_bound item 128 ltac:(lia)) as Hm.
  assert (Hp : 2 ^ (7 * (4 - num)) = 128 * 2 ^ (7 * (3 - num))) by
    (replace (7 * (4 - num)) with (7 + 7 * (3 - num)) by lia; by rewrite Z.pow_add_r by lia).
  pose proof (Z.pow_pos_nonneg 2 (7 * (3 - num)) ltac:(lia) ltac:(lia)).
  destruct (item / 128 =? 0) eqn:E0; bool_to_prop.
  { rewrite E0 in Hd. by replace (item <? _) with true by (symmetry; apply Z.ltb_lt; nia). }
  unfold DEFAULT_REMAINING_LENGTH_FIELD_MAX_LENGTH.
  destruct (num + 1 =? 4) eqn:E4; bool_to_prop.
  { replace num with 3 in * by lia. change (2 ^ (7 * (3 - 3))) with 1 in Hp.
    replace (item <? _) with false; [done|]. symmetry; apply Z.ltb_ge. lia. }
  pose proof (IH (item / 128) (num + 1)
    (s ++ to_be_bytes 1 (if item / 128 >? 0 then Z.lor (Z.land item 127) 128 else Z.land item 127))
    ltac:(lia) ltac:(lia) ltac:(apply Z.div_pos; lia)) as H1.
  replace (4 - (num + 1)) with (3 - num) in H1 by lia.
  replace (item <? _) with (item / 128 <? 2 ^ (7 * (3 - num))); [exact H1|].
  rewrite Hp. destruct (item / 128 <? _) eqn:E1, (item <? 128 * _) eqn:E2; bool_to_prop; nia || done.
Qed.

Lemma encode_varint_single n s :
  0 <= n ->
  if n <=? VARINT_MAX then is_ok (encode_varint n (mkSingle s)) = true
  else encode_varint n (mkSingle s) = Err (EncodeError.VarintTooHigh n).
Proof.
  intros Hn. pose proof (encode_varint_loop_single 4 n n 0 s ltac:(lia) ltac:(lia) Hn) as H.
  change (2 ^ (7 * (4 - 0))) with (VARINT_MAX + 1) in H.
  replace (n <=? VARINT_MAX) with (n <? VARINT_MAX + 1); [exact H|].
  destruct (n <? _) eqn:E1, (n <=? _) eqn:E2; bool_to_prop; lia || done.
Qed.

Lemma decode_varint_loop_spec src result (k : nat) :
  bytes_ok src -> (k < 4)%nat -> 0 <= result < 2 ^ ((3 - Z.of_nat k) * 7) ->
  match decode_varint_loop result (3 - Z.of_nat k) src with
  | Ok (Some (n, rest)) => exists pre b, src = pre ++ b :: rest /\ (length pre <= k)%nat /\
      Forall (fun c => 128 <= c) pre /\ b < 128
  | Ok None => (length src <= k)%nat /\ Forall (fun c => 128 <= c) src
  | Err e => e = DecodeError.VarintTooHigh /\ (k < length src)%nat /\
      Forall (fun c => 128 <= c) (take (S k) src)
  end.
Proof.
  revert result k; induction src as [|b src IH]; intros result k Hs Hk Hr; [cbn; auto with lia|].
  inversion_clear Hs as [|? ? Hb Hs'].
  rewrite decode_varint_loop_cons by (done || lia). cbv zeta.
  destruct (b <? 128) eqn:Eb; bool_to_prop; [exists [], b; cbn; auto with lia|].
  destruct (3 - Z.of_nat k =? 3) eqn:E; bool_to_prop.
  { replace k with 0%nat by lia. cbn. auto with lia. }
  destruct k as [|k]; [lia|]. replace (3 - Z.of_nat (S k) + 1) with (3 - Z.of_nat k) by lia.
  assert (Hp : 2 ^ ((3 - Z.of_nat k) * 7) = 2 ^ ((3 - Z.of_nat (S k)) * 7) * 128) by
    (rewrite <- (Z.pow_add_r 2 _ 7) by lia; f_equal; lia).
  pose proof (Z.mod_pos_bound b 128 ltac:(lia)).
  pose proof (Z.pow_pos_nonneg 2 ((3 - Z.of_nat (S k)) * 7) ltac:(lia) ltac:(lia)).
  specialize (IH (result + b mod 128 * 2 ^ ((3 - Z.of_nat (S k)) * 7)) k Hs' ltac:(lia)
    ltac:(rewrite Hp; nia)).
  destruct (decode_varint_loop _ _ src) as [[[n rest]|]|e].
  - destruct IH as (pre & c & -> & Hl & Hf & Hc). exists (b :: pre), c. cbn. auto with lia.
  - destruct IH as [Hl Hf]. cbn. auto with lia.
  - destruct IH as (-> & Hl & Hf). cbn [length]. cbn [take]. auto with lia.
Qed.

(** ** Properties *)

(** Every value a variable byte integer can hold is encoded in one to four
    bytes that decode to it, leaving what follows; every larger value is
    refused with [VarintTooHigh]. *)
Theorem varint_roundtrip (n : u32) (s rest : list u8) :
  is_u32 n ->
  if n <=? VARINT_MAX then
    exists bs, encode_varint n (mkSingle s) = Ok (mkSingle (s ++ bs)) /\ 1 <= len bs <= 4 /\
      decode_varint (bs ++ rest) = Ok (Some (n, rest))
  else encode_varint n (mkSingle s) = Err (EncodeError.VarintTooHigh n).
Proof.
  intros Hn. pose proof (encode_varint_single n s ltac:(solve_range)) as H.
  destruct (n <=? VARINT_MAX) eqn:E; [|done].
  destruct (encode_varint n (mkSingle s)) as [b|] eqn:Eb; [|done].
  destruct (wp_single (fun B BA dst => encode_varint (H := BA) n dst) _ s b
    (encode_varint_wp n ltac:(solve_range)) Eb) as (bs & -> & _ & Hl & _ & Hdec).
  eauto.
Qed.

Lemma varint_roundtrip_witness :
  encode_varint 321 (mkSingle [9]) = Ok (mkSingle [9; 193; 2]) /\
  exists bs, encode_varint 321 (mkSingle [9]) = Ok (mkSingle ([9] ++ bs)) /\ 1 <= len bs <= 4 /\
      decode_varint (bs ++ [7]) = Ok (Some (321, [7])).
Proof.
  split; [reflexivity|]. apply (varint_roundtrip 321 [9] [7]). solve_range.
Defined.

(** C38: [decode_varint] consumes exactly a group of at most three
    continuation bytes and the byte that ends it, and yields a number of at
    most 28 bits; it asks for more input exactly when fewer than four bytes
    are there and all of them are continuation bytes, and its only error is
    four continuation bytes in a row. *)
Theorem decode_varint_spec (src : list u8) :
  bytes_ok src ->
  match decode_varint src with
  | Ok (Some (n, rest)) => 0 <= n <= VARINT_MAX /\
      exists pre b, src = pre ++ b :: rest /\ len pre <= 3 /\ Forall (fun c => 128 <= c) pre /\ b < 128
  | Ok None => len src < 4 /\ Forall (fun c => 128 <= c) src
  | Err e => e = DecodeError.VarintTooHigh /\ 4 <= len src /\ Forall (fun c => 128 <= c) (take 4 src)
  end.
Proof.
  intros Hs. unfold decode_varint.
  pose proof (decode_varint_loop_spec src 0 3 Hs ltac:(lia) ltac:(cbn; lia)) as H.
  change (3 - Z.of_nat 3) with 0 in H. pose proof (decode_varint_ok src) as Hok.
  unfold decode_varint in Hok. destruct (decode_varint_loop 0 0 src) as [[[n rest]|]|e].
  - split; [by apply (Hok n rest)|]. destruct H as (pre & b & -> & Hl & Hf & Hb).
    exists pre, b. unfold len. auto with lia.
  - unfold len. destruct H. auto with lia.
  - unfold len. destruct H as (? & ? & ?). auto with lia.
Qed.

Lemma decode_varint_spec_witness :
  decode_varint [255; 1; 3] = Ok (Some (255, [3])) /\
  0 <= 255 <= VARINT_MAX /\
  exists pre b, [255; 1; 3] = pre ++ b :: [3] /\ len pre <= 3 /\ Forall (fun c => 128 <= c) pre /\ b < 128.
Proof.
  split; [reflexivity|]. apply (decode_varint_spec [255; 1; 3]).
  repeat (constructor; [solve_range|]). constructor.
Defined.
