(* ===== verification/Utf8.v ===== *)
(** * Rust strings

    A [str] is the list of its bytes. The std operations the code uses on it
    are modelled here: [char_indices] and [chars] decode UTF-8, [split] and
    [starts_with] with an ASCII character and [strip_prefix] work on the bytes,
    as std implements them.

    [bstr::decode_utf8] and the Unicode tables of [unicode_properties] are
    foreign code: the class [Unicode] is the parameter that stands for them and
    [UnicodeLaws] states the documented behaviour the code relies on. *)

From S2P Require Export Varint.
Local Open Scope Z_scope.

Abbreviation str := (list u8) (only parsing).

(** A string literal of the source, which is ASCII. *)
Definition lit (s : string) : str := map (fun c => Z.of_N (Ascii.N_of_ascii c)) (String.list_ascii_of_string s).

(** A Rust [char] is its code point. *)
Abbreviation char := Z (only parsing).

(** The Unicode scalar values. *)
Definition is_char (c : char) : Prop :=
  0 <= c < 0xD800 \/ 0xE000 <= c < 0x110000.

(** [char::encode_utf8]. *)
Definition utf8_encode (c : char) : str :=
  if c <? 0x80 then [c]
  else if c <? 0x800 then [0xC0 + c / 64; 0x80 + c mod 64]
  else if c <? 0x10000 then [0xE0 + c / 4096; 0x80 + c / 64 mod 64; 0x80 + c mod 64]
  else [0xF0 + c / 262144; 0x80 + c / 4096 mod 64; 0x80 + c / 64 mod 64; 0x80 + c mod 64].

(** [str::char_indices], starting at the byte offset [i]. A [str] is valid
    UTF-8, so the cases of a truncated character do not occur. *)
Fixpoint char_indices (i : usize) (s : str) : list (usize * char) :=
  match s with
  | [] => []
  | x :: s1 =>
      if x <? 0x80 then (i, x) :: char_indices (i + 1) s1
      else
        match s1 with
        | [] => []
        | y :: s2 =>
            if x <? 0xE0 then (i, x mod 32 * 64 + y mod 64) :: char_indices (i + 2) s2
            else
              match s2 with
              | [] => []
              | z :: s3 =>
                  if x <? 0xF0 then
                    (i, x mod 32 * 4096 + y mod 64 * 64 + z mod 64) :: char_indices (i + 3) s3
                  else
                    match s3 with
                    | [] => []
                    | w :: s4 =>
                        (i, x mod 8 * 262144 + y mod 64 * 4096 + z mod 64 * 64 + w mod 64)
                          :: char_indices (i + 4) s4
                    end
              end
        end
  end.

(** [str::chars]. *)
Definition chars (s : str) : list char := map snd (char_indices 0 s).

(** [str::split(c)] for an ASCII [c]. *)
Fixpoint str_split (c : u8) (s : str) : list str :=
  match s with
  | [] => [[]]
  | b :: s' =>
      if b =? c then [] :: str_split c s'
      else match str_split c s' with
           | l :: ls => (b :: l) :: ls
           | [] => [[b]]
           end
  end.

(** [str::starts_with(c)] for an ASCII [c]. *)
Definition starts_with (c : u8) (s : str) : bool :=
  match s with b :: _ => b =? c | [] => false end.

Definition str_eqb (s1 s2 : str) : bool := bool_decide (s1 = s2).

(** [str::strip_prefix]. *)
Fixpoint strip_prefix (prefix s : str) : option str :=
  match prefix, s with
  | [], s => Some s
  | p :: prefix', b :: s' => if p =? b then strip_prefix prefix' s' else None
  | _, _ => None
  end.

(** The values of [GeneralCategory] the code distinguishes. *)
Inductive GeneralCategory : Set := Control | Unassigned | OtherCategory.

Definition GeneralCategory_eqb (a b : GeneralCategory) : bool :=
  match a, b with
  | Control, Control | Unassigned, Unassigned | OtherCategory, OtherCategory => true
  | _, _ => false
  end.

Class Unicode := {
  decode_utf8 : list u8 -> option char * nat;
  general_category : char -> GeneralCategory;
}.

(** [bstr::decode_utf8]: "If successful, the corresponding codepoint is returned
    along with the number of bytes it was encoded with." The printable ASCII
    characters are encoded as themselves and are neither control characters nor
    unassigned. *)
Class UnicodeLaws `{Unicode} := {
  decode_utf8_sound : forall b c n, decode_utf8 b = (Some c, n) ->
    is_char c /\ exists rest, b = utf8_encode c ++ rest /\ n = length (utf8_encode c);
  decode_utf8_printable : forall c rest, 0x20 <= c < 0x7F ->
    decode_utf8 (c :: rest) = (Some c, 1%nat) /\ general_category c = OtherCategory;
}.
Arguments UnicodeLaws {_}.

(** A concrete decoder, restricted to ASCII, used to evaluate the model. *)
Definition ascii_decode_utf8 (b : list u8) : option char * nat :=
  match b with
  | x :: _ => if (0 <=? x) && (x <? 0x80) then (Some x, 1%nat) else (None, 1%nat)
  | [] => (None, 0%nat)
  end.

Definition ascii_general_category (c : char) : GeneralCategory :=
  if (c <? 0x20) || (c =? 0x7F) then Control else OtherCategory.

Definition Ascii : Unicode :=
  {| decode_utf8 := ascii_decode_utf8; general_category := ascii_general_category |}.

Lemma Ascii_laws : @UnicodeLaws Ascii.
Proof.
  split.
  - intros b c n H. destruct b as [|x b]; [done|]. cbn in H.
    destruct ((0 <=? x) && (x <? 128)) eqn:E; [|done]. injection H as <- <-. bool_to_prop.
    split; [unfold is_char; lia|]. exists b. unfold utf8_encode. by decide_ltb x 128.
  - intros c rest Hc. cbn. unfold ascii_general_category. decide_ltb c 128. decide_ltb c 32.
    replace (0 <=? c) with true by (symmetry; apply Z.leb_le; lia).
    by replace (c =? 127) with false by (symmetry; apply Z.eqb_neq; lia).
Qed.

(** ** [validate_mqtt_string] (mqtt_proto/byte_str.rs) *)

Section validate.
Context `{Unicode}.

(** The [while] loop. Every iteration that goes on consumes the bytes of one
    character, so a fuel of the length of [b] is enough
    ([validate_loop_fuel]). *)
Fixpoint validate_loop (fuel : nat) (b : list u8) : decode_result unit :=
  match b, fuel with
  | [], _ => Ok tt
  | _, O => Err (DecodeError.InvalidByteStr "invalid UTF-8")
  | _, S fuel =>
      match decode_utf8 b with
      | (Some c, c_len) =>
          if c =? 0 then Err (DecodeError.InvalidByteStr "contains U+0000")
          else if GeneralCategory_eqb (general_category c) Control then
            Err (DecodeError.InvalidByteStr "contains control codepoint")
          else if GeneralCategory_eqb (general_category c) Unassigned then
            Err (DecodeError.InvalidByteStr "contains non-character codepoint")
          else validate_loop fuel (drop c_len b)
      | (None, _) => Err (DecodeError.InvalidByteStr "invalid UTF-8")
      end
  end.

Definition validate_mqtt_string (b : list u8) : decode_result unit :=
  validate_loop (length b) b.
End validate.

(** ** Lemmas *)

Lemma utf8_encode_length c : (1 <= length (utf8_encode c) <= 4)%nat.
Proof. unfold utf8_encode. repeat destruct (_ <? _); cbn; lia. Qed.

Lemma validate_loop_fuel `{UnicodeLaws} fuel fuel' b :
  (length b <= fuel)%nat -> (length b <= fuel')%nat ->
  validate_loop fuel b = validate_loop fuel' b.
Proof.
  revert fuel' b; induction fuel as [|fuel IH]; intros [|fuel'] [|x b] H1 H2;
    try done; try (cbn in *; lia).
  cbn [validate_loop]. destruct (decode_utf8 (x :: b)) as [[c|] n] eqn:E; [|done].
  repeat (case_match; [done|]). apply decode_utf8_sound in E as (_ & rest & E & ->).
  pose proof (utf8_encode_length c). cbn in H1, H2.
  apply IH; rewrite length_drop; cbn; lia.
Qed.

(** A validated string is a sequence of encoded scalar values, none of them
    U+0000, a control character or unassigned. *)
Lemma validate_loop_chars `{UnicodeLaws} fuel b :
  validate_loop fuel b = Ok tt ->
  exists cs, b = concat (map utf8_encode cs) /\
    Forall (fun c => is_char c /\ c <> 0 /\ general_category c = OtherCategory) cs.
Proof.
  revert b; induction fuel as [|fuel IH]; intros [|x b] H1; try done; try by exists [].
  cbn [validate_loop] in H1.
  destruct (decode_utf8 (x :: b)) as [[c|] n] eqn:E; [|done].
  apply decode_utf8_sound in E as (Hc & rest & E & ->). rewrite E, drop_app_length in H1.
  destruct (c =? 0) eqn:E0; [done|]. destruct (GeneralCategory_eqb _ Control) eqn:E1; [done|].
  destruct (GeneralCategory_eqb _ Unassigned) eqn:E2; [done|]. bool_to_prop.
  apply IH in H1 as (cs & -> & Hcs). exists (c :: cs). split; [done|]. constructor; [|done].
  split_and!; [done..|]. by destruct (general_category c).
Qed.

Lemma char_indices_encode i c rest :
  is_char c ->
  char_indices i (utf8_encode c ++ rest) = (i, c) :: char_indices (i + len (utf8_encode c)) rest.
Proof.
  unfold is_char, utf8_encode. intros Hc.
  destruct (c <? 0x80) eqn:E1; [cbn [app char_indices]; by rewrite E1|].
  destruct (c <? 0x800) eqn:E2; [|destruct (c <? 0x10000) eqn:E3];
    bool_to_prop; cbn [app char_indices]; unfold len; cbn [length].
  - decide_ltb (192 + c / 64) 128. decide_ltb (192 + c / 64) 224. do 2 f_equal. zarith.
  - decide_ltb (224 + c / 4096) 128. decide_ltb (224 + c / 4096) 224.
    decide_ltb (224 + c / 4096) 240. do 2 f_equal. zarith.
  - decide_ltb (240 + c / 262144) 128. decide_ltb (240 + c / 262144) 224.
    decide_ltb (240 + c / 262144) 240. do 2 f_equal. zarith.
Qed.

Lemma chars_encode cs : Forall is_char cs -> chars (concat (map utf8_encode cs)) = cs.
Proof.
  unfold chars. generalize 0. induction cs as [|c cs IH]; intros i Hcs; cbn; [done|].
  inversion_clear Hcs. rewrite char_indices_encode by done. cbn. by rewrite IH.
Qed.

(** The bytes of a character beyond ASCII are all at least 0x80. *)
Lemma utf8_encode_high c :
  is_char c -> 0x80 <= c -> Forall (fun b => 0x80 <= b) (utf8_encode c) /\ utf8_encode c <> [].
Proof.
  unfold is_char, utf8_encode. intros Hc Hh.
  decide_ltb c 128.
  destruct (c <? 2048), (c <? 65536); split; try done; repeat constructor; zarith.
Qed.

Lemma utf8_encode_low c : c < 0x80 -> utf8_encode c = [c].
Proof. unfold utf8_encode. intros H. by decide_ltb c 128. Qed.

Lemma str_split_nonempty c s : str_split c s <> [].
Proof. destruct s as [|b s]; cbn; [done|]. destruct (b =? c); [done|]. by destruct (str_split c s). Qed.

(** Joining the pieces with the separator gives the string back. *)
Lemma str_split_join c s : foldr (fun l acc => match acc with None => Some l | Some a => Some (l ++ c :: a) end)
  None (str_split c s) = Some s.
Proof.
  induction s as [|b s IH]; cbn; [done|]. destruct (b =? c) eqn:E; cbn.
  - rewrite IH. bool_to_prop. by subst.
  - destruct (str_split c s) as [|l ls]; [done|]. cbn in *.
    destruct (foldr _ None ls); injection IH as <-; done.
Qed.

(** Printable ASCII strings are valid. *)
Lemma validate_printable `{UnicodeLaws} s :
  Forall (fun c => 0x20 <= c < 0x7F) s -> validate_mqtt_string s = Ok tt.
Proof.
  unfold validate_mqtt_string. induction 1 as [|c s Hc _ IH]; [done|]. cbn [length validate_loop].
  destruct (decode_utf8_printable c s Hc) as [-> ->].
  replace (c =? 0) with false by (symmetry; apply Z.eqb_neq; lia). exact IH.
Qed.
