(* ===== verification/Strings.v ===== *)
(** * Binary data, strings and topic names

    mqtt_proto/binary_data.rs, mqtt_proto/byte_str.rs and mqtt_proto/topic.rs.
    As in the code, a [BinaryData] is the buffer that holds the two-byte length
    prefix and the data, so encoding is one [put_shared] of that buffer. *)

From S2P Require Export Utf8.
Local Open Scope Z_scope.

(** ** [BinaryData] *)

Record BinaryData : Set := mkBinaryData { bd_shared : Shared }.

Definition BinaryData_EMPTY : list u8 := [0; 0].

Definition U16_SIZE : usize := 2.

Definition BinaryData_as_bytes (b : BinaryData) : list u8 := drop 2 (bd_shared b).

Definition BinaryData_len (b : BinaryData) : usize := len (bd_shared b) - U16_SIZE.

Definition BinaryData_is_empty (b : BinaryData) : bool :=
  bool_decide (bd_shared b = BinaryData_EMPTY).

(** [BinaryData::new]: the caller's buffer must have nothing filled, and a
    length that does not fit in a [u16] panics (after the space was reserved). *)
Definition BinaryData_new {O} `{Owned O} (s : list u8) (o : O) :
    outcome (result PoolError (BinaryData * O)) :=
  if list_is_empty (filled o) then
    match owned_reserve (len s + U16_SIZE) o with
    | Err e => Returns (Err e)
    | Ok o =>
        if len s >? u16_MAX then Panics "len is too big for u16"
        else
          let o := fill_with (to_be_bytes 2 (len s)) (fst (unfilled_mut o)) in
          let o := fill_with s (fst (unfilled_mut o)) in
          let '(shared, o) := split_filled o in
          Returns (Ok (mkBinaryData shared, o))
    end
  else Panics "assertion failed: owned.filled_is_empty()".

(** [BinaryData::decode]. *)
Definition BinaryData_decode (src : Shared) : option (BinaryData * Shared) :=
  match src with
  | a :: b :: _ =>
      let n := from_be_bytes [a; b] in
      if len src <? U16_SIZE + n then None
      else
        let '(s, src) := split_to (U16_SIZE + n) src in
        Some (mkBinaryData s, src)
  | _ => None
  end.

(** [BinaryData::from_shared]. *)
Definition BinaryData_from_shared (src : Shared) : decode_result BinaryData :=
  match BinaryData_decode src with
  | Some (b, []) => Ok b
  | Some (_, _) => Err DecodeError.TrailingGarbage
  | None => Err DecodeError.IncompletePacket
  end.

(** [BinaryData::encode]. *)
Definition BinaryData_encode {B} `{BytesAccumulator B} (b : BinaryData) (dst : B) : encode_result B :=
  Ok (put_shared (bd_shared b) dst).

(** The prefix is the length of the data. *)
Definition bd_wf (b : BinaryData) : Prop :=
  exists data, bd_shared b = to_be_bytes 2 (len data) ++ data /\ is_u16 (len data) /\ bytes_ok data.

(** ** [ByteStr] *)

Record ByteStr : Set := mkByteStr { bs_data : BinaryData }.

(** [AsRef<str>]: the types a topic name or filter is built from. *)
Class AsRefStr (S : Type) := as_ref : S -> str.

#[export] Instance str_as_ref : AsRefStr str := fun s => s.
#[export] Instance ByteStr_as_ref : AsRefStr ByteStr := fun s => BinaryData_as_bytes (bs_data s).

Definition ByteStr_is_empty (s : ByteStr) : bool := BinaryData_is_empty (bs_data s).

Definition ByteStr_len (s : ByteStr) : usize := BinaryData_len (bs_data s).

(** [ByteStr::new]. *)
Definition ByteStr_new {O} `{Owned O} (s : str) (o : O) : outcome (result PoolError (ByteStr * O)) :=
  let! r := BinaryData_new s o in
  match r with
  | Ok (b, o) => Returns (Ok (mkByteStr b, o))
  | Err e => Returns (Err e)
  end.

Section decode.
Context `{Unicode}.

(** [ByteStr::decode]. *)
Definition ByteStr_decode (src : Shared) : decode_result (option (ByteStr * Shared)) :=
  match BinaryData_decode src with
  | None => Ok None
  | Some (b, src) =>
      let? _ := validate_mqtt_string (BinaryData_as_bytes b) in
      Ok (Some (mkByteStr b, src))
  end.

(** [ByteStr::from_utf8_shared]. *)
Definition ByteStr_from_utf8_shared (src : Shared) : decode_result ByteStr :=
  match ByteStr_decode src with
  | Ok (Some (s, [])) => Ok s
  | Ok (Some (_, _)) => Err DecodeError.TrailingGarbage
  | Ok None => Err DecodeError.IncompletePacket
  | Err err => Err err
  end.

Definition bs_wf (s : ByteStr) : Prop :=
  bd_wf (bs_data s) /\ validate_mqtt_string (as_ref s) = Ok tt.
End decode.

(** [ByteStr::encode]. *)
Definition ByteStr_encode {B} `{BytesAccumulator B} (s : ByteStr) (dst : B) : encode_result B :=
  BinaryData_encode (bs_data s) dst.

(** ** [Topic] *)

(** ['$'], ['/'], ['+'], ['#']. *)
Definition DOLLAR_SIGN : char := 0x24.
Definition SEPARATOR : char := 0x2F.
Definition SINGLE_LEVEL_MATCH : char := 0x2B.
Definition MULTI_LEVEL_MATCH : char := 0x23.

Record Topic (S : Type) := mkTopic { topic_inner : S }.
Arguments mkTopic {_} _.
Arguments topic_inner {_} _.

Definition is_wildcard_char (c : char) : bool :=
  (c =? MULTI_LEVEL_MATCH) || (c =? SINGLE_LEVEL_MATCH).

Section topic.
Context `{Unicode} {S : Type} `{AsRefStr S}.

(** [Topic::new]. *)
Definition Topic_new (inner : S) : decode_result (Topic S) :=
  let s := as_ref inner in
  if list_is_empty s then Err DecodeError.EmptyTopic
  else if len s >? u16_MAX then Err (DecodeError.InvalidByteStr "longer than 65,535 bytes")
  else
    let? _ := validate_mqtt_string s in
    if existsb is_wildcard_char (chars s) then Err (DecodeError.InvalidTopic s)
    else Ok (mkTopic inner).

Definition Topic_as_str (t : Topic S) : str := as_ref (topic_inner t).

(** [impl IntoIterator for &Topic]: the levels. *)
Definition Topic_into_iter (t : Topic S) : list str := str_split SEPARATOR (Topic_as_str t).
End topic.

Section topic_bytestr.
Context `{Unicode}.

(** [Topic::<String>::combine]. *)
Definition Topic_combine (first : str) (second : Topic str) : decode_result (Topic str) :=
  if existsb is_wildcard_char (chars first) then Err (DecodeError.InvalidTopic first)
  else Topic_new (first ++ Topic_as_str second).

(** [Topic::<ByteStr>::decode]. *)
Definition Topic_decode (src : Shared) : decode_result (option (Topic ByteStr * Shared)) :=
  let? r := ByteStr_decode src in
  match r with
  | None => Ok None
  | Some (s, src) =>
      let? topic := Topic_new s in
      Ok (Some (topic, src))
  end.

Definition topic_wf (t : Topic ByteStr) : Prop :=
  bs_wf (topic_inner t) /\ Topic_new (topic_inner t) = Ok t.
End topic_bytestr.

(** [Topic::<ByteStr>::encode]. *)
Definition Topic_encode {B} `{BytesAccumulator B} (t : Topic ByteStr) (dst : B) : encode_result B :=
  let? dst := ByteStr_encode (topic_inner t) dst in Ok dst.

(** [Topic::<String>::encode]; [expect("topic too long")] is a panic. *)
Definition Topic_String_encode {B} `{BytesAccumulator B} (t : Topic str) (dst : B) :
    outcome (encode_result B) :=
  if len (topic_inner t) >? u16_MAX then Panics "topic too long"
  else Returns (
    let? dst := ok_or (try_put_u16_be (len (topic_inner t)) dst) EncodeError.InsufficientBuffer in
    let? dst := ok_or (try_put_slice (topic_inner t) dst) EncodeError.InsufficientBuffer in
    Ok dst).

(** ** Lemmas on binary data *)

Lemma len_to_be_bytes n z : len (to_be_bytes n z) = Z.of_nat n.
Proof. unfold len. by rewrite length_to_be_bytes. Qed.

Lemma bd_wf_bytes b : bd_wf b -> bytes_ok (bd_shared b).
Proof.
  intros (data & -> & _ & Hok). apply Forall_app; split; [apply to_be_bytes_ok | done].
Qed.

Lemma to_be_bytes_2 n : is_u16 n -> exists a b, to_be_bytes 2 n = [a; b] /\ from_be_bytes [a; b] = n.
Proof.
  intros Hn. eexists _, _. split; [reflexivity|].
  apply (from_to_be_bytes 2). cbn; solve_range.
Qed.

Lemma from_be_bytes_2 a b :
  is_u8 a -> is_u8 b -> to_be_bytes 2 (from_be_bytes [a; b]) = [a; b].
Proof.
  intros Ha Hb. unfold from_be_bytes. cbn [foldl to_be_bytes].
  change (8 * Z.of_nat 1) with 8. change (8 * Z.of_nat 0) with 0.
  rewrite Z.shiftr_0_r, !land_255, Z.shiftr_div_pow2 by lia. change (2 ^ 8) with 256.
  unfold is_u8, u8_MAX in *. f_equal; [zarith|]. f_equal. zarith.
Qed.

(** Decoding the buffer of a well-formed value takes exactly that buffer. *)
Lemma BinaryData_decode_put b rest :
  bd_wf b -> BinaryData_decode (bd_shared b ++ rest) = Some (b, rest).
Proof.
  destruct b as [sh]. intros (data & E & Hn & Hok). cbn [bd_shared] in E. subst sh. cbn [bd_shared].
  destruct (to_be_bytes_2 (len data) Hn) as (a & c & Ea & En). unfold BinaryData_decode.
  rewrite Ea. cbn [app]. rewrite En. rewrite !len_cons, len_app.
  pose proof (len_nonneg rest). unfold U16_SIZE, split_to.
  destruct (_ <? _) eqn:E; bool_to_prop; [lia|].
  replace (Z.to_nat (2 + len data)) with (2 + length data)%nat by (unfold len; lia).
  cbn [take drop Nat.add]. by rewrite take_app_length, drop_app_length.
Qed.

Lemma BinaryData_decode_ok src b rest :
  bytes_ok src -> BinaryData_decode src = Some (b, rest) ->
  bd_wf b /\ src = bd_shared b ++ rest.
Proof.
  intros Hs H. unfold BinaryData_decode, split_to, U16_SIZE in H. inv_ok H.
  bool_to_prop. cbn [bd_shared].
  inversion_clear Hs as [|? ? Ha Hs']. inversion_clear Hs' as [|? ? Hb Hs''].
  set (n := from_be_bytes [z; z0]) in *.
  assert (Hn : is_u16 n).
  { pose proof (from_be_bytes_range [z; z0] ltac:(repeat (constructor; [done|]); constructor)) as Hr.
    change (256 ^ len [z; z0]) with 65536 in Hr. fold n in Hr. solve_range. }
  rewrite !len_cons in E1. unfold is_u16 in Hn.
  replace (Z.to_nat (2 + n)) with (S (S (Z.to_nat n))) by lia. cbn [take drop].
  assert (Hl : len (take (Z.to_nat n) l0) = n).
  { unfold len in *. rewrite length_take. lia. }
  split.
  - exists (take (Z.to_nat n) l0). rewrite Hl. split_and!; [|done..|by apply bytes_ok_take].
    cbn [bd_shared]. unfold n. by rewrite from_be_bytes_2.
  - cbn [bd_shared app]. by rewrite take_drop.
Qed.

Lemma BinaryData_encode_wp b Q :
  Q (bd_shared b) -> wp (fun B BA dst => BinaryData_encode (H := BA) b dst) Q.
Proof. intros HQ. by apply wp_put_shared_ok. Qed.

Lemma bd_as_bytes b data :
  bd_shared b = to_be_bytes 2 (len data) ++ data -> BinaryData_as_bytes b = data.
Proof. unfold BinaryData_as_bytes. by intros ->. Qed.

(** [BinaryData::new] on a lawful buffer builds a well-formed value with the
    given data and leaves the buffer with nothing filled. *)
Lemma BinaryData_new_ok {O} `{LawfulOwned O} s (o : O) b o' :
  bytes_ok s -> BinaryData_new s o = Returns (Ok (b, o')) ->
  bd_wf b /\ BinaryData_as_bytes b = s /\ filled o' = [].
Proof.
  unfold BinaryData_new. intros Hs E.
  destruct (list_is_empty (filled o)) eqn:Ee; [|done].
  destruct (owned_reserve _ o) as [o1|] eqn:Er; [|done].
  destruct (len s >? u16_MAX) eqn:El; [done|]. rewrite Z.gtb_ltb in El. bool_to_prop.
  assert (Hf1 : filled o1 = []).
  { apply owned_reserve_filled in Er. by destruct (filled o); rewrite Er. }
  pose proof (owned_reserve_capacity _ _ _ Er) as Hc1.
  pose proof (len_nonneg s) as Hl0.
  set (o2 := fill_with (to_be_bytes 2 (len s)) (fst (unfilled_mut o1))) in *.
  assert (Hm1 : len (to_be_bytes 2 (len s)) <= snd (unfilled_mut o1)).
  { rewrite len_to_be_bytes. pose proof (unfilled_mut_len _ _ Hc1). unfold U16_SIZE in *. lia. }
  assert (Hf2 : filled o2 = to_be_bytes 2 (len s)).
  { unfold o2. rewrite (fill_with_filled _ _ _ (unfilled_mut_capacity o1) Hm1).
    by rewrite unfilled_mut_filled, Hf1. }
  pose proof (fill_with_capacity _ _ _ (unfilled_mut_capacity o1) Hm1) as Hc2. fold o2 in Hc2.
  pose proof (unfilled_mut_len _ _ Hc2) as Hm2.
  assert (Hm3 : len s <= snd (unfilled_mut o2)).
  { rewrite len_to_be_bytes in Hm2. pose proof (unfilled_mut_len _ _ Hc1). unfold U16_SIZE in *. lia. }
  set (o3 := fill_with s (fst (unfilled_mut o2))) in *.
  assert (Hf3 : filled o3 = to_be_bytes 2 (len s) ++ s).
  { unfold o3. rewrite (fill_with_filled _ _ _ (unfilled_mut_capacity o2) Hm3).
    by rewrite unfilled_mut_filled, Hf2. }
  pose proof (split_filled_shared o3) as H1. pose proof (split_filled_rest o3) as H2.
  destruct (split_filled o3) as [sh rest]. injection E as <- <-. cbn in H1, H2.
  rewrite Hf3 in H1. subst sh. split_and!; [|by apply bd_as_bytes|done].
  exists s. split_and!; [done|solve_range|done].
Qed.

(** ** Lemmas on strings and topics *)

Section strings.
Context `{Unicode}.

Lemma ByteStr_decode_put s rest :
  bs_wf s -> ByteStr_decode (bd_shared (bs_data s) ++ rest) = Ok (Some (s, rest)).
Proof.
  intros [Hb Hv]. unfold ByteStr_decode. rewrite BinaryData_decode_put by done.
  unfold as_ref, ByteStr_as_ref in Hv. rewrite Hv. by destruct s.
Qed.

Lemma ByteStr_decode_ok src s rest :
  bytes_ok src -> ByteStr_decode src = Ok (Some (s, rest)) ->
  bs_wf s /\ src = bd_shared (bs_data s) ++ rest.
Proof.
  unfold ByteStr_decode. intros Hs E. inv_ok E.
  apply BinaryData_decode_ok in E0 as [Hb ->]; [|done].
  match goal with u : unit |- _ => destruct u end. by split.
Qed.

Lemma ByteStr_encode_wp s Q :
  Q (bd_shared (bs_data s)) -> wp (fun B BA dst => ByteStr_encode (H := BA) s dst) Q.
Proof. apply BinaryData_encode_wp. Qed.

Lemma Topic_decode_put t rest :
  topic_wf t -> Topic_decode (bd_shared (bs_data (topic_inner t)) ++ rest) = Ok (Some (t, rest)).
Proof. intros [Hs Ht]. unfold Topic_decode. rewrite ByteStr_decode_put by done. by rewrite Ht. Qed.

Lemma Topic_new_inner {S} `{AsRefStr S} (s : S) t : Topic_new s = Ok t -> topic_inner t = s.
Proof. unfold Topic_new. intros E. by inv_ok E. Qed.

Lemma Topic_decode_ok src t rest :
  bytes_ok src -> Topic_decode src = Ok (Some (t, rest)) ->
  topic_wf t /\ src = bd_shared (bs_data (topic_inner t)) ++ rest.
Proof.
  unfold Topic_decode. intros Hs E. inv_ok E.
  apply ByteStr_decode_ok in E0 as [Hb ->]; [|done].
  pose proof (Topic_new_inner _ _ E3) as <-. split; [|done]. by split.
Qed.

Lemma Topic_encode_wp t Q :
  Q (bd_shared (bs_data (topic_inner t))) -> wp (fun B BA dst => Topic_encode (H := BA) t dst) Q.
Proof.
  intros HQ. unfold Topic_encode. apply wp_bind, ByteStr_encode_wp, wp_ok. by rewrite app_nil_r.
Qed.
End strings.

Arguments bs_wf : simpl never.
Arguments bd_wf : simpl never.

(** ** Properties *)

(** [BinaryData::new] followed by [encode] and [decode] is the identity. On
    a buffer that honours the contract of [Owned], the constructor stores
    exactly the given bytes, the encoding is their length and them, and the
    decoder returns an equal value and leaves what follows, so that a value
    built by the client is read unchanged by the peer. *)
Theorem binary_data_roundtrip {O} `{LawfulOwned O} s (o : O) b o' rest :
  bytes_ok s ->
  BinaryData_new s o = Returns (Ok (b, o')) ->
  BinaryData_as_bytes b = s /\
  exists bs, BinaryData_encode b SingleAccumulator_new = Ok (mkSingle bs) /\
    bs = to_be_bytes 2 (len s) ++ s /\ BinaryData_decode (bs ++ rest) = Some (b, rest).
Proof.
  intros Hs E. destruct (BinaryData_new_ok s o b o' Hs E) as (Hwf & Hd & _). split; [done|].
  exists (bd_shared b). split; [done|]. split.
  - destruct Hwf as (data & Hb & _). by rewrite <- Hd, (bd_as_bytes b data Hb).
  - by apply BinaryData_decode_put.
Qed.

Lemma binary_data_roundtrip_witness :
  exists b o', BinaryData_new [7; 8; 9] (mkVecOwned [] 0) = Returns (Ok (b, o')) /\
    BinaryData_as_bytes b = [7; 8; 9] /\ BinaryData_decode ([0; 3; 7; 8; 9] ++ [1]) = Some (b, [1]).
Proof.
  edestruct (binary_data_roundtrip [7; 8; 9] (mkVecOwned [] 0)) with (rest := [1]) as (H1 & bs & H2 & -> & H3);
    [solve_bytes|vm_compute; reflexivity|].
  do 2 eexists. split; [vm_compute; reflexivity|]. split; [exact H1|exact H3].
Defined.

(** A string accepted from the wire obeys the MQTT rules for UTF-8 strings:
    its bytes are the UTF-8 encoding of characters none of which is U+0000, a
    control character or unassigned, so that no later conversion to [str]
    can fail; the value re-encodes to the bytes it was read from. *)
Theorem byte_str_decode_sound `{UnicodeLaws} src s rest :
  bytes_ok src ->
  ByteStr_decode src = Ok (Some (s, rest)) ->
  exists cs, as_ref s = concat (map utf8_encode cs) /\
    Forall (fun c => is_char c /\ c <> 0 /\ general_category c = OtherCategory) cs /\
    exists bs, ByteStr_encode s SingleAccumulator_new = Ok (mkSingle bs) /\ src = bs ++ rest.
Proof.
  intros Hs E. destruct (ByteStr_decode_ok _ _ _ Hs E) as ([Hb Hv] & Hsrc).
  destruct (validate_loop_chars _ _ Hv) as (cs & Hc & HF). exists cs. split; [done|]. split; [done|].
  exists (bd_shared (bs_data s)). split; [done|exact Hsrc].
Qed.

Lemma byte_str_decode_sound_witness :
  exists s, @ByteStr_decode Ascii [0; 2; 104; 105; 3] = Ok (Some (s, [3])) /\
    exists cs, as_ref s = concat (map utf8_encode cs).
Proof.
  eexists. split; [vm_compute; reflexivity|].
  edestruct (@byte_str_decode_sound Ascii Ascii_laws [0; 2; 104; 105; 3]) as (cs & Hc & _);
    [solve_bytes|vm_compute; reflexivity|]. exists cs. exact Hc.
Defined.
