(* ===== verification/Filters.v ===== *)
(** * Topic filters

    mqtt_proto/filter.rs: the validation automaton of [Filter::new], shared
    subscription filters, and the matching of topic names. [level_ok] and
    [matches_levels] are the declarative readings that the automaton and the
    matching loop are proved equivalent to. *)

From S2P Require Export Strings.
Local Open Scope Z_scope.

(** ["$share/"]. *)
Definition SHARED_SUBSCRIPTION_PREFIX : str := [0x24; 0x73; 0x68; 0x61; 0x72; 0x65; 0x2F].
Definition SINGLE_LEVEL_MATCH_STR : str := [0x2B].
Definition MULTI_LEVEL_MATCH_STR : str := [0x23].

Module FilterKind.
Inductive t : Set :=
  | Regular
  | Dollar
  | Shared (index_group_name_and_filter : usize).
End FilterKind.

Record Filter (S : Type) := mkFilter { filter_inner : S; filter_kind : FilterKind.t }.
Arguments mkFilter {_} _ _.
Arguments filter_inner {_} _.
Arguments filter_kind {_} _.

Module ClassifiedFilter.
Inductive t : Set :=
  | Regular (s : str)
  | Dollar (s : str)
  | Shared (group_name : str) (filter : Filter str).
End ClassifiedFilter.

Module ParseState.
Inductive t : Set := Separator | Literal | Single | Multiple.
End ParseState.

(** One transition of the automaton; [None] is the [return Err(InvalidFilter)]. *)
Definition parse_step (state : ParseState.t) (c : char) : option ParseState.t :=
  match state with
  | ParseState.Multiple => None
  | _ =>
      if c =? SEPARATOR then Some ParseState.Separator
      else
        match state with
        | ParseState.Separator =>
            if c =? SINGLE_LEVEL_MATCH then Some ParseState.Single
            else if c =? MULTI_LEVEL_MATCH then Some ParseState.Multiple
            else Some ParseState.Literal
        | ParseState.Literal =>
            if is_wildcard_char c then None else Some ParseState.Literal
        | _ => None
        end
  end.

(** [for char in filter.chars() { state = match (state, char) { .. } }]. *)
Fixpoint parse_chars (state : ParseState.t) (cs : list char) : option ParseState.t :=
  match cs with
  | [] => Some state
  | c :: cs => let?? state := parse_step state c in parse_chars state cs
  end.

(** The scan of the group name of a shared subscription, over
    [slice.char_indices()]: an error on a wildcard, else the offset of the
    first separator, if any. *)
Fixpoint scan_group (cs : list (usize * char)) : option (option usize) :=
  match cs with
  | [] => Some None
  | (i, c) :: cs =>
      if is_wildcard_char c then None
      else if c =? SEPARATOR then Some (Some i)
      else scan_group cs
  end.

Section filter.
Context `{Unicode} {S : Type} `{AsRefStr S}.

(** The first half of [Filter::new]: the kind and the part that is a filter. *)
Definition filter_split (inner_ref : str) : decode_result (FilterKind.t * str) :=
  if starts_with DOLLAR_SIGN inner_ref then
    match strip_prefix SHARED_SUBSCRIPTION_PREFIX inner_ref with
    | Some slice =>
        match scan_group (char_indices 0 slice) with
        | None => Err (DecodeError.InvalidFilter inner_ref)
        | Some index_group_name_and_topic =>
            match index_group_name_and_topic with
            | Some 0 | None => Err (DecodeError.InvalidFilter inner_ref)
            | Some i =>
                let index := len SHARED_SUBSCRIPTION_PREFIX + i in
                let filter := drop (Z.to_nat (index + 1)) inner_ref in
                if list_is_empty filter then Err DecodeError.EmptyFilter
                else Ok (FilterKind.Shared index, filter)
            end
        end
    | None => Ok (FilterKind.Dollar, inner_ref)
    end
  else Ok (FilterKind.Regular, inner_ref).

(** [Filter::new]. *)
Definition Filter_new (inner : S) : decode_result (Filter S) :=
  let inner_ref := as_ref inner in
  if list_is_empty inner_ref then Err DecodeError.EmptyFilter
  else if len inner_ref >? u16_MAX then
    Err (DecodeError.InvalidByteStr "longer than 65,535 bytes")
  else
    let? _ := validate_mqtt_string inner_ref in
    let? (kind, filter) := filter_split inner_ref in
    if list_is_empty filter then Err DecodeError.EmptyFilter
    else
      match parse_chars ParseState.Separator (chars filter) with
      | None => Err (DecodeError.InvalidFilter filter)
      | Some _ => Ok (mkFilter inner kind)
      end.

Definition Filter_as_str (f : Filter S) : str := as_ref (filter_inner f).

(** [Filter::classify]. *)
Definition Filter_classify (f : Filter S) : ClassifiedFilter.t :=
  match filter_kind f with
  | FilterKind.Regular => ClassifiedFilter.Regular (Filter_as_str f)
  | FilterKind.Dollar => ClassifiedFilter.Dollar (Filter_as_str f)
  | FilterKind.Shared index =>
      let filter := mkFilter (drop (Z.to_nat (index + 1)) (Filter_as_str f)) FilterKind.Regular in
      ClassifiedFilter.Shared
        (drop (length SHARED_SUBSCRIPTION_PREFIX) (take (Z.to_nat index) (Filter_as_str f)))
        filter
  end.

Definition Filter_is_wildcard (f : Filter S) : bool :=
  existsb is_wildcard_char (chars (Filter_as_str f)).

Definition Filter_is_shared (f : Filter S) : bool :=
  match filter_kind f with FilterKind.Shared _ => true | _ => false end.

(** [impl IntoIterator for &Filter]: the levels. *)
Definition Filter_into_iter (f : Filter S) : list str := str_split SEPARATOR (Filter_as_str f).
End filter.

(** [match_levels]. *)
Fixpoint match_levels (filter_iter topic_iter : list str) : bool :=
  match filter_iter, topic_iter with
  | filter_level :: filter_iter', topic_level :: topic_iter' =>
      if negb (starts_with DOLLAR_SIGN topic_level) && str_eqb filter_level MULTI_LEVEL_MATCH_STR
      then true
      else if negb (starts_with DOLLAR_SIGN topic_level) && str_eqb filter_level SINGLE_LEVEL_MATCH_STR
      then match_levels filter_iter' topic_iter'
      else if negb (str_eqb filter_level topic_level) then false
      else match_levels filter_iter' topic_iter'
  | [], [] => true
  | _, _ => false
  end.

(** [Filter::matches_topic]. *)
Definition Filter_matches_topic {S} `{AsRefStr S} (f : Filter S) (topic : Topic S) : bool :=
  match Filter_classify f with
  | ClassifiedFilter.Dollar _ | ClassifiedFilter.Regular _ =>
      match_levels (Filter_into_iter f) (Topic_into_iter topic)
  | ClassifiedFilter.Shared _ filter =>
      match_levels (Filter_into_iter filter) (Topic_into_iter topic)
  end.

Section filter_bytestr.
Context `{Unicode}.

(** [Filter::<ByteStr>::decode]. *)
Definition Filter_decode (src : Shared) : decode_result (option (Filter ByteStr * Shared)) :=
  let? r := ByteStr_decode src in
  match r with
  | None => Ok None
  | Some (s, src) =>
      let? filter := Filter_new s in
      Ok (Some (filter, src))
  end.

Definition filter_wf (f : Filter ByteStr) : Prop :=
  bs_wf (filter_inner f) /\ Filter_new (filter_inner f) = Ok f.
End filter_bytestr.

(** [Filter::<ByteStr>::encode]. *)
Definition Filter_encode {B} `{BytesAccumulator B} (f : Filter ByteStr) (dst : B) : encode_result B :=
  let? dst := ByteStr_encode (filter_inner f) dst in Ok dst.

(** [Filter::<String>::encode]; [expect("filter too long")] is a panic. *)
Definition Filter_String_encode {B} `{BytesAccumulator B} (f : Filter str) (dst : B) :
    outcome (encode_result B) :=
  if len (filter_inner f) >? u16_MAX then Panics "filter too long"
  else Returns (
    let? dst := ok_or (try_put_u16_be (len (filter_inner f)) dst) EncodeError.InsufficientBuffer in
    let? dst := ok_or (try_put_slice (filter_inner f) dst) EncodeError.InsufficientBuffer in
    Ok dst).

(** ** Declarative specifications *)

(** A level is a single ['+'], a single ['#'] if it is the last one, or has no
    wildcard. *)
Definition level_ok (last : bool) (l : str) : bool :=
  str_eqb l SINGLE_LEVEL_MATCH_STR || (last && str_eqb l MULTI_LEVEL_MATCH_STR)
  || negb (existsb is_wildcard_char l).

Fixpoint levels_ok (ls : list str) : bool :=
  match ls with
  | [] => true
  | [l] => level_ok true l
  | l :: ls => level_ok false l && levels_ok ls
  end.

(** The strings that are filters of each kind. *)
Inductive filter_valid (s : str) : FilterKind.t -> Prop :=
  | filter_valid_regular :
      starts_with DOLLAR_SIGN s = false ->
      levels_ok (str_split SEPARATOR s) = true ->
      filter_valid s FilterKind.Regular
  | filter_valid_dollar :
      starts_with DOLLAR_SIGN s = true ->
      (forall r, s <> SHARED_SUBSCRIPTION_PREFIX ++ r) ->
      levels_ok (str_split SEPARATOR s) = true ->
      filter_valid s FilterKind.Dollar
  | filter_valid_shared group filter :
      s = SHARED_SUBSCRIPTION_PREFIX ++ group ++ SEPARATOR :: filter ->
      group <> [] ->
      Forall (fun b => is_wildcard_char b = false /\ b <> SEPARATOR) group ->
      filter <> [] ->
      levels_ok (str_split SEPARATOR filter) = true ->
      filter_valid s (FilterKind.Shared (len SHARED_SUBSCRIPTION_PREFIX + len group)).

(** A filter's levels match a topic's levels. *)
Inductive matches_levels : list str -> list str -> Prop :=
  | matches_nil : matches_levels [] []
  | matches_multi fs t ts :
      starts_with DOLLAR_SIGN t = false -> matches_levels (MULTI_LEVEL_MATCH_STR :: fs) (t :: ts)
  | matches_single fs t ts :
      starts_with DOLLAR_SIGN t = false -> matches_levels fs ts ->
      matches_levels (SINGLE_LEVEL_MATCH_STR :: fs) (t :: ts)
  | matches_literal l fs ts :
      matches_levels fs ts -> matches_levels (l :: fs) (l :: ts).

(** ** Lemmas *)

Lemma str_eqb_eq s1 s2 : str_eqb s1 s2 = true <-> s1 = s2.
Proof. unfold str_eqb. apply bool_decide_eq_true. Qed.

Lemma parse_step_high state c :
  0x80 <= c -> parse_step state c =
    match state with
    | ParseState.Separator | ParseState.Literal => Some ParseState.Literal
    | _ => None
    end.
Proof.
  intros Hc. unfold parse_step, is_wildcard_char, SEPARATOR, SINGLE_LEVEL_MATCH, MULTI_LEVEL_MATCH.
  replace (c =? 47) with false by (symmetry; apply Z.eqb_neq; lia).
  replace (c =? 43) with false by (symmetry; apply Z.eqb_neq; lia).
  replace (c =? 35) with false by (symmetry; apply Z.eqb_neq; lia). by destruct state.
Qed.

Lemma parse_chars_app state cs1 cs2 :
  parse_chars state (cs1 ++ cs2) = let?? state := parse_chars state cs1 in parse_chars state cs2.
Proof.
  revert state; induction cs1 as [|c cs1 IH]; intros state; cbn; [done|].
  destruct (parse_step state c); [apply IH | done].
Qed.

Lemma parse_chars_high state bs :
  Forall (fun b => 0x80 <= b) bs -> bs <> [] -> parse_chars state bs = parse_step state (0x80).
Proof.
  intros Hb Hne. rewrite (parse_step_high _ 128) by lia.
  assert (Hlit : forall bs, Forall (fun b => 0x80 <= b) bs ->
    parse_chars ParseState.Literal bs = Some ParseState.Literal).
  { induction 1 as [|b bs' Hb' _ IH]; [done|]. cbn [parse_chars]. by rewrite parse_step_high by done. }
  destruct bs as [|b bs]; [done|]. inversion_clear Hb. cbn [parse_chars].
  rewrite parse_step_high by done. destruct state; auto.
Qed.

(** Running the automaton over the characters of a string is running it over
    its bytes. *)
Lemma parse_chars_bytes state cs :
  Forall is_char cs -> parse_chars state (concat (map utf8_encode cs)) = parse_chars state cs.
Proof.
  revert state; induction cs as [|c cs IH]; intros state Hcs; [done|].
  inversion_clear Hcs as [|? ? Hc Hcs']. cbn [map concat]. rewrite parse_chars_app.
  destruct (Z.lt_ge_cases c 0x80) as [Hl|Hl].
  - rewrite utf8_encode_low by done. cbn. destruct (parse_step state c); [by apply IH | done].
  - destruct (utf8_encode_high c Hc Hl) as [Hf Hne]. rewrite parse_chars_high by done.
    cbn [parse_chars]. rewrite !parse_step_high by lia. destruct state; auto.
Qed.

(** What the automaton still has to see, by state: the rest of the current
    level and the levels after it. *)
Definition rest_ok (state : ParseState.t) (ls : list str) : bool :=
  match ls with
  | [] => true
  | l :: ls' =>
      let here :=
        match state with
        | ParseState.Separator => level_ok (list_is_empty ls') l
        | ParseState.Literal => negb (existsb is_wildcard_char l)
        | ParseState.Single => list_is_empty l
        | ParseState.Multiple => list_is_empty l && list_is_empty ls'
        end in
      here && levels_ok ls'
  end.

Lemma levels_ok_rest ls : levels_ok ls = rest_ok ParseState.Separator ls.
Proof. destruct ls as [|l [|l' ls]]; cbn; [done| |done]. by rewrite andb_true_r. Qed.

Lemma level_ok_nonempty last c l :
  level_ok last (c :: l) =
    if c =? SINGLE_LEVEL_MATCH then list_is_empty l
    else if c =? MULTI_LEVEL_MATCH then last && list_is_empty l
    else negb (existsb is_wildcard_char l).
Proof.
  unfold level_ok. cbn [existsb].
  change (is_wildcard_char c) with ((c =? MULTI_LEVEL_MATCH) || (c =? SINGLE_LEVEL_MATCH)).
  unfold SINGLE_LEVEL_MATCH_STR, MULTI_LEVEL_MATCH_STR, SINGLE_LEVEL_MATCH, MULTI_LEVEL_MATCH.
  assert (Heq : forall x, str_eqb (c :: l) [x] = (c =? x) && list_is_empty l).
  { intros x. apply eq_true_iff_eq. rewrite str_eqb_eq, andb_true_iff, Z.eqb_eq.
    split; [intros [= -> ->]; done | intros [-> ?]; by destruct l]. }
  rewrite !Heq. destruct (c =? 43) eqn:E1, (c =? 35) eqn:E2; bool_to_prop; subst; try lia;
    destruct last, (list_is_empty l), (existsb is_wildcard_char l); done.
Qed.

Lemma parse_chars_rest state s :
  is_some (parse_chars state s) = rest_ok state (str_split SEPARATOR s).
Proof.
  revert state; induction s as [|c s IH]; intros state; [by destruct state|].
  cbn [parse_chars str_split]. pose proof (str_split_nonempty SEPARATOR s) as Hne.
  destruct (c =? SEPARATOR) eqn:Es.
  - unfold parse_step. rewrite Es. destruct state; cbn [rest_ok list_is_empty andb].
    4: by destruct (str_split SEPARATOR s).
    all: rewrite IH, levels_ok_rest; by destruct (str_split SEPARATOR s).
  - destruct (str_split SEPARATOR s) as [|l ls] eqn:El; [done|]. unfold parse_step. rewrite Es.
    destruct state; cbn [rest_ok list_is_empty existsb andb]; try done.
    + rewrite level_ok_nonempty. destruct (c =? SINGLE_LEVEL_MATCH); [by rewrite IH|].
      destruct (c =? MULTI_LEVEL_MATCH); rewrite IH; cbn; [|done].
      destruct ls, l; done.
    + rewrite negb_orb. destruct (is_wildcard_char c); [done|]. by rewrite IH.
Qed.

(** The automaton accepts exactly the strings whose levels are all well formed. *)
Lemma parse_chars_levels cs :
  Forall is_char cs ->
  is_some (parse_chars ParseState.Separator cs)
  = levels_ok (str_split SEPARATOR (concat (map utf8_encode cs))).
Proof.
  intros Hcs. rewrite levels_ok_rest, <- parse_chars_rest. by rewrite parse_chars_bytes.
Qed.

Lemma strip_prefix_app p r : strip_prefix p (p ++ r) = Some r.
Proof. induction p as [|x p IH]; cbn; [done|]. by rewrite Z.eqb_refl. Qed.

Lemma strip_prefix_Some p s r : strip_prefix p s = Some r -> s = p ++ r.
Proof.
  revert s; induction p as [|x p IH]; intros s H; cbn in H; [by injection H|].
  destruct s as [|b s]; [done|]. destruct (x =? b) eqn:E; [|done]. bool_to_prop. cbn.
  f_equal; auto.
Qed.

Abbreviation encode_chars cs := (concat (map utf8_encode cs)).

Lemma encode_chars_ascii p s cs :
  Forall (fun b => 0 <= b < 0x80) p -> Forall is_char cs ->
  p ++ s = encode_chars cs ->
  exists cs', cs = p ++ cs' /\ s = encode_chars cs'.
Proof.
  revert cs; induction p as [|x p IH]; intros cs Hp Hcs E; [eauto|].
  inversion_clear Hp as [|? ? Hx Hp']. destruct cs as [|c cs]; [done|].
  inversion_clear Hcs as [|? ? Hc Hcs']. cbn in E.
  destruct (Z.lt_ge_cases c 0x80).
  - rewrite utf8_encode_low in E by done. cbn in E. injection E as -> E.
    destruct (IH cs Hp' Hcs' E) as (cs' & -> & ->). eauto.
  - destruct (utf8_encode_high c Hc ltac:(done)) as [Hf Hne].
    destruct (utf8_encode c) as [|b bs]; [done|]. inversion_clear Hf. cbn in E.
    injection E as -> _. lia.
Qed.

Lemma app_high_split p x group b rest :
  Forall (fun c => 0x80 <= c) p -> b < 0x80 -> p ++ x = group ++ b :: rest ->
  exists g', group = p ++ g' /\ x = g' ++ b :: rest.
Proof.
  revert group; induction p as [|c p IH]; intros group Hp Hb E; [eauto|].
  inversion_clear Hp. destruct group as [|d group]; cbn in E; injection E as -> E; [lia|].
  destruct (IH group) as (g' & -> & ->); [done..|]. eauto.
Qed.

(** An ASCII byte of an encoded string is a character of its own. *)
Lemma encode_chars_split cs a b rest :
  Forall is_char cs -> encode_chars cs = a ++ b :: rest -> b < 0x80 ->
  exists ca cr, cs = ca ++ b :: cr /\ a = encode_chars ca /\ rest = encode_chars cr.
Proof.
  revert a; induction cs as [|c cs IH]; intros a Hcs E Hb; [by destruct a|].
  inversion_clear Hcs as [|? ? Hc Hcs']. cbn [map concat] in E.
  destruct (Z.lt_ge_cases c 0x80) as [Hl|Hl].
  - rewrite utf8_encode_low in E by done. destruct a as [|x a]; cbn in E; injection E as -> E.
    + exists [], cs. auto.
    + destruct (IH a Hcs' E Hb) as (ca & cr & -> & -> & ->). exists (x :: ca), cr.
      split_and!; [done| |done]. cbn. by rewrite utf8_encode_low.
  - destruct (utf8_encode_high c Hc Hl) as [Hf _].
    destruct (app_high_split _ _ _ _ _ Hf Hb E) as (a' & -> & E').
    destruct (IH a' Hcs' E' Hb) as (ca & cr & -> & -> & ->). by exists (c :: ca), cr.
Qed.

(** The offset the scan finds is that of a separator after a group name without
    wildcards and separators. *)
Lemma scan_group_Some i cs n :
  Forall is_char cs -> scan_group (char_indices i (encode_chars cs)) = Some (Some n) ->
  exists g cs', cs = g ++ SEPARATOR :: cs' /\ n = i + len (encode_chars g) /\
    Forall (fun c => is_wildcard_char c = false /\ c <> SEPARATOR) g.
Proof.
  revert i; induction cs as [|c cs IH]; intros i Hcs E; [done|].
  inversion_clear Hcs as [|? ? Hc Hcs']. cbn [map concat] in E.
  rewrite char_indices_encode in E by done. cbn [scan_group] in E.
  destruct (is_wildcard_char c) eqn:Ew; [done|].
  destruct (c =? SEPARATOR) eqn:Es; bool_to_prop.
  - injection E as <-. subst c. exists [], cs. cbn [map concat]. rewrite len_nil. split_and!; [done|lia|done].
  - apply IH in E as (g & cs' & -> & -> & Hg); [|done].
    exists (c :: g), cs'. split; [done|]. split; [|by constructor].
    cbn [map concat]. rewrite len_app. lia.
Qed.

Lemma scan_group_app i g rest :
  Forall is_char g -> Forall (fun c => is_wildcard_char c = false /\ c <> SEPARATOR) g ->
  scan_group (char_indices i (encode_chars g ++ SEPARATOR :: rest))
  = Some (Some (i + len (encode_chars g))).
Proof.
  revert i; induction g as [|c g IH]; intros i Hg Hw; cbn [map concat app].
  { cbn [char_indices]. rewrite len_nil, Z.add_0_r. done. }
  inversion_clear Hg as [|? ? Hc Hg']. inversion_clear Hw as [|? ? [Hw1 Hs] Hw'].
  rewrite <- app_assoc, char_indices_encode by done. cbn [scan_group]. rewrite Hw1.
  replace (c =? SEPARATOR) with false by (symmetry; by apply Z.eqb_neq).
  rewrite IH by done. rewrite len_app. do 2 f_equal. lia.
Qed.

(** Conditions on ASCII characters can be checked on bytes. *)
Lemma Forall_encode_chars (P : Z -> Prop) cs :
  (forall b, 0x80 <= b -> P b) -> Forall is_char cs ->
  Forall P (encode_chars cs) <-> Forall P cs.
Proof.
  intros HP. induction cs as [|c cs IH]; intros Hcs; [done|].
  inversion_clear Hcs as [|? ? Hc Hcs']. cbn [map concat].
  rewrite Forall_app, Forall_cons, IH by done.
  destruct (Z.lt_ge_cases c 0x80) as [Hl|Hl].
  - rewrite utf8_encode_low by done. rewrite Forall_singleton. done.
  - destruct (utf8_encode_high c Hc Hl) as [Hf _].
    split; intros [_ ?]; split; auto. eapply Forall_impl; [exact Hf | auto].
Qed.

Lemma group_high b : 0x80 <= b -> is_wildcard_char b = false /\ b <> SEPARATOR.
Proof.
  unfold is_wildcard_char, SEPARATOR, MULTI_LEVEL_MATCH, SINGLE_LEVEL_MATCH.
  intros Hb. split; [|lia]. apply orb_false_iff; split; apply Z.eqb_neq; lia.
Qed.

Lemma prefix_ascii : Forall (fun b => 0 <= b < 0x80) SHARED_SUBSCRIPTION_PREFIX.
Proof. unfold SHARED_SUBSCRIPTION_PREFIX. repeat constructor; lia. Qed.

(** The index of a shared filter splits the string at a separator. *)
Lemma drop_shared group filter :
  drop (Z.to_nat (len SHARED_SUBSCRIPTION_PREFIX + len group + 1))
    (SHARED_SUBSCRIPTION_PREFIX ++ group ++ SEPARATOR :: filter) = filter.
Proof.
  rewrite app_assoc. replace (Z.to_nat _) with
    (length (SHARED_SUBSCRIPTION_PREFIX ++ group) + 1)%nat
    by (rewrite length_app; unfold len; lia).
  by rewrite drop_app_add.
Qed.

Lemma take_shared group filter :
  drop (length SHARED_SUBSCRIPTION_PREFIX)
    (take (Z.to_nat (len SHARED_SUBSCRIPTION_PREFIX + len group))
      (SHARED_SUBSCRIPTION_PREFIX ++ group ++ SEPARATOR :: filter)) = group.
Proof.
  rewrite (app_assoc _ group). replace (Z.to_nat _) with
    (length (SHARED_SUBSCRIPTION_PREFIX ++ group))
    by (rewrite length_app; unfold len; lia).
  by rewrite take_app_length, drop_app_length.
Qed.

Lemma validate_encode `{UnicodeLaws} s :
  validate_mqtt_string s = Ok tt -> exists cs, s = encode_chars cs /\ Forall is_char cs.
Proof.
  intros (cs & -> & Hcs)%validate_loop_chars. exists cs. split; [done|].
  eapply Forall_impl; [exact Hcs|]. cbn. tauto.
Qed.

Lemma filter_split_spec cs kind filter :
  Forall is_char cs -> filter_split (encode_chars cs) = Ok (kind, filter) ->
  (exists cf, filter = encode_chars cf /\ Forall is_char cf) /\
  (levels_ok (str_split SEPARATOR filter) = true -> filter_valid (encode_chars cs) kind).
Proof.
  intros Hcs E. unfold filter_split in E.
  destruct (starts_with _ _) eqn:Ed; [|injection E as <- <-; split; [eauto | by constructor]].
  destruct (strip_prefix _ _) as [slice|] eqn:Ep.
  2:{ injection E as <- <-. split; [eauto|]. constructor; [done| |done].
      intros r Er. rewrite Er, strip_prefix_app in Ep. done. }
  apply strip_prefix_Some in Ep.
  destruct (encode_chars_ascii _ _ cs prefix_ascii Hcs (eq_sym Ep)) as (cs' & -> & ->).
  apply Forall_app in Hcs as [_ Hcs'].
  destruct (scan_group _) as [[i|]|] eqn:Es; [|done..].
  apply scan_group_Some in Es as (g & cr & -> & -> & Hg); [|done].
  apply Forall_app in Hcs' as [Hgc Hcr]. inversion_clear Hcr as [|? ? _ Hcr'].
  assert (Ep' : encode_chars (SHARED_SUBSCRIPTION_PREFIX ++ g ++ SEPARATOR :: cr)
    = SHARED_SUBSCRIPTION_PREFIX ++ encode_chars g ++ SEPARATOR :: encode_chars cr)
    by (rewrite Ep, map_app, concat_app; done).
  rewrite Ep' in E |- *. rewrite Z.add_0_l in E.
  pose proof (len_nonneg (encode_chars g)) as Hpos.
  destruct (len (encode_chars g)) as [|n|n] eqn:El; [done| |lia].
  rewrite <- El, drop_shared in E. destruct (list_is_empty _) eqn:Ee; [done|].
  injection E as <- <-. split; [eauto|]. intros Hl.
  apply (filter_valid_shared _ (encode_chars g) (encode_chars cr)); try done.
  - intros E. rewrite E in El. done.
  - apply Forall_encode_chars; [apply group_high | done..].
  - by destruct (encode_chars cr).
Qed.

Lemma filter_split_complete cs kind :
  Forall is_char cs -> filter_valid (encode_chars cs) kind ->
  exists filter cf, filter_split (encode_chars cs) = Ok (kind, filter) /\
    filter = encode_chars cf /\ Forall is_char cf /\
    levels_ok (str_split SEPARATOR filter) = true.
Proof.
  intros Hcs Hv. unfold filter_split. inversion Hv as [Hd Hl|Hd Hp Hl|g f E Hne Hw Hf Hl]; subst.
  - rewrite Hd. eauto 10.
  - rewrite Hd. destruct (strip_prefix _ _) as [r|] eqn:Er; [|eauto 10].
    apply strip_prefix_Some in Er. by apply Hp in Er.
  - rewrite E.
    change (starts_with DOLLAR_SIGN (SHARED_SUBSCRIPTION_PREFIX ++ g ++ SEPARATOR :: f)) with true.
    rewrite strip_prefix_app.
    destruct (encode_chars_ascii _ _ cs prefix_ascii Hcs (eq_sym E)) as (cs' & -> & E').
    apply Forall_app in Hcs as [_ Hcs'].
    destruct (encode_chars_split cs' g SEPARATOR f Hcs' (eq_sym E') eq_refl) as (ca & cr & -> & -> & ->).
    apply Forall_app in Hcs' as [Hca Hcr]. inversion_clear Hcr as [|? ? _ Hcr'].
    rewrite Forall_encode_chars in Hw by (done || apply group_high).
    rewrite scan_group_app by done. rewrite Z.add_0_l.
    destruct (len (encode_chars ca)) as [|n|n] eqn:El.
    + exfalso. apply Hne. apply length_zero_iff_nil. unfold len in El. lia.
    + cbv zeta. rewrite <- El, drop_shared. exists (encode_chars cr), cr.
      split; [|done]. by destruct (encode_chars cr).
    + pose proof (len_nonneg (encode_chars ca)). lia.
Qed.

(** A nonempty string has no empty filter part. *)
Lemma filter_valid_nonempty s kind : s <> [] -> filter_valid s kind ->
  forall f, filter_split s = Ok (kind, f) -> f <> [].
Proof.
  intros Hs Hv f E. unfold filter_split in E.
  repeat (case_match; try done); simplify_eq/=; try done; by destruct (drop _ _).
Qed.

Lemma match_levels_iff fs ts : match_levels fs ts = true <-> matches_levels fs ts.
Proof.
  split.
  - revert ts; induction fs as [|f fs IH]; intros [|t ts] E; cbn in E; try done; [constructor|].
    destruct (starts_with _ _) eqn:Ed; cbn in E;
    destruct (str_eqb f MULTI_LEVEL_MATCH_STR) eqn:E1;
    destruct (str_eqb f SINGLE_LEVEL_MATCH_STR) eqn:E2; cbn in E;
    destruct (str_eqb f t) eqn:E3; cbn in E; try done; rewrite ?str_eqb_eq in *; subst;
      auto using matches_levels.
  - induction 1 as [|fs t ts Hd|fs t ts Hd _ IH|l fs ts _ IH]; cbn; try done.
    + by rewrite Hd.
    + by rewrite Hd.
    + replace (str_eqb l l) with true by (symmetry; by apply str_eqb_eq). rewrite IH. cbn.
      by destruct (starts_with _ _), (str_eqb l MULTI_LEVEL_MATCH_STR), (str_eqb l SINGLE_LEVEL_MATCH_STR).
Qed.

(** ** Round trips *)

Section filter_roundtrip.
Context `{Unicode}.

Lemma Filter_new_inner {S} `{AsRefStr S} (s : S) f : Filter_new s = Ok f -> filter_inner f = s.
Proof. unfold Filter_new. intros E. by inv_ok E. Qed.

Lemma Filter_decode_put f rest :
  filter_wf f -> Filter_decode (bd_shared (bs_data (filter_inner f)) ++ rest) = Ok (Some (f, rest)).
Proof. intros [Hs Hf]. unfold Filter_decode. rewrite ByteStr_decode_put by done. by rewrite Hf. Qed.

Lemma Filter_decode_ok src f rest :
  bytes_ok src -> Filter_decode src = Ok (Some (f, rest)) ->
  filter_wf f /\ src = bd_shared (bs_data (filter_inner f)) ++ rest.
Proof.
  unfold Filter_decode. intros Hs E. inv_ok E.
  apply ByteStr_decode_ok in E0 as [Hb ->]; [|done].
  pose proof (Filter_new_inner _ _ E3) as <-. split; [|done]. by split.
Qed.

Lemma Filter_encode_wp f Q :
  Q (bd_shared (bs_data (filter_inner f))) -> wp (fun B BA dst => Filter_encode (H := BA) f dst) Q.
Proof.
  intros HQ. unfold Filter_encode. apply wp_bind, ByteStr_encode_wp, wp_ok. by rewrite app_nil_r.
Qed.
End filter_roundtrip.

(** ** Properties *)

Lemma filter_new_spec `{UnicodeLaws} {S} `{AsRefStr S} (s : S) (f : Filter S) :
  Filter_new s = Ok f <->
  filter_inner f = s /\ as_ref s <> [] /\ len (as_ref s) <= u16_MAX /\
  validate_mqtt_string (as_ref s) = Ok tt /\ filter_valid (as_ref s) (filter_kind f).
Proof.
  unfold Filter_new. rewrite Z.gtb_ltb. split.
  - intros E. inv_ok E. bool_to_prop. match goal with u : unit |- _ => destruct u end.
    destruct (validate_encode _ E2) as (cs & Es & Hcs). rewrite Es in *.
    destruct (filter_split_spec _ _ _ Hcs E3) as [(cf & -> & Hcf) Hv].
    rewrite chars_encode in E6 by done.
    split_and!; [done|intros E; by rewrite E in E0|lia|done|]. apply Hv.
    rewrite <- parse_chars_levels by done. by rewrite E6.
  - intros (Hi & Hne & Hl & Hval & Hv). destruct f as [inner kind]. cbn in Hi, Hv. subst inner.
    replace (list_is_empty (as_ref s)) with false by (by destruct (as_ref s)).
    destruct (u16_MAX <? len (as_ref s)) eqn:E; bool_to_prop; [lia|]. rewrite Hval.
    destruct (validate_encode _ Hval) as (cs & Es & Hcs). rewrite Es in *.
    destruct (filter_split_complete _ _ Hcs Hv) as (filter & cf & E1 & -> & Hcf & Hok).
    rewrite E1. pose proof (filter_valid_nonempty _ _ Hne Hv _ E1).
    replace (list_is_empty (encode_chars cf)) with false by (by destruct (encode_chars cf)).
    rewrite chars_encode by done. rewrite <- parse_chars_levels in Hok by done.
    by destruct (parse_chars _ cf).
Qed.

(** C31: [Filter::new] accepts exactly the nonempty, validated strings of at
    most 65535 bytes that are filters: every level is literal, a lone ['+'], or
    a lone ['#'] in last position, and a ["$share/"] string is a nonempty group
    name without wildcards, a separator and such a filter. The kind it records
    is the kind of the string. *)
Theorem filter_new_iff `{UnicodeLaws} {S} `{AsRefStr S} (s : S) (f : Filter S) :
  Filter_new s = Ok f <->
  filter_inner f = s /\ as_ref s <> [] /\ len (as_ref s) <= u16_MAX /\
  validate_mqtt_string (as_ref s) = Ok tt /\ filter_valid (as_ref s) (filter_kind f).
Proof. apply filter_new_spec. Qed.

(** ["$share/g/a/+"]. *)
Lemma filter_new_iff_witness :
  let s := SHARED_SUBSCRIPTION_PREFIX ++ [0x67; 0x2F; 0x61; 0x2F; 0x2B] in
  let f := mkFilter s (FilterKind.Shared 8) in
  Filter_new (H := Ascii) (S := str) s = Ok f /\ filter_valid s (FilterKind.Shared 8).
Proof.
  intros s f. assert (E : Filter_new (H := Ascii) (S := str) s = Ok f) by (vm_compute; reflexivity).
  split; [exact E|]. exact (proj2 (proj2 (proj2 (proj2 (proj1
    (@filter_new_iff Ascii Ascii_laws str str_as_ref s f) E))))).
Defined.

(** C30: a filter accepted by [Filter::new] matches a topic exactly when its
    levels match the topic's levels, with ['+'] standing for one level and
    ['#'] for one or more, neither standing for a level that starts with ['$'];
    for a shared subscription the levels are those of the part after the group
    name, which [classify] separates out. *)
Theorem filter_matches_iff `{UnicodeLaws} {S} `{AsRefStr S} (s : S) (f : Filter S) (t : Topic S) :
  Filter_new s = Ok f ->
  exists part,
    (Filter_matches_topic f t = true <->
      matches_levels (str_split SEPARATOR part) (str_split SEPARATOR (as_ref (topic_inner t)))) /\
    match filter_kind f with
    | FilterKind.Shared _ => exists group,
        as_ref s = SHARED_SUBSCRIPTION_PREFIX ++ group ++ SEPARATOR :: part /\
        Forall (fun b => is_wildcard_char b = false /\ b <> SEPARATOR) group /\
        Filter_classify f = ClassifiedFilter.Shared group (mkFilter part FilterKind.Regular)
    | _ => part = as_ref s
    end.
Proof.
  intros (Hi & _ & _ & _ & Hv)%filter_new_spec. destruct f as [inner kind]. cbn in *. subst inner.
  unfold Filter_matches_topic, Filter_classify, Filter_into_iter, Topic_into_iter, Filter_as_str,
    Topic_as_str. cbn [filter_kind filter_inner].
  inversion Hv as [Hd Hl E|Hd Hp Hl E|g p E Hne Hw Hf Hl E']; subst kind.
  - exists (as_ref s). split; [apply match_levels_iff | done].
  - exists (as_ref s). split; [apply match_levels_iff | done].
  - rewrite E, drop_shared, take_shared. exists p. split; [apply match_levels_iff|]. eauto.
Qed.

(** ["$share/g/a/+"] and ["a/b"]. *)
Lemma filter_matches_iff_witness :
  let s := SHARED_SUBSCRIPTION_PREFIX ++ [0x67; 0x2F; 0x61; 0x2F; 0x2B] in
  let f := mkFilter s (FilterKind.Shared 8) in
  let t := mkTopic [0x61; 0x2F; 0x62] in
  Filter_matches_topic (S := str) f t = true /\
  exists part, (Filter_matches_topic (S := str) f t = true <->
    matches_levels (str_split SEPARATOR part) (str_split SEPARATOR [0x61; 0x2F; 0x62])) /\
    exists group, s = SHARED_SUBSCRIPTION_PREFIX ++ group ++ SEPARATOR :: part /\
      Forall (fun b => is_wildcard_char b = false /\ b <> SEPARATOR) group /\
      Filter_classify (S := str) f
      = ClassifiedFilter.Shared group (mkFilter part FilterKind.Regular).
Proof.
  intros s f t. split; [vm_compute; reflexivity|].
  apply (@filter_matches_iff Ascii Ascii_laws str str_as_ref s f t). vm_compute. reflexivity.
Defined.

Lemma match_levels_prefix pre fs ts :
  Forall (fun l => l <> MULTI_LEVEL_MATCH_STR) pre ->
  match_levels (pre ++ fs) (pre ++ ts) = match_levels fs ts.
Proof.
  induction 1 as [|l pre Hl _ IH]; [done|]. cbn [app match_levels].
  replace (str_eqb l MULTI_LEVEL_MATCH_STR) with false
    by (symmetry; apply not_true_iff_false; by rewrite str_eqb_eq).
  replace (str_eqb l l) with true by (symmetry; by apply str_eqb_eq).
  rewrite andb_false_r. by destruct (_ && _).
Qed.

(** Where the matching is narrower than section 4.7 of MQTT 5.0: after any
    levels [pre] other than ['#'], a level that starts with ['$'] is not matched
    by ['+'] nor by ['#'], even when it is not the first one (["a/+"] and
    ["a/$b"]), and ["pre/#"] does not match its parent level ["pre"]. *)
Theorem filter_match_deviations pre d :
  Forall (fun l => l <> MULTI_LEVEL_MATCH_STR) pre ->
  match_levels (pre ++ [SINGLE_LEVEL_MATCH_STR]) (pre ++ [DOLLAR_SIGN :: d]) = false /\
  match_levels (pre ++ [MULTI_LEVEL_MATCH_STR]) (pre ++ [DOLLAR_SIGN :: d]) = false /\
  match_levels (pre ++ [MULTI_LEVEL_MATCH_STR]) pre = false.
Proof.
  intros Hp. rewrite !(match_levels_prefix pre) by done. split; [done|]. split; [done|].
  rewrite <- (app_nil_r pre) at 2. by rewrite match_levels_prefix.
Qed.

Lemma filter_match_deviations_witness :
  match_levels [[0x61]; SINGLE_LEVEL_MATCH_STR] [[0x61]; [0x24; 0x62]] = false /\
  match_levels [[0x61]; MULTI_LEVEL_MATCH_STR] [[0x61]; [0x24; 0x62]] = false /\
  match_levels [[0x61]; MULTI_LEVEL_MATCH_STR] [[0x61]] = false.
Proof. apply (filter_match_deviations [[0x61]] [0x62]). by repeat constructor. Defined.
