(* ===== verification/Convert.v ===== *)
(** * Conversions between the public API and the codec

    The public API (packet.rs, topic.rs) holds strings and data as [String] and
    [Bytes]; the codec holds them in buffers with a length prefix. [Converts] is
    what a pair of conversions promises; its instances here are the basic types,
    and UserProperties.v and UserPackets.v builds those of the packets from them. The file also has the
    public topic types of topic.rs. *)

From S2P Require Export Filters.
Local Open Scope Z_scope.

(** ** The interface *)

(** [into] fails, which is a panic, exactly on what does not fit; it yields a
    clean value, from which [from] recovers the original; and it inverts [from]
    on clean values. *)
Class Converts {U P : Type} (into : U -> outcome P) (from : P -> U) (fits : U -> bool)
    (clean : P -> Prop) : Prop := {
  into_spec : forall u,
    match into u with
    | Returns p => fits u = true /\ clean p /\ from p = u
    | Panics _ => fits u = false
    end;
  from_spec : forall p, clean p -> into (from p) = Returns p;
}.

Section converts.
Context {U P : Type} {into : U -> outcome P} {from : P -> U} {fits : U -> bool} {clean : P -> Prop}.
Context `{!Converts into from fits clean}.

Lemma into_Returns u p : into u = Returns p -> fits u = true /\ clean p /\ from p = u.
Proof. intros E. pose proof (into_spec u) as H. by rewrite E in H. Qed.

Lemma into_fits u : fits u = true -> exists p, into u = Returns p.
Proof. intros E. pose proof (into_spec u) as H. destruct (into u); [eauto|congruence]. Qed.
End converts.

(** ** Containers *)

(** [option.map(Into::into)] *)
Definition opt_into {U P} (into : U -> outcome P) (o : option U) : outcome (option P) :=
  match o with
  | Some u => let! p := into u in Returns (Some p)
  | None => Returns None
  end.

(** [iter.map(Into::into).collect()] *)
Fixpoint list_into {U P} (into : U -> outcome P) (l : list U) : outcome (list P) :=
  match l with
  | [] => Returns []
  | u :: l =>
      let! p := into u in
      let! ps := list_into into l in
      Returns (p :: ps)
  end.

Definition pair_into {U P} (into : U -> outcome P) (u : U * U) : outcome (P * P) :=
  let! p := into (fst u) in
  let! q := into (snd u) in
  Returns (p, q).

Definition pair_map {U P} (from : P -> U) (p : P * P) : U * U := (from (fst p), from (snd p)).

Definition opt_fits {U} (fits : U -> bool) (o : option U) : bool :=
  match o with Some u => fits u | None => true end.
Definition opt_clean {P} (clean : P -> Prop) (o : option P) : Prop :=
  match o with Some p => clean p | None => True end.
Definition pair_fits {U} (fits : U -> bool) (u : U * U) : bool := fits (fst u) && fits (snd u).
Definition pair_clean {P} (clean : P -> Prop) (p : P * P) : Prop := clean (fst p) /\ clean (snd p).

(** Replace the conversions in the goal by what they promise. *)
Ltac convert_calls :=
  repeat match goal with
  | |- context [match ?f ?x with Returns _ => _ | Panics _ => _ end] =>
      let H := fresh "Hc" in pose proof (into_spec (into := f) x) as H;
      destruct (f x); [destruct H as (? & ? & ?)|]
  end.

(** Rewrite with what is known of the fields. *)
Ltac convert_rewrite :=
  repeat match goal with
  | H : ?f ?x = true |- context [?f ?x] => rewrite H
  | H : ?f ?x = false |- context [?f ?x] => rewrite H
  | H : ?f ?x = ?y |- context [?f ?x] => is_var x; rewrite H
  end.

#[export] Instance opt_converts {U P} (into : U -> outcome P) from fits clean :
  Converts into from fits clean ->
  Converts (opt_into into) (option_map from) (opt_fits fits) (opt_clean clean).
Proof.
  intros HC. split.
  - intros [u|]; cbn; [|done]. convert_calls; cbn; [|done]. split_and!; try done. congruence.
  - intros [p|] Hp; cbn in *; [|done]. by rewrite from_spec.
Qed.

#[export] Instance pair_converts {U P} (into : U -> outcome P) from fits clean :
  Converts into from fits clean ->
  Converts (pair_into into) (pair_map from) (pair_fits fits) (pair_clean clean).
Proof.
  intros HC. split.
  - intros [u v]. unfold pair_into, pair_fits. cbn. unfold pair_map.
    convert_calls; convert_rewrite; cbn; try done. split_and!; try done. congruence.
  - intros [p q] [Hp Hq]. unfold pair_into, pair_map. cbn in *. by rewrite !from_spec.
Qed.

#[export] Instance list_converts {U P} (into : U -> outcome P) from fits clean :
  Converts into from fits clean ->
  Converts (list_into into) (map from) (forallb fits) (Forall clean).
Proof.
  intros HC. split.
  - intros l. induction l as [|u l IH]; cbn; [done|]. convert_calls; [|by rewrite Hc].
    destruct (list_into into l); cbn.
    + destruct IH as (-> & ? & ?). convert_rewrite. split_and!; [done|by constructor|]. cbn. congruence.
    + by rewrite IH, andb_false_r.
  - induction 1 as [|p ps Hp _ IH]; cbn; [done|]. by rewrite from_spec, IH.
Qed.

(** A conversion that cannot fail. *)
Lemma Inverse_Converts {U P} (into : U -> P) (from : P -> U) :
  (forall u, from (into u) = u) -> (forall p, into (from p) = p) ->
  Converts (fun u => Returns (into u)) from (fun _ => true) (fun _ => True).
Proof. intros H1 H2. split; [done|]. intros p _. by rewrite H2. Qed.

(** ** Strings and binary data *)

(** [impl From<&[u8]> for BinaryData<Bytes>]; [unwrap] panics on a longer slice. *)
Definition BinaryData_from (s : list u8) : outcome BinaryData :=
  if len s >? u16_MAX then Panics "called `Result::unwrap()` on an `Err` value: TryFromIntError(())"
  else Returns (mkBinaryData (to_be_bytes 2 (len s) ++ s)).

(** [impl From<&str> for ByteStr]. *)
Definition ByteStr_from (s : str) : outcome ByteStr :=
  let! b := BinaryData_from s in Returns (mkByteStr b).

(** At most 65,535 bytes. *)
Definition fits_u16 {A} (s : list A) : bool := len s <=? u16_MAX.

(** The prefix of the buffer is the length of the data. *)
Definition bd_clean (b : BinaryData) : Prop :=
  exists data, bd_shared b = to_be_bytes 2 (len data) ++ data /\ fits_u16 data = true.
Definition bs_clean (s : ByteStr) : Prop := bd_clean (bs_data s).

Lemma bd_wf_clean b : bd_wf b -> bd_clean b.
Proof.
  intros (data & E & Hn & _). exists data. split; [done|]. apply Z.leb_le.
  unfold is_u16 in Hn. lia.
Qed.

#[export] Instance BinaryData_converts :
  Converts BinaryData_from BinaryData_as_bytes fits_u16 bd_clean.
Proof.
  split.
  - intros s. unfold BinaryData_from, fits_u16. destruct (len s >? u16_MAX) eqn:E; bool_to_prop.
    + apply Z.leb_gt. lia.
    + split; [apply Z.leb_le; lia|]. split; [|done]. exists s. split; [done|]. apply Z.leb_le. lia.
  - intros [b] (data & E & Hf). rewrite (bd_as_bytes _ data E). cbn in E. subst b.
    unfold BinaryData_from. unfold fits_u16 in Hf. destruct (len data >? u16_MAX) eqn:E; bool_to_prop; [lia|done].
Qed.

#[export] Instance ByteStr_converts : Converts ByteStr_from as_ref fits_u16 bs_clean.
Proof.
  split.
  - intros s. unfold ByteStr_from. convert_calls; done.
  - intros [b] Hb. unfold ByteStr_from, as_ref, ByteStr_as_ref. cbn. by rewrite from_spec.
Qed.

(** What [From] builds from a string or data that MQTT permits is well formed. *)
Lemma BinaryData_from_wf s b : bytes_ok s -> BinaryData_from s = Returns b -> bd_wf b.
Proof.
  unfold BinaryData_from. intros Hs E. destruct (len s >? u16_MAX) eqn:El; bool_to_prop; [done|].
  injection E as <-. exists s. split; [done|]. split; [|done]. pose proof (len_nonneg s). solve_range.
Qed.

Lemma ByteStr_from_wf `{Unicode} s b :
  bytes_ok s -> validate_mqtt_string s = Ok tt -> ByteStr_from s = Returns b -> bs_wf b.
Proof.
  intros Hs Hv E. unfold ByteStr_from in E. destruct (BinaryData_from s) as [bd|] eqn:Eb; [|done].
  injection E as <-. split; [by eapply BinaryData_from_wf|].
  apply into_Returns in Eb as (_ & _ & Eb). unfold as_ref, ByteStr_as_ref. cbn. by rewrite Eb.
Qed.

(** [(k.to_string(), v.to_string())] for every user property. *)
Definition user_properties_to_string (props : list (ByteStr * ByteStr)) : list (str * str) :=
  map (pair_map as_ref) props.

(** [map_user_properties_to_bytestr]. *)
Definition map_user_properties_to_bytestr (props : list (str * str)) : outcome (list (ByteStr * ByteStr)) :=
  list_into (pair_into ByteStr_from) props.

Definition user_fits : list (str * str) -> bool := forallb (pair_fits fits_u16).
Definition user_clean : list (ByteStr * ByteStr) -> Prop := Forall (pair_clean bs_clean).

#[export] Instance user_properties_converts :
  Converts map_user_properties_to_bytestr user_properties_to_string user_fits user_clean.
Proof. apply list_converts, pair_converts, ByteStr_converts. Qed.

(** ** Topic names and filters of topic.rs *)

(** [impl From<Topic<String>> for Topic<ByteStr>] and [Topic::to_owned]. *)
Definition Topic_from (s : Topic str) : outcome (Topic ByteStr) :=
  let! b := ByteStr_from (topic_inner s) in Returns (mkTopic b).
Definition Topic_to_owned (t : Topic ByteStr) : Topic str := mkTopic (as_ref (topic_inner t)).

(** [impl From<Filter<String>> for Filter<ByteStr>] and [Filter::to_owned]. *)
Definition Filter_from (s : Filter str) : outcome (Filter ByteStr) :=
  let! b := ByteStr_from (filter_inner s) in Returns (mkFilter b (filter_kind s)).
Definition Filter_to_owned (f : Filter ByteStr) : Filter str :=
  mkFilter (as_ref (filter_inner f)) (filter_kind f).

(** [TopicError], [TopicName] and [TopicFilter]. *)
Record TopicError : Set := mkTopicError { topic_error : DecodeError.t }.
Record TopicName : Set := mkTopicName { topic_name_inner : Topic str }.
Record TopicFilter : Set := mkTopicFilter { topic_filter_inner : Filter str }.

Definition TopicName_as_str (t : TopicName) : str := Topic_as_str (topic_name_inner t).
Definition TopicName_into_inner (t : TopicName) : Topic str := topic_name_inner t.
Definition TopicName_from (value : Topic str) : TopicName := mkTopicName value.
Definition TopicFilter_as_str (f : TopicFilter) : str := Filter_as_str (topic_filter_inner f).
Definition TopicFilter_into_inner (f : TopicFilter) : Filter str := topic_filter_inner f.
Definition TopicFilter_from (value : Filter str) : TopicFilter := mkTopicFilter value.

(** [matches_topic_filter] and [matches_topic_name]. *)
Definition TopicName_matches_topic_filter (t : TopicName) (filter : TopicFilter) : bool :=
  Filter_matches_topic (topic_filter_inner filter) (topic_name_inner t).
Definition TopicFilter_matches_topic_name (f : TopicFilter) (topic : TopicName) : bool :=
  Filter_matches_topic (topic_filter_inner f) (topic_name_inner topic).

Section topics.
Context `{Unicode}.

(** [TryFrom<String>], to which [new], [TryFrom<&str>] and [FromStr] delegate. *)
Definition TopicName_try_from (s : str) : result TopicError TopicName :=
  let? t := map_err mkTopicError (Topic_new s) in Ok (mkTopicName t).
Definition TopicName_new (s : str) : result TopicError TopicName := TopicName_try_from s.
Definition TopicFilter_try_from (s : str) : result TopicError TopicFilter :=
  let? f := map_err mkTopicError (Filter_new s) in Ok (mkTopicFilter f).
Definition TopicFilter_new (s : str) : result TopicError TopicFilter := TopicFilter_try_from s.
End topics.

(** [topic.into_inner().into()] and [topic.to_owned().into()]. *)
Definition TopicName_into (t : TopicName) : outcome (Topic ByteStr) := Topic_from (TopicName_into_inner t).
Definition TopicName_of (t : Topic ByteStr) : TopicName := TopicName_from (Topic_to_owned t).
Definition TopicFilter_into (f : TopicFilter) : outcome (Filter ByteStr) :=
  Filter_from (TopicFilter_into_inner f).
Definition TopicFilter_of (f : Filter ByteStr) : TopicFilter := TopicFilter_from (Filter_to_owned f).

Definition topic_fits (t : TopicName) : bool := fits_u16 (TopicName_as_str t).
Definition topic_clean (t : Topic ByteStr) : Prop := bs_clean (topic_inner t).
Definition filter_fits (f : TopicFilter) : bool := fits_u16 (TopicFilter_as_str f).
Definition filter_clean (f : Filter ByteStr) : Prop := bs_clean (filter_inner f).

#[export] Instance TopicName_converts : Converts TopicName_into TopicName_of topic_fits topic_clean.
Proof.
  split.
  - intros [[s]]. unfold TopicName_into, Topic_from. cbn. convert_calls; [|done].
    unfold TopicName_of, Topic_to_owned, TopicName_from. cbn. split_and!; try done. congruence.
  - intros [b] Hb. unfold TopicName_into, Topic_from. cbn. by rewrite from_spec.
Qed.

#[export] Instance TopicFilter_converts :
  Converts TopicFilter_into TopicFilter_of filter_fits filter_clean.
Proof.
  split.
  - intros [[s k]]. unfold TopicFilter_into, Filter_from. cbn. convert_calls; [|done].
    unfold TopicFilter_of, Filter_to_owned, TopicFilter_from. cbn. split_and!; try done. congruence.
  - intros [b k] Hb. unfold TopicFilter_into, Filter_from. cbn. by rewrite from_spec.
Qed.

(** A validated topic name or filter is converted without a panic to one that
    is valid on the wire. *)
Section valid.
Context `{Unicode}.

Lemma Topic_new_checks {S} `{AsRefStr S} (s : S) t :
  Topic_new s = Ok t -> fits_u16 (as_ref s) = true /\ validate_mqtt_string (as_ref s) = Ok tt /\ t = mkTopic s.
Proof.
  unfold Topic_new, fits_u16. intros E. destruct (list_is_empty _); [done|].
  destruct (len _ >? u16_MAX) eqn:El; bool_to_prop; [done|].
  destruct (validate_mqtt_string _) as [[]|]; [|done]. destruct (existsb _ _); [done|].
  injection E as <-. split_and!; try done. apply Z.leb_le. lia.
Qed.

Lemma Topic_new_ext {S S'} `{AsRefStr S} `{AsRefStr S'} (s : S) (s' : S') t :
  as_ref s = as_ref s' -> Topic_new s = Ok t -> Topic_new s' = Ok (mkTopic s').
Proof.
  unfold Topic_new. intros ->. destruct (list_is_empty _); [done|]. destruct (_ >? _); [done|].
  destruct (validate_mqtt_string _); [|done]. by destruct (existsb _ _).
Qed.

Lemma TopicName_into_wf s t :
  bytes_ok s -> TopicName_new s = Ok t -> exists p, TopicName_into t = Returns p /\ topic_wf p.
Proof.
  intros Hs E. unfold TopicName_new, TopicName_try_from in E.
  destruct (Topic_new s) as [t0|] eqn:En; [|done]. injection E as <-.
  destruct (Topic_new_checks s t0 En) as (Hf & Hv & ->).
  destruct (into_fits (into := ByteStr_from) s Hf) as [b Eb]. exists (mkTopic b).
  unfold TopicName_into, Topic_from. cbn. rewrite Eb. split; [done|].
  split; [by eapply ByteStr_from_wf|]. apply into_Returns in Eb as (_ & _ & Eb).
  by apply (Topic_new_ext s b (mkTopic s)).
Qed.
End valid.
