(* ===== verification/Property.v ===== *)
(** * MQTT 5 properties

    mqtt_proto/property.rs: the property types, [Property::decode] and
    [decode_all], [PropertyRef::encode] and [encode_all], and the macros
    [decode_properties!] and [encode_properties!] that every v5 packet uses.

    [encode_properties!] chains the properties of its bindings; here the packet
    builds that list. [decode_properties!] expands to one local variable per
    binding and a loop over the decoded properties; here the loop collects the
    accepted properties and a variable is read off that list by its getter. *)

From S2P Require Export Filters.
Local Open Scope Z_scope.

(** ** [KeepAlive] and [SessionExpiryInterval] *)

Module KeepAlive.
Inductive t : Set := Infinite | Duration (secs : u16).

(** [impl From<u16> for KeepAlive]. *)
Definition from_u16 (value : u16) : t :=
  if value =? 0 then Infinite else Duration value.

(** [impl From<KeepAlive> for u16]. *)
Definition to_u16 (value : t) : u16 :=
  match value with Infinite => 0 | Duration value => value end.

(** [impl From<KeepAlive> for Duration], in milliseconds. *)
Definition to_millis (value : t) : u64 :=
  match value with
  | Infinite => 100 * 365 * 24 * 60 * 60 * 1000
  | Duration value => value * 1500
  end.

(** [impl PartialOrd<KeepAlive> for KeepAlive]. *)
Definition partial_cmp (this other : t) : comparison :=
  match this, other with
  | Infinite, Infinite => Eq
  | Infinite, Duration _ => Gt
  | Duration _, Infinite => Lt
  | Duration this, Duration other => Z.compare this other
  end.

Definition wf (value : t) : Prop :=
  match value with Infinite => True | Duration value => is_nonzero_u16 value end.
End KeepAlive.

Module SessionExpiryInterval.
Inductive t : Set := Infinite | Duration (secs : u32).

(** [impl From<u32> for SessionExpiryInterval]. *)
Definition from_u32 (value : u32) : t :=
  if value =? u32_MAX then Infinite else Duration value.

(** [impl From<SessionExpiryInterval> for u32]. *)
Definition to_u32 (value : t) : u32 :=
  match value with Infinite => u32_MAX | Duration value => value end.

(** The values that [from_u32] yields. *)
Definition wf (value : t) : Prop :=
  match value with Infinite => True | Duration value => 0 <= value < u32_MAX end.
End SessionExpiryInterval.

(** ** [Property] *)

Module Property.
Inductive t : Set :=
  | AssignedClientIdentifier (value : ByteStr)
  | AuthenticationData (value : BinaryData)
  | AuthenticationMethod (value : ByteStr)
  | ConnectSessionExpiryInterval (value : SessionExpiryInterval.t)
  | ContentType (value : ByteStr)
  | CorrelationData (value : BinaryData)
  | MaximumPacketSize (value : u32)
  | MaximumQoS (value : QoS.t)
  | MessageExpiryInterval (value : u32)
  | PayloadIsUtf8 (value : bool)
  | ReasonString (value : ByteStr)
  | ReceiveMaximum (value : u16)
  | RequestProblemInformation (value : bool)
  | RequestResponseInformation (value : bool)
  | ResponseInformation (value : ByteStr)
  | ResponseTopic (value : Topic ByteStr)
  | RetainAvailable (value : bool)
  | ServerKeepAlive (value : KeepAlive.t)
  | ServerReference (value : ByteStr)
  | SessionExpiryInterval (value : SessionExpiryInterval.t)
  | SharedSubscriptionAvailable (value : bool)
  | SubscriptionIdentifier (value : u32)
  | SubscriptionIdentifiersAvailable (value : bool)
  | TopicAlias (value : u16)
  | TopicAliasMaximum (value : u16)
  | UserProperty (name value : ByteStr)
  | WildcardSubscriptionAvailable (value : bool)
  | WillDelayInterval (value : u32).

(** The variants, which [decode_properties!] names in its bindings. *)
Inductive variant : Set :=
  | VAssignedClientIdentifier
  | VAuthenticationData
  | VAuthenticationMethod
  | VConnectSessionExpiryInterval
  | VContentType
  | VCorrelationData
  | VMaximumPacketSize
  | VMaximumQoS
  | VMessageExpiryInterval
  | VPayloadIsUtf8
  | VReasonString
  | VReceiveMaximum
  | VRequestProblemInformation
  | VRequestResponseInformation
  | VResponseInformation
  | VResponseTopic
  | VRetainAvailable
  | VServerKeepAlive
  | VServerReference
  | VSessionExpiryInterval
  | VSharedSubscriptionAvailable
  | VSubscriptionIdentifier
  | VSubscriptionIdentifiersAvailable
  | VTopicAlias
  | VTopicAliasMaximum
  | VUserProperty
  | VWildcardSubscriptionAvailable
  | VWillDelayInterval.

Definition variant_of (p : t) : variant :=
  match p with
  | AssignedClientIdentifier _ => VAssignedClientIdentifier
  | AuthenticationData _ => VAuthenticationData
  | AuthenticationMethod _ => VAuthenticationMethod
  | ConnectSessionExpiryInterval _ => VConnectSessionExpiryInterval
  | ContentType _ => VContentType
  | CorrelationData _ => VCorrelationData
  | MaximumPacketSize _ => VMaximumPacketSize
  | MaximumQoS _ => VMaximumQoS
  | MessageExpiryInterval _ => VMessageExpiryInterval
  | PayloadIsUtf8 _ => VPayloadIsUtf8
  | ReasonString _ => VReasonString
  | ReceiveMaximum _ => VReceiveMaximum
  | RequestProblemInformation _ => VRequestProblemInformation
  | RequestResponseInformation _ => VRequestResponseInformation
  | ResponseInformation _ => VResponseInformation
  | ResponseTopic _ => VResponseTopic
  | RetainAvailable _ => VRetainAvailable
  | ServerKeepAlive _ => VServerKeepAlive
  | ServerReference _ => VServerReference
  | SessionExpiryInterval _ => VSessionExpiryInterval
  | SharedSubscriptionAvailable _ => VSharedSubscriptionAvailable
  | SubscriptionIdentifier _ => VSubscriptionIdentifier
  | SubscriptionIdentifiersAvailable _ => VSubscriptionIdentifiersAvailable
  | TopicAlias _ => VTopicAlias
  | TopicAliasMaximum _ => VTopicAliasMaximum
  | UserProperty _ _ => VUserProperty
  | WildcardSubscriptionAvailable _ => VWildcardSubscriptionAvailable
  | WillDelayInterval _ => VWillDelayInterval
  end.

(** [stringify!($variant)]. *)
Definition variant_name (v : variant) : string :=
  match v with
  | VAssignedClientIdentifier => "AssignedClientIdentifier"
  | VAuthenticationData => "AuthenticationData"
  | VAuthenticationMethod => "AuthenticationMethod"
  | VConnectSessionExpiryInterval => "ConnectSessionExpiryInterval"
  | VContentType => "ContentType"
  | VCorrelationData => "CorrelationData"
  | VMaximumPacketSize => "MaximumPacketSize"
  | VMaximumQoS => "MaximumQoS"
  | VMessageExpiryInterval => "MessageExpiryInterval"
  | VPayloadIsUtf8 => "PayloadIsUtf8"
  | VReasonString => "ReasonString"
  | VReceiveMaximum => "ReceiveMaximum"
  | VRequestProblemInformation => "RequestProblemInformation"
  | VRequestResponseInformation => "RequestResponseInformation"
  | VResponseInformation => "ResponseInformation"
  | VResponseTopic => "ResponseTopic"
  | VRetainAvailable => "RetainAvailable"
  | VServerKeepAlive => "ServerKeepAlive"
  | VServerReference => "ServerReference"
  | VSessionExpiryInterval => "SessionExpiryInterval"
  | VSharedSubscriptionAvailable => "SharedSubscriptionAvailable"
  | VSubscriptionIdentifier => "SubscriptionIdentifier"
  | VSubscriptionIdentifiersAvailable => "SubscriptionIdentifiersAvailable"
  | VTopicAlias => "TopicAlias"
  | VTopicAliasMaximum => "TopicAliasMaximum"
  | VUserProperty => "UserProperty"
  | VWildcardSubscriptionAvailable => "WildcardSubscriptionAvailable"
  | VWillDelayInterval => "WillDelayInterval"
  end.
End Property.

#[export] Instance variant_eq_dec : EqDecision Property.variant.
Proof. solve_decision. Defined.

Section decode.
Context `{Unicode}.

(** A one-byte boolean, with the error of the property it belongs to. *)
Definition decode_bool (err : u8 -> DecodeError.t) (src : Shared) : decode_result (bool * Shared) :=
  let? (b, src) := try_get_u8 src in
  match b with
  | 0x00 => Ok (false, src)
  | 0x01 => Ok (true, src)
  | value => Err (err value)
  end.

(** [ByteStr::decode(src)?.ok_or(DecodeError::IncompletePacket)?]. *)
Definition get_byte_str (src : Shared) : decode_result (ByteStr * Shared) :=
  let? r := ByteStr_decode src in
  ok_or r DecodeError.IncompletePacket.

(** [BinaryData::decode(src).ok_or(DecodeError::IncompletePacket)?]. *)
Definition get_binary_data (src : Shared) : decode_result (BinaryData * Shared) :=
  ok_or (BinaryData_decode src) DecodeError.IncompletePacket.

(** [Topic::decode(src)?.ok_or(DecodeError::IncompletePacket)?]. *)
Definition get_topic (src : Shared) : decode_result (Topic ByteStr * Shared) :=
  let? r := Topic_decode src in
  ok_or r DecodeError.IncompletePacket.

(** [Property::decode]. *)
Definition Property_decode (src : Shared) : decode_result (Property.t * Shared) :=
  let? (identifier, src) := try_get_u8 src in
  match identifier with
  | 0x01 =>
      let? (is_utf8, src) := decode_bool DecodeError.UnrecognizedPayloadFormatIndicator src in
      Ok (Property.PayloadIsUtf8 is_utf8, src)
  | 0x02 =>
      let? (interval, src) := try_get_u32_be src in
      Ok (Property.MessageExpiryInterval interval, src)
  | 0x03 =>
      let? (content_type, src) := get_byte_str src in
      Ok (Property.ContentType content_type, src)
  | 0x08 =>
      let? (response_topic, src) := get_topic src in
      Ok (Property.ResponseTopic response_topic, src)
  | 0x09 =>
      let? (correlation_data, src) := get_binary_data src in
      Ok (Property.CorrelationData correlation_data, src)
  | 0x0B =>
      let? r := decode_varint src in
      let? (varint, src) := ok_or r DecodeError.IncompletePacket in
      if varint =? 0 then Err (DecodeError.InvalidSubscriptionIdentifier varint)
      else Ok (Property.SubscriptionIdentifier varint, src)
  | 0x11 =>
      let? (interval, src) := try_get_u32_be src in
      Ok (Property.SessionExpiryInterval (SessionExpiryInterval.from_u32 interval), src)
  | 0x12 =>
      let? (client_id, src) := get_byte_str src in
      Ok (Property.AssignedClientIdentifier client_id, src)
  | 0x13 =>
      let? (keep_alive, src) := try_get_u16_be src in
      Ok (Property.ServerKeepAlive (KeepAlive.from_u16 keep_alive), src)
  | 0x15 =>
      let? (method, src) := get_byte_str src in
      Ok (Property.AuthenticationMethod method, src)
  | 0x16 =>
      let? (authentication_data, src) := get_binary_data src in
      Ok (Property.AuthenticationData authentication_data, src)
  | 0x17 =>
      let? (requested, src) := decode_bool DecodeError.UnrecognizedRequestProblemInformation src in
      Ok (Property.RequestProblemInformation requested, src)
  | 0x18 =>
      let? (interval, src) := try_get_u32_be src in
      Ok (Property.WillDelayInterval interval, src)
  | 0x19 =>
      let? (requested, src) := decode_bool DecodeError.UnrecognizedRequestResponseInformation src in
      Ok (Property.RequestResponseInformation requested, src)
  | 0x1A =>
      let? (response_information, src) := get_byte_str src in
      Ok (Property.ResponseInformation response_information, src)
  | 0x1C =>
      let? (server_reference, src) := get_byte_str src in
      Ok (Property.ServerReference server_reference, src)
  | 0x1F =>
      let? (reason_string, src) := get_byte_str src in
      Ok (Property.ReasonString reason_string, src)
  | 0x21 =>
      let? (value, src) := try_get_u16_be src in
      if value =? 0 then Err (DecodeError.InvalidReceiveMaximum value)
      else Ok (Property.ReceiveMaximum value, src)
  | 0x22 =>
      let? (value, src) := try_get_u16_be src in
      Ok (Property.TopicAliasMaximum value, src)
  | 0x23 =>
      let? (value, src) := try_get_u16_be src in
      if value =? 0 then Err (DecodeError.InvalidTopicAlias value)
      else Ok (Property.TopicAlias value, src)
  | 0x24 =>
      let? (b, src) := try_get_u8 src in
      let? qos :=
        match b with
        | 0x00 => Ok QoS.AtMostOnce
        | 0x01 => Ok QoS.AtLeastOnce
        | value => Err (DecodeError.UnrecognizedMaximumQoS value)
        end in
      Ok (Property.MaximumQoS qos, src)
  | 0x25 =>
      let? (available, src) := decode_bool DecodeError.UnrecognizedRetainAvailable src in
      Ok (Property.RetainAvailable available, src)
  | 0x26 =>
      let? (name, src) := get_byte_str src in
      let? (value, src) := get_byte_str src in
      Ok (Property.UserProperty name value, src)
  | 0x27 =>
      let? (value, src) := try_get_u32_be src in
      if value =? 0 then Err (DecodeError.InvalidMaximumPacketSize value)
      else Ok (Property.MaximumPacketSize value, src)
  | 0x28 =>
      let? (available, src) := decode_bool DecodeError.UnrecognizedWildcardSubscriptionAvailable src in
      Ok (Property.WildcardSubscriptionAvailable available, src)
  | 0x29 =>
      let? (available, src) :=
        decode_bool DecodeError.UnrecognizedSubscriptionIdentifiersAvailable src in
      Ok (Property.SubscriptionIdentifiersAvailable available, src)
  | 0x2A =>
      let? (available, src) := decode_bool DecodeError.UnrecognizedSharedSubscriptionAvailable src in
      Ok (Property.SharedSubscriptionAvailable available, src)
  | identifier => Err (DecodeError.UnrecognizedPropertyIdentifier identifier)
  end.

(** [Property::decode_all]: splits the bytes of the properties off [src]. *)
Definition Property_decode_all (src : Shared) : decode_result (Shared * Shared) :=
  let? r := decode_remaining_length src in
  let? (remaining_length, src) := ok_or r DecodeError.IncompletePacket in
  if len src <? remaining_length then Err DecodeError.IncompletePacket
  else Ok (split_to remaining_length src).

(** ** [decode_properties!] *)

(** A binding of the macro: [name : Variant], or a vector. *)
Inductive Binding : Set :=
  | Bind (v : Property.variant)
  | BindVecSubscriptionIdentifier
  | BindVecUserProperty.

#[export] Instance Binding_eq_dec : EqDecision Binding.
Proof. solve_decision. Defined.

(** [$binding.push(..)] applies. *)
Definition binds_vec (bindings : list Binding) (v : Property.variant) : bool :=
  match v with
  | Property.VSubscriptionIdentifier => bool_decide (BindVecSubscriptionIdentifier ∈ bindings)
  | Property.VUserProperty => bool_decide (BindVecUserProperty ∈ bindings)
  | _ => false
  end.

(** One iteration's [match property? { .. }]. *)
Definition accept_property (bindings : list Binding) (acc : list Property.t) (p : Property.t) :
    decode_result (list Property.t) :=
  let v := Property.variant_of p in
  if binds_vec bindings v then Ok (acc ++ [p])
  else if bool_decide (Bind v ∈ bindings) then
    if existsb (fun q => bool_decide (Property.variant_of q = v)) acc
    then Err (DecodeError.DuplicateProperty (Property.variant_name v))
    else Ok (acc ++ [p])
  else Err DecodeError.UnexpectedProperty.

(** The loop over [PropertyDecodeIter]. Every property has an identifier, so a
    fuel of the number of bytes is enough ([decode_properties_loop_fuel]). *)
Fixpoint decode_properties_loop (fuel : nat) (bindings : list Binding) (acc : list Property.t)
    (src : Shared) : decode_result (list Property.t) :=
  match src, fuel with
  | [], _ => Ok acc
  | _, O => Err DecodeError.IncompletePacket
  | _, S fuel =>
      let? (p, src) := Property_decode src in
      let? acc := accept_property bindings acc p in
      decode_properties_loop fuel bindings acc src
  end.

Definition decode_properties (bindings : list Binding) (src : Shared) :
    decode_result (list Property.t * Shared) :=
  let? (props, src) := Property_decode_all src in
  let? acc := decode_properties_loop (length props) bindings [] props in
  Ok (acc, src).
End decode.

(** A binding's variable: the value of the one property accepted for it, if any. *)
Definition find_prop {A} (get : Property.t -> option A) (props : list Property.t) : option A :=
  foldr (fun p r => match get p with Some a => Some a | None => r end) None props.

(** A vector binding's variable. *)
Definition filter_props {A} (get : Property.t -> option A) (props : list Property.t) : list A :=
  omap get props.

Module As.
Definition AssignedClientIdentifier (p : Property.t) : option ByteStr :=
  match p with Property.AssignedClientIdentifier value => Some value | _ => None end.
Definition AuthenticationData (p : Property.t) : option BinaryData :=
  match p with Property.AuthenticationData value => Some value | _ => None end.
Definition AuthenticationMethod (p : Property.t) : option ByteStr :=
  match p with Property.AuthenticationMethod value => Some value | _ => None end.
Definition ContentType (p : Property.t) : option ByteStr :=
  match p with Property.ContentType value => Some value | _ => None end.
Definition CorrelationData (p : Property.t) : option BinaryData :=
  match p with Property.CorrelationData value => Some value | _ => None end.
Definition MaximumPacketSize (p : Property.t) : option u32 :=
  match p with Property.MaximumPacketSize value => Some value | _ => None end.
Definition MaximumQoS (p : Property.t) : option QoS.t :=
  match p with Property.MaximumQoS value => Some value | _ => None end.
Definition MessageExpiryInterval (p : Property.t) : option u32 :=
  match p with Property.MessageExpiryInterval value => Some value | _ => None end.
Definition PayloadIsUtf8 (p : Property.t) : option bool :=
  match p with Property.PayloadIsUtf8 value => Some value | _ => None end.
Definition ReasonString (p : Property.t) : option ByteStr :=
  match p with Property.ReasonString value => Some value | _ => None end.
Definition ReceiveMaximum (p : Property.t) : option u16 :=
  match p with Property.ReceiveMaximum value => Some value | _ => None end.
Definition RequestProblemInformation (p : Property.t) : option bool :=
  match p with Property.RequestProblemInformation value => Some value | _ => None end.
Definition RequestResponseInformation (p : Property.t) : option bool :=
  match p with Property.RequestResponseInformation value => Some value | _ => None end.
Definition ResponseInformation (p : Property.t) : option ByteStr :=
  match p with Property.ResponseInformation value => Some value | _ => None end.
Definition ResponseTopic (p : Property.t) : option (Topic ByteStr) :=
  match p with Property.ResponseTopic value => Some value | _ => None end.
Definition RetainAvailable (p : Property.t) : option bool :=
  match p with Property.RetainAvailable value => Some value | _ => None end.
Definition ServerKeepAlive (p : Property.t) : option KeepAlive.t :=
  match p with Property.ServerKeepAlive value => Some value | _ => None end.
Definition ServerReference (p : Property.t) : option ByteStr :=
  match p with Property.ServerReference value => Some value | _ => None end.
Definition SessionExpiryInterval (p : Property.t) : option SessionExpiryInterval.t :=
  match p with Property.SessionExpiryInterval value => Some value | _ => None end.
Definition SharedSubscriptionAvailable (p : Property.t) : option bool :=
  match p with Property.SharedSubscriptionAvailable value => Some value | _ => None end.
Definition SubscriptionIdentifier (p : Property.t) : option u32 :=
  match p with Property.SubscriptionIdentifier value => Some value | _ => None end.
Definition SubscriptionIdentifiersAvailable (p : Property.t) : option bool :=
  match p with Property.SubscriptionIdentifiersAvailable value => Some value | _ => None end.
Definition TopicAlias (p : Property.t) : option u16 :=
  match p with Property.TopicAlias value => Some value | _ => None end.
Definition TopicAliasMaximum (p : Property.t) : option u16 :=
  match p with Property.TopicAliasMaximum value => Some value | _ => None end.
Definition UserProperty (p : Property.t) : option (ByteStr * ByteStr) :=
  match p with Property.UserProperty name value => Some (name, value) | _ => None end.
Definition WildcardSubscriptionAvailable (p : Property.t) : option bool :=
  match p with Property.WildcardSubscriptionAvailable value => Some value | _ => None end.
Definition WillDelayInterval (p : Property.t) : option u32 :=
  match p with Property.WillDelayInterval value => Some value | _ => None end.
End As.

(** ** [PropertyRef::encode] and [encode_all] *)

Section encode.
Context {B : Type} `{BytesAccumulator B}.

(** [dst.try_put_u8(n).ok_or(EncodeError::InsufficientBuffer)?] and so on. *)
Definition put_u8 (n : u8) (dst : B) : encode_result B :=
  ok_or (try_put_u8 n dst) EncodeError.InsufficientBuffer.
Definition put_u16 (n : u16) (dst : B) : encode_result B :=
  ok_or (try_put_u16_be n dst) EncodeError.InsufficientBuffer.
Definition put_u32 (n : u32) (dst : B) : encode_result B :=
  ok_or (try_put_u32_be n dst) EncodeError.InsufficientBuffer.

(** [PropertyRef::SessionExpiryInterval(&interval).encode(dst)], also called for
    [ConnectSessionExpiryInterval]. *)
Definition encode_session_expiry_interval (interval : SessionExpiryInterval.t) (dst : B) :
    encode_result B :=
  let? dst := put_u8 0x11 dst in
  put_u32 (SessionExpiryInterval.to_u32 interval) dst.

Definition PropertyRef_encode (p : Property.t) (dst : B) : encode_result B :=
  match p with
  | Property.AssignedClientIdentifier client_id =>
      let? dst := put_u8 0x12 dst in ByteStr_encode client_id dst
  | Property.AuthenticationData authentication_data =>
      let? dst := put_u8 0x16 dst in BinaryData_encode authentication_data dst
  | Property.AuthenticationMethod method =>
      let? dst := put_u8 0x15 dst in ByteStr_encode method dst
  | Property.ConnectSessionExpiryInterval interval =>
      if SessionExpiryInterval.to_u32 interval >? 0
      then encode_session_expiry_interval interval dst else Ok dst
  | Property.ContentType content_type =>
      let? dst := put_u8 0x03 dst in ByteStr_encode content_type dst
  | Property.CorrelationData correlation_data =>
      let? dst := put_u8 0x09 dst in BinaryData_encode correlation_data dst
  | Property.MaximumPacketSize value =>
      if value <? u32_MAX then let? dst := put_u8 0x27 dst in put_u32 value dst else Ok dst
  | Property.MaximumQoS qos =>
      match qos with
      | QoS.AtMostOnce | QoS.AtLeastOnce =>
          let? dst := put_u8 0x24 dst in put_u8 (QoS.to_u8 qos) dst
      | QoS.ExactlyOnce => Ok dst
      end
  | Property.MessageExpiryInterval interval =>
      let? dst := put_u8 0x02 dst in put_u32 interval dst
  | Property.PayloadIsUtf8 is_utf8 =>
      if is_utf8 then let? dst := put_u8 0x01 dst in put_u8 0x01 dst else Ok dst
  | Property.ReasonString reason_string =>
      let? dst := put_u8 0x1F dst in ByteStr_encode reason_string dst
  | Property.ReceiveMaximum value =>
      if value <? u16_MAX then let? dst := put_u8 0x21 dst in put_u16 value dst else Ok dst
  | Property.RequestProblemInformation requested =>
      if negb requested then let? dst := put_u8 0x17 dst in put_u8 0x00 dst else Ok dst
  | Property.RequestResponseInformation requested =>
      if requested then let? dst := put_u8 0x19 dst in put_u8 0x01 dst else Ok dst
  | Property.ResponseInformation response_information =>
      let? dst := put_u8 0x1A dst in ByteStr_encode response_information dst
  | Property.ResponseTopic response_topic =>
      let? dst := put_u8 0x08 dst in Topic_encode response_topic dst
  | Property.RetainAvailable available =>
      if negb available then let? dst := put_u8 0x25 dst in put_u8 0x00 dst else Ok dst
  | Property.ServerKeepAlive keep_alive =>
      let? dst := put_u8 0x13 dst in put_u16 (KeepAlive.to_u16 keep_alive) dst
  | Property.ServerReference server_reference =>
      let? dst := put_u8 0x1C dst in ByteStr_encode server_reference dst
  | Property.SessionExpiryInterval interval => encode_session_expiry_interval interval dst
  | Property.SharedSubscriptionAvailable available =>
      if negb available then let? dst := put_u8 0x2A dst in put_u8 0x00 dst else Ok dst
  | Property.SubscriptionIdentifier varint =>
      let? dst := put_u8 0x0B dst in encode_varint varint dst
  | Property.SubscriptionIdentifiersAvailable available =>
      if negb available then let? dst := put_u8 0x29 dst in put_u8 0x00 dst else Ok dst
  | Property.TopicAlias value =>
      let? dst := put_u8 0x23 dst in put_u16 value dst
  | Property.TopicAliasMaximum value =>
      if value >? 0 then let? dst := put_u8 0x22 dst in put_u16 value dst else Ok dst
  | Property.UserProperty name value =>
      let? dst := put_u8 0x26 dst in
      let? dst := ByteStr_encode name dst in
      ByteStr_encode value dst
  | Property.WildcardSubscriptionAvailable available =>
      if negb available then let? dst := put_u8 0x28 dst in put_u8 0x00 dst else Ok dst
  | Property.WillDelayInterval interval =>
      if interval >? 0 then let? dst := put_u8 0x18 dst in put_u32 interval dst else Ok dst
  end.

(** [encode_all_inner]. *)
Definition encode_all_inner (properties : list Property.t) (dst : B) : encode_result B :=
  foldM (fun dst p => PropertyRef_encode p dst) dst properties.
End encode.

(** [PropertyRef::encode_all]: counts, writes the length, then the properties. *)
Definition encode_all {B} `{BytesAccumulator B} (properties : list Property.t) (dst : B) :
    encode_result B :=
  let? counter := encode_all_inner properties (ByteCounter_new (COUNT_SHARED := true)) in
  let? dst := encode_remaining_length (into_count counter) dst in
  encode_all_inner properties dst.

(** [Option<variant>] and [Vec<..>] bindings of [encode_properties!]. *)
Definition opt_prop {A} (variant : A -> Property.t) (o : option A) : list Property.t :=
  option_list (option_map variant o).
Definition user_props (l : list (ByteStr * ByteStr)) : list Property.t :=
  map (fun '(name, value) => Property.UserProperty name value) l.
Definition subscription_ids (l : list u32) : list Property.t :=
  map Property.SubscriptionIdentifier l.

(** ** Well-formed properties and what the wire shows of them *)

Definition prop_wf `{Unicode} (p : Property.t) : Prop :=
  match p with
  | Property.AssignedClientIdentifier s | Property.AuthenticationMethod s
  | Property.ContentType s | Property.ReasonString s | Property.ResponseInformation s
  | Property.ServerReference s => bs_wf s
  | Property.AuthenticationData d | Property.CorrelationData d => bd_wf d
  | Property.ConnectSessionExpiryInterval i | Property.SessionExpiryInterval i =>
      SessionExpiryInterval.wf i
  | Property.MaximumPacketSize n | Property.SubscriptionIdentifier n => is_nonzero_u32 n
  | Property.MessageExpiryInterval n | Property.WillDelayInterval n => is_u32 n
  | Property.ReceiveMaximum n | Property.TopicAlias n => is_nonzero_u16 n
  | Property.TopicAliasMaximum n => is_u16 n
  | Property.ResponseTopic t => topic_wf t
  | Property.ServerKeepAlive k => KeepAlive.wf k
  | Property.UserProperty name value => bs_wf name /\ bs_wf value
  | Property.MaximumQoS _ | Property.PayloadIsUtf8 _ | Property.RequestProblemInformation _
  | Property.RequestResponseInformation _ | Property.RetainAvailable _
  | Property.SharedSubscriptionAvailable _ | Property.SubscriptionIdentifiersAvailable _
  | Property.WildcardSubscriptionAvailable _ => True
  end.

(** The encoder writes nothing for a property with its default value, and
    writes [ConnectSessionExpiryInterval] as [SessionExpiryInterval]. *)
Definition visible (p : Property.t) : option Property.t :=
  match p with
  | Property.ConnectSessionExpiryInterval i =>
      if SessionExpiryInterval.to_u32 i >? 0 then Some (Property.SessionExpiryInterval i) else None
  | Property.MaximumPacketSize n => if n <? u32_MAX then Some p else None
  | Property.MaximumQoS QoS.ExactlyOnce => None
  | Property.PayloadIsUtf8 b | Property.RequestResponseInformation b => if b then Some p else None
  | Property.ReceiveMaximum n => if n <? u16_MAX then Some p else None
  | Property.RequestProblemInformation b | Property.RetainAvailable b
  | Property.SharedSubscriptionAvailable b | Property.SubscriptionIdentifiersAvailable b
  | Property.WildcardSubscriptionAvailable b => if negb b then Some p else None
  | Property.TopicAliasMaximum n | Property.WillDelayInterval n => if n >? 0 then Some p else None
  | _ => Some p
  end.

Lemma put_u8_wp n (Q : list u8 -> Prop) :
  Q (to_be_bytes 1 n) -> wp (fun B BA dst => put_u8 (H := BA) n dst) Q.
Proof. apply (wp_put1 (PutSlice _ _)). Qed.

Lemma put_u16_wp n (Q : list u8 -> Prop) :
  Q (to_be_bytes 2 n) -> wp (fun B BA dst => put_u16 (H := BA) n dst) Q.
Proof. apply (wp_put1 (PutSlice _ _)). Qed.

Lemma put_u32_wp n (Q : list u8 -> Prop) :
  Q (to_be_bytes 4 n) -> wp (fun B BA dst => put_u32 (H := BA) n dst) Q.
Proof. apply (wp_put1 (PutSlice _ _)). Qed.

(** Apply the rule for the encoder at the head of a sequence. *)
Ltac wp_tail :=
  first [ apply put_u8_wp | apply put_u16_wp | apply put_u32_wp | apply ByteStr_encode_wp
        | apply BinaryData_encode_wp | apply Topic_encode_wp | apply Filter_encode_wp
        | apply wp_put_shared_ok | apply wp_err | apply wp_ok ].
Ltac wp_steps := repeat first [ wp_tail | apply wp_bind; wp_tail ]; cbv beta.

Lemma KeepAlive_roundtrip k : KeepAlive.wf k -> KeepAlive.from_u16 (KeepAlive.to_u16 k) = k.
Proof.
  destruct k as [|n]; [done|]. cbn. intros Hn. unfold KeepAlive.from_u16.
  destruct (n =? 0) eqn:E; [bool_to_prop; solve_range | done].
Qed.

Lemma SessionExpiryInterval_roundtrip i :
  SessionExpiryInterval.wf i -> SessionExpiryInterval.from_u32 (SessionExpiryInterval.to_u32 i) = i.
Proof.
  destruct i as [|n]; [done|]. cbn. intros Hn. unfold SessionExpiryInterval.from_u32.
  destruct (n =? u32_MAX) eqn:E; [bool_to_prop; lia | done].
Qed.

Lemma KeepAlive_to_u16_range k : KeepAlive.wf k -> is_u16 (KeepAlive.to_u16 k).
Proof. destruct k; cbn; solve_range. Qed.

Lemma SessionExpiryInterval_to_u32_range i :
  SessionExpiryInterval.wf i -> is_u32 (SessionExpiryInterval.to_u32 i).
Proof. destruct i; cbn; solve_range. Qed.

Lemma KeepAlive_from_u16_wf n : is_u16 n -> KeepAlive.wf (KeepAlive.from_u16 n).
Proof.
  unfold KeepAlive.from_u16. intros. destruct (n =? 0) eqn:E; cbn; [done|]. bool_to_prop. solve_range.
Qed.

Lemma SessionExpiryInterval_from_u32_wf n :
  is_u32 n -> SessionExpiryInterval.wf (SessionExpiryInterval.from_u32 n).
Proof.
  unfold SessionExpiryInterval.from_u32. intros. destruct (n =? u32_MAX) eqn:E; cbn; [done|].
  bool_to_prop. solve_range.
Qed.

Section lemmas.
Context `{Unicode}.

Lemma get_byte_str_put s rest :
  bs_wf s -> get_byte_str (bd_shared (bs_data s) ++ rest) = Ok (s, rest).
Proof. intros Hs. unfold get_byte_str. by rewrite ByteStr_decode_put. Qed.

Lemma get_binary_data_put d rest :
  bd_wf d -> get_binary_data (bd_shared d ++ rest) = Ok (d, rest).
Proof. intros Hs. unfold get_binary_data. by rewrite BinaryData_decode_put. Qed.

Lemma get_topic_put t rest :
  topic_wf t -> get_topic (bd_shared (bs_data (topic_inner t)) ++ rest) = Ok (t, rest).
Proof. intros Hs. unfold get_topic. by rewrite Topic_decode_put. Qed.

Lemma len_bd_wf d : bd_wf d -> 2 <= len (bd_shared d).
Proof.
  intros (data & -> & _). rewrite len_app, len_to_be_bytes. pose proof (len_nonneg data). lia.
Qed.

Lemma get_binary_data_ok src d rest :
  bytes_ok src -> get_binary_data src = Ok (d, rest) ->
  bd_wf d /\ bytes_ok rest /\ len src = len (bd_shared d) + len rest /\ 2 <= len (bd_shared d).
Proof.
  intros Hs E. unfold get_binary_data, ok_or in E. inv_ok E.
  apply BinaryData_decode_ok in E0 as [Hd ->]; [|done]. apply Forall_app in Hs as [_ ?].
  rewrite len_app. auto using len_bd_wf.
Qed.

Lemma get_byte_str_ok src s rest :
  bytes_ok src -> get_byte_str src = Ok (s, rest) ->
  bs_wf s /\ bytes_ok rest /\ len src = len (bd_shared (bs_data s)) + len rest /\
  2 <= len (bd_shared (bs_data s)).
Proof.
  intros Hs E. unfold get_byte_str, ok_or in E. inv_ok E.
  apply ByteStr_decode_ok in E0 as [[Hd ?] ->]; [|done]. apply Forall_app in Hs as [_ ?].
  rewrite len_app. split; [by split|]. auto using len_bd_wf.
Qed.

Lemma get_topic_ok src t rest :
  bytes_ok src -> get_topic src = Ok (t, rest) ->
  topic_wf t /\ bytes_ok rest /\ len src = len (bd_shared (bs_data (topic_inner t))) + len rest /\
  2 <= len (bd_shared (bs_data (topic_inner t))).
Proof.
  intros Hs E. unfold get_topic, ok_or in E. inv_ok E.
  apply Topic_decode_ok in E0 as [Ht ->]; [|done]. apply Forall_app in Hs as [_ ?].
  rewrite len_app. split; [done|]. destruct Ht as [[? ?] ?]. auto using len_bd_wf.
Qed.

Lemma decode_bool_put err b rest :
  decode_bool err (to_be_bytes 1 (if b : bool then 1 else 0) ++ rest) = Ok (b, rest).
Proof. unfold decode_bool. rewrite try_get_u8_put by (destruct b; solve_range). by destruct b. Qed.

Lemma decode_bool_ok err src b rest :
  bytes_ok src -> decode_bool err src = Ok (b, rest) -> bytes_ok rest /\ len src = 1 + len rest.
Proof.
  intros Hs E. unfold decode_bool in E. destruct (try_get_u8 src) as [[n r]|] eqn:E1; [|done].
  apply try_get_u8_ok in E1 as (?&?&?); [|done]. inv_ok E; done.
Qed.
End lemmas.

(** ** Round trip of one property *)

(** The bytes of a property decode to what is visible of it. *)
Definition prop_bytes `{Unicode} (p : Property.t) (bs : list u8) : Prop :=
  prop_wf p ->
  match visible p with
  | None => bs = []
  | Some q => bs <> [] /\ forall rest, Property_decode (bs ++ rest) = Ok (q, rest)
  end.

(** Reading back the identifier and the value of a property. *)
Ltac read_property :=
  intros Hwf; cbn [prop_wf] in Hwf; split; [done|]; intros rest; rewrite <- ?app_assoc;
  unfold Property_decode; rewrite try_get_u8_put by solve_range; cbv iota beta.

Section roundtrip.
Context `{Unicode}.

Lemma encode_session_expiry_interval_wp i (Q : list u8 -> Prop) :
  Q (to_be_bytes 1 0x11 ++ to_be_bytes 4 (SessionExpiryInterval.to_u32 i)) ->
  wp (fun B BA dst => encode_session_expiry_interval (H := BA) i dst) Q.
Proof. intros HQ. unfold encode_session_expiry_interval. by wp_steps. Qed.

Lemma read_session_expiry_interval i rest :
  SessionExpiryInterval.wf i ->
  Property_decode ((to_be_bytes 1 0x11 ++ to_be_bytes 4 (SessionExpiryInterval.to_u32 i)) ++ rest)
  = Ok (Property.SessionExpiryInterval i, rest).
Proof.
  intros Hi. rewrite <- app_assoc. unfold Property_decode.
  rewrite try_get_u8_put by solve_range. cbv iota beta.
  rewrite try_get_u32_be_put by (by apply SessionExpiryInterval_to_u32_range).
  by rewrite SessionExpiryInterval_roundtrip.
Qed.

(** A nonzero integer passes the decoder's check. *)
Lemma nonzero_eqb n : 1 <= n -> (n =? 0) = false.
Proof. intros. apply Z.eqb_neq. lia. Qed.

Lemma PropertyRef_encode_wp p :
  wp (fun B BA dst => PropertyRef_encode (H := BA) p dst) (prop_bytes p).
Proof.
  destruct p; unfold PropertyRef_encode, prop_bytes; cbn [visible];
    repeat match goal with
    | |- wp (fun _ _ dst => if negb ?b then _ else _) _ => destruct b; cbn [negb]
    | |- wp (fun _ _ dst => if ?c then _ else _) _ => destruct c
    | |- wp (fun _ _ dst => match ?q with _ => _ end) _ => is_var q; destruct q
    end;
    try (apply wp_ok; done).
  all: try (apply encode_session_expiry_interval_wp; intros Hwf; split; [done|];
            intros; by apply read_session_expiry_interval).
  all: try (wp_steps; read_property;
    first [ by rewrite get_byte_str_put | by rewrite get_binary_data_put | by rewrite get_topic_put
          | by rewrite try_get_u32_be_put | by rewrite try_get_u16_be_put
          | by rewrite (decode_bool_put _ true) | by rewrite (decode_bool_put _ false)
          | by rewrite try_get_u8_put by (cbn; solve_range)
          | rewrite try_get_u32_be_put by solve_range; by rewrite nonzero_eqb by solve_range
          | rewrite try_get_u16_be_put by solve_range; by rewrite nonzero_eqb by solve_range
          | rewrite try_get_u16_be_put by (by apply KeepAlive_to_u16_range);
            by rewrite KeepAlive_roundtrip
          | destruct Hwf; rewrite get_byte_str_put by done; by rewrite get_byte_str_put ]).
  (* SubscriptionIdentifier *)
  apply wp_bind, put_u8_wp. eapply wp_mono; [apply encode_varint_wp_any|]. cbv beta.
  intros bs Hbs. read_property. destruct Hbs as (_ & _ & _ & Hdec); [solve_range|].
  rewrite Hdec. cbn [ok_or]. by rewrite nonzero_eqb by solve_range.
Qed.
End roundtrip.

(** ** What decoding guarantees *)

(** Use what the readers guarantee, on every hypothesis that says one succeeded. *)
Ltac decode_facts :=
  repeat match goal with
  | H : try_get_u8 ?s = Ok (_, _), Hs : bytes_ok ?s |- _ => apply (try_get_u8_ok _ _ _ Hs) in H as (?&?&?)
  | H : try_get_u16_be ?s = Ok (_, _), Hs : bytes_ok ?s |- _ =>
      apply (try_get_u16_be_ok _ _ _ Hs) in H as (?&?&?)
  | H : try_get_u32_be ?s = Ok (_, _), Hs : bytes_ok ?s |- _ =>
      apply (try_get_u32_be_ok _ _ _ Hs) in H as (?&?&?)
  | H : try_get_packet_identifier ?s = Ok (_, _), Hs : bytes_ok ?s |- _ =>
      apply (try_get_packet_identifier_ok _ _ _ Hs) in H as (?&?&?)
  | H : get_byte_str ?s = Ok (_, _), Hs : bytes_ok ?s |- _ =>
      apply (get_byte_str_ok _ _ _ Hs) in H as (?&?&?&?)
  | H : get_binary_data ?s = Ok (_, _), Hs : bytes_ok ?s |- _ =>
      apply (get_binary_data_ok _ _ _ Hs) in H as (?&?&?&?)
  | H : get_topic ?s = Ok (_, _), Hs : bytes_ok ?s |- _ =>
      apply (get_topic_ok _ _ _ Hs) in H as (?&?&?&?)
  | H : decode_bool _ ?s = Ok (_, _), Hs : bytes_ok ?s |- _ =>
      apply (decode_bool_ok _ _ _ _ Hs) in H as (?&?)
  end.

Section decode_ok.
Context `{Unicode}.

Lemma Property_decode_ok src p rest :
  bytes_ok src -> Property_decode src = Ok (p, rest) ->
  prop_wf p /\ bytes_ok rest /\ len rest < len src.
Proof.
  intros Hs E. unfold Property_decode in E.
  destruct (try_get_u8 src) as [[id s1]|] eqn:E1; [|done]. decode_facts.
  inv_ok E; decode_facts; bool_to_prop; cbn [prop_wf];
    try (split; [first [done | solve_range | by apply KeepAlive_from_u16_wf
                       | by apply SessionExpiryInterval_from_u32_wf]|split; [done|lia]]).
  (* SubscriptionIdentifier *)
  unfold ok_or in E6. inv_ok E6. apply decode_varint_ok in E5 as (?&?&?); [|done].
  split; [unfold VARINT_MAX in *; solve_range|split; [done|lia]].
Qed.

Lemma decode_properties_loop_fuel fuel fuel' b acc src :
  bytes_ok src -> (length src <= fuel)%nat -> (length src <= fuel')%nat ->
  decode_properties_loop fuel b acc src = decode_properties_loop fuel' b acc src.
Proof.
  revert fuel' acc src; induction fuel as [|fuel IH]; intros [|fuel'] acc [|x src] Hs H1 H2;
    try done; try (cbn in *; lia).
  cbn [decode_properties_loop]. destruct (Property_decode (x :: src)) as [[p s1]|] eqn:E; [|done].
  destruct (accept_property b acc p); [|done].
  apply Property_decode_ok in E as (_&?&Hl); [|done]. unfold len in Hl. cbn in *. apply IH; [done|lia..].
Qed.

Lemma decode_properties_loop_step fuel b acc src :
  src <> [] ->
  decode_properties_loop (S fuel) b acc src =
    let? (p, src) := Property_decode src in
    let? acc := accept_property b acc p in
    decode_properties_loop fuel b acc src.
Proof. by destruct src. Qed.

Lemma accept_property_ok b acc p acc' : accept_property b acc p = Ok acc' -> acc' = acc ++ [p].
Proof. unfold accept_property. intros E. by inv_ok E. Qed.

Lemma decode_properties_loop_ok fuel b acc src props :
  bytes_ok src -> Forall prop_wf acc -> decode_properties_loop fuel b acc src = Ok props ->
  Forall prop_wf props.
Proof.
  revert acc src; induction fuel as [|fuel IH]; intros acc [|x src] Hs Ha E; cbn in E;
    try (by inv_ok E).
  inv_ok E. apply Property_decode_ok in E0 as (?&?&?); [|done].
  apply accept_property_ok in E2 as ->. eapply IH; [| |exact E]; [done|].
  apply Forall_app; split; [done|]. by constructor.
Qed.

(** The decoded properties are well formed, and at least the length byte was
    consumed. *)
Lemma decode_properties_ok b src props rest :
  bytes_ok src -> decode_properties b src = Ok (props, rest) ->
  Forall prop_wf props /\ bytes_ok rest /\ len rest < len src.
Proof.
  intros Hs E. unfold decode_properties, Property_decode_all, ok_or, split_to in E.
  destruct (decode_remaining_length src) as [[[n s1]|]|] eqn:E1; [|done..].
  apply decode_varint_ok in E1 as (Hn & Hs1 & Hl); [|done]. inv_ok E. bool_to_prop.
  split_and!.
  - eapply decode_properties_loop_ok; [|constructor|eassumption]. by apply bytes_ok_take.
  - by apply bytes_ok_drop.
  - pose proof (len_drop s1 (Z.to_nat n)). lia.
Qed.
End decode_ok.

(** ** Round trip of the properties of a packet *)

Section roundtrip_all.
Context `{Unicode}.

Lemma encode_all_inner_wp props :
  wp (fun B BA dst => encode_all_inner (H := BA) props dst) (fun bs =>
    Forall prop_wf props -> forall b acc fuel, (length bs <= fuel)%nat ->
      decode_properties_loop fuel b acc bs = foldM (accept_property b) acc (omap visible props)).
Proof.
  apply (wp_foldM (fun p B BA dst => PropertyRef_encode p dst)) with (R := prop_bytes).
  { intros p _. apply PropertyRef_encode_wp. }
  intros bss HF. induction HF as [|p bs props bss Hp _ IH]; intros Hwf b acc fuel Hf; [by destruct fuel|].
  inversion_clear Hwf as [|? ? Hpw Hwf']. specialize (Hp Hpw). cbn [concat] in *.
  cbn [omap list_omap]. destruct (visible p) as [q|]; [|subst bs; by apply IH].
  destruct Hp as [Hne Hdec]. rewrite length_app in Hf.
  destruct bs as [|x bs]; [done|]. cbn in Hf. destruct fuel as [|fuel]; [lia|].
  rewrite decode_properties_loop_step by done. rewrite Hdec. cbn [foldM].
  destruct (accept_property b acc q); [|done]. apply IH; [done|lia].
Qed.

Lemma encode_all_wp props :
  wp (fun B BA dst => encode_all (H := BA) props dst) (fun bs =>
    Forall prop_wf props -> forall b rest,
      decode_properties b (bs ++ rest) =
        let? acc := foldM (accept_property b) [] (omap visible props) in Ok (acc, rest)).
Proof.
  apply (wp_counted (fun B BA dst => encode_all_inner props dst)
    (fun n B BA dst => let? dst := encode_remaining_length n dst in encode_all_inner props dst) _ _
    (encode_all_inner_wp props)).
  intros ps Hr Hps. apply wp_bind. eapply wp_mono; [apply encode_remaining_length_wp, len_nonneg|].
  cbv beta. intros pre (_ & _ & _ & Hdec). apply (wp_runs _ ps); [done|].
  intros Hwf b rest. unfold decode_properties, Property_decode_all, ok_or.
  rewrite <- app_assoc, Hdec, len_app. pose proof (len_nonneg rest).
  destruct (_ <? _) eqn:E; bool_to_prop; [lia|]. unfold split_to.
  rewrite take_len_app, drop_len_app. by rewrite Hps.
Qed.

(** *** Which lists of properties a packet accepts *)

(** The properties that may occur once. *)
Definition singles (b : list Binding) (props : list Property.t) : list Property.variant :=
  List.filter (fun v => negb (binds_vec b v)) (map Property.variant_of props).

Lemma singles_app b l1 l2 : singles b (l1 ++ l2) = singles b l1 ++ singles b l2.
Proof. unfold singles. by rewrite map_app, List.filter_app. Qed.

Lemma accept_all_acc b acc props order :
  NoDup (singles b acc ++ order) -> Forall (fun v => Bind v ∈ b) order ->
  singles b props `sublist_of` order ->
  foldM (accept_property b) acc props = Ok (acc ++ props).
Proof.
  revert acc order; induction props as [|p props IH]; intros acc order Hnd Hb Hsub; cbn [foldM].
  { by rewrite app_nil_r. }
  change (p :: props) with ([p] ++ props) in Hsub. rewrite singles_app in Hsub.
  destruct (binds_vec b (Property.variant_of p)) eqn:Ev.
  - replace (accept_property b acc p) with (Ok (E := DecodeError.t) (acc ++ [p]))
      by (unfold accept_property; by rewrite Ev).
    rewrite (IH (acc ++ [p]) order); [by rewrite <- app_assoc| |done|].
    + rewrite singles_app. unfold singles at 2. cbn. rewrite Ev. cbn. by rewrite app_nil_r.
    + unfold singles at 1 in Hsub. cbn in Hsub. by rewrite Ev in Hsub.
  - assert (Hs1 : singles b [p] = [Property.variant_of p]) by (unfold singles; cbn; by rewrite Ev).
    rewrite Hs1 in Hsub.
    apply sublist_cons_l in Hsub as (o1 & o2 & -> & Hsub).
    apply Forall_app in Hb as [_ Hb]. inversion_clear Hb as [|? ? Hbp Hb'].
    assert (Hnot : Property.variant_of p ∉ singles b acc).
    { intros Hin. apply NoDup_app in Hnd as (_ & Hdisj & _). apply (Hdisj _ Hin).
      apply elem_of_app; right; by constructor. }
    destruct (existsb (fun q => bool_decide (Property.variant_of q = Property.variant_of p)) acc) eqn:Ex.
    { exfalso. apply Hnot. apply existsb_exists in Ex as (q & Hq & Eq). apply bool_decide_eq_true in Eq.
      unfold singles. apply list_elem_of_In, filter_In. split; [|by rewrite Ev].
      rewrite <- Eq. by apply in_map. }
    replace (accept_property b acc p) with (Ok (E := DecodeError.t) (acc ++ [p]))
      by (unfold accept_property; by rewrite Ev, bool_decide_eq_true_2, Ex).
    rewrite (IH (acc ++ [p]) o2); [by rewrite <- app_assoc| |done|done].
    rewrite singles_app, Hs1, <- app_assoc. cbn.
    apply NoDup_app in Hnd as (Hn1 & Hn2 & Hn3). apply NoDup_app in Hn3 as (_ & _ & Hn3).
    apply NoDup_app. split_and!; [done| |done].
    intros v Hv Hv'. apply (Hn2 v Hv). apply elem_of_app. by right.
Qed.

(** A list of properties is accepted when those that may occur once are among
    the bound variants, each at most once. *)
Lemma accept_all b props order :
  NoDup order -> Forall (fun v => Bind v ∈ b) order -> singles b props `sublist_of` order ->
  foldM (accept_property b) [] props = Ok props.
Proof. intros. by rewrite (accept_all_acc b [] props order). Qed.
End roundtrip_all.

(** *** Reading a packet's fields back off its list of properties *)

Lemma find_prop_app {A} (g : Property.t -> option A) l1 l2 :
  find_prop g (l1 ++ l2) =
    match find_prop g l1 with Some a => Some a | None => find_prop g l2 end.
Proof. induction l1 as [|p l1 IH]; cbn; [done|]. by destruct (g p). Qed.

Lemma find_prop_skip {A} (g : Property.t -> option A) l1 l2 :
  find_prop g (omap visible l1) = None ->
  find_prop g (omap visible (l1 ++ l2)) = find_prop g (omap visible l2).
Proof. intros E. by rewrite omap_app, find_prop_app, E. Qed.

Lemma find_prop_hit {A} (g : Property.t -> option A) l1 l2 :
  find_prop g (omap visible l2) = None ->
  find_prop g (omap visible (l1 ++ l2)) = find_prop g (omap visible l1).
Proof. intros E. rewrite omap_app, find_prop_app, E. by destruct (find_prop g (omap visible l1)). Qed.

Lemma find_prop_user_props {A} (g : Property.t -> option A) l :
  (forall n v, g (Property.UserProperty n v) = None) ->
  find_prop g (omap visible (user_props l)) = None.
Proof. intros Hg. induction l as [|[n v] l IH]; cbn; [done|]. by rewrite Hg. Qed.

Lemma find_prop_subscription_ids {A} (g : Property.t -> option A) l :
  (forall n, g (Property.SubscriptionIdentifier n) = None) ->
  find_prop g (omap visible (subscription_ids l)) = None.
Proof. intros Hg. induction l as [|n l IH]; cbn; [done|]. by rewrite Hg. Qed.

Lemma filter_props_skip {A} (g : Property.t -> option A) l1 l2 :
  filter_props g (omap visible l1) = [] ->
  filter_props g (omap visible (l1 ++ l2)) = filter_props g (omap visible l2).
Proof. unfold filter_props. intros E. by rewrite !omap_app, E. Qed.

Lemma filter_props_hit {A} (g : Property.t -> option A) l1 l2 :
  filter_props g (omap visible l2) = [] ->
  filter_props g (omap visible (l1 ++ l2)) = filter_props g (omap visible l1).
Proof. unfold filter_props. intros E. by rewrite !omap_app, E, app_nil_r. Qed.

Lemma filter_props_user_props l : filter_props As.UserProperty (omap visible (user_props l)) = l.
Proof. induction l as [|[n v] l IH]; cbn; [done|]. f_equal. exact IH. Qed.

Lemma filter_props_user_props_nil l :
  filter_props As.SubscriptionIdentifier (omap visible (user_props l)) = [].
Proof. induction l as [|[n v] l IH]; cbn; done. Qed.

Lemma filter_props_subscription_ids l :
  filter_props As.SubscriptionIdentifier (omap visible (subscription_ids l)) = l.
Proof. induction l as [|n l IH]; cbn; [done|]. f_equal. exact IH. Qed.

Lemma filter_props_subscription_ids_nil l :
  filter_props As.UserProperty (omap visible (subscription_ids l)) = [].
Proof. induction l as [|n l IH]; cbn; done. Qed.

Lemma singles_segment b l1 l2 v order :
  singles b (omap visible l1) `sublist_of` [v] -> singles b (omap visible l2) `sublist_of` order ->
  singles b (omap visible (l1 ++ l2)) `sublist_of` v :: order.
Proof. intros. rewrite omap_app, singles_app. change (v :: order) with ([v] ++ order). by apply sublist_app. Qed.

Lemma singles_vec b l1 l2 order :
  singles b (omap visible l1) = [] -> singles b (omap visible l2) `sublist_of` order ->
  singles b (omap visible (l1 ++ l2)) `sublist_of` order.
Proof. intros E ?. by rewrite omap_app, singles_app, E. Qed.

Lemma singles_user_props b l :
  BindVecUserProperty ∈ b -> singles b (omap visible (user_props l)) = [].
Proof.
  intros Hb. unfold singles. induction l as [|[n v] l IH]; cbn; [done|].
  by rewrite bool_decide_eq_true_2 by done.
Qed.

Lemma singles_subscription_ids b l :
  BindVecSubscriptionIdentifier ∈ b -> singles b (omap visible (subscription_ids l)) = [].
Proof.
  intros Hb. unfold singles. induction l as [|n l IH]; cbn; [done|].
  by rewrite bool_decide_eq_true_2 by done.
Qed.

(** Case analysis on the conditions under which a property is visible. *)
Ltac visible_cases :=
  cbn; repeat (match goal with
  | |- context [if ?c then _ else _] => lazymatch type of c with bool => destruct c end
  | |- context [match ?c with _ => _ end] => lazymatch type of c with QoS.t => destruct c end
  end; cbn).

(** Case analysis inside one segment of a property list. *)
Ltac segment_cases :=
  match goal with
  | |- context [opt_prop _ ?o] => destruct o; reflexivity
  | |- _ => visible_cases; reflexivity
  end.

Ltac segment_none :=
  first [ apply find_prop_user_props; done | apply find_prop_subscription_ids; done
        | apply filter_props_user_props_nil | apply filter_props_subscription_ids_nil
        | segment_cases ].

Ltac props_none :=
  lazymatch goal with
  | |- find_prop _ (omap visible (_ ++ _)) = None => rewrite find_prop_skip by segment_none; props_none
  | |- filter_props _ (omap visible (_ ++ _)) = [] => rewrite filter_props_skip by segment_none; props_none
  | |- _ => segment_none
  end.

(** Reduce a getter on a packet's properties to the one segment it reads. *)
Ltac props_focus :=
  repeat match goal with
  | |- context [find_prop ?g (omap visible (?l1 ++ ?l2))] =>
      first [ rewrite (find_prop_skip g l1 l2) by segment_none
            | rewrite (find_prop_hit g l1 l2) by props_none ]
  | |- context [filter_props ?g (omap visible (?l1 ++ ?l2))] =>
      first [ rewrite (filter_props_skip g l1 l2) by segment_none
            | rewrite (filter_props_hit g l1 l2) by props_none ]
  end;
  rewrite ?filter_props_user_props, ?filter_props_subscription_ids.

(** An optional property reads back as itself. *)
Lemma find_prop_opt {A} (g : Property.t -> option A) f o :
  (forall a, visible (f a) = Some (f a)) -> (forall a, g (f a) = Some a) ->
  find_prop g (omap visible (opt_prop f o)) = o.
Proof. intros Hv Hg. destruct o as [a|]; cbn; [|done]. rewrite Hv. cbn. by rewrite Hg. Qed.

Ltac props_read := props_focus; rewrite ?find_prop_opt by done.

Ltac segment_single :=
  first [ match goal with |- context [opt_prop _ ?o] => destruct o end
        | visible_cases ];
  first [ reflexivity | apply sublist_nil_l ].

(** The properties a packet writes are accepted by its own bindings. *)
Ltac props_accepted :=
  repeat first
    [ apply singles_vec; [first [apply singles_user_props | apply singles_subscription_ids];
                          apply (bool_decide_unpack _); reflexivity|]
    | apply singles_segment; [segment_single|] ];
  first [ rewrite singles_user_props by (apply (bool_decide_unpack _); reflexivity);
          apply sublist_nil_l
        | rewrite singles_subscription_ids by (apply (bool_decide_unpack _); reflexivity);
          apply sublist_nil_l
        | segment_single ].

Lemma find_prop_Forall `{Unicode} {A} (g : Property.t -> option A) (P : A -> Prop) props a :
  Forall prop_wf props -> (forall p a, g p = Some a -> prop_wf p -> P a) ->
  find_prop g props = Some a -> P a.
Proof.
  intros Hp HP E. induction Hp as [|p props Hpw _ IH]; cbn in E; [done|].
  destruct (g p) eqn:Eg; [|auto]. injection E as <-. eauto.
Qed.

(** A field read from well-formed properties satisfies what they guarantee. *)
Definition opt_wf {A} (P : A -> Prop) (o : option A) : Prop :=
  match o with Some a => P a | None => True end.

Lemma find_prop_wf `{Unicode} {A} (g : Property.t -> option A) (P : A -> Prop) props :
  Forall prop_wf props -> (forall p a, g p = Some a -> prop_wf p -> P a) ->
  opt_wf P (find_prop g props).
Proof.
  intros Hp HP. destruct (find_prop g props) eqn:E; [|done]. cbn. by eapply find_prop_Forall.
Qed.

Lemma filter_props_wf `{Unicode} {A} (g : Property.t -> option A) (P : A -> Prop) props :
  Forall prop_wf props -> (forall p a, g p = Some a -> prop_wf p -> P a) ->
  Forall P (filter_props g props).
Proof.
  intros Hp HP. induction Hp as [|p props Hpw _ IH]; cbn; [done|].
  destruct (g p) eqn:Eg; [|done]. constructor; eauto.
Qed.

Definition user_wf `{Unicode} (u : ByteStr * ByteStr) : Prop := bs_wf (fst u) /\ bs_wf (snd u).

Ltac prop_field :=
  first [ apply find_prop_wf | apply filter_props_wf ];
  [done | let p := fresh in let a := fresh in let E := fresh in
          intros p a E; destruct p; try discriminate E; injection E as <-; cbn; done].

Lemma Forall_opt_prop `{Unicode} {A} (P : A -> Prop) (f : A -> Property.t) o :
  (forall a, P a -> prop_wf (f a)) -> opt_wf P o -> Forall prop_wf (opt_prop f o).
Proof. intros Hf Ho. destruct o; cbn; [|done]. constructor; [by apply Hf | done]. Qed.

Lemma Forall_user_props `{Unicode} l : Forall user_wf l -> Forall prop_wf (user_props l).
Proof. induction 1 as [|[n v] l [??] _ IH]; cbn; [done|]. by constructor. Qed.

Lemma Forall_subscription_ids `{Unicode} l :
  Forall is_nonzero_u32 l -> Forall prop_wf (subscription_ids l).
Proof. induction 1; cbn; [done|]. by constructor. Qed.

(** Every property of a packet's list is well formed when its fields are. *)
Ltac props_wf :=
  repeat first [ apply Forall_app; split | apply Forall_user_props | apply Forall_subscription_ids
               | eapply Forall_opt_prop; [|eassumption]; intros; cbn; done ];
  try done; try (constructor; [cbn; done | constructor]).

(** [decode_facts] with what [decode_properties] guarantees. *)
Ltac packet_facts :=
  repeat (decode_facts; match goal with
  | H : decode_properties _ ?s = Ok (_, _), Hs : bytes_ok ?s |- _ =>
      apply (decode_properties_ok _ _ _ _ Hs) in H as (?&?&?)
  end); decode_facts.

(** ** Properties *)

Section property_lists.
Context `{UnicodeLaws}.

(** What the macro admits: every property is bound, and those not bound to a
    [Vec] occur at most once. *)
Lemma accept_property_inv b acc props :
  foldM (accept_property b) [] props = Ok acc ->
  acc = props /\ NoDup (singles b props) /\
  Forall (fun p => binds_vec b (Property.variant_of p) = true \/ Bind (Property.variant_of p) ∈ b) props.
Proof.
  enough (Hgen : forall pre, NoDup (singles b pre) -> forall acc, foldM (accept_property b) pre props = Ok acc ->
    acc = pre ++ props /\ NoDup (singles b (pre ++ props)) /\
    Forall (fun p => binds_vec b (Property.variant_of p) = true \/ Bind (Property.variant_of p) ∈ b) props).
  { intros E. destruct (Hgen [] ltac:(constructor) acc E) as (-> & ? & ?). auto. }
  clear acc. induction props as [|p props IH]; intros pre Hnd acc E; cbn [foldM] in E.
  { injection E as <-. rewrite app_nil_r. auto. }
  destruct (accept_property b pre p) as [acc'|] eqn:Ea; [|done].
  pose proof (accept_property_ok _ _ _ _ Ea) as ->.
  assert (Hp : NoDup (singles b (pre ++ [p])) /\
    (binds_vec b (Property.variant_of p) = true \/ Bind (Property.variant_of p) ∈ b)).
  { unfold accept_property in Ea. rewrite singles_app. unfold singles at 2. cbn [map List.filter].
    destruct (binds_vec b (Property.variant_of p)) eqn:Ev; cbn [negb]; [rewrite app_nil_r; auto|].
    destruct (bool_decide (Bind (Property.variant_of p) ∈ b)) eqn:Eb; [|done].
    apply bool_decide_eq_true in Eb. split; [|auto].
    destruct (existsb _ pre) eqn:Ee; [done|]. apply NoDup_app. split; [done|].
    split; [|apply NoDup_singleton]. intros v Hv Hin. apply list_elem_of_singleton in Hin as ->.
    unfold singles in Hv. apply list_elem_of_In, List.filter_In in Hv as [Hv _].
    apply in_map_iff in Hv as (q & Hq & Hin). rewrite <- not_true_iff_false in Ee. apply Ee.
    apply existsb_exists. exists q. split; [done|]. by apply bool_decide_eq_true. }
  destruct Hp as [Hnd' Hb]. destruct (IH _ Hnd' _ E) as (-> & ? & ?).
  rewrite <- app_assoc in *. cbn [app] in *. auto.
Qed.

(** Why a list of properties is refused. *)
Lemma accept_property_err b items pre e :
  foldM (accept_property b) pre items = Err e ->
  (e = DecodeError.UnexpectedProperty /\
    Exists (fun p => binds_vec b (Property.variant_of p) = false /\ Bind (Property.variant_of p) ∉ b) items) \/
  (exists p, p ∈ items /\ e = DecodeError.DuplicateProperty (Property.variant_name (Property.variant_of p)) /\
    ~ NoDup (singles b (pre ++ items))).
Proof.
  revert pre; induction items as [|p items IH]; intros pre E; cbn [foldM] in E; [done|].
  destruct (accept_property b pre p) as [acc'|e'] eqn:Ea.
  - pose proof (accept_property_ok _ _ _ _ Ea) as ->. apply IH in E as [[? Hex]|(q & ? & ? & Hnd)].
    + left. split; [done|]. by right.
    + right. exists q. rewrite <- app_assoc in Hnd. split_and!; [by right|done|done].
  - injection E as ->. unfold accept_property in Ea.
    destruct (binds_vec b (Property.variant_of p)) eqn:Ev; [done|].
    destruct (bool_decide (Bind (Property.variant_of p) ∈ b)) eqn:Eb.
    + destruct (existsb _ pre) eqn:Ee; [|done]. injection Ea as <-. right. exists p.
      split_and!; [by left|done|]. apply existsb_exists in Ee as (q & Hq & Hv%bool_decide_eq_true).
      rewrite singles_app. intros (_ & Hdis & _)%NoDup_app.
      apply (Hdis (Property.variant_of p)).
      * rewrite <- Hv in *. apply list_elem_of_In, List.filter_In. split; [by apply in_map|]. by rewrite Ev.
      * apply list_elem_of_In, List.filter_In. split; [by left|]. by rewrite Ev.
    + injection Ea as <-. left. split; [done|]. left. apply bool_decide_eq_false in Eb. auto.
Qed.

Lemma decode_properties_loop_foldM fuel b acc src props :
  decode_properties_loop fuel b acc src = Ok props ->
  exists items, foldM (accept_property b) acc items = Ok props.
Proof.
  revert acc src; induction fuel as [|fuel IH]; intros acc [|x src] E; cbn in E;
    try (by injection E as <-; exists []); [done|].
  inv_ok E. apply IH in E as (items & Hi). eexists (_ :: items). cbn [foldM].
  match goal with Ha : accept_property b acc ?p = Ok _ |- _ => instantiate (1 := p); by rewrite Ha end.
Qed.

(** The property list of any packet that [decode_properties!] accepts is
    sound: every property is one the packet type allows, none occurs twice
    unless it may repeat, and each holds a value of its MQTT type (validated
    strings and topics, non-zero limits, booleans); what follows is left. *)
Theorem decode_properties_sound b src props rest :
  bytes_ok src ->
  decode_properties b src = Ok (props, rest) ->
  Forall prop_wf props /\ NoDup (singles b props) /\
  Forall (fun p => binds_vec b (Property.variant_of p) = true \/ Bind (Property.variant_of p) ∈ b) props /\
  exists pre, src = pre ++ rest.
Proof.
  intros Hs E. pose proof (decode_properties_ok _ _ _ _ Hs E) as (Hwf & _ & _).
  unfold decode_properties, Property_decode_all, split_to, ok_or in E.
  destruct (decode_remaining_length src) as [[[n s1]|]|] eqn:E1; [|done..].
  destruct (len s1 <? n); [done|]. cbn in E.
  destruct (decode_properties_loop _ b [] _) as [acc|] eqn:E2; [|done]. injection E as -> <-.
  destruct (decode_properties_loop_foldM _ _ _ _ _ E2) as (items & Hi).
  destruct (accept_property_inv _ _ _ Hi) as (-> & ? & ?). split_and!; try done.
  unfold decode_remaining_length, decode_varint in E1.
  destruct (decode_varint_loop_split 0 0 src n s1 E1) as (pre & -> & _).
  exists (pre ++ take (Z.to_nat n) s1). by rewrite <- app_assoc, take_drop.
Qed.

End property_lists.

Lemma decode_properties_sound_witness :
  exists props, @decode_properties Ascii [Bind Property.VReceiveMaximum; BindVecUserProperty]
      [10; 33; 0; 20; 38; 0; 1; 97; 0; 1; 98; 77] = Ok (props, [77]) /\
    Forall (@prop_wf Ascii) props.
Proof.
  eexists. split; [vm_compute; reflexivity|].
  refine (proj1 (@decode_properties_sound Ascii [Bind Property.VReceiveMaximum; BindVecUserProperty]
    [10; 33; 0; 20; 38; 0; 1; 97; 0; 1; 98; 77] _ [77] _ _)).
  - solve_bytes.
  - vm_compute. reflexivity.
Defined.

