(* ===== verification/PacketMeta.v ===== *)
(** * The interface of a packet type

    [trait PacketMeta] of mqtt_proto.rs and the laws that [Packet] (Packet.v)
    is proved against: what [encode] writes as the body of a well-formed packet,
    [decode] reads back; what [decode] accepts is well formed. The ping packets
    (mqtt_proto/pingreq.rs, mqtt_proto/pingresp.rs) are its simplest instances. *)

From S2P Require Export Property.
Local Open Scope Z_scope.

Class PacketMeta (P : Type) := {
  PACKET_TYPE : u8;
  packet_decode : u8 -> Shared -> ProtocolVersion -> decode_result (P * Shared);
  packet_encode : forall B : Type, BytesAccumulator B -> P -> ProtocolVersion -> B -> encode_result B;
}.

(** [packet_wf v p]: [p] is a value that version [v] of the protocol can
    express. [packet_flags p]: the low nibble of its first byte. *)
Class PacketLaws (P : Type) `{PacketMeta P} := {
  packet_wf : ProtocolVersion -> P -> Prop;
  packet_flags : P -> u8;
  packet_encode_wp : forall v p,
    wp (fun B BA dst => packet_encode B BA p v dst) (fun bs =>
      packet_wf v p -> packet_decode (packet_flags p) bs v = Ok (p, []));
  packet_decode_wf : forall flags src v p rest,
    bytes_ok src -> 0 <= flags < 16 -> packet_decode flags src v = Ok (p, rest) -> packet_wf v p;
}.
Arguments PacketLaws P {_}.

(** ** PINGREQ and PINGRESP *)

Module PingReq.
Inductive t : Set := mk.
Definition decode (_flags : u8) (src : Shared) (_version : ProtocolVersion) :
  decode_result (t * Shared) := Ok (mk, src).
Definition encode {B} `{BytesAccumulator B} (_ : t) (_version : ProtocolVersion) (dst : B) :
  encode_result B := Ok dst.
End PingReq.

Module PingResp.
Inductive t : Set := mk.
Definition decode (_flags : u8) (src : Shared) (_version : ProtocolVersion) :
  decode_result (t * Shared) := Ok (mk, src).
Definition encode {B} `{BytesAccumulator B} (_ : t) (_version : ProtocolVersion) (dst : B) :
  encode_result B := Ok dst.
End PingResp.

#[export] Instance PingReq_meta : PacketMeta PingReq.t := {
  PACKET_TYPE := 0xC0;
  packet_decode := PingReq.decode;
  packet_encode B BA := PingReq.encode;
}.

#[export] Instance PingResp_meta : PacketMeta PingResp.t := {
  PACKET_TYPE := 0xD0;
  packet_decode := PingResp.decode;
  packet_encode B BA := PingResp.encode;
}.

#[export] Instance PingReq_laws : PacketLaws PingReq.t.
Proof.
  refine {| packet_wf _ _ := True; packet_flags _ := 0 |}; [|done].
  intros v []. by apply wp_ok.
Defined.

#[export] Instance PingResp_laws : PacketLaws PingResp.t.
Proof.
  refine {| packet_wf _ _ := True; packet_flags _ := 0 |}; [|done].
  intros v []. by apply wp_ok.
Defined.

(** ** [while !src.is_empty() { items.push(decode(src)?); }] *)

Section decode_while.
Context {A : Type} (decode : Shared -> decode_result (A * Shared)).

(** Every iteration consumes bytes, so a fuel of the length of [src] is enough
    ([decode_while_fuel]). *)
Fixpoint decode_while (fuel : nat) (src : Shared) : decode_result (list A) :=
  match src, fuel with
  | [], _ => Ok []
  | _, O => Err DecodeError.IncompletePacket
  | _, S fuel =>
      let? (x, src) := decode src in
      let? xs := decode_while fuel src in
      Ok (x :: xs)
  end.

(** [decode] makes progress and yields well-formed items. *)
Definition decodes (P : A -> Prop) : Prop :=
  forall src x rest, bytes_ok src -> decode src = Ok (x, rest) ->
    P x /\ bytes_ok rest /\ len rest < len src.

Lemma decode_while_fuel P fuel fuel' src :
  decodes P -> bytes_ok src -> (length src <= fuel)%nat -> (length src <= fuel')%nat ->
  decode_while fuel src = decode_while fuel' src.
Proof.
  intros HP. revert fuel' src; induction fuel as [|fuel IH]; intros [|fuel'] [|b src] Hs H1 H2;
    try done; try (cbn in *; lia).
  cbn [decode_while]. destruct (decode (b :: src)) as [[x s1]|] eqn:E; [|done].
  apply HP in E as (_&?&Hl); [|done]. unfold len in Hl. cbn in *. rewrite (IH fuel'); [done..|lia|lia].
Qed.

Lemma decode_while_ok P fuel src xs :
  decodes P -> bytes_ok src -> decode_while fuel src = Ok xs -> Forall P xs.
Proof.
  intros HP. revert src xs; induction fuel as [|fuel IH]; intros [|b src] xs Hs E; cbn in E;
    inv_ok E; try done.
  apply HP in E0 as (?&?&?); [|done]. constructor; [done|]. by eapply IH.
Qed.

Lemma decode_while_concat fuel xs bss :
  Forall2 (fun x bs => bs <> [] /\ forall rest, decode (bs ++ rest) = Ok (x, rest)) xs bss ->
  (length (concat bss) <= fuel)%nat -> decode_while fuel (concat bss) = Ok xs.
Proof.
  intros HF. revert fuel; induction HF as [|x bs xs bss [Hne Hd] _ IH]; intros fuel Hf; [by destruct fuel|].
  cbn [concat] in *. rewrite length_app in Hf.
  destruct fuel as [|fuel]; [destruct bs; cbn in Hf; [done|lia]|].
  destruct bs as [|b bs]; [done|]. cbn [app]. cbn [decode_while]. specialize (Hd (concat bss)).
  cbn [app] in Hd. rewrite Hd. rewrite IH; [done|]. cbn in Hf. lia.
Qed.
End decode_while.

(** One-byte codes up to the end of the body, as SUBACK and UNSUBACK have. *)
Lemma encode_codes_wp {C} (to : C -> u8) (codes : list C) (Q : list u8 -> Prop) :
  Q (concat (map (fun c => to_be_bytes 1 (to c)) codes)) ->
  wp (fun B BA dst => foldM (fun dst c => put_u8 (H := BA) (to c) dst) dst codes) Q.
Proof.
  intros HQ. apply (wp_foldM (fun c B BA dst => put_u8 (to c) dst)) with
    (R := fun c bs => bs = to_be_bytes 1 (to c)).
  - intros c _. by apply put_u8_wp.
  - intros bss HF. replace bss with (map (fun c => to_be_bytes 1 (to c)) codes); [done|].
    clear HQ. induction HF; [done|]. cbn [map]. congruence.
Qed.

Lemma decode_codes {C} (from : u8 -> decode_result C) (to : C -> u8) codes :
  (forall c, c ∈ codes -> is_u8 (to c) /\ from (to c) = Ok c) ->
  mapM_result from (concat (map (fun c => to_be_bytes 1 (to c)) codes)) = Ok codes /\
  length (concat (map (fun c => to_be_bytes 1 (to c)) codes)) = length codes.
Proof.
  induction codes as [|c codes IH]; intros HC; [done|]. cbn [map concat].
  destruct (HC c ltac:(left)) as [Hu Hf]. rewrite to_be_bytes_1 by done.
  cbn [app mapM_result length]. destruct IH as [IH1 IH2]; [intros; apply HC; by right|]. by rewrite Hf, IH1, IH2.
Qed.
