(* ===== verification/Acks.v ===== *)
(** * PUBACK, PUBREC, PUBREL and PUBCOMP

    mqtt_proto/puback.rs, pubrec.rs, pubrel.rs and pubcomp.rs have the same
    code up to the type of the reason code, the packet type and the check an
    MQTT 3.1.1 encoder makes; [Ack] is that code, with what differs as
    arguments, and the four modules instantiate it. *)

From S2P Require Export PacketMeta.
Local Open Scope Z_scope.

(** [PubAckOtherProperties] and its namesakes. *)
Record ReasonProperties : Set := mkReasonProperties {
  reason_string : option ByteStr;
  user_properties : list (ByteStr * ByteStr);
}.

Definition ReasonProperties_default : ReasonProperties := mkReasonProperties None [].

(** The bindings of [decode_properties!] and the list of [encode_properties!]. *)
Definition reason_bindings : list Binding :=
  [Bind Property.VReasonString; BindVecUserProperty].

Definition reason_of_props (props : list Property.t) : ReasonProperties :=
  mkReasonProperties (find_prop As.ReasonString props) (filter_props As.UserProperty props).

Definition reason_props (o : ReasonProperties) : list Property.t :=
  opt_prop Property.ReasonString (reason_string o) ++ user_props (user_properties o).

Definition reason_wf `{Unicode} (o : ReasonProperties) : Prop :=
  opt_wf bs_wf (reason_string o) /\ Forall user_wf (user_properties o).

Module Ack.
(** [struct PubAck] and so on, with the reason code type [C]. *)
Record t (C : Type) : Type := mk {
  packet_identifier : PacketIdentifier;
  reason_code : C;
  other_properties : ReasonProperties;
}.
Arguments mk {_} _ _ _.
Arguments packet_identifier {_} _.
Arguments reason_code {_} _.
Arguments other_properties {_} _.

Section ack.
Context {C : Type} `{U8Code C} `{EqDecision C}.
(** [Success], the codes a v3 packet may stand for, and the error for others. *)
Variables (success : C) (v3_ok : C -> bool) (negative : C -> EncodeError.t).

Definition decode `{Unicode} (_flags : u8) (src : Shared) (version : ProtocolVersion) :
    decode_result (t C * Shared) :=
  let? (packet_identifier, src) := try_get_packet_identifier src in
  match version with
  | V3 => Ok (mk packet_identifier success ReasonProperties_default, src)
  | V5 =>
      match try_get_u8 src with
      | Ok (reason_code, src) =>
          let? reason_code := try_from_u8 reason_code in
          if list_is_empty src then
            Ok (mk packet_identifier reason_code ReasonProperties_default, src)
          else
            let? (props, src) := decode_properties reason_bindings src in
            Ok (mk packet_identifier reason_code (reason_of_props props), src)
      | Err DecodeError.IncompletePacket =>
          Ok (mk packet_identifier success ReasonProperties_default, src)
      | Err err => Err err
      end
  end.

Definition encode {B} `{BytesAccumulator B} (p : t C) (version : ProtocolVersion) (dst : B) :
    encode_result B :=
  let? dst := put_u16 (pkid_get (packet_identifier p)) dst in
  match version with
  | V3 => if negb (v3_ok (reason_code p)) then Err (negative (reason_code p)) else Ok dst
  | V5 =>
      let default_reason_code := bool_decide (reason_code p = success) in
      let default_property_length :=
        negb (is_some (reason_string (other_properties p)))
        && list_is_empty (user_properties (other_properties p)) in
      let? dst :=
        if negb default_reason_code || negb default_property_length
        then put_u8 (into_u8 (reason_code p)) dst else Ok dst in
      if negb default_property_length
      then encode_all (reason_props (other_properties p)) dst else Ok dst
  end.

(** A v3 packet carries nothing but the packet identifier. *)
Definition wf `{Unicode} (v : ProtocolVersion) (p : t C) : Prop :=
  pkid_wf (packet_identifier p) /\
  match v with
  | V3 => reason_code p = success /\ other_properties p = ReasonProperties_default
  | V5 => reason_wf (other_properties p)
  end.
End ack.
End Ack.

Lemma reason_props_wf `{Unicode} o : reason_wf o -> Forall prop_wf (reason_props o).
Proof. intros [??]. unfold reason_props. props_wf. Qed.

Lemma reason_of_props_wf `{Unicode} props : Forall prop_wf props -> reason_wf (reason_of_props props).
Proof. intros Hp. split; cbn; prop_field. Qed.

Lemma reason_roundtrip `{Unicode} o :
  wp (fun B BA dst => encode_all (H := BA) (reason_props o) dst) (fun bs =>
    reason_wf o -> forall rest,
      decode_properties reason_bindings (bs ++ rest) = Ok (omap visible (reason_props o), rest)).
Proof.
  eapply wp_mono; [apply encode_all_wp|]. cbv beta. intros bs Hbs Hwf rest.
  rewrite Hbs by (by apply reason_props_wf).
  rewrite (accept_all _ _ [Property.VReasonString]); [done|..].
  - by apply NoDup_singleton.
  - apply Forall_singleton. constructor.
  - unfold reason_props. props_accepted.
Qed.

Lemma reason_of_reason_props o : reason_of_props (omap visible (reason_props o)) = o.
Proof. unfold reason_of_props, reason_props. props_read. by destruct o. Qed.

Section ack_laws.
Context {C : Type} `{U8CodeLaws C} `{EqDecision C} `{Unicode}.
Variables (success : C) (v3_ok : C -> bool) (negative : C -> EncodeError.t).

Lemma default_reason_props o :
  negb (is_some (reason_string o)) && list_is_empty (user_properties o) = true ->
  o = ReasonProperties_default.
Proof. by destruct o as [[|] [|]]. Qed.

Lemma ack_encode_wp v (p : Ack.t C) flags :
  wp (fun B BA dst => Ack.encode success v3_ok negative p v dst) (fun bs =>
    Ack.wf success v p -> Ack.decode success flags bs v = Ok (p, [])).
Proof.
  destruct p as [pid rc o]. unfold Ack.encode, Ack.wf, Ack.decode. cbn.
  apply wp_bind, put_u16_wp. destruct v; cbv iota.
  - destruct (negb (v3_ok rc)); [apply wp_err|]. apply wp_ok. intros (Hp & -> & ->).
    by rewrite try_get_packet_identifier_put.
  - destruct (negb (is_some (reason_string o)) && list_is_empty (user_properties o)) eqn:Ed; cbn [negb].
    + apply default_reason_props in Ed as ->. rewrite orb_false_r.
      destruct (bool_decide_reflect (rc = success)) as [->|Hne]; cbn [negb]; cbv iota.
      * apply wp_ok. intros [Hp _]. rewrite try_get_packet_identifier_put by done.
        cbn. done.
      * apply wp_bind, put_u8_wp, wp_ok. intros [Hp _].
        rewrite try_get_packet_identifier_put, try_get_u8_put by (done || apply into_u8_range).
        by rewrite try_from_into.
    + rewrite orb_true_r. cbv iota. apply wp_bind, put_u8_wp.
      eapply wp_mono; [apply reason_roundtrip|]. cbv beta. intros bs Hbs [Hp Ho].
      rewrite try_get_packet_identifier_put, try_get_u8_put by (done || apply into_u8_range).
      rewrite try_from_into. specialize (Hbs Ho []). rewrite app_nil_r in Hbs.
      destruct bs as [|x bs]; [done|]. cbn [list_is_empty]. rewrite Hbs.
      by rewrite reason_of_reason_props.
Qed.

Lemma ack_decode_wf flags src v (p : Ack.t C) rest :
  bytes_ok src -> Ack.decode success flags src v = Ok (p, rest) -> Ack.wf success v p.
Proof.
  intros Hs E. unfold Ack.decode in E.
  destruct (try_get_packet_identifier src) as [[pid s1]|] eqn:E1; [|done]. decode_facts.
  destruct v; [by inv_ok E|].
  destruct (try_get_u8 s1) as [[b s2]|e] eqn:E2; [|by destruct e; inv_ok E].
  decode_facts. inv_ok E; [by split|]. split; [done|]. cbn.
  packet_facts. by apply reason_of_props_wf.
Qed.
End ack_laws.

(** ** PUBACK *)

Module PubAck.
Definition t : Type := Ack.t PubAckReasonCode.t.

Definition is_success (code : PubAckReasonCode.t) : bool :=
  match code with
  | PubAckReasonCode.Success | PubAckReasonCode.NoMatchingSubscribers => true
  | _ => false
  end.

Definition decode `{Unicode} : u8 -> Shared -> ProtocolVersion -> decode_result (t * Shared) :=
  Ack.decode PubAckReasonCode.Success.

Definition encode {B} `{BytesAccumulator B} : t -> ProtocolVersion -> B -> encode_result B :=
  Ack.encode PubAckReasonCode.Success is_success EncodeError.NegativePubAck.
End PubAck.

(** ** PUBREC *)

Module PubRec.
Definition t : Type := Ack.t PubRecReasonCode.t.

Definition is_success (code : PubRecReasonCode.t) : bool :=
  match code with
  | PubRecReasonCode.Success | PubRecReasonCode.NoMatchingSubscribers => true
  | _ => false
  end.

Definition decode `{Unicode} : u8 -> Shared -> ProtocolVersion -> decode_result (t * Shared) :=
  Ack.decode PubRecReasonCode.Success.

Definition encode {B} `{BytesAccumulator B} : t -> ProtocolVersion -> B -> encode_result B :=
  Ack.encode PubRecReasonCode.Success is_success EncodeError.NegativePubRec.
End PubRec.

(** ** PUBREL *)

Module PubRel.
Definition t : Type := Ack.t PubRelReasonCode.t.

Definition decode `{Unicode} : u8 -> Shared -> ProtocolVersion -> decode_result (t * Shared) :=
  Ack.decode PubRelReasonCode.Success.

Definition encode {B} `{BytesAccumulator B} : t -> ProtocolVersion -> B -> encode_result B :=
  Ack.encode PubRelReasonCode.Success (fun code => bool_decide (code = PubRelReasonCode.Success))
    EncodeError.NegativePubRel.
End PubRel.

(** ** PUBCOMP *)

Module PubComp.
Definition t : Type := Ack.t PubCompReasonCode.t.

Definition decode `{Unicode} : u8 -> Shared -> ProtocolVersion -> decode_result (t * Shared) :=
  Ack.decode PubCompReasonCode.Success.

Definition encode {B} `{BytesAccumulator B} : t -> ProtocolVersion -> B -> encode_result B :=
  Ack.encode PubCompReasonCode.Success (fun code => bool_decide (code = PubCompReasonCode.Success))
    EncodeError.NegativePubComp.
End PubComp.

#[export] Instance PubAck_meta `{Unicode} : PacketMeta PubAck.t := {
  PACKET_TYPE := 0x40;
  packet_decode := PubAck.decode;
  packet_encode B BA := PubAck.encode;
}.

#[export] Instance PubRec_meta `{Unicode} : PacketMeta PubRec.t := {
  PACKET_TYPE := 0x50;
  packet_decode := PubRec.decode;
  packet_encode B BA := PubRec.encode;
}.

#[export] Instance PubRel_meta `{Unicode} : PacketMeta PubRel.t := {
  PACKET_TYPE := 0x60;
  packet_decode := PubRel.decode;
  packet_encode B BA := PubRel.encode;
}.

#[export] Instance PubComp_meta `{Unicode} : PacketMeta PubComp.t := {
  PACKET_TYPE := 0x70;
  packet_decode := PubComp.decode;
  packet_encode B BA := PubComp.encode;
}.

#[export] Instance PubAck_laws `{Unicode} : PacketLaws PubAck.t.
Proof.
  refine {| packet_wf := Ack.wf PubAckReasonCode.Success; packet_flags _ := 0 |}.
  - intros v p. apply ack_encode_wp.
  - intros flags src v p rest Hs _. by apply ack_decode_wf.
Defined.

#[export] Instance PubRec_laws `{Unicode} : PacketLaws PubRec.t.
Proof.
  refine {| packet_wf := Ack.wf PubRecReasonCode.Success; packet_flags _ := 0 |}.
  - intros v p. apply ack_encode_wp.
  - intros flags src v p rest Hs _. by apply ack_decode_wf.
Defined.

#[export] Instance PubRel_laws `{Unicode} : PacketLaws PubRel.t.
Proof.
  refine {| packet_wf := Ack.wf PubRelReasonCode.Success; packet_flags _ := 2 |}.
  - intros v p. apply ack_encode_wp.
  - intros flags src v p rest Hs _. by apply ack_decode_wf.
Defined.

#[export] Instance PubComp_laws `{Unicode} : PacketLaws PubComp.t.
Proof.
  refine {| packet_wf := Ack.wf PubCompReasonCode.Success; packet_flags _ := 0 |}.
  - intros v p. apply ack_encode_wp.
  - intros flags src v p rest Hs _. by apply ack_decode_wf.
Defined.
