(* ===== verification/Publish.v ===== *)
(** * PUBLISH and publications

    mqtt_proto/publish.rs and mqtt_proto/publication.rs. *)

From S2P Require Export Acks.
Local Open Scope Z_scope.

(** ** PUBLISH *)

Module Publish.
(** [struct PublishOtherProperties]. *)
Record OtherProperties : Set := mkOther {
  payload_is_utf8 : bool;
  message_expiry_interval : option u32;
  topic_alias : option u16;
  response_topic : option (Topic ByteStr);
  correlation_data : option BinaryData;
  user_properties : list (ByteStr * ByteStr);
  subscription_identifiers : list u32;
  content_type : option ByteStr;
}.

(** [#[derive_where(Default)]]. *)
Definition OtherProperties_default : OtherProperties := mkOther false None None None None [] [] None.

(** [struct Publish]. *)
Record t : Set := mk {
  topic_name : Topic ByteStr;
  packet_identifier_dup_qos : PacketIdentifierDupQoS.t;
  retain : bool;
  payload : Shared;
  other_properties : OtherProperties;
}.

Definition bindings : list Binding :=
  [ Bind Property.VPayloadIsUtf8; Bind Property.VMessageExpiryInterval; Bind Property.VTopicAlias;
    Bind Property.VResponseTopic; Bind Property.VCorrelationData; BindVecUserProperty;
    BindVecSubscriptionIdentifier; Bind Property.VContentType ].

Definition of_props (props : list Property.t) : OtherProperties :=
  mkOther
    (unwrap_or (find_prop As.PayloadIsUtf8 props) false)
    (find_prop As.MessageExpiryInterval props)
    (find_prop As.TopicAlias props)
    (find_prop As.ResponseTopic props)
    (find_prop As.CorrelationData props)
    (filter_props As.UserProperty props)
    (filter_props As.SubscriptionIdentifier props)
    (find_prop As.ContentType props).

Definition to_props (o : OtherProperties) : list Property.t :=
  [Property.PayloadIsUtf8 (payload_is_utf8 o)]
  ++ opt_prop Property.MessageExpiryInterval (message_expiry_interval o)
  ++ opt_prop Property.TopicAlias (topic_alias o)
  ++ opt_prop Property.ResponseTopic (response_topic o)
  ++ opt_prop Property.CorrelationData (correlation_data o)
  ++ user_props (user_properties o)
  ++ subscription_ids (subscription_identifiers o)
  ++ opt_prop Property.ContentType (content_type o).

Definition decode `{Unicode} (flags : u8) (src : Shared) (version : ProtocolVersion) :
    decode_result (t * Shared) :=
  let dup := negb (Z.land flags 8 =? 0) in
  let retain := negb (Z.land flags 1 =? 0) in
  let? (topic_name, src) := get_topic src in
  let? (packet_identifier_dup_qos, src) :=
    match Z.shiftr (Z.land flags 6) 1 with
    | 0x00 =>
        if dup then Err DecodeError.PublishDupAtMostOnce
        else Ok (PacketIdentifierDupQoS.AtMostOnce, src)
    | 0x01 =>
        let? (packet_identifier, src) := try_get_packet_identifier src in
        Ok (PacketIdentifierDupQoS.AtLeastOnce packet_identifier dup, src)
    | 0x02 =>
        let? (packet_identifier, src) := try_get_packet_identifier src in
        Ok (PacketIdentifierDupQoS.ExactlyOnce packet_identifier dup, src)
    | qos => Err (DecodeError.UnrecognizedQoS qos)
    end in
  match version with
  | V3 =>
      let '(payload, src) := split_to (len src) src in
      Ok (mk topic_name packet_identifier_dup_qos retain payload OtherProperties_default, src)
  | V5 =>
      let? (props, src) := decode_properties bindings src in
      let '(payload, src) := split_to (len src) src in
      Ok (mk topic_name packet_identifier_dup_qos retain payload (of_props props), src)
  end.

Definition encode {B} `{BytesAccumulator B} (p : t) (version : ProtocolVersion) (dst : B) :
    encode_result B :=
  let? dst := Topic_encode (topic_name p) dst in
  let? dst :=
    match packet_identifier_dup_qos p with
    | PacketIdentifierDupQoS.AtMostOnce => Ok dst
    | PacketIdentifierDupQoS.AtLeastOnce packet_identifier _
    | PacketIdentifierDupQoS.ExactlyOnce packet_identifier _ =>
        put_u16 (pkid_get packet_identifier) dst
    end in
  let? dst := if is_v5 version then encode_all (to_props (other_properties p)) dst else Ok dst in
  Ok (put_shared (payload p) dst).

(** The flags that [PacketRef::encode] computes for a PUBLISH. *)
Definition flags (p : t) : u8 :=
  let flags :=
    match packet_identifier_dup_qos p with
    | PacketIdentifierDupQoS.AtMostOnce => 0
    | PacketIdentifierDupQoS.AtLeastOnce _ true => 10
    | PacketIdentifierDupQoS.AtLeastOnce _ false => 2
    | PacketIdentifierDupQoS.ExactlyOnce _ true => 12
    | PacketIdentifierDupQoS.ExactlyOnce _ false => 4
    end in
  if retain p then Z.lor flags 1 else flags.

Definition other_wf `{Unicode} (o : OtherProperties) : Prop :=
  opt_wf is_u32 (message_expiry_interval o) /\ opt_wf is_nonzero_u16 (topic_alias o) /\
  opt_wf topic_wf (response_topic o) /\ opt_wf bd_wf (correlation_data o) /\
  Forall user_wf (user_properties o) /\ Forall is_nonzero_u32 (subscription_identifiers o) /\
  opt_wf bs_wf (content_type o).

Definition wf `{Unicode} (v : ProtocolVersion) (p : t) : Prop :=
  topic_wf (topic_name p) /\ PacketIdentifierDupQoS.wf (packet_identifier_dup_qos p) /\
  match v with
  | V3 => other_properties p = OtherProperties_default
  | V5 => other_wf (other_properties p)
  end.
End Publish.

(** ** Publications *)

Module Publication.
(** [struct PublicationOtherProperties]. *)
Record OtherProperties : Set := mkOther {
  payload_is_utf8 : bool;
  message_expiry_interval : option u32;
  response_topic : option (Topic ByteStr);
  correlation_data : option BinaryData;
  user_properties : list (ByteStr * ByteStr);
  content_type : option ByteStr;
}.

(** [struct Publication]. *)
Record t : Set := mk {
  topic_name : Topic ByteStr;
  qos : QoS.t;
  retain : bool;
  payload : Shared;
  other_properties : OtherProperties;
}.

(** [impl From<PublishOtherProperties> for PublicationOtherProperties]. *)
Definition other_from_publish (props : Publish.OtherProperties) : OtherProperties :=
  mkOther (Publish.payload_is_utf8 props) (Publish.message_expiry_interval props)
    (Publish.response_topic props) (Publish.correlation_data props)
    (Publish.user_properties props) (Publish.content_type props).

(** [impl From<PublicationOtherProperties> for PublishOtherProperties]. *)
Definition other_into_publish (props : OtherProperties) : Publish.OtherProperties :=
  Publish.mkOther (payload_is_utf8 props) (message_expiry_interval props) None
    (response_topic props) (correlation_data props) (user_properties props) []
    (content_type props).

(** [impl From<Publish> for Publication]. *)
Definition from_publish (p : Publish.t) : t :=
  mk (Publish.topic_name p)
    (PacketIdentifierDupQoS.qos (Publish.packet_identifier_dup_qos p))
    (Publish.retain p) (Publish.payload p) (other_from_publish (Publish.other_properties p)).

(** [impl From<Publication> for Publish]. *)
Definition into_publish (p : t) : Publish.t :=
  let packet_id := mkPacketIdentifier 1 in
  let packet_identifier_dup_qos :=
    match qos p with
    | QoS.AtMostOnce => PacketIdentifierDupQoS.AtMostOnce
    | QoS.AtLeastOnce => PacketIdentifierDupQoS.AtLeastOnce packet_id false
    | QoS.ExactlyOnce => PacketIdentifierDupQoS.ExactlyOnce packet_id false
    end in
  Publish.mk (topic_name p) packet_identifier_dup_qos (retain p) (payload p)
    (other_into_publish (other_properties p)).

(** [impl From<(Publication, PacketIdentifierDupQoS)> for Publish]. *)
Definition into_publish_with (p : t) (packet_identifier_dup_qos : PacketIdentifierDupQoS.t) :
    Publish.t :=
  Publish.mk (topic_name p) packet_identifier_dup_qos (retain p) (payload p)
    (other_into_publish (other_properties p)).
End Publication.

(** ** Lemmas *)

Lemma split_to_all src : split_to (len src) src = (src, []).
Proof.
  unfold split_to, len. rewrite Nat2Z.id. by rewrite take_ge, drop_ge by lia.
Qed.

Section publish_laws.
Context `{Unicode}.

Lemma publish_props_roundtrip o :
  wp (fun B BA dst => encode_all (H := BA) (Publish.to_props o) dst) (fun bs =>
    Publish.other_wf o -> forall rest, exists props,
      decode_properties Publish.bindings (bs ++ rest) = Ok (props, rest) /\
      Publish.of_props props = o).
Proof.
  eapply wp_mono; [apply encode_all_wp|]. cbv beta. intros bs Hbs Hwf rest.
  exists (omap visible (Publish.to_props o)). split.
  - rewrite Hbs.
    + rewrite (accept_all _ _ [Property.VPayloadIsUtf8; Property.VMessageExpiryInterval;
        Property.VTopicAlias; Property.VResponseTopic; Property.VCorrelationData;
        Property.VContentType]); [done|..].
      * apply (bool_decide_unpack _). vm_compute. done.
      * apply (bool_decide_unpack _). vm_compute. done.
      * unfold Publish.to_props. props_accepted.
    + destruct Hwf as (?&?&?&?&?&?&?). unfold Publish.to_props. props_wf.
  - unfold Publish.of_props, Publish.to_props. props_read.
    destruct o as [utf8 ? ? ? ? ? ? ?]. cbn. f_equal. by destruct utf8.
Qed.

Lemma publish_flags_dup p :
  negb (Z.land (Publish.flags p) 8 =? 0) =
    match Publish.packet_identifier_dup_qos p with
    | PacketIdentifierDupQoS.AtMostOnce => false
    | PacketIdentifierDupQoS.AtLeastOnce _ dup | PacketIdentifierDupQoS.ExactlyOnce _ dup => dup
    end.
Proof. by destruct p as [? [|? []|? []] [] ? ?]. Qed.

Lemma publish_flags_retain p : negb (Z.land (Publish.flags p) 1 =? 0) = Publish.retain p.
Proof. by destruct p as [? [|? []|? []] [] ? ?]. Qed.

Lemma publish_flags_qos p :
  Z.shiftr (Z.land (Publish.flags p) 6) 1
  = QoS.to_u8 (PacketIdentifierDupQoS.qos (Publish.packet_identifier_dup_qos p)).
Proof. by destruct p as [? [|? []|? []] [] ? ?]. Qed.

(** The packet identifier and QoS read back with the flags of the packet. *)
Lemma publish_encode_wp v p :
  wp (fun B BA dst => Publish.encode p v dst) (fun bs =>
    Publish.wf v p -> Publish.decode (Publish.flags p) bs v = Ok (p, [])).
Proof.
  unfold Publish.encode, Publish.decode.
  rewrite publish_flags_dup, publish_flags_retain, publish_flags_qos.
  destruct p as [topic idq retain payload o].
  cbn [Publish.topic_name Publish.packet_identifier_dup_qos Publish.retain Publish.payload
    Publish.other_properties].
  apply wp_bind, Topic_encode_wp, wp_bind.
  apply (wp_mono _ (fun bs => PacketIdentifierDupQoS.wf idq -> forall rest,
    match idq with
    | PacketIdentifierDupQoS.AtMostOnce => bs = []
    | PacketIdentifierDupQoS.AtLeastOnce i _ | PacketIdentifierDupQoS.ExactlyOnce i _ =>
        try_get_packet_identifier (bs ++ rest) = Ok (i, rest)
    end)).
  { destruct idq as [|i d|i d]; cbn [PacketIdentifierDupQoS.wf]; [by apply wp_ok|..];
      apply put_u16_wp; intros; by apply try_get_packet_identifier_put. }
  cbv beta. intros bi Hbi. apply wp_bind. destruct v; cbn [is_v5].
  - apply wp_ok, wp_put_shared_ok. intros (Ht & Hi & Ho). cbn in Ht, Hi, Ho. subst o. cbn [app].
    rewrite get_topic_put by done. specialize (Hbi Hi payload).
    destruct idq as [|i d|i d]; cbn [PacketIdentifierDupQoS.qos PacketIdentifierDupQoS.into fst QoS.to_u8];
      cbv iota; [subst bi|rewrite Hbi..]; cbn [app];
      by rewrite split_to_all.
  - eapply wp_mono; [apply publish_props_roundtrip|]. cbv beta. intros bp Hbp.
    apply wp_put_shared_ok. intros (Ht & Hi & Ho). cbn in Ht, Hi, Ho.
    rewrite get_topic_put by done. specialize (Hbi Hi (bp ++ payload)).
    destruct (Hbp Ho payload) as (props & Hdec & Hof).
    destruct idq as [|i d|i d]; cbn [PacketIdentifierDupQoS.qos PacketIdentifierDupQoS.into fst QoS.to_u8];
      cbv iota; [subst bi|rewrite Hbi..]; cbn [app];
      rewrite Hdec, split_to_all, Hof; done.
Qed.

Lemma publish_of_props_wf props :
  Forall prop_wf props -> Publish.other_wf (Publish.of_props props).
Proof. intros Hp. unfold Publish.other_wf, Publish.of_props. cbn. split_and!; prop_field. Qed.

Lemma publish_decode_wf flags src v p rest :
  bytes_ok src -> Publish.decode flags src v = Ok (p, rest) -> Publish.wf v p.
Proof.
  intros Hs E. unfold Publish.decode in E.
  destruct (get_topic src) as [[topic s1]|] eqn:E1; [|done]. decode_facts.
  match type of E with match ?m with _ => _ end = _ => destruct m as [[idq s2]|] eqn:E2 end; [|done].
  assert (PacketIdentifierDupQoS.wf idq /\ bytes_ok s2) as [Hi Hs2].
  { inv_ok E2; decode_facts; done. }
  destruct v; [rewrite split_to_all in E; inv_ok E; done|].
  destruct (decode_properties _ s2) as [[props s3]|] eqn:E3; [|done]. packet_facts.
  rewrite split_to_all in E. inv_ok E. split_and!; [done..|]. by apply publish_of_props_wf.
Qed.
End publish_laws.

#[export] Instance Publish_meta `{Unicode} : PacketMeta Publish.t := {
  PACKET_TYPE := 0x30;
  packet_decode := Publish.decode;
  packet_encode B BA := Publish.encode;
}.

#[export] Instance Publish_laws `{Unicode} : PacketLaws Publish.t.
Proof.
  refine {| packet_wf := Publish.wf; packet_flags := Publish.flags |}.
  - apply publish_encode_wp.
  - intros flags src v p rest Hs _. by apply publish_decode_wf.
Defined.
