(* ===== verification/Subscriptions.v ===== *)
(** * SUBSCRIBE, SUBACK, UNSUBSCRIBE and UNSUBACK

    mqtt_proto/subscribe.rs, suback.rs, unsubscribe.rs and unsuback.rs. *)

From S2P Require Export Publish.
Local Open Scope Z_scope.

(** [Filter::decode(src)?.ok_or(DecodeError::IncompletePacket)?]. *)
Definition get_filter `{Unicode} (src : Shared) : decode_result (Filter ByteStr * Shared) :=
  let? r := Filter_decode src in
  ok_or r DecodeError.IncompletePacket.

(** ** SUBSCRIBE *)

Module SubscribeOptions.
(** [struct SubscribeOptionsOtherProperties]. *)
Record OtherProperties : Set := mkOther {
  no_local : bool;
  retain_as_published : bool;
  retain_handling : RetainHandling.t;
}.

(** [impl Default for SubscribeOptionsOtherProperties]. *)
Definition OtherProperties_default : OtherProperties := mkOther false true RetainHandling.Send.

(** [struct SubscribeOptions]. *)
Record t : Set := mk {
  maximum_qos : QoS.t;
  other_properties : OtherProperties;
}.

Definition decode (src : Shared) (version : ProtocolVersion) : decode_result (t * Shared) :=
  match version with
  | V3 =>
      let? (b, src) := try_get_u8 src in
      let? maximum_qos :=
        match b with
        | 0x00 => Ok QoS.AtMostOnce
        | 0x01 => Ok QoS.AtLeastOnce
        | 0x02 => Ok QoS.ExactlyOnce
        | maximum_qos => Err (DecodeError.UnrecognizedQoS maximum_qos)
        end in
      Ok (mk maximum_qos OtherProperties_default, src)
  | V5 =>
      let? (options, src) := try_get_u8 src in
      let? maximum_qos := QoS.try_from (Z.land options 3) in
      let no_local := negb (Z.land options 4 =? 0) in
      let retain_as_published := negb (Z.land options 8 =? 0) in
      let? retain_handling := RetainHandling.try_from (Z.shiftr (Z.land options 48) 4) in
      if negb (Z.land options 192 =? 0) then Err DecodeError.SubscriptionOptionsReservedSet
      else Ok (mk maximum_qos (mkOther no_local retain_as_published retain_handling), src)
  end.

(** The options byte of a v5 subscription. *)
Definition to_byte (o : t) : u8 :=
  let subscription_options := Z.lor 0 (QoS.to_u8 (maximum_qos o)) in
  let subscription_options :=
    if no_local (other_properties o) then Z.lor subscription_options 4 else subscription_options in
  let subscription_options :=
    if retain_as_published (other_properties o)
    then Z.lor subscription_options 8 else subscription_options in
  Z.lor subscription_options
    (Z.shiftl (RetainHandling.to_u8 (retain_handling (other_properties o))) 4).

Definition encode {B} `{BytesAccumulator B} (o : t) (version : ProtocolVersion) (dst : B) :
    encode_result B :=
  match version with
  | V3 => put_u8 (QoS.to_u8 (maximum_qos o)) dst
  | V5 => put_u8 (to_byte o) dst
  end.
End SubscribeOptions.

Module SubscribeTo.
(** [struct SubscribeTo]. *)
Record t : Set := mk {
  topic_filter : Filter ByteStr;
  options : SubscribeOptions.t;
}.

Definition decode `{Unicode} (version : ProtocolVersion) (src : Shared) : decode_result (t * Shared) :=
  let? (topic_filter, src) := get_filter src in
  let? (options, src) := SubscribeOptions.decode src version in
  if Filter_is_shared topic_filter
     && SubscribeOptions.no_local (SubscribeOptions.other_properties options)
  then Err DecodeError.NoLocalWithSharedSubscription
  else Ok (mk topic_filter options, src).

Definition encode {B} `{BytesAccumulator B} (s : t) (version : ProtocolVersion) (dst : B) :
    encode_result B :=
  let? dst := Filter_encode (topic_filter s) dst in
  SubscribeOptions.encode (options s) version dst.

Definition wf `{Unicode} (v : ProtocolVersion) (s : t) : Prop :=
  filter_wf (topic_filter s) /\
  (Filter_is_shared (topic_filter s)
   && SubscribeOptions.no_local (SubscribeOptions.other_properties (options s)) = false) /\
  match v with
  | V3 => SubscribeOptions.other_properties (options s) = SubscribeOptions.OtherProperties_default
  | V5 => True
  end.
End SubscribeTo.

Module Subscribe.
(** [struct SubscribeOtherProperties]. *)
Record OtherProperties : Set := mkOther {
  subscription_identifier : option u32;
  user_properties : list (ByteStr * ByteStr);
}.

Definition OtherProperties_default : OtherProperties := mkOther None [].

(** [struct Subscribe]. *)
Record t : Set := mk {
  packet_identifier : PacketIdentifier;
  subscribe_to : list SubscribeTo.t;
  other_properties : OtherProperties;
}.

Definition bindings : list Binding := [Bind Property.VSubscriptionIdentifier; BindVecUserProperty].

Definition of_props (props : list Property.t) : OtherProperties :=
  mkOther (find_prop As.SubscriptionIdentifier props) (filter_props As.UserProperty props).

Definition to_props (o : OtherProperties) : list Property.t :=
  opt_prop Property.SubscriptionIdentifier (subscription_identifier o)
  ++ user_props (user_properties o).

(** [SubscribeOtherProperties::decode]. *)
Definition decode_other `{Unicode} (src : Shared) (version : ProtocolVersion) :
    decode_result (OtherProperties * Shared) :=
  match version with
  | V3 => Ok (OtherProperties_default, src)
  | V5 =>
      let? (props, src) := decode_properties bindings src in
      Ok (of_props props, src)
  end.

(** [SubscribeOtherProperties::encode]. *)
Definition encode_other {B} `{BytesAccumulator B} (o : OtherProperties) (version : ProtocolVersion)
    (dst : B) : encode_result B :=
  if is_v5 version then encode_all (to_props o) dst else Ok dst.

Definition decode `{Unicode} (_flags : u8) (src : Shared) (version : ProtocolVersion) :
    decode_result (t * Shared) :=
  let? (packet_identifier, src) := try_get_packet_identifier src in
  let? (other_properties, src) := decode_other src version in
  let? subscribe_to := decode_while (SubscribeTo.decode version) (length src) src in
  if list_is_empty subscribe_to then Err DecodeError.NoTopics
  else Ok (mk packet_identifier subscribe_to other_properties, []).

Definition encode {B} `{BytesAccumulator B} (p : t) (version : ProtocolVersion) (dst : B) :
    encode_result B :=
  let? dst := put_u16 (pkid_get (packet_identifier p)) dst in
  let? dst := encode_other (other_properties p) version dst in
  if list_is_empty (subscribe_to p) then Err EncodeError.NoTopics
  else foldM (fun dst s => SubscribeTo.encode s version dst) dst (subscribe_to p).

Definition wf `{Unicode} (v : ProtocolVersion) (p : t) : Prop :=
  pkid_wf (packet_identifier p) /\ subscribe_to p <> [] /\
  Forall (SubscribeTo.wf v) (subscribe_to p) /\
  match v with
  | V3 => other_properties p = OtherProperties_default
  | V5 => opt_wf is_nonzero_u32 (subscription_identifier (other_properties p)) /\
          Forall user_wf (user_properties (other_properties p))
  end.
End Subscribe.

(** ** UNSUBSCRIBE *)

Module Unsubscribe.
(** [struct Unsubscribe]; [UnsubscribeOtherProperties] has the one field. *)
Record t : Set := mk {
  packet_identifier : PacketIdentifier;
  unsubscribe_from : list (Filter ByteStr);
  user_properties : list (ByteStr * ByteStr);
}.

Definition bindings : list Binding := [BindVecUserProperty].

Definition decode `{Unicode} (_flags : u8) (src : Shared) (version : ProtocolVersion) :
    decode_result (t * Shared) :=
  let? (packet_identifier, src) := try_get_packet_identifier src in
  let? (user_properties, src) :=
    match version with
    | V3 => Ok ([], src)
    | V5 =>
        let? (props, src) := decode_properties bindings src in
        Ok (filter_props As.UserProperty props, src)
    end in
  let? unsubscribe_from := decode_while get_filter (length src) src in
  if list_is_empty unsubscribe_from then Err DecodeError.NoTopics
  else Ok (mk packet_identifier unsubscribe_from user_properties, []).

Definition encode {B} `{BytesAccumulator B} (p : t) (version : ProtocolVersion) (dst : B) :
    encode_result B :=
  let? dst := put_u16 (pkid_get (packet_identifier p)) dst in
  let? dst := if is_v5 version then encode_all (user_props (user_properties p)) dst else Ok dst in
  if list_is_empty (unsubscribe_from p) then Err EncodeError.NoTopics
  else foldM (fun dst f => Filter_encode f dst) dst (unsubscribe_from p).

Definition wf `{Unicode} (v : ProtocolVersion) (p : t) : Prop :=
  pkid_wf (packet_identifier p) /\ unsubscribe_from p <> [] /\
  Forall filter_wf (unsubscribe_from p) /\
  match v with V3 => user_properties p = [] | V5 => Forall user_wf (user_properties p) end.
End Unsubscribe.

(** ** SUBACK *)

Module SubAck.
(** [SubscribeReasonCode::try_from(code, version)]. *)
Definition reason_try_from (code : u8) (version : ProtocolVersion) :
    decode_result SubscribeReasonCode.t :=
  match version with
  | V3 =>
      match code with
      | 0x00 => Ok SubscribeReasonCode.GrantedQoS0
      | 0x01 => Ok SubscribeReasonCode.GrantedQoS1
      | 0x02 => Ok SubscribeReasonCode.GrantedQoS2
      | 0x80 => Ok SubscribeReasonCode.UnspecifiedError
      | code => Err (DecodeError.UnrecognizedQoS code)
      end
  | V5 => SubscribeReasonCode.try_from code
  end.

(** [SubscribeReasonCode::to_u8(version)]. *)
Definition reason_to_u8 (code : SubscribeReasonCode.t) (version : ProtocolVersion) : u8 :=
  match version with
  | V3 =>
      match code with
      | SubscribeReasonCode.GrantedQoS0 => 0x00
      | SubscribeReasonCode.GrantedQoS1 => 0x01
      | SubscribeReasonCode.GrantedQoS2 => 0x02
      | _ => 0x80
      end
  | V5 => SubscribeReasonCode.to_u8 code
  end.

(** [impl From<QoS> for SubscribeReasonCode]. *)
Definition reason_from_qos (qos : QoS.t) : SubscribeReasonCode.t :=
  match qos with
  | QoS.AtMostOnce => SubscribeReasonCode.GrantedQoS0
  | QoS.AtLeastOnce => SubscribeReasonCode.GrantedQoS1
  | QoS.ExactlyOnce => SubscribeReasonCode.GrantedQoS2
  end.

(** [struct SubAck]. *)
Record t : Set := mk {
  packet_identifier : PacketIdentifier;
  reason_codes : list SubscribeReasonCode.t;
  other_properties : ReasonProperties;
}.

Definition decode `{Unicode} (_flags : u8) (src : Shared) (version : ProtocolVersion) :
    decode_result (t * Shared) :=
  let? (packet_identifier, src) := try_get_packet_identifier src in
  let? (other_properties, src) :=
    match version with
    | V3 => Ok (ReasonProperties_default, src)
    | V5 =>
        let? (props, src) := decode_properties reason_bindings src in
        Ok (reason_of_props props, src)
    end in
  let? reason_codes := mapM_result (fun code => reason_try_from code version) src in
  let src := drop (length reason_codes) src in
  if list_is_empty reason_codes then Err DecodeError.NoTopics
  else Ok (mk packet_identifier reason_codes other_properties, src).

Definition encode {B} `{BytesAccumulator B} (p : t) (version : ProtocolVersion) (dst : B) :
    encode_result B :=
  let? dst := put_u16 (pkid_get (packet_identifier p)) dst in
  let? dst := if is_v5 version then encode_all (reason_props (other_properties p)) dst else Ok dst in
  foldM (fun dst code => put_u8 (reason_to_u8 code version) dst) dst (reason_codes p).

(** A v3 SUBACK has only one negative code. *)
Definition wf `{Unicode} (v : ProtocolVersion) (p : t) : Prop :=
  pkid_wf (packet_identifier p) /\ reason_codes p <> [] /\
  match v with
  | V3 => other_properties p = ReasonProperties_default /\
          Forall (fun c => reason_try_from (reason_to_u8 c V3) V3 = Ok c) (reason_codes p)
  | V5 => reason_wf (other_properties p)
  end.
End SubAck.

(** ** UNSUBACK *)

Module UnsubAck.
(** [UnsubAckReasonCode::is_success]. *)
Definition is_success (code : UnsubAckReasonCode.t) : bool :=
  match code with
  | UnsubAckReasonCode.Success | UnsubAckReasonCode.NoSubscriptionExisted => true
  | _ => false
  end.

(** [struct UnsubAck]. *)
Record t : Set := mk {
  packet_identifier : PacketIdentifier;
  reason_codes : list UnsubAckReasonCode.t;
  other_properties : ReasonProperties;
}.

Definition decode `{Unicode} (_flags : u8) (src : Shared) (version : ProtocolVersion) :
    decode_result (t * Shared) :=
  let? (packet_identifier, src) := try_get_packet_identifier src in
  match version with
  | V3 => Ok (mk packet_identifier [] ReasonProperties_default, src)
  | V5 =>
      let? (props, src) := decode_properties reason_bindings src in
      let? reason_codes := mapM_result UnsubAckReasonCode.try_from src in
      let src := drop (length reason_codes) src in
      if list_is_empty reason_codes then Err DecodeError.NoTopics
      else Ok (mk packet_identifier reason_codes (reason_of_props props), src)
  end.

Definition encode {B} `{BytesAccumulator B} (p : t) (version : ProtocolVersion) (dst : B) :
    encode_result B :=
  let? dst := put_u16 (pkid_get (packet_identifier p)) dst in
  match version with
  | V3 =>
      match List.find (fun code => negb (is_success code)) (reason_codes p) with
      | Some reason_code => Err (EncodeError.NegativeUnsubAck reason_code)
      | None => Ok dst
      end
  | V5 =>
      let? dst := encode_all (reason_props (other_properties p)) dst in
      foldM (fun dst code => put_u8 (UnsubAckReasonCode.to_u8 code) dst) dst (reason_codes p)
  end.

(** A v3 UNSUBACK carries nothing but the packet identifier. *)
Definition wf `{Unicode} (v : ProtocolVersion) (p : t) : Prop :=
  pkid_wf (packet_identifier p) /\
  match v with
  | V3 => reason_codes p = [] /\ other_properties p = ReasonProperties_default
  | V5 => reason_codes p <> [] /\ reason_wf (other_properties p)
  end.
End UnsubAck.

(** ** Lemmas *)

Section subscription_laws.
Context `{Unicode}.

Lemma get_filter_put f rest :
  filter_wf f -> get_filter (bd_shared (bs_data (filter_inner f)) ++ rest) = Ok (f, rest).
Proof. intros Hf. unfold get_filter. by rewrite Filter_decode_put. Qed.

Lemma get_filter_ok src f rest :
  bytes_ok src -> get_filter src = Ok (f, rest) ->
  filter_wf f /\ bytes_ok rest /\ len rest < len src.
Proof.
  intros Hs E. unfold get_filter, ok_or in E. inv_ok E.
  apply Filter_decode_ok in E0 as [Hf ->]; [|done]. apply Forall_app in Hs as [_ ?].
  rewrite len_app. pose proof Hf as [[Hb _] _]. apply len_bd_wf in Hb. split_and!; [done..|lia].
Qed.

Lemma filter_bytes_nonempty f : filter_wf f -> bd_shared (bs_data (filter_inner f)) <> [].
Proof. intros [[Hb _] _] E. apply len_bd_wf in Hb. rewrite E in Hb. done. Qed.

Lemma user_props_roundtrip us :
  wp (fun B BA dst => encode_all (H := BA) (user_props us) dst) (fun bs =>
    Forall user_wf us -> forall rest, exists props,
      decode_properties Unsubscribe.bindings (bs ++ rest) = Ok (props, rest) /\
      filter_props As.UserProperty props = us).
Proof.
  eapply wp_mono; [apply encode_all_wp|]. cbv beta. intros bs Hbs Hwf rest.
  exists (omap visible (user_props us)). split; [|apply filter_props_user_props].
  rewrite Hbs by (by apply Forall_user_props).
  rewrite (accept_all _ _ []); [done|constructor|constructor|]. props_accepted.
Qed.

(** *** SUBSCRIBE *)

Lemma subscribe_options_byte o rest :
  SubscribeOptions.decode (to_be_bytes 1 (SubscribeOptions.to_byte o) ++ rest) V5 = Ok (o, rest).
Proof.
  assert (Hr : is_u8 (SubscribeOptions.to_byte o)) by 
    (destruct o as [[] [[] [] []]]; vm_compute; split; discriminate).
  unfold SubscribeOptions.decode. rewrite try_get_u8_put by done.
  by destruct o as [[] [[] [] []]].
Qed.

Lemma subscribe_to_encode_wp v s :
  wp (fun B BA dst => SubscribeTo.encode s v dst) (fun bs =>
    SubscribeTo.wf v s -> bs <> [] /\ forall rest, SubscribeTo.decode v (bs ++ rest) = Ok (s, rest)).
Proof.
  destruct s as [f o]. unfold SubscribeTo.encode, SubscribeTo.decode. cbn [SubscribeTo.topic_filter
    SubscribeTo.options]. apply wp_bind, Filter_encode_wp.
  apply (wp_mono _ (fun bs => (v = V3 -> SubscribeOptions.other_properties o
      = SubscribeOptions.OtherProperties_default) ->
    forall rest, SubscribeOptions.decode (bs ++ rest) v = Ok (o, rest))).
  { destruct v; apply put_u8_wp; intros Ho rest; [|apply subscribe_options_byte].
    destruct o as [q o]. cbn in Ho. rewrite Ho by done. unfold SubscribeOptions.decode.
    rewrite try_get_u8_put by (destruct q; cbn; solve_range). by destruct q. }
  cbv beta. intros bs Ho (Hf & Hs & Hv). cbn in Hf, Hs, Hv. split.
  - intros [E _]%app_nil. by apply (filter_bytes_nonempty f Hf).
  - intros rest. rewrite <- app_assoc, get_filter_put by done.
    rewrite Ho by (intros ->; exact Hv). by rewrite Hs.
Qed.

Lemma subscribe_options_decode_ok v src o rest :
  bytes_ok src -> SubscribeOptions.decode src v = Ok (o, rest) ->
  (v = V3 -> SubscribeOptions.other_properties o = SubscribeOptions.OtherProperties_default) /\
  bytes_ok rest /\ len rest < len src.
Proof.
  intros Hs E. unfold SubscribeOptions.decode in E.
  destruct v, (try_get_u8 src) as [[b s1]|] eqn:E1; try done; decode_facts; inv_ok E;
    split_and!; try done; lia.
Qed.

Lemma subscribe_to_decodes v : decodes (SubscribeTo.decode v) (SubscribeTo.wf v).
Proof.
  intros src s rest Hs E. unfold SubscribeTo.decode in E.
  destruct (get_filter src) as [[f s1]|] eqn:E1; [|done].
  apply get_filter_ok in E1 as (Hf & Hs1 & Hl1); [|done].
  destruct (SubscribeOptions.decode s1 v) as [[o s2]|] eqn:E2; [|done].
  apply subscribe_options_decode_ok in E2 as (Ho & Hs2 & Hl2); [|done].
  inv_ok E. split; [|split; [done|lia]]. split_and!; [done..|]. destruct v; auto.
Qed.

Lemma subscribe_props_roundtrip o :
  wp (fun B BA dst => encode_all (H := BA) (Subscribe.to_props o) dst) (fun bs =>
    opt_wf is_nonzero_u32 (Subscribe.subscription_identifier o) /\
    Forall user_wf (Subscribe.user_properties o) ->
    forall rest, Subscribe.decode_other (bs ++ rest) V5 = Ok (o, rest)).
Proof.
  eapply wp_mono; [apply encode_all_wp|]. cbv beta. intros bs Hbs [??] rest.
  unfold Subscribe.decode_other. rewrite Hbs by (unfold Subscribe.to_props; props_wf).
  rewrite (accept_all _ _ [Property.VSubscriptionIdentifier]).
  - unfold Subscribe.of_props, Subscribe.to_props. props_read. by destruct o.
  - by apply NoDup_singleton.
  - apply Forall_singleton. constructor.
  - unfold Subscribe.to_props. props_accepted.
Qed.

Lemma subscribe_encode_wp v p flags :
  wp (fun B BA dst => Subscribe.encode p v dst) (fun bs =>
    Subscribe.wf v p -> Subscribe.decode flags bs v = Ok (p, [])).
Proof.
  destruct p as [pid subs o]. unfold Subscribe.encode, Subscribe.decode, Subscribe.wf.
  cbn [Subscribe.packet_identifier Subscribe.subscribe_to Subscribe.other_properties].
  apply wp_bind, put_u16_wp, wp_bind.
  apply (wp_mono _ (fun bs => match v with
    | V3 => o = Subscribe.OtherProperties_default
    | V5 => opt_wf is_nonzero_u32 (Subscribe.subscription_identifier o) /\
            Forall user_wf (Subscribe.user_properties o)
    end -> forall rest, Subscribe.decode_other (bs ++ rest) v = Ok (o, rest))).
  { destruct v; [apply wp_ok; by intros -> | apply subscribe_props_roundtrip]. }
  cbv beta. intros bo Hbo. destruct (list_is_empty subs) eqn:Ee; [apply wp_err|].
  apply (wp_foldM (fun s B BA dst => SubscribeTo.encode s v dst)) with (R := fun s bs =>
    SubscribeTo.wf v s -> bs <> [] /\ forall rest, SubscribeTo.decode v (bs ++ rest) = Ok (s, rest)).
  { intros s _. apply subscribe_to_encode_wp. }
  intros bss HF (Hp & _ & Hs & Ho). rewrite try_get_packet_identifier_put by done.
  rewrite Hbo by done. rewrite (decode_while_concat _ _ subs); [by rewrite Ee| |lia].
  clear -HF Hs. induction HF as [|s bs subs bss Hd _ IH]; [done|].
  inversion_clear Hs. constructor; auto.
Qed.

Lemma subscribe_decode_wf flags src v p rest :
  bytes_ok src -> Subscribe.decode flags src v = Ok (p, rest) -> Subscribe.wf v p.
Proof.
  intros Hs E. unfold Subscribe.decode, Subscribe.decode_other in E.
  destruct (try_get_packet_identifier src) as [[pid s1]|] eqn:E1; [|done]. decode_facts.
  destruct v.
  - inv_ok E. split_and!; [done|intros Ee; cbn in Ee; by subst| |done].
    eapply decode_while_ok; [apply subscribe_to_decodes| |eassumption]. done.
  - destruct (decode_properties _ s1) as [[props s2]|] eqn:E2; [|done]. packet_facts. inv_ok E.
    split_and!; [done|intros Ee; cbn in Ee; by subst| |cbn; prop_field|cbn; prop_field].
    eapply decode_while_ok; [apply subscribe_to_decodes| |eassumption]. done.
Qed.

(** *** UNSUBSCRIBE *)

Lemma unsubscribe_encode_wp v p flags :
  wp (fun B BA dst => Unsubscribe.encode p v dst) (fun bs =>
    Unsubscribe.wf v p -> Unsubscribe.decode flags bs v = Ok (p, [])).
Proof.
  destruct p as [pid fs us]. unfold Unsubscribe.encode, Unsubscribe.decode, Unsubscribe.wf.
  cbn [Unsubscribe.packet_identifier Unsubscribe.unsubscribe_from Unsubscribe.user_properties].
  apply wp_bind, put_u16_wp, wp_bind.
  apply (wp_mono _ (fun bs => match v with V3 => us = [] | V5 => Forall user_wf us end ->
    forall rest, match v with
    | V3 => Ok ([], bs ++ rest)
    | V5 => let? (props, src) := decode_properties Unsubscribe.bindings (bs ++ rest) in
            Ok (filter_props As.UserProperty props, src)
    end = Ok (us, rest))).
  { destruct v; [apply wp_ok; by intros ->|]. eapply wp_mono; [apply user_props_roundtrip|].
    cbv beta. intros bs Hbs Hu rest. destruct (Hbs Hu rest) as (props & -> & ->). done. }
  cbv beta. intros bo Hbo. destruct (list_is_empty fs) eqn:Ee; [apply wp_err|].
  apply (wp_foldM (fun f B BA dst => Filter_encode f dst)) with (R := fun f bs =>
    bs = bd_shared (bs_data (filter_inner f))).
  { intros s _. by apply Filter_encode_wp. }
  intros bss HF (Hp & _ & Hs & Ho). rewrite try_get_packet_identifier_put by done.
  rewrite Hbo by done. rewrite (decode_while_concat _ _ fs); [by rewrite Ee| |lia].
  clear -HF Hs. induction HF as [|f bs fs bss -> _ IH]; [done|].
  inversion_clear Hs. constructor; [|auto].
  split; [by apply filter_bytes_nonempty|]. intros; by apply get_filter_put.
Qed.

Lemma unsubscribe_decode_wf flags src v p rest :
  bytes_ok src -> Unsubscribe.decode flags src v = Ok (p, rest) -> Unsubscribe.wf v p.
Proof.
  intros Hs E. unfold Unsubscribe.decode in E.
  destruct (try_get_packet_identifier src) as [[pid s1]|] eqn:E1; [|done]. decode_facts.
  assert (Hd : decodes get_filter filter_wf) by (intros ? ? ? ? ?; by apply get_filter_ok).
  destruct v.
  - inv_ok E. split_and!; [done|intros Ee; cbn in Ee; by subst| |done].
    eapply decode_while_ok; [exact Hd| |eassumption]. done.
  - destruct (decode_properties _ s1) as [[props s2]|] eqn:E2; [|done]. packet_facts. inv_ok E.
    split_and!; [done|intros Ee; cbn in Ee; by subst| |cbn; prop_field].
    eapply decode_while_ok; [exact Hd| |eassumption]. done.
Qed.
(** *** SUBACK *)

Lemma suback_reason_range c v : is_u8 (SubAck.reason_to_u8 c v).
Proof. destruct v; [destruct c; cbn; solve_range | exact (into_u8_range c)]. Qed.

Lemma suback_encode_wp v p flags :
  wp (fun B BA dst => SubAck.encode p v dst) (fun bs =>
    SubAck.wf v p -> SubAck.decode flags bs v = Ok (p, [])).
Proof.
  destruct p as [pid codes o]. unfold SubAck.encode, SubAck.decode, SubAck.wf.
  cbn [SubAck.packet_identifier SubAck.reason_codes SubAck.other_properties].
  apply wp_bind, put_u16_wp, wp_bind.
  apply (wp_mono _ (fun bs => match v with
      V3 => o = ReasonProperties_default | V5 => reason_wf o end ->
    forall rest, match v with
    | V3 => Ok (ReasonProperties_default, bs ++ rest)
    | V5 => let? (props, src) := decode_properties reason_bindings (bs ++ rest) in
            Ok (reason_of_props props, src)
    end = Ok (o, rest))).
  { destruct v; [apply wp_ok; by intros ->|]. eapply wp_mono; [apply reason_roundtrip|].
    cbv beta. intros bs Hbs Ho rest. rewrite Hbs by done. by rewrite reason_of_reason_props. }
  cbv beta. intros bo Hbo. apply (encode_codes_wp (fun c => SubAck.reason_to_u8 c v)).
  intros (Hp & Hne & Hv). rewrite try_get_packet_identifier_put by done.
  rewrite Hbo by (destruct v; tauto).
  destruct (decode_codes (fun c => SubAck.reason_try_from c v) (fun c => SubAck.reason_to_u8 c v) codes)
    as [-> Hlen].
  { intros c Hc. split; [apply suback_reason_range|]. destruct v; [|exact (try_from_into c)].
    destruct Hv as [_ Hv]. rewrite Forall_forall in Hv. by apply Hv. }
  rewrite drop_ge by lia. by destruct codes.
Qed.

(** Decoding a v3 code yields one that encodes back to the same code. *)
Lemma suback_v3_codes b c : SubAck.reason_try_from b V3 = Ok c ->
  SubAck.reason_try_from (SubAck.reason_to_u8 c V3) V3 = Ok c.
Proof. unfold SubAck.reason_try_from at 1. intros E. by inv_ok E. Qed.

Lemma suback_decode_wf flags src v p rest :
  bytes_ok src -> SubAck.decode flags src v = Ok (p, rest) -> SubAck.wf v p.
Proof.
  intros Hs E. unfold SubAck.decode in E.
  destruct (try_get_packet_identifier src) as [[pid s1]|] eqn:E1; [|done]. decode_facts.
  destruct v.
  - inv_ok E. split_and!; [done|intros Ee; cbn in Ee; by subst|done|].
    eapply mapM_result_Forall; [|eassumption]. intros ? ?; apply suback_v3_codes.
  - destruct (decode_properties _ s1) as [[props s2]|] eqn:E2; [|done]. packet_facts. inv_ok E.
    split_and!; [done|intros Ee; cbn in Ee; by subst|]. by apply reason_of_props_wf.
Qed.

(** *** UNSUBACK *)

Lemma unsuback_encode_wp v p flags :
  wp (fun B BA dst => UnsubAck.encode p v dst) (fun bs =>
    UnsubAck.wf v p -> UnsubAck.decode flags bs v = Ok (p, [])).
Proof.
  destruct p as [pid codes o]. unfold UnsubAck.encode, UnsubAck.decode, UnsubAck.wf.
  cbn [UnsubAck.packet_identifier UnsubAck.reason_codes UnsubAck.other_properties].
  apply wp_bind, put_u16_wp. destruct v.
  - destruct (List.find _ codes); [apply wp_err|]. apply wp_ok. intros (Hp & -> & ->).
    by rewrite try_get_packet_identifier_put.
  - apply wp_bind. eapply wp_mono; [apply reason_roundtrip|]. cbv beta. intros bo Hbo.
    apply (encode_codes_wp UnsubAckReasonCode.to_u8).
    intros (Hp & Hne & Ho). rewrite try_get_packet_identifier_put, Hbo by done.
    destruct (decode_codes UnsubAckReasonCode.try_from UnsubAckReasonCode.to_u8 codes) as [-> Hlen].
    { intros c _. split; [exact (into_u8_range c) | exact (try_from_into c)]. }
    rewrite drop_ge by lia. rewrite reason_of_reason_props. by destruct codes.
Qed.

Lemma unsuback_decode_wf flags src v p rest :
  bytes_ok src -> UnsubAck.decode flags src v = Ok (p, rest) -> UnsubAck.wf v p.
Proof.
  intros Hs E. unfold UnsubAck.decode in E.
  destruct (try_get_packet_identifier src) as [[pid s1]|] eqn:E1; [|done]. decode_facts.
  destruct v; [by inv_ok E|].
  destruct (decode_properties _ s1) as [[props s2]|] eqn:E2; [|done]. packet_facts. inv_ok E.
  split_and!; [done|intros Ee; cbn in Ee; by subst|]. by apply reason_of_props_wf.
Qed.
End subscription_laws.

#[export] Instance Subscribe_meta `{Unicode} : PacketMeta Subscribe.t := {
  PACKET_TYPE := 0x80;
  packet_decode := Subscribe.decode;
  packet_encode B BA := Subscribe.encode;
}.

#[export] Instance SubAck_meta `{Unicode} : PacketMeta SubAck.t := {
  PACKET_TYPE := 0x90;
  packet_decode := SubAck.decode;
  packet_encode B BA := SubAck.encode;
}.

#[export] Instance Unsubscribe_meta `{Unicode} : PacketMeta Unsubscribe.t := {
  PACKET_TYPE := 0xA0;
  packet_decode := Unsubscribe.decode;
  packet_encode B BA := Unsubscribe.encode;
}.

#[export] Instance UnsubAck_meta `{Unicode} : PacketMeta UnsubAck.t := {
  PACKET_TYPE := 0xB0;
  packet_decode := UnsubAck.decode;
  packet_encode B BA := UnsubAck.encode;
}.

#[export] Instance Subscribe_laws `{Unicode} : PacketLaws Subscribe.t.
Proof.
  refine {| packet_wf := Subscribe.wf; packet_flags _ := 2 |}.
  - intros v p. apply subscribe_encode_wp.
  - intros flags src v p rest Hs _. by apply subscribe_decode_wf.
Defined.

#[export] Instance SubAck_laws `{Unicode} : PacketLaws SubAck.t.
Proof.
  refine {| packet_wf := SubAck.wf; packet_flags _ := 0 |}.
  - intros v p. apply suback_encode_wp.
  - intros flags src v p rest Hs _. by apply suback_decode_wf.
Defined.

#[export] Instance Unsubscribe_laws `{Unicode} : PacketLaws Unsubscribe.t.
Proof.
  refine {| packet_wf := Unsubscribe.wf; packet_flags _ := 2 |}.
  - intros v p. apply unsubscribe_encode_wp.
  - intros flags src v p rest Hs _. by apply unsubscribe_decode_wf.
Defined.

#[export] Instance UnsubAck_laws `{Unicode} : PacketLaws UnsubAck.t.
Proof.
  refine {| packet_wf := UnsubAck.wf; packet_flags _ := 0 |}.
  - intros v p. apply unsuback_encode_wp.
  - intros flags src v p rest Hs _. by apply unsuback_decode_wf.
Defined.
