(* ===== verification/ConnAck.v ===== *)
(** * CONNACK, DISCONNECT and AUTH

    mqtt_proto/connack.rs, disconnect.rs, auth.rs, and [Authentication] of
    mqtt_proto.rs. *)

From S2P Require Export Subscriptions.
Local Open Scope Z_scope.

(** ** [Authentication] *)

Module Authentication.
(** [struct Authentication]. *)
Record t : Set := mk { method : ByteStr; data : option BinaryData }.

(** [Authentication::of]. *)
Definition of_parts (method : option ByteStr) (data : option BinaryData) : decode_result (option t) :=
  match method, data with
  | Some method, data => Ok (Some (mk method data))
  | None, Some _ => Err (DecodeError.MissingRequiredProperty "authentication method")
  | None, None => Ok None
  end.

(** [Authentication::into_parts]. *)
Definition into_parts (this : option t) : option ByteStr * option BinaryData :=
  match this with
  | Some a => (Some (method a), data a)
  | None => (None, None)
  end.

Definition wf `{Unicode} (a : t) : Prop := bs_wf (method a) /\ opt_wf bd_wf (data a).

(** The two bindings of a packet with an [authentication] field. *)
Definition to_props (this : option t) : list Property.t :=
  opt_prop Property.AuthenticationMethod (fst (into_parts this))
  ++ opt_prop Property.AuthenticationData (snd (into_parts this)).

Definition of_props (props : list Property.t) : decode_result (option t) :=
  of_parts (find_prop As.AuthenticationMethod props) (find_prop As.AuthenticationData props).
End Authentication.

(** ** CONNACK *)

Module ConnectReasonCode.
(** [enum ConnectReasonCode]. *)
Inductive t : Set :=
  | Success (session_present : bool)
  | Refused (reason : ConnectionRefusedReason.t).

(** [ConnectReasonCode::try_from]. *)
Definition try_from (code : u8) (session_present : bool) (version : ProtocolVersion) :
    decode_result t :=
  match version, code with
  | _, 0x00 => Ok (Success session_present)
  | V3, 0x01 => Ok (Refused ConnectionRefusedReason.UnsupportedProtocolVersion)
  | V3, 0x02 => Ok (Refused ConnectionRefusedReason.ClientIdentifierNotValid)
  | V3, 0x03 => Ok (Refused ConnectionRefusedReason.ServerUnavailable)
  | V3, 0x04 => Ok (Refused ConnectionRefusedReason.BadUserNameOrPassword)
  | V3, 0x05 => Ok (Refused ConnectionRefusedReason.NotAuthorized)
  | V3, code => Err (DecodeError.UnrecognizedConnectReturnCode code)
  | V5, code => let? reason := ConnectionRefusedReason.try_from code in Ok (Refused reason)
  end.

(** [ConnectReasonCode::to_u8]. *)
Definition to_u8 (this : t) (version : ProtocolVersion) : u8 :=
  match version, this with
  | _, Success _ => 0x00
  | V3, Refused ConnectionRefusedReason.UnsupportedProtocolVersion => 0x01
  | V3, Refused ConnectionRefusedReason.ClientIdentifierNotValid => 0x02
  | V3, Refused ConnectionRefusedReason.BadUserNameOrPassword => 0x04
  | V3, Refused ConnectionRefusedReason.NotAuthorized => 0x05
  | V3, Refused ConnectionRefusedReason.ServerUnavailable => 0x03
  | V3, Refused _ => 0x03
  | V5, Refused reason => ConnectionRefusedReason.to_u8 reason
  end.

Definition session_present (this : t) : bool :=
  match this with Success session_present => session_present | Refused _ => false end.
End ConnectReasonCode.

Module ConnAck.
(** [struct ConnAckOtherProperties]. *)
Record OtherProperties : Set := mkOther {
  session_expiry_interval : option SessionExpiryInterval.t;
  receive_maximum : u16;
  maximum_qos : QoS.t;
  retain_available : bool;
  maximum_packet_size : u32;
  assigned_client_id : option ByteStr;
  topic_alias_maximum : u16;
  reason_string : option ByteStr;
  user_properties : list (ByteStr * ByteStr);
  wildcard_subscription_available : bool;
  shared_subscription_available : bool;
  subscription_identifiers_available : bool;
  server_keep_alive : option KeepAlive.t;
  response_information : option ByteStr;
  server_reference : option ByteStr;
  authentication : option Authentication.t;
}.

(** [impl Default for ConnAckOtherProperties]. *)
Definition OtherProperties_default : OtherProperties :=
  mkOther None u16_MAX QoS.ExactlyOnce true u32_MAX None 0 None [] true true true None None None None.

(** [struct ConnAck]. *)
Record t : Set := mk {
  reason_code : ConnectReasonCode.t;
  other_properties : OtherProperties;
}.

Definition is_success (p : t) : bool :=
  match reason_code p with ConnectReasonCode.Success _ => true | _ => false end.

Definition bindings : list Binding :=
  [ Bind Property.VSessionExpiryInterval; Bind Property.VReceiveMaximum; Bind Property.VMaximumQoS;
    Bind Property.VRetainAvailable; Bind Property.VMaximumPacketSize;
    Bind Property.VAssignedClientIdentifier; Bind Property.VTopicAliasMaximum;
    Bind Property.VReasonString; BindVecUserProperty; Bind Property.VWildcardSubscriptionAvailable;
    Bind Property.VSharedSubscriptionAvailable; Bind Property.VSubscriptionIdentifiersAvailable;
    Bind Property.VServerKeepAlive; Bind Property.VResponseInformation;
    Bind Property.VServerReference; Bind Property.VAuthenticationMethod;
    Bind Property.VAuthenticationData ].

Definition of_props (props : list Property.t) : decode_result OtherProperties :=
  let? authentication := Authentication.of_props props in
  Ok (mkOther
    (find_prop As.SessionExpiryInterval props)
    (unwrap_or (find_prop As.ReceiveMaximum props) u16_MAX)
    (unwrap_or (find_prop As.MaximumQoS props) QoS.ExactlyOnce)
    (unwrap_or (find_prop As.RetainAvailable props) true)
    (unwrap_or (find_prop As.MaximumPacketSize props) u32_MAX)
    (find_prop As.AssignedClientIdentifier props)
    (unwrap_or (find_prop As.TopicAliasMaximum props) 0)
    (find_prop As.ReasonString props)
    (filter_props As.UserProperty props)
    (unwrap_or (find_prop As.WildcardSubscriptionAvailable props) true)
    (unwrap_or (find_prop As.SharedSubscriptionAvailable props) true)
    (unwrap_or (find_prop As.SubscriptionIdentifiersAvailable props) true)
    (find_prop As.ServerKeepAlive props)
    (find_prop As.ResponseInformation props)
    (find_prop As.ServerReference props)
    authentication).

Definition to_props (o : OtherProperties) : list Property.t :=
  opt_prop Property.SessionExpiryInterval (session_expiry_interval o)
  ++ [Property.ReceiveMaximum (receive_maximum o)]
  ++ [Property.MaximumQoS (maximum_qos o)]
  ++ [Property.RetainAvailable (retain_available o)]
  ++ [Property.MaximumPacketSize (maximum_packet_size o)]
  ++ opt_prop Property.AssignedClientIdentifier (assigned_client_id o)
  ++ [Property.TopicAliasMaximum (topic_alias_maximum o)]
  ++ opt_prop Property.ReasonString (reason_string o)
  ++ user_props (user_properties o)
  ++ [Property.WildcardSubscriptionAvailable (wildcard_subscription_available o)]
  ++ [Property.SharedSubscriptionAvailable (shared_subscription_available o)]
  ++ [Property.SubscriptionIdentifiersAvailable (subscription_identifiers_available o)]
  ++ opt_prop Property.ServerKeepAlive (server_keep_alive o)
  ++ opt_prop Property.ResponseInformation (response_information o)
  ++ opt_prop Property.ServerReference (server_reference o)
  ++ Authentication.to_props (authentication o).

Definition decode `{Unicode} (_flags : u8) (src : Shared) (version : ProtocolVersion) :
    decode_result (t * Shared) :=
  let? (session_present, src) := decode_bool DecodeError.UnrecognizedConnAckFlags src in
  let? (code, src) := try_get_u8 src in
  let? reason_code := ConnectReasonCode.try_from code session_present version in
  match version with
  | V3 => Ok (mk reason_code OtherProperties_default, src)
  | V5 =>
      let? (props, src) := decode_properties bindings src in
      let? other_properties := of_props props in
      Ok (mk reason_code other_properties, src)
  end.

Definition encode {B} `{BytesAccumulator B} (p : t) (version : ProtocolVersion) (dst : B) :
    encode_result B :=
  let? dst :=
    put_u8 (if ConnectReasonCode.session_present (reason_code p) then 0x01 else 0x00) dst in
  let? dst := put_u8 (ConnectReasonCode.to_u8 (reason_code p) version) dst in
  if is_v5 version then encode_all (to_props (other_properties p)) dst else Ok dst.

Definition other_wf `{Unicode} (o : OtherProperties) : Prop :=
  opt_wf SessionExpiryInterval.wf (session_expiry_interval o) /\
  is_nonzero_u16 (receive_maximum o) /\ is_nonzero_u32 (maximum_packet_size o) /\
  opt_wf bs_wf (assigned_client_id o) /\ is_u16 (topic_alias_maximum o) /\
  opt_wf bs_wf (reason_string o) /\ Forall user_wf (user_properties o) /\
  opt_wf KeepAlive.wf (server_keep_alive o) /\ opt_wf bs_wf (response_information o) /\
  opt_wf bs_wf (server_reference o) /\ opt_wf Authentication.wf (authentication o).

(** In v3 only five of the refusals have a code of their own. *)
Definition wf `{Unicode} (v : ProtocolVersion) (p : t) : Prop :=
  ConnectReasonCode.try_from (ConnectReasonCode.to_u8 (reason_code p) v)
    (ConnectReasonCode.session_present (reason_code p)) v = Ok (reason_code p) /\
  match v with
  | V3 => other_properties p = OtherProperties_default
  | V5 => other_wf (other_properties p)
  end.
End ConnAck.

(** ** DISCONNECT *)

Module Disconnect.
(** [struct DisconnectOtherProperties]. *)
Record OtherProperties : Set := mkOther {
  session_expiry_interval : option SessionExpiryInterval.t;
  reason_string : option ByteStr;
  user_properties : list (ByteStr * ByteStr);
  server_reference : option ByteStr;
}.

Definition OtherProperties_default : OtherProperties := mkOther None None [] None.

(** [struct Disconnect]. *)
Record t : Set := mk {
  reason_code : DisconnectReasonCode.t;
  other_properties : OtherProperties;
}.

(** [Disconnect::new]. *)
Definition new (reason_code : DisconnectReasonCode.t) : t := mk reason_code OtherProperties_default.

Definition bindings : list Binding :=
  [ Bind Property.VSessionExpiryInterval; Bind Property.VReasonString; BindVecUserProperty;
    Bind Property.VServerReference ].

Definition of_props (props : list Property.t) : OtherProperties :=
  mkOther (find_prop As.SessionExpiryInterval props) (find_prop As.ReasonString props)
    (filter_props As.UserProperty props) (find_prop As.ServerReference props).

Definition to_props (o : OtherProperties) : list Property.t :=
  opt_prop Property.SessionExpiryInterval (session_expiry_interval o)
  ++ opt_prop Property.ReasonString (reason_string o)
  ++ user_props (user_properties o)
  ++ opt_prop Property.ServerReference (server_reference o).

Definition decode `{Unicode} (_flags : u8) (src : Shared) (version : ProtocolVersion) :
    decode_result (t * Shared) :=
  match version with
  | V3 => Ok (mk DisconnectReasonCode.Normal OtherProperties_default, src)
  | V5 =>
      match try_get_u8 src with
      | Ok (reason_code, src) =>
          let? reason_code := DisconnectReasonCode.try_from reason_code in
          if len src >=? 1 then
            let? (props, src) := decode_properties bindings src in
            Ok (mk reason_code (of_props props), src)
          else Ok (mk reason_code OtherProperties_default, src)
      | Err DecodeError.IncompletePacket => Ok (new DisconnectReasonCode.Normal, src)
      | Err err => Err err
      end
  end.

Definition has_properties (o : OtherProperties) : bool :=
  is_some (session_expiry_interval o) || is_some (reason_string o)
  || negb (list_is_empty (user_properties o)) || is_some (server_reference o).

Definition encode {B} `{BytesAccumulator B} (p : t) (version : ProtocolVersion) (dst : B) :
    encode_result B :=
  if is_v5 version then
    let need_variable_header :=
      negb (bool_decide (reason_code p = DisconnectReasonCode.Normal))
      || has_properties (other_properties p) in
    if need_variable_header then
      let? dst := put_u8 (DisconnectReasonCode.to_u8 (reason_code p)) dst in
      if has_properties (other_properties p)
      then encode_all (to_props (other_properties p)) dst else Ok dst
    else Ok dst
  else Ok dst.

Definition other_wf `{Unicode} (o : OtherProperties) : Prop :=
  opt_wf SessionExpiryInterval.wf (session_expiry_interval o) /\ opt_wf bs_wf (reason_string o) /\
  Forall user_wf (user_properties o) /\ opt_wf bs_wf (server_reference o).

Definition wf `{Unicode} (v : ProtocolVersion) (p : t) : Prop :=
  match v with
  | V3 => p = new DisconnectReasonCode.Normal
  | V5 => other_wf (other_properties p)
  end.
End Disconnect.

(** ** AUTH *)

Module Auth.
(** [struct Auth]. *)
Record t : Set := mk {
  reason_code : AuthenticateReasonCode.t;
  authentication : option Authentication.t;
  reason_string : option ByteStr;
  user_properties : list (ByteStr * ByteStr);
}.

Definition bindings : list Binding :=
  [ Bind Property.VAuthenticationMethod; Bind Property.VAuthenticationData;
    Bind Property.VReasonString; BindVecUserProperty ].

Definition to_props (p : t) : list Property.t :=
  opt_prop Property.AuthenticationMethod (fst (Authentication.into_parts (authentication p)))
  ++ opt_prop Property.AuthenticationData (snd (Authentication.into_parts (authentication p)))
  ++ opt_prop Property.ReasonString (reason_string p)
  ++ user_props (user_properties p).

Definition decode `{Unicode} (flags : u8) (src : Shared) (version : ProtocolVersion) :
    decode_result (t * Shared) :=
  match version with
  | V3 => Err (DecodeError.UnrecognizedPacket 0xF0 flags (len src))
  | V5 =>
      match try_get_u8 src with
      | Ok (reason_code, src) =>
          let? reason_code := AuthenticateReasonCode.try_from reason_code in
          let? (props, src) := decode_properties bindings src in
          let? authentication := Authentication.of_props props in
          Ok (mk reason_code authentication (find_prop As.ReasonString props)
                (filter_props As.UserProperty props), src)
      | Err DecodeError.IncompletePacket => Ok (mk AuthenticateReasonCode.Success None None [], src)
      | Err err => Err err
      end
  end.

Definition encode {B} `{BytesAccumulator B} (p : t) (version : ProtocolVersion) (dst : B) :
    encode_result B :=
  match version with
  | V3 => Err (EncodeError.Panicked "AUTH packet cannot be encoded for v3")
  | V5 =>
      let? dst := put_u8 (AuthenticateReasonCode.to_u8 (reason_code p)) dst in
      encode_all (to_props p) dst
  end.

Definition wf `{Unicode} (v : ProtocolVersion) (p : t) : Prop :=
  v = V5 /\ opt_wf Authentication.wf (authentication p) /\ opt_wf bs_wf (reason_string p) /\
  Forall user_wf (user_properties p).
End Auth.

(** ** Lemmas *)

Lemma authentication_of_parts a :
  Authentication.of_parts (fst (Authentication.into_parts a)) (snd (Authentication.into_parts a)) = Ok a.
Proof. by destruct a as [[]|]. Qed.

Section control_laws.
Context `{Unicode}.

Lemma authentication_method_wf a :
  opt_wf Authentication.wf a -> opt_wf bs_wf (fst (Authentication.into_parts a)).
Proof. destruct a as [[]|]; [intros [??]|]; done. Qed.

Lemma authentication_data_wf a :
  opt_wf Authentication.wf a -> opt_wf bd_wf (snd (Authentication.into_parts a)).
Proof. destruct a as [[]|]; [intros [??]|]; done. Qed.

Lemma authentication_of_props_wf props a :
  Forall prop_wf props -> Authentication.of_props props = Ok a -> opt_wf Authentication.wf a.
Proof.
  intros Hp E. unfold Authentication.of_props, Authentication.of_parts in E.
  assert (H1 : opt_wf bs_wf (find_prop As.AuthenticationMethod props)) by prop_field.
  assert (H2 : opt_wf bd_wf (find_prop As.AuthenticationData props)) by prop_field.
  destruct (find_prop As.AuthenticationMethod props), (find_prop As.AuthenticationData props);
    inv_ok E; done.
Qed.

(** *** CONNACK *)

Lemma default_u16 n : is_u16 n -> (if n <? u16_MAX then n else u16_MAX) = n.
Proof. intros. destruct (n <? u16_MAX) eqn:E; bool_to_prop; [done|solve_range]. Qed.

Lemma default_u32 n : is_u32 n -> (if n <? u32_MAX then n else u32_MAX) = n.
Proof. intros. destruct (n <? u32_MAX) eqn:E; bool_to_prop; [done|solve_range]. Qed.

Lemma default_zero n : 0 <= n -> (if n >? 0 then n else 0) = n.
Proof. intros. rewrite Z.gtb_ltb. destruct (0 <? n) eqn:E; bool_to_prop; [done|lia]. Qed.

(** A property with a default reads back as its value. *)
Lemma read_receive_maximum n : is_nonzero_u16 n ->
  unwrap_or (find_prop As.ReceiveMaximum (omap visible [Property.ReceiveMaximum n])) u16_MAX = n.
Proof. intros. rewrite <- (default_u16 n) at 2 by solve_range. cbn. by destruct (n <? u16_MAX). Qed.

Lemma read_maximum_packet_size n : is_nonzero_u32 n ->
  unwrap_or (find_prop As.MaximumPacketSize (omap visible [Property.MaximumPacketSize n])) u32_MAX = n.
Proof. intros. rewrite <- (default_u32 n) at 2 by solve_range. cbn. by destruct (n <? u32_MAX). Qed.

Lemma read_topic_alias_maximum n : is_u16 n ->
  unwrap_or (find_prop As.TopicAliasMaximum (omap visible [Property.TopicAliasMaximum n])) 0 = n.
Proof. intros. rewrite <- (default_zero n) at 2 by solve_range. cbn. by destruct (n >? 0). Qed.

Lemma connack_of_to_props o :
  ConnAck.other_wf o -> ConnAck.of_props (omap visible (ConnAck.to_props o)) = Ok o.
Proof.
  intros Hwf. unfold ConnAck.of_props, Authentication.of_props, ConnAck.to_props, Authentication.to_props.
  props_read. rewrite authentication_of_parts. destruct Hwf as (?&?&?&?&?&?&?).
  rewrite read_receive_maximum, read_maximum_packet_size, read_topic_alias_maximum by done.
  destruct o as [? ? qos ra ? ? ? ? ? wa sa ia ? ? ? ?]. cbn. do 2 f_equal;
    [by destruct qos | by destruct ra | by destruct wa | by destruct sa | by destruct ia].
Qed.
Definition connack_order : list Property.variant :=
  [ Property.VSessionExpiryInterval; Property.VReceiveMaximum; Property.VMaximumQoS;
    Property.VRetainAvailable; Property.VMaximumPacketSize; Property.VAssignedClientIdentifier;
    Property.VTopicAliasMaximum; Property.VReasonString; Property.VWildcardSubscriptionAvailable;
    Property.VSharedSubscriptionAvailable; Property.VSubscriptionIdentifiersAvailable;
    Property.VServerKeepAlive; Property.VResponseInformation; Property.VServerReference;
    Property.VAuthenticationMethod; Property.VAuthenticationData ].

Lemma connack_props_wf o : ConnAck.other_wf o -> Forall prop_wf (ConnAck.to_props o).
Proof.
  intros (?&?&?&?&?&?&?&?&?&?&Ha). unfold ConnAck.to_props, Authentication.to_props.
  apply authentication_method_wf in Ha as Hm. apply authentication_data_wf in Ha. props_wf.
Qed.

Lemma connack_props_roundtrip o :
  wp (fun B BA dst => encode_all (H := BA) (ConnAck.to_props o) dst) (fun bs =>
    ConnAck.other_wf o -> forall rest, exists props,
      decode_properties ConnAck.bindings (bs ++ rest) = Ok (props, rest) /\
      ConnAck.of_props props = Ok o).
Proof.
  eapply wp_mono; [apply encode_all_wp|]. cbv beta. intros bs Hbs Hwf rest.
  exists (omap visible (ConnAck.to_props o)). split; [|by apply connack_of_to_props].
  rewrite Hbs by (by apply connack_props_wf). rewrite (accept_all _ _ connack_order); [done|..].
  - apply (bool_decide_unpack _). vm_compute. done.
  - apply (bool_decide_unpack _). vm_compute. done.
  - unfold ConnAck.to_props, Authentication.to_props, connack_order. props_accepted.
Qed.

Lemma connect_reason_range c v : is_u8 (ConnectReasonCode.to_u8 c v).
Proof. destruct v, c as [|[]]; cbn; solve_range. Qed.

Lemma connack_encode_wp v p flags :
  wp (fun B BA dst => ConnAck.encode p v dst) (fun bs =>
    ConnAck.wf v p -> ConnAck.decode flags bs v = Ok (p, [])).
Proof.
  destruct p as [rc o]. unfold ConnAck.encode, ConnAck.decode, ConnAck.wf.
  cbn [ConnAck.reason_code ConnAck.other_properties].
  apply wp_bind, put_u8_wp, wp_bind, put_u8_wp. destruct v; cbn [is_v5].
  - apply wp_ok. intros (Hr & ->).
    rewrite decode_bool_put, try_get_u8_put by apply connect_reason_range. by rewrite Hr.
  - eapply wp_mono; [apply connack_props_roundtrip|]. cbv beta. intros bs Hbs (Hr & Ho).
    rewrite decode_bool_put, try_get_u8_put by apply connect_reason_range. rewrite Hr.
    destruct (Hbs Ho []) as (props & Hd & Hof). rewrite app_nil_r in Hd. by rewrite Hd, Hof.
Qed.

Lemma connect_reason_wf b sp v c :
  ConnectReasonCode.try_from b sp v = Ok c ->
  ConnectReasonCode.try_from (ConnectReasonCode.to_u8 c v)
    (ConnectReasonCode.session_present c) v = Ok c.
Proof.
  unfold ConnectReasonCode.try_from at 1. intros E.
  destruct v; inv_ok E; try done; by destruct a.
Qed.

Lemma connack_of_props_wf props o :
  Forall prop_wf props -> ConnAck.of_props props = Ok o -> ConnAck.other_wf o.
Proof.
  intros Hp E. unfold ConnAck.of_props in E.
  destruct (Authentication.of_props props) as [a|] eqn:Ea; [|done].
  apply authentication_of_props_wf in Ea; [|done]. injection E as <-. unfold ConnAck.other_wf. cbn.
  assert (H1 : opt_wf is_nonzero_u16 (find_prop As.ReceiveMaximum props)) by prop_field.
  assert (H2 : opt_wf is_nonzero_u32 (find_prop As.MaximumPacketSize props)) by prop_field.
  assert (H3 : opt_wf is_u16 (find_prop As.TopicAliasMaximum props)) by prop_field.
  split; [prop_field|].
  split; [destruct (find_prop As.ReceiveMaximum props); [done|cbn; solve_range]|].
  split; [destruct (find_prop As.MaximumPacketSize props); [done|cbn; solve_range]|].
  split; [prop_field|].
  split; [destruct (find_prop As.TopicAliasMaximum props); [done|cbn; solve_range]|].
  repeat (split; [prop_field|]). done.
Qed.

Lemma connack_decode_wf flags src v p rest :
  bytes_ok src -> ConnAck.decode flags src v = Ok (p, rest) -> ConnAck.wf v p.
Proof.
  intros Hs E. unfold ConnAck.decode in E.
  destruct (decode_bool _ src) as [[sp s1]|] eqn:E1; [|done]. decode_facts.
  destruct (try_get_u8 s1) as [[b s2]|] eqn:E2; [|done]. decode_facts.
  destruct (ConnectReasonCode.try_from b sp v) as [rc|] eqn:E3; [|done].
  apply connect_reason_wf in E3. destruct v; [inv_ok E; by split|].
  destruct (decode_properties _ s2) as [[props s3]|] eqn:E4; [|done]. packet_facts.
  destruct (ConnAck.of_props props) as [o|] eqn:E5; [|done]. inv_ok E. split; [done|].
  by eapply connack_of_props_wf.
Qed.

(** *** DISCONNECT *)

Lemma disconnect_props_roundtrip o :
  wp (fun B BA dst => encode_all (H := BA) (Disconnect.to_props o) dst) (fun bs =>
    Disconnect.other_wf o -> forall rest, exists props,
      decode_properties Disconnect.bindings (bs ++ rest) = Ok (props, rest) /\
      Disconnect.of_props props = o).
Proof.
  eapply wp_mono; [apply encode_all_wp|]. cbv beta. intros bs Hbs Hwf rest.
  exists (omap visible (Disconnect.to_props o)). split.
  - rewrite Hbs by (destruct Hwf as (?&?&?&?); unfold Disconnect.to_props; props_wf).
    rewrite (accept_all _ _ [Property.VSessionExpiryInterval; Property.VReasonString;
      Property.VServerReference]); [done|..].
    + apply (bool_decide_unpack _). vm_compute. done.
    + apply (bool_decide_unpack _). vm_compute. done.
    + unfold Disconnect.to_props. props_accepted.
  - unfold Disconnect.of_props, Disconnect.to_props. props_read. by destruct o.
Qed.

Lemma disconnect_code c : DisconnectReasonCode.try_from (DisconnectReasonCode.to_u8 c) = Ok c.
Proof. exact (try_from_into c). Qed.

Lemma authenticate_code c : AuthenticateReasonCode.try_from (AuthenticateReasonCode.to_u8 c) = Ok c.
Proof. exact (try_from_into c). Qed.

Lemma disconnect_default o : Disconnect.has_properties o = false -> o = Disconnect.OtherProperties_default.
Proof. by destruct o as [[|] [|] [|] [|]]. Qed.

Lemma disconnect_encode_wp v p flags :
  wp (fun B BA dst => Disconnect.encode p v dst) (fun bs =>
    Disconnect.wf v p -> Disconnect.decode flags bs v = Ok (p, [])).
Proof.
  destruct p as [rc o]. unfold Disconnect.encode, Disconnect.decode, Disconnect.wf.
  cbn [Disconnect.reason_code Disconnect.other_properties]. destruct v; cbn [is_v5].
  { apply wp_ok. by intros [= -> ->]. }
  destruct (Disconnect.has_properties o) eqn:Eh.
  - rewrite orb_true_r. apply wp_bind, put_u8_wp.
    eapply wp_mono; [apply disconnect_props_roundtrip|]. cbv beta. intros bs Hbs Ho.
    rewrite try_get_u8_put by exact (into_u8_range rc).
    rewrite disconnect_code.
    destruct (Hbs Ho []) as (props & Hd & Hof). rewrite app_nil_r in Hd.
    destruct bs as [|x bs]; [done|]. rewrite len_cons. pose proof (len_nonneg bs).
    destruct (_ >=? _) eqn:E; [|rewrite Z.geb_leb in E; bool_to_prop; lia].
    by rewrite Hd, Hof.
  - rewrite orb_false_r. apply disconnect_default in Eh as ->.
    destruct (bool_decide_reflect (rc = DisconnectReasonCode.Normal)) as [->|Hne]; cbn [negb].
    + by apply wp_ok.
    + apply wp_bind, put_u8_wp, wp_ok. intros _.
      rewrite try_get_u8_put by exact (into_u8_range rc).
      by rewrite disconnect_code.
Qed.

Lemma disconnect_decode_wf flags src v p rest :
  bytes_ok src -> Disconnect.decode flags src v = Ok (p, rest) -> Disconnect.wf v p.
Proof.
  intros Hs E. unfold Disconnect.decode in E. destruct v; [by inv_ok E|].
  destruct (try_get_u8 src) as [[b s1]|e] eqn:E1; [|by destruct e; inv_ok E]. decode_facts.
  inv_ok E; [|done]. packet_facts.
  unfold Disconnect.wf, Disconnect.other_wf, Disconnect.of_props. cbn. split_and!; prop_field.
Qed.

(** *** AUTH *)

Lemma auth_encode_wp v p flags :
  wp (fun B BA dst => Auth.encode p v dst) (fun bs =>
    Auth.wf v p -> Auth.decode flags bs v = Ok (p, [])).
Proof.
  unfold Auth.encode, Auth.decode, Auth.wf. destruct v; [apply wp_err|].
  apply wp_bind, put_u8_wp. eapply wp_mono; [apply encode_all_wp|]. cbv beta.
  intros bs Hbs (_ & Ha & Hr & Hu).
  rewrite try_get_u8_put by exact (into_u8_range (Auth.reason_code p)).
  rewrite authenticate_code.
  apply authentication_method_wf in Ha as Hm. apply authentication_data_wf in Ha.
  specialize (Hbs ltac:(unfold Auth.to_props; props_wf) Auth.bindings []).
  rewrite app_nil_r in Hbs. rewrite Hbs, (accept_all _ _ [Property.VAuthenticationMethod;
    Property.VAuthenticationData; Property.VReasonString]).
  - unfold Authentication.of_props, Auth.to_props. props_read. rewrite authentication_of_parts.
    by destruct p.
  - apply (bool_decide_unpack _). vm_compute. done.
  - apply (bool_decide_unpack _). vm_compute. done.
  - unfold Auth.to_props. props_accepted.
Qed.

Lemma auth_decode_wf flags src v p rest :
  bytes_ok src -> Auth.decode flags src v = Ok (p, rest) -> Auth.wf v p.
Proof.
  intros Hs E. unfold Auth.decode in E. destruct v; [done|].
  destruct (try_get_u8 src) as [[b s1]|e] eqn:E1; [|by destruct e; inv_ok E]. decode_facts.
  destruct (AuthenticateReasonCode.try_from b); [|done].
  destruct (decode_properties _ s1) as [[props s2]|] eqn:E2; [|done]. packet_facts.
  destruct (Authentication.of_props props) as [au|] eqn:Ea; [|done].
  apply authentication_of_props_wf in Ea; [|done]. inv_ok E.
  split; [done|]. cbn. split; [done|]. split; prop_field.
Qed.
End control_laws.

#[export] Instance ConnAck_meta `{Unicode} : PacketMeta ConnAck.t := {
  PACKET_TYPE := 0x20;
  packet_decode := ConnAck.decode;
  packet_encode B BA := ConnAck.encode;
}.

#[export] Instance Disconnect_meta `{Unicode} : PacketMeta Disconnect.t := {
  PACKET_TYPE := 0xE0;
  packet_decode := Disconnect.decode;
  packet_encode B BA := Disconnect.encode;
}.

#[export] Instance Auth_meta `{Unicode} : PacketMeta Auth.t := {
  PACKET_TYPE := 0xF0;
  packet_decode := Auth.decode;
  packet_encode B BA := Auth.encode;
}.

#[export] Instance ConnAck_laws `{Unicode} : PacketLaws ConnAck.t.
Proof.
  refine {| packet_wf := ConnAck.wf; packet_flags _ := 0 |}.
  - intros v p. apply connack_encode_wp.
  - intros flags src v p rest Hs _. by apply connack_decode_wf.
Defined.

#[export] Instance Disconnect_laws `{Unicode} : PacketLaws Disconnect.t.
Proof.
  refine {| packet_wf := Disconnect.wf; packet_flags _ := 0 |}.
  - intros v p. apply disconnect_encode_wp.
  - intros flags src v p rest Hs _. by apply disconnect_decode_wf.
Defined.

#[export] Instance Auth_laws `{Unicode} : PacketLaws Auth.t.
Proof.
  refine {| packet_wf := Auth.wf; packet_flags _ := 0 |}.
  - intros v p. apply auth_encode_wp.
  - intros flags src v p rest Hs _. by apply auth_decode_wf.
Defined.
