(* ===== verification/Connect.v ===== *)
(** * CONNECT

    mqtt_proto/connect.rs. [decode_rest_v3] and [decode_rest_v5] are split at
    the pieces they share: the client identifier, the will, the user name and
    the password. *)

From S2P Require Export ConnAck.
Local Open Scope Z_scope.

Definition CONNECT_FLAGS_RESERVED : u8 := 1.
Definition CONNECT_FLAGS_CLEAN_SESSION : u8 := 2.
Definition CONNECT_FLAGS_WILL : u8 := 4.
Definition CONNECT_FLAGS_WILL_QOS : u8 := 24.
Definition CONNECT_FLAGS_WILL_RETAIN : u8 := 32.
Definition CONNECT_FLAGS_PASSWORD : u8 := 64.
Definition CONNECT_FLAGS_USERNAME : u8 := 128.

(** [PROTOCOL_NAME_STR = "MQTT"]. *)
Definition PROTOCOL_NAME_STR : str := [77; 81; 84; 84].

Module Connect.
(** [struct ConnectOtherProperties]. *)
Record OtherProperties : Set := mkOther {
  session_expiry_interval : SessionExpiryInterval.t;
  receive_maximum : u16;
  maximum_packet_size : u32;
  topic_alias_maximum : u16;
  request_response_information : bool;
  request_problem_information : bool;
  user_properties : list (ByteStr * ByteStr);
  authentication : option Authentication.t;
}.

(** [ConnectOtherProperties { session_expiry_interval, ..Default::default() }]. *)
Definition OtherProperties_with (interval : SessionExpiryInterval.t) : OtherProperties :=
  mkOther interval u16_MAX u32_MAX 0 false true [] None.

(** [impl Default for ConnectOtherProperties]. *)
Definition OtherProperties_default : OtherProperties :=
  OtherProperties_with (SessionExpiryInterval.Duration 0).

(** [struct Connect]. *)
Record t : Set := mk {
  username : option ByteStr;
  password : option BinaryData;
  will : option (Publication.t * u32);
  client_id : option ByteStr;
  clean_start : bool;
  keep_alive : KeepAlive.t;
  other_properties : OtherProperties;
}.

Definition bindings : list Binding :=
  [ Bind Property.VSessionExpiryInterval; Bind Property.VReceiveMaximum;
    Bind Property.VMaximumPacketSize; Bind Property.VTopicAliasMaximum;
    Bind Property.VRequestResponseInformation; Bind Property.VRequestProblemInformation;
    BindVecUserProperty; Bind Property.VAuthenticationMethod; Bind Property.VAuthenticationData ].

Definition of_props (props : list Property.t) : decode_result OtherProperties :=
  let? authentication := Authentication.of_props props in
  Ok (mkOther
    (unwrap_or (find_prop As.SessionExpiryInterval props) (SessionExpiryInterval.Duration 0))
    (unwrap_or (find_prop As.ReceiveMaximum props) u16_MAX)
    (unwrap_or (find_prop As.MaximumPacketSize props) u32_MAX)
    (unwrap_or (find_prop As.TopicAliasMaximum props) 0)
    (unwrap_or (find_prop As.RequestResponseInformation props) false)
    (unwrap_or (find_prop As.RequestProblemInformation props) true)
    (filter_props As.UserProperty props)
    authentication).

Definition to_props (o : OtherProperties) : list Property.t :=
  [Property.ConnectSessionExpiryInterval (session_expiry_interval o)]
  ++ [Property.ReceiveMaximum (receive_maximum o)]
  ++ [Property.MaximumPacketSize (maximum_packet_size o)]
  ++ [Property.TopicAliasMaximum (topic_alias_maximum o)]
  ++ [Property.RequestResponseInformation (request_response_information o)]
  ++ [Property.RequestProblemInformation (request_problem_information o)]
  ++ user_props (user_properties o)
  ++ Authentication.to_props (authentication o).

Definition will_bindings : list Binding :=
  [ Bind Property.VWillDelayInterval; Bind Property.VPayloadIsUtf8;
    Bind Property.VMessageExpiryInterval; Bind Property.VContentType;
    Bind Property.VResponseTopic; Bind Property.VCorrelationData; BindVecUserProperty ].

Definition will_of_props (props : list Property.t) : Publication.OtherProperties * u32 :=
  (Publication.mkOther
     (unwrap_or (find_prop As.PayloadIsUtf8 props) false)
     (find_prop As.MessageExpiryInterval props)
     (find_prop As.ResponseTopic props)
     (find_prop As.CorrelationData props)
     (filter_props As.UserProperty props)
     (find_prop As.ContentType props),
   unwrap_or (find_prop As.WillDelayInterval props) 0).

Definition will_to_props (o : Publication.OtherProperties) (will_delay_interval : u32) :
    list Property.t :=
  [Property.WillDelayInterval will_delay_interval]
  ++ [Property.PayloadIsUtf8 (Publication.payload_is_utf8 o)]
  ++ opt_prop Property.MessageExpiryInterval (Publication.message_expiry_interval o)
  ++ opt_prop Property.ContentType (Publication.content_type o)
  ++ opt_prop Property.ResponseTopic (Publication.response_topic o)
  ++ opt_prop Property.CorrelationData (Publication.correlation_data o)
  ++ user_props (Publication.user_properties o).

(** The properties of a v3 will. *)
Definition will_default : Publication.OtherProperties := Publication.mkOther false None None None [] None.

Definition has_flag (connect_flags mask : u8) : bool := negb (Z.land connect_flags mask =? 0).

Section decode.
Context `{Unicode}.

(** [decode_start]. *)
Definition decode_start (flags : u8) (src : Shared) : decode_result (ProtocolVersion * Shared) :=
  if negb (flags =? 0) then Err (DecodeError.UnrecognizedPacket 0x10 flags (len src))
  else
    let? (protocol_name, src) := get_byte_str src in
    if negb (str_eqb (as_ref protocol_name) PROTOCOL_NAME_STR) then
      Err (DecodeError.UnrecognizedProtocolName (as_ref protocol_name))
    else
      let? (b, src) := try_get_u8 src in
      match b with
      | 0x04 => Ok (V3, src)
      | 0x05 => Ok (V5, src)
      | protocol_version => Err (DecodeError.UnrecognizedProtocolVersion protocol_version)
      end.

(** The client identifier; an empty one is none. *)
Definition decode_client_id (src : Shared) : decode_result (option ByteStr * Shared) :=
  let? (client_id, src) := get_byte_str src in
  Ok (if negb (ByteStr_is_empty client_id) then Some client_id else None, src).

Definition decode_will_qos (connect_flags : u8) : decode_result QoS.t :=
  match Z.land connect_flags CONNECT_FLAGS_WILL_QOS with
  | 0x00 => Ok QoS.AtMostOnce
  | 0x08 => Ok QoS.AtLeastOnce
  | 0x10 => Ok QoS.ExactlyOnce
  | qos => Err (DecodeError.UnrecognizedQoS (Z.shiftr qos 3))
  end.

(** The topic and payload of a will whose properties were read. *)
Definition decode_will_message (connect_flags : u8) (o : Publication.OtherProperties * u32)
    (src : Shared) : decode_result (option (Publication.t * u32) * Shared) :=
  let? (topic_name, src) := get_topic src in
  let? qos := decode_will_qos connect_flags in
  let retain := has_flag connect_flags CONNECT_FLAGS_WILL_RETAIN in
  let? (payload, src) := get_binary_data src in
  let payload := drop 2 (bd_shared payload) in
  Ok (Some (Publication.mk topic_name qos retain payload (fst o), snd o), src).

Definition decode_will_v3 (connect_flags : u8) (src : Shared) :
    decode_result (option (Publication.t * u32) * Shared) :=
  if Z.land connect_flags CONNECT_FLAGS_WILL =? 0 then
    if has_flag connect_flags (Z.lor CONNECT_FLAGS_WILL_QOS CONNECT_FLAGS_WILL_RETAIN)
    then Err DecodeError.WillPropertiesFlagsSetButNotWillFlag
    else Ok (None, src)
  else decode_will_message connect_flags (will_default, 0) src.

Definition decode_will_v5 (connect_flags : u8) (src : Shared) :
    decode_result (option (Publication.t * u32) * Shared) :=
  if Z.land connect_flags CONNECT_FLAGS_WILL =? 0 then
    if has_flag connect_flags (Z.lor CONNECT_FLAGS_WILL_QOS CONNECT_FLAGS_WILL_RETAIN)
    then Err DecodeError.WillPropertiesFlagsSetButNotWillFlag
    else Ok (None, src)
  else
    let? (props, src) := decode_properties will_bindings src in
    decode_will_message connect_flags (will_of_props props) src.

Definition decode_username (connect_flags : u8) (src : Shared) :
    decode_result (option ByteStr * Shared) :=
  if Z.land connect_flags CONNECT_FLAGS_USERNAME =? 0 then Ok (None, src)
  else let? (s, src) := get_byte_str src in Ok (Some s, src).

Definition decode_password (connect_flags : u8) (src : Shared) :
    decode_result (option BinaryData * Shared) :=
  if Z.land connect_flags CONNECT_FLAGS_PASSWORD =? 0 then Ok (None, src)
  else let? (s, src) := get_binary_data src in Ok (Some s, src).

(** [Connect::decode_rest_v3]. *)
Definition decode_rest_v3 (src : Shared) : decode_result (t * Shared) :=
  let? (connect_flags, src) := try_get_u8 src in
  if has_flag connect_flags CONNECT_FLAGS_RESERVED then Err DecodeError.ConnectReservedSet
  else if Z.land connect_flags (Z.lor CONNECT_FLAGS_USERNAME CONNECT_FLAGS_PASSWORD) =? 64 then
    Err DecodeError.ConnectPasswordFlagSetButNotUsernameFlag
  else
    let? (keep_alive, src) := try_get_u16_be src in
    let keep_alive := KeepAlive.from_u16 keep_alive in
    let? (client_id, src) := decode_client_id src in
    let clean_start := has_flag connect_flags CONNECT_FLAGS_CLEAN_SESSION in
    if negb (is_some client_id) && negb clean_start then
      Err DecodeError.ConnectZeroLengthIdWithExistingSession
    else
      let? (will, src) := decode_will_v3 connect_flags src in
      let? (username, src) := decode_username connect_flags src in
      let? (password, src) := decode_password connect_flags src in
      let session_expiry_interval :=
        if clean_start then SessionExpiryInterval.Duration 0 else SessionExpiryInterval.Infinite in
      Ok (mk username password will client_id clean_start keep_alive
            (OtherProperties_with session_expiry_interval), src).

(** [Connect::decode_rest_v5]. *)
Definition decode_rest_v5 (src : Shared) : decode_result (t * Shared) :=
  let? (connect_flags, src) := try_get_u8 src in
  if has_flag connect_flags CONNECT_FLAGS_RESERVED then Err DecodeError.ConnectReservedSet
  else
    let? (keep_alive, src) := try_get_u16_be src in
    let keep_alive := KeepAlive.from_u16 keep_alive in
    let? (props, src) := decode_properties bindings src in
    let? (client_id, src) := decode_client_id src in
    let clean_start := has_flag connect_flags CONNECT_FLAGS_CLEAN_SESSION in
    let? (will, src) := decode_will_v5 connect_flags src in
    let? (username, src) := decode_username connect_flags src in
    let? (password, src) := decode_password connect_flags src in
    let? other_properties := of_props props in
    Ok (mk username password will client_id clean_start keep_alive other_properties, src).

(** [Connect::decode_any_version]. *)
Definition decode_any_version (flags : u8) (src : Shared) :
    decode_result (t * ProtocolVersion * Shared) :=
  let? (version, src) := decode_start flags src in
  let? (p, src) :=
    match version with V3 => decode_rest_v3 src | V5 => decode_rest_v5 src end in
  Ok (p, version, src).

(** [Connect::decode]. *)
Definition decode (flags : u8) (src : Shared) (version : ProtocolVersion) :
    decode_result (t * Shared) :=
  let? (actual_version, src) := decode_start flags src in
  if negb (bool_decide (actual_version = version)) then
    Err (DecodeError.UnrecognizedProtocolVersion (ProtocolVersion_to_u8 actual_version))
  else match version with V3 => decode_rest_v3 src | V5 => decode_rest_v5 src end.
End decode.

(** The CONNECT flags byte that [encode] computes. *)
Definition connect_flags (p : t) : u8 :=
  let flags := 0 in
  let flags := if is_some (username p) then Z.lor flags CONNECT_FLAGS_USERNAME else flags in
  let flags := if is_some (password p) then Z.lor flags CONNECT_FLAGS_PASSWORD else flags in
  let flags :=
    match will p with
    | Some (will, _) =>
        let flags := Z.lor flags CONNECT_FLAGS_WILL in
        let flags :=
          if Publication.retain will then Z.lor flags CONNECT_FLAGS_WILL_RETAIN else flags in
        Z.lor flags (Z.shiftl (QoS.to_u8 (Publication.qos will)) 3)
    | None => flags
    end in
  if clean_start p then Z.lor flags CONNECT_FLAGS_CLEAN_SESSION else flags.

Section encode.
Context {B : Type} `{BytesAccumulator B}.

Definition put_slice (src : list u8) (dst : B) : encode_result B :=
  ok_or (try_put_slice src dst) EncodeError.InsufficientBuffer.

Definition encode_client_id (client_id : option ByteStr) (dst : B) : encode_result B :=
  match client_id with
  | Some id => ByteStr_encode id dst
  | None => put_slice BinaryData_EMPTY dst
  end.

Definition encode_will (will : option (Publication.t * u32)) (version : ProtocolVersion) (dst : B) :
    encode_result B :=
  match will with
  | None => Ok dst
  | Some (will, will_delay_interval) =>
      let? dst :=
        if is_v5 version
        then encode_all (will_to_props (Publication.other_properties will) will_delay_interval) dst
        else Ok dst in
      let? dst := Topic_encode (Publication.topic_name will) dst in
      let will_len := len (Publication.payload will) in
      if will_len >? u16_MAX then Err (EncodeError.WillTooLarge will_len)
      else
        let? dst := put_u16 will_len dst in
        Ok (put_shared (Publication.payload will) dst)
  end.

Definition encode_username (username : option ByteStr) (dst : B) : encode_result B :=
  match username with Some username => ByteStr_encode username dst | None => Ok dst end.

Definition encode_password (password : option BinaryData) (dst : B) : encode_result B :=
  match password with Some password => BinaryData_encode password dst | None => Ok dst end.

(** [Connect::encode]. *)
Definition encode (p : t) (version : ProtocolVersion) (dst : B) : encode_result B :=
  let? dst := put_slice PROTOCOL_NAME dst in
  let? dst := put_u8 (ProtocolVersion_to_u8 version) dst in
  if is_v3 version && negb (is_some (username p)) && is_some (password p) then
    Err EncodeError.ConnectPasswordWithoutUsername
  else
    let? dst := put_u8 (connect_flags p) dst in
    let? dst := put_u16 (KeepAlive.to_u16 (keep_alive p)) dst in
    let? dst :=
      if is_v5 version then encode_all (to_props (other_properties p)) dst else Ok dst in
    let? dst := encode_client_id (client_id p) dst in
    let? dst := encode_will (will p) version dst in
    let? dst := encode_username (username p) dst in
    encode_password (password p) dst.
End encode.

Definition other_wf `{Unicode} (o : OtherProperties) : Prop :=
  SessionExpiryInterval.wf (session_expiry_interval o) /\ is_nonzero_u16 (receive_maximum o) /\
  is_nonzero_u32 (maximum_packet_size o) /\ is_u16 (topic_alias_maximum o) /\
  Forall user_wf (user_properties o) /\ opt_wf Authentication.wf (authentication o).

Definition will_wf `{Unicode} (v : ProtocolVersion) (w : Publication.t * u32) : Prop :=
  let o := Publication.other_properties (fst w) in
  topic_wf (Publication.topic_name (fst w)) /\ bytes_ok (Publication.payload (fst w)) /\
  match v with
  | V3 => o = will_default /\ snd w = 0
  | V5 =>
      is_u32 (snd w) /\ opt_wf is_u32 (Publication.message_expiry_interval o) /\
      opt_wf bs_wf (Publication.content_type o) /\ opt_wf topic_wf (Publication.response_topic o) /\
      opt_wf bd_wf (Publication.correlation_data o) /\ Forall user_wf (Publication.user_properties o)
  end.

(** A v3 CONNECT has no properties, no password without a user name, and a
    client identifier unless the session is clean. *)
Definition wf `{Unicode} (v : ProtocolVersion) (p : t) : Prop :=
  opt_wf bs_wf (username p) /\ opt_wf bd_wf (password p) /\ opt_wf (will_wf v) (will p) /\
  opt_wf (fun s => bs_wf s /\ ByteStr_is_empty s = false) (client_id p) /\
  KeepAlive.wf (keep_alive p) /\
  match v with
  | V3 =>
      (is_some (client_id p) = false -> clean_start p = true) /\
      other_properties p = OtherProperties_with
        (if clean_start p then SessionExpiryInterval.Duration 0 else SessionExpiryInterval.Infinite)
  | V5 => other_wf (other_properties p)
  end.
End Connect.

(** ** The flags byte *)

Section flags.
Variable p : Connect.t.

(** The flags byte depends on which fields are present only. *)
Ltac flags_cases :=
  destruct p as [u pw w ? cs ? ?]; destruct u, pw, w as [[[? q r ? ?] ?]|], cs;
  try destruct q; try destruct r; reflexivity.

Lemma connect_flags_range : is_u8 (Connect.connect_flags p).
Proof.
  assert (H : (0 <=? Connect.connect_flags p) && (Connect.connect_flags p <=? 255) = true) by flags_cases.
  bool_to_prop. solve_range.
Qed.

Lemma connect_flags_reserved : Connect.has_flag (Connect.connect_flags p) CONNECT_FLAGS_RESERVED = false.
Proof. flags_cases. Qed.

Lemma connect_flags_clean :
  Connect.has_flag (Connect.connect_flags p) CONNECT_FLAGS_CLEAN_SESSION = Connect.clean_start p.
Proof. flags_cases. Qed.

Lemma connect_flags_will :
  (Z.land (Connect.connect_flags p) CONNECT_FLAGS_WILL =? 0) = negb (is_some (Connect.will p)).
Proof. flags_cases. Qed.

Lemma connect_flags_no_will :
  Connect.will p = None ->
  Connect.has_flag (Connect.connect_flags p)
    (Z.lor CONNECT_FLAGS_WILL_QOS CONNECT_FLAGS_WILL_RETAIN) = false.
Proof.
  destruct p as [u pw w ? cs ? ?]. cbn [Connect.will]. intros ->. destruct u, pw, cs; reflexivity.
Qed.

Lemma connect_flags_will_qos w :
  Connect.will p = Some w ->
  Connect.decode_will_qos (Connect.connect_flags p) = Ok (Publication.qos (fst w)).
Proof.
  destruct p as [u pw w' ? cs ? ?], w as [[? q r ? ?] ?]. cbn [Connect.will]. intros ->.
  destruct u, pw, cs, q, r; reflexivity.
Qed.

Lemma connect_flags_will_retain w :
  Connect.will p = Some w ->
  Connect.has_flag (Connect.connect_flags p) CONNECT_FLAGS_WILL_RETAIN = Publication.retain (fst w).
Proof.
  destruct p as [u pw w' ? cs ? ?], w as [[? q r ? ?] ?]. cbn [Connect.will]. intros ->.
  destruct u, pw, cs, q, r; reflexivity.
Qed.

Lemma connect_flags_username :
  (Z.land (Connect.connect_flags p) CONNECT_FLAGS_USERNAME =? 0) = negb (is_some (Connect.username p)).
Proof. flags_cases. Qed.

Lemma connect_flags_password :
  (Z.land (Connect.connect_flags p) CONNECT_FLAGS_PASSWORD =? 0) = negb (is_some (Connect.password p)).
Proof. flags_cases. Qed.

Lemma connect_flags_password_only :
  (Z.land (Connect.connect_flags p) (Z.lor CONNECT_FLAGS_USERNAME CONNECT_FLAGS_PASSWORD) =? 64)
  = negb (is_some (Connect.username p)) && is_some (Connect.password p).
Proof. flags_cases. Qed.
End flags.

Lemma put_slice_wp src (Q : list u8 -> Prop) :
  Q src -> wp (fun B BA dst => Connect.put_slice (H := BA) src dst) Q.
Proof. apply (wp_put1 (PutSlice _ _)). Qed.

(** ** Round trip of the pieces *)

Section connect_laws.
Context `{Unicode}.

Lemma connect_props_wf o : Connect.other_wf o -> Forall prop_wf (Connect.to_props o).
Proof.
  intros (?&?&?&?&?&Ha). unfold Connect.to_props, Authentication.to_props.
  apply authentication_method_wf in Ha as Hm. apply authentication_data_wf in Ha. props_wf.
Qed.

Lemma read_connect_session_expiry i : SessionExpiryInterval.wf i ->
  unwrap_or (find_prop As.SessionExpiryInterval
    (omap visible [Property.ConnectSessionExpiryInterval i])) (SessionExpiryInterval.Duration 0) = i.
Proof.
  intros Hi. cbn. rewrite Z.gtb_ltb. destruct (0 <? _) eqn:E; cbn; [done|]. bool_to_prop.
  destruct i as [|n]; cbn in *; [unfold u32_MAX in *; lia|]. f_equal. lia.
Qed.

Lemma connect_of_to_props o :
  Connect.other_wf o -> Connect.of_props (omap visible (Connect.to_props o)) = Ok o.
Proof.
  intros Hwf. unfold Connect.of_props, Authentication.of_props, Connect.to_props, Authentication.to_props.
  props_read. rewrite authentication_of_parts. destruct Hwf as (?&?&?&?&?).
  rewrite read_connect_session_expiry, read_receive_maximum, read_maximum_packet_size,
    read_topic_alias_maximum by done.
  destruct o as [? ? ? ? rr rp ? ?]. cbn. do 2 f_equal; [by destruct rr | by destruct rp].
Qed.

Lemma connect_props_roundtrip o :
  wp (fun B BA dst => encode_all (H := BA) (Connect.to_props o) dst) (fun bs =>
    Connect.other_wf o -> forall rest, exists props,
      decode_properties Connect.bindings (bs ++ rest) = Ok (props, rest) /\
      Connect.of_props props = Ok o).
Proof.
  eapply wp_mono; [apply encode_all_wp|]. cbv beta. intros bs Hbs Hwf rest.
  exists (omap visible (Connect.to_props o)). split; [|by apply connect_of_to_props].
  rewrite Hbs by (by apply connect_props_wf).
  rewrite (accept_all _ _ [Property.VSessionExpiryInterval; Property.VReceiveMaximum;
    Property.VMaximumPacketSize; Property.VTopicAliasMaximum; Property.VRequestResponseInformation;
    Property.VRequestProblemInformation; Property.VAuthenticationMethod;
    Property.VAuthenticationData]); [done|..].
  - apply (bool_decide_unpack _). vm_compute. done.
  - apply (bool_decide_unpack _). vm_compute. done.
  - unfold Connect.to_props, Authentication.to_props. props_accepted.
Qed.

Lemma client_id_roundtrip id :
  wp (fun B BA dst => Connect.encode_client_id (H := BA) id dst) (fun bs =>
    opt_wf (fun s => bs_wf s /\ ByteStr_is_empty s = false) id -> forall rest,
    Connect.decode_client_id (bs ++ rest) = Ok (id, rest)).
Proof.
  unfold Connect.encode_client_id, Connect.decode_client_id. destruct id as [s|].
  - apply ByteStr_encode_wp. intros [Hs He] rest. rewrite get_byte_str_put by done. by rewrite He.
  - apply put_slice_wp. intros _ rest.
    set (s := mkByteStr (mkBinaryData BinaryData_EMPTY)).
    assert (Hs : bs_wf s).
    { split; [|done]. exists []. rewrite len_nil. split; [done|]. split; [solve_range|constructor]. }
    by rewrite (get_byte_str_put s rest Hs : get_byte_str (BinaryData_EMPTY ++ rest) = _).
Qed.

Lemma username_roundtrip p :
  wp (fun B BA dst => Connect.encode_username (H := BA) (Connect.username p) dst) (fun bs =>
    opt_wf bs_wf (Connect.username p) -> forall rest,
    Connect.decode_username (Connect.connect_flags p) (bs ++ rest) = Ok (Connect.username p, rest)).
Proof.
  unfold Connect.encode_username, Connect.decode_username. rewrite connect_flags_username.
  destruct (Connect.username p) as [s|]; cbn [is_some negb]; [|by apply wp_ok].
  apply ByteStr_encode_wp. intros Hs rest. by rewrite get_byte_str_put.
Qed.

Lemma password_roundtrip p :
  wp (fun B BA dst => Connect.encode_password (H := BA) (Connect.password p) dst) (fun bs =>
    opt_wf bd_wf (Connect.password p) -> forall rest,
    Connect.decode_password (Connect.connect_flags p) (bs ++ rest) = Ok (Connect.password p, rest)).
Proof.
  unfold Connect.encode_password, Connect.decode_password. rewrite connect_flags_password.
  destruct (Connect.password p) as [s|]; cbn [is_some negb]; [|by apply wp_ok].
  apply BinaryData_encode_wp. intros Hs rest. by rewrite get_binary_data_put.
Qed.

Lemma read_will_delay n : is_u32 n ->
  unwrap_or (find_prop As.WillDelayInterval (omap visible [Property.WillDelayInterval n])) 0 = n.
Proof. intros. rewrite <- (default_zero n) at 2 by solve_range. cbn. by destruct (n >? 0). Qed.

Lemma will_props_roundtrip w d :
  wp (fun B BA dst => encode_all (H := BA) (Connect.will_to_props w d) dst) (fun bs =>
    is_u32 d /\ opt_wf is_u32 (Publication.message_expiry_interval w) /\
    opt_wf bs_wf (Publication.content_type w) /\ opt_wf topic_wf (Publication.response_topic w) /\
    opt_wf bd_wf (Publication.correlation_data w) /\ Forall user_wf (Publication.user_properties w) ->
    forall rest, exists props,
      decode_properties Connect.will_bindings (bs ++ rest) = Ok (props, rest) /\
      Connect.will_of_props props = (w, d)).
Proof.
  eapply wp_mono; [apply encode_all_wp|]. cbv beta. intros bs Hbs (?&?&?&?&?&?) rest.
  exists (omap visible (Connect.will_to_props w d)). split.
  - rewrite Hbs by (unfold Connect.will_to_props; props_wf).
    rewrite (accept_all _ _ [Property.VWillDelayInterval; Property.VPayloadIsUtf8;
      Property.VMessageExpiryInterval; Property.VContentType; Property.VResponseTopic;
      Property.VCorrelationData]); [done|..].
    + apply (bool_decide_unpack _). vm_compute. done.
    + apply (bool_decide_unpack _). vm_compute. done.
    + unfold Connect.will_to_props. props_accepted.
  - unfold Connect.will_of_props, Connect.will_to_props. props_read.
    rewrite read_will_delay by done. destruct w as [utf8 ? ? ? ? ?]. cbn.
    do 2 f_equal. by destruct utf8.
Qed.

(** Topic and payload of the will. *)
Lemma will_message_roundtrip p w rest :
  Connect.will p = Some w -> topic_wf (Publication.topic_name (fst w)) ->
  bytes_ok (Publication.payload (fst w)) -> is_u16 (len (Publication.payload (fst w))) ->
  Connect.decode_will_message (Connect.connect_flags p)
    (Publication.other_properties (fst w), snd w)
    (bd_shared (bs_data (topic_inner (Publication.topic_name (fst w)))) ++
     to_be_bytes 2 (len (Publication.payload (fst w))) ++ Publication.payload (fst w) ++ rest)
  = Ok (Some w, rest).
Proof.
  intros Hw Ht Hb Hl. unfold Connect.decode_will_message. rewrite get_topic_put by done.
  rewrite (connect_flags_will_qos p w Hw), (connect_flags_will_retain p w Hw).
  set (d := mkBinaryData (to_be_bytes 2 (len (Publication.payload (fst w)))
    ++ Publication.payload (fst w))).
  assert (Hd : bd_wf d) by (by exists (Publication.payload (fst w))).
  rewrite (app_assoc (to_be_bytes 2 _)).
  rewrite (get_binary_data_put d rest Hd : get_binary_data ((_ ++ _) ++ _) = _).
  change (drop 2 (bd_shared d)) with (Publication.payload (fst w)).
  by destruct w as [[] ?].
Qed.

Definition decode_will (v : ProtocolVersion) : u8 -> Shared -> decode_result (option (Publication.t * u32) * Shared) :=
  match v with V3 => Connect.decode_will_v3 | V5 => Connect.decode_will_v5 end.

Lemma will_roundtrip v p :
  wp (fun B BA dst => Connect.encode_will (H := BA) (Connect.will p) v dst) (fun bs =>
    opt_wf (Connect.will_wf v) (Connect.will p) -> forall rest,
    decode_will v (Connect.connect_flags p) (bs ++ rest) = Ok (Connect.will p, rest)).
Proof.
  unfold Connect.encode_will. destruct (Connect.will p) as [[w d]|] eqn:Ew.
  2:{ apply wp_ok. intros _ rest.
      destruct v; cbn [decode_will]; unfold Connect.decode_will_v3, Connect.decode_will_v5;
        by rewrite connect_flags_will, connect_flags_no_will, Ew. }
  apply wp_bind.
  apply (wp_mono _ (fun bs => Connect.will_wf v (w, d) -> forall rest,
    decode_will v (Connect.connect_flags p) (bs ++ rest)
    = Connect.decode_will_message (Connect.connect_flags p) (Publication.other_properties w, d) rest)).
  { destruct v; cbn [decode_will is_v5]; unfold Connect.decode_will_v3, Connect.decode_will_v5;
      rewrite connect_flags_will, Ew; cbn [is_some negb].
    - apply wp_ok. intros (_ & _ & Ho & Hd) rest. cbn in Ho, Hd. by rewrite Ho, Hd.
    - eapply wp_mono; [apply will_props_roundtrip|]. cbv beta. intros bs Hbs (_ & _ & Ho) rest.
      destruct (Hbs Ho rest) as (props & -> & ->). done. }
  cbv beta. intros bp Hbp. apply wp_bind, Topic_encode_wp.
  destruct (len (Publication.payload w) >? u16_MAX) eqn:El; [apply wp_err|].
  apply wp_bind, put_u16_wp, wp_put_shared_ok. intros Hwf rest.
  rewrite <- !app_assoc, Hbp by done. destruct Hwf as (Ht & Hb & _). cbn in Ht, Hb.
  apply (will_message_roundtrip p (w, d)); [done..|]. cbn. rewrite Z.gtb_ltb in El. bool_to_prop.
  pose proof (len_nonneg (Publication.payload w)). solve_range.
Qed.
End connect_laws.

(** ** Round trip of the packet *)

Section connect_packet.
Context `{UnicodeLaws}.

Lemma protocol_name_decode rest :
  get_byte_str (PROTOCOL_NAME ++ rest) = Ok (mkByteStr (mkBinaryData PROTOCOL_NAME), rest).
Proof.
  apply (get_byte_str_put (mkByteStr (mkBinaryData PROTOCOL_NAME))). split.
  - exists PROTOCOL_NAME_STR. split; [done|]. split; [vm_compute; split; discriminate|].
    unfold PROTOCOL_NAME_STR. repeat (constructor; [solve_range|]). constructor.
  - apply validate_printable. unfold as_ref, ByteStr_as_ref. cbn. repeat constructor; lia.
Qed.

Lemma decode_start_put v rest :
  Connect.decode_start 0 (PROTOCOL_NAME ++ to_be_bytes 1 (ProtocolVersion_to_u8 v) ++ rest)
  = Ok (v, rest).
Proof.
  unfold Connect.decode_start. cbn [Z.eqb negb]. rewrite protocol_name_decode.
  replace (str_eqb _ PROTOCOL_NAME_STR) with true by (symmetry; by apply str_eqb_eq). cbn [negb].
  rewrite try_get_u8_put by (destruct v; vm_compute; split; discriminate). by destruct v.
Qed.

Lemma connect_encode_wp v p :
  wp (fun B BA dst => Connect.encode p v dst) (fun bs =>
    Connect.wf v p -> Connect.decode 0 bs v = Ok (p, [])).
Proof.
  unfold Connect.encode, Connect.decode.
  apply wp_bind, put_slice_wp, wp_bind, put_u8_wp.
  destruct (is_v3 v && negb (is_some (Connect.username p)) && is_some (Connect.password p)) eqn:Ep;
    [apply wp_err|].
  apply wp_bind, put_u8_wp, wp_bind, put_u16_wp, wp_bind.
  apply (wp_mono _ (fun bs => Connect.wf v p -> forall rest,
    match v with
    | V3 => bs = []
    | V5 => exists props, decode_properties Connect.bindings (bs ++ rest) = Ok (props, rest) /\
              Connect.of_props props = Ok (Connect.other_properties p)
    end)).
  { destruct v; cbn [is_v5]; [by apply wp_ok|]. eapply wp_mono; [apply connect_props_roundtrip|].
    cbv beta. intros bs Hbs (_&_&_&_&_&Ho) rest. by apply Hbs. }
  cbv beta. intros bo Hbo.
  apply wp_bind. eapply wp_mono; [apply client_id_roundtrip|]. cbv beta. intros bc Hbc.
  apply wp_bind. eapply wp_mono; [apply will_roundtrip|]. cbv beta. intros bw Hbw.
  apply wp_bind. eapply wp_mono; [apply username_roundtrip|]. cbv beta. intros bu Hbu.
  eapply wp_mono; [apply password_roundtrip|]. cbv beta. intros bpw Hbp Hwf.
  specialize (Hbo Hwf (bc ++ bw ++ bu ++ bpw)). destruct Hwf as (Hu & Hp & Hw & Hc & Hk & Hv).
  specialize (Hbc Hc). specialize (Hbw Hw). specialize (Hbu Hu). specialize (Hbp Hp []).
  rewrite app_nil_r in Hbp.
  rewrite decode_start_put. rewrite bool_decide_eq_true_2 by done. cbn [negb].
  destruct v; unfold Connect.decode_rest_v3, Connect.decode_rest_v5;
    rewrite try_get_u8_put by apply connect_flags_range;
    rewrite connect_flags_reserved, ?connect_flags_password_only, connect_flags_clean;
    cbn [is_v3 andb] in Ep; rewrite ?Ep; rewrite try_get_u16_be_put by (by apply KeepAlive_to_u16_range);
    rewrite KeepAlive_roundtrip by done.
  - subst bo. cbn [app]. rewrite Hbc. destruct Hv as [Hcl Ho].
    destruct (negb (is_some (Connect.client_id p)) && negb (Connect.clean_start p)) eqn:Ec.
    { bool_to_prop. rewrite Hcl in * by done. done. }
    cbn [decode_will] in Hbw. rewrite Hbw, Hbu, Hbp, <- Ho. by destruct p.
  - destruct Hbo as (props & Hd & Hof). rewrite Hd, Hbc.
    cbn [decode_will] in Hbw. rewrite Hbw, Hbu, Hbp, Hof. by destruct p.
Qed.

(** ** What decoding guarantees *)

Lemma decode_client_id_ok src id rest :
  bytes_ok src -> Connect.decode_client_id src = Ok (id, rest) ->
  opt_wf (fun s => bs_wf s /\ ByteStr_is_empty s = false) id /\ bytes_ok rest.
Proof.
  intros Hs E. unfold Connect.decode_client_id in E.
  destruct (get_byte_str src) as [[s r]|] eqn:E1; [|done]. decode_facts.
  destruct (ByteStr_is_empty s) eqn:Ee; inv_ok E; done.
Qed.

Lemma decode_username_ok f src u rest :
  bytes_ok src -> Connect.decode_username f src = Ok (u, rest) -> opt_wf bs_wf u /\ bytes_ok rest.
Proof. intros Hs E. unfold Connect.decode_username in E. inv_ok E; decode_facts; done. Qed.

Lemma decode_password_ok f src u rest :
  bytes_ok src -> Connect.decode_password f src = Ok (u, rest) -> opt_wf bd_wf u /\ bytes_ok rest.
Proof. intros Hs E. unfold Connect.decode_password in E. inv_ok E; decode_facts; done. Qed.

Lemma bytes_ok_as_bytes d : bd_wf d -> bytes_ok (drop 2 (bd_shared d)).
Proof. intros Hd. apply bytes_ok_drop. by apply bd_wf_bytes. Qed.

Lemma decode_will_message_ok f o src w rest :
  bytes_ok src -> Connect.decode_will_message f o src = Ok (w, rest) ->
  bytes_ok rest /\ exists pub, w = Some (pub, snd o) /\ topic_wf (Publication.topic_name pub) /\
    bytes_ok (Publication.payload pub) /\ Publication.other_properties pub = fst o.
Proof.
  intros Hs E. unfold Connect.decode_will_message in E.
  destruct (get_topic src) as [[t s1]|] eqn:E1; [|done]. decode_facts.
  destruct (Connect.decode_will_qos f); [|done].
  destruct (get_binary_data s1) as [[d s2]|] eqn:E2; [|done]. decode_facts. inv_ok E.
  split; [done|]. eexists. split; [done|]. cbn. auto using bytes_ok_as_bytes.
Qed.

Lemma decode_will_v3_ok f src w rest :
  bytes_ok src -> Connect.decode_will_v3 f src = Ok (w, rest) ->
  opt_wf (Connect.will_wf V3) w /\ bytes_ok rest.
Proof.
  intros Hs E. unfold Connect.decode_will_v3 in E.
  destruct (_ =? 0); [by inv_ok E|].
  apply decode_will_message_ok in E as (Hr & pub & -> & Ht & Hb & Ho); [|done].
  split; [|done]. split_and!; done.
Qed.

Lemma decode_will_v5_ok f src w rest :
  bytes_ok src -> Connect.decode_will_v5 f src = Ok (w, rest) ->
  opt_wf (Connect.will_wf V5) w /\ bytes_ok rest.
Proof.
  intros Hs E. unfold Connect.decode_will_v5 in E.
  destruct (_ =? 0); [by inv_ok E|].
  destruct (decode_properties _ src) as [[props s1]|] eqn:E1; [|done]. packet_facts.
  apply decode_will_message_ok in E as (Hr & pub & -> & Ht & Hb & Ho); [|done].
  assert (H1' : opt_wf is_u32 (find_prop As.WillDelayInterval props)) by prop_field.
  split; [|done]. split; [done|]. split; [done|]. cbn [fst snd]. rewrite Ho. cbn.
  split; [destruct (find_prop As.WillDelayInterval props); [done|cbn; solve_range]|].
  split_and!; prop_field.
Qed.

Lemma connect_of_props_wf props o :
  Forall prop_wf props -> Connect.of_props props = Ok o -> Connect.other_wf o.
Proof.
  intros Hp E. unfold Connect.of_props in E.
  destruct (Authentication.of_props props) as [a|] eqn:Ea; [|done].
  apply authentication_of_props_wf in Ea; [|done]. injection E as <-. unfold Connect.other_wf. cbn.
  assert (H1 : opt_wf is_nonzero_u16 (find_prop As.ReceiveMaximum props)) by prop_field.
  assert (H2 : opt_wf is_nonzero_u32 (find_prop As.MaximumPacketSize props)) by prop_field.
  assert (H3 : opt_wf is_u16 (find_prop As.TopicAliasMaximum props)) by prop_field.
  assert (H4 : opt_wf SessionExpiryInterval.wf (find_prop As.SessionExpiryInterval props)) by prop_field.
  split; [destruct (find_prop As.SessionExpiryInterval props); [done|cbn; solve_range]|].
  split; [destruct (find_prop As.ReceiveMaximum props); [done|cbn; solve_range]|].
  split; [destruct (find_prop As.MaximumPacketSize props); [done|cbn; solve_range]|].
  split; [destruct (find_prop As.TopicAliasMaximum props); [done|cbn; solve_range]|].
  split; [prop_field|done].
Qed.
Lemma decode_rest_v3_ok src p rest :
  bytes_ok src -> Connect.decode_rest_v3 src = Ok (p, rest) -> Connect.wf V3 p.
Proof.
  intros Hs E. unfold Connect.decode_rest_v3 in E.
  destruct (try_get_u8 src) as [[f s1]|] eqn:E1; [|done]. decode_facts.
  destruct (Connect.has_flag f CONNECT_FLAGS_RESERVED); [done|]. destruct (_ =? 64); [done|].
  destruct (try_get_u16_be s1) as [[k s2]|] eqn:E2; [|done]. decode_facts.
  destruct (Connect.decode_client_id s2) as [[id s3]|] eqn:E3; [|done].
  apply decode_client_id_ok in E3 as [Hid Hs3]; [|done].
  destruct (negb (is_some id) && _) eqn:Ec; [done|].
  destruct (Connect.decode_will_v3 f s3) as [[w s4]|] eqn:E4; [|done].
  apply decode_will_v3_ok in E4 as [Hw Hs4]; [|done].
  destruct (Connect.decode_username f s4) as [[u s5]|] eqn:E5; [|done].
  apply decode_username_ok in E5 as [Hu Hs5]; [|done].
  destruct (Connect.decode_password f s5) as [[pw s6]|] eqn:E6; [|done].
  apply decode_password_ok in E6 as [Hp Hs6]; [|done]. inv_ok E.
  do 4 (split; [done|]). split; [by apply KeepAlive_from_u16_wf|]. cbn. split; [|done].
  intros Hn. rewrite Hn in Ec. by destruct (Connect.has_flag f CONNECT_FLAGS_CLEAN_SESSION).
Qed.

Lemma decode_rest_v5_ok src p rest :
  bytes_ok src -> Connect.decode_rest_v5 src = Ok (p, rest) -> Connect.wf V5 p.
Proof.
  intros Hs E. unfold Connect.decode_rest_v5 in E.
  destruct (try_get_u8 src) as [[f s1]|] eqn:E1; [|done]. decode_facts.
  destruct (Connect.has_flag f CONNECT_FLAGS_RESERVED); [done|].
  destruct (try_get_u16_be s1) as [[k s2]|] eqn:E2; [|done]. decode_facts.
  destruct (decode_properties _ s2) as [[props s2']|] eqn:E2'; [|done]. packet_facts.
  destruct (Connect.decode_client_id s2') as [[id s3]|] eqn:E3; [|done].
  apply decode_client_id_ok in E3 as [Hid Hs3]; [|done].
  destruct (Connect.decode_will_v5 f s3) as [[w s4]|] eqn:E4; [|done].
  apply decode_will_v5_ok in E4 as [Hw Hs4]; [|done].
  destruct (Connect.decode_username f s4) as [[u s5]|] eqn:E5; [|done].
  apply decode_username_ok in E5 as [Hu Hs5]; [|done].
  destruct (Connect.decode_password f s5) as [[pw s6]|] eqn:E6; [|done].
  apply decode_password_ok in E6 as [Hp Hs6]; [|done].
  destruct (Connect.of_props props) as [o|] eqn:E7; [|done].
  apply connect_of_props_wf in E7; [|done]. inv_ok E.
  do 4 (split; [done|]). split; [by apply KeepAlive_from_u16_wf|done].
Qed.

Lemma decode_start_ok flags src v rest :
  bytes_ok src -> Connect.decode_start flags src = Ok (v, rest) -> bytes_ok rest.
Proof.
  intros Hs E. unfold Connect.decode_start in E. destruct (negb (flags =? 0)); [done|].
  destruct (get_byte_str src) as [[s s1]|] eqn:E1; [|done]. decode_facts.
  destruct (negb _); [done|].
  destruct (try_get_u8 s1) as [[b s2]|] eqn:E2; [|done]. decode_facts. inv_ok E; done.
Qed.

Lemma connect_decode_wf flags src v p rest :
  bytes_ok src -> Connect.decode flags src v = Ok (p, rest) -> Connect.wf v p.
Proof.
  intros Hs E. unfold Connect.decode in E.
  destruct (Connect.decode_start flags src) as [[v' s1]|] eqn:E1; [|done].
  apply decode_start_ok in E1; [|done]. destruct (negb _); [done|].
  destruct v; [by eapply decode_rest_v3_ok | by eapply decode_rest_v5_ok].
Qed.
End connect_packet.

#[export] Instance Connect_meta `{Unicode} : PacketMeta Connect.t := {
  PACKET_TYPE := 0x10;
  packet_decode := Connect.decode;
  packet_encode B BA := Connect.encode;
}.

#[export] Instance Connect_laws `{UnicodeLaws} : PacketLaws Connect.t.
Proof.
  refine {| packet_wf := Connect.wf; packet_flags _ := 0 |}.
  - intros v p. apply connect_encode_wp.
  - intros flags src v p rest Hs _. by apply connect_decode_wf.
Defined.
