(* ===== verification/UserProperties.v ===== *)
(** * Properties of the public API

    The property structs of packet.rs with their conversions to and from the
    codec. Every pair of conversions is an instance of [Converts]: the public
    value survives the round trip, and the only failure is a string or data of
    more than 65,535 bytes, on which the conversion panics. *)

From S2P Require Export Convert Reasons Connect.
Local Open Scope Z_scope.

Definition reason_clean (p : ReasonProperties) : Prop :=
  opt_clean bs_clean (Acks.reason_string p) /\ user_clean (Acks.user_properties p).

(** A struct whose fields are converted one by one. *)
Ltac convert_struct into from fits :=
  split;
  [ intros []; unfold into, fits; cbn; convert_calls;
    [ split; [by convert_rewrite | split; [repeat split; try done | unfold from; f_equal; first [done | assumption | cbn; apply from_into]]]
    | convert_rewrite; by rewrite ?andb_false_r .. ]
  | intros [] Hp; unfold into, from; repeat (hnf in Hp; lazymatch type of Hp with _ /\ _ => destruct Hp as [? Hp] end); cbn in *; subst;
    repeat match goal with
    | |- context [match ?f ?x with Returns _ => _ | Panics _ => _ end] =>
        rewrite (from_spec (into := f)) by assumption
    end; rewrite ?into_from; done ].

(** ** Acknowledgements *)

(** [PubAckProperties]. *)
Module PubAckProperties.
Record t : Set := mk { reason_string : option str; user_properties : list (str * str) }.

Definition default : t := mk None [].

Definition from (value : ReasonProperties) : t :=
  mk (option_map as_ref (Acks.reason_string value)) (user_properties_to_string (Acks.user_properties value)).

Definition into (pap : t) : outcome ReasonProperties :=
  let! reason_string := opt_into ByteStr_from (reason_string pap) in
  let! user_properties := map_user_properties_to_bytestr (user_properties pap) in
  Returns (mkReasonProperties reason_string user_properties).

Definition fits (p : t) : bool := opt_fits fits_u16 (reason_string p) && user_fits (user_properties p).
End PubAckProperties.

#[export] Instance PubAckProperties_converts :
  Converts PubAckProperties.into PubAckProperties.from PubAckProperties.fits reason_clean.
Proof. convert_struct PubAckProperties.into PubAckProperties.from PubAckProperties.fits. Qed.

(** [PubRecProperties]. *)
Module PubRecProperties.
Record t : Set := mk { reason_string : option str; user_properties : list (str * str) }.

Definition default : t := mk None [].

Definition from (value : ReasonProperties) : t :=
  mk (option_map as_ref (Acks.reason_string value)) (user_properties_to_string (Acks.user_properties value)).

Definition into (prp : t) : outcome ReasonProperties :=
  let! reason_string := opt_into ByteStr_from (reason_string prp) in
  let! user_properties := map_user_properties_to_bytestr (user_properties prp) in
  Returns (mkReasonProperties reason_string user_properties).

Definition fits (p : t) : bool := opt_fits fits_u16 (reason_string p) && user_fits (user_properties p).
End PubRecProperties.

#[export] Instance PubRecProperties_converts :
  Converts PubRecProperties.into PubRecProperties.from PubRecProperties.fits reason_clean.
Proof. convert_struct PubRecProperties.into PubRecProperties.from PubRecProperties.fits. Qed.

(** [PubRelProperties]. *)
Module PubRelProperties.
Record t : Set := mk { reason_string : option str; user_properties : list (str * str) }.

Definition default : t := mk None [].

Definition from (value : ReasonProperties) : t :=
  mk (option_map as_ref (Acks.reason_string value)) (user_properties_to_string (Acks.user_properties value)).

Definition into (prp : t) : outcome ReasonProperties :=
  let! reason_string := opt_into ByteStr_from (reason_string prp) in
  let! user_properties := map_user_properties_to_bytestr (user_properties prp) in
  Returns (mkReasonProperties reason_string user_properties).

Definition fits (p : t) : bool := opt_fits fits_u16 (reason_string p) && user_fits (user_properties p).
End PubRelProperties.

#[export] Instance PubRelProperties_converts :
  Converts PubRelProperties.into PubRelProperties.from PubRelProperties.fits reason_clean.
Proof. convert_struct PubRelProperties.into PubRelProperties.from PubRelProperties.fits. Qed.

(** [PubCompProperties]. *)
Module PubCompProperties.
Record t : Set := mk { reason_string : option str; user_properties : list (str * str) }.

Definition default : t := mk None [].

Definition from (value : ReasonProperties) : t :=
  mk (option_map as_ref (Acks.reason_string value)) (user_properties_to_string (Acks.user_properties value)).

Definition into (pcp : t) : outcome ReasonProperties :=
  let! reason_string := opt_into ByteStr_from (reason_string pcp) in
  let! user_properties := map_user_properties_to_bytestr (user_properties pcp) in
  Returns (mkReasonProperties reason_string user_properties).

Definition fits (p : t) : bool := opt_fits fits_u16 (reason_string p) && user_fits (user_properties p).
End PubCompProperties.

#[export] Instance PubCompProperties_converts :
  Converts PubCompProperties.into PubCompProperties.from PubCompProperties.fits reason_clean.
Proof. convert_struct PubCompProperties.into PubCompProperties.from PubCompProperties.fits. Qed.

(** [SubAckProperties]. *)
Module SubAckProperties.
Record t : Set := mk { reason_string : option str; user_properties : list (str * str) }.

Definition default : t := mk None [].

Definition from (value : ReasonProperties) : t :=
  mk (option_map as_ref (Acks.reason_string value)) (user_properties_to_string (Acks.user_properties value)).

Definition into (sap : t) : outcome ReasonProperties :=
  let! reason_string := opt_into ByteStr_from (reason_string sap) in
  let! user_properties := map_user_properties_to_bytestr (user_properties sap) in
  Returns (mkReasonProperties reason_string user_properties).

Definition fits (p : t) : bool := opt_fits fits_u16 (reason_string p) && user_fits (user_properties p).
End SubAckProperties.

#[export] Instance SubAckProperties_converts :
  Converts SubAckProperties.into SubAckProperties.from SubAckProperties.fits reason_clean.
Proof. convert_struct SubAckProperties.into SubAckProperties.from SubAckProperties.fits. Qed.

(** [UnsubAckProperties]. *)
Module UnsubAckProperties.
Record t : Set := mk { reason_string : option str; user_properties : list (str * str) }.

Definition default : t := mk None [].

Definition from (value : ReasonProperties) : t :=
  mk (option_map as_ref (Acks.reason_string value)) (user_properties_to_string (Acks.user_properties value)).

Definition into (uap : t) : outcome ReasonProperties :=
  let! reason_string := opt_into ByteStr_from (reason_string uap) in
  let! user_properties := map_user_properties_to_bytestr (user_properties uap) in
  Returns (mkReasonProperties reason_string user_properties).

Definition fits (p : t) : bool := opt_fits fits_u16 (reason_string p) && user_fits (user_properties p).
End UnsubAckProperties.

#[export] Instance UnsubAckProperties_converts :
  Converts UnsubAckProperties.into UnsubAckProperties.from UnsubAckProperties.fits reason_clean.
Proof. convert_struct UnsubAckProperties.into UnsubAckProperties.from UnsubAckProperties.fits. Qed.

(** [AuthProperties]. *)
Module AuthProperties.
Record t : Set := mk { reason_string : option str; user_properties : list (str * str) }.

Definition default : t := mk None [].
End AuthProperties.

(** ** SUBSCRIBE, UNSUBSCRIBE and DISCONNECT *)

Module SubscribeProperties.
Record t : Set := mk { subscription_identifier : option u32; user_properties : list (str * str) }.

Definition default : t := mk None [].

Definition from (value : Subscribe.OtherProperties) : t :=
  mk (Subscribe.subscription_identifier value) (user_properties_to_string (Subscribe.user_properties value)).

Definition into (srp : t) : outcome Subscribe.OtherProperties :=
  let! user_properties := map_user_properties_to_bytestr (user_properties srp) in
  Returns (Subscribe.mkOther (subscription_identifier srp) user_properties).

Definition fits (p : t) : bool := user_fits (user_properties p).
Definition clean (p : Subscribe.OtherProperties) : Prop := user_clean (Subscribe.user_properties p).
End SubscribeProperties.

#[export] Instance SubscribeProperties_converts :
  Converts SubscribeProperties.into SubscribeProperties.from SubscribeProperties.fits SubscribeProperties.clean.
Proof. convert_struct SubscribeProperties.into SubscribeProperties.from SubscribeProperties.fits. Qed.

(** [UnsubscribeOtherProperties] is its one field. *)
Module UnsubscribeProperties.
Record t : Set := mk { user_properties : list (str * str) }.

Definition default : t := mk [].

Definition from (value : list (ByteStr * ByteStr)) : t := mk (user_properties_to_string value).

Definition into (up : t) : outcome (list (ByteStr * ByteStr)) :=
  map_user_properties_to_bytestr (user_properties up).

Definition fits (p : t) : bool := user_fits (user_properties p).
End UnsubscribeProperties.

#[export] Instance UnsubscribeProperties_converts :
  Converts UnsubscribeProperties.into UnsubscribeProperties.from UnsubscribeProperties.fits user_clean.
Proof.
  split.
  - intros [l]. unfold UnsubscribeProperties.into, UnsubscribeProperties.fits.
    cbn [UnsubscribeProperties.user_properties].
    pose proof (into_spec (into := map_user_properties_to_bytestr) l) as H.
    destruct (map_user_properties_to_bytestr l); [|exact H]. destruct H as (? & ? & E). split_and!; [done..|].
    unfold UnsubscribeProperties.from. by rewrite E.
  - intros p Hp. unfold UnsubscribeProperties.into. cbn. by rewrite from_spec.
Qed.

Module DisconnectProperties.
Record t : Set := mk {
  session_expiry_interval : option SessionExpiryInterval.t;
  reason_string : option str;
  user_properties : list (str * str);
  server_reference : option str;
}.

Definition default : t := mk None None [] None.

Definition from (value : Disconnect.OtherProperties) : t :=
  mk (Disconnect.session_expiry_interval value) (option_map as_ref (Disconnect.reason_string value))
    (user_properties_to_string (Disconnect.user_properties value))
    (option_map as_ref (Disconnect.server_reference value)).

Definition into (dp : t) : outcome Disconnect.OtherProperties :=
  let! reason_string := opt_into ByteStr_from (reason_string dp) in
  let! user_properties := map_user_properties_to_bytestr (user_properties dp) in
  let! server_reference := opt_into ByteStr_from (server_reference dp) in
  Returns (Disconnect.mkOther (session_expiry_interval dp) reason_string user_properties server_reference).

Definition fits (p : t) : bool :=
  opt_fits fits_u16 (reason_string p) && user_fits (user_properties p) &&
  opt_fits fits_u16 (server_reference p).
Definition clean (p : Disconnect.OtherProperties) : Prop :=
  opt_clean bs_clean (Disconnect.reason_string p) /\ user_clean (Disconnect.user_properties p) /\
  opt_clean bs_clean (Disconnect.server_reference p).
End DisconnectProperties.

#[export] Instance DisconnectProperties_converts :
  Converts DisconnectProperties.into DisconnectProperties.from DisconnectProperties.fits DisconnectProperties.clean.
Proof. convert_struct DisconnectProperties.into DisconnectProperties.from DisconnectProperties.fits. Qed.

(** ** Deliveries, authentication and the payload format *)

Module DeliveryInfo.
Record t : Set := mk { dup : bool; packet_identifier : PacketIdentifier }.
End DeliveryInfo.

Module DeliveryQoS.
Inductive t : Set :=
  | AtMostOnce
  | AtLeastOnce (info : DeliveryInfo.t)
  | ExactlyOnce (info : DeliveryInfo.t).

Definition from (value : PacketIdentifierDupQoS.t) : t :=
  match value with
  | PacketIdentifierDupQoS.AtMostOnce => AtMostOnce
  | PacketIdentifierDupQoS.AtLeastOnce packet_id dup => AtLeastOnce (DeliveryInfo.mk dup packet_id)
  | PacketIdentifierDupQoS.ExactlyOnce packet_id dup => ExactlyOnce (DeliveryInfo.mk dup packet_id)
  end.

Definition into (value : t) : PacketIdentifierDupQoS.t :=
  match value with
  | AtMostOnce => PacketIdentifierDupQoS.AtMostOnce
  | AtLeastOnce info =>
      PacketIdentifierDupQoS.AtLeastOnce (DeliveryInfo.packet_identifier info) (DeliveryInfo.dup info)
  | ExactlyOnce info =>
      PacketIdentifierDupQoS.ExactlyOnce (DeliveryInfo.packet_identifier info) (DeliveryInfo.dup info)
  end.
End DeliveryQoS.

#[export] Instance DeliveryQoS_inverse : Inverse DeliveryQoS.into DeliveryQoS.from.
Proof. split; [intros [|[]|[]]|intros []]; reflexivity. Qed.

Module PayloadFormatIndicator.
Inductive t : Set := Unspecified | UTF8.

(** The discriminants. *)
Definition code (value : t) : u8 := match value with Unspecified => 0 | UTF8 => 1 end.

(** The [if value.payload_is_utf8] of the conversions, and their [matches!]. *)
Definition from (payload_is_utf8 : bool) : t := if payload_is_utf8 then UTF8 else Unspecified.
Definition into (value : t) : bool := match value with UTF8 => true | Unspecified => false end.
End PayloadFormatIndicator.

#[export] Instance PayloadFormatIndicator_inverse :
  Inverse PayloadFormatIndicator.into PayloadFormatIndicator.from.
Proof. inverse_enum. Qed.

Module AuthenticationInfo.
Record t : Set := mk { method : str; data : option (list u8) }.

Definition from (value : Authentication.t) : t :=
  mk (as_ref (Authentication.method value)) (option_map BinaryData_as_bytes (Authentication.data value)).

Definition into (ai : t) : outcome Authentication.t :=
  let! method := ByteStr_from (method ai) in
  let! data := opt_into BinaryData_from (data ai) in
  Returns (Authentication.mk method data).

Definition fits (p : t) : bool := fits_u16 (method p) && opt_fits fits_u16 (data p).
Definition clean (p : Authentication.t) : Prop :=
  bs_clean (Authentication.method p) /\ opt_clean bd_clean (Authentication.data p).
End AuthenticationInfo.

#[export] Instance AuthenticationInfo_converts :
  Converts AuthenticationInfo.into AuthenticationInfo.from AuthenticationInfo.fits AuthenticationInfo.clean.
Proof. convert_struct AuthenticationInfo.into AuthenticationInfo.from AuthenticationInfo.fits. Qed.

(** ** CONNECT and CONNACK *)

Module ConnectProperties.
Record t : Set := mk {
  session_expiry_interval : SessionExpiryInterval.t;
  receive_maximum : u16;
  maximum_packet_size : u32;
  topic_alias_maximum : u16;
  request_response_information : bool;
  request_problem_information : bool;
  user_properties : list (str * str);
}.

Definition default : t :=
  mk (SessionExpiryInterval.Duration 0) u16_MAX u32_MAX 0 false true [].

Definition from (value : Connect.OtherProperties) : t :=
  mk (Connect.session_expiry_interval value) (Connect.receive_maximum value)
    (Connect.maximum_packet_size value) (Connect.topic_alias_maximum value)
    (Connect.request_response_information value) (Connect.request_problem_information value)
    (user_properties_to_string (Connect.user_properties value)).

Definition into (cp : t) : outcome Connect.OtherProperties :=
  let! user_properties := map_user_properties_to_bytestr (user_properties cp) in
  Returns (Connect.mkOther (session_expiry_interval cp) (receive_maximum cp) (maximum_packet_size cp)
    (topic_alias_maximum cp) (request_response_information cp) (request_problem_information cp)
    user_properties None).

Definition fits (p : t) : bool := user_fits (user_properties p).
Definition clean (p : Connect.OtherProperties) : Prop :=
  user_clean (Connect.user_properties p) /\ Connect.authentication p = None.
End ConnectProperties.

#[export] Instance ConnectProperties_converts :
  Converts ConnectProperties.into ConnectProperties.from ConnectProperties.fits ConnectProperties.clean.
Proof. convert_struct ConnectProperties.into ConnectProperties.from ConnectProperties.fits. Qed.

Module ConnAckProperties.
Record t : Set := mk {
  session_expiry_interval : option SessionExpiryInterval.t;
  receive_maximum : u16;
  maximum_qos : packet_QoS.t;
  retain_available : bool;
  maximum_packet_size : u32;
  assigned_client_identifier : option str;
  topic_alias_maximum : u16;
  reason_string : option str;
  user_properties : list (str * str);
  wildcard_subscription_available : bool;
  subscription_identifiers_available : bool;
  shared_subscription_available : bool;
  server_keep_alive : option KeepAlive.t;
  response_information : option str;
  server_reference : option str;
}.

Definition default : t :=
  mk None u16_MAX packet_QoS.ExactlyOnce true u32_MAX None 0 None [] true true true None None None.

Definition from (value : ConnAck.OtherProperties) : t :=
  mk (ConnAck.session_expiry_interval value) (ConnAck.receive_maximum value)
    (packet_QoS.from (ConnAck.maximum_qos value)) (ConnAck.retain_available value)
    (ConnAck.maximum_packet_size value) (option_map as_ref (ConnAck.assigned_client_id value))
    (ConnAck.topic_alias_maximum value) (option_map as_ref (ConnAck.reason_string value))
    (user_properties_to_string (ConnAck.user_properties value))
    (ConnAck.wildcard_subscription_available value) (ConnAck.subscription_identifiers_available value)
    (ConnAck.shared_subscription_available value) (ConnAck.server_keep_alive value)
    (option_map as_ref (ConnAck.response_information value))
    (option_map as_ref (ConnAck.server_reference value)).

Definition into (cap : t) : outcome ConnAck.OtherProperties :=
  let! assigned_client_id := opt_into ByteStr_from (assigned_client_identifier cap) in
  let! reason_string := opt_into ByteStr_from (reason_string cap) in
  let! user_properties := map_user_properties_to_bytestr (user_properties cap) in
  let! response_information := opt_into ByteStr_from (response_information cap) in
  let! server_reference := opt_into ByteStr_from (server_reference cap) in
  Returns (ConnAck.mkOther (session_expiry_interval cap) (receive_maximum cap)
    (packet_QoS.into (maximum_qos cap)) (retain_available cap) (maximum_packet_size cap)
    assigned_client_id (topic_alias_maximum cap) reason_string user_properties
    (wildcard_subscription_available cap) (shared_subscription_available cap)
    (subscription_identifiers_available cap) (server_keep_alive cap) response_information
    server_reference None).

Definition fits (p : t) : bool :=
  opt_fits fits_u16 (assigned_client_identifier p) && opt_fits fits_u16 (reason_string p) &&
  user_fits (user_properties p) && opt_fits fits_u16 (response_information p) &&
  opt_fits fits_u16 (server_reference p).
Definition clean (p : ConnAck.OtherProperties) : Prop :=
  opt_clean bs_clean (ConnAck.assigned_client_id p) /\ opt_clean bs_clean (ConnAck.reason_string p) /\
  user_clean (ConnAck.user_properties p) /\ opt_clean bs_clean (ConnAck.response_information p) /\
  opt_clean bs_clean (ConnAck.server_reference p) /\ ConnAck.authentication p = None.
End ConnAckProperties.

#[export] Instance ConnAckProperties_converts :
  Converts ConnAckProperties.into ConnAckProperties.from ConnAckProperties.fits ConnAckProperties.clean.
Proof. convert_struct ConnAckProperties.into ConnAckProperties.from ConnAckProperties.fits. Qed.

(** ** PUBLISH and the will *)

Module PublishProperties.
Record t : Set := mk {
  payload_format_indicator : PayloadFormatIndicator.t;
  message_expiry_interval : option u32;
  topic_alias : option u16;
  response_topic : option TopicName;
  correlation_data : option (list u8);
  user_properties : list (str * str);
  subscription_identifiers : list u32;
  content_type : option str;
}.

Definition default : t := mk PayloadFormatIndicator.Unspecified None None None None [] [] None.

Definition from (value : Publish.OtherProperties) : t :=
  mk (PayloadFormatIndicator.from (Publish.payload_is_utf8 value)) (Publish.message_expiry_interval value)
    (Publish.topic_alias value) (option_map TopicName_of (Publish.response_topic value))
    (option_map BinaryData_as_bytes (Publish.correlation_data value))
    (user_properties_to_string (Publish.user_properties value)) (Publish.subscription_identifiers value)
    (option_map as_ref (Publish.content_type value)).

Definition into (pp : t) : outcome Publish.OtherProperties :=
  let! response_topic := opt_into TopicName_into (response_topic pp) in
  let! correlation_data := opt_into BinaryData_from (correlation_data pp) in
  let! user_properties := map_user_properties_to_bytestr (user_properties pp) in
  let! content_type := opt_into ByteStr_from (content_type pp) in
  Returns (Publish.mkOther (PayloadFormatIndicator.into (payload_format_indicator pp))
    (message_expiry_interval pp) (topic_alias pp) response_topic correlation_data user_properties
    (subscription_identifiers pp) content_type).

Definition fits (p : t) : bool :=
  opt_fits topic_fits (response_topic p) && opt_fits fits_u16 (correlation_data p) &&
  user_fits (user_properties p) && opt_fits fits_u16 (content_type p).
Definition clean (p : Publish.OtherProperties) : Prop :=
  opt_clean topic_clean (Publish.response_topic p) /\ opt_clean bd_clean (Publish.correlation_data p) /\
  user_clean (Publish.user_properties p) /\ opt_clean bs_clean (Publish.content_type p).
End PublishProperties.

#[export] Instance PublishProperties_converts :
  Converts PublishProperties.into PublishProperties.from PublishProperties.fits PublishProperties.clean.
Proof. convert_struct PublishProperties.into PublishProperties.from PublishProperties.fits. Qed.

Module WillProperties.
Record t : Set := mk {
  delay_interval : u32;
  payload_format_indicator : PayloadFormatIndicator.t;
  message_expiry_interval : option u32;
  content_type : option str;
  response_topic : option TopicName;
  correlation_data : option (list u8);
  user_properties : list (str * str);
}.

Definition into (wp : t) : outcome Publication.OtherProperties :=
  let! response_topic := opt_into TopicName_into (response_topic wp) in
  let! correlation_data := opt_into BinaryData_from (correlation_data wp) in
  let! user_properties := map_user_properties_to_bytestr (user_properties wp) in
  let! content_type := opt_into ByteStr_from (content_type wp) in
  Returns (Publication.mkOther (PayloadFormatIndicator.into (payload_format_indicator wp))
    (message_expiry_interval wp) response_topic correlation_data user_properties content_type).
End WillProperties.

Module Will.
Record t : Set := mk {
  topic_name : TopicName;
  qos : packet_QoS.t;
  retain : bool;
  payload : list u8;
  properties : WillProperties.t;
}.

Definition into (will : t) : outcome (Publication.t * u32) :=
  let delay_interval := WillProperties.delay_interval (properties will) in
  let! topic_name := TopicName_into (topic_name will) in
  let! other_properties := WillProperties.into (properties will) in
  Returns (Publication.mk topic_name (packet_QoS.into (qos will)) (retain will) (payload will)
    other_properties, delay_interval).
End Will.

Module RetainOptions.
Record t : Set := mk { retain_as_published : bool; retain_handling : RetainHandling.t }.

Definition default : t := mk true RetainHandling.Send.
End RetainOptions.
