(* ===== verification/UserPackets.v ===== *)
(** * Packets of the public API

    The packets of packet.rs, their conversions from and to those of the codec,
    and [is_success] and [as_result] of the acknowledgements, with
    [OperationFailure] of error.rs. A module [packet_X] is [packet::X] where the
    codec has an [X] too. *)

From S2P Require Export UserProperties.
Local Open Scope Z_scope.

(** [OperationFailure], [From<String>] and [Display]. *)
Record OperationFailure : Set := mkOperationFailure { failure_reason : str }.
Definition OperationFailure_from (value : str) : OperationFailure := mkOperationFailure value.
Definition OperationFailure_fmt (e : OperationFailure) : str := lit "Operation failed: " ++ failure_reason e.

(** [format!(" ({:?} - {reason_string})", reason)] or [format!(" ({:?})", reason)]. *)
Definition format_reason (debug : string) (reason_string : option str) : str :=
  match reason_string with
  | Some reason_string => lit " (" ++ lit debug ++ lit " - " ++ reason_string ++ lit ")"
  | None => lit " (" ++ lit debug ++ lit ")"
  end.

(** The loop of [as_result] of SUBACK and UNSUBACK, which lists the reasons that
    are not a success, and the [if let] that follows it. *)
Definition format_reasons {R} (is_success : R -> bool) (debug : R -> string) (reasons : list R)
    (reason_string : option str) : str :=
  let s :=
    fold_left (fun s reason =>
      if is_success reason then s
      else (if list_is_empty s then s else s ++ lit ", ") ++ lit (debug reason)) reasons [] in
  match reason_string with Some reason_string => s ++ lit " - " ++ reason_string | None => s end.

(** ** CONNACK and PUBLISH *)

Module packet_ConnAck.
Record t : Set := mk {
  session_present : bool;
  reason : ConnAckReason.t;
  properties : ConnAckProperties.t;
}.

Definition is_success (this : t) : bool :=
  match reason this with ConnAckReason.Success => true | _ => false end.

Definition as_result (this : t) : result OperationFailure () :=
  if is_success this then Ok tt
  else
    let reason :=
      match ConnAckProperties.reason_string (properties this) with
      | Some s => lit (ConnAckReason.debug (reason this)) ++ lit " - " ++ s
      | None => lit (ConnAckReason.debug (reason this))
      end in
    Err (mkOperationFailure reason).

Definition from (value : ConnAck.t) : t :=
  let '(reason, session_present) :=
    match ConnAck.reason_code value with
    | ConnectReasonCode.Success session_present => (ConnAckReason.Success, session_present)
    | ConnectReasonCode.Refused reason => (ConnAckReason.from reason, false)
    end in
  mk session_present reason (ConnAckProperties.from (ConnAck.other_properties value)).
End packet_ConnAck.

Module packet_Publish.
Record t : Set := mk {
  payload : list u8;
  qos : DeliveryQoS.t;
  retain : bool;
  topic_name : TopicName;
  properties : PublishProperties.t;
}.

Definition from (value : Publish.t) : t :=
  mk (Publish.payload value) (DeliveryQoS.from (Publish.packet_identifier_dup_qos value))
    (Publish.retain value) (TopicName_of (Publish.topic_name value))
    (PublishProperties.from (Publish.other_properties value)).
End packet_Publish.

(** ** Acknowledgements of a PUBLISH *)

Module packet_PubAck.
Record t : Set := mk {
  packet_identifier : PacketIdentifier;
  reason : PubAckReason.t;
  properties : PubAckProperties.t;
}.

Definition is_success (this : t) : bool :=
  match reason this with PubAckReason.Success | PubAckReason.NoMatchingSubscribers => true | _ => false end.

Definition as_result (this : t) : result OperationFailure () :=
  if is_success this then Ok tt
  else Err (OperationFailure_from (format_reason (PubAckReason.debug (reason this))
    (PubAckProperties.reason_string (properties this)))).

Definition from (value : PubAck.t) : t :=
  mk (Ack.packet_identifier value) (PubAckReason.from (Ack.reason_code value))
    (PubAckProperties.from (Ack.other_properties value)).

Definition into (pa : t) : outcome PubAck.t :=
  let! other_properties := PubAckProperties.into (properties pa) in
  Returns (Ack.mk (packet_identifier pa) (PubAckReason.into (reason pa)) other_properties).
End packet_PubAck.

Module packet_PubRec.
Record t : Set := mk {
  packet_identifier : PacketIdentifier;
  reason : PubRecReason.t;
  properties : PubRecProperties.t;
}.

Definition is_success (this : t) : bool :=
  match reason this with PubRecReason.Success | PubRecReason.NoMatchingSubscribers => true | _ => false end.

Definition as_result (this : t) : result OperationFailure () :=
  if is_success this then Ok tt
  else Err (OperationFailure_from (format_reason (PubRecReason.debug (reason this))
    (PubRecProperties.reason_string (properties this)))).

Definition from (value : PubRec.t) : t :=
  mk (Ack.packet_identifier value) (PubRecReason.from (Ack.reason_code value))
    (PubRecProperties.from (Ack.other_properties value)).
End packet_PubRec.

Module packet_PubRel.
Record t : Set := mk {
  packet_identifier : PacketIdentifier;
  reason : PubRelReason.t;
  properties : PubRelProperties.t;
}.

Definition from (value : PubRel.t) : t :=
  mk (Ack.packet_identifier value) (PubRelReason.from (Ack.reason_code value))
    (PubRelProperties.from (Ack.other_properties value)).
End packet_PubRel.

Module packet_PubComp.
Record t : Set := mk {
  packet_identifier : PacketIdentifier;
  reason : PubCompReason.t;
  properties : PubCompProperties.t;
}.

Definition from (value : PubComp.t) : t :=
  mk (Ack.packet_identifier value) (PubCompReason.from (Ack.reason_code value))
    (PubCompProperties.from (Ack.other_properties value)).
End packet_PubComp.

(** ** SUBACK and UNSUBACK *)

Module packet_SubAck.
Record t : Set := mk {
  packet_identifier : PacketIdentifier;
  reasons : list SubAckReason.t;
  properties : SubAckProperties.t;
}.

(** The [matches!] of both methods. *)
Definition granted (r : SubAckReason.t) : bool :=
  match r with
  | SubAckReason.GrantedQoS0 | SubAckReason.GrantedQoS1 | SubAckReason.GrantedQoS2 => true
  | _ => false
  end.

Definition is_success (this : t) : bool := forallb granted (reasons this).

Definition as_result (this : t) : result OperationFailure () :=
  if is_success this then Ok tt
  else Err (OperationFailure_from (format_reasons granted SubAckReason.debug (reasons this)
    (SubAckProperties.reason_string (properties this)))).

Definition from (value : SubAck.t) : t :=
  mk (SubAck.packet_identifier value) (map SubAckReason.from (SubAck.reason_codes value))
    (SubAckProperties.from (SubAck.other_properties value)).
End packet_SubAck.

Module packet_UnsubAck.
Record t : Set := mk {
  packet_identifier : PacketIdentifier;
  reasons : list UnsubAckReason.t;
  properties : UnsubAckProperties.t;
}.

(** The [matches!] of both methods. *)
Definition accepted (r : UnsubAckReason.t) : bool :=
  match r with UnsubAckReason.Success | UnsubAckReason.NoSubscriptionExisted => true | _ => false end.

Definition is_success (this : t) : bool := forallb accepted (reasons this).

Definition as_result (this : t) : result OperationFailure () :=
  if is_success this then Ok tt
  else Err (OperationFailure_from (format_reasons accepted UnsubAckReason.debug (reasons this)
    (UnsubAckProperties.reason_string (properties this)))).

Definition from (value : UnsubAck.t) : t :=
  mk (UnsubAck.packet_identifier value) (map UnsubAckReason.from (UnsubAck.reason_codes value))
    (UnsubAckProperties.from (UnsubAck.other_properties value)).
End packet_UnsubAck.

(** ** DISCONNECT and AUTH *)

Module packet_Disconnect.
Record t : Set := mk { reason : DisconnectReason.t; properties : DisconnectProperties.t }.

Definition from (value : Disconnect.t) : t :=
  mk (DisconnectReason.from (Disconnect.reason_code value))
    (DisconnectProperties.from (Disconnect.other_properties value)).
End packet_Disconnect.

Module packet_Auth.
Record t : Set := mk {
  reason : AuthReason.t;
  authentication_info : option AuthenticationInfo.t;
  properties : AuthProperties.t;
}.

Definition from (value : Auth.t) : t :=
  mk (AuthReason.from (Auth.reason_code value))
    (option_map AuthenticationInfo.from (Auth.authentication value))
    (AuthProperties.mk (option_map as_ref (Auth.reason_string value))
      (user_properties_to_string (Auth.user_properties value))).

Definition into (a : t) : outcome Auth.t :=
  let! authentication := opt_into AuthenticationInfo.into (authentication_info a) in
  let! reason_string := opt_into ByteStr_from (AuthProperties.reason_string (properties a)) in
  let! user_properties := map_user_properties_to_bytestr (AuthProperties.user_properties (properties a)) in
  Returns (Auth.mk (AuthReason.into (reason a)) authentication reason_string user_properties).

Definition fits (p : t) : bool :=
  opt_fits AuthenticationInfo.fits (authentication_info p) &&
  opt_fits fits_u16 (AuthProperties.reason_string (properties p)) &&
  user_fits (AuthProperties.user_properties (properties p)).
Definition clean (p : Auth.t) : Prop :=
  opt_clean AuthenticationInfo.clean (Auth.authentication p) /\
  opt_clean bs_clean (Auth.reason_string p) /\ user_clean (Auth.user_properties p).
End packet_Auth.

#[export] Instance packet_Auth_converts :
  Converts packet_Auth.into packet_Auth.from packet_Auth.fits packet_Auth.clean.
Proof.
  split.
  - intros [r i [rs up]]. unfold packet_Auth.into, packet_Auth.fits. cbn. convert_calls;
      convert_rewrite; [|by rewrite ?andb_false_r..]. split; [done|]. split; [by repeat split|].
    unfold packet_Auth.from. cbn [Auth.reason_code Auth.authentication Auth.reason_string Auth.user_properties].
    rewrite from_into. congruence.
  - intros [r i rs up] (Hi & Hr & Hu). unfold packet_Auth.into, packet_Auth.from. cbn in *.
    repeat match goal with
    | |- context [match ?f ?x with Returns _ => _ | Panics _ => _ end] =>
        rewrite (from_spec (into := f)) by assumption
    end. by rewrite into_from.
Qed.

(** ** The message of a failure *)

(** The words, separated by commas. *)
Definition join (words : list str) : str :=
  match words with
  | [] => []
  | w :: ws => w ++ concat (map (fun w => lit ", " ++ w) ws)
  end.

(** [format_reasons] lists the reasons that are not a success, in order. *)
Lemma format_reasons_join {R} (ok : R -> bool) (debug : R -> string) reasons reason_string :
  (forall r, lit (debug r) <> []) ->
  format_reasons ok debug reasons reason_string =
    join (map (fun r => lit (debug r)) (List.filter (fun r => negb (ok r)) reasons)) ++
    match reason_string with Some s => lit " - " ++ s | None => [] end.
Proof.
  intros Hne. unfold format_reasons.
  set (f := fun s reason => if ok reason then s
    else (if list_is_empty s then s else s ++ lit ", ") ++ lit (debug reason)).
  set (words l := map (fun r => lit (debug r)) (List.filter (fun r => negb (ok r)) l)).
  assert (Hacc : forall l s, s <> [] ->
    fold_left f l s = s ++ concat (map (fun w => lit ", " ++ w) (words l))).
  { induction l as [|r l IH]; intros s Hs; cbn [fold_left]; [by rewrite app_nil_r|].
    unfold words. cbn [List.filter]. unfold f at 2. destruct (ok r); cbn [negb]; [by apply IH|].
    destruct s as [|x s]; [done|]. cbn [list_is_empty]. rewrite IH by done. cbn [map concat].
    by rewrite <- !app_assoc. }
  assert (H0 : fold_left f reasons [] = join (words reasons)).
  { induction reasons as [|r l IH]; [done|]. cbn [fold_left]. unfold words. cbn [List.filter].
    unfold f at 2. destruct (ok r); cbn [negb]; [exact IH|]. cbn [list_is_empty app map join].
    by apply Hacc. }
  rewrite H0. destruct reason_string; [done|]. by rewrite app_nil_r.
Qed.

(** Codes below 0x80 are successes (MQTT 5, section 2.4). *)
Definition success_code {P} `{U8Code P} (code : P) : Prop := into_u8 code < 0x80.

Lemma forallb_map_success {P R} `{U8Code P} (from : P -> R) (ok : R -> bool) codes :
  (forall c, ok (from c) = true <-> success_code c) ->
  forallb ok (map from codes) = true <-> Forall success_code codes.
Proof.
  intros Hc. induction codes as [|c l IH]; cbn [map forallb]; [by split|].
  by rewrite andb_true_iff, IH, Hc, Forall_cons.
Qed.

Lemma if_success_iff (b : bool) (e : OperationFailure) (P : Prop) :
  (b = true <-> P) -> (if b then Ok tt else Err e) = Ok tt <-> P.
Proof. intros <-. by destruct b. Qed.

Lemma if_failure {A B} (b : bool) (a : A) (e e' : B) :
  (if b then Ok a else Err e) = Err e' -> e' = e.
Proof. destruct b; congruence. Qed.

(** C35: [as_result] of a packet the server sent is [Ok] exactly if every reason
    code on the wire is below 0x80, the codes MQTT 5 defines as successes; the
    message of a SUBACK or UNSUBACK that failed lists exactly the reasons that
    are not successes, in order and separated by commas, followed by the reason
    string of the server when there is one. *)
Theorem as_result_correct :
  (forall p : ConnAck.t, packet_ConnAck.as_result (packet_ConnAck.from p) = Ok tt <->
     ConnectReasonCode.to_u8 (ConnAck.reason_code p) V5 < 0x80) /\
  (forall p : PubAck.t, packet_PubAck.as_result (packet_PubAck.from p) = Ok tt <->
     success_code (Ack.reason_code p)) /\
  (forall p : PubRec.t, packet_PubRec.as_result (packet_PubRec.from p) = Ok tt <->
     success_code (Ack.reason_code p)) /\
  (forall p : SubAck.t, packet_SubAck.as_result (packet_SubAck.from p) = Ok tt <->
     Forall success_code (SubAck.reason_codes p)) /\
  (forall p : UnsubAck.t, packet_UnsubAck.as_result (packet_UnsubAck.from p) = Ok tt <->
     Forall success_code (UnsubAck.reason_codes p)) /\
  (forall p e, packet_SubAck.as_result p = Err e -> failure_reason e =
     join (map (fun r => lit (SubAckReason.debug r))
       (List.filter (fun r => negb (packet_SubAck.granted r)) (packet_SubAck.reasons p))) ++
     match SubAckProperties.reason_string (packet_SubAck.properties p) with
     | Some s => lit " - " ++ s
     | None => []
     end) /\
  (forall p e, packet_UnsubAck.as_result p = Err e -> failure_reason e =
     join (map (fun r => lit (UnsubAckReason.debug r))
       (List.filter (fun r => negb (packet_UnsubAck.accepted r)) (packet_UnsubAck.reasons p))) ++
     match UnsubAckProperties.reason_string (packet_UnsubAck.properties p) with
     | Some s => lit " - " ++ s
     | None => []
     end).
Proof.
  unfold packet_ConnAck.as_result, packet_PubAck.as_result, packet_PubRec.as_result,
    packet_SubAck.as_result, packet_UnsubAck.as_result.
  split_and!; intros p; try apply if_success_iff.
  - destruct p as [[b|[]] o]; split; done.
  - destruct p as [k [] o]; split; done.
  - destruct p as [k [] o]; split; done.
  - apply forallb_map_success. intros []; split; done.
  - apply forallb_map_success. intros []; split; done.
  - intros e ->%if_failure. apply format_reasons_join. by intros [].
  - intros e ->%if_failure. apply format_reasons_join. by intros [].
Qed.

Lemma as_result_correct_witness :
  let p := SubAck.mk (mkPacketIdentifier 1)
    [SubscribeReasonCode.GrantedQoS1; SubscribeReasonCode.NotAuthorized; SubscribeReasonCode.QuotaExceeded]
    (mkReasonProperties None []) in
  packet_SubAck.as_result (packet_SubAck.from p) =
    Err (mkOperationFailure (lit "NotAuthorized, QuotaExceeded")) /\
  ~ Forall success_code (SubAck.reason_codes p).
Proof.
  cbv zeta. split; [reflexivity|]. destruct as_result_correct as (_ & _ & _ & H & _).
  rewrite <- H. discriminate.
Defined.

(** ** Round trips *)

(** The conversion panics exactly on what does not fit, and otherwise nothing of
    the public value is lost. *)
Definition faithful {U P} (into : U -> outcome P) (from : P -> U) (fits : U -> bool) : Prop :=
  forall u, match into u with Returns p => fits u = true /\ from p = u | Panics _ => fits u = false end.

Lemma Converts_faithful {U P} (into : U -> outcome P) from fits clean :
  Converts into from fits clean -> faithful into from fits.
Proof. intros HC u. pose proof (into_spec u) as H. destruct (into u); tauto. Qed.

(** C34: nothing the application puts in a packet is lost on the way to the codec:
    for every property struct of the public API that has both conversions, the
    conversion to the codec's struct ends without a panic exactly if every
    string and all data have at most 65,535 bytes, and converting back gives the
    same properties. *)
Theorem properties_round_trip :
  faithful ConnectProperties.into ConnectProperties.from ConnectProperties.fits /\
  faithful ConnAckProperties.into ConnAckProperties.from ConnAckProperties.fits /\
  faithful PublishProperties.into PublishProperties.from PublishProperties.fits /\
  faithful PubAckProperties.into PubAckProperties.from PubAckProperties.fits /\
  faithful PubRecProperties.into PubRecProperties.from PubRecProperties.fits /\
  faithful PubRelProperties.into PubRelProperties.from PubRelProperties.fits /\
  faithful PubCompProperties.into PubCompProperties.from PubCompProperties.fits /\
  faithful SubscribeProperties.into SubscribeProperties.from SubscribeProperties.fits /\
  faithful SubAckProperties.into SubAckProperties.from SubAckProperties.fits /\
  faithful UnsubscribeProperties.into UnsubscribeProperties.from UnsubscribeProperties.fits /\
  faithful UnsubAckProperties.into UnsubAckProperties.from UnsubAckProperties.fits /\
  faithful DisconnectProperties.into DisconnectProperties.from DisconnectProperties.fits /\
  faithful packet_Auth.into packet_Auth.from packet_Auth.fits /\
  faithful TopicName_into TopicName_of topic_fits /\
  faithful TopicFilter_into TopicFilter_of filter_fits.
Proof. split_and!; eapply Converts_faithful; typeclasses eauto. Qed.
