(* ===== verification/Packet.v ===== *)
(** * Packets

    [Packet], [PacketRef::encode] and [encode_inner] of mqtt_proto.rs: dispatch
    on the first byte, the fixed header, and the two-pass encoding. Everything
    here is proved against the interface of PacketMeta.v. *)

From S2P Require Export Connect.
Local Open Scope Z_scope.

Module Packet.
(** [enum Packet]. *)
Inductive t : Type :=
  | Auth (packet : Auth.t)
  | ConnAck (packet : ConnAck.t)
  | Connect (packet : Connect.t)
  | Disconnect (packet : Disconnect.t)
  | PingReq (packet : PingReq.t)
  | PingResp (packet : PingResp.t)
  | PubAck (packet : PubAck.t)
  | PubComp (packet : PubComp.t)
  | Publish (packet : Publish.t)
  | PubRec (packet : PubRec.t)
  | PubRel (packet : PubRel.t)
  | SubAck (packet : SubAck.t)
  | Subscribe (packet : Subscribe.t)
  | UnsubAck (packet : UnsubAck.t)
  | Unsubscribe (packet : Unsubscribe.t).

Section decode.
Context `{Unicode}.

(** One arm of the [match (packet_type, flags)]. *)
Definition arm {P} `{PacketMeta P} (constructor : P -> t) (flags : u8) (body : Shared)
    (version : ProtocolVersion) : decode_result (t * Shared) :=
  let? (packet, body) := packet_decode flags body version in
  Ok (constructor packet, body).

(** [Packet::decode]. *)
Definition decode (first_byte : u8) (body : Shared) (version : ProtocolVersion) : decode_result t :=
  let packet_type := Z.land first_byte 0xF0 in
  let flags := Z.land first_byte 0x0F in
  let matches ty fl := (packet_type =? ty) && (flags =? fl) in
  let? (packet, body) :=
    if matches (PACKET_TYPE (P := Auth.t)) 0 then arm Auth flags body version
    else if matches (PACKET_TYPE (P := ConnAck.t)) 0 then arm ConnAck flags body version
    else if matches (PACKET_TYPE (P := Connect.t)) 0 then arm Connect flags body version
    else if matches (PACKET_TYPE (P := Disconnect.t)) 0 then arm Disconnect flags body version
    else if matches (PACKET_TYPE (P := PingReq.t)) 0 then arm PingReq flags body version
    else if matches (PACKET_TYPE (P := PingResp.t)) 0 then arm PingResp flags body version
    else if matches (PACKET_TYPE (P := PubAck.t)) 0 then arm PubAck flags body version
    else if matches (PACKET_TYPE (P := PubComp.t)) 0 then arm PubComp flags body version
    else if packet_type =? PACKET_TYPE (P := Publish.t) then arm Publish flags body version
    else if matches (PACKET_TYPE (P := PubRec.t)) 0 then arm PubRec flags body version
    else if matches (PACKET_TYPE (P := PubRel.t)) 2 then arm PubRel flags body version
    else if matches (PACKET_TYPE (P := SubAck.t)) 0 then arm SubAck flags body version
    else if matches (PACKET_TYPE (P := Subscribe.t)) 2 then arm Subscribe flags body version
    else if matches (PACKET_TYPE (P := UnsubAck.t)) 0 then arm UnsubAck flags body version
    else if matches (PACKET_TYPE (P := Unsubscribe.t)) 2 then arm Unsubscribe flags body version
    else Err (DecodeError.UnrecognizedPacket packet_type flags (len body)) in
  if negb (list_is_empty body) then Err DecodeError.TrailingGarbage else Ok packet.

(** [Packet::decode_full]. *)
Definition decode_full (src : Shared) (version : ProtocolVersion) : decode_result t :=
  let? r := decode_fixed_header src in
  let? (first_byte, remaining_length, data) := ok_or r DecodeError.IncompletePacket in
  let src := drop (Z.to_nat (len src - len data)) src in
  match Z.compare (len src) remaining_length with
  | Lt => Err DecodeError.IncompletePacket
  | Eq => decode first_byte src version
  | Gt => Err DecodeError.TrailingGarbage
  end.
End decode.

(** [encode_inner]. *)
Definition encode_inner {P} `{PacketMeta P} {B} `{BytesAccumulator B} (packet : P) (flags : u8)
    (dst : B) (version : ProtocolVersion) : encode_result B :=
  let? counter := packet_encode _ (ByteCounter_accumulator true) packet version ByteCounter_new in
  let body_len := into_count counter in
  let? dst := put_u8 (Z.lor PACKET_TYPE flags) dst in
  let? dst := encode_remaining_length body_len dst in
  let? dst := packet_encode _ _ packet version dst in
  Ok (put_done dst).

(** [PacketRef::encode], which [Packet::encode] calls on the borrowed packet. *)
Definition encode `{Unicode} {B} `{BytesAccumulator B} (packet : t) (version : ProtocolVersion)
    (dst : B) : encode_result B :=
  match packet with
  | Auth packet => encode_inner packet 0 dst version
  | ConnAck packet => encode_inner packet 0 dst version
  | Connect packet => encode_inner packet 0 dst version
  | Disconnect packet => encode_inner packet 0 dst version
  | PingReq packet => encode_inner packet 0 dst version
  | PingResp packet => encode_inner packet 0 dst version
  | PubAck packet => encode_inner packet 0 dst version
  | PubComp packet => encode_inner packet 0 dst version
  | Publish packet => encode_inner packet (Publish.flags packet) dst version
  | PubRec packet => encode_inner packet 0 dst version
  | PubRel packet => encode_inner packet 2 dst version
  | SubAck packet => encode_inner packet 0 dst version
  | Subscribe packet => encode_inner packet 2 dst version
  | UnsubAck packet => encode_inner packet 0 dst version
  | Unsubscribe packet => encode_inner packet 2 dst version
  end.

(** What version [v] of the protocol can express. *)
Definition wf `{UnicodeLaws} (v : ProtocolVersion) (packet : t) : Prop :=
  match packet with
  | Auth p => packet_wf v p
  | ConnAck p => packet_wf v p
  | Connect p => packet_wf v p
  | Disconnect p => packet_wf v p
  | PingReq p => packet_wf v p
  | PingResp p => packet_wf v p
  | PubAck p => packet_wf v p
  | PubComp p => packet_wf v p
  | Publish p => packet_wf v p
  | PubRec p => packet_wf v p
  | PubRel p => packet_wf v p
  | SubAck p => packet_wf v p
  | Subscribe p => packet_wf v p
  | UnsubAck p => packet_wf v p
  | Unsubscribe p => packet_wf v p
  end.
End Packet.

(** ** Lemmas *)

Lemma decode_fixed_header_split src fb n rest :
  decode_fixed_header src = Ok (Some (fb, n, rest)) ->
  exists pre, src = pre ++ rest /\
    forall more, decode_fixed_header (pre ++ more) = Ok (Some (fb, n, more)).
Proof.
  unfold decode_fixed_header, decode_remaining_length, decode_varint. intros E. inv_ok E.
  apply decode_varint_loop_split in E1 as (pre & -> & Hm). exists (fb :: pre).
  split; [done|]. intros more. cbn [app]. by rewrite Hm.
Qed.

Lemma drop_suffix {A} (src pre rest : list A) :
  src = pre ++ rest -> drop (Z.to_nat (len src - len rest)) src = rest.
Proof.
  intros ->. rewrite len_app. replace (len pre + len rest - len rest) with (len pre) by lia.
  apply drop_len_app.
Qed.

Section packet.
Context `{UnicodeLaws}.

(** [decode_full] on a buffer whose fixed header announces exactly the rest. *)
Lemma decode_full_header src fb body v :
  decode_fixed_header src = Ok (Some (fb, len body, body)) ->
  Packet.decode_full src v = Packet.decode fb body v.
Proof.
  intros E. unfold Packet.decode_full. rewrite E. cbn [ok_or].
  destruct (decode_fixed_header_split _ _ _ _ E) as (pre & Hs & _).
  rewrite (drop_suffix src pre body Hs). by rewrite Z.compare_refl.
Qed.

(** What [encode_inner] writes: a header that announces the body, and the body. *)
Lemma encode_inner_wp {P} `{PacketLaws P} (p : P) flags v :
  is_u8 (Z.lor PACKET_TYPE flags) ->
  wp (fun B BA dst => Packet.encode_inner p flags dst v) (fun bs =>
    packet_wf v p -> flags = packet_flags p -> exists body,
      decode_fixed_header bs = Ok (Some (Z.lor PACKET_TYPE flags, len body, body)) /\
      packet_decode flags body v = Ok (p, [])).
Proof.
  intros Hf. apply (wp_counted (fun B BA dst => packet_encode B BA p v dst)
    (fun n B BA dst => let? dst := put_u8 (Z.lor PACKET_TYPE flags) dst in
      let? dst := encode_remaining_length n dst in
      let? dst := packet_encode B BA p v dst in Ok (put_done dst)) _ _ (packet_encode_wp v p)).
  intros ps Hr Hps. apply wp_bind, put_u8_wp, wp_bind.
  eapply wp_mono; [apply encode_remaining_length_wp, len_nonneg|]. cbv beta.
  intros pre (_ & _ & _ & Hdec). apply wp_bind, (wp_runs _ ps); [done|].
  apply (wp_put_done (fun _ _ dst => Ok dst)), wp_ok. intros Hwf ->.
  exists (trace_bytes ps). rewrite to_be_bytes_1 by done. cbn [app decode_fixed_header].
  rewrite app_nil_r, Hdec. auto.
Qed.

Lemma encode_inner_roundtrip {P} `{PacketLaws P} (constructor : P -> Packet.t) (p : P) flags v :
  is_u8 (Z.lor PACKET_TYPE flags) ->
  (forall body, Packet.decode (Z.lor PACKET_TYPE flags) body v =
    let? (packet, body) := Packet.arm constructor flags body v in
    if negb (list_is_empty body) then Err DecodeError.TrailingGarbage else Ok packet) ->
  flags = packet_flags p ->
  wp (fun B BA dst => Packet.encode_inner p flags dst v) (fun bs =>
    packet_wf v p -> Packet.decode_full bs v = Ok (constructor p)).
Proof.
  intros Hr Hd Hf. eapply wp_mono; [by apply encode_inner_wp|]. cbv beta. intros bs Hbs Hwf.
  destruct (Hbs Hwf Hf) as (body & Hh & Hb). rewrite (decode_full_header _ _ _ _ Hh), Hd.
  unfold Packet.arm. by rewrite Hb.
Qed.

Lemma publish_flags_cases p : Publish.flags p ∈ [0; 1; 2; 3; 4; 5; 10; 11; 12; 13].
Proof.
  destruct p as [? [|? []|? []] [] ? ?]; apply (bool_decide_unpack _); vm_compute; done.
Qed.

Lemma Packet_encode_wp v p :
  wp (fun B BA dst => Packet.encode p v dst) (fun bs =>
    Packet.wf v p -> Packet.decode_full bs v = Ok p).
Proof.
  destruct p; cbn [Packet.encode Packet.wf];
    try (apply encode_inner_roundtrip; [vm_compute; split; discriminate | intros body; reflexivity | reflexivity]).
  pose proof (publish_flags_cases packet) as Hc.
  apply (encode_inner_roundtrip Packet.Publish); [| |reflexivity].
  - repeat (apply elem_of_cons in Hc as [->|Hc]; [vm_compute; split; discriminate|]).
    by apply elem_of_nil in Hc.
  - intros body. repeat (apply elem_of_cons in Hc as [->|Hc]; [reflexivity|]).
    by apply elem_of_nil in Hc.
Qed.

(** Every packet that [decode] accepts is well formed. *)
Lemma Packet_decode_wf fb body v p :
  bytes_ok body -> Packet.decode fb body v = Ok p -> Packet.wf v p.
Proof.
  intros Hb E. unfold Packet.decode in E. set (flags := Z.land fb 15) in *.
  assert (Hf : 0 <= flags < 16).
  { unfold flags. change 15 with (Z.ones 4). rewrite Z.land_ones by lia. apply Z.mod_pos_bound. lia. }
  match type of E with match ?m with _ => _ end = _ => destruct m as [[p' r]|] eqn:Em end; [|done].
  destruct (negb _); [done|]. injection E as <-.
  unfold Packet.arm in Em.
  repeat match type of Em with
  | (if ?c then _ else _) = _ => destruct c
  end; [..|done];
  match type of Em with match ?m with _ => _ end = _ => destruct m as [[q r']|] eqn:Eq end; try done;
  injection Em as <- <-; cbn [Packet.wf]; by eapply packet_decode_wf.
Qed.

Lemma Packet_decode_full_wf src v p :
  bytes_ok src -> Packet.decode_full src v = Ok p -> Packet.wf v p.
Proof.
  intros Hs E. unfold Packet.decode_full, ok_or in E.
  destruct (decode_fixed_header src) as [[[[fb n] data]|]|]; [|done..].
  cbn in E. destruct (_ ?= _); [|done..]. eapply Packet_decode_wf; [|exact E]. by apply bytes_ok_drop.
Qed.

Lemma Packet_traceable v p : traceable (fun B BA dst => Packet.encode p v dst).
Proof. eapply wp_traceable, Packet_encode_wp. Qed.
End packet.

(** ** Properties *)

Section packet_properties.
Context `{UnicodeLaws}.

(** C1: a packet that the protocol version can express and that [Packet::encode]
    accepts is read back by [Packet::decode_full] as the same packet, with
    nothing left over: encoding loses no information and produces exactly one
    well-framed packet, for all fifteen packet types and both versions. *)
Theorem packet_roundtrip v p bs :
  Packet.wf v p ->
  Packet.encode p v SingleAccumulator_new = Ok (mkSingle bs) ->
  Packet.decode_full bs v = Ok p.
Proof.
  intros Hwf E. destruct (wp_single _ _ _ _ (Packet_encode_wp v p) E) as (bs' & [= ->] & Hd).
  by apply Hd.
Qed.

(** C33: every accumulator receives the same bytes. If [Packet::encode] succeeds
    on any lawful accumulator (the vectored one, the contiguous one, either of
    them), what it appended is what a fresh [SingleAccumulator] would hold, and
    a [ByteCounter<true>] predicts its length. *)
Theorem packet_encode_accumulators {B} `{LawfulAccumulator B} v p (dst dst' : B) :
  Packet.encode p v dst = Ok dst' ->
  exists bs, view dst' = view dst ++ bs /\
    Packet.encode p v SingleAccumulator_new = Ok (mkSingle bs) /\
    Packet.encode p v (ByteCounter_new (COUNT_SHARED := true)) = Ok (mkByteCounter (len bs)).
Proof.
  intros E. exact (traceable_view (fun B BA dst => Packet.encode p v dst) dst dst'
    (Packet_traceable v p) E).
Qed.

(** C32: reserving what [ByteCounter<false>] counted is enough. After the count
    and the reservation that [Writer::write] performs, encoding into the
    accumulator cannot fail with [InsufficientBuffer] or otherwise. *)
Theorem packet_encode_reserved {B} `{LawfulAccumulator B} v p (dst dst' : B) n :
  Packet.encode p v (ByteCounter_new (COUNT_SHARED := false)) = Ok (mkByteCounter n) ->
  reserve n dst = Ok dst' ->
  exists dst'', Packet.encode p v dst' = Ok dst''.
Proof.
  intros Ec Er. eapply (traceable_room (fun B BA dst => Packet.encode p v dst) _ dst'
    (Packet_traceable v p) Ec). by eapply reserve_room.
Qed.
End packet_properties.

(** A QoS 1 PUBLISH of "hi" to "t", retained, with some properties. *)
Definition publish_sample : Packet.t :=
  Packet.Publish (Publish.mk (mkTopic (mkByteStr (mkBinaryData [0; 1; 116])))
    (PacketIdentifierDupQoS.AtLeastOnce (mkPacketIdentifier 7) false) true [104; 105]
    (Publish.mkOther false (Some 60) None None None
      [(mkByteStr (mkBinaryData [0; 1; 107]), mkByteStr (mkBinaryData [0; 1; 118]))] [3] None)).

Definition publish_sample_bytes : list u8 :=
  [51; 22; 0; 1; 116; 0; 7; 14; 2; 0; 0; 0; 60; 38; 0; 1; 107; 0; 1; 118; 11; 3; 104; 105].

Lemma publish_sample_bytes_ok : bytes_ok publish_sample_bytes.
Proof. unfold publish_sample_bytes. repeat constructor; solve_range. Qed.

Lemma packet_roundtrip_witness :
  @Packet.decode_full Ascii publish_sample_bytes V5 = Ok publish_sample.
Proof.
  apply (@packet_roundtrip Ascii Ascii_laws V5 publish_sample publish_sample_bytes).
  - apply (@Packet_decode_full_wf Ascii Ascii_laws publish_sample_bytes);
      [apply publish_sample_bytes_ok | vm_compute; reflexivity].
  - vm_compute. reflexivity.
Defined.

Lemma packet_encode_accumulators_witness :
  exists dst' bs,
    Packet.encode (H := Ascii) publish_sample V5
      (IovecsAccumulator_new (mkVecOwned [] 13)) = Ok dst' /\
    view dst' = view (IovecsAccumulator_new (mkVecOwned [] 13)) ++ bs /\
    bs = publish_sample_bytes.
Proof.
  edestruct (@packet_encode_accumulators Ascii Ascii_laws (IovecsAccumulator VecOwned) _ _ V5
    publish_sample (IovecsAccumulator_new (mkVecOwned [] 13))) as (bs & Hv & Hs & _).
  { vm_compute. reflexivity. }
  eexists; exists bs. split; [|split; [exact Hv|]]; [vm_compute; reflexivity|].
  vm_compute in Hs. by injection Hs as <-.
Defined.

Lemma packet_encode_reserved_witness :
  exists dst dst'',
    reserve 13 (IovecsAccumulator_new (mkVecOwned [] 0)) = Ok dst /\
    Packet.encode (H := Ascii) publish_sample V5 dst = Ok dst''.
Proof.
  eexists. edestruct (@packet_encode_reserved Ascii Ascii_laws (IovecsAccumulator VecOwned) _ _ V5
    publish_sample (IovecsAccumulator_new (mkVecOwned [] 0))) as (dst'' & E).
  - vm_compute. reflexivity.
  - vm_compute. reflexivity.
  - exists dst''. split; [vm_compute; reflexivity | exact E].
Defined.
