(* ===== verification/Reencode.v ===== *)
(** * What decodes, encodes again

    Every packet that [Packet::decode_full] accepts is accepted by
    [Packet::encode], and the canonical bytes are no more than those received.
    [costs E n] says that the encoder [E] succeeds wherever there is room, with
    at most [n] bytes; its rules follow the structure of the code, and a class,
    [Reencodes], states for each packet type that what its decoder accepted costs
    no more than what was consumed. *)

From S2P Require Export Packet.
Local Open Scope Z_scope.

(** ** Encoders that succeed within a number of bytes *)

Definition costs (E : Encoder) (n : Z) : Prop :=
  exists ps, runs E ps None /\ len (trace_bytes ps) <= n.

Lemma costs_mono (E : Encoder) m n : costs E m -> m <= n -> costs E n.
Proof. intros (ps & Hr & Hl) Hn. exists ps. split; [done|lia]. Qed.

Lemma costs_ext (E E' : Encoder) n :
  (forall B BA b, E' B BA b = E B BA b) -> costs E n -> costs E' n.
Proof. intros H (ps & Hr & Hl). exists ps. split; [|done]. intros B BA b. by rewrite H. Qed.

Lemma costs_ok n : 0 <= n -> costs (fun _ _ dst => Ok dst) n.
Proof. exists []. by split. Qed.

Lemma costs_bind (E K : Encoder) m n k :
  costs E m -> costs K n -> m + n <= k ->
  costs (fun B BA dst => let? dst := E B BA dst in K B BA dst) k.
Proof.
  intros (ps & Hr & Hl) (ps' & Hr' & Hl') Hk. exists (ps ++ ps'). split.
  - intros B BA b. rewrite Hr, exec_app. destruct (exec ps b); [apply Hr' | done].
  - rewrite trace_bytes_app, len_app. lia.
Qed.

Lemma costs_put (p : Put) n : len (put_bytes p) <= n -> costs (fun B BA dst => exec1 p dst) n.
Proof.
  intros Hn. exists [p]. split.
  - intros B BA b. unfold exec; cbn. by destruct (exec1 p b).
  - unfold trace_bytes; cbn. by rewrite app_nil_r.
Qed.

Lemma costs_put_shared src n : len src <= n -> costs (fun B BA dst => Ok (put_shared src dst)) n.
Proof. apply (costs_put (PutShared src)). Qed.

Lemma costs_put_u8 n k : 1 <= k -> costs (fun B BA dst => put_u8 (H := BA) n dst) k.
Proof. intros Hk. apply (costs_put (PutSlice _ _)). cbn [put_bytes]. by rewrite len_to_be_bytes. Qed.

Lemma costs_put_u16 n k : 2 <= k -> costs (fun B BA dst => put_u16 (H := BA) n dst) k.
Proof. intros Hk. apply (costs_put (PutSlice _ _)). cbn [put_bytes]. by rewrite len_to_be_bytes. Qed.

Lemma costs_put_u32 n k : 4 <= k -> costs (fun B BA dst => put_u32 (H := BA) n dst) k.
Proof. intros Hk. apply (costs_put (PutSlice _ _)). cbn [put_bytes]. by rewrite len_to_be_bytes. Qed.

Lemma costs_put_slice src k :
  len src <= k -> costs (fun B BA dst => Connect.put_slice (H := BA) src dst) k.
Proof. apply (costs_put (PutSlice src _)). Qed.

Lemma costs_BinaryData d k :
  len (bd_shared d) <= k -> costs (fun B BA dst => BinaryData_encode (H := BA) d dst) k.
Proof. apply costs_put_shared. Qed.

Lemma costs_ByteStr s k :
  len (bd_shared (bs_data s)) <= k -> costs (fun B BA dst => ByteStr_encode (H := BA) s dst) k.
Proof. apply costs_put_shared. Qed.

Lemma costs_Topic t k :
  len (bd_shared (bs_data (topic_inner t))) <= k ->
  costs (fun B BA dst => Topic_encode (H := BA) t dst) k.
Proof. apply costs_put_shared. Qed.

Lemma costs_Filter f k :
  len (bd_shared (bs_data (filter_inner f))) <= k ->
  costs (fun B BA dst => Filter_encode (H := BA) f dst) k.
Proof. apply costs_put_shared. Qed.

Lemma costs_map_err f (E : Encoder) n :
  costs E n -> costs (fun B BA dst => map_err f (E B BA dst)) n.
Proof.
  intros (ps & Hr & Hl).
  set (g p := match p with PutSlice bs e => PutSlice bs (f e) | _ => p end).
  exists (map g ps). split.
  - intros B BA b. rewrite Hr. clear Hr Hl. revert b.
    unfold exec. induction ps as [|p ps IH]; intros b; cbn; [done|].
    destruct p as [bs e| |]; cbn; try apply IH.
    unfold ok_or. destruct (try_put_slice bs b); [apply IH | done].
  - replace (trace_bytes (map g ps)) with (trace_bytes ps); [done|].
    unfold trace_bytes. rewrite map_map. f_equal. apply map_ext. by intros [].
Qed.

Definition zsum (l : list Z) : Z := foldr Z.add 0 l.

Lemma zsum_app l1 l2 : zsum (l1 ++ l2) = zsum l1 + zsum l2.
Proof. unfold zsum. induction l1; cbn in *; lia. Qed.

Lemma costs_foldM {A} (E : A -> Encoder) (c : A -> Z) (l : list A) n :
  (forall x, x ∈ l -> costs (E x) (c x)) -> zsum (map c l) <= n ->
  costs (fun B BA dst => foldM (fun dst x => E x B BA dst) dst l) n.
Proof.
  revert n; induction l as [|x l IH]; intros n HE Hn; [by apply costs_ok|].
  cbn [foldM]. eapply costs_bind; [apply HE; left|apply IH|exact Hn]; [|done].
  intros; apply HE; by right.
Qed.

(** Encoders that count their output first. *)
Lemma costs_counted (E : Encoder) (F : Z -> Encoder) m n :
  costs E m -> (forall k, 0 <= k <= m -> costs (F k) n) ->
  costs (fun B BA dst =>
    let? counter := E _ (ByteCounter_accumulator true) ByteCounter_new in
    F (into_count counter) B BA dst) n.
Proof.
  intros (ps & Hr & Hl) HF.
  eapply costs_ext; [|apply (HF (len (trace_bytes ps))); pose proof (len_nonneg (trace_bytes ps)); lia].
  intros B BA b. by rewrite (runs_ByteCounter _ _ Hr).
Qed.

Lemma costs_single (E : Encoder) n s :
  costs E n -> exists bs, E _ Single_accumulator (mkSingle s) = Ok (mkSingle (s ++ bs)) /\ len bs <= n.
Proof. intros (ps & Hr & Hl). exists (trace_bytes ps). split; [|done]. by rewrite Hr, exec_single. Qed.

(** ** Variable byte integers *)

Definition varint_size (n : Z) : Z :=
  if n <? 128 then 1 else if n <? 16384 then 2 else if n <? 2097152 then 3 else 4.

Lemma varint_size_bounds n : 1 <= varint_size n <= 4.
Proof. unfold varint_size. repeat case_match; lia. Qed.

(** [k] bytes hold every number below [2 ^ (7 * k)]. *)
Lemma varint_size_le n k : 1 <= k <= 4 -> n < 2 ^ (7 * k) -> varint_size n <= k.
Proof.
  intros Hk Hn. unfold varint_size.
  assert (k = 1 \/ k = 2 \/ k = 3 \/ k = 4) as [->|[->|[->| ->]]] by lia; cbn in Hn;
    repeat case_match; bool_to_prop; lia.
Qed.

Lemma varint_size_lt n : n <= VARINT_MAX -> n < 2 ^ (7 * varint_size n).
Proof.
  unfold VARINT_MAX, varint_size. intros Hn.
  repeat case_match; bool_to_prop; cbn; lia.
Qed.

Lemma varint_size_mono m n : m <= n -> n <= VARINT_MAX -> varint_size m <= varint_size n.
Proof.
  intros Hm Hn. apply varint_size_le; [apply varint_size_bounds|].
  pose proof (varint_size_lt n Hn). lia.
Qed.

Lemma costs_varint_loop fuel original item num k :
  0 <= item < 2 ^ (7 * k) -> 1 <= k <= 4 - num -> k <= Z.of_nat fuel ->
  costs (fun B BA dst => encode_varint_loop (H := BA) fuel original item num dst) k.
Proof.
  revert item num k; induction fuel as [|fuel IH]; intros item num k Hi Hk Hf; [lia|].
  cbn [encode_varint_loop]. eapply costs_bind with (m := 1) (n := k - 1); [apply costs_put_u8; lia| |lia].
  rewrite Z.shiftr_div_pow2 by lia. change (2 ^ 7) with 128.
  pose proof (Z.div_mod item 128 ltac:(lia)). pose proof (Z.mod_pos_bound item 128 ltac:(lia)).
  destruct (item / 128 =? 0) eqn:E0; bool_to_prop; [apply costs_ok; lia|].
  assert (Hp : 2 ^ (7 * k) = 128 * 2 ^ (7 * (k - 1))) by
    (replace (7 * k) with (7 + 7 * (k - 1)) by lia; by rewrite Z.pow_add_r by lia).
  assert (k <> 1) by (intros ->; cbn in Hp; lia).
  unfold DEFAULT_REMAINING_LENGTH_FIELD_MAX_LENGTH.
  destruct (num + 1 =? 4) eqn:E4; bool_to_prop; [lia|].
  apply IH; [|lia..]. split; [apply Z.div_pos; lia|]. nia.
Qed.

Lemma costs_varint n k :
  0 <= n <= VARINT_MAX -> varint_size n <= k ->
  costs (fun B BA dst => encode_varint (H := BA) n dst) k.
Proof.
  intros Hn Hk. eapply costs_mono; [|exact Hk]. pose proof (varint_size_bounds n).
  apply costs_varint_loop; [split; [lia|apply varint_size_lt; lia]|lia..].
Qed.

Lemma costs_remaining_length n k :
  0 <= n <= VARINT_MAX -> varint_size n <= k ->
  costs (fun B BA dst => encode_remaining_length (H := BA) n dst) k.
Proof.
  intros Hn Hk. unfold encode_remaining_length.
  destruct (n >? u32_MAX) eqn:E; [rewrite Z.gtb_ltb in E; bool_to_prop; unfold VARINT_MAX, u32_MAX in *; lia|].
  by apply costs_map_err, costs_varint.
Qed.

(** The canonical encoding is no longer than the one that was read. *)
Lemma decode_varint_loop_size src result num n rest :
  bytes_ok src -> 0 <= num < 4 -> 0 <= result < 2 ^ (num * 7) ->
  decode_varint_loop result num src = Ok (Some (n, rest)) ->
  n < 2 ^ (7 * (num + (len src - len rest))).
Proof.
  revert result num; induction src as [|b src IH]; intros result num Hs Hn Hr H; [done|].
  inversion_clear Hs as [|? ? Hb Hs'].
  rewrite decode_varint_loop_cons in H by done. cbv zeta in H.
  pose proof (Z.mod_pos_bound b 128 ltac:(lia)) as Hm. rewrite len_cons.
  assert (Hp : 2 ^ ((num + 1) * 7) = 2 ^ (num * 7) * 128) by
    (rewrite Z.mul_add_distr_r, Z.pow_add_r by lia; done).
  pose proof (Z.pow_pos_nonneg 2 (num * 7) ltac:(lia) ltac:(lia)).
  destruct (b <? 128).
  - injection H as <- <-. eapply Z.lt_le_trans with (2 ^ ((num + 1) * 7)); [nia|].
    apply Z.eq_le_incl. f_equal. lia.
  - destruct (num =? 3) eqn:E; [done|]. bool_to_prop.
    apply IH in H; [|done|lia|rewrite Hp; nia].
    eapply Z.lt_le_trans; [exact H|]. apply Z.eq_le_incl. do 2 f_equal. lia.
Qed.

Lemma decode_varint_size src n rest :
  bytes_ok src -> decode_varint src = Ok (Some (n, rest)) -> varint_size n <= len src - len rest.
Proof.
  intros Hs E. pose proof (decode_varint_ok _ _ _ Hs E) as (_ & _ & Hl).
  apply varint_size_le; [lia|].
  pose proof (decode_varint_loop_size src 0 0 n rest Hs ltac:(lia) ltac:(cbn; lia) E) as H.
  by rewrite Z.add_0_l in H.
Qed.

(** ** Properties *)

Definition str_size (s : ByteStr) : Z := len (bd_shared (bs_data s)).

(** The bytes that [PropertyRef::encode] writes for a property. *)
Definition prop_size (p : Property.t) : Z :=
  match p with
  | Property.AssignedClientIdentifier s | Property.AuthenticationMethod s
  | Property.ContentType s | Property.ReasonString s | Property.ResponseInformation s
  | Property.ServerReference s => 1 + str_size s
  | Property.AuthenticationData d | Property.CorrelationData d => 1 + len (bd_shared d)
  | Property.ConnectSessionExpiryInterval i => if SessionExpiryInterval.to_u32 i >? 0 then 5 else 0
  | Property.SessionExpiryInterval _ | Property.MessageExpiryInterval _ => 5
  | Property.MaximumPacketSize n => if n <? u32_MAX then 5 else 0
  | Property.WillDelayInterval n => if n >? 0 then 5 else 0
  | Property.SubscriptionIdentifier n => 1 + varint_size n
  | Property.ReceiveMaximum n => if n <? u16_MAX then 3 else 0
  | Property.TopicAliasMaximum n => if n >? 0 then 3 else 0
  | Property.TopicAlias _ | Property.ServerKeepAlive _ => 3
  | Property.ResponseTopic t => 1 + str_size (topic_inner t)
  | Property.UserProperty name value => 1 + str_size name + str_size value
  | Property.MaximumQoS QoS.ExactlyOnce => 0
  | Property.MaximumQoS _ => 2
  | Property.PayloadIsUtf8 b | Property.RequestResponseInformation b => if b then 2 else 0
  | Property.RequestProblemInformation b | Property.RetainAvailable b
  | Property.SharedSubscriptionAvailable b | Property.SubscriptionIdentifiersAvailable b
  | Property.WildcardSubscriptionAvailable b => if negb b then 2 else 0
  end.

(** A subscription identifier is the one property that may be too large to encode. *)
Definition prop_fits (p : Property.t) : Prop :=
  match p with Property.SubscriptionIdentifier n => 0 <= n <= VARINT_MAX | _ => True end.

Definition props_size (l : list Property.t) : Z := zsum (map prop_size l).

Lemma prop_size_nonneg p : 0 <= prop_size p.
Proof.
  assert (Hs : forall s, 0 <= str_size s) by (intros; apply len_nonneg).
  assert (Hb : forall d, 0 <= len (bd_shared d)) by (intros; apply len_nonneg).
  destruct p; cbn [prop_size]; repeat case_match; try lia;
    repeat match goal with
    | |- context [str_size ?s] => pose proof (Hs s); generalize dependent (str_size s); intros
    | |- context [len (bd_shared ?d)] => pose proof (Hb d); generalize dependent (len (bd_shared d)); intros
    | |- context [varint_size ?n] => pose proof (varint_size_bounds n); generalize dependent (varint_size n); intros
    end; lia.
Qed.

Lemma props_size_nonneg l : 0 <= props_size l.
Proof.
  induction l as [|p l IH]; [done|]. change (0 <= prop_size p + props_size l).
  pose proof (prop_size_nonneg p). lia.
Qed.

Lemma props_size_app l1 l2 : props_size (l1 ++ l2) = props_size l1 + props_size l2.
Proof. unfold props_size. by rewrite map_app, zsum_app. Qed.

Lemma props_size_cons p l : props_size (p :: l) = prop_size p + props_size l.
Proof. done. Qed.

Ltac costs_tail :=
  first [ apply costs_put_u8 | apply costs_put_u16 | apply costs_put_u32 | apply costs_ByteStr
        | apply costs_BinaryData | apply costs_Topic | apply costs_Filter | apply costs_put_slice
        | apply costs_put_shared | apply costs_ok ].

(** An encoder that is a sequence of puts costs the sum of them. *)
Ltac costs_steps := repeat first [ costs_tail; reflexivity | eapply costs_bind; [costs_steps|costs_steps|try reflexivity] ].

Lemma costs_property p :
  prop_fits p -> costs (fun B BA dst => PropertyRef_encode (H := BA) p dst) (prop_size p).
Proof.
  intros Hf. destruct p; unfold PropertyRef_encode, encode_session_expiry_interval; cbn [prop_size];
    repeat match goal with
    | |- costs (fun _ _ dst => if negb ?b then _ else _) _ => destruct b; cbn [negb]
    | |- costs (fun _ _ dst => if ?c then _ else _) _ => destruct c
    | |- costs (fun _ _ dst => match ?q with _ => _ end) _ => is_var q; destruct q
    end.
  all: try (costs_steps; unfold str_size; lia).
  eapply costs_bind; [by costs_steps|apply costs_varint; [exact Hf|reflexivity]|lia].
Qed.

Lemma costs_encode_all_inner l n :
  Forall prop_fits l -> props_size l <= n ->
  costs (fun B BA dst => encode_all_inner (H := BA) l dst) n.
Proof.
  intros Hf Hn. apply (costs_foldM (fun p B BA dst => PropertyRef_encode p dst) prop_size); [|done].
  intros p Hp. rewrite Forall_forall in Hf. by apply costs_property, Hf.
Qed.

Lemma costs_encode_all l k n :
  Forall prop_fits l -> props_size l <= k -> k <= VARINT_MAX -> varint_size k + k <= n ->
  costs (fun B BA dst => encode_all (H := BA) l dst) n.
Proof.
  intros Hf Hl Hk Hn. unfold encode_all.
  apply (costs_counted (fun B BA dst => encode_all_inner (H := BA) l dst)
    (fun n B BA dst => let? dst := encode_remaining_length (H := BA) n dst in
      encode_all_inner (H := BA) l dst) k);
    [by apply costs_encode_all_inner|].
  intros j Hj. eapply costs_bind with (m := varint_size k); [|by apply costs_encode_all_inner|exact Hn].
  apply costs_remaining_length; [lia|]. apply varint_size_mono; lia.
Qed.

(** *** What was decoded *)

Section decoded.
Context `{Unicode}.

Lemma Property_decode_size src p rest :
  bytes_ok src -> Property_decode src = Ok (p, rest) ->
  prop_fits p /\ prop_size p <= len src - len rest.
Proof.
  intros Hs E. unfold Property_decode in E.
  destruct (try_get_u8 src) as [[id s1]|] eqn:E1; [|done]. decode_facts.
  assert (Hb : forall b : bool, (if b then 2 else 0) <= 2) by (intros []; lia).
  inv_ok E; decode_facts; bool_to_prop; cbn [prop_fits prop_size]; unfold str_size;
    repeat match goal with
    | |- context [if negb ?b then _ else _] => destruct b; cbn [negb]
    | |- context [if ?b then _ else _] => destruct b
    end; try (split; [done|lia]).
  unfold ok_or in E6. inv_ok E6. apply decode_varint_size in E5 as Hv; [|done].
  apply decode_varint_ok in E5 as (?&?&?); [|done]. split; lia.
Qed.

Lemma decode_properties_loop_size fuel b acc src props :
  bytes_ok src -> decode_properties_loop fuel b acc src = Ok props -> Forall prop_fits acc ->
  Forall prop_fits props /\ props_size props <= props_size acc + len src.
Proof.
  revert acc src; induction fuel as [|fuel IH]; intros acc [|x src] Hs E Ha; cbn in E;
    try (injection E as <-; rewrite len_nil; split; [done|lia]); [done|].
  destruct (Property_decode (x :: src)) as [[p s1]|] eqn:Ep; [|done].
  destruct (accept_property b acc p) as [acc'|] eqn:Ea; [|done].
  pose proof (Property_decode_ok _ _ _ Hs Ep) as (_ & Hr & _).
  apply Property_decode_size in Ep as (Hf & Hz); [|done]. apply accept_property_ok in Ea as ->.
  apply IH in E as [? Hl]; [|done|by apply Forall_app; split; [|constructor]].
  split; [done|]. rewrite props_size_app, props_size_cons in Hl.
  change (props_size []) with 0 in Hl. lia.
Qed.

(** Properties that are no larger than those decoded are encoded in no more
    bytes than were consumed. *)
Lemma costs_reencode_all b src props rest l n :
  bytes_ok src -> decode_properties b src = Ok (props, rest) ->
  (Forall prop_fits props -> Forall prop_fits l) -> props_size l <= props_size props ->
  len src - len rest <= n ->
  costs (fun B BA dst => encode_all (H := BA) l dst) n.
Proof.
  intros Hs E Hl Hz Hn. unfold decode_properties, Property_decode_all, ok_or, split_to in E.
  destruct (decode_remaining_length src) as [[[k s1]|]|] eqn:E1; [|done..].
  apply decode_varint_size in E1 as Hv; [|done].
  apply decode_varint_ok in E1 as (Hk & Hs1 & _); [|done].
  destruct (len s1 <? k) eqn:El; [done|]. bool_to_prop. cbn in E.
  destruct (decode_properties_loop _ b [] _) as [acc|] eqn:E2; [|done]. injection E as -> <-.
  apply decode_properties_loop_size in E2 as [Hf Hp]; [|by apply bytes_ok_take|constructor].
  change (props_size []) with 0 in Hp. unfold len in *. rewrite length_take in Hp. rewrite length_drop in Hn.
  eapply costs_encode_all with (k := k); [by apply Hl|lia|lia|lia].
Qed.
End decoded.

(** *** The fields of a packet take no more room than the properties they came from *)

(** The bytes of the properties of one variant. *)
Definition variant_size (v : Property.variant) (props : list Property.t) : Z :=
  props_size (List.filter (fun p => bool_decide (Property.variant_of p = v)) props).

Definition variants_size (vs : list Property.variant) (props : list Property.t) : Z :=
  zsum (map (fun v => variant_size v props) vs).

Lemma variant_size_cons v p props :
  variant_size v (p :: props)
  = (if bool_decide (Property.variant_of p = v) then prop_size p else 0) + variant_size v props.
Proof. unfold variant_size. cbn [List.filter]. by destruct (bool_decide _). Qed.

Lemma variant_size_nonneg v props : 0 <= variant_size v props.
Proof. apply props_size_nonneg. Qed.

(** A property counts for one variant. *)
Lemma variants_size_cons vs p props :
  NoDup vs -> variants_size vs (p :: props) <= prop_size p + variants_size vs props /\
  (Property.variant_of p ∉ vs -> variants_size vs (p :: props) = variants_size vs props).
Proof.
  pose proof (prop_size_nonneg p). unfold variants_size.
  induction 1 as [|v vs Hv _ [IH1 IH2]]; cbn [map zsum foldr]; [split; [cbn; lia|done]|].
  change (foldr Z.add 0) with zsum in *. rewrite variant_size_cons. split.
  - destruct (bool_decide_reflect (Property.variant_of p = v)) as [<-|]; [|lia].
    rewrite IH2 by done. lia.
  - intros [Hne Hn]%not_elem_of_cons. rewrite IH2 by done. by rewrite bool_decide_eq_false_2.
Qed.

Lemma variants_size_le vs props : NoDup vs -> variants_size vs props <= props_size props.
Proof.
  intros Hn. induction props as [|p props IH].
  - unfold variants_size. clear Hn. induction vs as [|v vs IH]; [done|]. exact IH.
  - rewrite props_size_cons. destruct (variants_size_cons vs p props Hn) as [H _]. lia.
Qed.

Lemma segment_app v vs l1 l2 props :
  props_size l1 <= variant_size v props -> props_size l2 <= variants_size vs props ->
  props_size (l1 ++ l2) <= variants_size (v :: vs) props.
Proof. intros H1 H2. rewrite props_size_app. unfold variants_size in *.
  change (zsum (map _ (v :: vs))) with (variant_size v props + zsum (map (fun v => variant_size v props) vs)). lia. Qed.

Lemma segment_last v l props :
  props_size l <= variant_size v props -> props_size l <= variants_size [v] props.
Proof. unfold variants_size. intros. cbn [map zsum foldr]. lia. Qed.

(** [g] reads a field off the properties of variant [v], which [f] writes. *)
Definition field_of {A} (v : Property.variant) (g : Property.t -> option A) (f : A -> Property.t) : Prop :=
  forall p a, g p = Some a -> Property.variant_of p = v /\ prop_size (f a) <= prop_size p.

Lemma field_size {A} v (g : Property.t -> option A) f props a :
  field_of v g f -> find_prop g props = Some a -> prop_size (f a) <= variant_size v props.
Proof.
  intros Hg. induction props as [|p props IH]; cbn [find_prop foldr]; [done|]. intros E.
  rewrite variant_size_cons. pose proof (variant_size_nonneg v props).
  destruct (g p) as [a'|] eqn:Ep.
  - injection E as ->. apply Hg in Ep as [<- Hle]. rewrite bool_decide_eq_true_2 by done. lia.
  - specialize (IH E). pose proof (prop_size_nonneg p). case_match; lia.
Qed.

Lemma segment_opt {A} v (g : Property.t -> option A) f props :
  field_of v g f -> props_size (opt_prop f (find_prop g props)) <= variant_size v props.
Proof.
  intros Hg. unfold opt_prop. destruct (find_prop g props) as [a|] eqn:E; cbn [option_map option_list].
  - rewrite props_size_cons, Z.add_0_r. by eapply field_size.
  - apply variant_size_nonneg.
Qed.

Lemma segment_default {A} v (g : Property.t -> option A) f d props :
  field_of v g f -> prop_size (f d) = 0 ->
  props_size [f (unwrap_or (find_prop g props) d)] <= variant_size v props.
Proof.
  intros Hg Hd. rewrite props_size_cons, Z.add_0_r.
  destruct (find_prop g props) as [a|] eqn:E; cbn [unwrap_or].
  - by eapply field_size.
  - rewrite Hd. apply variant_size_nonneg.
Qed.

Lemma segment_filter {A} v (g : Property.t -> option A) f props :
  field_of v g f -> props_size (map f (filter_props g props)) <= variant_size v props.
Proof.
  intros Hg. induction props as [|p props IH]; [done|]. rewrite variant_size_cons.
  unfold filter_props in *. cbn [omap list_omap]. pose proof (prop_size_nonneg p).
  destruct (g p) as [a|] eqn:Ep; [|case_match; lia].
  apply Hg in Ep as [<- Hle]. rewrite bool_decide_eq_true_2 by done. cbn [map].
  rewrite props_size_cons. lia.
Qed.

Lemma segment_user props :
  props_size (user_props (filter_props As.UserProperty props))
  <= variant_size Property.VUserProperty props.
Proof.
  apply (segment_filter _ As.UserProperty (fun '(name, value) => Property.UserProperty name value)).
  intros p [n v] E. destruct p; try discriminate E. by injection E as -> ->.
Qed.

Lemma segment_subscription_ids props :
  props_size (subscription_ids (filter_props As.SubscriptionIdentifier props))
  <= variant_size Property.VSubscriptionIdentifier props.
Proof.
  apply (segment_filter _ As.SubscriptionIdentifier Property.SubscriptionIdentifier).
  intros p n E. destruct p; try discriminate E. by injection E as ->.
Qed.

Lemma fits_opt {A} (f : A -> Property.t) o :
  (forall a, prop_fits (f a)) -> Forall prop_fits (opt_prop f o).
Proof. intros Hf. destruct o; cbn; [|done]. by constructor. Qed.

Lemma fits_user l : Forall prop_fits (user_props l).
Proof. induction l as [|[n v] l IH]; cbn; [done|]. by constructor. Qed.

Lemma fits_subscription_ids props :
  Forall prop_fits props ->
  Forall prop_fits (subscription_ids (filter_props As.SubscriptionIdentifier props)).
Proof.
  induction 1 as [|p props Hp _ IH]; [done|]. unfold filter_props. cbn.
  destruct p; cbn; try exact IH. by constructor.
Qed.

Lemma fits_subscription_id props :
  Forall prop_fits props ->
  Forall prop_fits (opt_prop Property.SubscriptionIdentifier (find_prop As.SubscriptionIdentifier props)).
Proof.
  induction 1 as [|p props Hp _ IH]; [done|]. cbn. destruct p; cbn; try exact IH. by constructor.
Qed.

Ltac props_fit :=
  repeat first [ apply Forall_app; split | apply fits_subscription_ids; assumption
    | apply fits_subscription_id; assumption | apply fits_user | apply fits_opt; intros; exact I
    | constructor; [exact I | constructor] ].

Ltac field_tac :=
  let p := fresh in let a := fresh in let E := fresh in
  intros p a E; destruct p; try discriminate E; injection E as <-; split; [cbn; reflexivity|];
  cbn [prop_size]; repeat case_match; lia.

Ltac segment :=
  first [ apply segment_user | apply segment_subscription_ids
        | eapply segment_opt; field_tac
        | eapply segment_default; [field_tac | reflexivity] ].

(** The properties of a packet, read from a list, are no larger than the list. *)
Ltac props_shrink :=
  etransitivity; [|apply variants_size_le; shelve];
  repeat (eapply segment_app; [segment|]); apply segment_last; segment.

Lemma nodup_variants (vs : list Property.variant) :
  bool_decide (NoDup vs) = true -> NoDup vs.
Proof. apply bool_decide_eq_true. Qed.

Ltac props_shrinks :=
  unshelve props_shrink; apply nodup_variants; vm_compute; reflexivity.

Lemma reason_props_shrink props :
  props_size (reason_props (reason_of_props props)) <= props_size props.
Proof. unfold reason_props, reason_of_props. cbn [reason_string user_properties]. props_shrinks. Qed.

(** ** Packets *)

(** What the decoder of [P] accepted is encoded in no more bytes than it
    consumed; two for the one packet, an empty AUTH, that has a longer canonical
    form. *)
Class Reencodes (P : Type) `{PacketMeta P} :=
  reencodes : forall flags src v p rest,
    bytes_ok src -> packet_decode flags src v = Ok (p, rest) ->
    bytes_ok rest /\
    costs (fun B BA dst => packet_encode B BA p v dst) (Z.max 2 (len src - len rest)).

#[export] Instance PingReq_reencodes : Reencodes PingReq.t.
Proof. intros flags src v p rest Hs [= <- <-]. split; [done|]. apply costs_ok. lia. Qed.

#[export] Instance PingResp_reencodes : Reencodes PingResp.t.
Proof. intros flags src v p rest Hs [= <- <-]. split; [done|]. apply costs_ok. lia. Qed.

Lemma reason_props_fit o : Forall prop_fits (reason_props o).
Proof. unfold reason_props. props_fit. Qed.
#[local] Hint Resolve reason_props_fit : core.

(** Encode the fields that were read from the properties decoded by [Ep]. *)
Ltac reencode_props Ep shrink :=
  eapply costs_reencode_all; [|exact Ep| |apply shrink|]; [done| |first [reflexivity | lia]];
  intros; first [ by auto | props_fit ].

(** The same where version [v] may have no properties; [E] is what decoded them. *)
Ltac v5_properties v E shrink :=
  destruct v; [injection E as <- <-; split; [done|]; apply costs_ok; lia|];
  match type of E with context [decode_properties ?b ?s] =>
    let Ep := fresh "Ep" in let Hr := fresh "Hr" in
    destruct (decode_properties b s) as [[? ?]|] eqn:Ep; [|done]; injection E as <- <-;
    pose proof (decode_properties_ok _ _ _ _ ltac:(eassumption) Ep) as (_ & Hr & _); split; [done|];
    cbn [is_v5]; reencode_props Ep shrink
  end.

Section acks.
Context {C : Type} `{U8CodeLaws C} `{EqDecision C} `{Unicode}.
Variables (success : C) (v3_ok : C -> bool) (negative : C -> EncodeError.t).
Hypothesis v3_success : v3_ok success = true.

Lemma ack_reencodes flags src v (p : Ack.t C) rest :
  bytes_ok src -> Ack.decode success flags src v = Ok (p, rest) ->
  bytes_ok rest /\
  costs (fun B BA dst => Ack.encode success v3_ok negative p v dst) (len src - len rest).
Proof.
  intros Hs E. unfold Ack.decode in E.
  destruct (try_get_packet_identifier src) as [[pid s1]|] eqn:E1; [|done]. decode_facts.
  unfold Ack.encode. destruct v.
  { injection E as <- <-. cbn. rewrite v3_success. split; [done|]. costs_steps. lia. }
  destruct (try_get_u8 s1) as [[b s2]|e] eqn:E2.
  2:{ destruct e; inv_ok E. split; [done|]. cbn. rewrite bool_decide_eq_true_2 by done. costs_steps. lia. }
  decode_facts. destruct (try_from_u8 b) as [rc|]; [|done]. destruct (list_is_empty s2) eqn:Ee.
  { injection E as <- <-. split; [done|]. cbn. rewrite orb_false_r.
    destruct (bool_decide _); cbn [negb]; costs_steps; lia. }
  destruct (decode_properties reason_bindings s2) as [[props s3]|] eqn:E3; [|done].
  pose proof (decode_properties_ok _ _ _ _ ltac:(eassumption) E3) as (_ & ? & ?).
  injection E as <- <-. split; [done|].
  cbn [Ack.packet_identifier Ack.reason_code Ack.other_properties].
  eapply costs_bind with (m := 2); [apply costs_put_u16; lia| |].
  - eapply costs_bind with (m := 1); [case_match; [apply costs_put_u8|apply costs_ok]; lia| |reflexivity].
    instantiate (1 := len s2 - len s3). case_match; [|apply costs_ok; lia].
    reencode_props E3 reason_props_shrink.
  - lia.
Qed.
End acks.

#[export] Instance PubAck_reencodes `{Unicode} : Reencodes PubAck.t.
Proof.
  intros flags src v p rest Hs E.
  destruct (ack_reencodes PubAckReasonCode.Success PubAck.is_success
    EncodeError.NegativePubAck eq_refl flags src v p rest Hs E) as [? Hc].
  split; [done|]. eapply costs_mono; [exact Hc|lia].
Qed.

#[export] Instance PubRec_reencodes `{Unicode} : Reencodes PubRec.t.
Proof.
  intros flags src v p rest Hs E.
  destruct (ack_reencodes PubRecReasonCode.Success PubRec.is_success
    EncodeError.NegativePubRec eq_refl flags src v p rest Hs E) as [? Hc].
  split; [done|]. eapply costs_mono; [exact Hc|lia].
Qed.

#[export] Instance PubRel_reencodes `{Unicode} : Reencodes PubRel.t.
Proof.
  intros flags src v p rest Hs E.
  destruct (ack_reencodes PubRelReasonCode.Success (fun code => bool_decide (code = PubRelReasonCode.Success))
    EncodeError.NegativePubRel (bool_decide_eq_true_2 _ eq_refl) flags src v p rest Hs E) as [? Hc].
  split; [done|]. eapply costs_mono; [exact Hc|lia].
Qed.

#[export] Instance PubComp_reencodes `{Unicode} : Reencodes PubComp.t.
Proof.
  intros flags src v p rest Hs E.
  destruct (ack_reencodes PubCompReasonCode.Success (fun code => bool_decide (code = PubCompReasonCode.Success))
    EncodeError.NegativePubComp (bool_decide_eq_true_2 _ eq_refl) flags src v p rest Hs E) as [? Hc].
  split; [done|]. eapply costs_mono; [exact Hc|lia].
Qed.

(** *** PUBLISH *)

Lemma publish_props_shrink props :
  props_size (Publish.to_props (Publish.of_props props)) <= props_size props.
Proof.
  unfold Publish.to_props, Publish.of_props. cbn [Publish.payload_is_utf8 Publish.message_expiry_interval
    Publish.topic_alias Publish.response_topic Publish.correlation_data Publish.user_properties
    Publish.subscription_identifiers Publish.content_type]. props_shrinks.
Qed.

#[export] Instance Publish_reencodes `{Unicode} : Reencodes Publish.t.
Proof.
  intros flags src v p rest Hs E. change (Publish.decode flags src v = Ok (p, rest)) in E.
  change (packet_encode) with (fun B BA => @Publish.encode B BA). cbv beta.
  unfold Publish.decode in E.
  destruct (get_topic src) as [[topic s1]|] eqn:E1; [|done]. decode_facts.
  match type of E with match ?m with _ => _ end = _ => destruct m as [[idq s2]|] eqn:E2 end; [|done].
  assert (Hi : bytes_ok s2 /\ len s2 <= len s1 /\ costs (fun B BA dst => match idq with
    | PacketIdentifierDupQoS.AtMostOnce => Ok dst
    | PacketIdentifierDupQoS.AtLeastOnce i _ | PacketIdentifierDupQoS.ExactlyOnce i _ =>
        put_u16 (H := BA) (pkid_get i) dst end) (len s1 - len s2)).
  { inv_ok E2; decode_facts; (split; [done|]); (split; [lia|]); costs_tail; lia. }
  clear E2. destruct Hi as (Hs2 & Hl & Hc). destruct v.
  - rewrite split_to_all in E. injection E as <- <-. split; [constructor|].
    unfold Publish.encode. cbn [Publish.topic_name Publish.packet_identifier_dup_qos Publish.payload is_v5].
    eapply costs_bind; [apply costs_Topic; reflexivity| |shelve].
    eapply costs_bind; [exact Hc| |reflexivity].
    apply costs_put_shared; reflexivity.
    Unshelve. rewrite len_nil. lia.
  - destruct (decode_properties _ s2) as [[props s3]|] eqn:E3; [|done].
    pose proof (decode_properties_ok _ _ _ _ Hs2 E3) as (_ & Hs3 & Hl3).
    rewrite split_to_all in E. injection E as <- <-. split; [constructor|].
    unfold Publish.encode. cbn [Publish.topic_name Publish.packet_identifier_dup_qos Publish.payload
      Publish.other_properties is_v5].
    eapply costs_bind; [apply costs_Topic; reflexivity| |shelve].
    eapply costs_bind; [exact Hc| |reflexivity].
    eapply costs_bind; [|apply costs_put_shared; reflexivity|reflexivity].
    instantiate (1 := len s2 - len s3). unfold Publish.to_props. reencode_props E3 publish_props_shrink.
    Unshelve. rewrite len_nil. lia.
Qed.

(** *** SUBSCRIBE, UNSUBSCRIBE and their acknowledgements *)

Lemma decode_while_costs {A} (decode : Shared -> decode_result (A * Shared)) (E : A -> Encoder) fuel src xs :
  (forall src x rest, bytes_ok src -> decode src = Ok (x, rest) ->
    bytes_ok rest /\ costs (E x) (len src - len rest)) ->
  bytes_ok src -> decode_while decode fuel src = Ok xs ->
  costs (fun B BA dst => foldM (fun dst x => E x B BA dst) dst xs) (len src).
Proof.
  intros Hd. revert src xs; induction fuel as [|fuel IH]; intros [|b src] xs Hs Ex; cbn in Ex;
    try (injection Ex as <-; apply costs_ok, len_nonneg); [done|].
  destruct (decode (b :: src)) as [[x s1]|] eqn:E1; [|done].
  destruct (decode_while decode fuel s1) as [xs'|] eqn:E2; [|done]. injection Ex as <-.
  apply Hd in E1 as [Hs1 Hc]; [|done]. cbn [foldM].
  eapply costs_bind; [exact Hc|by eapply IH|lia].
Qed.

Lemma costs_codes {C} (to : C -> u8) (codes : list C) n :
  len codes <= n -> costs (fun B BA dst => foldM (fun dst c => put_u8 (H := BA) (to c) dst) dst codes) n.
Proof.
  intros Hn. apply (costs_foldM (fun c B BA dst => put_u8 (to c) dst) (fun _ => 1)).
  - intros. apply costs_put_u8. lia.
  - etransitivity; [|exact Hn]. clear Hn. induction codes as [|c codes IH]; [done|].
    rewrite len_cons. change (1 + zsum (map (fun _ : C => 1) codes) <= 1 + len codes). lia.
Qed.


Section subscriptions.
Context `{Unicode}.

Lemma get_filter_size src f rest :
  bytes_ok src -> get_filter src = Ok (f, rest) ->
  bytes_ok rest /\ costs (fun B BA dst => Filter_encode (H := BA) f dst) (len src - len rest).
Proof.
  intros Hs E. unfold get_filter, ok_or in E.
  destruct (Filter_decode src) as [[[f' r]|]|] eqn:Ef; [|done..]. injection E as -> ->.
  apply Filter_decode_ok in Ef as [Hf ->]; [|done]. apply Forall_app in Hs as [_ ?].
  split; [done|]. apply costs_Filter. rewrite len_app. lia.
Qed.

Lemma subscribe_to_size v src s rest :
  bytes_ok src -> SubscribeTo.decode v src = Ok (s, rest) ->
  bytes_ok rest /\ costs (fun B BA dst => SubscribeTo.encode s v dst) (len src - len rest).
Proof.
  intros Hs E. unfold SubscribeTo.decode in E.
  destruct (get_filter src) as [[f s1]|] eqn:E1; [|done].
  apply get_filter_size in E1 as (Hs1 & Hf); [|done].
  destruct (SubscribeOptions.decode s1 v) as [[o s2]|] eqn:E2; [|done].
  apply subscribe_options_decode_ok in E2 as (_ & Hs2 & Hl2); [|done].
  destruct (_ && _); [done|]. injection E as <- <-. split; [done|].
  unfold SubscribeTo.encode, SubscribeOptions.encode. cbn [SubscribeTo.topic_filter SubscribeTo.options].
  eapply costs_bind; [exact Hf| |]; [destruct v; apply costs_put_u8; reflexivity|]. lia.
Qed.

Lemma subscribe_props_shrink props :
  props_size (Subscribe.to_props (Subscribe.of_props props)) <= props_size props.
Proof.
  unfold Subscribe.to_props, Subscribe.of_props.
  cbn [Subscribe.subscription_identifier Subscribe.user_properties]. props_shrinks.
Qed.

Lemma user_props_shrink props :
  props_size (user_props (filter_props As.UserProperty props)) <= props_size props.
Proof. props_shrinks. Qed.

#[export] Instance Subscribe_reencodes : Reencodes Subscribe.t.
Proof.
  intros flags src v p rest Hs E. change (Subscribe.decode flags src v = Ok (p, rest)) in E.
  change (packet_encode) with (fun B BA => @Subscribe.encode B BA). cbv beta.
  unfold Subscribe.decode in E.
  destruct (try_get_packet_identifier src) as [[pid s1]|] eqn:E1; [|done]. decode_facts.
  destruct (Subscribe.decode_other s1 v) as [[o s2]|] eqn:E2; [|done].
  assert (Ho : bytes_ok s2 /\ costs (fun B BA dst => Subscribe.encode_other o v dst) (len s1 - len s2)).
  { unfold Subscribe.decode_other in E2. unfold Subscribe.encode_other.
    v5_properties v E2 subscribe_props_shrink. }
  destruct Ho as [Hs2 Ho]. destruct (decode_while _ _ s2) as [subs|] eqn:E4; [|done].
  destruct (list_is_empty subs) eqn:Ee; [done|]. injection E as <- <-. split; [constructor|].
  unfold Subscribe.encode. cbn [Subscribe.packet_identifier Subscribe.subscribe_to Subscribe.other_properties].
  rewrite Ee. eapply costs_bind; [apply costs_put_u16; reflexivity| |].
  - eapply costs_bind; [exact Ho| |reflexivity].
    eapply (decode_while_costs _ (fun s B BA dst => SubscribeTo.encode s v dst)); [|exact Hs2|exact E4].
    intros ???; apply subscribe_to_size.
  - rewrite len_nil. lia.
Qed.

#[export] Instance Unsubscribe_reencodes : Reencodes Unsubscribe.t.
Proof.
  intros flags src v p rest Hs E. change (Unsubscribe.decode flags src v = Ok (p, rest)) in E.
  change (packet_encode) with (fun B BA => @Unsubscribe.encode B BA). cbv beta.
  unfold Unsubscribe.decode in E.
  destruct (try_get_packet_identifier src) as [[pid s1]|] eqn:E1; [|done]. decode_facts.
  match type of E with match ?m with _ => _ end = _ => destruct m as [[us s2]|] eqn:E2 end; [|done].
  assert (Ho : bytes_ok s2 /\ costs (fun B BA dst =>
    if is_v5 v then encode_all (H := BA) (user_props us) dst else Ok dst) (len s1 - len s2)).
  { v5_properties v E2 user_props_shrink. }
  destruct Ho as [Hs2 Ho]. destruct (decode_while _ _ s2) as [fs|] eqn:E4; [|done].
  destruct (list_is_empty fs) eqn:Ee; [done|]. injection E as <- <-. split; [constructor|].
  unfold Unsubscribe.encode. cbn [Unsubscribe.packet_identifier Unsubscribe.unsubscribe_from
    Unsubscribe.user_properties].
  rewrite Ee. eapply costs_bind; [apply costs_put_u16; reflexivity| |].
  - eapply costs_bind; [exact Ho| |reflexivity].
    eapply (decode_while_costs _ (fun f B BA dst => Filter_encode f dst)); [|exact Hs2|exact E4].
    intros ???; apply get_filter_size.
  - rewrite len_nil. lia.
Qed.

#[export] Instance SubAck_reencodes : Reencodes SubAck.t.
Proof.
  intros flags src v p rest Hs E. change (SubAck.decode flags src v = Ok (p, rest)) in E.
  change (packet_encode) with (fun B BA => @SubAck.encode B BA). cbv beta.
  unfold SubAck.decode in E.
  destruct (try_get_packet_identifier src) as [[pid s1]|] eqn:E1; [|done]. decode_facts.
  match type of E with match ?m with _ => _ end = _ => destruct m as [[o s2]|] eqn:E2 end; [|done].
  assert (Ho : bytes_ok s2 /\ costs (fun B BA dst =>
    if is_v5 v then encode_all (H := BA) (reason_props o) dst else Ok dst) (len s1 - len s2)).
  { v5_properties v E2 reason_props_shrink. }
  destruct Ho as [Hs2 Ho]. destruct (mapM_result _ s2) as [codes|] eqn:E4; [|done].
  apply mapM_result_length in E4. rewrite drop_ge in E by lia.
  destruct (list_is_empty codes); [done|]. injection E as <- <-. split; [constructor|].
  unfold SubAck.encode. cbn [SubAck.packet_identifier SubAck.reason_codes SubAck.other_properties].
  eapply costs_bind; [apply costs_put_u16; reflexivity| |].
  - eapply costs_bind; [exact Ho|apply (costs_codes (fun c => SubAck.reason_to_u8 c v)); reflexivity|reflexivity].
  - rewrite len_nil. unfold len in *. lia.
Qed.

#[export] Instance UnsubAck_reencodes : Reencodes UnsubAck.t.
Proof.
  intros flags src v p rest Hs E. change (UnsubAck.decode flags src v = Ok (p, rest)) in E.
  change (packet_encode) with (fun B BA => @UnsubAck.encode B BA). cbv beta.
  unfold UnsubAck.decode in E.
  destruct (try_get_packet_identifier src) as [[pid s1]|] eqn:E1; [|done]. decode_facts.
  unfold UnsubAck.encode. destruct v.
  { injection E as <- <-. split; [done|]. cbn. costs_steps. lia. }
  destruct (decode_properties _ s1) as [[props s2]|] eqn:E3; [|done].
  pose proof (decode_properties_ok _ _ _ _ ltac:(eassumption) E3) as (_ & Hs2 & _).
  destruct (mapM_result _ s2) as [codes|] eqn:E4; [|done].
  apply mapM_result_length in E4. rewrite drop_ge in E by lia.
  destruct (list_is_empty codes); [done|]. injection E as <- <-. split; [constructor|].
  cbn [UnsubAck.packet_identifier UnsubAck.reason_codes UnsubAck.other_properties].
  eapply costs_bind; [apply costs_put_u16; reflexivity| |].
  - eapply costs_bind; [|apply (costs_codes UnsubAckReasonCode.to_u8); reflexivity|reflexivity].
    instantiate (1 := len s1 - len s2). reencode_props E3 reason_props_shrink.
  - rewrite len_nil. unfold len in *. lia.
Qed.
End subscriptions.

(** *** CONNACK, DISCONNECT and AUTH *)

(** The fields of [Authentication] are those that were read. *)
Lemma authentication_into_parts props a :
  Authentication.of_props props = Ok a ->
  Authentication.into_parts a
  = (find_prop As.AuthenticationMethod props, find_prop As.AuthenticationData props).
Proof.
  unfold Authentication.of_props, Authentication.of_parts. intros E.
  destruct (find_prop As.AuthenticationMethod props), (find_prop As.AuthenticationData props);
    by inv_ok E.
Qed.

Lemma connack_props_shrink props o :
  ConnAck.of_props props = Ok o -> props_size (ConnAck.to_props o) <= props_size props.
Proof.
  unfold ConnAck.of_props. destruct (Authentication.of_props props) as [a|] eqn:Ea; [|done].
  intros [= <-]. unfold ConnAck.to_props, Authentication.to_props. cbn [ConnAck.authentication].
  rewrite (authentication_into_parts _ _ Ea). cbn [fst snd ConnAck.session_expiry_interval
    ConnAck.receive_maximum ConnAck.maximum_qos ConnAck.retain_available ConnAck.maximum_packet_size
    ConnAck.assigned_client_id ConnAck.topic_alias_maximum ConnAck.reason_string ConnAck.user_properties
    ConnAck.wildcard_subscription_available ConnAck.shared_subscription_available
    ConnAck.subscription_identifiers_available ConnAck.server_keep_alive ConnAck.response_information
    ConnAck.server_reference].
  props_shrinks.
Qed.

Lemma connack_props_fit o : Forall prop_fits (ConnAck.to_props o).
Proof. unfold ConnAck.to_props, Authentication.to_props. props_fit. Qed.
#[local] Hint Resolve connack_props_fit : core.

Lemma disconnect_props_shrink props :
  props_size (Disconnect.to_props (Disconnect.of_props props)) <= props_size props.
Proof.
  unfold Disconnect.to_props, Disconnect.of_props. cbn [Disconnect.session_expiry_interval
    Disconnect.reason_string Disconnect.user_properties Disconnect.server_reference]. props_shrinks.
Qed.

Lemma auth_props_shrink props rc a :
  Authentication.of_props props = Ok a ->
  props_size (Auth.to_props (Auth.mk rc a (find_prop As.ReasonString props)
    (filter_props As.UserProperty props))) <= props_size props.
Proof.
  intros Ea. unfold Auth.to_props. cbn [Auth.authentication Auth.reason_string Auth.user_properties].
  rewrite (authentication_into_parts _ _ Ea). cbn [fst snd]. props_shrinks.
Qed.

Section control.
Context `{Unicode}.

#[export] Instance ConnAck_reencodes : Reencodes ConnAck.t.
Proof.
  intros flags src v p rest Hs E. change (ConnAck.decode flags src v = Ok (p, rest)) in E.
  change (packet_encode) with (fun B BA => @ConnAck.encode B BA). cbv beta.
  unfold ConnAck.decode in E.
  destruct (decode_bool _ src) as [[sp s1]|] eqn:E1; [|done]. decode_facts.
  destruct (try_get_u8 s1) as [[b s2]|] eqn:E2; [|done]. decode_facts.
  destruct (ConnectReasonCode.try_from b sp v) as [rc|]; [|done].
  unfold ConnAck.encode. destruct v; cbn [is_v5].
  { injection E as <- <-. split; [done|]. costs_steps. lia. }
  destruct (decode_properties _ s2) as [[props s3]|] eqn:E4; [|done].
  pose proof (decode_properties_ok _ _ _ _ ltac:(eassumption) E4) as (_ & Hs3 & _).
  destruct (ConnAck.of_props props) as [o|] eqn:E5; [|done]. injection E as <- <-. split; [done|].
  cbn [ConnAck.reason_code ConnAck.other_properties].
  eapply costs_bind; [by costs_steps| |].
  - eapply costs_bind; [by costs_steps| |reflexivity]. instantiate (1 := len s2 - len s3).
    reencode_props E4 (connack_props_shrink _ _ E5).
  - lia.
Qed.

#[export] Instance Disconnect_reencodes : Reencodes Disconnect.t.
Proof.
  intros flags src v p rest Hs E. change (Disconnect.decode flags src v = Ok (p, rest)) in E.
  change (packet_encode) with (fun B BA => @Disconnect.encode B BA). cbv beta.
  unfold Disconnect.decode in E. unfold Disconnect.encode. destruct v; cbn [is_v5].
  { injection E as <- <-. split; [done|]. apply costs_ok. lia. }
  destruct (try_get_u8 src) as [[b s1]|e] eqn:E1.
  2:{ destruct e; inv_ok E. split; [done|]. cbn. rewrite bool_decide_eq_true_2 by done. apply costs_ok. lia. }
  decode_facts. destruct (DisconnectReasonCode.try_from b) as [rc|]; [|done].
  destruct (len s1 >=? 1).
  2:{ injection E as <- <-. split; [done|]. cbn. case_match; [eapply costs_mono; [by costs_steps|lia]|apply costs_ok; lia]. }
  destruct (decode_properties _ s1) as [[props s2]|] eqn:E4; [|done].
  pose proof (decode_properties_ok _ _ _ _ ltac:(eassumption) E4) as (_ & Hs2 & Hl2).
  injection E as <- <-. split; [done|]. cbn [Disconnect.reason_code Disconnect.other_properties].
  destruct (_ || _); [|apply costs_ok; lia].
  eapply costs_bind; [by costs_steps| |].
  - instantiate (1 := len s1 - len s2). case_match; [|apply costs_ok; lia].
    unfold Disconnect.to_props. reencode_props E4 disconnect_props_shrink.
  - lia.
Qed.

#[export] Instance Auth_reencodes : Reencodes Auth.t.
Proof.
  intros flags src v p rest Hs E. change (Auth.decode flags src v = Ok (p, rest)) in E.
  change (packet_encode) with (fun B BA => @Auth.encode B BA). cbv beta.
  unfold Auth.decode in E. unfold Auth.encode. destruct v; [done|].
  destruct (try_get_u8 src) as [[b s1]|e] eqn:E1.
  2:{ destruct e; inv_ok E. split; [done|]. eapply costs_bind; [by costs_steps| |].
      - apply costs_encode_all with (k := 0); [constructor|done|done|reflexivity].
      - cbn. lia. }
  decode_facts. destruct (AuthenticateReasonCode.try_from b) as [rc|]; [|done].
  destruct (decode_properties _ s1) as [[props s2]|] eqn:E4; [|done].
  pose proof (decode_properties_ok _ _ _ _ ltac:(eassumption) E4) as (_ & Hs2 & Hl2).
  destruct (Authentication.of_props props) as [au|] eqn:Ea; [|done].
  injection E as <- <-. split; [done|].
  eapply costs_bind; [by costs_steps| |].
  - instantiate (1 := len s1 - len s2). unfold Auth.to_props.
    reencode_props E4 (auth_props_shrink _ rc _ Ea).
  - lia.
Qed.
End control.

(** *** CONNECT *)

Lemma connect_props_shrink props o :
  Connect.of_props props = Ok o -> props_size (Connect.to_props o) <= props_size props.
Proof.
  unfold Connect.of_props. destruct (Authentication.of_props props) as [a|] eqn:Ea; [|done].
  intros [= <-]. unfold Connect.to_props, Authentication.to_props. cbn [Connect.authentication].
  rewrite (authentication_into_parts _ _ Ea). cbn [fst snd Connect.session_expiry_interval
    Connect.receive_maximum Connect.maximum_packet_size Connect.topic_alias_maximum
    Connect.request_response_information Connect.request_problem_information Connect.user_properties].
  props_shrinks.
Qed.

Lemma connect_props_fit o : Forall prop_fits (Connect.to_props o).
Proof. unfold Connect.to_props, Authentication.to_props. props_fit. Qed.
#[local] Hint Resolve connect_props_fit : core.

Lemma will_props_shrink props :
  props_size (Connect.will_to_props (fst (Connect.will_of_props props)) (snd (Connect.will_of_props props)))
  <= props_size props.
Proof.
  unfold Connect.will_to_props, Connect.will_of_props. cbn [fst snd Publication.payload_is_utf8
    Publication.message_expiry_interval Publication.content_type Publication.response_topic
    Publication.correlation_data Publication.user_properties]. props_shrinks.
Qed.

Section connect.
Context `{Unicode}.

(** The protocol name is read from the six bytes that are written for it. *)
Lemma decode_start_size flags src v rest :
  bytes_ok src -> Connect.decode_start flags src = Ok (v, rest) ->
  bytes_ok rest /\ len src - len rest = 7.
Proof.
  intros Hs E. unfold Connect.decode_start in E. destruct (negb (flags =? 0)); [done|].
  destruct (get_byte_str src) as [[s s1]|] eqn:E1; [|done]. decode_facts.
  destruct (str_eqb (as_ref s) PROTOCOL_NAME_STR) eqn:En; [|done]. cbn [negb] in E.
  destruct (try_get_u8 s1) as [[b s2]|] eqn:E2; [|done]. decode_facts.
  assert (Hn : len (bd_shared (bs_data s)) = 6).
  { apply str_eqb_eq in En. match goal with Hb : bs_wf s |- _ => destruct Hb as [(data & Hd & _ & _) _] end.
    change (as_ref s) with (drop 2 (bd_shared (bs_data s))) in En. rewrite Hd in *.
    rewrite len_app, len_to_be_bytes. change (drop 2 (to_be_bytes 2 (len data) ++ data)) with data in En.
    by rewrite En. }
  inv_ok E; split; done || lia.
Qed.

Lemma decode_client_id_size src id rest :
  bytes_ok src -> Connect.decode_client_id src = Ok (id, rest) ->
  bytes_ok rest /\ costs (fun B BA dst => Connect.encode_client_id (H := BA) id dst) (len src - len rest).
Proof.
  intros Hs E. unfold Connect.decode_client_id in E.
  destruct (get_byte_str src) as [[s r]|] eqn:E1; [|done]. decode_facts. injection E as <- <-.
  split; [done|]. unfold Connect.encode_client_id. destruct (negb _).
  - apply costs_ByteStr. lia.
  - apply costs_put_slice. unfold BinaryData_EMPTY. rewrite !len_cons, len_nil. lia.
Qed.

Lemma decode_username_size f src u rest :
  bytes_ok src -> Connect.decode_username f src = Ok (u, rest) ->
  bytes_ok rest /\ (is_some u = negb (Z.land f CONNECT_FLAGS_USERNAME =? 0)) /\
  costs (fun B BA dst => Connect.encode_username (H := BA) u dst) (len src - len rest).
Proof.
  intros Hs E. unfold Connect.decode_username in E. destruct (_ =? 0).
  { injection E as <- <-. split_and!; [done..|]. apply costs_ok. lia. }
  destruct (get_byte_str src) as [[s r]|] eqn:E1; [|done]. decode_facts. injection E as <- <-.
  split_and!; [done..|]. apply costs_ByteStr. lia.
Qed.

Lemma decode_password_size f src u rest :
  bytes_ok src -> Connect.decode_password f src = Ok (u, rest) ->
  bytes_ok rest /\ (is_some u = negb (Z.land f CONNECT_FLAGS_PASSWORD =? 0)) /\
  costs (fun B BA dst => Connect.encode_password (H := BA) u dst) (len src - len rest).
Proof.
  intros Hs E. unfold Connect.decode_password in E. destruct (_ =? 0).
  { injection E as <- <-. split_and!; [done..|]. apply costs_ok. lia. }
  destruct (get_binary_data src) as [[s r]|] eqn:E1; [|done]. decode_facts. injection E as <- <-.
  split_and!; [done..|]. apply costs_BinaryData. lia.
Qed.

(** The will, after its properties: [mp] bytes were taken for those. *)
Lemma decode_will_message_size v f o src w rest mp :
  bytes_ok src -> Connect.decode_will_message f o src = Ok (w, rest) ->
  costs (fun B BA dst => if is_v5 v then encode_all (H := BA) (Connect.will_to_props (fst o) (snd o)) dst
    else Ok dst) mp ->
  bytes_ok rest /\ costs (fun B BA dst => Connect.encode_will (H := BA) w v dst) (mp + (len src - len rest)).
Proof.
  intros Hs E Hp. unfold Connect.decode_will_message in E.
  destruct (get_topic src) as [[t s1]|] eqn:E1; [|done]. decode_facts.
  destruct (Connect.decode_will_qos f) as [qos|]; [|done].
  destruct (get_binary_data s1) as [[d s2]|] eqn:E2; [|done]. decode_facts. injection E as <- <-.
  split; [done|]. unfold Connect.encode_will.
  cbn [Publication.other_properties Publication.topic_name Publication.payload].
  match goal with Hw : bd_wf d |- _ => destruct Hw as (data & Hd & Hl & _) end.
  rewrite Hd in *. change (drop 2 (to_be_bytes 2 (len data) ++ data)) with data.
  destruct (len data >? u16_MAX) eqn:El; [rewrite Z.gtb_ltb in El; bool_to_prop; solve_range|].
  rewrite len_app, len_to_be_bytes in *. eapply costs_bind; [exact Hp|costs_steps|]. lia.
Qed.

Lemma decode_will_size v f src w rest :
  bytes_ok src -> decode_will v f src = Ok (w, rest) ->
  bytes_ok rest /\ costs (fun B BA dst => Connect.encode_will (H := BA) w v dst) (len src - len rest).
Proof.
  intros Hs E. destruct v; cbn [decode_will] in E; unfold Connect.decode_will_v3, Connect.decode_will_v5 in E.
  all: destruct (Z.land f CONNECT_FLAGS_WILL =? 0);
    [destruct (Connect.has_flag _ _); [done|]; injection E as <- <-; split; [done|]; apply costs_ok; lia|].
  - eapply (decode_will_message_size V3 _ _ _ _ _ 0) in E as [Hr Hc]; [|done|by apply costs_ok].
    split; [done|]. eapply costs_mono; [exact Hc|lia].
  - destruct (decode_properties _ src) as [[props s1]|] eqn:Ep; [|done].
    pose proof (decode_properties_ok _ _ _ _ Hs Ep) as (_ & Hs1 & _).
    eapply (decode_will_message_size V5 _ _ _ _ _ (len src - len s1)) in E as [Hr Hc]; [|done|].
    + split; [done|]. eapply costs_mono; [exact Hc|lia].
    + cbn [is_v5]. eapply costs_reencode_all; [|exact Ep| |apply will_props_shrink|]; [done| |lia].
      intros _. unfold Connect.will_to_props. props_fit.
Qed.

(** The flags of a password without a user name, which v3 refuses. *)
Lemma password_only_flags f :
  is_u8 f -> (Z.land f (Z.lor CONNECT_FLAGS_USERNAME CONNECT_FLAGS_PASSWORD) =? 64)
  = (Z.land f CONNECT_FLAGS_USERNAME =? 0) && negb (Z.land f CONNECT_FLAGS_PASSWORD =? 0).
Proof.
  intros Hf. apply eqb_prop.
  exact (byte_check (fun f => eqb (Z.land f (Z.lor CONNECT_FLAGS_USERNAME CONNECT_FLAGS_PASSWORD) =? 64)
    ((Z.land f CONNECT_FLAGS_USERNAME =? 0) && negb (Z.land f CONNECT_FLAGS_PASSWORD =? 0))) eq_refl f Hf).
Qed.

(** What [encode] writes after the version, given what the parts cost. *)
Lemma connect_encode_costs v p o id w u pw n :
  is_v3 v && negb (is_some (Connect.username p)) && is_some (Connect.password p) = false ->
  costs (fun B BA dst => if is_v5 v then encode_all (H := BA) (Connect.to_props (Connect.other_properties p)) dst
    else Ok dst) o ->
  costs (fun B BA dst => Connect.encode_client_id (H := BA) (Connect.client_id p) dst) id ->
  costs (fun B BA dst => Connect.encode_will (H := BA) (Connect.will p) v dst) w ->
  costs (fun B BA dst => Connect.encode_username (H := BA) (Connect.username p) dst) u ->
  costs (fun B BA dst => Connect.encode_password (H := BA) (Connect.password p) dst) pw ->
  10 + o + id + w + u + pw <= n ->
  costs (fun B BA dst => Connect.encode p v dst) n.
Proof.
  intros Hg Ho Hi Hw Hu Hp Hn. unfold Connect.encode. rewrite Hg.
  eapply costs_bind with (m := 6); [by apply costs_put_slice| |].
  - eapply costs_bind; [by costs_steps| |reflexivity].
    eapply costs_bind; [by costs_steps| |reflexivity].
    eapply costs_bind; [by costs_steps| |reflexivity].
    eapply costs_bind; [exact Ho| |reflexivity].
    eapply costs_bind; [exact Hi| |reflexivity].
    eapply costs_bind; [exact Hw| |reflexivity].
    eapply costs_bind; [exact Hu|exact Hp|reflexivity].
  - lia.
Qed.

Lemma decode_rest_v3_size src p rest :
  bytes_ok src -> Connect.decode_rest_v3 src = Ok (p, rest) ->
  bytes_ok rest /\ costs (fun B BA dst => Connect.encode p V3 dst) (7 + (len src - len rest)).
Proof.
  intros Hs E. unfold Connect.decode_rest_v3 in E.
  destruct (try_get_u8 src) as [[f s1]|] eqn:E1; [|done]. decode_facts.
  destruct (Connect.has_flag f CONNECT_FLAGS_RESERVED); [done|].
  rewrite password_only_flags in E by done.
  destruct ((Z.land f CONNECT_FLAGS_USERNAME =? 0) && _) eqn:Ef; [done|].
  destruct (try_get_u16_be s1) as [[k s2]|] eqn:E2; [|done]. decode_facts.
  destruct (Connect.decode_client_id s2) as [[id s3]|] eqn:E3; [|done].
  apply decode_client_id_size in E3 as [Hs3 Hid]; [|done].
  destruct (negb (is_some id) && _); [done|].
  destruct (Connect.decode_will_v3 f s3) as [[w s4]|] eqn:E4; [|done].
  apply (decode_will_size V3) in E4 as [Hs4 Hw]; [|done].
  destruct (Connect.decode_username f s4) as [[u s5]|] eqn:E5; [|done].
  apply decode_username_size in E5 as (Hs5 & Hu & Hcu); [|done].
  destruct (Connect.decode_password f s5) as [[pw s6]|] eqn:E6; [|done].
  apply decode_password_size in E6 as (Hs6 & Hp & Hcp); [|done]. injection E as <- <-. split; [done|].
  eapply (connect_encode_costs V3 _ 0); [cbn|by apply costs_ok|eassumption..|lia].
  by rewrite Hu, Hp, negb_involutive.
Qed.

Lemma decode_rest_v5_size src p rest :
  bytes_ok src -> Connect.decode_rest_v5 src = Ok (p, rest) ->
  bytes_ok rest /\ costs (fun B BA dst => Connect.encode p V5 dst) (7 + (len src - len rest)).
Proof.
  intros Hs E. unfold Connect.decode_rest_v5 in E.
  destruct (try_get_u8 src) as [[f s1]|] eqn:E1; [|done]. decode_facts.
  destruct (Connect.has_flag f CONNECT_FLAGS_RESERVED); [done|].
  destruct (try_get_u16_be s1) as [[k s2]|] eqn:E2; [|done]. decode_facts.
  destruct (decode_properties _ s2) as [[props s2']|] eqn:E2'; [|done].
  pose proof (decode_properties_ok _ _ _ _ ltac:(eassumption) E2') as (_ & Hs2' & _).
  destruct (Connect.decode_client_id s2') as [[id s3]|] eqn:E3; [|done].
  apply decode_client_id_size in E3 as [Hs3 Hid]; [|done].
  destruct (Connect.decode_will_v5 f s3) as [[w s4]|] eqn:E4; [|done].
  apply (decode_will_size V5) in E4 as [Hs4 Hw]; [|done].
  destruct (Connect.decode_username f s4) as [[u s5]|] eqn:E5; [|done].
  apply decode_username_size in E5 as (Hs5 & _ & Hcu); [|done].
  destruct (Connect.decode_password f s5) as [[pw s6]|] eqn:E6; [|done].
  apply decode_password_size in E6 as (Hs6 & _ & Hcp); [|done].
  destruct (Connect.of_props props) as [o|] eqn:E7; [|done]. injection E as <- <-. split; [done|].
  eapply (connect_encode_costs V5 _ (len s2 - len s2')); [done| |eassumption..|lia].
  cbn [is_v5 Connect.other_properties]. reencode_props E2' (connect_props_shrink _ _ E7).
Qed.

#[export] Instance Connect_reencodes : Reencodes Connect.t.
Proof.
  intros flags src v p rest Hs E. change (Connect.decode flags src v = Ok (p, rest)) in E.
  change (packet_encode) with (fun B BA => @Connect.encode B BA). cbv beta.
  unfold Connect.decode in E.
  destruct (Connect.decode_start flags src) as [[v' s1]|] eqn:E1; [|done].
  apply decode_start_size in E1 as [Hs1 Hl]; [|done]. destruct (negb _); [done|].
  destruct v; [apply decode_rest_v3_size in E as [? Hc]|apply decode_rest_v5_size in E as [? Hc]]; try done;
    (split; [done|]; eapply costs_mono; [exact Hc|lia]).
Qed.
End connect.

(** ** [Packet::encode] after [Packet::decode_full] *)

Section packet.
Context `{Unicode}.

Lemma costs_encode_inner {P} `{PacketMeta P} (p : P) flags v k n :
  costs (fun B BA dst => packet_encode B BA p v dst) k -> k <= VARINT_MAX ->
  1 + varint_size k + k <= n ->
  costs (fun B BA dst => Packet.encode_inner p flags dst v) n.
Proof.
  intros Hc Hk Hn.
  apply (costs_counted (fun B BA dst => packet_encode B BA p v dst)
    (fun n B BA dst => let? dst := put_u8 (H := BA) (Z.lor PACKET_TYPE flags) dst in
      let? dst := encode_remaining_length (H := BA) n dst in
      let? dst := packet_encode B BA p v dst in Ok (put_done dst)) k); [done|].
  intros j Hj. eapply costs_bind with (m := 1); [apply costs_put_u8; lia| |].
  - eapply costs_bind with (m := varint_size k); [apply costs_remaining_length; [lia|apply varint_size_mono; lia]| |reflexivity].
    eapply costs_bind; [exact Hc|by apply (costs_put PutDone 0)|reflexivity].
  - lia.
Qed.

Lemma costs_Packet_decode fb body v p n :
  bytes_ok body -> Packet.decode fb body v = Ok p -> len body <= VARINT_MAX ->
  1 + varint_size (Z.max 2 (len body)) + Z.max 2 (len body) <= n ->
  costs (fun B BA dst => Packet.encode p v dst) n.
Proof.
  intros Hb E Hm Hn. unfold Packet.decode in E. set (flags := Z.land fb 15) in *.
  match type of E with match ?m with _ => _ end = _ => destruct m as [[p' r]|] eqn:Em end; [|done].
  destruct (list_is_empty r) eqn:Er; [|done]. destruct r; [|done]. injection E as <-.
  unfold Packet.arm in Em.
  repeat match type of Em with (if ?c then _ else _) = _ => destruct c end; [..|done];
  match type of Em with match ?m with _ => _ end = _ => destruct m as [[q r']|] eqn:Eq end; try done;
  injection Em as <- ->; cbn [Packet.encode];
  (eapply costs_encode_inner; [by eapply reencodes| |]); rewrite len_nil, Z.sub_0_r;
    try exact Hn; unfold VARINT_MAX in *; lia.
Qed.
End packet.

Section reencode.
Context `{UnicodeLaws}.

(** The packet that was decoded costs no more than the bytes it was decoded from, so that it
    fits. *)
Lemma decoded_reencodes v src p :
  bytes_ok src ->
  Packet.decode_full src v = Ok p ->
  Packet.wf v p /\
  exists bs, Packet.encode p v SingleAccumulator_new = Ok (mkSingle bs) /\
    Packet.decode_full bs v = Ok p /\ len bs <= Z.max 4 (len src).
Proof.
  intros Hs Hd. assert (Hwf : Packet.wf v p) by by eapply Packet_decode_full_wf.
  split; [done|]. unfold Packet.decode_full, ok_or in Hd.
  destruct (decode_fixed_header src) as [[[[fb n] data]|]|] eqn:Eh; [|done..]. cbn in Hd.
  destruct (decode_fixed_header_split _ _ _ _ Eh) as (pre & Hsp & _).
  rewrite (drop_suffix src pre data Hsp) in Hd.
  destruct (Z.compare_spec (len data) n) as [<-| |]; [|done..].
  assert (Hdata : bytes_ok data) by (rewrite Hsp in Hs; by apply Forall_app in Hs as [_ ?]).
  assert (Hl : len data <= VARINT_MAX /\ 1 + varint_size (len data) + len data <= len src).
  { destruct src as [|b src]; [done|]. cbn in Eh. inversion_clear Hs as [|? ? _ Hs'].
    destruct (decode_remaining_length src) as [[[n' r]|]|] eqn:Er; [|done..]. injection Eh as -> -> ->.
    apply decode_varint_size in Er as Hv; [|done]. apply decode_varint_ok in Er as (?&_&?); [|done].
    rewrite len_cons. lia. }
  destruct Hl as [Hm Hl].
  destruct (costs_single (fun B BA dst => Packet.encode p v dst) _ []
    (costs_Packet_decode fb data v p _ Hdata Hd Hm ltac:(reflexivity))) as (bs & Eb & Hn).
  exists bs. split; [exact Eb|]. split.
  - destruct (wp_single _ _ _ _ (Packet_encode_wp v p) Eb) as (bs' & [= ->] & Hd'). by apply Hd'.
  - etransitivity; [exact Hn|]. pose proof (len_nonneg data).
    destruct (Z.le_gt_cases 2 (len data)); [rewrite Z.max_r by lia; lia|].
    rewrite Z.max_l by lia. change (varint_size 2) with 1. lia.
Qed.

(** C39: re-encoding what was decoded always succeeds. A packet that [Packet::decode_full]
    accepted is one that the protocol version can express, and [Packet::encode] accepts it, so
    that it is within the length that is checked there; its bytes decode to an equal packet,
    and they are no more than those received (or four, when fewer were received: an AUTH may
    come without a body), even if the input was not canonical. *)
Theorem packet_reencode v src p :
  bytes_ok src ->
  Packet.decode_full src v = Ok p ->
  Packet.wf v p /\
  exists bs, Packet.encode p v SingleAccumulator_new = Ok (mkSingle bs) /\
    Packet.decode_full bs v = Ok p /\ len bs <= Z.max 4 (len src).
Proof. apply decoded_reencodes. Qed.
End reencode.

(** A PUBACK whose remaining length takes two bytes instead of one. *)
Lemma packet_reencode_witness :
  exists p bs, @Packet.decode_full Ascii [64; 130; 0; 0; 9] V5 = Ok p /\
    Packet.encode (H := Ascii) p V5 SingleAccumulator_new = Ok (mkSingle bs) /\
    @Packet.decode_full Ascii bs V5 = Ok p /\ len bs <= 5.
Proof.
  destruct (@Packet.decode_full Ascii [64; 130; 0; 0; 9] V5) as [p|] eqn:E; [|vm_compute in E; discriminate E].
  destruct (@packet_reencode Ascii Ascii_laws V5 [64; 130; 0; 0; 9] p) as (_ & bs & H); [solve_bytes|exact E|].
  exists p, bs. split; [reflexivity|exact H].
Defined.
