(* ===== verification/Copies.v ===== *)
(** * Copies into another buffer

    [Shared::new] and [copy_to_shared] of buffer_pool.rs, and the [to_shared]
    methods of mqtt_proto, which copy a packet and everything in it into a
    buffer of another pool, one string at a time. *)

From S2P Require Export Reencode.
Local Open Scope Z_scope.

(** ** The monad: a function of [&mut O2] that returns a [Result], or panics *)

Section copier.
Context {O : Type}.

Definition copier (A : Type) : Type := O -> outcome (result PoolError (A * O)).

Definition copy_ret {A} (a : A) : copier A := fun o => Returns (Ok (a, o)).

Definition copy_bind {A B} (m : copier A) (k : A -> copier B) : copier B := fun o =>
  match m o with
  | Returns (Ok (a, o)) => k a o
  | Returns (Err e) => Returns (Err e)
  | Panics msg => Panics msg
  end.
End copier.
Arguments copier : clear implicits.

(** [let@ x := e in k] is [let x = e?; k], with the buffer threaded. *)
Notation "'let@' x := m 'in' k" := (copy_bind m (fun x => k))
  (at level 10, x pattern, m at level 200, k at level 200) : rust_scope.

Section to_shared.
Context {O : Type} `{Owned O}.

(** [if let Some(x) = &o { Some(x.to_shared(owned)?) } else { None }]. *)
Definition opt_to_shared {A} (f : A -> copier O A) (o : option A) : copier O (option A) :=
  match o with
  | Some a => let@ a := f a in copy_ret (Some a)
  | None => copy_ret None
  end.

(** [for x in l { v.push(x.to_shared(owned)?); }]. *)
Fixpoint vec_to_shared {A} (f : A -> copier O A) (l : list A) : copier O (list A) :=
  match l with
  | [] => copy_ret []
  | a :: l =>
      let@ a := f a in
      let@ l := vec_to_shared f l in
      copy_ret (a :: l)
  end.

(** ** Bytes, strings and topics *)

(** [Shared::new]. *)
Definition Shared_new (value : list u8) : copier O Shared := fun o =>
  if list_is_empty (filled o) then
    let n := len value in
    match owned_reserve n o with
    | Err e => Returns (Err e)
    | Ok o =>
        let '(o, buf) := unfilled_mut o in
        if buf <? n then Panics "range end index out of range for slice"
        else
          let o := fill_with value o in
          Returns (Ok (split_filled o))
    end
  else Panics "assertion failed: owned.filled_is_empty()".

(** [Shared::copy_to_shared]. *)
Definition copy_to_shared (this : Shared) : copier O Shared := Shared_new this.

Definition BinaryData_to_shared (this : BinaryData) : copier O BinaryData :=
  let@ s := copy_to_shared (bd_shared this) in copy_ret (mkBinaryData s).

Definition ByteStr_to_shared (this : ByteStr) : copier O ByteStr :=
  let@ s := BinaryData_to_shared (bs_data this) in copy_ret (mkByteStr s).

(** [Topic<ByteStr<S>>::to_shared]. *)
Definition Topic_to_shared (this : Topic ByteStr) : copier O (Topic ByteStr) :=
  let@ s := ByteStr_to_shared (topic_inner this) in copy_ret (mkTopic s).

(** [Topic<String>::to_shared]. *)
Definition Topic_String_to_shared (this : Topic str) : copier O (Topic ByteStr) :=
  let@ s := ByteStr_new (topic_inner this) in copy_ret (mkTopic s).

(** [Filter<ByteStr<S>>::to_shared]. *)
Definition Filter_to_shared (this : Filter ByteStr) : copier O (Filter ByteStr) :=
  let@ s := ByteStr_to_shared (filter_inner this) in copy_ret (mkFilter s (filter_kind this)).

(** [Filter<String>::to_shared]. *)
Definition Filter_String_to_shared (this : Filter str) : copier O (Filter ByteStr) :=
  let@ s := ByteStr_new (filter_inner this) in copy_ret (mkFilter s (filter_kind this)).

(** The loop over [user_properties]. *)
Definition user_property_to_shared (u : ByteStr * ByteStr) : copier O (ByteStr * ByteStr) :=
  let@ key := ByteStr_to_shared (fst u) in
  let@ val := ByteStr_to_shared (snd u) in
  copy_ret (key, val).

Definition user_properties_to_shared : list (ByteStr * ByteStr) -> copier O (list (ByteStr * ByteStr)) :=
  vec_to_shared user_property_to_shared.

Definition Authentication_to_shared (this : Authentication.t) : copier O Authentication.t :=
  let@ data := opt_to_shared BinaryData_to_shared (Authentication.data this) in
  let@ method := ByteStr_to_shared (Authentication.method this) in
  copy_ret (Authentication.mk method data).

(** ** Packets *)

(** [PubAckOtherProperties::to_shared], and those of SUBACK and UNSUBACK. *)
Definition ReasonProperties_to_shared (this : ReasonProperties) : copier O ReasonProperties :=
  let@ reason_string := opt_to_shared ByteStr_to_shared (reason_string this) in
  let@ user_properties := user_properties_to_shared (user_properties this) in
  copy_ret (mkReasonProperties reason_string user_properties).

Definition PubAck_to_shared (this : PubAck.t) : copier O PubAck.t :=
  let@ other_properties := ReasonProperties_to_shared (Ack.other_properties this) in
  copy_ret (Ack.mk (Ack.packet_identifier this) (Ack.reason_code this) other_properties).

Definition SubAck_to_shared (this : SubAck.t) : copier O SubAck.t :=
  let@ other_properties := ReasonProperties_to_shared (SubAck.other_properties this) in
  copy_ret (SubAck.mk (SubAck.packet_identifier this) (SubAck.reason_codes this) other_properties).

Definition UnsubAck_to_shared (this : UnsubAck.t) : copier O UnsubAck.t :=
  let@ other_properties := ReasonProperties_to_shared (UnsubAck.other_properties this) in
  copy_ret (UnsubAck.mk (UnsubAck.packet_identifier this) (UnsubAck.reason_codes this) other_properties).

(** [PublishOtherProperties::to_shared]. *)
Definition Publish_other_to_shared (this : Publish.OtherProperties) : copier O Publish.OtherProperties :=
  let@ response_topic := opt_to_shared Topic_to_shared (Publish.response_topic this) in
  let@ correlation_data := opt_to_shared BinaryData_to_shared (Publish.correlation_data this) in
  let@ user_properties := user_properties_to_shared (Publish.user_properties this) in
  let@ content_type := opt_to_shared ByteStr_to_shared (Publish.content_type this) in
  copy_ret (Publish.mkOther (Publish.payload_is_utf8 this) (Publish.message_expiry_interval this)
    (Publish.topic_alias this) response_topic correlation_data user_properties
    (Publish.subscription_identifiers this) content_type).

Definition Publish_to_shared (this : Publish.t) : copier O Publish.t :=
  let@ payload := copy_to_shared (Publish.payload this) in
  let@ topic_name := Topic_to_shared (Publish.topic_name this) in
  let@ other_properties := Publish_other_to_shared (Publish.other_properties this) in
  copy_ret (Publish.mk topic_name (Publish.packet_identifier_dup_qos this) (Publish.retain this)
    payload other_properties).

Definition Publication_to_shared (this : Publication.t) : copier O Publication.t :=
  let other := Publication.other_properties this in
  let@ response_topic := opt_to_shared Topic_to_shared (Publication.response_topic other) in
  let@ correlation_data := opt_to_shared BinaryData_to_shared (Publication.correlation_data other) in
  let@ user_properties := user_properties_to_shared (Publication.user_properties other) in
  let@ content_type := opt_to_shared ByteStr_to_shared (Publication.content_type other) in
  let@ payload := copy_to_shared (Publication.payload this) in
  let@ topic_name := Topic_to_shared (Publication.topic_name this) in
  copy_ret (Publication.mk topic_name (Publication.qos this) (Publication.retain this) payload
    (Publication.mkOther (Publication.payload_is_utf8 other) (Publication.message_expiry_interval other)
      response_topic correlation_data user_properties content_type)).

(** [ConnAckOtherProperties::to_shared]. *)
Definition ConnAck_other_to_shared (this : ConnAck.OtherProperties) : copier O ConnAck.OtherProperties :=
  let@ assigned_client_id := opt_to_shared ByteStr_to_shared (ConnAck.assigned_client_id this) in
  let@ reason_string := opt_to_shared ByteStr_to_shared (ConnAck.reason_string this) in
  let@ user_properties := user_properties_to_shared (ConnAck.user_properties this) in
  let@ response_information := opt_to_shared ByteStr_to_shared (ConnAck.response_information this) in
  let@ server_reference := opt_to_shared ByteStr_to_shared (ConnAck.server_reference this) in
  let@ authentication := opt_to_shared Authentication_to_shared (ConnAck.authentication this) in
  copy_ret (ConnAck.mkOther (ConnAck.session_expiry_interval this) (ConnAck.receive_maximum this)
    (ConnAck.maximum_qos this) (ConnAck.retain_available this) (ConnAck.maximum_packet_size this)
    assigned_client_id (ConnAck.topic_alias_maximum this) reason_string user_properties
    (ConnAck.wildcard_subscription_available this) (ConnAck.shared_subscription_available this)
    (ConnAck.subscription_identifiers_available this) (ConnAck.server_keep_alive this)
    response_information server_reference authentication).

Definition ConnAck_to_shared (this : ConnAck.t) : copier O ConnAck.t :=
  let@ other_properties := ConnAck_other_to_shared (ConnAck.other_properties this) in
  copy_ret (ConnAck.mk (ConnAck.reason_code this) other_properties).

(** [ConnectOtherProperties::to_shared]. *)
Definition Connect_other_to_shared (this : Connect.OtherProperties) : copier O Connect.OtherProperties :=
  let@ user_properties := user_properties_to_shared (Connect.user_properties this) in
  let@ authentication := opt_to_shared Authentication_to_shared (Connect.authentication this) in
  copy_ret (Connect.mkOther (Connect.session_expiry_interval this) (Connect.receive_maximum this)
    (Connect.maximum_packet_size this) (Connect.topic_alias_maximum this)
    (Connect.request_response_information this) (Connect.request_problem_information this)
    user_properties authentication).

Definition Connect_to_shared (this : Connect.t) : copier O Connect.t :=
  let@ username := opt_to_shared ByteStr_to_shared (Connect.username this) in
  let@ password := opt_to_shared BinaryData_to_shared (Connect.password this) in
  let@ will := opt_to_shared (fun '(will, will_delay_interval) =>
    let@ will := Publication_to_shared will in copy_ret (will, will_delay_interval)) (Connect.will this) in
  let@ client_id := opt_to_shared ByteStr_to_shared (Connect.client_id this) in
  let@ other_properties := Connect_other_to_shared (Connect.other_properties this) in
  copy_ret (Connect.mk username password will client_id (Connect.clean_start this)
    (Connect.keep_alive this) other_properties).

(** [DisconnectOtherProperties::to_shared]. *)
Definition Disconnect_other_to_shared (this : Disconnect.OtherProperties) :
    copier O Disconnect.OtherProperties :=
  let@ reason_string := opt_to_shared ByteStr_to_shared (Disconnect.reason_string this) in
  let@ user_properties := user_properties_to_shared (Disconnect.user_properties this) in
  let@ server_reference := opt_to_shared ByteStr_to_shared (Disconnect.server_reference this) in
  copy_ret (Disconnect.mkOther (Disconnect.session_expiry_interval this) reason_string
    user_properties server_reference).

Definition Disconnect_to_shared (this : Disconnect.t) : copier O Disconnect.t :=
  let@ other_properties := Disconnect_other_to_shared (Disconnect.other_properties this) in
  copy_ret (Disconnect.mk (Disconnect.reason_code this) other_properties).

Definition SubscribeTo_to_shared (this : SubscribeTo.t) : copier O SubscribeTo.t :=
  let@ topic_filter := Filter_to_shared (SubscribeTo.topic_filter this) in
  copy_ret (SubscribeTo.mk topic_filter (SubscribeTo.options this)).

(** [SubscribeOtherProperties::to_shared]. *)
Definition Subscribe_other_to_shared (this : Subscribe.OtherProperties) :
    copier O Subscribe.OtherProperties :=
  let@ user_properties := user_properties_to_shared (Subscribe.user_properties this) in
  copy_ret (Subscribe.mkOther (Subscribe.subscription_identifier this) user_properties).

Definition Subscribe_to_shared (this : Subscribe.t) : copier O Subscribe.t :=
  let@ subscribe_to := vec_to_shared SubscribeTo_to_shared (Subscribe.subscribe_to this) in
  let@ other_properties := Subscribe_other_to_shared (Subscribe.other_properties this) in
  copy_ret (Subscribe.mk (Subscribe.packet_identifier this) subscribe_to other_properties).

(** [UnsubscribeOtherProperties::to_shared] has the user properties only. *)
Definition Unsubscribe_to_shared (this : Unsubscribe.t) : copier O Unsubscribe.t :=
  let@ unsubscribe_from := vec_to_shared Filter_to_shared (Unsubscribe.unsubscribe_from this) in
  let@ user_properties := user_properties_to_shared (Unsubscribe.user_properties this) in
  copy_ret (Unsubscribe.mk (Unsubscribe.packet_identifier this) unsubscribe_from user_properties).
End to_shared.

(** ** Lemmas *)

(** The result is [a] and the buffer is left with nothing filled; or the pool
    refused a reservation. *)
Definition copied {O A} `{Owned O} (r : outcome (result PoolError (A * O))) (a : A) : Prop :=
  match r with
  | Returns (Ok (a', o')) => a' = a /\ filled o' = []
  | Returns (Err e) => exists n o, owned_reserve n o = Err e
  | Panics _ => False
  end.

Definition copies {O A} `{Owned O} (m : copier O A) (a : A) : Prop :=
  forall o, filled o = [] -> copied (m o) a.

Create HintDb copies.

Section lemmas.
Context {O : Type} `{LawfulOwned O}.

Lemma copies_ret {A} (a : A) : copies (O := O) (copy_ret a) a.
Proof. intros o Ho. by split. Qed.

Lemma copies_bind {A B} (m : copier O A) (k : A -> copier O B) a b :
  copies m a -> copies (k a) b -> copies (copy_bind m k) b.
Proof.
  intros Hm Hk o Ho. unfold copy_bind. specialize (Hm o Ho).
  destruct (m o) as [[[a' o']|e]|]; cbn in Hm; [|done..]. destruct Hm as [-> Ho']. by apply Hk.
Qed.

Lemma copies_opt {A} (f : A -> copier O A) x :
  (forall a, copies (f a) a) -> copies (opt_to_shared f x) x.
Proof.
  intros Hf. destruct x as [a|]; [|apply copies_ret]. eapply copies_bind; [apply Hf|apply copies_ret].
Qed.

Lemma copies_vec {A} (f : A -> copier O A) l :
  (forall a, copies (f a) a) -> copies (vec_to_shared f l) l.
Proof.
  intros Hf. induction l as [|a l IH]; [apply copies_ret|].
  eapply copies_bind; [apply Hf|]. eapply copies_bind; [exact IH|apply copies_ret].
Qed.

Lemma copies_Shared (s : Shared) : copies (O := O) (copy_to_shared s) s.
Proof.
  intros o Ho. unfold copy_to_shared, Shared_new. rewrite Ho. cbn [list_is_empty].
  destruct (owned_reserve (len s) o) as [o1|e] eqn:Er; [|cbn; eauto].
  pose proof (owned_reserve_filled _ _ _ Er) as Hf. rewrite Ho in Hf.
  pose proof (unfilled_mut_len _ _ (owned_reserve_capacity _ _ _ Er)) as Hl.
  pose proof (unfilled_mut_capacity o1) as Hc. pose proof (unfilled_mut_filled o1) as Hf2.
  destruct (unfilled_mut o1) as [o2 buf]. cbn in *.
  destruct (buf <? len s) eqn:Eb; bool_to_prop; [lia|].
  pose proof (fill_with_filled s o2 buf Hc Hl) as Hf3. rewrite Hf2, Hf in Hf3.
  pose proof (split_filled_shared (fill_with s o2)) as H1.
  pose proof (split_filled_rest (fill_with s o2)) as H2.
  destruct (split_filled _) as [sh o']. cbn in *. split; [congruence|done].
Qed.
End lemmas.

#[export] Hint Resolve copies_ret copies_opt copies_vec copies_Shared : copies.

Ltac copy_steps := repeat (eapply copies_bind; [by eauto with copies|]); apply copies_ret.

(** A packet is rebuilt from the copies of its parts. *)
Ltac copy_packet := intros []; copy_steps.

Section packets.
Context {O : Type} `{LawfulOwned O}.

Lemma copies_BinaryData d : copies (O := O) (BinaryData_to_shared d) d.
Proof. destruct d. copy_steps. Qed.
#[local] Hint Resolve copies_BinaryData : copies.

Lemma copies_ByteStr s : copies (O := O) (ByteStr_to_shared s) s.
Proof. destruct s. copy_steps. Qed.
#[local] Hint Resolve copies_ByteStr : copies.

Lemma copies_Topic t : copies (O := O) (Topic_to_shared t) t.
Proof. destruct t. copy_steps. Qed.
#[local] Hint Resolve copies_Topic : copies.

Lemma copies_Filter f : copies (O := O) (Filter_to_shared f) f.
Proof. destruct f. copy_steps. Qed.
#[local] Hint Resolve copies_Filter : copies.

Lemma copies_user_properties l : copies (O := O) (user_properties_to_shared l) l.
Proof. apply copies_vec. intros [n v]. copy_steps. Qed.
#[local] Hint Resolve copies_user_properties : copies.

Lemma copies_Authentication a : copies (O := O) (Authentication_to_shared a) a.
Proof. destruct a. copy_steps. Qed.
#[local] Hint Resolve copies_Authentication : copies.

Lemma copies_ReasonProperties r : copies (O := O) (ReasonProperties_to_shared r) r.
Proof. destruct r. copy_steps. Qed.
#[local] Hint Resolve copies_ReasonProperties : copies.

Lemma copies_Publish_other p : copies (O := O) (Publish_other_to_shared p) p.
Proof. destruct p. copy_steps. Qed.
#[local] Hint Resolve copies_Publish_other : copies.

Lemma copies_Publication p : copies (O := O) (Publication_to_shared p) p.
Proof. destruct p as [? ? ? ? []]. copy_steps. Qed.
#[local] Hint Resolve copies_Publication : copies.

Lemma copies_ConnAck_other p : copies (O := O) (ConnAck_other_to_shared p) p.
Proof. destruct p. copy_steps. Qed.
#[local] Hint Resolve copies_ConnAck_other : copies.

Lemma copies_Connect_other p : copies (O := O) (Connect_other_to_shared p) p.
Proof. destruct p. copy_steps. Qed.
#[local] Hint Resolve copies_Connect_other : copies.

Lemma copies_Connect p : copies (O := O) (Connect_to_shared p) p.
Proof.
  destruct p as [u pw w id cs ka o]. unfold Connect_to_shared.
  do 2 (eapply copies_bind; [by eauto with copies|]).
  eapply copies_bind; [apply (copies_opt _ w)|copy_steps]. intros [will d]. copy_steps.
Qed.

Lemma copies_Disconnect_other p : copies (O := O) (Disconnect_other_to_shared p) p.
Proof. destruct p. copy_steps. Qed.
#[local] Hint Resolve copies_Disconnect_other : copies.

Lemma copies_SubscribeTo p : copies (O := O) (SubscribeTo_to_shared p) p.
Proof. destruct p. copy_steps. Qed.
#[local] Hint Resolve copies_SubscribeTo : copies.

Lemma copies_Subscribe_other p : copies (O := O) (Subscribe_other_to_shared p) p.
Proof. destruct p. copy_steps. Qed.
#[local] Hint Resolve copies_Subscribe_other : copies.

(** The string of a topic or filter in memory, which [new] limits to 65,535 bytes. *)
Lemma ByteStr_new_copied (s : str) (o : O) :
  bytes_ok s -> len s <= u16_MAX -> filled o = [] ->
  match ByteStr_new s o with
  | Returns (Ok (b, o')) => as_ref b = s /\ bd_wf (bs_data b) /\ filled o' = []
  | Returns (Err e) => exists n o, owned_reserve n o = Err e
  | Panics _ => False
  end.
Proof.
  intros Hs Hl Ho. unfold ByteStr_new. pose proof (BinaryData_new_ok s o) as Hn.
  unfold BinaryData_new in *. rewrite Ho in *. cbn [list_is_empty] in *.
  destruct (owned_reserve _ o) as [o1|e] eqn:Er; [|eauto].
  destruct (len s >? u16_MAX) eqn:El; [rewrite Z.gtb_ltb in El; bool_to_prop; lia|].
  destruct (split_filled _) as [sh o'].
  destruct (Hn _ _ Hs eq_refl) as (? & ? & ?). auto.
Qed.

Lemma Topic_String_to_shared_copied (t : Topic str) (o : O) :
  bytes_ok (Topic_as_str t) -> len (Topic_as_str t) <= u16_MAX -> filled o = [] ->
  match Topic_String_to_shared t o with
  | Returns (Ok (t', o')) => Topic_as_str t' = Topic_as_str t /\ filled o' = []
  | Returns (Err e) => exists n o, owned_reserve n o = Err e
  | Panics _ => False
  end.
Proof.
  intros Hs Hl Ho. pose proof (ByteStr_new_copied (topic_inner t) o Hs Hl Ho) as Hn.
  unfold Topic_String_to_shared, copy_bind.
  destruct (ByteStr_new (topic_inner t) o) as [[[b o']|e]|]; [|done..]. cbn. tauto.
Qed.

Lemma Filter_String_to_shared_copied (f : Filter str) (o : O) :
  bytes_ok (Filter_as_str f) -> len (Filter_as_str f) <= u16_MAX -> filled o = [] ->
  match Filter_String_to_shared f o with
  | Returns (Ok (f', o')) =>
      Filter_as_str f' = Filter_as_str f /\ filter_kind f' = filter_kind f /\ filled o' = []
  | Returns (Err e) => exists n o, owned_reserve n o = Err e
  | Panics _ => False
  end.
Proof.
  intros Hs Hl Ho. pose proof (ByteStr_new_copied (filter_inner f) o Hs Hl Ho) as Hn.
  unfold Filter_String_to_shared, copy_bind.
  destruct (ByteStr_new (filter_inner f) o) as [[[b o']|e]|]; [|done..]. cbn. tauto.
Qed.

(** ** Property *)

(** C27: [to_shared] makes a faithful copy. On a buffer with nothing filled, the
    copy of every packet type equals the original in every field, and the buffer
    is left with nothing filled, ready for the next; the only failure is a
    reservation that the pool refuses, and nothing panics. On a buffer that holds
    something, copying bytes panics. *)
Theorem to_shared_copies (o : O) :
  (filled o <> [] -> forall s, exists m, copy_to_shared s o = Panics m) /\
  (filled o = [] ->
  (forall p, copied (Publish_to_shared p o) p) /\ (forall p, copied (Publication_to_shared p o) p) /\
  (forall p, copied (Connect_to_shared p o) p) /\ (forall p, copied (ConnAck_to_shared p o) p) /\
  (forall p, copied (Disconnect_to_shared p o) p) /\ (forall p, copied (PubAck_to_shared p o) p) /\
  (forall p, copied (Subscribe_to_shared p o) p) /\ (forall p, copied (SubAck_to_shared p o) p) /\
  (forall p, copied (Unsubscribe_to_shared p o) p) /\ (forall p, copied (UnsubAck_to_shared p o) p)).
Proof.
  split.
  { intros Ho s. unfold copy_to_shared, Shared_new. destruct (filled o); [done|]. cbn. eauto. }
  intros Ho. split_and!; intros p; revert o Ho;
    match goal with |- forall o, filled o = [] -> copied (?f p o) p => change (copies (f p) p) end;
    first [ apply copies_Publication | apply copies_Connect | destruct p; copy_steps ].
Qed.
End packets.

(** A PUBLISH copied into a growable buffer. *)
Lemma to_shared_copies_witness :
  exists p o', publish_sample = Packet.Publish p /\
    Publish_to_shared p (mkVecOwned [] 0) = Returns (Ok (p, o')) /\ filled o' = [].
Proof.
  destruct (to_shared_copies (mkVecOwned [] 0)) as [_ H0]. destruct (H0 eq_refl) as [H _].
  eexists. eexists. split; [reflexivity|]. unfold publish_sample in *.
  match goal with |- Publish_to_shared ?p _ = _ /\ _ => specialize (H p) end.
  vm_compute in H. split; [vm_compute; reflexivity|]. exact (proj2 H).
Defined.
