(* ===== verification/Comparisons.v ===== *)
(** * Equality, order and hash of the codec's strings

    The impls of [PartialEq], [Ord], [Hash] and [Borrow] in binary_data.rs and
    byte_str.rs, which skip the length prefix of the buffer; those that topic.rs and
    filter.rs derive from them; and the orders of [KeepAlive] and
    [SessionExpiryInterval] in property.rs. The contracts are those of
    the standard library: [Ord] agrees with [Eq], [Hash] agrees with [Eq], and a
    borrowed value behaves like its owner. *)

From S2P Require Export Property.
Local Open Scope Z_scope.

(** ** The standard library: slices and strings *)

(** [<[u8]>::cmp], and [str::cmp], which compares the bytes. *)
Fixpoint slice_cmp (a b : list u8) : comparison :=
  match a, b with
  | [], [] => Eq
  | [], _ :: _ => Lt
  | _ :: _, [] => Gt
  | x :: a, y :: b => match x ?= y with Eq => slice_cmp a b | c => c end
  end.

(** What is written to the [Hasher]. *)
Inductive HashWrite : Set :=
  | WriteLengthPrefix (n : usize)
  | WriteBytes (bs : list u8)
  | WriteU8 (n : u8)
  | WriteUsize (n : usize)
  | WriteDiscriminant (n : Z).

(** [<[u8] as Hash>::hash] and [<str as Hash>::hash]. *)
Definition slice_hash (s : list u8) : list HashWrite := [WriteLengthPrefix (len s); WriteBytes s].
Definition str_hash (s : str) : list HashWrite := [WriteBytes s; WriteU8 0xFF].

(** ** [impl .. for BinaryData] *)

Module BinaryDataOrd.
Definition borrow (this : BinaryData) : list u8 := BinaryData_as_bytes this.

Definition hash (this : BinaryData) : list HashWrite := slice_hash (BinaryData_as_bytes this).

Definition eq (this other : BinaryData) : bool :=
  str_eqb (BinaryData_as_bytes this) (BinaryData_as_bytes other).

(** [PartialEq<[u8]>] and [PartialEq<&[u8]>]. *)
Definition eq_slice (this : BinaryData) (other : list u8) : bool :=
  str_eqb (BinaryData_as_bytes this) other.

Definition cmp (this other : BinaryData) : comparison :=
  slice_cmp (BinaryData_as_bytes this) (BinaryData_as_bytes other).

Definition partial_cmp (this other : BinaryData) : option comparison := Some (cmp this other).
End BinaryDataOrd.

(** ** [impl .. for ByteStr] *)

Module ByteStrOrd.
Definition borrow (this : ByteStr) : str := as_ref this.

Definition hash (this : ByteStr) : list HashWrite := str_hash (as_ref this).

Definition eq (this other : ByteStr) : bool := str_eqb (as_ref this) (as_ref other).

(** [PartialEq<str>] and [PartialEq<&str>]. *)
Definition eq_str (this : ByteStr) (other : str) : bool := str_eqb (as_ref this) other.

Definition cmp (this other : ByteStr) : comparison := slice_cmp (as_ref this) (as_ref other).

Definition partial_cmp (this other : ByteStr) : option comparison := Some (cmp this other).
End ByteStrOrd.

(** ** [#[derive(Eq, Hash, Ord, PartialEq, PartialOrd)] struct Topic] over [ByteStr] *)

Module TopicOrd.
Definition borrow (this : Topic ByteStr) : str := Topic_as_str this.
Definition hash (this : Topic ByteStr) : list HashWrite := ByteStrOrd.hash (topic_inner this).
Definition eq (this other : Topic ByteStr) : bool := ByteStrOrd.eq (topic_inner this) (topic_inner other).
Definition cmp (this other : Topic ByteStr) : comparison :=
  ByteStrOrd.cmp (topic_inner this) (topic_inner other).

(** [PartialEq<str>]. *)
Definition eq_str (this : Topic ByteStr) (other : str) : bool := str_eqb (Topic_as_str this) other.
End TopicOrd.

(** ** The derived impls of [Filter], by field *)

Module FilterOrd.
(** [FilterKind], by variant. *)
Definition kind_eq (a b : FilterKind.t) : bool :=
  match a, b with
  | FilterKind.Regular, FilterKind.Regular | FilterKind.Dollar, FilterKind.Dollar => true
  | FilterKind.Shared i, FilterKind.Shared j => i =? j
  | _, _ => false
  end.

Definition kind_rank (a : FilterKind.t) : Z :=
  match a with FilterKind.Regular => 0 | FilterKind.Dollar => 1 | FilterKind.Shared _ => 2 end.

Definition kind_cmp (a b : FilterKind.t) : comparison :=
  match a, b with
  | FilterKind.Shared i, FilterKind.Shared j => i ?= j
  | _, _ => kind_rank a ?= kind_rank b
  end.

Definition kind_hash (a : FilterKind.t) : list HashWrite :=
  WriteDiscriminant (kind_rank a) ::
  match a with FilterKind.Shared i => [WriteUsize i] | _ => [] end.

Definition eq (this other : Filter ByteStr) : bool :=
  ByteStrOrd.eq (filter_inner this) (filter_inner other) && kind_eq (filter_kind this) (filter_kind other).

Definition cmp (this other : Filter ByteStr) : comparison :=
  match ByteStrOrd.cmp (filter_inner this) (filter_inner other) with
  | Eq => kind_cmp (filter_kind this) (filter_kind other)
  | c => c
  end.

Definition hash (this : Filter ByteStr) : list HashWrite :=
  ByteStrOrd.hash (filter_inner this) ++ kind_hash (filter_kind this).
End FilterOrd.

(** ** [KeepAlive], [SessionExpiryInterval] and [PacketIdentifier] *)

Module SessionExpiryOrd.
(** [#[derive(PartialEq)]]. *)
Definition eq (this other : SessionExpiryInterval.t) : bool :=
  match this, other with
  | SessionExpiryInterval.Infinite, SessionExpiryInterval.Infinite => true
  | SessionExpiryInterval.Duration a, SessionExpiryInterval.Duration b => a =? b
  | _, _ => false
  end.

(** [impl Ord]. *)
Definition cmp (this other : SessionExpiryInterval.t) : comparison :=
  SessionExpiryInterval.to_u32 this ?= SessionExpiryInterval.to_u32 other.

Definition partial_cmp (this other : SessionExpiryInterval.t) : option comparison := Some (cmp this other).
End SessionExpiryOrd.

Module KeepAliveOrd.
(** [#[derive(PartialEq)]]. *)
Definition eq (this other : KeepAlive.t) : bool :=
  match this, other with
  | KeepAlive.Infinite, KeepAlive.Infinite => true
  | KeepAlive.Duration a, KeepAlive.Duration b => a =? b
  | _, _ => false
  end.
End KeepAliveOrd.

(** [impl PartialEq<u16> for PacketIdentifier]. *)
Definition PacketIdentifier_eq_u16 (this : PacketIdentifier) (other : u16) : bool :=
  pkid_get this =? other.

(** ** The contracts *)

(** [Ord] and [Eq]: a total order whose [Equal] is equality. *)
Class LawfulOrd {A : Type} (eq : A -> A -> bool) (cmp : A -> A -> comparison) : Prop := {
  cmp_eq : forall a b, cmp a b = Eq <-> eq a b = true;
  cmp_opp : forall a b, cmp b a = CompOpp (cmp a b);
  cmp_trans : forall a b c, cmp a b = Lt -> cmp b c = Lt -> cmp a c = Lt;
}.

(** [Hash]: equal values are fed to the hasher alike. *)
Definition LawfulHash {A : Type} (eq : A -> A -> bool) (hash : A -> list HashWrite) : Prop :=
  forall a b, eq a b = true -> hash a = hash b.

Lemma slice_cmp_eq a b : slice_cmp a b = Eq <-> a = b.
Proof.
  revert b; induction a as [|x a IH]; intros [|y b]; cbn; try done.
  destruct (Z.compare_spec x y) as [->|H|H].
  - rewrite IH. split; congruence.
  - split; [done|]. intros [= -> _]. lia.
  - split; [done|]. intros [= -> _]. lia.
Qed.

Lemma slice_cmp_opp a b : slice_cmp b a = CompOpp (slice_cmp a b).
Proof.
  revert b; induction a as [|x a IH]; intros [|y b]; cbn; try done.
  rewrite (Z.compare_antisym x y). destruct (x ?= y); cbn; [apply IH|done..].
Qed.

Lemma slice_cmp_trans a b c : slice_cmp a b = Lt -> slice_cmp b c = Lt -> slice_cmp a c = Lt.
Proof.
  revert b c; induction a as [|x a IH]; intros [|y b] [|z c]; cbn; try done.
  destruct (Z.compare_spec x y), (Z.compare_spec y z), (Z.compare_spec x z); subst; try done; try lia.
  apply IH.
Qed.

#[export] Instance slice_ord : LawfulOrd str_eqb slice_cmp.
Proof.
  split.
  - intros a b. by rewrite str_eqb_eq, slice_cmp_eq.
  - apply slice_cmp_opp.
  - apply slice_cmp_trans.
Qed.

(** An order pulled back along a function. *)
Lemma pullback_ord {A B} (f : A -> B) eq cmp :
  LawfulOrd eq cmp -> LawfulOrd (fun a b => eq (f a) (f b)) (fun a b => cmp (f a) (f b)).
Proof.
  intros [H1 H2 H3]. split; [intros; apply H1 | intros; apply H2 | intros a b c; apply H3].
Qed.

(** Lexicographic combination. *)
Lemma lex_ord {A B} eq1 cmp1 eq2 cmp2 :
  @LawfulOrd A eq1 cmp1 -> @LawfulOrd B eq2 cmp2 ->
  (forall a b c, eq1 a b = true -> cmp1 a c = cmp1 b c) ->
  LawfulOrd (fun p q => eq1 (fst p) (fst q) && eq2 (snd p) (snd q))
    (fun p q => match cmp1 (fst p) (fst q) with Eq => cmp2 (snd p) (snd q) | c => c end).
Proof.
  intros [A1 A2 A3] [B1 B2 B3] Hc. split.
  - intros [a b] [a' b']. cbn. rewrite andb_true_iff, <- A1, <- B1. destruct (cmp1 a a'); intuition congruence.
  - intros [a b] [a' b']. cbn. rewrite A2. destruct (cmp1 a a'); cbn; [apply B2|done..].
  - intros [a b] [a' b'] [a'' b'']. cbn. destruct (cmp1 a a') eqn:E1; [|..].
    + rewrite (Hc a a' a'') by (by apply A1). destruct (cmp1 a' a''); try done. apply B3.
    + intros _. destruct (cmp1 a' a'') eqn:E2.
      * intros _. apply A1 in E2. assert (E3 : cmp1 a'' a = Gt).
        { rewrite <- (Hc a' a'' a E2), A2, E1. done. }
        rewrite A2, E3. done.
      * intros _. by rewrite (A3 a a' a'').
      * done.
    + done.
Qed.

Lemma kind_ord : LawfulOrd FilterOrd.kind_eq FilterOrd.kind_cmp.
Proof.
  split.
  - intros [| |i] [| |j]; cbn; try done. by rewrite Z.compare_eq_iff, Z.eqb_eq.
  - intros [| |i] [| |j]; cbn; try done. apply Z.compare_antisym.
  - intros [| |i] [| |j] [| |k]; cbn; try done. rewrite !Z.compare_lt_iff. lia.
Qed.

Lemma kind_hash_lawful : LawfulHash FilterOrd.kind_eq FilterOrd.kind_hash.
Proof. intros [| |i] [| |j]; cbn; try done. by intros ->%Z.eqb_eq. Qed.

Lemma byte_str_ord : LawfulOrd ByteStrOrd.eq ByteStrOrd.cmp.
Proof. apply (pullback_ord (fun s : ByteStr => as_ref s) _ _ slice_ord). Qed.

Lemma byte_str_cmp_eq a b c : ByteStrOrd.eq a b = true -> ByteStrOrd.cmp a c = ByteStrOrd.cmp b c.
Proof. unfold ByteStrOrd.eq, ByteStrOrd.cmp. by intros ->%str_eqb_eq. Qed.

Lemma filter_ord : LawfulOrd FilterOrd.eq FilterOrd.cmp.
Proof.
  apply (pullback_ord (fun f : Filter ByteStr => (filter_inner f, filter_kind f)) _ _
    (lex_ord _ _ _ _ byte_str_ord kind_ord byte_str_cmp_eq)).
Qed.

(** On the values that decoding and construction produce, the bytes without the
    prefix determine the buffer. *)
Lemma bd_wf_inj a b : bd_wf a -> bd_wf b -> BinaryData_as_bytes a = BinaryData_as_bytes b -> a = b.
Proof.
  intros (da & Ha & _) (db & Hb & _) E. destruct a as [a], b as [b]. cbn in Ha, Hb. subst.
  assert (da = db) as -> by exact E. done.
Qed.

(** ** Properties *)

Section comparisons.
Context `{Unicode}.

(** Strings keep the contracts of the standard library. The order of binary data,
    strings, topics and filters is total, antisymmetric and transitive, its
    [Equal] is [==], equal values hash alike, and comparing, ordering and hashing
    agree with the borrowed slice or string, so that maps keyed by them can be
    searched with a slice or string; and on well-formed values [==] is identity of the
    buffers, length prefix included. *)
Theorem string_comparisons_lawful :
  (LawfulOrd BinaryDataOrd.eq BinaryDataOrd.cmp /\ LawfulOrd ByteStrOrd.eq ByteStrOrd.cmp /\
   LawfulOrd TopicOrd.eq TopicOrd.cmp /\ LawfulOrd FilterOrd.eq FilterOrd.cmp) /\
  (LawfulHash BinaryDataOrd.eq BinaryDataOrd.hash /\ LawfulHash ByteStrOrd.eq ByteStrOrd.hash /\
   LawfulHash TopicOrd.eq TopicOrd.hash /\ LawfulHash FilterOrd.eq FilterOrd.hash) /\
  (forall a b, BinaryDataOrd.eq a b = BinaryDataOrd.eq_slice a (BinaryDataOrd.borrow b) /\
    BinaryDataOrd.cmp a b = slice_cmp (BinaryDataOrd.borrow a) (BinaryDataOrd.borrow b) /\
    BinaryDataOrd.hash a = slice_hash (BinaryDataOrd.borrow a)) /\
  (forall a b, TopicOrd.eq a b = TopicOrd.eq_str a (TopicOrd.borrow b) /\
    TopicOrd.cmp a b = slice_cmp (TopicOrd.borrow a) (TopicOrd.borrow b) /\
    TopicOrd.hash a = str_hash (TopicOrd.borrow a)) /\
  (forall a b, bd_wf a -> bd_wf b -> (BinaryDataOrd.eq a b = true <-> a = b)) /\
  (forall a b, bs_wf a -> bs_wf b -> (ByteStrOrd.eq a b = true <-> a = b)).
Proof.
  split_and!; try done.
  - apply (pullback_ord BinaryData_as_bytes _ _ slice_ord).
  - apply byte_str_ord.
  - apply (pullback_ord (fun t : Topic ByteStr => as_ref (topic_inner t)) _ _ slice_ord).
  - apply filter_ord.
  - intros a b E%str_eqb_eq. unfold BinaryDataOrd.hash. by rewrite E.
  - intros a b E%str_eqb_eq. unfold ByteStrOrd.hash. by rewrite E.
  - intros a b E%str_eqb_eq. unfold TopicOrd.hash, ByteStrOrd.hash. by rewrite E.
  - intros a b [E%str_eqb_eq Ek]%andb_true_iff. unfold FilterOrd.hash, ByteStrOrd.hash.
    by rewrite E, (kind_hash_lawful _ _ Ek).
  - intros a b Ha Hb. unfold BinaryDataOrd.eq. rewrite str_eqb_eq. split; [by apply bd_wf_inj|by intros ->].
  - intros [a] [b] [Ha _] [Hb _]. cbn in Ha, Hb. unfold ByteStrOrd.eq. rewrite str_eqb_eq.
    split; [|by intros [= ->]]. intros E. f_equal. by apply bd_wf_inj.
Qed.
End comparisons.

(** Two buffers that hold "ab" are one value, and one that holds "a" differs. *)
Lemma string_comparisons_lawful_witness :
  let ab := mkBinaryData [0; 2; 97; 98] in
  let a := mkBinaryData [0; 1; 97] in
  bd_wf ab /\ bd_wf a /\ (BinaryDataOrd.eq ab a = true <-> ab = a) /\ BinaryDataOrd.eq ab a = false.
Proof.
  assert (Hab : bd_wf (mkBinaryData [0; 2; 97; 98]))
    by (exists [97; 98]; split_and!; [done | by vm_compute | repeat constructor; solve_range]).
  assert (Ha : bd_wf (mkBinaryData [0; 1; 97]))
    by (exists [97]; split_and!; [done | by vm_compute | repeat constructor; solve_range]).
  split_and!; [exact Hab | exact Ha | | done].
  by apply (@string_comparisons_lawful Ascii).
Defined.

(** [impl Ord for SessionExpiryInterval] breaks the contract with the derived
    [PartialEq]: an infinite interval and one of [u32::MAX] seconds compare as
    [Equal] and are different. Among the values that decoding yields the contract holds. *)
Theorem session_expiry_order_deviates :
  (exists a b, SessionExpiryOrd.cmp a b = Eq /\ SessionExpiryOrd.eq a b = false) /\
  (forall a b, SessionExpiryInterval.wf a -> SessionExpiryInterval.wf b ->
    (SessionExpiryOrd.cmp a b = Eq <-> SessionExpiryOrd.eq a b = true)).
Proof.
  split.
  - exists SessionExpiryInterval.Infinite, (SessionExpiryInterval.Duration u32_MAX). done.
  - intros a b Ha Hb. unfold SessionExpiryOrd.cmp. rewrite Z.compare_eq_iff.
    destruct a as [|a], b as [|b]; cbn in *; rewrite ?Z.eqb_eq; try done; split; intros; try done; lia.
Qed.

(** [KeepAlive], whose order treats no keep-alive as the longest, keeps it. *)
Lemma keep_alive_order a b : KeepAlive.partial_cmp a b = Eq <-> KeepAliveOrd.eq a b = true.
Proof. destruct a, b; cbn; try done. by rewrite Z.compare_eq_iff, Z.eqb_eq. Qed.
