(* ===== verification/PacketEq.v ===== *)
(** * Equality of packets

    The [PartialEq] that the packet structs and [enum Packet] of mqtt_proto.rs and
    mqtt_proto/*.rs derive: field by field in the order of declaration, down to the
    strings, which compare their text (Comparisons.v), and the payload, which compares
    its bytes. *)

From S2P Require Export Comparisons Packet.
Local Open Scope Z_scope.

(** [trait PartialEq]. *)
Class PartialEq (A : Type) := partial_eq : A -> A -> bool.

Declare Scope partial_eq_scope.
Infix "==" := partial_eq (at level 70, no associativity) : partial_eq_scope.
Local Open Scope partial_eq_scope.

(** ** Integers, strings and containers *)

#[export] Instance int_PartialEq : PartialEq Z := Z.eqb.
#[export] Instance bool_PartialEq : PartialEq bool := Bool.eqb.
#[export] Instance bytes_PartialEq : PartialEq Shared := str_eqb.
#[export] Instance BinaryData_PartialEq : PartialEq BinaryData := BinaryDataOrd.eq.
#[export] Instance ByteStr_PartialEq : PartialEq ByteStr := ByteStrOrd.eq.
#[export] Instance Topic_PartialEq : PartialEq (Topic ByteStr) := TopicOrd.eq.
#[export] Instance Filter_PartialEq : PartialEq (Filter ByteStr) := FilterOrd.eq.

#[export] Instance option_PartialEq {A} `{PartialEq A} : PartialEq (option A) := fun x y =>
  match x, y with
  | Some a, Some b => a == b
  | None, None => true
  | _, _ => false
  end.

#[export] Instance pair_PartialEq {A B} `{PartialEq A} `{PartialEq B} : PartialEq (A * B) := fun x y =>
  (fst x == fst y) && (snd x == snd y).

(** [Vec]: the lengths, and then the elements. *)
Fixpoint vec_eq {A} `{PartialEq A} (x y : list A) : bool :=
  match x, y with
  | a :: x, b :: y => (a == b) && vec_eq x y
  | [], [] => true
  | _, _ => false
  end.
#[export] Instance vec_PartialEq {A} `{PartialEq A} : PartialEq (list A) | 10 := vec_eq.

(** A field-less enum: its discriminant. *)
#[export] Instance PacketIdentifier_PartialEq : PartialEq PacketIdentifier := fun a b => bool_decide (a = b).
#[export] Instance QoS_PartialEq : PartialEq QoS.t := fun a b => bool_decide (a = b).
#[export] Instance RetainHandling_PartialEq : PartialEq RetainHandling.t := fun a b => bool_decide (a = b).
#[export] Instance AuthenticateReasonCode_PartialEq : PartialEq AuthenticateReasonCode.t := fun a b => bool_decide (a = b).
#[export] Instance ConnectionRefusedReason_PartialEq : PartialEq ConnectionRefusedReason.t := fun a b => bool_decide (a = b).
#[export] Instance DisconnectReasonCode_PartialEq : PartialEq DisconnectReasonCode.t := fun a b => bool_decide (a = b).
#[export] Instance PubAckReasonCode_PartialEq : PartialEq PubAckReasonCode.t := fun a b => bool_decide (a = b).
#[export] Instance PubRecReasonCode_PartialEq : PartialEq PubRecReasonCode.t := fun a b => bool_decide (a = b).
#[export] Instance PubRelReasonCode_PartialEq : PartialEq PubRelReasonCode.t := fun a b => bool_decide (a = b).
#[export] Instance PubCompReasonCode_PartialEq : PartialEq PubCompReasonCode.t := fun a b => bool_decide (a = b).
#[export] Instance SubscribeReasonCode_PartialEq : PartialEq SubscribeReasonCode.t := fun a b => bool_decide (a = b).
#[export] Instance UnsubAckReasonCode_PartialEq : PartialEq UnsubAckReasonCode.t := fun a b => bool_decide (a = b).

#[export] Instance KeepAlive_PartialEq : PartialEq KeepAlive.t := KeepAliveOrd.eq.

#[export] Instance SessionExpiryInterval_PartialEq : PartialEq SessionExpiryInterval.t := SessionExpiryOrd.eq.

#[export] Instance PacketIdentifierDupQoS_PartialEq : PartialEq PacketIdentifierDupQoS.t := fun a b =>
  match a, b with
  | PacketIdentifierDupQoS.AtMostOnce, PacketIdentifierDupQoS.AtMostOnce => true
  | PacketIdentifierDupQoS.AtLeastOnce p d, PacketIdentifierDupQoS.AtLeastOnce p' d' => (p == p') && (d == d')
  | PacketIdentifierDupQoS.ExactlyOnce p d, PacketIdentifierDupQoS.ExactlyOnce p' d' => (p == p') && (d == d')
  | _, _ => false
  end.

#[export] Instance ConnectReasonCode_PartialEq : PartialEq ConnectReasonCode.t := fun a b =>
  match a, b with
  | ConnectReasonCode.Success s, ConnectReasonCode.Success s' => s == s'
  | ConnectReasonCode.Refused r, ConnectReasonCode.Refused r' => r == r'
  | _, _ => false
  end.

(** ** The structs, by field *)

#[export] Instance ReasonProperties_PartialEq : PartialEq ReasonProperties := fun a b =>
  (reason_string a == reason_string b)
  && (user_properties a == user_properties b).

#[export] Instance Ack_PartialEq {C} `{PartialEq C} : PartialEq (Ack.t C) := fun a b =>
  (Ack.packet_identifier a == Ack.packet_identifier b)
  && (Ack.reason_code a == Ack.reason_code b)
  && (Ack.other_properties a == Ack.other_properties b).

#[export] Instance Authentication_PartialEq : PartialEq Authentication.t := fun a b =>
  (Authentication.method a == Authentication.method b)
  && (Authentication.data a == Authentication.data b).

#[export] Instance ConnAck_other_PartialEq : PartialEq ConnAck.OtherProperties := fun a b =>
  (ConnAck.session_expiry_interval a == ConnAck.session_expiry_interval b)
  && (ConnAck.receive_maximum a == ConnAck.receive_maximum b)
  && (ConnAck.maximum_qos a == ConnAck.maximum_qos b)
  && (ConnAck.retain_available a == ConnAck.retain_available b)
  && (ConnAck.maximum_packet_size a == ConnAck.maximum_packet_size b)
  && (ConnAck.assigned_client_id a == ConnAck.assigned_client_id b)
  && (ConnAck.topic_alias_maximum a == ConnAck.topic_alias_maximum b)
  && (ConnAck.reason_string a == ConnAck.reason_string b)
  && (ConnAck.user_properties a == ConnAck.user_properties b)
  && (ConnAck.wildcard_subscription_available a == ConnAck.wildcard_subscription_available b)
  && (ConnAck.shared_subscription_available a == ConnAck.shared_subscription_available b)
  && (ConnAck.subscription_identifiers_available a == ConnAck.subscription_identifiers_available b)
  && (ConnAck.server_keep_alive a == ConnAck.server_keep_alive b)
  && (ConnAck.response_information a == ConnAck.response_information b)
  && (ConnAck.server_reference a == ConnAck.server_reference b)
  && (ConnAck.authentication a == ConnAck.authentication b).

#[export] Instance ConnAck_PartialEq : PartialEq ConnAck.t := fun a b =>
  (ConnAck.reason_code a == ConnAck.reason_code b)
  && (ConnAck.other_properties a == ConnAck.other_properties b).

#[export] Instance Disconnect_other_PartialEq : PartialEq Disconnect.OtherProperties := fun a b =>
  (Disconnect.session_expiry_interval a == Disconnect.session_expiry_interval b)
  && (Disconnect.reason_string a == Disconnect.reason_string b)
  && (Disconnect.user_properties a == Disconnect.user_properties b)
  && (Disconnect.server_reference a == Disconnect.server_reference b).

#[export] Instance Disconnect_PartialEq : PartialEq Disconnect.t := fun a b =>
  (Disconnect.reason_code a == Disconnect.reason_code b)
  && (Disconnect.other_properties a == Disconnect.other_properties b).

#[export] Instance Auth_PartialEq : PartialEq Auth.t := fun a b =>
  (Auth.reason_code a == Auth.reason_code b)
  && (Auth.authentication a == Auth.authentication b)
  && (Auth.reason_string a == Auth.reason_string b)
  && (Auth.user_properties a == Auth.user_properties b).

#[export] Instance Publish_other_PartialEq : PartialEq Publish.OtherProperties := fun a b =>
  (Publish.payload_is_utf8 a == Publish.payload_is_utf8 b)
  && (Publish.message_expiry_interval a == Publish.message_expiry_interval b)
  && (Publish.topic_alias a == Publish.topic_alias b)
  && (Publish.response_topic a == Publish.response_topic b)
  && (Publish.correlation_data a == Publish.correlation_data b)
  && (Publish.user_properties a == Publish.user_properties b)
  && (Publish.subscription_identifiers a == Publish.subscription_identifiers b)
  && (Publish.content_type a == Publish.content_type b).

#[export] Instance Publish_PartialEq : PartialEq Publish.t := fun a b =>
  (Publish.topic_name a == Publish.topic_name b)
  && (Publish.packet_identifier_dup_qos a == Publish.packet_identifier_dup_qos b)
  && (Publish.retain a == Publish.retain b)
  && (Publish.payload a == Publish.payload b)
  && (Publish.other_properties a == Publish.other_properties b).

#[export] Instance Publication_other_PartialEq : PartialEq Publication.OtherProperties := fun a b =>
  (Publication.payload_is_utf8 a == Publication.payload_is_utf8 b)
  && (Publication.message_expiry_interval a == Publication.message_expiry_interval b)
  && (Publication.response_topic a == Publication.response_topic b)
  && (Publication.correlation_data a == Publication.correlation_data b)
  && (Publication.user_properties a == Publication.user_properties b)
  && (Publication.content_type a == Publication.content_type b).

#[export] Instance Publication_PartialEq : PartialEq Publication.t := fun a b =>
  (Publication.topic_name a == Publication.topic_name b)
  && (Publication.qos a == Publication.qos b)
  && (Publication.retain a == Publication.retain b)
  && (Publication.payload a == Publication.payload b)
  && (Publication.other_properties a == Publication.other_properties b).

#[export] Instance Connect_other_PartialEq : PartialEq Connect.OtherProperties := fun a b =>
  (Connect.session_expiry_interval a == Connect.session_expiry_interval b)
  && (Connect.receive_maximum a == Connect.receive_maximum b)
  && (Connect.maximum_packet_size a == Connect.maximum_packet_size b)
  && (Connect.topic_alias_maximum a == Connect.topic_alias_maximum b)
  && (Connect.request_response_information a == Connect.request_response_information b)
  && (Connect.request_problem_information a == Connect.request_problem_information b)
  && (Connect.user_properties a == Connect.user_properties b)
  && (Connect.authentication a == Connect.authentication b).

#[export] Instance Connect_PartialEq : PartialEq Connect.t := fun a b =>
  (Connect.username a == Connect.username b)
  && (Connect.password a == Connect.password b)
  && (Connect.will a == Connect.will b)
  && (Connect.client_id a == Connect.client_id b)
  && (Connect.clean_start a == Connect.clean_start b)
  && (Connect.keep_alive a == Connect.keep_alive b)
  && (Connect.other_properties a == Connect.other_properties b).

#[export] Instance SubscribeOptions_other_PartialEq : PartialEq SubscribeOptions.OtherProperties := fun a b =>
  (SubscribeOptions.no_local a == SubscribeOptions.no_local b)
  && (SubscribeOptions.retain_as_published a == SubscribeOptions.retain_as_published b)
  && (SubscribeOptions.retain_handling a == SubscribeOptions.retain_handling b).

#[export] Instance SubscribeOptions_PartialEq : PartialEq SubscribeOptions.t := fun a b =>
  (SubscribeOptions.maximum_qos a == SubscribeOptions.maximum_qos b)
  && (SubscribeOptions.other_properties a == SubscribeOptions.other_properties b).

#[export] Instance SubscribeTo_PartialEq : PartialEq SubscribeTo.t := fun a b =>
  (SubscribeTo.topic_filter a == SubscribeTo.topic_filter b)
  && (SubscribeTo.options a == SubscribeTo.options b).

#[export] Instance Subscribe_other_PartialEq : PartialEq Subscribe.OtherProperties := fun a b =>
  (Subscribe.subscription_identifier a == Subscribe.subscription_identifier b)
  && (Subscribe.user_properties a == Subscribe.user_properties b).

#[export] Instance Subscribe_PartialEq : PartialEq Subscribe.t := fun a b =>
  (Subscribe.packet_identifier a == Subscribe.packet_identifier b)
  && (Subscribe.subscribe_to a == Subscribe.subscribe_to b)
  && (Subscribe.other_properties a == Subscribe.other_properties b).

#[export] Instance Unsubscribe_PartialEq : PartialEq Unsubscribe.t := fun a b =>
  (Unsubscribe.packet_identifier a == Unsubscribe.packet_identifier b)
  && (Unsubscribe.unsubscribe_from a == Unsubscribe.unsubscribe_from b)
  && (Unsubscribe.user_properties a == Unsubscribe.user_properties b).

#[export] Instance SubAck_PartialEq : PartialEq SubAck.t := fun a b =>
  (SubAck.packet_identifier a == SubAck.packet_identifier b)
  && (SubAck.reason_codes a == SubAck.reason_codes b)
  && (SubAck.other_properties a == SubAck.other_properties b).

#[export] Instance UnsubAck_PartialEq : PartialEq UnsubAck.t := fun a b =>
  (UnsubAck.packet_identifier a == UnsubAck.packet_identifier b)
  && (UnsubAck.reason_codes a == UnsubAck.reason_codes b)
  && (UnsubAck.other_properties a == UnsubAck.other_properties b).

(** [PartialEq for Packet], by variant. *)
#[export] Instance Packet_PartialEq : PartialEq Packet.t := fun a b =>
  match a, b with
  | Packet.Auth a, Packet.Auth b => a == b
  | Packet.ConnAck a, Packet.ConnAck b => a == b
  | Packet.Connect a, Packet.Connect b => a == b
  | Packet.Disconnect a, Packet.Disconnect b => a == b
  | Packet.PingReq _, Packet.PingReq _ => true
  | Packet.PingResp _, Packet.PingResp _ => true
  | Packet.PubAck a, Packet.PubAck b => Ack_PartialEq a b
  | Packet.PubComp a, Packet.PubComp b => Ack_PartialEq a b
  | Packet.PubRec a, Packet.PubRec b => Ack_PartialEq a b
  | Packet.PubRel a, Packet.PubRel b => Ack_PartialEq a b
  | Packet.Publish a, Packet.Publish b => a == b
  | Packet.SubAck a, Packet.SubAck b => a == b
  | Packet.Subscribe a, Packet.Subscribe b => a == b
  | Packet.UnsubAck a, Packet.UnsubAck b => a == b
  | Packet.Unsubscribe a, Packet.Unsubscribe b => a == b
  | _, _ => false
  end.

(** ** [Eq]: the equality is reflexive *)

(** [trait Eq]. *)
Class EqLaw (A : Type) `{PartialEq A} := eq_refl_law : forall a : A, (a == a) = true.

Lemma str_eqb_refl s : str_eqb s s = true.
Proof. by apply bool_decide_eq_true. Qed.
Lemma kind_eq_refl k : FilterOrd.kind_eq k k = true.
Proof. destruct k; [done..|]. apply Z.eqb_refl. Qed.

#[export] Instance int_EqLaw : EqLaw Z := Z.eqb_refl.
#[export] Instance bool_EqLaw : EqLaw bool := Bool.eqb_reflx.
#[export] Instance bytes_EqLaw : EqLaw Shared := str_eqb_refl.
#[export] Instance BinaryData_EqLaw : EqLaw BinaryData := fun a => str_eqb_refl _.
#[export] Instance ByteStr_EqLaw : EqLaw ByteStr := fun a => str_eqb_refl _.
#[export] Instance Topic_EqLaw : EqLaw (Topic ByteStr) := fun a => str_eqb_refl _.
#[export] Instance Filter_EqLaw : EqLaw (Filter ByteStr).
Proof. intros f. apply andb_true_iff. split; [apply str_eqb_refl | apply kind_eq_refl]. Qed.
#[export] Instance option_EqLaw {A} `{EqLaw A} : EqLaw (option A).
Proof. intros [a|]; [exact (eq_refl_law a) | done]. Qed.
#[export] Instance pair_EqLaw {A B} `{EqLaw A} `{EqLaw B} : EqLaw (A * B).
Proof. intros [a b]. apply andb_true_iff. split; apply eq_refl_law. Qed.
#[export] Instance vec_EqLaw {A} `{EqLaw A} : EqLaw (list A).
Proof. intros l. induction l as [|a l IH]; [done|]. apply andb_true_iff. split; [apply eq_refl_law | exact IH]. Qed.

(** A struct is equal to itself when its fields are. *)
Ltac derive_eq :=
  intros [];
  first [ apply bool_decide_eq_true; reflexivity | reflexivity
        | repeat first [exact (eq_refl_law _) | apply andb_true_iff; split] ].

#[export] Instance PacketIdentifier_EqLaw : EqLaw PacketIdentifier.
Proof. derive_eq. Qed.
#[export] Instance QoS_EqLaw : EqLaw QoS.t.
Proof. derive_eq. Qed.
#[export] Instance RetainHandling_EqLaw : EqLaw RetainHandling.t.
Proof. derive_eq. Qed.
#[export] Instance AuthenticateReasonCode_EqLaw : EqLaw AuthenticateReasonCode.t.
Proof. derive_eq. Qed.
#[export] Instance ConnectionRefusedReason_EqLaw : EqLaw ConnectionRefusedReason.t.
Proof. derive_eq. Qed.
#[export] Instance DisconnectReasonCode_EqLaw : EqLaw DisconnectReasonCode.t.
Proof. derive_eq. Qed.
#[export] Instance PubAckReasonCode_EqLaw : EqLaw PubAckReasonCode.t.
Proof. derive_eq. Qed.
#[export] Instance PubRecReasonCode_EqLaw : EqLaw PubRecReasonCode.t.
Proof. derive_eq. Qed.
#[export] Instance PubRelReasonCode_EqLaw : EqLaw PubRelReasonCode.t.
Proof. derive_eq. Qed.
#[export] Instance PubCompReasonCode_EqLaw : EqLaw PubCompReasonCode.t.
Proof. derive_eq. Qed.
#[export] Instance SubscribeReasonCode_EqLaw : EqLaw SubscribeReasonCode.t.
Proof. derive_eq. Qed.
#[export] Instance UnsubAckReasonCode_EqLaw : EqLaw UnsubAckReasonCode.t.
Proof. derive_eq. Qed.
#[export] Instance KeepAlive_EqLaw : EqLaw KeepAlive.t.
Proof. intros [|n]; [done | apply Z.eqb_refl]. Qed.
#[export] Instance SessionExpiryInterval_EqLaw : EqLaw SessionExpiryInterval.t.
Proof. intros [|n]; [done | apply Z.eqb_refl]. Qed.
#[export] Instance PacketIdentifierDupQoS_EqLaw : EqLaw PacketIdentifierDupQoS.t.
Proof. intros [|p d|p d]; [done | apply andb_true_iff; split; [exact (eq_refl_law p) | exact (eq_refl_law d)] ..]. Qed.
#[export] Instance ConnectReasonCode_EqLaw : EqLaw ConnectReasonCode.t.
Proof. intros [s|r]; [exact (eq_refl_law s) | exact (eq_refl_law r)]. Qed.
#[export] Instance ReasonProperties_EqLaw : EqLaw ReasonProperties.
Proof. derive_eq. Qed.
#[export] Instance Ack_EqLaw {C} `{EqLaw C} : EqLaw (Ack.t C).
Proof. derive_eq. Qed.
#[export] Instance Authentication_EqLaw : EqLaw Authentication.t.
Proof. derive_eq. Qed.
#[export] Instance ConnAck_other_EqLaw : EqLaw ConnAck.OtherProperties.
Proof. derive_eq. Qed.
#[export] Instance ConnAck_EqLaw : EqLaw ConnAck.t.
Proof. derive_eq. Qed.
#[export] Instance Disconnect_other_EqLaw : EqLaw Disconnect.OtherProperties.
Proof. derive_eq. Qed.
#[export] Instance Disconnect_EqLaw : EqLaw Disconnect.t.
Proof. derive_eq. Qed.
#[export] Instance Auth_EqLaw : EqLaw Auth.t.
Proof. derive_eq. Qed.
#[export] Instance Publish_other_EqLaw : EqLaw Publish.OtherProperties.
Proof. derive_eq. Qed.
#[export] Instance Publish_EqLaw : EqLaw Publish.t.
Proof. derive_eq. Qed.
#[export] Instance Publication_other_EqLaw : EqLaw Publication.OtherProperties.
Proof. derive_eq. Qed.
#[export] Instance Publication_EqLaw : EqLaw Publication.t.
Proof. derive_eq. Qed.
#[export] Instance Connect_other_EqLaw : EqLaw Connect.OtherProperties.
Proof. derive_eq. Qed.
#[export] Instance Connect_EqLaw : EqLaw Connect.t.
Proof. derive_eq. Qed.
#[export] Instance SubscribeOptions_other_EqLaw : EqLaw SubscribeOptions.OtherProperties.
Proof. derive_eq. Qed.
#[export] Instance SubscribeOptions_EqLaw : EqLaw SubscribeOptions.t.
Proof. derive_eq. Qed.
#[export] Instance SubscribeTo_EqLaw : EqLaw SubscribeTo.t.
Proof. derive_eq. Qed.
#[export] Instance Subscribe_other_EqLaw : EqLaw Subscribe.OtherProperties.
Proof. derive_eq. Qed.
#[export] Instance Subscribe_EqLaw : EqLaw Subscribe.t.
Proof. derive_eq. Qed.
#[export] Instance Unsubscribe_EqLaw : EqLaw Unsubscribe.t.
Proof. derive_eq. Qed.
#[export] Instance SubAck_EqLaw : EqLaw SubAck.t.
Proof. derive_eq. Qed.
#[export] Instance UnsubAck_EqLaw : EqLaw UnsubAck.t.
Proof. derive_eq. Qed.
#[export] Instance Packet_EqLaw : EqLaw Packet.t.
Proof. intros [p|p|p|p|p|p|p|p|p|p|p|p|p|p|p]; first [reflexivity | exact (eq_refl_law p) | exact (Ack_EqLaw p)]. Qed.
