(* ===== verification/Fuzz.v ===== *)
(** * The fuzz targets

    fuzz/src/lib.rs and fuzz/fuzz_targets/*.rs: the oracles that the crate tests its codec
    with. A target returns whether the input joins the corpus; a failed [expect] or
    [assert_eq!] is a panic, which the fuzzer reports as a crash. The theorem is what the
    targets sample: on no input is there a crash. *)

From S2P Require Export Reencode PacketEq Convert.
Local Open Scope Z_scope.
Local Open Scope partial_eq_scope.

(** [libfuzzer_sys::Corpus]. *)
Inductive Corpus : Set := Keep | Reject.

(** [Result::expect]. *)
Definition expect {E A} (r : result E A) (msg : string) : outcome A :=
  match r with Ok a => Returns a | Err _ => Panics msg end.

(** [assert_eq!]. *)
Definition assert_eq {A} `{PartialEq A} (left right : A) (msg : string) : outcome unit :=
  if left == right then Returns tt else Panics msg.

(** ** fuzz/src/lib.rs *)

(** [split_version]: an even first byte selects v3, an odd one v5. *)
Definition split_version (data : list u8) : option (ProtocolVersion * Shared) :=
  match data with
  | [] => None
  | selector :: packet =>
      let version := if Z.land selector 1 =? 0 then V3 else V5 in
      Some (version, packet)
  end.

(** ** The targets *)

Section targets.
Context `{Unicode}.

(** packet_decode.rs: what [decode_full] returns is discarded. *)
Definition packet_decode (data : list u8) : outcome Corpus :=
  match split_version data with
  | None => Returns Reject
  | Some (version, src) =>
      let _ := Packet.decode_full src version in
      Returns Keep
  end.

(** packet_roundtrip.rs. *)
Definition packet_roundtrip (data : list u8) : outcome Corpus :=
  match split_version data with
  | None => Returns Reject
  | Some (version, src) =>
      match Packet.decode_full src version with
      | Err _ => Returns Reject
      | Ok packet =>
          let! encoded := expect (Packet.encode packet version SingleAccumulator_new)
            "a packet that decoded successfully must re-encode" in
          let reencoded := single_bytes encoded in
          let! redecoded := expect (Packet.decode_full reencoded version)
            "a freshly-encoded packet must decode" in
          let! _ := assert_eq packet redecoded "decode/encode round-trip mismatch" in
          Returns Keep
      end
  end.

(** topics.rs: an invalid filter or name ends the run, and the verdict of the matching is
    discarded. *)
Definition topics (input : str * str) : unit :=
  let '(filter, topic) := input in
  match TopicFilter_new filter with
  | Err _ => tt
  | Ok filter =>
      let _ := TopicFilter_as_str filter in
      match TopicName_new topic with
      | Ok topic => let _ := TopicFilter_matches_topic_name filter topic in tt
      | Err _ => tt
      end
  end.

(** The inputs that the round-trip oracle applies to. *)
Definition decodable (data : list u8) : bool :=
  match split_version data with
  | Some (version, src) => match Packet.decode_full src version with Ok _ => true | Err _ => false end
  | None => false
  end.
End targets.

Lemma assert_eq_refl {A} `{EqLaw A} (a : A) msg : assert_eq a a msg = Returns tt.
Proof. unfold assert_eq. by rewrite eq_refl_law. Qed.

Section never_panics.
Context `{UnicodeLaws}.

(** C25: the round-trip oracle of the fuzzer holds on every input, for both versions of the
    protocol: [packet_roundtrip] never panics, neither in the encoder that re-encodes what was
    decoded, nor in the decoder of that, nor because the two packets differ by [PartialEq]; and
    it keeps exactly the inputs that decode. *)
Theorem fuzz_roundtrip_never_panics data :
  bytes_ok data ->
  packet_roundtrip data = Returns (if decodable data then Keep else Reject).
Proof.
  intros Hb. unfold packet_roundtrip, decodable. destruct data as [|b src]; [done|]. cbn [split_version].
  set (v := if Z.land b 1 =? 0 then V3 else V5). inversion_clear Hb as [|? ? _ Hs].
  destruct (Packet.decode_full src v) as [p|] eqn:Ed; [|done].
  destruct (decoded_reencodes v src p Hs Ed) as (_ & bs & Ee & Ed' & _).
  by rewrite Ee; cbn; rewrite Ed'; cbn; rewrite assert_eq_refl.
Qed.
End never_panics.

(** A PUBACK with an over-long remaining length is kept, of either version; one that is cut
    short is rejected. *)
Lemma fuzz_roundtrip_never_panics_witness :
  packet_roundtrip (H := Ascii) [5; 64; 130; 0; 0; 9] = Returns Keep /\
  packet_roundtrip (H := Ascii) [4; 64; 130; 0; 0; 9] = Returns Keep /\
  packet_roundtrip (H := Ascii) [5; 64; 3; 0; 9] = Returns Reject.
Proof.
  split_and!;
    (etransitivity; [apply (@fuzz_roundtrip_never_panics Ascii Ascii_laws); repeat constructor; solve_range
                    | vm_compute; reflexivity]).
Defined.
