(* ===== verification/Reader.v ===== *)
(** * The packet reader

    [Reader] of io/reader.rs: frames the bytes of a network stream into packets.
    The stream and the buffer are the two traits it is written against
    ([ReadableStream] of io.rs and [Owned] of buffer_pool.rs). *)

From S2P Require Export Packet.
Local Open Scope Z_scope.

(** [io::Error]: the kinds the code constructs itself, the errors it wraps with
    [io::Error::other], and those of the operating system and of the libraries
    that drive the stream. *)
Inductive IoError : Set :=
  | UnexpectedEof
  | InvalidInput (msg : str)
  | InvalidData (msg : string)
  | TimedOut
  | OtherText (msg : str)
  | OtherDecode (e : DecodeError.t)
  | OtherEncode (e : EncodeError.t)
  | OtherPool (e : PoolError)
  | StreamError (code : Z).

(** [trait ReadableStream]: [stream_read s n] reads into a buffer of [n] bytes
    and yields the bytes that were stored. *)
Class ReadableStream (St : Type) := {
  stream_read : St -> usize -> St * result IoError (list u8);
}.

(** It stores bytes, and no more than the buffer holds; [stream_ok] is what that takes of
    the state of the stream. *)
Class LawfulReadable (St : Type) `{ReadableStream St} := {
  stream_ok : St -> Prop;
  stream_read_fits : forall s n s' bs, 0 <= n -> stream_read s n = (s', Ok bs) -> len bs <= n;
  stream_read_bytes : forall s n s' bs, stream_ok s -> stream_read s n = (s', Ok bs) -> bytes_ok bs;
  stream_read_keeps : forall s n s' r, stream_ok s -> stream_read s n = (s', r) -> stream_ok s';
}.
Arguments LawfulReadable St {_}.

(** A connection that delivers [pending s], in pieces of any size. *)
Class ReliableStream (St : Type) `{ReadableStream St} := {
  pending : St -> list u8;
  stream_read_pending : forall s n, 0 < n -> pending s <> [] ->
    exists k s', (1 <= k <= length (pending s))%nat /\ Z.of_nat k <= n /\
      stream_read s n = (s', Ok (take k (pending s))) /\ pending s' = drop k (pending s);
}.
Arguments ReliableStream St {_}.

(** [stream_reads s bs s']: a sequence of calls of [read], all of which succeed, takes the
    stream from [s] to [s'] and stores the bytes [bs], in this order. *)
Inductive stream_reads {St} `{ReadableStream St} : St -> list u8 -> St -> Prop :=
  | reads_nothing s : stream_reads s [] s
  | reads_more s n bs s1 got s' :
      stream_read s n = (s1, Ok bs) -> stream_reads s1 got s' -> stream_reads s (bs ++ got) s'.

Lemma stream_reads_app {St} `{ReadableStream St} s bs s1 bs' s' :
  stream_reads s bs s1 -> stream_reads s1 bs' s' -> stream_reads s (bs ++ bs') s'.
Proof. induction 1; [done|]. rewrite <- app_assoc. eauto using stream_reads. Qed.

(** [struct RawPacket]. *)
Record RawPacket : Set := mkRawPacket { raw_first_byte : u8; raw_rest : Shared }.

(** [struct Reader]. *)
Record Reader (St Ow : Type) := mkReader { reader_inner : St; reader_buf : Ow }.
Arguments mkReader {_ _} _ _.
Arguments reader_inner {_ _} _.
Arguments reader_buf {_ _} _.

Section read.
Context {St Ow : Type} `{ReadableStream St} `{Owned Ow}.
Implicit Types r : Reader St Ow.

(** [let read = self.inner.read(self.buf.unfilled_mut()).await?;
     self.buf.fill(read); if read == 0 { return Err(UnexpectedEof) }] *)
Definition read_some r : Reader St Ow * result IoError () :=
  let '(o, n) := unfilled_mut (reader_buf r) in
  let '(s, res) := stream_read (reader_inner r) n in
  match res with
  | Err e => (mkReader s o, Err e)
  | Ok bs =>
      let r := mkReader s (fill_with bs o) in
      if len bs =? 0 then (r, Err UnexpectedEof) else (r, Ok tt)
  end.

(** [self.buf.reserve(n).map_err(io::Error::other)?] *)
Definition reserve_buf (n : usize) r : Reader St Ow * result IoError () :=
  match owned_reserve n (reader_buf r) with
  | Ok o => (mkReader (reader_inner r) o, Ok tt)
  | Err e => (r, Err (OtherPool e))
  end.

(** The loop that reads the fixed header. Every round adds a byte and five are
    enough, so a fuel of six never runs out on any stream; [None] is out of
    fuel. *)
Fixpoint read_header (fuel : nat) r :
    option (Reader St Ow * result IoError (usize * u8 * usize)) :=
  match fuel with
  | O => None
  | S fuel =>
      let buf := filled (reader_buf r) in
      match decode_fixed_header buf with
      | Err e => Some (r, Err (OtherDecode e))
      | Ok (Some (first_byte, remaining_length, rest)) =>
          Some (r, Ok (len buf - len rest, first_byte, remaining_length))
      | Ok None =>
          match reserve_buf 5 r with
          | (r, Err e) => Some (r, Err e)
          | (r, Ok _) =>
              match read_some r with
              | (r, Err e) => Some (r, Err e)
              | (r, Ok _) => read_header fuel r
              end
          end
      end
  end.

(** [while self.buf.filled_len() < n { .. }] *)
Fixpoint read_until (fuel : nat) (n : usize) r : option (Reader St Ow * result IoError ()) :=
  if len (filled (reader_buf r)) <? n then
    match fuel with
    | O => None
    | S fuel =>
        match read_some r with
        | (r, Err e) => Some (r, Err e)
        | (r, Ok _) => read_until fuel n r
        end
    end
  else Some (r, Ok tt).

(** [if let Some(remaining) = n.checked_sub(self.buf.filled_len()) { reserve }] *)
Definition reserve_remaining (n : usize) r : Reader St Ow * result IoError () :=
  let remaining := n - len (filled (reader_buf r)) in
  if 0 <=? remaining then reserve_buf remaining r else (r, Ok tt).

(** [Reader::read]. *)
Definition Reader_read r : option (Reader St Ow * result IoError RawPacket) :=
  match read_header 6 r with
  | None => None
  | Some (r, Err e) => Some (r, Err e)
  | Some (r, Ok (fixed_header_len, first_byte, remaining_length)) =>
      let n := fixed_header_len + remaining_length in
      match reserve_remaining n r with
      | (r, Err e) => Some (r, Err e)
      | (r, Ok _) =>
          match read_until (Z.to_nat n) n r with
          | None => None
          | Some (r, Err e) => Some (r, Err e)
          | Some (r, Ok _) =>
              let o := owned_drain fixed_header_len (reader_buf r) in
              let '(rest, o) := split_to_freeze remaining_length o in
              Some (mkReader (reader_inner r) o, Ok (mkRawPacket first_byte rest))
          end
      end
  end.
End read.

(** Errors of [mqtt_receive]: [InnerConnectionError] built from an [io::Error]
    or from a protocol error. *)
Inductive ReceiveError : Set :=
  | ReceiveIo (e : IoError)
  | ReceiveProtocol (e : DecodeError.t).

(** [mqtt_receive] of client.rs. *)
Definition mqtt_receive {St Ow} `{ReadableStream St} `{Owned Ow} `{Unicode} (reader : Reader St Ow) :
    option (Reader St Ow * result ReceiveError Packet.t) :=
  match Reader_read reader with
  | None => None
  | Some (reader, Err e) => Some (reader, Err (ReceiveIo e))
  | Some (reader, Ok raw_packet) =>
      Some (reader, map_err ReceiveProtocol
        (Packet.decode (raw_first_byte raw_packet) (raw_rest raw_packet) V5))
  end.

(** ** The fixed header in a growing buffer *)

Lemma decode_fixed_header_app src ext :
  match decode_fixed_header src with
  | Ok (Some (fb, n, rest)) => decode_fixed_header (src ++ ext) = Ok (Some (fb, n, rest ++ ext))
  | Ok None => True
  | Err e => decode_fixed_header (src ++ ext) = Err e
  end.
Proof.
  destruct src as [|fb src]; [done|]. cbn [decode_fixed_header app].
  unfold decode_remaining_length, decode_varint. pose proof (decode_varint_loop_app src ext 0 0) as H.
  destruct (decode_varint_loop 0 0 src) as [[[n rest]|]|e]; [|done|]; by rewrite H.
Qed.

Lemma decode_fixed_header_None src :
  bytes_ok src -> decode_fixed_header src = Ok None -> len src < 5.
Proof.
  intros Hs E. destruct src as [|fb src]; [done|]. inversion_clear Hs as [|? ? _ Hs'].
  cbn [decode_fixed_header] in E. unfold decode_remaining_length, decode_varint in E.
  pose proof (decode_varint_loop_spec src 0 3 Hs' ltac:(lia) ltac:(cbn; lia)) as H.
  change (3 - Z.of_nat 3) with 0 in H.
  destruct (decode_varint_loop 0 0 src) as [[[n rest]|]|e]; [done| |done].
  destruct H. rewrite len_cons. unfold len. lia.
Qed.

Lemma decode_fixed_header_range src fb n rest :
  bytes_ok src -> decode_fixed_header src = Ok (Some (fb, n, rest)) ->
  0 <= n <= VARINT_MAX /\ len rest < len src.
Proof.
  intros Hs E. destruct src as [|b src]; [done|]. inversion_clear Hs as [|? ? _ Hs'].
  cbn [decode_fixed_header] in E. inv_ok E. split.
  - by eapply decode_varint_ok.
  - unfold decode_remaining_length, decode_varint in E0.
    apply decode_varint_loop_split in E0 as (pre & -> & _). rewrite len_cons, len_app.
    pose proof (len_nonneg pre). lia.
Qed.

(** A prefix [f] of [pre ++ body ++ tail] that is long enough to hold [body]. *)
Lemma prefix_bytes (f p pre body tail : list u8) :
  f ++ p = pre ++ body ++ tail -> len pre + len body <= len f ->
  f = pre ++ body ++ drop (Z.to_nat (len pre + len body)) f.
Proof.
  intros E Hl. rewrite app_assoc. rewrite <- (take_drop (Z.to_nat (len pre + len body)) f) at 1.
  f_equal. rewrite app_assoc in E.
  assert (H : take (Z.to_nat (len (pre ++ body))) (f ++ p) = pre ++ body) by (rewrite E; apply take_len_app).
  rewrite len_app in H. rewrite take_app_le in H; [done|]. unfold len in *. lia.
Qed.

Lemma prefix_bytes_rest (f p pre body tail : list u8) :
  f ++ p = pre ++ body ++ tail -> len pre + len body <= len f ->
  drop (Z.to_nat (len pre + len body)) f ++ p = tail.
Proof.
  intros E Hl. pose proof (prefix_bytes _ _ _ _ _ E Hl) as Hf.
  rewrite Hf, <- !app_assoc in E. by apply app_inv_head, app_inv_head in E.
Qed.

(** ** The reader on any stream *)

Section total.
Context {St Ow : Type} `{LawfulReadable St} `{LawfulOwned Ow}.
Implicit Types r : Reader St Ow.

Definition reader_ok r : Prop := stream_ok (reader_inner r) /\ bytes_ok (filled (reader_buf r)).

Lemma len_positive (bs : list u8) : bs <> [] -> 1 <= len bs.
Proof. destruct bs as [|b bs]; [done|]. intros _. rewrite len_cons. pose proof (len_nonneg bs). lia. Qed.

Lemma read_some_grows r :
  reader_ok r ->
  exists r' res bs, read_some r = (r', res) /\ reader_ok r' /\
    filled (reader_buf r') = filled (reader_buf r) ++ bs /\
    (res = Ok tt -> bs <> [] /\ stream_reads (reader_inner r) bs (reader_inner r')).
Proof.
  intros [Hs Hb]. unfold read_some. pose proof (unfilled_mut_filled (reader_buf r)) as Hf.
  pose proof (unfilled_mut_capacity (reader_buf r)) as Hc.
  pose proof (unfilled_mut_nonneg (reader_buf r)) as H0n.
  destruct (unfilled_mut (reader_buf r)) as [o n]. cbn in Hf, Hc, H0n.
  destruct (stream_read (reader_inner r) n) as [s [bs|e]] eqn:E.
  - pose proof (stream_read_fits _ _ _ _ H0n E) as Hn. apply stream_read_keeps in E as Hs'; [|done].
    assert (Hrd : stream_reads (reader_inner r) bs s)
      by (rewrite <- (app_nil_r bs); eauto using stream_reads).
    apply stream_read_bytes in E; [|done].
    pose proof (fill_with_filled bs o n Hc Hn) as Hfill. rewrite Hf in Hfill.
    assert (Hok : reader_ok (mkReader s (fill_with bs o)))
      by (split; [done|]; cbn; rewrite Hfill; by apply Forall_app).
    destruct bs as [|b bs]; cbn [len]; [|rewrite len_cons; pose proof (len_nonneg bs);
      replace (1 + len bs =? 0) with false by (symmetry; apply Z.eqb_neq; lia)];
      (do 3 eexists; split_and!; [reflexivity|exact Hok|exact Hfill|done]).
  - apply stream_read_keeps in E; [|done]. exists (mkReader s o), (Err e), [].
    unfold reader_ok. cbn. by rewrite Hf, app_nil_r.
Qed.

Lemma reserve_buf_filled n r :
  exists r' res, reserve_buf n r = (r', res) /\ reader_inner r' = reader_inner r /\
    filled (reader_buf r') = filled (reader_buf r).
Proof.
  unfold reserve_buf. destruct (owned_reserve n (reader_buf r)) as [o|] eqn:E; do 2 eexists;
    (split; [reflexivity|]); [|done]. by apply owned_reserve_filled in E.
Qed.

Lemma reserve_remaining_filled n r :
  exists r' res, reserve_remaining n r = (r', res) /\ reader_inner r' = reader_inner r /\
    filled (reader_buf r') = filled (reader_buf r).
Proof.
  unfold reserve_remaining. destruct (_ <=? _); [apply reserve_buf_filled|]. by exists r, (Ok tt).
Qed.

Lemma read_header_total fuel r :
  reader_ok r -> (1 <= fuel)%nat -> 6 - len (filled (reader_buf r)) <= Z.of_nat fuel ->
  exists r' res ext, read_header fuel r = Some (r', res) /\ reader_ok r' /\
    filled (reader_buf r') = filled (reader_buf r) ++ ext /\
    forall h fb n, res = Ok (h, fb, n) -> stream_reads (reader_inner r) ext (reader_inner r') /\ exists rest,
      decode_fixed_header (filled (reader_buf r')) = Ok (Some (fb, n, rest)) /\
      h = len (filled (reader_buf r')) - len rest.
Proof.
  revert r; induction fuel as [|fuel IH]; intros r Hb Hp Hf; [lia|]. cbn [read_header].
  destruct (decode_fixed_header (filled (reader_buf r))) as [[[[fb n] rest]|]|e] eqn:E.
  - eexists _, _, []. split_and!; [done|done|by rewrite app_nil_r|].
    intros ? ? ? [= <- <- <-]. split; [constructor|eauto].
  - apply decode_fixed_header_None in E; [|apply Hb].
    destruct (reserve_buf_filled 5 r) as (r1 & res1 & -> & Hi1 & Hr1).
    assert (Hb1 : reader_ok r1) by (unfold reader_ok; by rewrite Hi1, Hr1).
    destruct res1 as [[]|e]; [|eexists _, _, []; split_and!; [done|done|by rewrite app_nil_r|done]].
    destruct (read_some_grows r1 Hb1) as (r2 & res & bs & -> & Hb2 & Hr2 & Hne).
    rewrite Hr1 in Hr2. destruct res as [[]|e]; [|eexists _, _, bs; split_and!; done].
    destruct (Hne eq_refl) as [Hnil Hrd]. rewrite Hi1 in Hrd. pose proof (len_positive bs Hnil).
    destruct (IH r2 Hb2) as (r' & res & ext & -> & Hb' & Hr' & Hok); [lia|rewrite Hr2, len_app; lia|].
    exists r', res, (bs ++ ext). split_and!; [done|done|by rewrite Hr', Hr2, app_assoc|].
    intros h fb n E2. destruct (Hok h fb n E2) as [Hrd' Hrest]. split; [by eapply stream_reads_app|done].
  - eexists _, _, []. split_and!; [done|done|by rewrite app_nil_r|done].
Qed.

Lemma read_until_total fuel n r :
  reader_ok r -> n - len (filled (reader_buf r)) <= Z.of_nat fuel ->
  exists r' res ext, read_until fuel n r = Some (r', res) /\ reader_ok r' /\
    filled (reader_buf r') = filled (reader_buf r) ++ ext /\
    (res = Ok tt -> n <= len (filled (reader_buf r')) /\
      stream_reads (reader_inner r) ext (reader_inner r')).
Proof.
  revert r; induction fuel as [|fuel IH]; intros r Hb Hf; cbn [read_until];
    destruct (_ <? n) eqn:E; bool_to_prop; try lia;
    try (eexists _, _, []; split_and!; [done|done|by rewrite app_nil_r|by split; [|constructor]]).
  destruct (read_some_grows r Hb) as (r1 & [[]|e] & bs & -> & Hb1 & Hr1 & Hne);
    [|eexists _, _, bs; split_and!; done].
  destruct (Hne eq_refl) as [Hnil Hrd]. pose proof (len_positive bs Hnil).
  destruct (IH r1 Hb1) as (r' & res & ext & -> & Hb' & Hr' & Hok); [rewrite Hr1, len_app; lia|].
  exists r', res, (bs ++ ext). split_and!; [done|done|by rewrite Hr', Hr1, app_assoc|].
  intros E2. destruct (Hok E2) as [Hl Hrd']. split; [done|by eapply stream_reads_app].
Qed.

(** Cutting a packet out of a buffer that holds all of it. *)
Lemma cut_packet (o : Ow) pre body tail i n :
  filled o = pre ++ body ++ tail -> i = len pre -> n = len body ->
  exists o', split_to_freeze n (owned_drain i o) = (body, o') /\ filled o' = tail.
Proof.
  intros Ho -> ->. assert (Hd : filled (owned_drain (len pre) o) = body ++ tail).
  { rewrite owned_drain_filled; [by rewrite Ho, drop_len_app|].
    rewrite Ho, !len_app. pose proof (len_nonneg pre). pose proof (len_nonneg body).
    pose proof (len_nonneg tail). lia. }
  assert (Hr : 0 <= len body <= len (filled (owned_drain (len pre) o))).
  { rewrite Hd, len_app. pose proof (len_nonneg body). pose proof (len_nonneg tail). lia. }
  pose proof (split_to_shared _ _ Hr) as Hs. pose proof (split_to_rest _ _ Hr) as Hr'.
  rewrite Hd in Hs, Hr'. rewrite take_len_app in Hs. rewrite drop_len_app in Hr'.
  destruct (split_to_freeze _ _) as [sh o']. cbn in Hs, Hr'. subst. eauto.
Qed.
End total.

(** ** The reader on a connection that delivers every byte *)

Section reliable.
Context {St Ow : Type} `{ReliableStream St} `{LawfulOwned Ow}.
Implicit Types r : Reader St Ow.

(** A pool without a limit: [impl Owned for BytesMut] never fails to reserve. *)
Context (pool_unlimited : forall n (o : Ow), exists o', owned_reserve n o = Ok o').

(** The bytes still to be delivered to the user of the reader. *)
Definition incoming r : list u8 := filled (reader_buf r) ++ pending (reader_inner r).

Lemma read_some_reliable r n :
  1 <= n -> capacity (reader_buf r) n -> pending (reader_inner r) <> [] ->
  exists r', read_some r = (r', Ok tt) /\ incoming r' = incoming r /\
    len (filled (reader_buf r)) + 1 <= len (filled (reader_buf r')) /\
    capacity (reader_buf r') (n - (len (filled (reader_buf r')) - len (filled (reader_buf r)))).
Proof.
  intros Hn Hc Hp. unfold read_some. pose proof (unfilled_mut_filled (reader_buf r)) as Hf.
  pose proof (unfilled_mut_capacity (reader_buf r)) as Hm.
  pose proof (unfilled_mut_len _ _ Hc) as Hle.
  destruct (unfilled_mut (reader_buf r)) as [o m]. cbn in Hf, Hm, Hle.
  destruct (stream_read_pending (reader_inner r) m ltac:(lia) Hp) as (k & s' & Hk & Hkm & -> & Hp').
  set (bs := take k (pending (reader_inner r))) in *.
  assert (Hbs : len bs = Z.of_nat k) by (unfold bs, len; rewrite length_take; lia).
  replace (len bs =? 0) with false by (symmetry; apply Z.eqb_neq; lia).
  eexists. split; [reflexivity|]. unfold incoming. cbn.
  rewrite (fill_with_filled bs o m Hm ltac:(lia)), Hf, Hp'. split_and!.
  - rewrite <- app_assoc. unfold bs. by rewrite take_drop.
  - rewrite len_app. lia.
  - rewrite len_app. eapply capacity_mono; [|apply (fill_with_capacity bs o m Hm); lia]. lia.
Qed.

Lemma reserve_buf_reliable n r :
  exists r', reserve_buf n r = (r', Ok tt) /\ incoming r' = incoming r /\
    filled (reader_buf r') = filled (reader_buf r) /\ capacity (reader_buf r') n.
Proof.
  unfold reserve_buf. destruct (pool_unlimited n (reader_buf r)) as [o E]. rewrite E.
  eexists. split; [done|]. unfold incoming; cbn. rewrite (owned_reserve_filled _ _ _ E).
  by apply owned_reserve_capacity in E.
Qed.

Lemma read_header_reliable fuel r fb n rest :
  bytes_ok (incoming r) -> (1 <= fuel)%nat -> 6 - len (filled (reader_buf r)) <= Z.of_nat fuel ->
  decode_fixed_header (incoming r) = Ok (Some (fb, n, rest)) ->
  exists r' rest', read_header fuel r = Some (r', Ok (len (filled (reader_buf r')) - len rest', fb, n)) /\
    incoming r' = incoming r /\ rest = rest' ++ pending (reader_inner r') /\
    exists pre, filled (reader_buf r') = pre ++ rest'.
Proof.
  revert r; induction fuel as [|fuel IH]; intros r Hb Hp Hf Hd; [lia|]. cbn [read_header].
  pose proof (decode_fixed_header_app (filled (reader_buf r)) (pending (reader_inner r))) as Ha.
  fold (incoming r) in Ha.
  destruct (decode_fixed_header (filled (reader_buf r))) as [[[[fb' n'] rest']|]|e] eqn:E.
  - rewrite Hd in Ha. injection Ha as -> -> ->. exists r, rest'. split_and!; try done.
    apply decode_fixed_header_split in E as (pre & ? & _). eauto.
  - assert (Hl : len (filled (reader_buf r)) < 5).
    { apply decode_fixed_header_None in E; [done|]. by apply Forall_app in Hb as [? _]. }
    destruct (reserve_buf_reliable 5 r) as (r1 & -> & Hi1 & Hf1 & Hc1).
    assert (Hne : pending (reader_inner r1) <> []).
    { intros Hnil. rewrite <- Hi1 in Hd. unfold incoming in Hd.
      rewrite Hnil, app_nil_r, Hf1, E in Hd. done. }
    destruct (read_some_reliable r1 5 ltac:(lia) Hc1 Hne) as (r2 & -> & Hi2 & Hl2 & _).
    rewrite <- Hi1, <- Hi2 in *. apply IH; [done|lia|rewrite Hf1 in Hl2; lia|done].
  - by rewrite Hd in Ha.
Qed.

Lemma read_until_reliable fuel n r :
  n - len (filled (reader_buf r)) <= Z.of_nat fuel -> n <= len (incoming r) ->
  capacity (reader_buf r) (n - len (filled (reader_buf r))) ->
  exists r', read_until fuel n r = Some (r', Ok tt) /\ incoming r' = incoming r /\
    n <= len (filled (reader_buf r')).
Proof.
  revert r; induction fuel as [|fuel IH]; intros r Hf Hn Hc; cbn [read_until];
    destruct (_ <? n) eqn:E; bool_to_prop; try lia; try (by exists r).
  assert (Hne : pending (reader_inner r) <> []).
  { intros Hnil. unfold incoming in Hn. rewrite Hnil, app_nil_r in Hn. lia. }
  assert (Hpos : 1 <= n - len (filled (reader_buf r))) by lia.
  destruct (read_some_reliable r _ Hpos Hc Hne) as (r1 & -> & Hi1 & Hl1 & Hc1).
  rewrite <- Hi1 in *. apply IH; [lia|done|]. eapply capacity_mono; [|exact Hc1]. lia.
Qed.

Lemma reserve_remaining_reliable n r :
  exists r', reserve_remaining n r = (r', Ok tt) /\ incoming r' = incoming r /\
    filled (reader_buf r') = filled (reader_buf r) /\
    (len (filled (reader_buf r)) <= n -> capacity (reader_buf r') (n - len (filled (reader_buf r)))).
Proof.
  unfold reserve_remaining. destruct (_ <=? _) eqn:E; bool_to_prop.
  - destruct (reserve_buf_reliable (n - len (filled (reader_buf r))) r) as (r' & ? & ? & ? & ?). eauto.
  - exists r. split_and!; try done. lia.
Qed.

Lemma Reader_read_reliable r fb body tail :
  bytes_ok (incoming r) ->
  decode_fixed_header (incoming r) = Ok (Some (fb, len body, body ++ tail)) ->
  exists r', Reader_read r = Some (r', Ok (mkRawPacket fb body)) /\ incoming r' = tail.
Proof.
  intros Hb Hd. unfold Reader_read. pose proof (len_nonneg (filled (reader_buf r))).
  destruct (read_header_reliable 6 r _ _ _ Hb ltac:(lia) ltac:(lia) Hd)
    as (r1 & rest' & -> & Hi1 & Hrest & pre & Hpre).
  assert (Hall : incoming r1 = pre ++ body ++ tail).
  { unfold incoming. by rewrite Hpre, <- app_assoc, <- Hrest. }
  replace (len (filled (reader_buf r1)) - len rest') with (len pre) by (rewrite Hpre, len_app; lia).
  pose proof (len_nonneg pre). pose proof (len_nonneg body).
  destruct (reserve_remaining_reliable (len pre + len body) r1) as (r2 & -> & Hi2 & Hf2 & Hc2).
  pose proof (len_nonneg (filled (reader_buf r2))).
  assert (Hru : exists r3, read_until (Z.to_nat (len pre + len body)) (len pre + len body) r2
      = Some (r3, Ok tt) /\ incoming r3 = incoming r2 /\ len pre + len body <= len (filled (reader_buf r3))).
  { destruct (len (filled (reader_buf r1)) <=? len pre + len body) eqn:E; bool_to_prop.
    - apply read_until_reliable; [lia| |rewrite Hf2; by apply Hc2].
      rewrite Hi2, Hall, !len_app. pose proof (len_nonneg tail). lia.
    - exists r2. rewrite <- Hf2 in E. split_and!; [|done|lia].
      destruct (Z.to_nat _); cbn [read_until]; (destruct (_ <? _) eqn:E'; bool_to_prop; [lia|done]). }
  destruct Hru as (r3 & -> & Hi3 & Hl3). rewrite Hi2, Hall in Hi3.
  destruct (cut_packet (reader_buf r3) pre body
    (drop (Z.to_nat (len pre + len body)) (filled (reader_buf r3))) (len pre) (len body))
    as (o' & -> & Ho'); [|done..|].
  { apply (prefix_bytes _ _ _ _ _ Hi3 Hl3). }
  eexists. split; [done|]. unfold incoming; cbn. rewrite Ho'.
  by apply (prefix_bytes_rest _ _ _ _ _ Hi3 Hl3).
Qed.
End reliable.

(** ** Properties *)

(** [n] packets in a row. *)
Fixpoint receive_many {St Ow} `{ReadableStream St} `{Owned Ow} `{Unicode} (n : nat)
    (reader : Reader St Ow) : option (Reader St Ow * result ReceiveError (list Packet.t)) :=
  match n with
  | O => Some (reader, Ok [])
  | S n =>
      match mqtt_receive reader with
      | None => None
      | Some (reader, Err e) => Some (reader, Err e)
      | Some (reader, Ok packet) =>
          match receive_many n reader with
          | None => None
          | Some (reader, Err e) => Some (reader, Err e)
          | Some (reader, Ok packets) => Some (reader, Ok (packet :: packets))
          end
      end
  end.

Lemma decode_full_inv `{Unicode} src v p :
  Packet.decode_full src v = Ok p ->
  exists fb body, decode_fixed_header src = Ok (Some (fb, len body, body)) /\
    Packet.decode fb body v = Ok p.
Proof.
  unfold Packet.decode_full, ok_or. intros E.
  destruct (decode_fixed_header src) as [[[[fb n] data]|]|] eqn:Eh; [|done..].
  destruct (decode_fixed_header_split _ _ _ _ Eh) as (pre & Hs & _).
  rewrite (drop_suffix src pre data Hs) in E. destruct (len data ?= n) eqn:Ec; [|done..].
  apply Z.compare_eq in Ec as <-. eauto.
Qed.

Ltac err_case := do 2 eexists; split; [reflexivity | intros; discriminate].

Section reader_properties.
Context {St Ow : Type} `{ReadableStream St} `{LawfulOwned Ow}.
Implicit Types r : Reader St Ow.

Lemma Reader_read_ok `{!LawfulReadable St} r :
  reader_ok r ->
  exists r' res, Reader_read r = Some (r', res) /\
    forall raw, res = Ok raw -> reader_ok r' /\ exists got header,
      stream_reads (reader_inner r) got (reader_inner r') /\
      filled (reader_buf r) ++ got = header ++ raw_rest raw ++ filled (reader_buf r') /\
      decode_fixed_header (header ++ raw_rest raw) =
        Ok (Some (raw_first_byte raw, len (raw_rest raw), raw_rest raw)).
Proof.
  intros Hb. unfold Reader_read. pose proof (len_nonneg (filled (reader_buf r))).
  destruct (read_header_total 6 r Hb ltac:(lia) ltac:(lia)) as (r1 & res & ext & -> & Hb1 & Hr1 & Hok).
  destruct res as [[[h fb] n]|e]; [|err_case]. destruct (Hok _ _ _ eq_refl) as (Hrd & rest & Hd & ->). clear Hok.
  destruct (decode_fixed_header_range _ _ _ _ (proj2 Hb1) Hd) as [Hn Hlt].
  destruct (decode_fixed_header_split _ _ _ _ Hd) as (pre & Hpre & Hmore).
  replace (len (filled (reader_buf r1)) - len rest) with (len pre) by (rewrite Hpre, len_app; lia).
  destruct (reserve_remaining_filled (len pre + n) r1) as (r2 & [[]|e] & -> & Hi2 & Hr2); [|err_case].
  assert (Hb2 : reader_ok r2) by (unfold reader_ok; by rewrite Hi2, Hr2).
  pose proof (len_nonneg pre). pose proof (len_nonneg (filled (reader_buf r2))).
  destruct (read_until_total (Z.to_nat (len pre + n)) (len pre + n) r2 Hb2 ltac:(lia))
    as (r3 & [[]|e] & ext3 & -> & [Hs3 Hb3] & Hr3 & Hl3); [|err_case]. destruct (Hl3 eq_refl) as [Hle3 Hrd3].
  rewrite Hr2, Hpre, <- app_assoc in Hr3. set (all := rest ++ ext3) in *.
  assert (Hall : len (take (Z.to_nat n) all) = n).
  { rewrite Hr3, len_app in Hle3. unfold len in *. rewrite length_take. lia. }
  destruct (cut_packet (reader_buf r3) pre (take (Z.to_nat n) all) (drop (Z.to_nat n) all) (len pre) n)
    as (o & -> & Ho); [by rewrite take_drop|done..|].
  do 2 eexists. split; [done|]. intros ? [= <-]. cbn. split.
  { split; [done|]. cbn. rewrite Ho. apply Forall_drop. rewrite Hr3 in Hb3. by apply Forall_app in Hb3 as [_ ?]. }
  exists (ext ++ ext3), pre. split; [rewrite Hi2 in Hrd3; by eapply stream_reads_app|]. split.
  - rewrite Ho, take_drop, app_assoc, <- Hr1, Hpre, <- app_assoc. done.
  - by rewrite Hall, Hmore.
Qed.

(** C28: [Reader::read] always returns: whatever bytes a stream delivers, the loops
    over the fixed header and the body end (six and [header + remaining length]
    rounds are enough). When it yields a packet, the bytes that were buffered, followed by
    those that its reads of the stream stored, are exactly the fixed header, the body it
    returns and what stays in the buffer, and the header announces that body: no byte that the
    stream delivered is lost, changed or duplicated. *)
Theorem reader_read_total `{!LawfulReadable St} r :
  stream_ok (reader_inner r) -> bytes_ok (filled (reader_buf r)) ->
  exists r' res, Reader_read r = Some (r', res) /\
    forall raw, res = Ok raw -> exists got header,
      stream_reads (reader_inner r) got (reader_inner r') /\
      filled (reader_buf r) ++ got = header ++ raw_rest raw ++ filled (reader_buf r') /\
      decode_fixed_header (header ++ raw_rest raw) =
        Ok (Some (raw_first_byte raw, len (raw_rest raw), raw_rest raw)).
Proof.
  intros Hs Hb. destruct (Reader_read_ok r (conj Hs Hb)) as (r' & res & E & Hok). exists r', res. split; [done|].
  intros raw Hraw. apply (Hok raw Hraw).
Qed.
End reader_properties.

Section reliable_properties.
Context {St Ow : Type} `{ReliableStream St} `{LawfulOwned Ow} `{UnicodeLaws}.
Implicit Types r : Reader St Ow.
Context (pool_unlimited : forall n (o : Ow), exists o', owned_reserve n o = Ok o').

(** Framing does not depend on how the network cuts the bytes into pieces.
    If the bytes on their way (buffered or still in the stream) start with a
    fixed header and the body it announces, [Reader::read] returns that first
    byte and that body, and exactly what follows remains to be read. *)
Theorem reader_read_frame r fb body tail :
  bytes_ok (incoming r) ->
  decode_fixed_header (incoming r) = Ok (Some (fb, len body, body ++ tail)) ->
  exists r', Reader_read r = Some (r', Ok (mkRawPacket fb body)) /\ incoming r' = tail.
Proof. apply (Reader_read_reliable pool_unlimited). Qed.

Lemma mqtt_receive_encoded r p bs tail :
  bytes_ok (incoming r) -> incoming r = bs ++ tail -> Packet.decode_full bs V5 = Ok p ->
  exists r', mqtt_receive r = Some (r', Ok p) /\ incoming r' = tail.
Proof.
  intros Hb Hi Hd. apply decode_full_inv in Hd as (fb & body & Hh & Hp).
  pose proof (decode_fixed_header_app bs tail) as Ha. rewrite Hh in Ha.
  unfold mqtt_receive.
  destruct (Reader_read_reliable pool_unlimited r fb body tail) as (r' & -> & ?);
    [done|by rewrite Hi|]. exists r'. cbn [raw_first_byte raw_rest]. by rewrite Hp.
Qed.

(** End to end: the encodings of any sequence of packets, delivered in
    pieces of any size, are received by the client as that sequence of packets,
    in order, each exactly once, and nothing of what follows is consumed. *)
Theorem receive_encoded r packets encodings tail :
  Forall2 (fun p bs => Packet.wf V5 p /\ Packet.encode p V5 SingleAccumulator_new = Ok (mkSingle bs))
    packets encodings ->
  bytes_ok (incoming r) ->
  incoming r = concat encodings ++ tail ->
  exists r', receive_many (length packets) r = Some (r', Ok packets) /\ incoming r' = tail.
Proof.
  intros HF. revert r. induction HF as [|p bs ps bss [Hwf He] _ IH]; intros r Hb Hi; [by exists r|].
  cbn [concat] in Hi. rewrite <- app_assoc in Hi. cbn [length receive_many].
  destruct (wp_single _ _ _ _ (Packet_encode_wp V5 p) He) as (bs' & [= <-] & Hd).
  destruct (mqtt_receive_encoded r p bs _ Hb Hi (Hd Hwf)) as (r1 & -> & Hi1).
  destruct (IH r1) as (r' & -> & Ht).
  - rewrite Hi in Hb. rewrite Hi1. by apply Forall_app in Hb as [_ ?].
  - done.
  - by exists r'.
Qed.
End reliable_properties.

(** A stream that delivers at most three bytes at a time. *)
Record SlowStream : Set := mkSlow { slow_bytes : list u8 }.

#[export] Instance SlowStream_readable : ReadableStream SlowStream := {
  stream_read s n :=
    let k := Nat.min 3 (Z.to_nat n) in
    (mkSlow (drop k (slow_bytes s)), Ok (take k (slow_bytes s)));
}.

#[export] Instance SlowStream_reliable : ReliableStream SlowStream.
Proof.
  refine {| pending := slow_bytes |}. intros [bs] n Hn Hp.
  cbn [stream_read SlowStream_readable slow_bytes] in *.
  exists (Nat.min (Nat.min 3 (Z.to_nat n)) (length bs)), (mkSlow (drop (Nat.min 3 (Z.to_nat n)) bs)).
  assert (1 <= length bs)%nat by (destruct bs; [done|cbn; lia]).
  split; [lia|]. split; [lia|].
  destruct (Nat.le_gt_cases (length bs) (Nat.min 3 (Z.to_nat n))).
  - rewrite (Nat.min_r (Nat.min 3 (Z.to_nat n))) by lia. by rewrite firstn_all, drop_all, take_ge, drop_ge by lia.
  - by rewrite (Nat.min_l (Nat.min 3 (Z.to_nat n))) by lia.
Defined.

(** The same, for a stream whose bytes are within range. *)
Record SlowByteStream : Set := mkSlowByte { slow_byte_stream : list Byte.byte }.

#[export] Instance SlowByteStream_readable : ReadableStream SlowByteStream := {
  stream_read s n :=
    let k := Nat.min 3 (Z.to_nat n) in
    (mkSlowByte (drop k (slow_byte_stream s)),
     Ok (map (fun b => Z.of_N (Byte.to_N b)) (take k (slow_byte_stream s))));
}.

#[export] Instance SlowByteStream_lawful : LawfulReadable SlowByteStream.
Proof.
  refine {| stream_ok _ := True |}; cbn [stream_read SlowByteStream_readable];
    [intros s n s' bs Hn [= _ <-]|intros s n s' bs _ [= _ <-]|done].
  - unfold len. rewrite length_map, length_take. destruct (Z.to_nat n) as [|[|[|]]] eqn:En; lia.
  - apply Forall_map, Forall_true. intros b. pose proof (Byte.to_N_bounded b).
    cbn. unfold is_u8, u8_MAX. lia.
Defined.

Definition vec_reader (bytes : list u8) : Reader SlowStream VecOwned :=
  mkReader (mkSlow bytes) (mkVecOwned [] 0).

Lemma vec_unlimited n (o : VecOwned) : exists o', owned_reserve n o = Ok o'.
Proof. eexists. reflexivity. Qed.

Lemma reader_read_total_witness :
  exists r' raw,
    Reader_read (mkReader (mkSlowByte [Byte.x40; Byte.x02; Byte.x00; Byte.x09; Byte.xc0]) (mkVecOwned [] 0))
      = Some (r', Ok raw) /\
    exists got header,
      stream_reads (mkSlowByte [Byte.x40; Byte.x02; Byte.x00; Byte.x09; Byte.xc0]) got (reader_inner r') /\
      [] ++ got = header ++ raw_rest raw ++ filled (reader_buf r') /\
      decode_fixed_header (header ++ raw_rest raw) =
        Ok (Some (raw_first_byte raw, len (raw_rest raw), raw_rest raw)).
Proof.
  destruct (reader_read_total (mkReader (mkSlowByte [Byte.x40; Byte.x02; Byte.x00; Byte.x09; Byte.xc0])
    (mkVecOwned [] 0))) as (r' & res & E & H); [exact I|constructor|].
  assert (Er : Some (r', res) = Some (mkReader (mkSlowByte []) (mkVecOwned [192] 0), Ok (mkRawPacket 64 [0; 9])))
    by (rewrite <- E; vm_compute; reflexivity).
  injection Er as -> ->. do 2 eexists. split; [exact E|]. exact (H _ eq_refl).
Defined.

Lemma reader_read_frame_witness :
  exists r', Reader_read (vec_reader [64; 2; 0; 9; 192; 0]) = Some (r', Ok (mkRawPacket 64 [0; 9])) /\
    incoming r' = [192; 0].
Proof.
  apply (reader_read_frame vec_unlimited (vec_reader [64; 2; 0; 9; 192; 0])).
  - change (bytes_ok [64; 2; 0; 9; 192; 0]). solve_bytes.
  - vm_compute. reflexivity.
Defined.

Lemma receive_encoded_witness :
  exists r', receive_many (H1 := Ascii) 2 (vec_reader (publish_sample_bytes ++ [192; 0]))
    = Some (r', Ok [publish_sample; Packet.PingReq PingReq.mk]) /\ incoming r' = [].
Proof.
  apply (@receive_encoded _ _ _ _ _ _ Ascii Ascii_laws vec_unlimited
    (vec_reader (publish_sample_bytes ++ [192; 0])) [publish_sample; Packet.PingReq PingReq.mk]
    [publish_sample_bytes; [192; 0]] []).
  - constructor; [split; [|vm_compute; reflexivity]|].
    2: { constructor; [split; [exact I|vm_compute; reflexivity]|]. constructor. }
    apply (@Packet_decode_full_wf Ascii Ascii_laws publish_sample_bytes);
      [apply publish_sample_bytes_ok | vm_compute; reflexivity].
  - change (bytes_ok (publish_sample_bytes ++ [192; 0])). apply Forall_app; split; [apply publish_sample_bytes_ok | solve_bytes].
  - reflexivity.
Defined.
