(* ===== verification/Writer.v ===== *)
(** * The packet writer

    [Writer] of io/writer.rs: encodes packets into an accumulator and writes the
    accumulated buffers to a network stream with vectored writes. *)

From S2P Require Export Reader.
Local Open Scope Z_scope.

(** [trait WritableStream]. *)
Class WritableStream (St : Type) := {
  stream_write : St -> list (list u8) -> St * result IoError usize;
  stream_flush : St -> St * result IoError ();
}.

(** What [write_vectored] and [flush] of a stream promise: [Ok n] means that the
    first [n] bytes of the buffers were taken. [sent s] is everything taken. *)
Class LawfulWritable (St : Type) `{WritableStream St} := {
  sent : St -> list u8;
  stream_write_ok : forall s bufs s' n, stream_write s bufs = (s', Ok n) ->
    0 <= n <= len (concat bufs) /\ sent s' = sent s ++ take (Z.to_nat n) (concat bufs);
  stream_write_err : forall s bufs s' e, stream_write s bufs = (s', Err e) -> sent s' = sent s;
  stream_flush_sent : forall s s' r, stream_flush s = (s', r) -> sent s' = sent s;
}.
Arguments LawfulWritable St {_}.

(** [struct Writer]. *)
Record Writer (St B : Type) := mkWriter { writer_inner : St; writer_buf : B }.
Arguments mkWriter {_ _} _ _.
Arguments writer_inner {_ _} _.
Arguments writer_buf {_ _} _.

(** [IoSlice::advance_slices] of the standard library. *)
Fixpoint advance_slices (bufs : list (list u8)) (n : usize) : outcome (list (list u8)) :=
  match bufs with
  | [] => if n =? 0 then Returns [] else Panics "advancing io slices beyond their length"
  | buf :: bufs' =>
      if len buf <=? n then advance_slices bufs' (n - len buf)
      else Returns (drop (Z.to_nat n) buf :: bufs')
  end.

Section write.
Context {St B : Type} `{WritableStream St} `{BytesAccumulator B}.

(** [while written < total_len { .. }]. Every round writes a byte at least, so a
    fuel of [total_len - written] is enough; [None] is out of fuel. *)
Fixpoint write_all (fuel : nat) (s : St) (iovecs : list (list u8)) (written total_len : usize) :
    option (St * outcome (result IoError usize)) :=
  if written <? total_len then
    match fuel with
    | O => None
    | S fuel =>
        match stream_write s iovecs with
        | (s, Err e) => Some (s, Returns (Err e))
        | (s, Ok written_) =>
            if written_ =? 0 then Some (s, Returns (Err UnexpectedEof))
            else
              let written := written + written_ in
              if written <? total_len then
                match advance_slices iovecs written_ with
                | Panics m => Some (s, Panics m)
                | Returns iovecs => write_all fuel s iovecs written total_len
                end
              else write_all fuel s iovecs written total_len
        end
    end
  else Some (s, Returns (Ok written)).

(** [Writer::flush]. Every round drains a byte at least. *)
Fixpoint Writer_flush (fuel : nat) (w : Writer St B) :
    option (Writer St B * outcome (result IoError ())) :=
  match fuel with
  | O => None
  | S fuel =>
      match to_iovecs 128 (writer_buf w) with
      | Panics m => Some (w, Panics m)
      | Returns io =>
          if num_iovecs io =? 0 then
            let '(s, res) := stream_flush (writer_inner w) in
            Some (mkWriter s (writer_buf w), Returns res)
          else
            match write_all (Z.to_nat (total_len io)) (writer_inner w) (iovecs io) 0 (total_len io) with
            | None => None
            | Some (s, Panics m) => Some (mkWriter s (writer_buf w), Panics m)
            | Some (s, Returns (Err e)) => Some (mkWriter s (writer_buf w), Returns (Err e))
            | Some (s, Returns (Ok written)) =>
                match drain written (writer_buf w) with
                | Panics m => Some (mkWriter s (writer_buf w), Panics m)
                | Returns b => Writer_flush fuel (mkWriter s b)
                end
            end
      end
  end.

(** The part of [Writer::write] after the first [if]. *)
Definition enqueue `{Unicode} (packet : Packet.t) (version : ProtocolVersion) (w : Writer St B) :
    Writer St B * result IoError () :=
  match Packet.encode packet version (ByteCounter_new (COUNT_SHARED := false)) with
  | Err e => (w, Err (OtherEncode e))
  | Ok counter =>
      match reserve (into_count counter) (writer_buf w) with
      | Err e => (w, Err (OtherPool e))
      | Ok b =>
          match Packet.encode packet version b with
          | Err e => (mkWriter (writer_inner w) b, Err (OtherEncode e))
          | Ok b => (mkWriter (writer_inner w) b, Ok tt)
          end
      end
  end.

(** [Writer::write], with the assertions of a debug build. *)
Definition Writer_write `{Unicode} (fuel : nat) (packet : Packet.t) (version : ProtocolVersion)
    (w : Writer St B) : option (Writer St B * outcome (result IoError ())) :=
  if negb (can_accept_more (writer_buf w)) then
    match Writer_flush fuel w with
    | None => None
    | Some (w, Panics m) => Some (w, Panics m)
    | Some (w, Returns (Err e)) => Some (w, Returns (Err e))
    | Some (w, Returns (Ok _)) =>
        if can_accept_more (writer_buf w) then
          let '(w, res) := enqueue packet version w in Some (w, Returns res)
        else Some (w, Panics "Writer cannot accept more even after it was completely drained")
    end
  else let '(w, res) := enqueue packet version w in Some (w, Returns res).
End write.

(** ** Accumulators as queues

    [acc_valid b]: the bookkeeping of [b] is consistent; [acc_committed b]:
    moreover nothing is uncommitted, which [to_iovecs] asserts. *)

Class LawfulQueue (B : Type) `{LawfulAccumulator B} := {
  acc_valid : B -> Prop;
  acc_committed : B -> Prop;
  committed_valid : forall b, acc_committed b -> acc_valid b;
  reserve_valid : forall n b b', acc_valid b -> reserve n b = Ok b' -> acc_valid b';
  put_slice_valid : forall bs b b', acc_valid b -> try_put_slice bs b = Some b' -> acc_valid b';
  put_shared_valid : forall bs b, acc_valid b -> acc_valid (put_shared bs b);
  put_done_committed : forall b, acc_valid b -> acc_committed (put_done b);
  empty_accepts : forall b, acc_committed b -> view b = [] -> can_accept_more b = true;
  to_iovecs_queue : forall b, acc_committed b -> exists io rest,
    to_iovecs 128 b = Returns io /\ view b = concat (iovecs io) ++ rest /\
    num_iovecs io = len (iovecs io) /\ total_len io = len (concat (iovecs io)) /\
    Forall (fun c => c <> []) (iovecs io) /\ (iovecs io = [] -> rest = []);
  drain_queue : forall b n, acc_committed b -> 0 <= n <= len (view b) -> exists b',
    drain n b = Returns b' /\ acc_committed b' /\ view b' = drop (Z.to_nat n) (view b);
}.
Arguments LawfulQueue B {_ _}.

#[export] Instance Single_queue : LawfulQueue SingleAccumulator.
Proof.
  refine {| acc_valid _ := True; acc_committed _ := True |}; try done.
  - intros [bs] _. cbn. unfold single_to_iovecs.
    destruct bs as [|b bs]; cbn [list_is_empty].
    + exists (mkIovecs [] 0 0), []. by split_and!.
    + exists (mkIovecs [b :: bs] 1 (len (b :: bs))), []. cbn [iovecs concat num_iovecs total_len].
      split_and!; [done|by rewrite !app_nil_r|done|by rewrite app_nil_r|by repeat constructor|done].
  - intros [bs] n _ Hn. cbn in *. unfold advance_bytes.
    destruct (_ <? _) eqn:E; bool_to_prop; [lia|]. cbn. eauto.
Defined.

Lemma take_concat (cs : list (list u8)) n : concat cs = concat (take n cs) ++ concat (drop n cs).
Proof. by rewrite <- concat_app, take_drop. Qed.

#[export] Instance Iovecs_queue {Ow} `{LawfulOwned Ow} : LawfulQueue (IovecsAccumulator Ow).
Proof.
  refine {| acc_valid := iov_wf; acc_committed b := iov_wf b /\ filled (owned b) = [] |}; cbn.
  - tauto.
  - intros n b b' Hb E. inv_ok E. exact Hb.
  - intros bs b b'. apply iov_wf_put_slice.
  - intros bs b. apply iov_wf_put_shared.
  - intros b Hb. split; [by apply iov_wf_put_done | apply iov_put_done_filled].
  - intros b [[_ Hne] _] Hv. unfold iov_view in Hv. apply app_eq_nil in Hv as [Hv _].
    destruct (chunks b) as [|c cs]; [done|]. inversion_clear Hne as [|? ? Hc _].
    cbn in Hv. by apply app_eq_nil in Hv as [? _].
  - intros b [[_ Hne] Hf]. unfold iov_to_iovecs, iov_view. rewrite Hf. cbn [list_is_empty].
    exists (mkIovecs (take 128 (chunks b)) (len (take 128 (chunks b)))
      (chunks_len (take 128 (chunks b)))), (concat (drop 128 (chunks b))).
    cbn [iovecs num_iovecs total_len]. split_and!; [done| |done|apply chunks_len_concat| |].
    + rewrite app_nil_r. apply take_concat.
    + by apply Forall_take.
    + by destruct (chunks b).
  - intros b n [Hb Hf] Hn. unfold iov_view in *. rewrite Hf, app_nil_r in *.
    destruct (iov_drain_ok n b Hb) as (b' & -> & Hb' & Ho & Hc).
    { destruct Hb as [-> _]. by rewrite chunks_len_concat. }
    exists b'. rewrite Ho, Hf, app_nil_r. done.
Defined.

#[export] Instance Either_queue {Ow} `{LawfulOwned Ow} : LawfulQueue (EitherAccumulator Ow).
Proof.
  refine {|
    acc_valid b := match b with EitherIovecs ba => acc_valid ba | EitherSingle ba => acc_valid ba end;
    acc_committed b :=
      match b with EitherIovecs ba => acc_committed ba | EitherSingle ba => acc_committed ba end |}.
  - intros []; apply committed_valid.
  - intros n [ba|ba] b' Hb E; cbn in E.
    + destruct (owned_reserve n (owned ba)) eqn:Er; [|done]. injection E as <-.
      apply (reserve_valid n ba _ Hb). cbn. by rewrite Er.
    + injection E as <-. exact I.
  - intros bs [ba|ba] b' Hb E; cbn in E.
    + destruct (iov_try_put_slice bs ba) eqn:Er; [|done]. injection E as <-.
      exact (put_slice_valid bs ba _ Hb Er).
    + injection E as <-. exact I.
  - intros bs []; apply put_shared_valid.
  - intros []; apply put_done_committed.
  - intros [ba|ba]; exact (empty_accepts ba).
  - intros [ba|ba]; exact (to_iovecs_queue ba).
  - intros [ba|ba] n Hc Hn; destruct (drain_queue ba n Hc Hn) as (b' & Hd & Hc' & Hv).
    + exists (EitherIovecs b'). cbn. cbn in Hd. by rewrite Hd.
    + exists (EitherSingle b'). cbn. cbn in Hd. by rewrite Hd.
Defined.

(** ** Lemmas *)

Lemma advance_slices_ok bufs n :
  0 <= n <= len (concat bufs) ->
  exists bufs', advance_slices bufs n = Returns bufs' /\
    concat bufs' = drop (Z.to_nat n) (concat bufs).
Proof.
  revert n; induction bufs as [|buf bufs IH]; intros n Hn; cbn [concat advance_slices] in *.
  { unfold len in Hn; cbn in Hn. replace n with 0 by lia. by exists []. }
  rewrite len_app in Hn. destruct (len buf <=? n) eqn:E; bool_to_prop.
  - destruct (IH (n - len buf) ltac:(lia)) as (bufs' & -> & Hc). exists bufs'. split; [done|].
    rewrite Hc, drop_app_ge by (unfold len in *; lia). f_equal. unfold len in *. lia.
  - eexists. split; [done|]. cbn [concat]. rewrite drop_app_le; [done|]. unfold len in *. lia.
Qed.

Lemma take_min_app (l r : list u8) (k : nat) : take (Nat.min k (length l)) (l ++ r) = take k l.
Proof.
  rewrite take_app_le by lia. destruct (Nat.le_ge_cases k (length l)).
  - by rewrite Nat.min_l.
  - by rewrite Nat.min_r, firstn_all, take_ge.
Qed.

Section flush.
Context {St B : Type} `{LawfulWritable St} `{LawfulQueue B}.
Implicit Types w : Writer St B.

Lemma write_all_ok fuel s iovecs written total :
  len (concat iovecs) = total - written -> total - written <= Z.of_nat fuel ->
  exists s' res, write_all fuel s iovecs written total = Some (s', Returns res) /\
    match res with
    | Ok n => n = total /\ sent s' = sent s ++ concat iovecs
    | Err _ => exists k, sent s' = sent s ++ take k (concat iovecs)
    end.
Proof.
  revert s iovecs written; induction fuel as [|fuel IH]; intros s iovecs written Hl Hf;
    cbn [write_all]; destruct (written <? total) eqn:E; bool_to_prop; try lia.
  1, 3: pose proof (len_nonneg (concat iovecs)); do 2 eexists; (split; [done|]);
    cbn; split; [lia|]; assert (Hz : len (concat iovecs) = 0) by lia;
    destruct (concat iovecs); [by rewrite app_nil_r|]; rewrite len_cons in Hz;
    pose proof (len_nonneg l); lia.
  destruct (stream_write s iovecs) as [s1 [n|e]] eqn:Ew.
  2: { do 2 eexists. split; [done|]. exists 0%nat. rewrite take_0, app_nil_r. by eapply stream_write_err. }
  apply stream_write_ok in Ew as [Hn Hs1]. destruct (n =? 0) eqn:E0; bool_to_prop.
  { do 2 eexists. split; [done|]. exists (Z.to_nat n). exact Hs1. }
  destruct (written + n <? total) eqn:E1; bool_to_prop.
  - destruct (advance_slices_ok iovecs n Hn) as (iovecs' & -> & Hc).
    destruct (IH s1 iovecs' (written + n)) as (s' & res & -> & Hres).
    { rewrite Hc. unfold len in *. rewrite length_drop. lia. }
    { lia. }
    do 2 eexists. split; [done|]. destruct res as [m|e].
    + destruct Hres as [-> ->]. by rewrite Hs1, Hc, <- app_assoc, take_drop.
    + destruct Hres as [k ->]. exists (Z.to_nat n + k)%nat.
      by rewrite Hs1, Hc, <- app_assoc, take_take_drop.
  - exists s1, (Ok total). assert (Hall : take (Z.to_nat n) (concat iovecs) = concat iovecs)
      by (apply take_ge; unfold len in *; lia).
    replace (written + n) with total by lia. split; [|by rewrite Hs1, Hall].
    destruct fuel; cbn [write_all]; by rewrite Z.ltb_irrefl.
Qed.

Lemma Writer_flush_ok fuel w :
  acc_committed (writer_buf w) -> len (view (writer_buf w)) < Z.of_nat fuel ->
  exists w' res, Writer_flush fuel w = Some (w', Returns res) /\
    acc_committed (writer_buf w') /\
    match res with
    | Ok _ => sent (writer_inner w') = sent (writer_inner w) ++ view (writer_buf w) /\
        view (writer_buf w') = []
    | Err _ => exists k,
        sent (writer_inner w') = sent (writer_inner w) ++ take k (view (writer_buf w))
    end.
Proof.
  revert w; induction fuel as [|fuel IH]; intros w Hc Hf.
  { pose proof (len_nonneg (view (writer_buf w))). lia. }
  cbn [Writer_flush].
  destruct (to_iovecs_queue _ Hc) as (io & rest & -> & Hv & Hnum & Htot & Hne & Hrest).
  rewrite Hnum. destruct (iovecs io) as [|c cs] eqn:Eio.
  { cbn [len length Z.of_nat Z.eqb]. destruct (stream_flush (writer_inner w)) as [s res] eqn:Es.
    apply stream_flush_sent in Es. do 2 eexists. split; [done|]. cbn. rewrite Hv, (Hrest eq_refl), Es.
    destruct res; (split; [done|]); [by rewrite app_nil_r|]. exists 0%nat. by rewrite app_nil_r. }
  rewrite len_cons. pose proof (len_nonneg cs). destruct (_ =? 0) eqn:E0; bool_to_prop; [lia|]. clear E0.
  rewrite Htot. pose proof (len_nonneg (concat (c :: cs))).
  destruct (write_all_ok (Z.to_nat (len (concat (c :: cs)))) (writer_inner w) (c :: cs) 0
    (len (concat (c :: cs)))) as (s & res & -> & Hres); [lia|lia|].
  destruct res as [n|e].
  2: { destruct Hres as [k Hk]. do 2 eexists. split; [done|]. split; [done|]. cbn. rewrite Hk, Hv.
       exists (Nat.min k (length (concat (c :: cs)))). by rewrite take_min_app. }
  destruct Hres as [-> Hs].
  destruct (drain_queue _ (len (concat (c :: cs))) Hc) as (b & -> & Hcb & Hvb).
  { rewrite Hv, len_app. pose proof (len_nonneg rest). lia. }
  rewrite Hv, drop_len_app in Hvb.
  destruct (IH (mkWriter s b) Hcb) as (w' & res & -> & Hc' & Hres).
  { cbn [writer_buf]. rewrite Hvb. rewrite Hv, len_app in Hf. cbn [concat] in Hf. rewrite len_app in Hf.
    inversion_clear Hne as [|? ? Hcne _]. destruct c; [done|]. rewrite len_cons in Hf.
    pose proof (len_nonneg c). pose proof (len_nonneg (concat cs)). lia. }
  exists w', res. split; [done|]. split; [done|]. cbn [writer_inner writer_buf] in Hres.
  rewrite Hs, Hvb in Hres. rewrite Hv. destruct res as [u|e].
  - by rewrite <- app_assoc in Hres.
  - destruct Hres as [k ->]. exists (length (concat (c :: cs)) + k)%nat.
    by rewrite <- app_assoc, take_app_add.
Qed.
End flush.

Section enqueue.
Context {B : Type} `{LawfulQueue B} `{UnicodeLaws}.

Lemma exec_valid ps (b b' : B) : exec ps b = Ok b' -> acc_valid b -> acc_valid b'.
Proof.
  revert b. unfold exec. induction ps as [|p ps IH]; intros b E Hb; cbn in E.
  { by injection E as ->. }
  inv_ok E. apply (IH _ E). destruct p; cbn in E0; unfold ok_or in E0; inv_ok E0.
  - by eapply put_slice_valid.
  - by apply put_shared_valid.
  - by apply committed_valid, put_done_committed.
Qed.

Lemma traceable_valid E (b b' : B) : traceable E -> E B _ b = Ok b' -> acc_valid b -> acc_valid b'.
Proof.
  intros (ps & [e|] & Hr & _) HE; rewrite Hr in HE; inv_ok HE. by eapply exec_valid.
Qed.

(** [encode_inner] ends with [put_done], so the packet is committed. *)
Lemma encode_inner_committed {P} `{PacketLaws P} (p : P) flags v (b b' : B) :
  Packet.encode_inner p flags b v = Ok b' -> acc_valid b -> acc_committed b'.
Proof.
  unfold Packet.encode_inner. intros E Hb.
  destruct (packet_encode _ (ByteCounter_accumulator true) p v ByteCounter_new) as [c|]; [|done].
  destruct (put_u8 _ b) as [b1|] eqn:E1; [|done].
  destruct (encode_remaining_length _ b1) as [b2|] eqn:E2; [|done].
  destruct (packet_encode _ _ p v b2) as [b3|] eqn:E3; [|done]. injection E as <-.
  apply put_done_committed.
  eapply (traceable_valid (fun B BA dst => packet_encode B BA p v dst));
    [eapply wp_traceable, packet_encode_wp | exact E3 |].
  eapply (traceable_valid (fun B BA dst => encode_remaining_length (H := BA) (into_count c) dst));
    [apply encode_remaining_length_traceable | exact E2 |].
  eapply (traceable_valid (fun B BA dst => put_u8 (H := BA) (Z.lor PACKET_TYPE flags) dst)); [|exact E1|done].
  by eapply wp_traceable, (put_u8_wp _ (fun _ => True)).
Qed.

Lemma encode_committed p v (b b' : B) :
  Packet.encode p v b = Ok b' -> acc_valid b -> acc_committed b'.
Proof. destruct p; cbn [Packet.encode]; apply encode_inner_committed. Qed.
End enqueue.

(** ** Properties *)

Section writer_properties.
Context {St B : Type} `{LawfulWritable St} `{LawfulQueue B} `{UnicodeLaws}.
Implicit Types w : Writer St B.

(** Everything given to the writer: sent, or waiting in its accumulator. *)
Definition output w : list u8 := sent (writer_inner w) ++ view (writer_buf w).

(** [Writer::flush] ends without a panic (its assertions, those of the
    accumulator and [IoSlice::advance_slices] hold), however few bytes each
    vectored write takes. If it succeeds, everything that was enqueued has been
    sent, in order and once, and the accumulator is empty; if the stream fails,
    what was sent is a prefix of what was enqueued. *)
Theorem writer_flush_all fuel w :
  acc_committed (writer_buf w) -> len (view (writer_buf w)) < Z.of_nat fuel ->
  exists w' res, Writer_flush fuel w = Some (w', Returns res) /\
    acc_committed (writer_buf w') /\
    match res with
    | Ok _ => sent (writer_inner w') = sent (writer_inner w) ++ view (writer_buf w) /\
        view (writer_buf w') = []
    | Err _ => exists k,
        sent (writer_inner w') = sent (writer_inner w) ++ take k (view (writer_buf w))
    end.
Proof. apply Writer_flush_ok. Qed.

Lemma enqueue_ok packet version w :
  acc_committed (writer_buf w) ->
  exists w' res, enqueue packet version w = (w', res) /\
    (res = Ok tt -> acc_committed (writer_buf w') /\
      exists bs, Packet.encode packet version SingleAccumulator_new = Ok (mkSingle bs) /\
        output w' = output w ++ bs).
Proof.
  intros Hc. unfold enqueue.
  destruct (Packet.encode packet version ByteCounter_new) as [counter|e] eqn:Ec; [|err_case].
  destruct (reserve _ (writer_buf w)) as [b|e] eqn:Er; [|err_case].
  destruct (Packet.encode packet version b) as [b'|e] eqn:Ee; [|err_case].
  do 2 eexists. split; [done|]. intros _. cbn. split.
  - eapply encode_committed; [exact Ee|]. eapply reserve_valid; [by apply committed_valid|exact Er].
  - destruct (traceable_view (fun B BA dst => Packet.encode packet version dst) b b'
      (Packet_traceable version packet) Ee) as (bs & Hv & Hs & _).
    exists bs. split; [done|]. unfold output. cbn. apply reserve_view in Er.
    by rewrite Hv, Er, app_assoc.
Qed.

(** [Writer::write] ends without a panic and, when it succeeds, has appended
    exactly the encoding of the packet to the bytes that were sent or are
    waiting, whether or not it had to flush first because the accumulator was
    full; the accumulator is left committed, ready for [flush]. *)
Theorem writer_write_appends fuel packet version w :
  acc_committed (writer_buf w) -> len (view (writer_buf w)) < Z.of_nat fuel ->
  exists w' res, Writer_write fuel packet version w = Some (w', Returns res) /\
    (res = Ok tt -> acc_committed (writer_buf w') /\
      exists bs, Packet.encode packet version SingleAccumulator_new = Ok (mkSingle bs) /\
        output w' = output w ++ bs).
Proof.
  intros Hc Hf. unfold Writer_write. destruct (can_accept_more (writer_buf w)) eqn:Em; cbn [negb].
  { destruct (enqueue_ok packet version w Hc) as (w' & res & -> & Hok). eauto. }
  destruct (Writer_flush_ok fuel w Hc Hf) as (w1 & [[]|e] & -> & Hc1 & Hres); [|err_case].
  destruct Hres as [Hs Hv]. rewrite (empty_accepts _ Hc1 Hv).
  destruct (enqueue_ok packet version w1 Hc1) as (w' & res & -> & Hok).
  do 2 eexists. split; [done|]. intros E. destruct (Hok E) as (? & bs & ? & Hout).
  split; [done|]. exists bs. split; [done|]. rewrite Hout. unfold output.
  by rewrite Hs, Hv, app_nil_r.
Qed.
End writer_properties.

(** ** From the writer of one side to the reader of the other *)

Section connection.
Context {St B : Type} `{LawfulWritable St} `{LawfulQueue B} `{UnicodeLaws}.

(** Successful calls of [Writer::write], one per packet, with enough fuel. *)
Inductive writes : Writer St B -> list Packet.t -> Writer St B -> Prop :=
  | writes_nil w : writes w [] w
  | writes_cons fuel w packet w1 packets w2 :
      len (view (writer_buf w)) < Z.of_nat fuel ->
      Writer_write fuel packet V5 w = Some (w1, Returns (Ok tt)) ->
      writes w1 packets w2 -> writes w (packet :: packets) w2.

Lemma writes_output w packets w' :
  writes w packets w' -> acc_committed (writer_buf w) ->
  acc_committed (writer_buf w') /\ exists encodings,
    Forall2 (fun p bs => Packet.encode p V5 SingleAccumulator_new = Ok (mkSingle bs)) packets encodings /\
    output w' = output w ++ concat encodings.
Proof.
  induction 1 as [w|fuel w p w1 ps w2 Hf Hw _ IH]; intros Hc.
  { split; [done|]. exists []. split; [constructor|]. by rewrite app_nil_r. }
  destruct (writer_write_appends fuel p V5 w Hc Hf) as (w' & res & E & Hok).
  rewrite Hw in E. injection E as <- <-. destruct (Hok eq_refl) as (Hc1 & bs & Hbs & Ho1).
  destruct (IH Hc1) as (Hc2 & bss & HF & Ho2). split; [done|]. exists (bs :: bss).
  split; [by constructor|]. cbn [concat]. by rewrite Ho2, Ho1, <- app_assoc.
Qed.

Context {Si Ow : Type} `{ReliableStream Si} `{LawfulOwned Ow}.
Context (pool_unlimited : forall n (o : Ow), exists o', owned_reserve n o = Ok o').

Lemma writes_received w packets w1 fuel w2 (r : Reader Si Ow) :
  acc_committed (writer_buf w) -> output w = [] ->
  Forall (Packet.wf V5) packets ->
  writes w packets w1 ->
  len (view (writer_buf w1)) < Z.of_nat fuel ->
  Writer_flush fuel w1 = Some (w2, Returns (Ok tt)) ->
  bytes_ok (incoming r) -> incoming r = sent (writer_inner w2) ->
  exists r', receive_many (length packets) r = Some (r', Ok packets) /\ incoming r' = [].
Proof.
  intros Hc Ho Hwf Hw Hf Hfl Hb Hi.
  destruct (writes_output w packets w1 Hw Hc) as (Hc1 & bss & HF & Ho1).
  destruct (Writer_flush_ok fuel w1 Hc1 Hf) as (w' & res & E & _ & Hres).
  rewrite Hfl in E. injection E as <- <-. destruct Hres as [Hs _].
  rewrite Ho in Ho1. cbn in Ho1. unfold output in Ho1. rewrite Ho1 in Hs. rewrite Hs in Hi.
  apply (receive_encoded pool_unlimited r packets bss []); [|done|by rewrite app_nil_r].
  clear -HF Hwf. induction HF; inversion_clear Hwf; constructor; auto.
Qed.

(** C2: a connection delivers the packets in order. Whatever a client writes on
    a fresh connection and flushes successfully, with partial vectored writes,
    is what a peer of the same code receives: the same packets, in the same
    order, each once, when the transport carries the bytes and delivers them in
    pieces of any size. *)
Theorem connection_in_order w packets w1 fuel w2 (r : Reader Si Ow) :
  acc_committed (writer_buf w) -> output w = [] ->
  Forall (Packet.wf V5) packets ->
  writes w packets w1 ->
  len (view (writer_buf w1)) < Z.of_nat fuel ->
  Writer_flush fuel w1 = Some (w2, Returns (Ok tt)) ->
  bytes_ok (incoming r) -> incoming r = sent (writer_inner w2) ->
  exists r', receive_many (length packets) r = Some (r', Ok packets) /\ incoming r' = [].
Proof. apply writes_received. Qed.
End connection.

(** ** Witnesses *)

(** A stream that takes at most five bytes per write. *)
Record SlowSink : Set := mkSink { sink_bytes : list u8 }.

#[export] Instance SlowSink_writable : WritableStream SlowSink := {
  stream_write s bufs :=
    let taken := take 5 (concat bufs) in (mkSink (sink_bytes s ++ taken), Ok (len taken));
  stream_flush s := (s, Ok tt);
}.

#[export] Instance SlowSink_lawful : LawfulWritable SlowSink.
Proof.
  refine {| sent := sink_bytes |}; cbn [stream_write stream_flush SlowSink_writable].
  - intros s bufs s' n E. apply pair_equal_spec in E as [<- E]. injection E as <-. cbn [sink_bytes].
    generalize (concat bufs); intros l. split.
    + unfold len. rewrite length_take. lia.
    + f_equal. unfold len. rewrite Nat2Z.id, length_take. destruct (Nat.le_ge_cases 5 (length l)).
      * by rewrite Nat.min_l.
      * by rewrite Nat.min_r, firstn_all, take_ge.
  - done.
  - by intros s s' r [= <- _].
Defined.

Definition fresh_writer : Writer SlowSink (EitherAccumulator VecOwned) :=
  mkWriter (mkSink []) (EitherIovecs (IovecsAccumulator_new (mkVecOwned [] 0))).

Definition busy_writer : Writer SlowSink (EitherAccumulator VecOwned) :=
  mkWriter (mkSink [64; 2; 0; 1]) (EitherIovecs (mkIov (mkVecOwned [] 2) [[192; 0]; [64; 2; 0; 9]] 6)).

Lemma busy_committed : acc_committed (writer_buf busy_writer).
Proof. split; [|done]. split; [done|]. by repeat constructor. Qed.

Lemma writer_flush_all_witness :
  exists w' res, Writer_flush 7 busy_writer = Some (w', Returns res) /\
    res = Ok tt /\ sink_bytes (writer_inner w') = [64; 2; 0; 1; 192; 0; 64; 2; 0; 9].
Proof.
  destruct (writer_flush_all 7 busy_writer) as (w' & res & E & _ & Hres).
  - exact busy_committed.
  - vm_compute. reflexivity.
  - exists w', res. split; [exact E|]. assert (Er : exists w, Some (w, Returns (Ok tt)) = Some (w', Returns res))
      by (rewrite <- E; eexists; vm_compute; reflexivity).
    destruct Er as [w Er]. injection Er as _ <-. split; [done|]. exact (proj1 Hres).
Defined.

Lemma writer_write_appends_witness :
  exists w', Writer_write (H1 := Ascii) 7 publish_sample V5 busy_writer = Some (w', Returns (Ok tt)) /\
    output w' = output busy_writer ++ publish_sample_bytes.
Proof.
  destruct (@writer_write_appends _ _ _ _ _ _ _ Ascii Ascii_laws 7 publish_sample V5 busy_writer)
    as (w' & res & E & Hres).
  - exact busy_committed.
  - vm_compute. reflexivity.
  - assert (Er : exists w, Some (w, Returns (Ok tt)) = Some (w', Returns res))
      by (rewrite <- E; eexists; vm_compute; reflexivity).
    destruct Er as [w Er]. injection Er as _ <-. exists w'. split; [exact E|].
    destruct (Hres eq_refl) as (_ & bs & Hbs & ->). f_equal. vm_compute in Hbs. by injection Hbs as <-.
Defined.

(** The writer after one successful call. *)
Definition written (p : Packet.t) (w : Writer SlowSink (EitherAccumulator VecOwned)) :=
  match Writer_write (H1 := Ascii) 30 p V5 w with Some (w, _) => w | None => w end.
Definition flushed (w : Writer SlowSink (EitherAccumulator VecOwned)) :=
  match Writer_flush 30 w with Some (w, _) => w | None => w end.

Definition written_writer := written (Packet.PingReq PingReq.mk) (written publish_sample fresh_writer).

Lemma connection_in_order_witness :
  Writer_flush 30 written_writer = Some (flushed written_writer, Returns (Ok tt)) /\
  exists r', receive_many (H1 := Ascii) 2 (vec_reader (sink_bytes (writer_inner (flushed written_writer))))
    = Some (r', Ok [publish_sample; Packet.PingReq PingReq.mk]) /\ incoming r' = [].
Proof.
  split; [vm_compute; reflexivity|].
  apply (@connection_in_order _ _ _ _ _ _ _ Ascii Ascii_laws _ _ _ _ _ _ vec_unlimited
    fresh_writer [publish_sample; Packet.PingReq PingReq.mk] written_writer 30 (flushed written_writer)).
  - by split; [split|].
  - reflexivity.
  - constructor; [|constructor; [exact I|constructor]].
    apply (@Packet_decode_full_wf Ascii Ascii_laws publish_sample_bytes);
      [apply publish_sample_bytes_ok | vm_compute; reflexivity].
  - do 2 (eapply (writes_cons 30); [vm_compute; reflexivity|vm_compute; reflexivity|]). apply writes_nil.
  - vm_compute; reflexivity.
  - vm_compute; reflexivity.
  - replace (incoming _) with (publish_sample_bytes ++ [192; 0]) by (vm_compute; reflexivity).
    apply Forall_app; split; [apply publish_sample_bytes_ok | solve_bytes].
  - reflexivity.
Defined.
