(* ===== verification/TestTransport.v ===== *)
(** * The packet stream for integration tests

    io/test.rs: a transport that is fed with packets instead of bytes. Its reading
    half encodes the packets of a channel; its writing half puts the bytes it is
    given together again, decodes them and sends the packets to a channel. *)

From S2P Require Export Copies Writer.
Local Open Scope Z_scope.

(** [unwrap] of an [Err]. *)
Definition unwrap_ok {E A} (r : result E A) : outcome A :=
  match r with
  | Ok a => Returns a
  | Err _ => Panics "called `Result::unwrap()` on an `Err` value"
  end.

Section streams.
Context {Ow : Type} `{Owned Ow} `{Unicode}.

(** ** Reading *)

(** [struct TestStreamRead], with the packets that the channel will yield before its
    sender is dropped. [test_pool] is what [take_empty_owned] returns. *)
Record TestStreamRead := mkTestRead {
  incoming_packets : list Packet.t;
  test_pool : Ow;
  current_packet : option Shared;
}.

(** The bytes of a packet, in a buffer of the pool. *)
Definition test_encode (pool : Ow) (packet : Packet.t) : outcome Shared :=
  let! counter := unwrap_ok (Packet.encode packet V5 (ByteCounter_new (COUNT_SHARED := false))) in
  let num_bytes_needed := into_count counter in
  let! accumulator := unwrap_ok (reserve num_bytes_needed (EitherSingle (O := Ow) SingleAccumulator_new)) in
  let! accumulator := unwrap_ok (Packet.encode packet V5 accumulator) in
  let! io := to_iovecs 1 accumulator in
  let iovec := match iovecs io with buf :: _ => buf | [] => [] end in
  let! r := Shared_new iovec pool in
  let! r := unwrap_ok r in
  Returns (fst r).

(** The branch of [read] that has a packet at hand. *)
Definition test_serve (n : usize) (current : Shared) (s : TestStreamRead) : TestStreamRead * list u8 :=
  let read := Z.min n (len current) in
  let '(to_read_from, current) := split_to read current in
  (mkTestRead (incoming_packets s) (test_pool s) (if list_is_empty current then None else Some current),
   to_read_from).

(** [ReadableStream::read]; the second round of its loop returns. *)
Definition test_read (n : usize) (s : TestStreamRead) : outcome (TestStreamRead * list u8) :=
  match current_packet s with
  | Some current => Returns (test_serve n current s)
  | None =>
      match incoming_packets s with
      | [] => Returns (s, [])
      | packet :: rest =>
          let! current := test_encode (test_pool s) packet in
          Returns (test_serve n current (mkTestRead rest (test_pool s) (Some current)))
      end
  end.

(** A panic ends the test; the theorem below shows when there is none. *)
#[export] Instance TestStreamRead_readable : ReadableStream TestStreamRead := {|
  stream_read s n :=
    match test_read n s with
    | Returns (s, bs) => (s, Ok bs)
    | Panics _ => (s, Err UnexpectedEof)
    end;
|}.

(** ** Writing *)

(** [struct TestStreamWrite], with the packets that were sent and whether the
    receiver is still there. *)
Record TestStreamWrite := mkTestWrite {
  outgoing_packets : list Packet.t;
  receiver_open : bool;
  current_buf : Ow;
}.

(** [self.current_buf.reserve(buf.len()).unwrap(); self.current_buf.put_slice(buf)]. *)
Definition test_put (buf : list u8) (o : Ow) : outcome Ow :=
  let! o := unwrap_ok (owned_reserve (len buf) o) in
  let '(o, n) := unfilled_mut o in
  if n <? len buf then Panics "cannot put slice" else Returns (fill_with buf o).

Fixpoint test_put_all (bufs : list (list u8)) (o : Ow) : outcome Ow :=
  match bufs with
  | [] => Returns o
  | buf :: bufs => let! o := test_put buf o in test_put_all bufs o
  end.

(** The loop of [write_vectored]; the result tells whether the receiver took
    everything. A packet has two bytes at least, so a fuel of the length of the
    buffer is enough; [None] is out of fuel. *)
Fixpoint test_deliver (fuel : nat) (s : TestStreamWrite) : option (outcome (TestStreamWrite * bool)) :=
  match fuel with
  | O => None
  | S fuel =>
      let filled_bytes := filled (current_buf s) in
      match decode_fixed_header filled_bytes with
      | Err _ => Some (Panics "called `Result::unwrap()` on an `Err` value")
      | Ok None => Some (Returns (s, true))
      | Ok (Some (first_byte, remaining_length, rest)) =>
          let fixed_header_len := len filled_bytes - len rest in
          if len filled_bytes <? fixed_header_len + remaining_length then Some (Returns (s, true))
          else
            let o := owned_drain fixed_header_len (current_buf s) in
            let '(body, o) := split_to_freeze remaining_length o in
            match Packet.decode first_byte body V5 with
            | Err _ => Some (Panics "called `Result::unwrap()` on an `Err` value")
            | Ok packet =>
                if receiver_open s then
                  test_deliver fuel (mkTestWrite (outgoing_packets s ++ [packet]) true o)
                else Some (Returns (mkTestWrite (outgoing_packets s) false o, false))
            end
      end
  end.

(** [WritableStream::write_vectored]. *)
Definition test_write (bufs : list (list u8)) (s : TestStreamWrite) :
    option (outcome (TestStreamWrite * result IoError usize)) :=
  match test_put_all bufs (current_buf s) with
  | Panics m => Some (Panics m)
  | Returns o =>
      let written := len (concat bufs) in
      match test_deliver (S (length (filled o)))
              (mkTestWrite (outgoing_packets s) (receiver_open s) o) with
      | None => None
      | Some (Panics m) => Some (Panics m)
      | Some (Returns (s, all)) => Some (Returns (s, Ok (if all then written else 0)))
      end
  end.

(** [WritableStream::flush]. *)
Definition test_flush (s : TestStreamWrite) : TestStreamWrite * result IoError () := (s, Ok tt).

(** [connect]. *)
Definition test_connect (incoming : list Packet.t) (reader_pool writer_pool : Ow) :
    Reader TestStreamRead Ow * Writer TestStreamWrite (EitherAccumulator Ow) :=
  (mkReader (mkTestRead incoming reader_pool None) reader_pool,
   mkWriter (mkTestWrite [] true writer_pool) (EitherSingle SingleAccumulator_new)).
End streams.
Arguments TestStreamRead : clear implicits.
Arguments TestStreamWrite : clear implicits.

(** ** Reading *)

Section reading.
Context {Ow : Type} `{LawfulOwned Ow} `{UnicodeLaws}.
Context (pool_unlimited : forall n (o : Ow), exists o', owned_reserve n o = Ok o').

(** The bytes of a packet on the wire. *)
Definition wire (p : Packet.t) : option (list u8) :=
  match Packet.encode p V5 SingleAccumulator_new with Ok b => Some (single_bytes b) | Err _ => None end.

(** The bytes that the packets up to the first that cannot be encoded give. *)
Fixpoint wires (ps : list Packet.t) : list u8 :=
  match ps with
  | p :: ps => match wire p with Some bs => bs ++ wires ps | None => [] end
  | [] => []
  end.

Lemma encode_inner_nonempty {P} `{PacketLaws P} (p : P) flags v :
  wp (fun B BA dst => Packet.encode_inner p flags dst v) (fun bs => bs <> []).
Proof.
  apply (wp_counted (fun B BA dst => packet_encode B BA p v dst)
    (fun n B BA dst => let? dst := put_u8 (Z.lor PACKET_TYPE flags) dst in
      let? dst := encode_remaining_length n dst in
      let? dst := packet_encode B BA p v dst in Ok (put_done dst)) _ _ (packet_encode_wp v p)).
  intros ps Hr _. apply wp_bind, put_u8_wp, wp_bind.
  eapply wp_mono; [apply encode_remaining_length_traceable|]. intros bs _. cbv beta.
  apply wp_bind, (wp_runs _ ps); [done|]. by apply (wp_put_done (fun _ _ dst => Ok dst)), wp_ok.
Qed.

Lemma encode_nonempty p v : wp (fun B BA dst => Packet.encode p v dst) (fun bs => bs <> []).
Proof. destruct p; cbn [Packet.encode]; apply encode_inner_nonempty. Qed.

Lemma wire_nonempty p bs : wire p = Some bs -> bs <> [].
Proof.
  unfold wire. destruct (Packet.encode p V5 SingleAccumulator_new) as [b|] eqn:E; [|done].
  intros [= <-]. by destruct (wp_single _ _ _ _ (encode_nonempty p V5) E) as (bs & -> & Hne).
Qed.

(** Encoding a packet for the stream panics exactly if it cannot be encoded. *)
Lemma test_encode_spec (pool : Ow) p :
  filled pool = [] ->
  match wire p with
  | Some bs => test_encode pool p = Returns bs
  | None => exists m, test_encode pool p = Panics m
  end.
Proof.
  intros Hf. unfold wire, test_encode. destruct (Packet_traceable V5 p) as (ps & [e|] & Hr & _).
  - rewrite !Hr. unfold SingleAccumulator_new, ByteCounter_new. rewrite exec_single, exec_ByteCounter. cbn. eauto.
  - rewrite !Hr. unfold SingleAccumulator_new at 1. rewrite exec_single.
    unfold ByteCounter_new. rewrite exec_ByteCounter. cbn [unwrap_ok reserve Either_accumulator Single_accumulator].
    rewrite Hr.
    assert (He : exec ps (EitherSingle (O := Ow) SingleAccumulator_new) = Ok (EitherSingle (mkSingle (trace_bytes ps)))).
    { clear Hr. unfold SingleAccumulator_new. change (trace_bytes ps) with ([] ++ trace_bytes ps).
      generalize (@nil u8). induction ps as [|q ps IH]; intros s; unfold exec in *; cbn.
      - unfold trace_bytes. cbn. by rewrite app_nil_r.
      - unfold trace_bytes in *. destruct q; cbn; rewrite IH; cbn; by rewrite <- ?app_assoc. }
    rewrite He. cbn [unwrap_ok to_iovecs Either_accumulator Single_accumulator single_bytes app].
    set (bs := trace_bytes ps).
    assert (Hi : (match iovecs (single_to_iovecs bs 1) with buf :: _ => buf | [] => [] end) = bs) by (by destruct bs).
    rewrite Hi. pose proof (copies_Shared bs pool Hf) as Hc. unfold copy_to_shared in Hc.
    unfold Shared_new in *. rewrite Hf in *. cbn [list_is_empty] in *.
    destruct (pool_unlimited (len bs) pool) as [o' Eo]. rewrite Eo in *.
    destruct (unfilled_mut o') as [o2 buf]. destruct (buf <? len bs); [done|]. cbn in Hc |- *.
    destruct (split_filled (fill_with bs o2)) as [sh o3]. by destruct Hc as [-> _].
Qed.

(** What is still to be read; on a pool whose empty buffers are not empty,
    copying a packet would panic. *)
Definition test_rest (s : TestStreamRead Ow) : list u8 :=
  if list_is_empty (filled (test_pool s)) then wires (incoming_packets s) else [].

Definition test_pending (s : TestStreamRead Ow) : list u8 :=
  match current_packet s with
  | Some [] => []
  | Some current => current ++ test_rest s
  | None => test_rest s
  end.

Lemma test_serve_pending n c s :
  0 < n -> c <> [] ->
  exists k, (1 <= k <= length (c ++ test_rest s))%nat /\ Z.of_nat k <= n /\
    snd (test_serve n c s) = take k (c ++ test_rest s) /\
    test_pending (fst (test_serve n c s)) = drop k (c ++ test_rest s).
Proof.
  intros Hn Hc. set (k := Z.to_nat (Z.min n (len c))).
  assert (1 <= len c) by (destruct c; [done|]; rewrite len_cons; pose proof (len_nonneg c); lia).
  assert (Hk : (1 <= k <= length c)%nat) by (unfold k, len in *; lia).
  exists k. rewrite length_app. split; [lia|]. split; [unfold k; lia|].
  unfold test_serve, split_to. fold k. cbn [fst snd]. rewrite take_app_le, drop_app_le by lia.
  split; [done|]. unfold test_pending. cbn [current_packet]. by destruct (drop k c).
Qed.

Lemma test_read_pending s n :
  0 < n -> test_pending s <> [] ->
  exists k s', (1 <= k <= length (test_pending s))%nat /\ Z.of_nat k <= n /\
    test_read n s = Returns (s', take k (test_pending s)) /\ test_pending s' = drop k (test_pending s).
Proof.
  intros Hn Hp.
  assert (Hserve : forall c s1, c <> [] -> exists k s', (1 <= k <= length (c ++ test_rest s1))%nat /\
    Z.of_nat k <= n /\ test_serve n c s1 = (s', take k (c ++ test_rest s1)) /\
    test_pending s' = drop k (c ++ test_rest s1)).
  { intros c s1 Hc. destruct (test_serve_pending n c s1 Hn Hc) as (k & ? & ? & Ht & ?).
    exists k, (fst (test_serve n c s1)). rewrite (surjective_pairing (test_serve n c s1)), Ht. auto. }
  destruct s as [ps pool [[|x c]|]]; unfold test_pending, test_read in *; cbn [current_packet] in *; [done|..].
  - destruct (Hserve (x :: c) (mkTestRead ps pool (Some (x :: c))) ltac:(done)) as (k & s' & ? & ? & -> & ?).
    exists k, s'. auto.
  - unfold test_rest in *. cbn [incoming_packets test_pool] in *.
    destruct (list_is_empty (filled pool)) eqn:Ef; [|done]. destruct ps as [|p ps]; [done|]. cbn [wires] in *.
    assert (Hf : filled pool = []) by (by destruct (filled pool)).
    pose proof (test_encode_spec pool p Hf) as He. destruct (wire p) as [bs|] eqn:Ew; [|done].
    rewrite He. apply wire_nonempty in Ew.
    destruct (Hserve bs (mkTestRead ps pool (Some bs)) Ew) as (k & s' & Hk & Hkn & Hs & Hd).
    cbn [test_pool incoming_packets] in *. rewrite Ef in *. exists k, s'. by rewrite Hs.
Qed.

(** So the reader's theorems apply to it. *)
Definition TestStreamRead_reliable : ReliableStream (TestStreamRead Ow).
Proof.
  refine {| pending := test_pending |}. intros s n Hn Hp.
  destruct (test_read_pending s n Hn Hp) as (k & s' & ? & ? & E & ?). exists k, s'.
  split; [done|]. split; [done|]. cbn. by rewrite E.
Defined.

Lemma wires_concat ps bss :
  Forall2 (fun p bs => Packet.wf V5 p /\ Packet.encode p V5 SingleAccumulator_new = Ok (mkSingle bs)) ps bss ->
  wires ps = concat bss.
Proof.
  induction 1 as [|p bs ps bss [_ He] _ IH]; [done|]. cbn. unfold wire. rewrite He. cbn. by rewrite IH.
Qed.

Lemma test_read_packets packets encodings (reader_pool writer_pool : Ow) :
  filled reader_pool = [] ->
  Forall2 (fun p bs => Packet.wf V5 p /\ Packet.encode p V5 SingleAccumulator_new = Ok (mkSingle bs))
    packets encodings ->
  bytes_ok (concat encodings) ->
  exists r', receive_many (length packets) (fst (test_connect packets reader_pool writer_pool))
    = Some (r', Ok packets).
Proof.
  intros Hf HF Hb. pose proof TestStreamRead_reliable as HR.
  assert (Hi : @incoming _ _ _ TestStreamRead_reliable _ (fst (test_connect packets reader_pool writer_pool))
    = concat encodings).
  { unfold incoming. cbn. rewrite Hf. cbn. unfold test_pending, test_rest. cbn. rewrite Hf. cbn.
    by apply wires_concat. }
  destruct (@receive_encoded _ _ _ TestStreamRead_reliable _ _ _ _ pool_unlimited
    (fst (test_connect packets reader_pool writer_pool)) packets encodings []) as (r' & Hr & _); [done|..].
  - by rewrite Hi.
  - by rewrite Hi, app_nil_r.
  - eauto.
Qed.
End reading.

(** ** Writing *)

Section writing.
Context {Ow : Type} `{LawfulOwned Ow} `{UnicodeLaws}.
Context (pool_unlimited : forall n (o : Ow), exists o', owned_reserve n o = Ok o').

Lemma test_put_all_ok bufs (o : Ow) :
  exists o', test_put_all bufs o = Returns o' /\ filled o' = filled o ++ concat bufs.
Proof.
  revert o; induction bufs as [|buf bufs IH]; intros o; cbn [test_put_all concat].
  { exists o. by rewrite app_nil_r. }
  unfold test_put. destruct (pool_unlimited (len buf) o) as [o1 Eo]. rewrite Eo. cbn [unwrap_ok].
  pose proof (owned_reserve_filled _ _ _ Eo) as Hf.
  pose proof (unfilled_mut_len _ _ (owned_reserve_capacity _ _ _ Eo)) as Hl.
  pose proof (unfilled_mut_capacity o1) as Hc. pose proof (unfilled_mut_filled o1) as Hf2.
  destruct (unfilled_mut o1) as [o2 n]. cbn in Hl, Hc, Hf2.
  destruct (n <? len buf) eqn:E; bool_to_prop; [lia|].
  destruct (IH (fill_with buf o2)) as (o' & -> & Ho'). exists o'. split; [done|].
  rewrite Ho', (fill_with_filled buf o2 n Hc Hl), Hf2, Hf. by rewrite <- app_assoc.
Qed.

(** [encodes p bs]: [bs] is what [p] looks like on the wire. *)
Definition encodes (p : Packet.t) (bs : list u8) : Prop :=
  Packet.wf V5 p /\ Packet.encode p V5 SingleAccumulator_new = Ok (mkSingle bs).

Lemma encodes_frame p bs :
  encodes p bs -> exists fb body pre,
    bs = pre ++ body /\ pre <> [] /\ Packet.decode fb body V5 = Ok p /\
    forall more, decode_fixed_header (pre ++ more) = Ok (Some (fb, len body, more)).
Proof.
  intros [Hwf He]. destruct (wp_single _ _ _ _ (Packet_encode_wp V5 p) He) as (bs' & [= <-] & Hd).
  apply decode_full_inv in Hd as (fb & body & Hh & Hp); [|done].
  destruct (decode_fixed_header_split _ _ _ _ Hh) as (pre & -> & Hm). exists fb, body, pre.
  split_and!; try done. intros ->. by specialize (Hm []).
Qed.

(** The packet at the front of a buffer is taken off it. *)
Lemma test_take_packet (o : Ow) g later pre body tail :
  filled o = g -> g ++ later = pre ++ body ++ tail -> len pre + len body <= len g ->
  exists o', split_to_freeze (len body) (owned_drain (len pre) o) = (body, o') /\
    filled o' ++ later = tail /\ length (filled o') = (length g - length pre - length body)%nat.
Proof.
  intros Hg E Hl. pose proof (prefix_bytes _ _ _ _ _ E Hl) as Hf. pose proof (prefix_bytes_rest _ _ _ _ _ E Hl) as Hr.
  set (r := drop (Z.to_nat (len pre + len body)) g) in *.
  pose proof (len_nonneg pre). pose proof (len_nonneg body). pose proof (len_nonneg r).
  pose proof (owned_drain_filled (len pre) o ltac:(rewrite Hg; lia)) as Hd.
  rewrite Hg, Hf, drop_len_app in Hd.
  assert (Hb : 0 <= len body <= len (filled (owned_drain (len pre) o))) by (rewrite Hd, len_app; lia).
  pose proof (split_to_shared _ _ Hb) as Hs1. pose proof (split_to_rest _ _ Hb) as Hs2.
  rewrite Hd in Hs1, Hs2. rewrite take_len_app in Hs1. rewrite drop_len_app in Hs2.
  destruct (split_to_freeze (len body) (owned_drain (len pre) o)) as [sh o']. cbn in Hs1, Hs2. subst sh.
  exists o'. rewrite Hs2. split; [done|]. split; [done|]. unfold r. rewrite length_drop. unfold len. lia.
Qed.

(** The loop sends the packets whose bytes have all arrived. *)
Lemma test_deliver_ok fuel s later packets encodings :
  receiver_open s = true -> Forall2 encodes packets encodings ->
  filled (current_buf s) ++ later = concat encodings -> (length (filled (current_buf s)) < fuel)%nat ->
  exists ps1 ps2 bss2 o, packets = ps1 ++ ps2 /\ Forall2 encodes ps2 bss2 /\
    test_deliver fuel s = Some (Returns (mkTestWrite (outgoing_packets s ++ ps1) true o, true)) /\
    filled o ++ later = concat bss2 /\ (later = [] -> ps2 = []).
Proof.
  revert s packets encodings. induction fuel as [|fuel IH]; intros s packets encodings Ho HF E Hf; [lia|].
  assert (Hstop : (later = [] -> packets = []) -> exists ps1 ps2 bss2 o, packets = ps1 ++ ps2 /\
    Forall2 encodes ps2 bss2 /\
    Some (Returns (s, true)) = Some (Returns (mkTestWrite (outgoing_packets s ++ ps1) true o, true)) /\
    filled o ++ later = concat bss2 /\ (later = [] -> ps2 = [])).
  { intros Hl. exists [], packets, encodings, (current_buf s). rewrite app_nil_r, <- Ho. by destruct s. }
  cbn [test_deliver]. destruct HF as [|p bs ps bss Hp HF].
  { cbn in E. apply app_eq_nil in E as [Eg ->]. rewrite Eg in *. cbn. by apply Hstop. }
  destruct (encodes_frame _ _ Hp) as (fb & body & pre & -> & Hne & Hdec & Hh).
  cbn [concat] in E. rewrite <- app_assoc in E. set (g := filled (current_buf s)) in *.
  pose proof (decode_fixed_header_app g later) as Ha. rewrite E, Hh in Ha.
  pose proof (f_equal len E) as El. rewrite !len_app in El. pose proof (len_nonneg (concat bss)).
  destruct (decode_fixed_header g) as [[[[fb' n] rest]|]|e] eqn:Eg; [| |done].
  - injection Ha as <- <- Hrest. pose proof (f_equal len Hrest) as Er. rewrite !len_app in Er.
    replace (len g - len rest) with (len pre) by lia. destruct (len g <? len pre + len body) eqn:Ec; bool_to_prop.
    { apply Hstop. intros ->. rewrite len_nil in El. lia. }
    destruct (test_take_packet (current_buf s) g later pre body (concat bss)) as (o' & -> & Ho' & Hl'); try done.
    rewrite Hdec, Ho.
    destruct (IH (mkTestWrite (outgoing_packets s ++ [p]) true o') ps bss) as (ps1 & ps2 & bss2 & o & -> & ? & Hd & ? & ?);
      try done.
    { cbn [current_buf]. assert (length pre <> 0%nat) by (by destruct pre). unfold len in Ec. lia. }
    exists (p :: ps1), ps2, bss2, o. split; [done|]. split; [done|]. cbn [outgoing_packets] in Hd.
    rewrite <- app_assoc in Hd. by rewrite Hd.
  - apply Hstop. intros ->. rewrite app_nil_r in E. rewrite E, Hh in Eg. done.
Qed.

(** The calls of [write_vectored] during a connection, each with what it returned. *)
Inductive test_writes : TestStreamWrite Ow -> list (list (list u8)) -> TestStreamWrite Ow -> Prop :=
  | test_writes_nil s : test_writes s [] s
  | test_writes_cons s bufs s1 calls s2 :
      test_write bufs s = Some (Returns (s1, Ok (len (concat bufs)))) ->
      test_writes s1 calls s2 -> test_writes s (bufs :: calls) s2.

Lemma test_write_ok bufs s later packets encodings :
  receiver_open s = true -> Forall2 encodes packets encodings ->
  filled (current_buf s) ++ concat bufs ++ later = concat encodings ->
  exists ps1 ps2 bss2 s1, packets = ps1 ++ ps2 /\ Forall2 encodes ps2 bss2 /\
    test_write bufs s = Some (Returns (s1, Ok (len (concat bufs)))) /\
    outgoing_packets s1 = outgoing_packets s ++ ps1 /\ receiver_open s1 = true /\
    filled (current_buf s1) ++ later = concat bss2 /\ (later = [] -> ps2 = []).
Proof.
  intros Ho HF E. unfold test_write. destruct (test_put_all_ok bufs (current_buf s)) as (o & -> & Hf).
  destruct (test_deliver_ok (S (length (filled o))) (mkTestWrite (outgoing_packets s) (receiver_open s) o)
    later packets encodings) as (ps1 & ps2 & bss2 & o' & -> & ? & Hd & ? & ?); try done.
  - cbn. by rewrite Hf, <- app_assoc.
  - cbn. lia.
  - rewrite Hd. exists ps1, ps2, bss2, (mkTestWrite (outgoing_packets s ++ ps1) true o'). by split_and!.
Qed.

Lemma test_writes_packets calls s packets encodings :
  receiver_open s = true -> Forall2 encodes packets encodings ->
  filled (current_buf s) ++ concat (map (@concat u8) calls) = concat encodings ->
  (calls = [] -> packets = []) ->
  exists s', test_writes s calls s' /\ outgoing_packets s' = outgoing_packets s ++ packets.
Proof.
  revert s packets encodings; induction calls as [|bufs calls IH]; intros s packets encodings Ho HF E Hn.
  { exists s. rewrite Hn by done. rewrite app_nil_r. split; [constructor|done]. }
  cbn [map concat] in E.
  destruct (test_write_ok bufs s (concat (map (@concat u8) calls)) packets encodings)
    as (ps1 & ps2 & bss2 & s1 & -> & HF2 & Hw & Hout & Ho1 & E1 & Hl); try done.
  destruct (IH s1 ps2 bss2) as (s' & Hs' & Hp); try done.
  { intros ->. by apply Hl. }
  exists s'. split; [by econstructor|]. by rewrite Hp, Hout, app_assoc.
Qed.
End writing.

(** ** Property *)

Section lossless.
Context {Ow : Type} `{LawfulOwned Ow} `{UnicodeLaws}.
Context (pool_unlimited : forall n (o : Ow), exists o', owned_reserve n o = Ok o').

(** C26: the packet stream for integration tests is lossless. The client's reader,
    connected to it, receives exactly the packets that the test queued; and
    however the bytes of a sequence of packets are cut into calls of
    [write_vectored] and into buffers, each call takes all its bytes without a panic
    and the test receives exactly those packets, in order. *)
Theorem test_transport_lossless incoming outgoing bss_in bss_out calls (reader_pool writer_pool : Ow) :
  filled reader_pool = [] -> filled writer_pool = [] ->
  Forall2 encodes incoming bss_in -> bytes_ok (concat bss_in) ->
  Forall2 encodes outgoing bss_out -> concat (map (@concat u8) calls) = concat bss_out ->
  (exists r, receive_many (length incoming) (fst (test_connect incoming reader_pool writer_pool))
    = Some (r, Ok incoming)) /\
  (exists s, test_writes (writer_inner (snd (test_connect incoming reader_pool writer_pool))) calls s /\
    outgoing_packets s = outgoing).
Proof.
  intros Hr Hw Hin Hb Hout Hc. split.
  - by apply (test_read_packets pool_unlimited incoming bss_in).
  - destruct (test_writes_packets pool_unlimited calls (mkTestWrite [] true writer_pool) outgoing bss_out)
      as (s & Hs & Ho); try done.
    + cbn. by rewrite Hw.
    + intros ->. cbn in Hc. destruct Hout as [|p bs ps bss Hp _]; [done|].
      destruct (encodes_frame _ _ Hp) as (fb & body & pre & -> & Hne & _). cbn in Hc.
      by destruct pre.
    + eauto.
Qed.
End lossless.

Lemma test_transport_lossless_witness :
  (exists r, @receive_many _ _ (TestStreamRead_readable (H0 := Ascii)) _ Ascii 2
      (fst (test_connect (Ow := VecOwned) [Packet.PingResp PingResp.mk; publish_sample] (mkVecOwned [] 0) (mkVecOwned [] 0)))
    = Some (r, Ok [Packet.PingResp PingResp.mk; publish_sample])) /\
  (exists s, @test_writes _ _ Ascii (mkTestWrite [] true (mkVecOwned [] 0))
      [[[192]]; [[0; 51]; take 5 (drop 1 publish_sample_bytes)]; [drop 6 publish_sample_bytes]] s /\
    outgoing_packets s = [Packet.PingReq PingReq.mk; publish_sample]).
Proof.
  assert (Hs : @encodes Ascii Ascii_laws publish_sample publish_sample_bytes).
  { split; [|vm_compute; reflexivity]. apply (@Packet_decode_full_wf Ascii Ascii_laws publish_sample_bytes);
      [apply publish_sample_bytes_ok | vm_compute; reflexivity]. }
  refine (@test_transport_lossless _ _ _ Ascii Ascii_laws vec_unlimited
    [Packet.PingResp PingResp.mk; publish_sample] [Packet.PingReq PingReq.mk; publish_sample]
    [[208; 0]; publish_sample_bytes] [[192; 0]; publish_sample_bytes]
    [[[192]]; [[0; 51]; take 5 (drop 1 publish_sample_bytes)]; [drop 6 publish_sample_bytes]]
    (mkVecOwned [] 0) (mkVecOwned [] 0) eq_refl eq_refl _ _ _ _).
  - constructor; [split; [exact I|vm_compute; reflexivity]|]. by constructor.
  - cbn [concat]. rewrite app_nil_r. apply Forall_app; split; [solve_bytes|apply publish_sample_bytes_ok].
  - constructor; [split; [exact I|vm_compute; reflexivity]|]. by constructor.
  - vm_compute. reflexivity.
Defined.
