(* ===== verification/Proxy.v ===== *)
(** * The HTTP CONNECT exchange with a proxy

    [http_connect_exchange] of io/stream.rs: the request for a tunnel to the
    target and the response that grants it. The stream to the proxy is tokio's
    ([AsyncWriteExt::write_all], [BufReader], [AsyncBufReadExt::read_line]) and
    base64 is openssl's; both are parameters with their documented behaviour as
    laws. *)

From S2P Require Export Reader.
Local Open Scope Z_scope.

(** ** Asynchronous functions

    An [async fn] run to its end in the environment [W]: [Pending] is a future
    that never completes. *)
Definition io (W A : Type) : Type := W -> poll (result IoError A) * W.

Definition io_ret {W A} (a : A) : io W A := fun w => (Ready (Ok a), w).
Definition io_err {W A} (e : IoError) : io W A := fun w => (Ready (Err e), w).

Definition io_bind {W A B} (m : io W A) (k : A -> io W B) : io W B := fun w =>
  match m w with
  | (Ready (Ok a), w) => k a w
  | (Ready (Err e), w) => (Ready (Err e), w)
  | (Pending, w) => (Pending, w)
  | (Panicked msg, w) => (Panicked msg, w)
  | (OutOfFuel, w) => (OutOfFuel, w)
  end.

(** A [Result] in an [async fn]. *)
Definition io_of {W A} (r : result IoError A) : io W A := fun w => (Ready r, w).

(** [let* x := m in k] is [let x = m.await?; k]. *)
Notation "'let*' x := m 'in' k" := (io_bind m (fun x => k))
  (at level 10, x pattern, m at level 200, k at level 200) : rust_scope.

Lemma io_bind_ready {W A B} (m : io W A) (k : A -> io W B) w b w' :
  io_bind m k w = (Ready (Ok b), w') -> exists a w1, m w = (Ready (Ok a), w1) /\ k a w1 = (Ready (Ok b), w').
Proof. unfold io_bind. destruct (m w) as [[[a|e]| | |] w1] eqn:E; intros H; try done. eauto. Qed.

Ltac inv_io H :=
  repeat lazymatch type of H with
  | io_bind _ _ _ = (Ready (Ok _), _) =>
      let a := fresh "a" in let w := fresh "w" in let E := fresh "E" in
      apply io_bind_ready in H as (a & w & E & H)
  | io_ret _ _ = _ => unfold io_ret in H; injection H as <- <-
  end.

(** ** Strings *)

(** [char::is_whitespace]: the Unicode property White_Space. *)
Definition is_whitespace (c : char) : bool :=
  ((9 <=? c) && (c <=? 13)) || (c =? 0x20) || (c =? 0x85) || (c =? 0xA0) || (c =? 0x1680)
  || ((0x2000 <=? c) && (c <=? 0x200A)) || (c =? 0x2028) || (c =? 0x2029) || (c =? 0x202F)
  || (c =? 0x205F) || (c =? 0x3000).

Definition of_chars (cs : list char) : str := concat (map utf8_encode cs).

(** The words of a text; [cur] is the word being read. *)
Fixpoint words (cur cs : list char) : list (list char) :=
  match cs with
  | [] => if list_is_empty cur then [] else [cur]
  | c :: cs =>
      if is_whitespace c then (if list_is_empty cur then words [] cs else cur :: words [] cs)
      else words (cur ++ [c]) cs
  end.

(** [str::split_whitespace]. *)
Definition split_whitespace (s : str) : list str := map of_chars (words [] (chars s)).

Fixpoint skip_whitespace (cs : list char) : list char :=
  match cs with
  | c :: cs' => if is_whitespace c then skip_whitespace cs' else cs
  | [] => []
  end.

(** [str::trim]. *)
Definition trim (s : str) : str := of_chars (rev (skip_whitespace (rev (skip_whitespace (chars s))))).

(** [u16::from_str]. *)
Definition is_digit (b : u8) : bool := (48 <=? b) && (b <=? 57).

Fixpoint parse_digits (acc : Z) (s : str) : option u16 :=
  match s with
  | [] => Some acc
  | b :: s =>
      if is_digit b then
        let acc := acc * 10 + (b - 48) in
        if acc <=? u16_MAX then parse_digits acc s else None
      else None
  end.

Definition parse_u16 (s : str) : option u16 :=
  match s with
  | [] => None
  | b :: s' => if b =? 43 then (if list_is_empty s' then None else parse_digits 0 s') else parse_digits 0 s
  end.

(** [Display for u16]. *)
Fixpoint decimal_digits (fuel : nat) (n : Z) (acc : str) : str :=
  match fuel with
  | O => acc
  | S fuel =>
      let acc := 48 + n mod 10 :: acc in
      if n <? 10 then acc else decimal_digits fuel (n / 10) acc
  end.
Definition decimal (n : u16) : str := decimal_digits 5 n [].

(** [u8::is_ascii_control]. *)
Definition is_ascii_control (b : u8) : bool := ((0 <=? b) && (b <=? 31)) || (b =? 127).

Definition contains (c : u8) (s : str) : bool := existsb (Z.eqb c) s.

(** The bytes are valid UTF-8. *)
Definition is_charb (c : char) : bool := ((0 <=? c) && (c <? 0xD800)) || ((0xE000 <=? c) && (c <? 0x110000)).
Definition valid_utf8 (s : list u8) : bool :=
  forallb is_charb (chars s) && bool_decide (of_chars (chars s) = s).

(** ** The exchange *)

Module ProxyAuthorization.
Inductive t : Set :=
  | None
  | Basic (username password : str).
End ProxyAuthorization.

(** [openssl::base64::encode_block]. *)
Class Base64 := encode_block : list u8 -> str.

Definition CRLF : str := [13; 10].

(** [target_host.is_empty() || target_host.bytes().any(..)], negated. *)
Definition target_host_ok (target_host : str) : bool :=
  negb (list_is_empty target_host || existsb (fun b => is_ascii_control b || (b =? 32)) target_host).

Definition authority (target_host : str) (target_port : u16) : str :=
  if contains 58 target_host then [91] ++ target_host ++ [93; 58] ++ decimal target_port
  else target_host ++ [58] ++ decimal target_port.

Definition authorization_header `{Base64} (auth : ProxyAuthorization.t) : str :=
  match auth with
  | ProxyAuthorization.None => []
  | ProxyAuthorization.Basic username password =>
      lit "Proxy-Authorization: Basic " ++ encode_block (username ++ [58] ++ password) ++ CRLF
  end.

Definition connect_request `{Base64} (target_host : str) (target_port : u16) (auth : ProxyAuthorization.t) :
    str :=
  let authority := authority target_host target_port in
  lit "CONNECT " ++ authority ++ lit " HTTP/1.1" ++ CRLF ++ lit "Host: " ++ authority ++ CRLF
  ++ authorization_header auth ++ CRLF.

(** The stream to the proxy: [write_all], [BufReader::new] and [into_inner], and
    [reader.take(limit).read_line(line)], which yields what it appends to the
    line. *)
Class ProxyStream (W T : Type) := {
  BufReader : Type;
  async_write_all : list u8 -> T -> io W T;
  BufReader_new : T -> BufReader;
  take_read_line : u64 -> BufReader -> io W (str * BufReader);
  into_inner : BufReader -> T;
}.
Arguments BufReader W T {_}.
Arguments BufReader_new {W T _} _.
Arguments into_inner {W T _} _.

Definition MAX_PROXY_RESPONSE_HEADER_BYTES : usize := 64 * 1024.

(** The check of the status line. *)
Definition status_accepted (status_line : str) : bool :=
  match split_whitespace status_line with
  | version :: status_parts =>
      (str_eqb version (lit "HTTP/1.1") || str_eqb version (lit "HTTP/1.0")) &&
      match status_parts with
      | status :: _ =>
          if len status =? 3 then
            match parse_u16 status with
            | Some status => (200 <=? status) && (status <=? 299)
            | None => false
            end
          else false
      | [] => false
      end
  | [] => false
  end.

(** [header_line == "\r\n" || header_line == "\n" || header_line.is_empty()] *)
Definition is_blank (header_line : str) : bool :=
  str_eqb header_line CRLF || str_eqb header_line [10] || list_is_empty header_line.

Section exchange.
Context {W T : Type} `{ProxyStream W T} `{Base64}.

Definition read_proxy_response_line (reader : BufReader W T) (line : str) (total_bytes_read : usize) :
    io W (str * BufReader W T * usize) :=
  let remaining := Z.max 0 (MAX_PROXY_RESPONSE_HEADER_BYTES - total_bytes_read) in
  let* (read, reader) := take_read_line (remaining + 1) reader in
  let total_bytes_read := total_bytes_read + len read in
  if MAX_PROXY_RESPONSE_HEADER_BYTES <? total_bytes_read
  then io_err (InvalidData "proxy response headers exceed size limit")
  else io_ret (line ++ read, reader, total_bytes_read).

(** The loop over the headers. Every round that goes on counts a byte at least,
    so a fuel of one more than the limit is enough. *)
Fixpoint read_headers (fuel : nat) (reader : BufReader W T) (total : usize) : io W (BufReader W T) :=
  match fuel with
  | O => fun w => (OutOfFuel, w)
  | S fuel =>
      let* (header_line, reader, total) := read_proxy_response_line reader [] total in
      if is_blank header_line then io_ret reader else read_headers fuel reader total
  end.

Definition http_connect_exchange (stream : T) (target_host : str) (target_port : u16)
    (auth : ProxyAuthorization.t) : io W T :=
  if negb (target_host_ok target_host)
  then io_err (InvalidInput (lit "proxy target host contains invalid characters"))
  else
    let* stream := async_write_all (connect_request target_host target_port auth) stream in
    let* (status_line, reader, total) := read_proxy_response_line (BufReader_new stream) [] 0 in
    if negb (status_accepted status_line)
    then io_err (OtherText (lit "proxy CONNECT failed: " ++ trim status_line))
    else
      let* reader := read_headers (Z.to_nat (MAX_PROXY_RESPONSE_HEADER_BYTES + 1)) reader total in
      io_ret (into_inner reader).
End exchange.

(** [encode_block] encodes with the standard alphabet and inserts no line breaks. *)
Definition base64_char (b : u8) : bool :=
  ((65 <=? b) && (b <=? 90)) || ((97 <=? b) && (b <=? 122)) || is_digit b || (b =? 43) || (b =? 47) || (b =? 61).
Class Base64Laws `{Base64} : Prop :=
  encode_block_alphabet : forall bs, Forall (fun b => base64_char b = true) (encode_block bs).

(** *** How a proxy reads the request *)

(** [(s up to the first c, s after it)]. *)
Fixpoint cut (c : u8) (s : str) : option (str * str) :=
  match s with
  | [] => None
  | b :: s => if b =? c then Some ([], s) else '(x, y) ← cut c s; Some (b :: x, y)
  end.

(** A line without its CR, and without a CR or LF inside. *)
Definition strip_cr (l : str) : option str :=
  match rev l with
  | 13 :: r => if contains 13 r then None else Some (rev r)
  | _ => None
  end.

(** The lines of a text all of whose lines end with CRLF. *)
Definition http_lines (bs : list u8) : option (list str) :=
  match rev (str_split 10 bs) with
  | [] :: ls => mapM strip_cr (rev ls)
  | _ => None
  end.

Definition parse_header (l : str) : option (str * str) :=
  '(name, value) ← cut 58 l;
  match value with 32 :: value => Some (name, value) | _ => None end.

(** Method, target, version and headers of a request without a body. *)
Definition parse_request (bs : list u8) : option (str * str * str * list (str * str)) :=
  ls ← http_lines bs;
  match ls with
  | request_line :: ls =>
      match rev ls, str_split 32 request_line with
      | [] :: hs, [method; target; version] =>
          headers ← mapM parse_header (rev hs);
          Some (method, target, version, headers)
      | _, _ => None
      end
  | [] => None
  end.

(** Host and port of an authority: the port follows the last colon, and a host
    with colons is in brackets. *)
Definition parse_authority (a : str) : option (str * u16) :=
  '(p, h) ← cut 58 (rev a);
  port ← parse_u16 (rev p);
  let host := rev h in
  if contains 58 host then
    match host with
    | 91 :: host => match rev host with 93 :: h => Some (rev h, port) | _ => None end
    | _ => None
    end
  else Some (host, port).

Lemma contains_false c s : contains c s = false <-> c ∉ s.
Proof.
  unfold contains. induction s as [|b s IH]; cbn.
  - split; [intros _; apply not_elem_of_nil|done].
  - rewrite orb_false_iff, IH, not_elem_of_cons, Z.eqb_neq. done.
Qed.

Lemma contains_app c s s' : contains c (s ++ s') = contains c s || contains c s'.
Proof. apply existsb_app. Qed.

Lemma contains_forall c (P : u8 -> Prop) s : Forall P s -> ~ P c -> contains c s = false.
Proof. intros HF HP. apply contains_false. intros Hin. rewrite Forall_forall in HF. by apply HP, HF. Qed.

Lemma contains_rev c s : contains c (rev s) = contains c s.
Proof.
  induction s as [|b s IH]; [done|]. cbn [rev]. rewrite contains_app, IH. cbn.
  rewrite orb_false_r. apply orb_comm.
Qed.

Lemma str_split_cons c l r : contains c l = false -> str_split c (l ++ c :: r) = l :: str_split c r.
Proof.
  induction l as [|b l IH]; cbn; [by rewrite Z.eqb_refl|]. intros [Hb Hl]%orb_false_iff.
  rewrite IH by done. by rewrite Z.eqb_sym, Hb.
Qed.

Lemma str_split_none c l : contains c l = false -> str_split c l = [l].
Proof.
  induction l as [|b l IH]; cbn; [done|]. intros [Hb Hl]%orb_false_iff. rewrite IH by done.
  by rewrite Z.eqb_sym, Hb.
Qed.

Lemma cut_app c l r : contains c l = false -> cut c (l ++ c :: r) = Some (l, r).
Proof.
  induction l as [|b l IH]; cbn; [by rewrite Z.eqb_refl|]. intros [Hb Hl]%orb_false_iff.
  rewrite IH by done. by rewrite Z.eqb_sym, Hb.
Qed.

Lemma strip_cr_app l : contains 13 l = false -> strip_cr (l ++ [13]) = Some l.
Proof.
  intros Hl. unfold strip_cr. rewrite rev_app_distr. cbn [rev app].
  by rewrite contains_rev, Hl, rev_involutive.
Qed.

(** Lines printed with CRLF are read back. *)
Lemma http_lines_print ls :
  Forall (fun l => contains 10 l = false /\ contains 13 l = false) ls ->
  http_lines (concat (map (fun l => l ++ CRLF) ls)) = Some ls.
Proof.
  intros HF. unfold http_lines.
  assert (E : str_split 10 (concat (map (fun l => l ++ CRLF) ls)) = map (fun l => l ++ [13]) ls ++ [[]]).
  { induction HF as [|l ls [Hl _] _ IH]; [done|]. cbn [map concat]. unfold CRLF at 1.
    replace ((l ++ [13; 10]) ++ concat (map (fun l => l ++ CRLF) ls))
      with ((l ++ [13]) ++ 10 :: concat (map (fun l => l ++ CRLF) ls)) by (by rewrite <- !app_assoc).
    rewrite str_split_cons by (by rewrite contains_app, Hl). cbn. by rewrite IH. }
  rewrite E, rev_app_distr. cbn [rev app]. rewrite rev_involutive. clear E.
  induction HF as [|l ls [_ Hl] _ IH]; [done|]. cbn [map mapM].
  rewrite strip_cr_app by done. cbn. by rewrite IH.
Qed.


Lemma digit_ok n : 0 <= n < 10 -> is_digit (48 + n) = true.
Proof. intros. unfold is_digit. apply andb_true_intro. split; apply Z.leb_le; lia. Qed.

Lemma decimal_digits_parse fuel n acc :
  is_u16 n -> n < 10 ^ Z.of_nat fuel -> (1 <= fuel)%nat ->
  parse_digits 0 (decimal_digits fuel n acc) = parse_digits n acc.
Proof.
  unfold is_u16. revert n acc. induction fuel as [|fuel IH]; intros n acc Hn Hf H1; [lia|].
  cbn [decimal_digits].
  assert (Hmod : 0 <= n mod 10 < 10) by (apply Z.mod_pos_bound; lia).
  destruct (n <? 10) eqn:E; bool_to_prop.
  - cbn [parse_digits]. rewrite digit_ok by lia. rewrite Z.mod_small by lia.
    replace (0 * 10 + (48 + n - 48)) with n by lia.
    by replace (n <=? u16_MAX) with true by (symmetry; apply Z.leb_le; lia).
  - destruct fuel as [|fuel]; [cbn in Hf; lia|].
    assert (n / 10 < 10 ^ Z.of_nat (S fuel)).
    { apply Z.div_lt_upper_bound; [lia|]. rewrite <- Z.pow_succ_r, <- Nat2Z.inj_succ by lia. lia. }
    pose proof (Z.div_mod n 10 ltac:(lia)). pose proof (Z.div_pos n 10 ltac:(lia) ltac:(lia)).
    rewrite IH by lia. cbn [parse_digits]. rewrite digit_ok by lia.
    replace (n / 10 * 10 + (48 + n mod 10 - 48)) with n by lia.
    by replace (n <=? u16_MAX) with true by (symmetry; apply Z.leb_le; lia).
Qed.

Lemma decimal_digits_digits fuel n acc :
  0 <= n -> Forall (fun b => is_digit b = true) acc ->
  Forall (fun b => is_digit b = true) (decimal_digits fuel n acc).
Proof.
  revert n acc. induction fuel as [|fuel IH]; intros n acc Hn Ha; [done|]. cbn [decimal_digits].
  assert (Forall (fun b => is_digit b = true) (48 + n mod 10 :: acc)).
  { constructor; [|done]. apply digit_ok, Z.mod_pos_bound. lia. }
  destruct (n <? 10); [done|]. apply IH; [|done]. apply Z.div_pos; lia.
Qed.

Lemma decimal_digits_form n : 0 <= n -> Forall (fun b => is_digit b = true) (decimal n).
Proof. intros. by apply decimal_digits_digits. Qed.

Lemma parse_u16_decimal n : is_u16 n -> parse_u16 (decimal n) = Some n.
Proof.
  intros Hn. unfold is_u16, u16_MAX in Hn. pose proof (decimal_digits_form n ltac:(lia)) as HF.
  assert (E : parse_digits 0 (decimal n) = Some n).
  { unfold decimal. rewrite decimal_digits_parse; [done| |cbn|]; unfold is_u16, u16_MAX; lia. }
  unfold parse_u16. destruct (decimal n) as [|b s] eqn:Ed.
  - assert (n = 0) by (cbn in E; congruence). subst n. vm_compute in Ed. done.
  - inversion_clear HF as [|? ? Hb _]. destruct (b =? 43) eqn:Eb; [|done]. bool_to_prop.
    subst b. done.
Qed.

(** A host that passed the check, a port and credentials hold no line break and no
    space. *)
Lemma target_host_ok_clean host c :
  target_host_ok host = true -> is_ascii_control c || (c =? 32) = true -> contains c host = false.
Proof.
  unfold target_host_ok. rewrite negb_true_iff, orb_false_iff. intros [_ Hh] Hc.
  apply contains_false. intros Hin. apply not_true_iff_false in Hh. apply Hh, existsb_exists.
  exists c. by rewrite <- list_elem_of_In.
Qed.

Lemma decimal_clean n c : 0 <= n -> is_digit c = false -> contains c (decimal n) = false.
Proof.
  intros Hn Hc. eapply contains_forall; [by apply decimal_digits_form|]. cbn. by rewrite Hc.
Qed.

Lemma authority_clean host port c :
  target_host_ok host = true -> is_u16 port -> is_ascii_control c || (c =? 32) = true ->
  contains c (authority host port) = false.
Proof.
  intros Hh [Hp _] Hc. pose proof (target_host_ok_clean host c Hh Hc) as H1.
  assert (H2 : contains c (decimal port) = false).
  { apply decimal_clean; [done|]. unfold is_ascii_control, is_digit in *. bool_to_prop. lia. }
  assert (Hne : c <> 91 /\ c <> 93 /\ c <> 58) by (unfold is_ascii_control in Hc; bool_to_prop; lia).
  unfold authority. destruct (contains 58 host); rewrite !contains_app, H1, H2; cbn;
    repeat rewrite (proj2 (Z.eqb_neq c _)) by lia; done.
Qed.

Lemma authority_roundtrip host port :
  is_u16 port -> parse_authority (authority host port) = Some (host, port).
Proof.
  intros Hp. pose proof Hp as [Hp0 _].
  assert (Hd : contains 58 (rev (decimal port)) = false) by (rewrite contains_rev; by apply decimal_clean).
  assert (E : forall h, parse_authority (h ++ 58 :: decimal port) =
    if contains 58 h then
      match h with
      | 91 :: host => match rev host with 93 :: h => Some (rev h, port) | _ => None end
      | _ => None
      end
    else Some (h, port)).
  { intros h. unfold parse_authority. rewrite rev_app_distr. cbn [rev]. rewrite <- app_assoc. cbn [app].
    rewrite cut_app by done. cbn -[rev decimal parse_u16]. rewrite !rev_involutive, parse_u16_decimal by done.
    done. }
  unfold authority. destruct (contains 58 host) eqn:Ec.
  - change ([91] ++ host ++ [93; 58] ++ decimal port) with (91 :: host ++ [93] ++ 58 :: decimal port).
    rewrite app_assoc, app_comm_cons, E, app_comm_cons, contains_app.
    change (contains 58 (91 :: host)) with (contains 58 host). rewrite Ec. cbn [orb app].
    rewrite rev_app_distr. cbn [rev app]. by rewrite rev_involutive.
  - change (host ++ [58] ++ decimal port) with (host ++ 58 :: decimal port). by rewrite E, Ec.
Qed.

(** The credentials of a request, as a header. *)
Definition credentials `{Base64} (auth : ProxyAuthorization.t) : list (str * str) :=
  match auth with
  | ProxyAuthorization.None => []
  | ProxyAuthorization.Basic username password =>
      [(lit "Proxy-Authorization", lit "Basic " ++ encode_block (username ++ [58] ++ password))]
  end.

Definition print_header (h : str * str) : str := fst h ++ lit ": " ++ snd h.

Lemma connect_request_lines `{Base64} host port auth :
  connect_request host port auth =
    concat (map (fun l => l ++ CRLF)
      ((lit "CONNECT " ++ authority host port ++ lit " HTTP/1.1") ::
       map print_header ((lit "Host", authority host port) :: credentials auth) ++ [[]])).
Proof.
  unfold connect_request, authorization_header. destruct auth as [|u p]; cbn [credentials map app concat];
    unfold print_header; cbn [fst snd]; rewrite <- ?app_assoc, ?app_nil_r; reflexivity.
Qed.

Lemma parse_header_print name value :
  contains 58 name = false -> parse_header (print_header (name, value)) = Some (name, value).
Proof.
  intros Hn. unfold parse_header, print_header. cbn [fst snd].
  change (lit ": " ++ value) with (58 :: 32 :: value). by rewrite cut_app.
Qed.

Lemma credentials_clean `{Base64Laws} auth c :
  c = 10 \/ c = 13 -> Forall (fun h => contains c (print_header h) = false) (credentials auth).
Proof.
  intros Hc. destruct auth as [|u p]; cbn [credentials]; [done|]. apply Forall_singleton.
  unfold print_header. cbn [fst snd]. rewrite !contains_app.
  rewrite (contains_forall c _ _ (encode_block_alphabet _)) by (destruct Hc as [-> | ->]; done).
  destruct Hc as [-> | ->]; vm_compute; reflexivity.
Qed.

(** C23: a proxy that reads the request of [http_connect_exchange] sees exactly a
    CONNECT to the target host and port, with a [Host] header and the
    credentials and nothing else: no host that passes the check, and no user
    name or password, can add a line, a header or a part of the request line. *)
Theorem connect_request_faithful `{Base64Laws} host port auth :
  target_host_ok host = true -> is_u16 port ->
  parse_request (connect_request host port auth) =
    Some (lit "CONNECT", authority host port, lit "HTTP/1.1",
      (lit "Host", authority host port) :: credentials auth) /\
  parse_authority (authority host port) = Some (host, port).
Proof.
  intros Hh Hp. split; [|by apply authority_roundtrip].
  assert (Ha : forall c, is_ascii_control c || (c =? 32) = true -> contains c (authority host port) = false)
    by (intros; by apply authority_clean).
  unfold parse_request. rewrite connect_request_lines, http_lines_print.
  - cbn [mbind option_bind]. rewrite rev_app_distr. cbn [rev app]. rewrite rev_involutive.
    change (lit "CONNECT " ++ authority host port ++ lit " HTTP/1.1")
      with (lit "CONNECT" ++ 32 :: authority host port ++ 32 :: lit "HTTP/1.1").
    rewrite str_split_cons by done. rewrite str_split_cons by (by apply Ha).
    rewrite str_split_none by done.
    assert (E : mapM parse_header (map print_header ((lit "Host", authority host port) :: credentials auth)) =
      Some ((lit "Host", authority host port) :: credentials auth)).
    { apply mapM_Some. apply Forall2_fmap_l, Forall_Forall2_diag. constructor; [by apply parse_header_print|].
      destruct auth; cbn [credentials]; constructor; [by apply parse_header_print|done]. }
    by rewrite E.
  - assert (Hc : forall c, c = 10 \/ c = 13 -> Forall (fun l => contains c l = false)
      ((lit "CONNECT " ++ authority host port ++ lit " HTTP/1.1") ::
       map print_header ((lit "Host", authority host port) :: credentials auth) ++ [[]])).
    { intros c Hc. assert (contains c (authority host port) = false) as Hac
        by (apply Ha; destruct Hc as [-> | ->]; done).
      constructor; [rewrite !contains_app, Hac; destruct Hc as [-> | ->]; done|].
      apply Forall_app. split; [|by constructor]. apply Forall_fmap. constructor; [|by apply credentials_clean].
      change (contains c (lit "Host" ++ lit ": " ++ authority host port) = false).
      rewrite !contains_app, Hac. destruct Hc as [-> | ->]; done. }
    pose proof (Hc 10 (or_introl eq_refl)) as H10. pose proof (Hc 13 (or_intror eq_refl)) as H13.
    apply Forall_and. split; assumption.
Qed.

(** ** The response *)

Definition whitespace (cs : list char) : Prop := Forall (fun c => is_whitespace c = true) cs.
Definition solid (cs : list char) : Prop := Forall (fun c => is_whitespace c = false) cs.

Lemma words_skip pre cs : whitespace pre -> words [] (pre ++ cs) = words [] cs.
Proof. induction 1 as [|c pre Hc _ IH]; [done|]. cbn. by rewrite Hc. Qed.

Lemma words_solid cur w cs : solid w -> words cur (w ++ cs) = words (cur ++ w) cs.
Proof.
  intros Hw. revert cur. induction Hw as [|c w Hc _ IH]; intros cur; [by rewrite app_nil_r|].
  cbn. rewrite Hc, IH, <- app_assoc. done.
Qed.

(** The text is over or goes on with white space. *)
Definition word_ends (post : list char) : Prop :=
  match post with [] => True | c :: _ => is_whitespace c = true end.

Lemma words_end cur post : cur <> [] -> word_ends post -> words cur post = cur :: words [] post.
Proof.
  intros Hc Hp. destruct post as [|c post]; cbn; [by destruct cur|]. cbn in Hp. rewrite Hp. by destruct cur.
Qed.

Lemma words_inv cs cur w ws :
  words cur cs = w :: ws -> solid cur ->
  exists pre w' post, cs = pre ++ w' ++ post /\ w = cur ++ w' /\ whitespace pre /\ solid w /\ w <> [] /\
    word_ends post /\ words [] post = ws /\ (cur <> [] -> pre = []).
Proof.
  revert cur. induction cs as [|c cs IH]; intros cur E Hcur; cbn in E.
  { destruct cur as [|x cur]; [done|]. injection E as <- <-. exists [], [], [].
    split_and!; rewrite ?app_nil_r; done || constructor. }
  destruct (is_whitespace c) eqn:Ec.
  - destruct cur as [|x cur]; cbn in E.
    + destruct (IH [] E) as (pre & w' & post & -> & -> & Hpre & Hw & Hne & Hp & Hws & _); [done|].
      exists (c :: pre), w', post. split_and!; try done. by constructor.
    + injection E as <- <-. exists [], [], (c :: cs).
      split_and!; rewrite ?app_nil_r; try done; try by constructor. cbn. by rewrite Ec.
  - destruct (IH (cur ++ [c]) E) as (pre & w' & post & -> & -> & Hpre & Hw & Hne & Hp & Hws & Hcur').
    { apply Forall_app. split; [done|]. by constructor. }
    rewrite Hcur' in * by (by destruct cur). exists [], (c :: w'), post.
    split_and!; try done; by rewrite <- app_assoc.
Qed.

(** The status line of a response that grants the tunnel: HTTP/1.0 or HTTP/1.1 and
    a status of three digits of which the first is 2, set off by white space. *)
Definition success_line (line : str) : Prop :=
  exists pre version gap d e post,
    chars line = pre ++ version ++ gap ++ [50; d; e] ++ post /\
    (version = lit "HTTP/1.1" \/ version = lit "HTTP/1.0") /\
    whitespace pre /\ whitespace gap /\ gap <> [] /\ word_ends post /\
    is_digit d = true /\ is_digit e = true.

Lemma is_charb_spec c : is_charb c = true <-> is_char c.
Proof. unfold is_charb, is_char. lia. Qed.

Lemma of_chars_inj cs cs' : Forall is_char cs -> Forall is_char cs' -> of_chars cs = of_chars cs' -> cs = cs'.
Proof. intros Hc Hc' E. rewrite <- (chars_encode cs Hc). unfold of_chars in E. rewrite E. by apply chars_encode. Qed.

Lemma of_chars_ascii s : Forall (fun b => 0 <= b < 0x80) s -> of_chars s = s.
Proof.
  induction 1 as [|b s Hb _ IH]; [done|]. unfold of_chars in *. cbn [map concat].
  rewrite IH, utf8_encode_low by lia. done.
Qed.

Lemma ascii_is_char s : Forall (fun b => 0 <= b < 0x80) s -> Forall is_char s.
Proof. intros Hs. apply (Forall_impl _ _ _ Hs). intros b Hb. left. lia. Qed.


(** The three-digit statuses from 200 to 299. *)
Lemma parse_status s n :
  len s = 3 -> parse_u16 s = Some n -> 200 <= n <= 299 ->
  exists d e, s = [50; d; e] /\ is_digit d = true /\ is_digit e = true.
Proof.
  intros Hl E Hn. destruct s as [|a [|d [|e [|x s']]]]; try (cbv in Hl; discriminate).
  2: { rewrite !len_cons in Hl. pose proof (len_nonneg s'). lia. }
  unfold parse_u16 in E. destruct (a =? 43); cbn in E.
  - destruct (is_digit d) eqn:Ed; [|done]. destruct (_ <=? _); [|done].
    destruct (is_digit e) eqn:Ee; [|done]. destruct (_ <=? _); [|done]. injection E as <-.
    unfold is_digit in *. lia.
  - destruct (is_digit a) eqn:Ea; [|done]. destruct (_ <=? _); [|done].
    destruct (is_digit d) eqn:Ed; [|done]. destruct (_ <=? _); [|done].
    destruct (is_digit e) eqn:Ee; [|done]. destruct (_ <=? _); [|done]. injection E as <-.
    exists d, e. unfold is_digit in *. split_and!; [|done..]. f_equal. lia.
Qed.

Lemma parse_status_ok d e :
  is_digit d = true -> is_digit e = true ->
  exists n, parse_u16 [50; d; e] = Some n /\ 200 <= n <= 299.
Proof.
  intros Hd He. exists (200 + (d - 48) * 10 + (e - 48)).
  assert (Hr : 48 <= d <= 57 /\ 48 <= e <= 57) by (unfold is_digit in *; lia).
  unfold parse_u16. cbn. rewrite Hd, He. unfold u16_MAX.
  repeat (rewrite (proj2 (Z.leb_le _ 65535)) by lia). split; [f_equal; lia|lia].
Qed.

Lemma status_accepted_iff line :
  valid_utf8 line = true -> status_accepted line = true <-> success_line line.
Proof.
  unfold valid_utf8. intros [Hc _]%andb_true_iff.
  assert (Hchars : Forall is_char (chars line)).
  { rewrite forallb_forall in Hc. apply Forall_forall. intros c Hin. apply is_charb_spec, Hc.
    by rewrite <- list_elem_of_In. }
  clear Hc. unfold status_accepted, split_whitespace, success_line. split.
  - destruct (words [] (chars line)) as [|v [|code ws]] eqn:Ew; cbn [map]; try done.
    { by rewrite andb_false_r. }
    intros [Hv Hcode]%andb_true_iff.
    apply words_inv in Ew as (pre & v' & post & E1 & -> & Hpre & _ & _ & Hend1 & Ew & _); [|constructor].
    apply words_inv in Ew as (gap & code' & post' & -> & -> & Hgap & _ & _ & Hend & _ & _); [|constructor].
    cbn [app] in *. rewrite E1, !Forall_app in Hchars. destruct Hchars as (_ & Hcv & _ & Hcc & _).
    destruct (len (of_chars code') =? 3) eqn:E3; [|done]. bool_to_prop.
    destruct (parse_u16 _) as [n|] eqn:En; [|done]. bool_to_prop.
    apply parse_status in En as (d & e & Ec & Hd & He); [|done|done].
    assert (Hasc : Forall (fun b => 0 <= b < 0x80) [50; d; e])
      by (unfold is_digit in *; repeat constructor; lia).
    assert (code' = [50; d; e]) as ->.
    { apply of_chars_inj; [done|by apply ascii_is_char|]. by rewrite (of_chars_ascii [50; d; e]). }
    exists pre, v', gap, d, e, post'. split_and!; try done.
    + assert (Hl : forall s, Forall (fun b => 0 <= b < 0x80) s -> str_eqb (of_chars v') s = true -> v' = s).
      { intros s Hs Heq%bool_decide_eq_true. apply of_chars_inj; [done|by apply ascii_is_char|].
        by rewrite (of_chars_ascii s). }
      apply orb_true_iff in Hv as [Hv|Hv]; [left|right]; (apply Hl; [|exact Hv]); repeat constructor; done.
    + intros ->. by vm_compute in Hend1.
  - intros (pre & v & gap & d & e & post & E1 & Hv & Hpre & Hgap & Hne & Hend & Hd & He).
    assert (Hsolid : solid v) by (destruct Hv as [-> | ->]; repeat constructor).
    assert (Hvne : v <> []) by (destruct Hv as [-> | ->]; done).
    assert (Hdig : forall x, is_digit x = true -> is_whitespace x = false)
      by (unfold is_digit, is_whitespace; intros; lia).
    rewrite E1, words_skip, words_solid, words_end, words_skip, words_solid, words_end; try done.
    + cbn [map app]. rewrite (of_chars_ascii [50; d; e])
        by (unfold is_digit in *; repeat constructor; lia).
      replace (len [50; d; e] =? 3) with true by done.
      destruct (parse_status_ok d e Hd He) as (n & -> & Hn).
      rewrite (proj2 (Z.leb_le 200 n)), (proj2 (Z.leb_le n 299)) by lia. rewrite andb_true_r.
      by destruct Hv as [-> | ->].
    + repeat constructor; by apply Hdig.
    + destruct gap as [|g gap]; [done|]. by inversion_clear Hgap.
Qed.

(** A line up to and with its LF, or up to the end of the input. *)
Fixpoint next_line (bs : list u8) : list u8 :=
  match bs with
  | [] => []
  | b :: bs => if b =? 10 then [b] else b :: next_line bs
  end.

(** [str::split_inclusive('\n')]. *)
Fixpoint split_inclusive (bs : list u8) : list (list u8) :=
  match bs with
  | [] => []
  | b :: bs =>
      if b =? 10 then [b] :: split_inclusive bs
      else match split_inclusive bs with
           | l :: ls => (b :: l) :: ls
           | [] => [[b]]
           end
  end.

(** What tokio documents: [write_all] writes all of the buffer; [take(n)] followed by
    [read_line] yields what comes next up to a LF, the [n]-th byte or the end of
    the stream, and an error if that is not UTF-8. [sent_bytes] is everything
    written to a stream and [reply] what the peer sends until it closes. *)
Class ProxyStreamLaws (W T : Type) `{ProxyStream W T} := {
  sent_bytes : T -> list u8;
  reply : T -> list u8;
  unread : BufReader W T -> list u8;
  async_write_all_ok : forall bs s w s' w', async_write_all bs s w = (Ready (Ok s'), w') ->
    sent_bytes s' = sent_bytes s ++ bs /\ reply s' = reply s;
  BufReader_new_unread : forall s, unread (BufReader_new s) = reply s;
  BufReader_new_inner : forall s, into_inner (BufReader_new s) = s;
  take_read_line_ok : forall n r w l r' w', take_read_line n r w = (Ready (Ok (l, r')), w') ->
    l = next_line (take (Z.to_nat n) (unread r)) /\ valid_utf8 l = true /\
    unread r' = drop (length l) (unread r) /\ sent_bytes (into_inner r') = sent_bytes (into_inner r);
}.
Arguments ProxyStreamLaws W T {_}.

(** A connection that does not fail: the calls complete, and the only error is
    that of a line that is not UTF-8. *)
Class ReliableProxy (W T : Type) `{ProxyStreamLaws W T} : Prop := {
  async_write_all_done : forall bs s (w : W), exists s' w', async_write_all bs s w = (Ready (Ok s'), w');
  take_read_line_done : forall n (r : BufReader W T) w,
    let l := next_line (take (Z.to_nat n) (unread r)) in
    if valid_utf8 l then exists r' w', take_read_line n r w = (Ready (Ok (l, r')), w')
    else exists m w', take_read_line n r w = (Ready (Err (InvalidData m)), w');
}.
Arguments ReliableProxy W T {_ _}.

Lemma next_line_take n bs : next_line (take n bs) = take n (next_line bs).
Proof.
  revert bs. induction n as [|n IH]; intros [|b bs]; try done. cbn.
  destruct (b =? 10); cbn; [by destruct n|]. by rewrite IH.
Qed.

Lemma split_inclusive_next bs : bs <> [] ->
  split_inclusive bs = next_line bs :: split_inclusive (drop (length (next_line bs)) bs).
Proof.
  induction bs as [|b bs IH]; [done|]. intros _. cbn. destruct (b =? 10); [done|].
  destruct bs as [|b' bs]; [done|]. by rewrite IH.
Qed.

Lemma next_line_cons b bs : next_line (b :: bs) <> [].
Proof. cbn. by destruct (b =? 10). Qed.

(** The lines [ls] start with headers that are valid, fit within the limit after
    [total] bytes, and end with a blank line or the stream. *)
Fixpoint headers_fit (total : Z) (ls : list (list u8)) : bool :=
  match ls with
  | [] => true
  | l :: ls =>
      (total + len l <=? MAX_PROXY_RESPONSE_HEADER_BYTES) && valid_utf8 l &&
      (is_blank l || headers_fit (total + len l) ls)
  end.

(** A response grants the tunnel if its first line reports success and its lines
    up to a blank line or the end are UTF-8 and no longer than the limit. *)
Definition grants (response : list u8) : Prop :=
  exists status headers after,
    split_inclusive response = status :: headers ++ after /\ success_line status /\
    Forall (fun l => is_blank l = false) headers /\
    match after with [] => True | blank :: _ => is_blank blank = true end /\
    Forall (fun l => valid_utf8 l = true) (status :: headers) /\
    len (concat (status :: headers ++ take 1 after)) <= MAX_PROXY_RESPONSE_HEADER_BYTES.

Lemma is_blank_valid l : is_blank l = true -> valid_utf8 l = true.
Proof.
  unfold is_blank, str_eqb. intros [[E|E]%orb_true_iff|E]%orb_true_iff; [..|by destruct l];
    apply bool_decide_eq_true in E as ->; vm_compute; reflexivity.
Qed.

Lemma headers_fit_iff total ls :
  total <= MAX_PROXY_RESPONSE_HEADER_BYTES ->
  headers_fit total ls = true <->
  exists headers after, ls = headers ++ after /\ Forall (fun l => is_blank l = false) headers /\
    match after with [] => True | blank :: _ => is_blank blank = true end /\
    Forall (fun l => valid_utf8 l = true) headers /\
    total + len (concat (headers ++ take 1 after)) <= MAX_PROXY_RESPONSE_HEADER_BYTES.
Proof.
  revert total. induction ls as [|l ls IH]; intros total Ht; cbn [headers_fit].
  { split; [intros _|done]. exists [], []. split_and!; try done || constructor. by rewrite Z.add_0_r. }
  split.
  - rewrite !andb_true_iff, orb_true_iff. intros [[Hl Hv] [Hb|Hf]]; bool_to_prop.
    + exists [], (l :: ls). split_and!; try done. cbn. by rewrite app_nil_r.
    + destruct (is_blank l) eqn:Eb.
      { exists [], (l :: ls). split_and!; try done. cbn. by rewrite app_nil_r. }
      apply (IH _ Hl) in Hf as (hs & after & -> & Hb & Ha & Hvs & Hlen). exists (l :: hs), after.
      split_and!; try done; try by constructor. cbn [app concat]. rewrite len_app. lia.
  - intros (hs & after & E & Hb & Ha & Hv & Hlen). destruct hs as [|h hs].
    + cbn [app] in E. subst after. cbn in Ha, Hlen. rewrite app_nil_r in Hlen.
      rewrite Ha, (is_blank_valid _ Ha), (proj2 (Z.leb_le _ _) Hlen). done.
    + cbn [app] in E. injection E as -> ->. inversion_clear Hb. inversion_clear Hv as [|? ? Hv1 Hv2].
      cbn [app concat] in Hlen. rewrite len_app in Hlen. pose proof (len_nonneg (concat (hs ++ take 1 after))).
      rewrite Hv1, (proj2 (Z.leb_le (total + len h) _)) by lia. cbn [andb].
      apply orb_true_iff. right. apply IH; [lia|]. exists hs, after. split_and!; try done. lia.
Qed.

(** [grants], in the order in which the code checks it. *)
Lemma grants_iff response :
  grants response <->
  let l := next_line response in
  len l <= MAX_PROXY_RESPONSE_HEADER_BYTES /\ valid_utf8 l = true /\ status_accepted l = true /\
  headers_fit (len l) (split_inclusive (drop (length l) response)) = true.
Proof.
  cbn zeta. destruct response as [|b bs].
  { split; [intros (? & ? & ? & E & _); done|]. intros (_ & _ & E & _). by vm_compute in E. }
  unfold grants. rewrite split_inclusive_next by done. set (l := next_line (b :: bs)). split.
  - intros (status & hs & after & [= <- E] & Hs & Hb & Ha & Hv & Hlen). inversion_clear Hv as [|? ? Hv1 Hv2].
    cbn [concat] in Hlen. rewrite len_app in Hlen. pose proof (len_nonneg (concat (hs ++ take 1 after))).
    assert (len l <= MAX_PROXY_RESPONSE_HEADER_BYTES) by lia.
    split_and!; try done; [by apply status_accepted_iff|]. rewrite E. apply headers_fit_iff; [done|].
    exists hs, after. by split_and!.
  - intros (Hl & Hv & Hs & Hf). apply headers_fit_iff in Hf as (hs & after & -> & Hb & Ha & Hvs & Hlen); [|done].
    exists l, hs, after. split_and!; try done; [by apply status_accepted_iff|by constructor|].
    cbn [concat]. by rewrite len_app.
Qed.

Section response.
Context {W T : Type} `{ProxyStreamLaws W T} `{Base64}.
Implicit Types (r : BufReader W T) (w : W).

(** What [take] leaves of a line when the limit allows [k] more bytes. *)
Lemma take_line total k (line : list u8) :
  0 <= total <= MAX_PROXY_RESPONSE_HEADER_BYTES ->
  k = Z.to_nat (Z.max 0 (MAX_PROXY_RESPONSE_HEADER_BYTES - total) + 1) ->
  if total + len line <=? MAX_PROXY_RESPONSE_HEADER_BYTES then take k line = line
  else MAX_PROXY_RESPONSE_HEADER_BYTES < total + len (take k line).
Proof.
  intros Ht ->. destruct (_ <=? _) eqn:E; bool_to_prop; unfold len in *.
  - apply take_ge. lia.
  - rewrite length_take. lia.
Qed.

Lemma read_proxy_response_line_sound r total w l r' total' w' :
  read_proxy_response_line r [] total w = (Ready (Ok (l, r', total')), w') ->
  0 <= total <= MAX_PROXY_RESPONSE_HEADER_BYTES ->
  l = next_line (unread r) /\ valid_utf8 l = true /\ total' = total + len l /\
  total' <= MAX_PROXY_RESPONSE_HEADER_BYTES /\ unread r' = drop (length l) (unread r) /\
  sent_bytes (into_inner r') = sent_bytes (into_inner r).
Proof.
  unfold read_proxy_response_line. intros E Ht. apply io_bind_ready in E as ([l1 r1] & w1 & E1 & E).
  destruct (_ <? _) eqn:El; [done|]. injection E as <- <- <- <-. bool_to_prop. cbn [app].
  apply take_read_line_ok in E1 as (El1 & Hv & Hu & Hw). rewrite next_line_take in El1.
  pose proof (take_line total _ (next_line (unread r)) Ht eq_refl) as Hl.
  destruct (_ <=? _); rewrite <- El1 in Hl; [subst l1|lia]. rewrite Hl in *. by split_and!.
Qed.

Lemma read_headers_sound fuel r total w :
  0 <= total <= MAX_PROXY_RESPONSE_HEADER_BYTES ->
  MAX_PROXY_RESPONSE_HEADER_BYTES - total < Z.of_nat fuel ->
  match read_headers fuel r total w with
  | (Ready (Ok r'), _) =>
      headers_fit total (split_inclusive (unread r)) = true /\
      sent_bytes (into_inner r') = sent_bytes (into_inner r)
  | _ => True
  end.
Proof.
  revert r total w. induction fuel as [|fuel IH]; intros r total w Ht Hf; [done|]. cbn [read_headers].
  destruct (io_bind _ _ w) as [[[r'|]| | |] w'] eqn:E; try done.
  apply io_bind_ready in E as ([[l r1] t1] & w1 & E1 & E).
  apply read_proxy_response_line_sound in E1 as (-> & Hv & -> & Hle & Hu & Hw); [|done].
  destruct (unread r) as [|b bs] eqn:Eu.
  { change (is_blank (next_line [])) with true in E. injection E as <- <-. split; [done|]. by rewrite Hw. }
  rewrite split_inclusive_next by done. pose proof (next_line_cons b bs) as Hne.
  set (l := next_line (b :: bs)) in *. cbn [headers_fit]. rewrite Hv, (proj2 (Z.leb_le _ _) Hle). cbn [andb].
  assert (1 <= len l) by (destruct l; [done|]; rewrite len_cons; pose proof (len_nonneg l); lia).
  destruct (is_blank l); [injection E as <- <-; by rewrite Hw|].
  specialize (IH r1 (total + len l) w1 ltac:(lia) ltac:(lia)). rewrite E in IH.
  destruct IH as [IH1 IH2]. rewrite Hu in IH1. rewrite IH2. done.
Qed.

(** The tunnel is granted only by a response that grants it. *)
Lemma http_connect_exchange_sound s host port auth w s' w' :
  http_connect_exchange s host port auth w = (Ready (Ok s'), w') ->
  target_host_ok host = true /\ sent_bytes s' = sent_bytes s ++ connect_request host port auth /\ grants (reply s).
Proof.
  unfold http_connect_exchange. destruct (target_host_ok host) eqn:Eh; [|done]. cbn [negb]. intros E.
  apply io_bind_ready in E as (s1 & w1 & Ew & E). apply async_write_all_ok in Ew as [Hw Hr].
  apply io_bind_ready in E as ([[l r] t] & w2 & El & E).
  apply read_proxy_response_line_sound in El as (Hl & Hv & Ht & Hle & Hu & Hw2); [|by unfold MAX_PROXY_RESPONSE_HEADER_BYTES].
  rewrite BufReader_new_inner in Hw2. rewrite BufReader_new_unread, Hr in Hl, Hu.
  destruct (status_accepted l) eqn:Es; [|done]. cbn [negb] in E.
  apply io_bind_ready in E as (r' & w3 & E & E3). injection E3 as <- <-.
  pose proof (len_nonneg l) as H0l.
  pose proof (read_headers_sound (Z.to_nat (MAX_PROXY_RESPONSE_HEADER_BYTES + 1)) r t w2 ltac:(lia)) as Hh.
  rewrite E in Hh. destruct Hh as [Hf Hw3].
  { unfold MAX_PROXY_RESPONSE_HEADER_BYTES in *. lia. }
  split; [done|]. split; [by rewrite Hw3, Hw2|].
  apply grants_iff. cbn zeta. rewrite <- Hl, <- Hu. subst t. by split_and!.
Qed.
End response.

Section reliable_proxy.
Context {W T : Type} `{ReliableProxy W T} `{Base64}.
Implicit Types (r : BufReader W T) (w : W).

(** The call returned [Ok] or the error of a response that does not fit. *)
Definition done_as {A} (ok : bool) (res : poll (result IoError A) * W) : Prop :=
  if ok then exists a w', res = (Ready (Ok a), w') else exists m w', res = (Ready (Err (InvalidData m)), w').

Lemma read_proxy_response_line_done r total w :
  0 <= total <= MAX_PROXY_RESPONSE_HEADER_BYTES ->
  done_as ((total + len (next_line (unread r)) <=? MAX_PROXY_RESPONSE_HEADER_BYTES) &&
    valid_utf8 (next_line (unread r))) (read_proxy_response_line r [] total w).
Proof.
  intros Ht. unfold read_proxy_response_line, io_bind.
  set (k := Z.max 0 (MAX_PROXY_RESPONSE_HEADER_BYTES - total) + 1).
  pose proof (take_line total (Z.to_nat k) (next_line (unread r)) Ht eq_refl) as Hl.
  pose proof (take_read_line_done k r w) as Hd. cbn in Hd. rewrite next_line_take in Hd.
  destruct (_ <=? _) eqn:El; cbn [andb].
  - rewrite Hl in Hd. destruct (valid_utf8 _).
    + destruct Hd as (r' & w' & ->). bool_to_prop.
      rewrite (proj2 (Z.ltb_ge _ _)) by done. unfold done_as, io_ret. eauto.
    + destruct Hd as (m & w' & ->). unfold done_as. eauto.
  - destruct (valid_utf8 _).
    + destruct Hd as (r' & w' & ->). rewrite (proj2 (Z.ltb_lt _ _)) by done. unfold done_as, io_err. eauto.
    + destruct Hd as (m & w' & ->). unfold done_as. eauto.
Qed.

Lemma read_headers_done fuel r total w :
  0 <= total <= MAX_PROXY_RESPONSE_HEADER_BYTES ->
  MAX_PROXY_RESPONSE_HEADER_BYTES - total < Z.of_nat fuel ->
  done_as (headers_fit total (split_inclusive (unread r))) (read_headers fuel r total w).
Proof.
  revert r total w. induction fuel as [|fuel IH]; intros r total w Ht Hf; [lia|]. cbn [read_headers].
  pose proof (read_proxy_response_line_done r total w Ht) as Hd. unfold io_bind.
  destruct (unread r) as [|b bs] eqn:Eu.
  { cbn [next_line] in Hd. rewrite Z.add_0_r, (proj2 (Z.leb_le _ _)) in Hd by lia.
    destruct Hd as ([[l r1] t1] & w1 & E1). rewrite E1.
    apply read_proxy_response_line_sound in E1 as (-> & _); [|done]. rewrite Eu.
    unfold done_as, io_ret. cbn. eauto. }
  rewrite split_inclusive_next by done. pose proof (next_line_cons b bs) as Hne.
  cbn [headers_fit]. destruct (_ && valid_utf8 _) eqn:Ev; cbn [andb].
  - destruct Hd as ([[l r1] t1] & w1 & E1). rewrite E1.
    apply read_proxy_response_line_sound in E1 as (-> & _ & -> & Hle & Hu & _); [|done].
    rewrite Eu in *. set (l := next_line (b :: bs)) in *.
    assert (1 <= len l) by (destruct l; [done|]; rewrite len_cons; pose proof (len_nonneg l); lia).
    destruct (is_blank l); cbn [orb]; [unfold done_as, io_ret; eauto|].
    rewrite <- Hu. apply IH; lia.
  - destruct Hd as (m & w1 & ->). unfold done_as. eauto.
Qed.

(** The first line of the response can be read: it is UTF-8 and within the limit. *)
Definition readable (line : str) : Prop := len line <= MAX_PROXY_RESPONSE_HEADER_BYTES /\ valid_utf8 line = true.

(** C22: on a connection on which every call completes and does not fail, the exchange
    always ends, with one of four results that exclude each other. If the target host is not valid,
    the error is [InvalidInput] and nothing was sent. Otherwise: it succeeds exactly if the response
    grants the tunnel, that is, its first line has version 1.0 or 1.1 and a status
    from 200 to 299, and the lines up to the first blank one (or up to the end) are
    UTF-8 and no longer than 64 KiB together; the request was then sent, once. It is
    refused, with an error of kind [Other] that quotes the first line, exactly if that line
    can be read and reports no success. It is malformed, an error of kind [InvalidData], exactly
    in the remaining case: a line that is too long or not UTF-8 comes first or follows a success. *)
Theorem http_connect_exchange_correct s host port auth w :
  let res := http_connect_exchange s host port auth w in
  let line := next_line (reply s) in
  if target_host_ok host then
    (exists s' w', res = (Ready (Ok s'), w') /\ grants (reply s) /\
      sent_bytes s' = sent_bytes s ++ connect_request host port auth) \/
    (exists w', res = (Ready (Err (OtherText (lit "proxy CONNECT failed: " ++ trim line))), w') /\
      readable line /\ ~ success_line line) \/
    (exists m w', res = (Ready (Err (InvalidData m)), w') /\
      ~ grants (reply s) /\ (readable line -> success_line line))
  else res = (Ready (Err (InvalidInput (lit "proxy target host contains invalid characters"))), w).
Proof.
  cbn zeta. destruct (target_host_ok host) eqn:Eh; [|unfold http_connect_exchange; by rewrite Eh].
  destruct (http_connect_exchange s host port auth w) as [res w'] eqn:E. pose proof E as Hsound.
  unfold http_connect_exchange in E. rewrite Eh in E. cbn [negb] in E. unfold io_bind at 1 in E.
  destruct (async_write_all_done (connect_request host port auth) s w) as (s1 & w1 & Ew).
  rewrite Ew in E. apply async_write_all_ok in Ew as [_ Hr].
  assert (Hmax : 0 <= 0 <= MAX_PROXY_RESPONSE_HEADER_BYTES) by (unfold MAX_PROXY_RESPONSE_HEADER_BYTES; lia).
  pose proof (read_proxy_response_line_done (BufReader_new s1) 0 w1 Hmax) as Hd.
  rewrite BufReader_new_unread, Hr, Z.add_0_l in Hd. setoid_rewrite grants_iff. cbn zeta. unfold io_bind at 1 in E.
  destruct (_ && _) eqn:Ef.
  2: { destruct Hd as (m & w2 & E2). rewrite E2 in E. injection E as <- <-. right. right. do 2 eexists. split; [reflexivity|].
    assert (Hn : ~ readable (next_line (reply s)))
      by (intros [Hl Hv]; apply Z.leb_le in Hl; by rewrite Hl, Hv in Ef).
    split; [|done]. intros (Hl & Hv & _). by apply Hn. }
  apply andb_true_iff in Ef as [Hl Hv]. apply Z.leb_le in Hl.
  destruct Hd as ([[l r] t] & w2 & E2). rewrite E2 in E.
  apply read_proxy_response_line_sound in E2 as (El & _ & -> & _ & Hu & _); [|done].
  rewrite BufReader_new_unread, Hr in El, Hu. subst l. set (l := next_line (reply s)) in *.
  rewrite Z.add_0_l in E.
  destruct (status_accepted l) eqn:Es; cbn [negb] in E.
  2: { injection E as <- <-. right. left. eexists. split; [reflexivity|]. split; [done|].
    by rewrite <- status_accepted_iff, Es by done. }
  pose proof (len_nonneg l) as H0l.
  pose proof (read_headers_done (Z.to_nat (MAX_PROXY_RESPONSE_HEADER_BYTES + 1)) r (len l) w2 ltac:(lia)
    ltac:(unfold MAX_PROXY_RESPONSE_HEADER_BYTES in *; lia)) as Hd.
  rewrite Hu in Hd. unfold io_bind in E. destruct (headers_fit _ _).
  - destruct Hd as (r' & w3 & E3). rewrite E3 in E. injection E as <- <-. left. do 2 eexists.
    split; [reflexivity|]. split; [done|]. by apply http_connect_exchange_sound in Hsound as (_ & ? & _).
  - destruct Hd as (m & w3 & E3). rewrite E3 in E. injection E as <- <-. right. right. do 2 eexists.
    split; [reflexivity|]. split; [by intros (_ & _ & _ & ?)|]. intros _. by apply status_accepted_iff.
Qed.
End reliable_proxy.

(** ** Evaluation *)

(** A connection that takes everything and answers with the bytes of its inbox. *)
Record Pipe : Set := mkPipe { pipe_sent : list u8; pipe_inbox : list u8 }.

#[export] Instance Pipe_proxy : ProxyStream unit Pipe := {|
  BufReader := Pipe;
  async_write_all bs s := io_ret (mkPipe (pipe_sent s ++ bs) (pipe_inbox s));
  BufReader_new s := s;
  take_read_line n r :=
    let l := next_line (take (Z.to_nat n) (pipe_inbox r)) in
    if valid_utf8 l then io_ret (l, mkPipe (pipe_sent r) (drop (length l) (pipe_inbox r)))
    else io_err (InvalidData "stream did not contain valid UTF-8");
  into_inner r := r;
|}.

#[export] Instance Pipe_laws : ProxyStreamLaws unit Pipe.
Proof.
  refine {| sent_bytes := pipe_sent; reply := pipe_inbox; unread := pipe_inbox : BufReader unit Pipe -> _ |}; cbn.
  - intros bs s w s' w' E. by injection E as <- <-.
  - done.
  - done.
  - intros n r w l r' w' E. destruct (valid_utf8 _) eqn:Ev; [|done]. by injection E as <- <- <-.
Defined.

#[export] Instance Pipe_reliable : ReliableProxy unit Pipe.
Proof.
  split.
  - intros bs s w. do 2 eexists. reflexivity.
  - intros n r w. cbn. destruct (valid_utf8 _); do 2 eexists; reflexivity.
Qed.

(** Base64 with padding. *)
Definition base64_digit (n : Z) : u8 :=
  let n := n mod 64 in
  if n <? 26 then 65 + n else if n <? 52 then 71 + n else if n <? 62 then n - 4 else if n =? 62 then 43 else 47.

Fixpoint base64 (bs : list u8) : str :=
  match bs with
  | [] => []
  | [a] => [base64_digit (a / 4); base64_digit (a * 16); 61; 61]
  | [a; b] => [base64_digit (a / 4); base64_digit (a * 16 + b / 16); base64_digit (b * 4); 61]
  | a :: b :: c :: bs =>
      [base64_digit (a / 4); base64_digit (a * 16 + b / 16); base64_digit (b * 4 + c / 64); base64_digit c]
      ++ base64 bs
  end.
#[export] Instance Base64_std : Base64 := base64.

Lemma base64_digit_char n : base64_char (base64_digit n) = true.
Proof.
  pose proof (Z.mod_pos_bound n 64 ltac:(lia)). unfold base64_digit, base64_char, is_digit.
  repeat case_match; bool_to_prop; lia.
Qed.

Lemma base64_chars n bs : (length bs <= n)%nat -> Forall (fun b => base64_char b = true) (base64 bs).
Proof.
  revert bs. induction n as [|n IH]; intros [|a [|b [|c bs]]] Hl; cbn in *; try lia; try constructor;
    repeat first [apply base64_digit_char | reflexivity | constructor]. apply IH. lia.
Qed.

#[export] Instance Base64_std_laws : Base64Laws.
Proof. intros bs. by eapply base64_chars. Qed.

Definition demo_host : str := lit "2001:db8::1".
Definition demo_auth : ProxyAuthorization.t := ProxyAuthorization.Basic (lit "user") (lit "pass").
Definition demo_pipe : Pipe :=
  mkPipe [] (lit "HTTP/1.1 201 Created" ++ CRLF ++ lit "Via: proxy" ++ CRLF ++ CRLF ++ lit "data").

Lemma connect_request_faithful_witness :
  parse_request (connect_request demo_host 443 demo_auth) =
    Some (lit "CONNECT", lit "[2001:db8::1]:443", lit "HTTP/1.1",
      [(lit "Host", lit "[2001:db8::1]:443"); (lit "Proxy-Authorization", lit "Basic dXNlcjpwYXNz")]) /\
  parse_authority (lit "[2001:db8::1]:443") = Some (demo_host, 443).
Proof.
  assert (Hh : target_host_ok demo_host = true) by (vm_compute; reflexivity).
  assert (Hp : is_u16 443) by (unfold is_u16, u16_MAX; lia).
  exact (connect_request_faithful demo_host 443 demo_auth Hh Hp).
Defined.

Lemma http_connect_exchange_correct_witness :
  exists s', http_connect_exchange demo_pipe demo_host 443 demo_auth tt = (Ready (Ok s'), tt) /\
    grants (pipe_inbox demo_pipe) /\ pipe_sent s' = connect_request demo_host 443 demo_auth.
Proof.
  pose proof (http_connect_exchange_correct demo_pipe demo_host 443 demo_auth tt) as H.
  change (target_host_ok demo_host) with true in H. cbv beta iota zeta in H.
  destruct H as [(s' & [] & E & Hg & Hw)|[(w' & E & _)|(m & w' & E & _)]].
  - exists s'. split; [exact E|]. split; [exact Hg|exact Hw].
  - exfalso. vm_compute in E. discriminate E.
  - exfalso. vm_compute in E. discriminate E.
Defined.
