(* ===== verification/DebugFmt.v ===== *)
(** * What the log shows of a packet

    The [Debug] of the packets, which the driver writes to its log: the impls that
    mqtt_proto.rs and mqtt_proto/*.rs derive, those that they write by hand to leave
    out credentials, and the text that the formatter of the standard library makes of
    them. The theorem is that the text of an outgoing packet depends neither on the
    password nor on the authentication data, that the impls leave out nothing else,
    and that the line of an incoming packet leaves out nothing. *)

From S2P Require Export PacketEq Reader Proxy.
Local Open Scope Z_scope.
Local Open Scope partial_eq_scope.

(** ** The standard library: [Formatter] *)

(** The calls of an [impl Debug] on its [Formatter]: [debug_struct] with [finish] or
    [finish_non_exhaustive], [debug_tuple] (whose name is empty for a tuple, and which is
    written without parentheses for a variant without fields), [debug_list], and the [Debug]
    of integers, booleans, strings and the buffers of the pool. *)
#[warnings="-register-all"]
Inductive Tree : Type :=
  | Num (n : Z)
  | Flag (b : bool)
  | Text (s : str)
  | Raw (s : Shared)
  | Tuple (name : string) (values : list Tree)
  | Struct (name : string) (fields : list (string * Tree))
  | OpenStruct (name : string) (fields : list (string * Tree))
  | Seq (values : list Tree).

(** The tables of the Unicode database that [char::escape_debug] consults, and the [Debug]
    of the buffers of a pool, which the [BufferPool] chooses. *)
Class FormatTables := {
  grapheme_extended : char -> bool;
  printable : char -> bool;
  shared_debug : Shared -> str;
}.

(** [{:x}]. *)
Fixpoint hex_digits (fuel : nat) (n : Z) (acc : str) : str :=
  match fuel with
  | O => acc
  | S fuel =>
      let d := n mod 16 in
      let acc := (if d <? 10 then 48 + d else 87 + d) :: acc in
      if n <? 16 then acc else hex_digits fuel (n / 16) acc
  end.

(** [char::escape_unicode]; a [char] has at most six digits. *)
Definition escape_unicode (c : char) : str := lit "\u{" ++ hex_digits 6 c [] ++ lit "}".

(** What is written between the values of a list. *)
Fixpoint comma_separated (l : list str) : str :=
  match l with
  | [] => []
  | [x] => x
  | x :: l => x ++ lit ", " ++ comma_separated l
  end.

Section text.
Context `{FormatTables}.

(** [char::escape_debug_ext], with the arguments of [impl Debug for str]. *)
Definition escape_debug (c : char) : str :=
  if c =? 0 then lit "\0"
  else if c =? 9 then lit "\t"
  else if c =? 13 then lit "\r"
  else if c =? 10 then lit "\n"
  else if (c =? 92) || (c =? 34) then [92; c]
  else if grapheme_extended c then escape_unicode c
  else if printable c then utf8_encode c
  else escape_unicode c.

(** [impl Debug for str]. *)
Definition str_debug (s : str) : str := [34] ++ concat (map escape_debug (chars s)) ++ [34].

(** The text of [{:?}]; an integer has at most twenty digits. *)
Fixpoint render (t : Tree) : str :=
  match t with
  | Num n => decimal_digits 20 n []
  | Flag b => if b then lit "true" else lit "false"
  | Text s => str_debug s
  | Raw s => shared_debug s
  | Tuple name [] => lit name
  | Tuple name values => lit name ++ lit "(" ++ comma_separated (map render values) ++ lit ")"
  | Struct name [] => lit name
  | Struct name fields =>
      lit name ++ lit " { "
      ++ comma_separated (map (fun '(field, value) => lit field ++ lit ": " ++ render value) fields) ++ lit " }"
  | OpenStruct name [] => lit name ++ lit " { .. }"
  | OpenStruct name fields =>
      lit name ++ lit " { "
      ++ comma_separated (map (fun '(field, value) => lit field ++ lit ": " ++ render value) fields)
      ++ lit ", .. }"
  | Seq values => lit "[" ++ comma_separated (map render values) ++ lit "]"
  end.
End text.

(** ** [trait Debug] *)

Class Debug (A : Type) := fmt : A -> Tree.

#[export] Instance int_Debug : Debug Z := Num.
#[export] Instance bool_Debug : Debug bool := Flag.
#[export] Instance option_Debug {A} `{Debug A} : Debug (option A) := fun x =>
  match x with Some a => Tuple "Some" [fmt a] | None => Tuple "None" [] end.
#[export] Instance pair_Debug {A B} `{Debug A} `{Debug B} : Debug (A * B) := fun x =>
  Tuple "" [fmt (fst x); fmt (snd x)].
#[export] Instance vec_Debug {A} `{Debug A} : Debug (list A) | 10 := fun l => Seq (map fmt l).

(** [impl Debug for PacketIdentifier]: that of the number. *)
#[export] Instance PacketIdentifier_Debug : Debug PacketIdentifier := fun p => fmt (pkid_get p).

(** [impl Debug for ByteStr]: that of the [str]. *)
#[export] Instance ByteStr_Debug : Debug ByteStr := fun s => Text (as_ref s).

(** [#[derive(Debug)] struct BinaryData]: the buffer, with its length prefix. *)
#[export] Instance BinaryData_Debug : Debug BinaryData := fun b => Tuple "BinaryData" [Raw (bd_shared b)].

#[export] Instance Topic_Debug : Debug (Topic ByteStr) := fun t => Tuple "Topic" [fmt (topic_inner t)].

#[export] Instance FilterKind_Debug : Debug FilterKind.t := fun k =>
  match k with
  | FilterKind.Regular => Tuple "Regular" []
  | FilterKind.Dollar => Tuple "Dollar" []
  | FilterKind.Shared i => Struct "Shared" [("index_group_name_and_filter", fmt i)]
  end.

#[export] Instance Filter_Debug : Debug (Filter ByteStr) := fun f =>
  Struct "Filter" [("inner", fmt (filter_inner f)); ("kind", fmt (filter_kind f))].

(** The enums of [define_u8_code!]: the name of the variant. *)

#[export] Instance QoS_Debug : Debug QoS.t := fun c =>
  Tuple match c with
  | QoS.AtMostOnce => "AtMostOnce"
  | QoS.AtLeastOnce => "AtLeastOnce"
  | QoS.ExactlyOnce => "ExactlyOnce"
  end [].

#[export] Instance RetainHandling_Debug : Debug RetainHandling.t := fun c =>
  Tuple match c with
  | RetainHandling.Send => "Send"
  | RetainHandling.SendOnlyIfSubscriptionDoesNotCurrentlyExist => "SendOnlyIfSubscriptionDoesNotCurrentlyExist"
  | RetainHandling.DoNotSend => "DoNotSend"
  end [].

#[export] Instance AuthenticateReasonCode_Debug : Debug AuthenticateReasonCode.t := fun c =>
  Tuple match c with
  | AuthenticateReasonCode.Success => "Success"
  | AuthenticateReasonCode.ContinueAuthentication => "ContinueAuthentication"
  | AuthenticateReasonCode.ReAuthenticate => "ReAuthenticate"
  end [].

#[export] Instance ConnectionRefusedReason_Debug : Debug ConnectionRefusedReason.t := fun c =>
  Tuple match c with
  | ConnectionRefusedReason.UnspecifiedError => "UnspecifiedError"
  | ConnectionRefusedReason.MalformedPacket => "MalformedPacket"
  | ConnectionRefusedReason.ProtocolError => "ProtocolError"
  | ConnectionRefusedReason.ImplementationSpecificError => "ImplementationSpecificError"
  | ConnectionRefusedReason.UnsupportedProtocolVersion => "UnsupportedProtocolVersion"
  | ConnectionRefusedReason.ClientIdentifierNotValid => "ClientIdentifierNotValid"
  | ConnectionRefusedReason.BadUserNameOrPassword => "BadUserNameOrPassword"
  | ConnectionRefusedReason.NotAuthorized => "NotAuthorized"
  | ConnectionRefusedReason.ServerUnavailable => "ServerUnavailable"
  | ConnectionRefusedReason.ServerBusy => "ServerBusy"
  | ConnectionRefusedReason.Banned => "Banned"
  | ConnectionRefusedReason.BadAuthenticationMethod => "BadAuthenticationMethod"
  | ConnectionRefusedReason.TopicNameInvalid => "TopicNameInvalid"
  | ConnectionRefusedReason.PacketTooLarge => "PacketTooLarge"
  | ConnectionRefusedReason.QuotaExceeded => "QuotaExceeded"
  | ConnectionRefusedReason.PayloadFormatInvalid => "PayloadFormatInvalid"
  | ConnectionRefusedReason.RetainNotSupported => "RetainNotSupported"
  | ConnectionRefusedReason.QoSNotSupported => "QoSNotSupported"
  | ConnectionRefusedReason.UseAnotherServer => "UseAnotherServer"
  | ConnectionRefusedReason.ServerMoved => "ServerMoved"
  | ConnectionRefusedReason.ConnectionRateExceeded => "ConnectionRateExceeded"
  end [].

#[export] Instance DisconnectReasonCode_Debug : Debug DisconnectReasonCode.t := fun c =>
  Tuple match c with
  | DisconnectReasonCode.Normal => "Normal"
  | DisconnectReasonCode.DisconnectWithWillMessage => "DisconnectWithWillMessage"
  | DisconnectReasonCode.UnspecifiedError => "UnspecifiedError"
  | DisconnectReasonCode.MalformedPacket => "MalformedPacket"
  | DisconnectReasonCode.ProtocolError => "ProtocolError"
  | DisconnectReasonCode.ImplementationSpecificError => "ImplementationSpecificError"
  | DisconnectReasonCode.NotAuthorized => "NotAuthorized"
  | DisconnectReasonCode.ServerBusy => "ServerBusy"
  | DisconnectReasonCode.ServerShuttingDown => "ServerShuttingDown"
  | DisconnectReasonCode.KeepAliveTimeout => "KeepAliveTimeout"
  | DisconnectReasonCode.SessionTakenOver => "SessionTakenOver"
  | DisconnectReasonCode.TopicFilterInvalid => "TopicFilterInvalid"
  | DisconnectReasonCode.TopicNameInvalid => "TopicNameInvalid"
  | DisconnectReasonCode.ReceiveMaximumExceeded => "ReceiveMaximumExceeded"
  | DisconnectReasonCode.TopicAliasInvalid => "TopicAliasInvalid"
  | DisconnectReasonCode.PacketTooLarge => "PacketTooLarge"
  | DisconnectReasonCode.MessageRateTooHigh => "MessageRateTooHigh"
  | DisconnectReasonCode.QuotaExceeded => "QuotaExceeded"
  | DisconnectReasonCode.AdministrativeAction => "AdministrativeAction"
  | DisconnectReasonCode.PayloadFormatInvalid => "PayloadFormatInvalid"
  | DisconnectReasonCode.RetainNotSupported => "RetainNotSupported"
  | DisconnectReasonCode.QosNotSupported => "QosNotSupported"
  | DisconnectReasonCode.UseAnotherServer => "UseAnotherServer"
  | DisconnectReasonCode.ServerMoved => "ServerMoved"
  | DisconnectReasonCode.SharedSubscriptionsNotSupported => "SharedSubscriptionsNotSupported"
  | DisconnectReasonCode.ConnectionRateExceeded => "ConnectionRateExceeded"
  | DisconnectReasonCode.MaximumConnectTime => "MaximumConnectTime"
  | DisconnectReasonCode.SubscriptionIdentifiersNotSupported => "SubscriptionIdentifiersNotSupported"
  | DisconnectReasonCode.WildcardSubscriptionsNotSupported => "WildcardSubscriptionsNotSupported"
  end [].

#[export] Instance PubAckReasonCode_Debug : Debug PubAckReasonCode.t := fun c =>
  Tuple match c with
  | PubAckReasonCode.Success => "Success"
  | PubAckReasonCode.NoMatchingSubscribers => "NoMatchingSubscribers"
  | PubAckReasonCode.UnspecifiedError => "UnspecifiedError"
  | PubAckReasonCode.ImplementationSpecificError => "ImplementationSpecificError"
  | PubAckReasonCode.NotAuthorized => "NotAuthorized"
  | PubAckReasonCode.TopicNameInvalid => "TopicNameInvalid"
  | PubAckReasonCode.PacketIdentifierInUse => "PacketIdentifierInUse"
  | PubAckReasonCode.QuotaExceeded => "QuotaExceeded"
  | PubAckReasonCode.PayloadFormatInvalid => "PayloadFormatInvalid"
  end [].

#[export] Instance PubRecReasonCode_Debug : Debug PubRecReasonCode.t := fun c =>
  Tuple match c with
  | PubRecReasonCode.Success => "Success"
  | PubRecReasonCode.NoMatchingSubscribers => "NoMatchingSubscribers"
  | PubRecReasonCode.UnspecifiedError => "UnspecifiedError"
  | PubRecReasonCode.ImplementationSpecificError => "ImplementationSpecificError"
  | PubRecReasonCode.NotAuthorized => "NotAuthorized"
  | PubRecReasonCode.TopicNameInvalid => "TopicNameInvalid"
  | PubRecReasonCode.PacketIdentifierInUse => "PacketIdentifierInUse"
  | PubRecReasonCode.QuotaExceeded => "QuotaExceeded"
  | PubRecReasonCode.PayloadFormatInvalid => "PayloadFormatInvalid"
  end [].

#[export] Instance PubRelReasonCode_Debug : Debug PubRelReasonCode.t := fun c =>
  Tuple match c with
  | PubRelReasonCode.Success => "Success"
  | PubRelReasonCode.PacketIdentifierNotFound => "PacketIdentifierNotFound"
  end [].

#[export] Instance PubCompReasonCode_Debug : Debug PubCompReasonCode.t := fun c =>
  Tuple match c with
  | PubCompReasonCode.Success => "Success"
  | PubCompReasonCode.PacketIdentifierNotFound => "PacketIdentifierNotFound"
  end [].

#[export] Instance SubscribeReasonCode_Debug : Debug SubscribeReasonCode.t := fun c =>
  Tuple match c with
  | SubscribeReasonCode.GrantedQoS0 => "GrantedQoS0"
  | SubscribeReasonCode.GrantedQoS1 => "GrantedQoS1"
  | SubscribeReasonCode.GrantedQoS2 => "GrantedQoS2"
  | SubscribeReasonCode.UnspecifiedError => "UnspecifiedError"
  | SubscribeReasonCode.ImplementationSpecificError => "ImplementationSpecificError"
  | SubscribeReasonCode.NotAuthorized => "NotAuthorized"
  | SubscribeReasonCode.TopicFilterInvalid => "TopicFilterInvalid"
  | SubscribeReasonCode.PacketIdentifierInUse => "PacketIdentifierInUse"
  | SubscribeReasonCode.QuotaExceeded => "QuotaExceeded"
  | SubscribeReasonCode.SharedSubscriptionsNotSupported => "SharedSubscriptionsNotSupported"
  | SubscribeReasonCode.SubscriptionIdentifiersNotSupported => "SubscriptionIdentifiersNotSupported"
  | SubscribeReasonCode.WildcardSubscriptionsNotSupported => "WildcardSubscriptionsNotSupported"
  end [].

#[export] Instance UnsubAckReasonCode_Debug : Debug UnsubAckReasonCode.t := fun c =>
  Tuple match c with
  | UnsubAckReasonCode.Success => "Success"
  | UnsubAckReasonCode.NoSubscriptionExisted => "NoSubscriptionExisted"
  | UnsubAckReasonCode.UnspecifiedError => "UnspecifiedError"
  | UnsubAckReasonCode.ImplementationSpecificError => "ImplementationSpecificError"
  | UnsubAckReasonCode.NotAuthorized => "NotAuthorized"
  | UnsubAckReasonCode.TopicFilterInvalid => "TopicFilterInvalid"
  | UnsubAckReasonCode.PacketIdentifierInUse => "PacketIdentifierInUse"
  end [].

#[export] Instance KeepAlive_Debug : Debug KeepAlive.t := fun k =>
  match k with KeepAlive.Infinite => Tuple "Infinite" [] | KeepAlive.Duration d => Tuple "Duration" [fmt d] end.

#[export] Instance SessionExpiryInterval_Debug : Debug SessionExpiryInterval.t := fun i =>
  match i with
  | SessionExpiryInterval.Infinite => Tuple "Infinite" []
  | SessionExpiryInterval.Duration d => Tuple "Duration" [fmt d]
  end.

#[export] Instance PacketIdentifierDupQoS_Debug : Debug PacketIdentifierDupQoS.t := fun x =>
  match x with
  | PacketIdentifierDupQoS.AtMostOnce => Tuple "AtMostOnce" []
  | PacketIdentifierDupQoS.AtLeastOnce p dup => Tuple "AtLeastOnce" [fmt p; fmt dup]
  | PacketIdentifierDupQoS.ExactlyOnce p dup => Tuple "ExactlyOnce" [fmt p; fmt dup]
  end.

#[export] Instance ConnectReasonCode_Debug : Debug ConnectReasonCode.t := fun c =>
  match c with
  | ConnectReasonCode.Success session_present => Struct "Success" [("session_present", fmt session_present)]
  | ConnectReasonCode.Refused reason => Tuple "Refused" [fmt reason]
  end.

(** ** The structs, by field *)

(** [PubAckOtherProperties] and its namesakes, with the name of the struct. *)
Definition ReasonProperties_fmt (name : string) (o : ReasonProperties) : Tree :=
  Struct name [("reason_string", fmt (reason_string o)); ("user_properties", fmt (user_properties o))].

(** [PubAck], [PubRec], [PubRel] and [PubComp], with the names of the struct and of its
    properties. *)
Definition Ack_fmt {C} `{Debug C} (name other : string) (p : Ack.t C) : Tree :=
  Struct name [
    ("packet_identifier", fmt (Ack.packet_identifier p));
    ("reason_code", fmt (Ack.reason_code p));
    ("other_properties", ReasonProperties_fmt other (Ack.other_properties p))].

(** [impl Debug for Authentication]: the method, and that there is more. *)
#[export] Instance Authentication_Debug : Debug Authentication.t := fun a =>
  OpenStruct "Authentication" [("method", fmt (Authentication.method a))].

#[export] Instance ConnAck_other_Debug : Debug ConnAck.OtherProperties := fun p =>
  Struct "ConnAckOtherProperties" [
    ("session_expiry_interval", fmt (ConnAck.session_expiry_interval p));
    ("receive_maximum", fmt (ConnAck.receive_maximum p));
    ("maximum_qos", fmt (ConnAck.maximum_qos p));
    ("retain_available", fmt (ConnAck.retain_available p));
    ("maximum_packet_size", fmt (ConnAck.maximum_packet_size p));
    ("assigned_client_id", fmt (ConnAck.assigned_client_id p));
    ("topic_alias_maximum", fmt (ConnAck.topic_alias_maximum p));
    ("reason_string", fmt (ConnAck.reason_string p));
    ("user_properties", fmt (ConnAck.user_properties p));
    ("wildcard_subscription_available", fmt (ConnAck.wildcard_subscription_available p));
    ("shared_subscription_available", fmt (ConnAck.shared_subscription_available p));
    ("subscription_identifiers_available", fmt (ConnAck.subscription_identifiers_available p));
    ("server_keep_alive", fmt (ConnAck.server_keep_alive p));
    ("response_information", fmt (ConnAck.response_information p));
    ("server_reference", fmt (ConnAck.server_reference p));
    ("authentication", fmt (ConnAck.authentication p))].

#[export] Instance ConnAck_Debug : Debug ConnAck.t := fun p =>
  Struct "ConnAck" [
    ("reason_code", fmt (ConnAck.reason_code p));
    ("other_properties", fmt (ConnAck.other_properties p))].

#[export] Instance Disconnect_other_Debug : Debug Disconnect.OtherProperties := fun p =>
  Struct "DisconnectOtherProperties" [
    ("session_expiry_interval", fmt (Disconnect.session_expiry_interval p));
    ("reason_string", fmt (Disconnect.reason_string p));
    ("user_properties", fmt (Disconnect.user_properties p));
    ("server_reference", fmt (Disconnect.server_reference p))].

#[export] Instance Disconnect_Debug : Debug Disconnect.t := fun p =>
  Struct "Disconnect" [
    ("reason_code", fmt (Disconnect.reason_code p));
    ("other_properties", fmt (Disconnect.other_properties p))].

#[export] Instance Auth_Debug : Debug Auth.t := fun p =>
  Struct "Auth" [
    ("reason_code", fmt (Auth.reason_code p));
    ("authentication", fmt (Auth.authentication p));
    ("reason_string", fmt (Auth.reason_string p));
    ("user_properties", fmt (Auth.user_properties p))].

#[export] Instance Publish_other_Debug : Debug Publish.OtherProperties := fun p =>
  Struct "PublishOtherProperties" [
    ("payload_is_utf8", fmt (Publish.payload_is_utf8 p));
    ("message_expiry_interval", fmt (Publish.message_expiry_interval p));
    ("topic_alias", fmt (Publish.topic_alias p));
    ("response_topic", fmt (Publish.response_topic p));
    ("correlation_data", fmt (Publish.correlation_data p));
    ("user_properties", fmt (Publish.user_properties p));
    ("subscription_identifiers", Seq (map fmt (Publish.subscription_identifiers p)));
    ("content_type", fmt (Publish.content_type p))].

#[export] Instance Publish_Debug : Debug Publish.t := fun p =>
  Struct "Publish" [
    ("topic_name", fmt (Publish.topic_name p));
    ("packet_identifier_dup_qos", fmt (Publish.packet_identifier_dup_qos p));
    ("retain", fmt (Publish.retain p));
    ("payload", Raw (Publish.payload p));
    ("other_properties", fmt (Publish.other_properties p))].

#[export] Instance Publication_other_Debug : Debug Publication.OtherProperties := fun p =>
  Struct "PublicationOtherProperties" [
    ("payload_is_utf8", fmt (Publication.payload_is_utf8 p));
    ("message_expiry_interval", fmt (Publication.message_expiry_interval p));
    ("response_topic", fmt (Publication.response_topic p));
    ("correlation_data", fmt (Publication.correlation_data p));
    ("user_properties", fmt (Publication.user_properties p));
    ("content_type", fmt (Publication.content_type p))].

#[export] Instance Publication_Debug : Debug Publication.t := fun p =>
  Struct "Publication" [
    ("topic_name", fmt (Publication.topic_name p));
    ("qos", fmt (Publication.qos p));
    ("retain", fmt (Publication.retain p));
    ("payload", Raw (Publication.payload p));
    ("other_properties", fmt (Publication.other_properties p))].

#[export] Instance Connect_other_Debug : Debug Connect.OtherProperties := fun p =>
  Struct "ConnectOtherProperties" [
    ("session_expiry_interval", fmt (Connect.session_expiry_interval p));
    ("receive_maximum", fmt (Connect.receive_maximum p));
    ("maximum_packet_size", fmt (Connect.maximum_packet_size p));
    ("topic_alias_maximum", fmt (Connect.topic_alias_maximum p));
    ("request_response_information", fmt (Connect.request_response_information p));
    ("request_problem_information", fmt (Connect.request_problem_information p));
    ("user_properties", fmt (Connect.user_properties p));
    ("authentication", fmt (Connect.authentication p))].

(** [impl Debug for Connect]: all fields except the password. *)
#[export] Instance Connect_Debug : Debug Connect.t := fun p =>
  Struct "Connect" [
    ("username", fmt (Connect.username p));
    ("will", fmt (Connect.will p));
    ("client_id", fmt (Connect.client_id p));
    ("clean_start", fmt (Connect.clean_start p));
    ("keep_alive", fmt (Connect.keep_alive p));
    ("other_properties", fmt (Connect.other_properties p))].

#[export] Instance SubscribeOptions_other_Debug : Debug SubscribeOptions.OtherProperties := fun p =>
  Struct "SubscribeOptionsOtherProperties" [
    ("no_local", fmt (SubscribeOptions.no_local p));
    ("retain_as_published", fmt (SubscribeOptions.retain_as_published p));
    ("retain_handling", fmt (SubscribeOptions.retain_handling p))].

#[export] Instance SubscribeOptions_Debug : Debug SubscribeOptions.t := fun p =>
  Struct "SubscribeOptions" [
    ("maximum_qos", fmt (SubscribeOptions.maximum_qos p));
    ("other_properties", fmt (SubscribeOptions.other_properties p))].

#[export] Instance SubscribeTo_Debug : Debug SubscribeTo.t := fun p =>
  Struct "SubscribeTo" [
    ("topic_filter", fmt (SubscribeTo.topic_filter p));
    ("options", fmt (SubscribeTo.options p))].

#[export] Instance Subscribe_other_Debug : Debug Subscribe.OtherProperties := fun p =>
  Struct "SubscribeOtherProperties" [
    ("subscription_identifier", fmt (Subscribe.subscription_identifier p));
    ("user_properties", fmt (Subscribe.user_properties p))].

#[export] Instance Subscribe_Debug : Debug Subscribe.t := fun p =>
  Struct "Subscribe" [
    ("packet_identifier", fmt (Subscribe.packet_identifier p));
    ("subscribe_to", fmt (Subscribe.subscribe_to p));
    ("other_properties", fmt (Subscribe.other_properties p))].

#[export] Instance Unsubscribe_Debug : Debug Unsubscribe.t := fun p =>
  Struct "Unsubscribe" [
    ("packet_identifier", fmt (Unsubscribe.packet_identifier p));
    ("unsubscribe_from", fmt (Unsubscribe.unsubscribe_from p));
    ("other_properties", Struct "UnsubscribeOtherProperties" [("user_properties", fmt (Unsubscribe.user_properties p))])].

#[export] Instance SubAck_Debug : Debug SubAck.t := fun p =>
  Struct "SubAck" [
    ("packet_identifier", fmt (SubAck.packet_identifier p));
    ("reason_codes", fmt (SubAck.reason_codes p));
    ("other_properties", ReasonProperties_fmt "SubAckOtherProperties" (SubAck.other_properties p))].

#[export] Instance UnsubAck_Debug : Debug UnsubAck.t := fun p =>
  Struct "UnsubAck" [
    ("packet_identifier", fmt (UnsubAck.packet_identifier p));
    ("reason_codes", fmt (UnsubAck.reason_codes p));
    ("other_properties", ReasonProperties_fmt "UnsubAckOtherProperties" (UnsubAck.other_properties p))].

(** [#[derive(Debug)] enum Packet]. *)
#[export] Instance Packet_Debug : Debug Packet.t := fun p =>
  match p with
  | Packet.Auth p => Tuple "Auth" [fmt p]
  | Packet.ConnAck p => Tuple "ConnAck" [fmt p]
  | Packet.Connect p => Tuple "Connect" [fmt p]
  | Packet.Disconnect p => Tuple "Disconnect" [fmt p]
  | Packet.PingReq _ => Tuple "PingReq" [Tuple "PingReq" []]
  | Packet.PingResp _ => Tuple "PingResp" [Tuple "PingResp" []]
  | Packet.PubAck p => Tuple "PubAck" [Ack_fmt "PubAck" "PubAckOtherProperties" p]
  | Packet.PubComp p => Tuple "PubComp" [Ack_fmt "PubComp" "PubCompOtherProperties" p]
  | Packet.Publish p => Tuple "Publish" [fmt p]
  | Packet.PubRec p => Tuple "PubRec" [Ack_fmt "PubRec" "PubRecOtherProperties" p]
  | Packet.PubRel p => Tuple "PubRel" [Ack_fmt "PubRel" "PubRelOtherProperties" p]
  | Packet.SubAck p => Tuple "SubAck" [fmt p]
  | Packet.Subscribe p => Tuple "Subscribe" [fmt p]
  | Packet.UnsubAck p => Tuple "UnsubAck" [fmt p]
  | Packet.Unsubscribe p => Tuple "Unsubscribe" [fmt p]
  end.

(** [#[derive(Debug)] struct RawPacket]. *)
#[export] Instance RawPacket_Debug : Debug RawPacket := fun r =>
  Struct "RawPacket" [("first_byte", fmt (raw_first_byte r)); ("rest", Raw (raw_rest r))].

(** The two lines that [run_until_disconnect_inner] logs. *)
Definition trace_outgoing `{FormatTables} (packet : Packet.t) : str := lit "OUTGOING: " ++ render (fmt packet).
Definition trace_incoming `{FormatTables} (raw_packet : RawPacket) : str := lit "INCOMING: " ++ render (fmt raw_packet).

(** ** What is shown determines the packet, but for its credentials *)

(** [redact]: the packet without its password and authentication data. *)
Definition redact_authentication (a : Authentication.t) : Authentication.t :=
  Authentication.mk (Authentication.method a) None.

Definition redact_auth (p : Auth.t) : Auth.t :=
  Auth.mk (Auth.reason_code p) (option_map redact_authentication (Auth.authentication p))
    (Auth.reason_string p) (Auth.user_properties p).

Definition redact_connack (p : ConnAck.t) : ConnAck.t :=
  let o := ConnAck.other_properties p in
  ConnAck.mk (ConnAck.reason_code p) (ConnAck.mkOther
    (ConnAck.session_expiry_interval o) (ConnAck.receive_maximum o) (ConnAck.maximum_qos o)
    (ConnAck.retain_available o) (ConnAck.maximum_packet_size o) (ConnAck.assigned_client_id o)
    (ConnAck.topic_alias_maximum o) (ConnAck.reason_string o) (ConnAck.user_properties o)
    (ConnAck.wildcard_subscription_available o) (ConnAck.shared_subscription_available o)
    (ConnAck.subscription_identifiers_available o) (ConnAck.server_keep_alive o)
    (ConnAck.response_information o) (ConnAck.server_reference o)
    (option_map redact_authentication (ConnAck.authentication o))).

Definition redact_connect (p : Connect.t) : Connect.t :=
  let o := Connect.other_properties p in
  Connect.mk (Connect.username p) None (Connect.will p) (Connect.client_id p) (Connect.clean_start p)
    (Connect.keep_alive p) (Connect.mkOther
      (Connect.session_expiry_interval o) (Connect.receive_maximum o) (Connect.maximum_packet_size o)
      (Connect.topic_alias_maximum o) (Connect.request_response_information o)
      (Connect.request_problem_information o) (Connect.user_properties o)
      (option_map redact_authentication (Connect.authentication o))).

Definition redact (p : Packet.t) : Packet.t :=
  match p with
  | Packet.Auth p => Packet.Auth (redact_auth p)
  | Packet.ConnAck p => Packet.ConnAck (redact_connack p)
  | Packet.Connect p => Packet.Connect (redact_connect p)
  | p => p
  end.

(** [Debug] agrees with [Eq]: values that are shown alike are equal. *)
Class DebugLaw (A : Type) `{Debug A} `{PartialEq A} :=
  fmt_eq : forall a b : A, fmt a = fmt b -> (a == b) = true.

Lemma Struct_inj n l n' l' : Struct n l = Struct n' l' -> l = l'.
Proof. by intros [=]. Qed.
Lemma Tuple_inj n l n' l' : Tuple n l = Tuple n' l' -> l = l'.
Proof. by intros [=]. Qed.
Lemma fields_inj (f g : string) (x y : Tree) l l' : (f, x) :: l = (g, y) :: l' -> x = y /\ l = l'.
Proof. by intros [=]. Qed.
Lemma values_inj (x y : Tree) l l' : x :: l = y :: l' -> x = y /\ l = l'.
Proof. by intros [=]. Qed.

Lemma Raw_eq (x y : Shared) : Raw x = Raw y -> (x == y) = true.
Proof. intros [= ->]. apply str_eqb_refl. Qed.

(** The values of a struct or of a variant, one by one. *)
Ltac split_fields H :=
  first [apply Struct_inj in H | apply Tuple_inj in H];
  repeat first [apply fields_inj in H as [? H] | apply values_inj in H as [? H]]; clear H.
Ltac derive_enum := intros [] [] H; first [by apply bool_decide_eq_true | discriminate H].

#[export] Instance int_DebugLaw : DebugLaw Z.
Proof. intros a b [= ->]. apply Z.eqb_refl. Qed.
#[export] Instance bool_DebugLaw : DebugLaw bool.
Proof. intros a b [= ->]. apply Bool.eqb_reflx. Qed.
#[export] Instance option_DebugLaw {A} `{DebugLaw A} : DebugLaw (option A).
Proof. intros [a|] [b|] E; try done. split_fields E. by apply (fmt_eq a b). Qed.
#[export] Instance pair_DebugLaw {A B} `{DebugLaw A} `{DebugLaw B} : DebugLaw (A * B).
Proof.
  intros a b E. split_fields E. apply andb_true_iff. split; [by apply (fmt_eq (fst a))|by apply (fmt_eq (snd a))].
Qed.
#[export] Instance vec_DebugLaw {A} `{DebugLaw A} : DebugLaw (list A).
Proof.
  intros a b [= E]. revert b E. induction a as [|x a IH]; intros [|y b] E; try done.
  apply values_inj in E as [E1 E]. apply andb_true_iff. split; [by apply (fmt_eq x y)|by apply IH].
Qed.
#[export] Instance PacketIdentifier_DebugLaw : DebugLaw PacketIdentifier.
Proof. intros [a] [b] [= ->]. by apply bool_decide_eq_true. Qed.
#[export] Instance ByteStr_DebugLaw : DebugLaw ByteStr.
Proof. intros a b [= E]. by apply bool_decide_eq_true. Qed.
#[export] Instance BinaryData_DebugLaw : DebugLaw BinaryData.
Proof. intros [a] [b] [= ->]. apply str_eqb_refl. Qed.
#[export] Instance Topic_DebugLaw : DebugLaw (Topic ByteStr).
Proof. intros a b E. split_fields E. by apply (fmt_eq (topic_inner a)). Qed.
#[export] Instance Filter_DebugLaw : DebugLaw (Filter ByteStr).
Proof.
  intros a b E. split_fields E. apply andb_true_iff. split; [by apply (fmt_eq (filter_inner a))|].
  destruct (filter_kind a), (filter_kind b); simplify_eq; try done. apply Z.eqb_refl.
Qed.
#[export] Instance QoS_DebugLaw : DebugLaw QoS.t.
Proof. derive_enum. Qed.
#[export] Instance RetainHandling_DebugLaw : DebugLaw RetainHandling.t.
Proof. derive_enum. Qed.
#[export] Instance AuthenticateReasonCode_DebugLaw : DebugLaw AuthenticateReasonCode.t.
Proof. derive_enum. Qed.
#[export] Instance ConnectionRefusedReason_DebugLaw : DebugLaw ConnectionRefusedReason.t.
Proof. derive_enum. Qed.
#[export] Instance DisconnectReasonCode_DebugLaw : DebugLaw DisconnectReasonCode.t.
Proof. derive_enum. Qed.
#[export] Instance PubAckReasonCode_DebugLaw : DebugLaw PubAckReasonCode.t.
Proof. derive_enum. Qed.
#[export] Instance PubRecReasonCode_DebugLaw : DebugLaw PubRecReasonCode.t.
Proof. derive_enum. Qed.
#[export] Instance PubRelReasonCode_DebugLaw : DebugLaw PubRelReasonCode.t.
Proof. derive_enum. Qed.
#[export] Instance PubCompReasonCode_DebugLaw : DebugLaw PubCompReasonCode.t.
Proof. derive_enum. Qed.
#[export] Instance SubscribeReasonCode_DebugLaw : DebugLaw SubscribeReasonCode.t.
Proof. derive_enum. Qed.
#[export] Instance UnsubAckReasonCode_DebugLaw : DebugLaw UnsubAckReasonCode.t.
Proof. derive_enum. Qed.
#[export] Instance KeepAlive_DebugLaw : DebugLaw KeepAlive.t.
Proof. intros [|a] [|b] E; simplify_eq; [done|apply Z.eqb_refl]. Qed.
#[export] Instance SessionExpiryInterval_DebugLaw : DebugLaw SessionExpiryInterval.t.
Proof. intros [|a] [|b] E; simplify_eq; [done|apply Z.eqb_refl]. Qed.
#[export] Instance ConnectReasonCode_DebugLaw : DebugLaw ConnectReasonCode.t.
Proof. intros [s|r] [s'|r'] E; try done; split_fields E; [by apply (fmt_eq s)|by apply (fmt_eq r)]. Qed.

Lemma ReasonProperties_fmt_eq name a b :
  ReasonProperties_fmt name a = ReasonProperties_fmt name b -> (a == b) = true.
Proof.
  intros E. split_fields E. apply andb_true_iff.
  split; [by apply (fmt_eq (reason_string a))|by apply (fmt_eq (user_properties a))].
Qed.

Lemma subscription_identifiers_eq (x y : list u32) : Seq (map fmt x) = Seq (map fmt y) -> (x == y) = true.
Proof.
  intros [= E]. assert (x = y) as -> by (revert y E; induction x; intros [] [=]; f_equal; auto). apply str_eqb_refl.
Qed.

Lemma redact_authentication_eq (a b : option Authentication.t) :
  fmt a = fmt b -> (option_map redact_authentication a == option_map redact_authentication b) = true.
Proof.
  destruct a as [a|], b as [b|]; intros E; try done. injection E as E.
  apply andb_true_iff. split; [|done]. by apply bool_decide_eq_true.
Qed.

(** A struct whose fields are shown alike has equal fields. *)
Ltac same_field :=
  match goal with
  | E : fmt ?x = fmt ?y |- (?u == ?v) = true =>
      let u := eval cbn in u in let v := eval cbn in v in constr_eq x u; constr_eq y v; exact (fmt_eq x y E)
  | E : Raw ?x = Raw ?y |- (?x == ?y) = true => exact (Raw_eq x y E)
  | E : Seq _ = Seq _ |- _ => exact (subscription_identifiers_eq _ _ E)
  | E : ReasonProperties_fmt _ ?x = _ |- (?x == _) = true => exact (ReasonProperties_fmt_eq _ _ _ E)
  | E : fmt ?x = fmt ?y |- (?u == ?v) = true =>
      let u := eval cbn in u in constr_eq u (option_map redact_authentication x); exact (redact_authentication_eq x y E)
  end.
Ltac same_fields := first [same_field | reflexivity | apply andb_true_iff; split; same_fields].
Ltac derive_debug := let H := fresh in intros a b H; split_fields H; same_fields.

#[export] Instance PacketIdentifierDupQoS_DebugLaw : DebugLaw PacketIdentifierDupQoS.t.
Proof. intros [|p d|p d] [|q e|q e] E; try done; split_fields E; same_fields. Qed.

Lemma Ack_fmt_eq {C} `{DebugLaw C} name other (a b : Ack.t C) :
  Ack_fmt name other a = Ack_fmt name other b -> Ack_PartialEq a b = true.
Proof. revert a b. derive_debug. Qed.

#[export] Instance Disconnect_other_DebugLaw : DebugLaw Disconnect.OtherProperties.
Proof. derive_debug. Qed.
#[export] Instance Disconnect_DebugLaw : DebugLaw Disconnect.t.
Proof. derive_debug. Qed.
#[export] Instance Publish_other_DebugLaw : DebugLaw Publish.OtherProperties.
Proof. derive_debug. Qed.
#[export] Instance Publish_DebugLaw : DebugLaw Publish.t.
Proof. derive_debug. Qed.
#[export] Instance Publication_other_DebugLaw : DebugLaw Publication.OtherProperties.
Proof. derive_debug. Qed.
#[export] Instance Publication_DebugLaw : DebugLaw Publication.t.
Proof. derive_debug. Qed.
#[export] Instance SubscribeOptions_other_DebugLaw : DebugLaw SubscribeOptions.OtherProperties.
Proof. derive_debug. Qed.
#[export] Instance SubscribeOptions_DebugLaw : DebugLaw SubscribeOptions.t.
Proof. derive_debug. Qed.
#[export] Instance SubscribeTo_DebugLaw : DebugLaw SubscribeTo.t.
Proof. derive_debug. Qed.
#[export] Instance Subscribe_other_DebugLaw : DebugLaw Subscribe.OtherProperties.
Proof. derive_debug. Qed.
#[export] Instance Subscribe_DebugLaw : DebugLaw Subscribe.t.
Proof. derive_debug. Qed.
#[export] Instance Unsubscribe_DebugLaw : DebugLaw Unsubscribe.t.
Proof.
  intros a b H. split_fields H. match goal with E : Struct _ _ = _ |- _ => split_fields E end. same_fields.
Qed.
#[export] Instance SubAck_DebugLaw : DebugLaw SubAck.t.
Proof. derive_debug. Qed.
#[export] Instance UnsubAck_DebugLaw : DebugLaw UnsubAck.t.
Proof. derive_debug. Qed.

(** The packets with credentials. *)
Lemma redact_auth_eq (a b : Auth.t) : fmt a = fmt b -> (redact_auth a == redact_auth b) = true.
Proof. revert a b. derive_debug. Qed.

Lemma redact_connack_eq (a b : ConnAck.t) : fmt a = fmt b -> (redact_connack a == redact_connack b) = true.
Proof.
  intros E. split_fields E.
  match goal with E : fmt (ConnAck.other_properties _) = _ |- _ => split_fields E end. same_fields.
Qed.

Lemma redact_connect_eq (a b : Connect.t) : fmt a = fmt b -> (redact_connect a == redact_connect b) = true.
Proof.
  intros E. split_fields E.
  match goal with E : fmt (Connect.other_properties _) = _ |- _ => split_fields E end. same_fields.
Qed.

(** Nothing of what [redact] removes is shown. *)
Lemma fmt_redact p : fmt (redact p) = fmt p.
Proof. by destruct p as [[? [] ? ?]|[? [? ? ? ? ? ? ? ? ? ? ? ? ? ? ? []]]|[? ? ? ? ? ? [? ? ? ? ? ? ? []]]| | | | | | | | | | | | ]. Qed.

(** All the rest is. *)
Lemma fmt_redact_eq (p q : Packet.t) : fmt p = fmt q -> (redact p == redact q) = true.
Proof.
  intros E.
  destruct p as [p|p|p|p|p|p|p|p|p|p|p|p|p|p|p], q as [q|q|q|q|q|q|q|q|q|q|q|q|q|q|q]; try discriminate E; try reflexivity;
    apply Tuple_inj, values_inj in E as [E _];
    first [exact (fmt_eq p q E) | exact (Ack_fmt_eq _ _ p q E) | by apply redact_auth_eq
          | by apply redact_connack_eq | by apply redact_connect_eq].
Qed.

(** What the log is good for: a pool whose buffers are told apart by their [Debug], as those
    of the bytes crate, which print the bytes. *)
Class FormatLaws `{FormatTables} : Prop :=
  shared_debug_inj : forall s s', shared_debug s = shared_debug s' -> s = s'.

Lemma decimal_then_comma m n u v :
  is_u8 m -> is_u8 n -> decimal_digits 20 m [] ++ 44 :: u = decimal_digits 20 n [] ++ 44 :: v -> m = n /\ u = v.
Proof.
  intros Hm Hn E.
  assert (Hc : forall k, is_u8 k -> contains 44 (decimal_digits 20 k []) = false).
  { intros k [Hk _]. eapply contains_forall; [by apply decimal_digits_digits|]. by cbn. }
  assert (Hp : forall k, is_u8 k -> parse_digits 0 (decimal_digits 20 k []) = Some k).
  { unfold is_u8, u8_MAX. intros k Hk. rewrite decimal_digits_parse; [done|..|lia]; unfold is_u16, u16_MAX; cbn; lia. }
  apply (f_equal (cut 44)) in E. rewrite !cut_app in E by auto.
  apply (inj Some), pair_equal_spec in E as [E ->]. apply (f_equal (parse_digits 0)) in E. rewrite !Hp in E by done. by injection E as ->.
Qed.

Lemma trace_incoming_inj `{FormatLaws} r r' :
  is_u8 (raw_first_byte r) -> is_u8 (raw_first_byte r') -> trace_incoming r = trace_incoming r' -> r = r'.
Proof.
  destruct r as [b rest], r' as [b' rest']. intros Hb Hb' E.
  assert (El : forall b rest, trace_incoming (mkRawPacket b rest) =
    lit "INCOMING: RawPacket { first_byte: " ++ decimal_digits 20 b [] ++
      44 :: (lit " rest: " ++ shared_debug rest) ++ lit " }").
  { intros. unfold trace_incoming. cbn [render fmt RawPacket_Debug raw_first_byte raw_rest map comma_separated].
    rewrite <- !app_assoc. reflexivity. }
  rewrite !El in E. apply app_inv_head, decimal_then_comma in E as [-> E]; [|done..].
  apply app_inv_tail, app_inv_head, shared_debug_inj in E. by subst.
Qed.

(** C37: the log of the driver and the credentials of its packets. The text of the line for
    an outgoing packet is the same without the password of a CONNECT and without the
    authentication data of a CONNECT, CONNACK or AUTH, whatever the buffers of the pool print: it
    does not depend on them. The impls of [Debug] keep nothing else from the formatter:
    packets for which they make the same calls are equal but for these. The line for an
    incoming packet hides nothing, as it shows the packet before it is decoded: with buffers
    that are told apart by their text, two raw packets with the same line are the same. *)
Theorem log_hides_credentials `{FormatLaws} (p : Packet.t) :
  trace_outgoing p = trace_outgoing (redact p) /\
  (forall q, fmt p = fmt q -> (redact p == redact q) = true) /\
  (forall r r' : RawPacket, is_u8 (raw_first_byte r) -> is_u8 (raw_first_byte r') ->
    trace_incoming r = trace_incoming r' -> r = r').
Proof.
  split; [unfold trace_outgoing; by rewrite fmt_redact|]. split; [apply fmt_redact_eq|apply trace_incoming_inj].
Qed.

(** ** Evaluation *)

(** ASCII text, and buffers that print their bytes between quotes. *)
Definition ascii_tables : FormatTables :=
  {| grapheme_extended c := false; printable c := (32 <=? c) && (c <? 127);
     shared_debug s := lit "b" ++ [34] ++ s ++ [34] |}.

Lemma ascii_laws : @FormatLaws ascii_tables.
Proof. intros s s' E. cbn in E. injection E as E. by apply app_inv_tail in E. Qed.

Definition demo_login (password : str) : Packet.t :=
  Packet.Connect (Connect.mk None (Some (mkBinaryData (to_be_bytes 2 (len password) ++ password))) None None true
    (KeepAlive.Duration 60) (Connect.mkOther SessionExpiryInterval.Infinite 65535 65536 0 false true []
      (Some (Authentication.mk (mkByteStr (mkBinaryData (to_be_bytes 2 1 ++ lit "K")))
        (Some (mkBinaryData (to_be_bytes 2 (len password) ++ password))))))).

Lemma log_hides_credentials_witness :
  @trace_outgoing ascii_tables (demo_login (lit "secret")) =
    lit "OUTGOING: Connect(Connect { username: None, will: None, client_id: None, clean_start: true, " ++
    lit "keep_alive: Duration(60), other_properties: ConnectOtherProperties { session_expiry_interval: Infinite, " ++
    lit "receive_maximum: 65535, maximum_packet_size: 65536, topic_alias_maximum: 0, " ++
    lit "request_response_information: false, request_problem_information: true, user_properties: [], " ++
    lit "authentication: Some(Authentication { method: " ++ [34; 75; 34] ++ lit ", .. }) } })" /\
  @trace_outgoing ascii_tables (demo_login (lit "secret")) = @trace_outgoing ascii_tables (demo_login (lit "hunter2")) /\
  (redact (demo_login (lit "secret")) == redact (demo_login (lit "hunter2"))) = true /\
  @trace_incoming ascii_tables (mkRawPacket 64 [0; 9]) <> @trace_incoming ascii_tables (mkRawPacket 64 [0; 8]).
Proof.
  split; [vm_compute; reflexivity|].
  destruct (@log_hides_credentials ascii_tables ascii_laws (demo_login (lit "secret"))) as (H1 & H2 & H3).
  destruct (@log_hides_credentials ascii_tables ascii_laws (demo_login (lit "hunter2"))) as (H1' & _).
  split; [rewrite H1, H1'; reflexivity|]. split; [apply H2; reflexivity|].
  intros E. apply H3 in E; [discriminate E|cbn; unfold is_u8, u8_MAX; lia..].
Defined.
