(* ===== verification/PacketTests.v ===== *)
(** * The unit tests of the packets

    The [mod tests] of mqtt_proto.rs and of the packet files under mqtt_proto/, with their
    inputs and their expected values, run on the model: a test is the computation that its
    function performs, and it fails by a panic. A test that is run for several inputs takes
    them from a list. The theorem is that all of them pass, so that the definitions which the
    other theorems are about give the bytes and values that the authors of the code wrote down.
    [packets_sizes], which is about the layout of the Rust types, is left out. *)

From S2P Require Export Bytes Convert TestTransport Fuzz.
Local Open Scope Z_scope.

(** ** Rust's test macros *)

(** [assert!]. *)
Definition assert (b : bool) : outcome unit :=
  if b then Returns tt else Panics "assertion failed".

(** [for x in l { .. }], and a function with a list of [#[test_case]] attributes. *)
Fixpoint for_each {A} (l : list A) (f : A -> outcome unit) : outcome unit :=
  match l with
  | [] => Returns tt
  | x :: l => let! _ := f x in for_each l f
  end.

(** A test passes if it does not panic. *)
Definition passes (test : outcome unit) : bool :=
  match test with Returns _ => true | Panics _ => false end.

Lemma all_pass tests : forallb passes tests = true -> Forall (fun test => test = Returns tt) tests.
Proof.
  intros Hp. apply Forall_forall. intros t Ht. rewrite forallb_forall in Hp.
  specialize (Hp t (proj1 (list_elem_of_In _ _) Ht)). by destruct t as [[]|].
Qed.

(** [Option::unwrap]. *)
Definition unwrap_some {A} (o : option A) : outcome A :=
  match o with Some a => Returns a | None => Panics "called `Option::unwrap()` on a `None` value" end.

(** The value of a closed call that returns: its type is that of the value only if it does. *)
Definition unwrapped {A} (o : outcome A) : match o with Returns _ => A | Panics _ => unit end :=
  match o with Returns a => a | Panics _ => tt end.

(** [enum_iterator::all]: the codes, found by their numbers. *)
Definition all_codes {C} `{U8Code C} : list C :=
  omap (fun b => match try_from_u8 (Z.of_nat b) with Ok c => Some c | Err _ => None end) (seq 0 256).

(** UTF-8, with a general category for the characters that the tests are about: the control
    characters, the noncharacters, and the others, which are taken to be assigned. *)
Definition utf8_decode (b : list u8) : option char * nat :=
  match char_indices 0 (take 4 b) with
  | (_, c) :: _ =>
      if ((c <? 0xD800) || ((0xE000 <=? c) && (c <? 0x110000))) && (0 <=? c)
         && bool_decide (take (length (utf8_encode c)) b = utf8_encode c)
      then (Some c, length (utf8_encode c)) else (None, 1%nat)
  | [] => (None, 0%nat)
  end.

Definition utf8_category (c : char) : GeneralCategory :=
  if (c <? 0x20) || ((0x7F <=? c) && (c <=? 0x9F)) then Control
  else if 0xFFFE <=? c mod 0x10000 then Unassigned else OtherCategory.

#[export] Instance Utf8 : Unicode :=
  {| decode_utf8 := utf8_decode; general_category := utf8_category |}.

(** ** Test values *)

(** [fn topic], [fn filter] and the conversions [.into()] of literals. *)
Module TestValues.
Definition topic (s : str) : outcome (Topic ByteStr) :=
  let! t := ByteStr_from s in
  unwrap_ok (Topic_new t).

Definition filter (s : str) : outcome (Filter ByteStr) :=
  let! f := ByteStr_from s in
  unwrap_ok (Filter_new f).
End TestValues.

Abbreviation text s := (unwrapped (ByteStr_from s) : ByteStr) (only parsing).
Abbreviation data s := (unwrapped (BinaryData_from s) : BinaryData) (only parsing).
Abbreviation topic s := (unwrapped (TestValues.topic s) : Topic ByteStr) (only parsing).
Abbreviation filter s := (unwrapped (TestValues.filter s) : Filter ByteStr) (only parsing).
Abbreviation pkid n := (unwrapped (unwrap_some (PacketIdentifier_new n)) : PacketIdentifier) (only parsing).

(** ** mqtt_proto.rs *)

Module ProtoTests.
(** [to_iovecs] into one empty [IoSlice]. *)
Definition written (dst : TestAccumulator) : outcome (list u8) :=
  let! io := to_iovecs 1 dst in
  Returns (match iovecs io with iovec :: _ => iovec | [] => [] end).

Definition create_packet_as_shared (first_byte : u8) (payload : list u8) : outcome Shared :=
  let result := TestAccumulator_with_capacity (5 + len payload) in
  let! result := unwrap_some (try_put_u8 first_byte result) in
  let! result := unwrap_ok (encode_remaining_length (len payload) result) in
  let! result := unwrap_some (try_put_slice payload result) in
  written (put_done result).

Definition decode (src : Shared) (version : ProtocolVersion) : outcome Packet.t :=
  unwrap_ok (Packet.decode_full src version).

Definition try_encode (packet : Packet.t) (version : ProtocolVersion) :
    outcome (result EncodeError.t Shared) :=
  match Packet.encode packet version (ByteCounter_new (COUNT_SHARED := false)) with
  | Err e => Returns (Err e)
  | Ok counter =>
      let accumulator := TestAccumulator_with_capacity (into_count counter) in
      let! accumulator := unwrap_ok (Packet.encode packet version accumulator) in
      let! bs := written accumulator in
      Returns (Ok bs)
  end.

Definition encode (packet : Packet.t) (version : ProtocolVersion) : outcome Shared :=
  let! r := try_encode packet version in
  unwrap_ok r.

(** The functions that the macros [encode_decode_v3!] and [encode_decode_v5!] define. *)
Definition encode_decode (version : ProtocolVersion) (case : Packet.t * option (list u8)) : outcome unit :=
  let '(packet, expected_encoding) := case in
  let! encoding := encode packet version in
  let! _ :=
    match expected_encoding with
    | Some expected_encoding => assert_eq expected_encoding encoding "assert_eq"
    | None => Returns tt
    end in
  let! decoded_packet := decode encoding version in
  assert_eq packet decoded_packet "assert_eq".

Definition varint_encode_inner_ok (case : u32 * list u8) : outcome unit :=
  let '(value, expected) := case in
  let! _ := assert (match encode_varint value (TestAccumulator_with_capacity 0) with
                    | Err EncodeError.InsufficientBuffer => true | _ => false end) in
  let! bytes := unwrap_ok (encode_varint value (TestAccumulator_with_capacity 8)) in
  let! iovec := written (put_done bytes) in
  let! _ := assert_eq iovec expected "assert_eq" in
  let! bytes := unwrap_some (try_put_slice [0x00; 0x00; 0x00] (TestAccumulator_with_capacity 8)) in
  let! bytes := unwrap_ok (encode_varint value bytes) in
  let! iovec := written (put_done bytes) in
  assert_eq (drop 3 iovec) expected "assert_eq".

Definition varint_encode_inner_too_high (value : u32) : outcome unit :=
  assert (match encode_varint value (TestAccumulator_with_capacity 8) with
          | Err (EncodeError.VarintTooHigh v) => v =? value | _ => false end).

Definition remaining_length_encode_inner_too_high (value : usize) : outcome unit :=
  assert (match encode_remaining_length value (TestAccumulator_with_capacity 8) with
          | Err (EncodeError.RemainingLengthTooHigh v) => v =? value | _ => false end).

Definition varint_encode : outcome unit :=
  let! _ := for_each
    [ (0x00, [0x00]); (0x01, [0x01]); (0x7F, [0x7F]); (0x80, [0x80; 0x01]); (0x3FFF, [0xFF; 0x7F]);
      (0x4000, [0x80; 0x80; 0x01]); (0x001FFFFF, [0xFF; 0xFF; 0x7F]);
      (0x00200000, [0x80; 0x80; 0x80; 0x01]); (0x0FFFFFFF, [0xFF; 0xFF; 0xFF; 0x7F]) ]
    varint_encode_inner_ok in
  let! _ := for_each [0x10000000; 0xFFFFFFFF] varint_encode_inner_too_high in
  for_each [0xFFFFFFFF + 1; 0xFFFFFFFFFFFFFFFF] remaining_length_encode_inner_too_high.

Definition varint_decode_inner_ok (case : list u8 * u32) : outcome unit :=
  let '(bytes, expected) := case in
  let! actual := unwrap_ok (decode_varint bytes) in
  match actual with
  | Some (n, bytes) => let! _ := assert (n =? expected) in assert (list_is_empty bytes)
  | None => Panics "assert_eq"
  end.

Definition varint_decode_inner_too_high (bytes : list u8) : outcome unit :=
  assert (match decode_varint bytes with Err DecodeError.VarintTooHigh => true | _ => false end).

Definition varint_decode_inner_incomplete_packet (bytes : list u8) : outcome unit :=
  let! actual := unwrap_ok (decode_varint bytes) in
  assert (negb (is_some actual)).

Definition varint_decode : outcome unit :=
  let! _ := for_each
    [ ([0x00], 0x00); ([0x01], 0x01); ([0x7F], 0x7F); ([0x80; 0x01], 0x80); ([0xFF; 0x7F], 0x3FFF);
      ([0x80; 0x80; 0x01], 0x4000); ([0xFF; 0xFF; 0x7F], 0x001FFFFF);
      ([0x80; 0x80; 0x80; 0x01], 0x00200000); ([0xFF; 0xFF; 0xFF; 0x7F], 0x0FFFFFFF);
      ([0x81; 0x00], 0x01); ([0x81; 0x80; 0x00], 0x01); ([0x81; 0x80; 0x80; 0x00], 0x01) ]
    varint_decode_inner_ok in
  let n := Z.to_nat DEFAULT_REMAINING_LENGTH_FIELD_MAX_LENGTH in
  let! _ := for_each [repeat 0x80 n; repeat 0xFF n] varint_decode_inner_too_high in
  for_each [[0x80]; [0x80; 0x80]; [0x80; 0x80; 0x80]] varint_decode_inner_incomplete_packet.

Definition all : list (outcome unit) := [varint_encode; varint_decode].
End ProtoTests.

(** ** mqtt_proto/auth.rs *)

Module AuthTests.
Definition encode_decode_v5 : list (Packet.t * option (list u8)) :=
  [ (Packet.Auth {| Auth.reason_code := AuthenticateReasonCode.Success;
       Auth.authentication := (Some {| Authentication.method := (text (lit "foo"));
          Authentication.data := (Some (data (lit "foo"))) |});
       Auth.reason_string := (Some (text (lit "foo")));
       Auth.user_properties := [((text (lit "foo")), (text (lit "bar")))] |},
      None);
    (Packet.Auth {| Auth.reason_code := AuthenticateReasonCode.ContinueAuthentication;
       Auth.authentication := (Some {| Authentication.method := (text (lit "foo"));
          Authentication.data := None |});
       Auth.reason_string := None;
       Auth.user_properties := [] |},
      None);
    (Packet.Auth {| Auth.reason_code := AuthenticateReasonCode.ReAuthenticate;
       Auth.authentication := (Some {| Authentication.method := (text (lit "foo"));
          Authentication.data := None |});
       Auth.reason_string := None;
       Auth.user_properties := [] |},
      None);
    (Packet.Auth {| Auth.reason_code := AuthenticateReasonCode.ReAuthenticate;
       Auth.authentication := None;
       Auth.reason_string := (Some (text (lit "foo")));
       Auth.user_properties := [] |},
      None) ].

Definition decode_v3_fails : outcome unit :=
  assert (match Auth.decode 0 [0x00; 0x00] V3 with
          | Err (DecodeError.UnrecognizedPacket 0xF0 0x00 2) => true | _ => false end).

Definition all : list (outcome unit) :=
  [ for_each encode_decode_v5 (ProtoTests.encode_decode V5);
    decode_v3_fails ].
End AuthTests.

(** ** mqtt_proto/connack.rs *)

Module ConnAckTests.
Definition encode_decode_v3 : list (Packet.t * option (list u8)) :=
  [ (Packet.ConnAck {| ConnAck.reason_code := (ConnectReasonCode.Success true);
       ConnAck.other_properties := ConnAck.OtherProperties_default |},
      None);
    (Packet.ConnAck {| ConnAck.reason_code := (ConnectReasonCode.Success false);
       ConnAck.other_properties := ConnAck.OtherProperties_default |},
      None);
    (Packet.ConnAck {| ConnAck.reason_code := (ConnectReasonCode.Refused ConnectionRefusedReason.UnsupportedProtocolVersion);
       ConnAck.other_properties := ConnAck.OtherProperties_default |},
      None);
    (Packet.ConnAck {| ConnAck.reason_code := (ConnectReasonCode.Refused ConnectionRefusedReason.ClientIdentifierNotValid);
       ConnAck.other_properties := ConnAck.OtherProperties_default |},
      None);
    (Packet.ConnAck {| ConnAck.reason_code := (ConnectReasonCode.Refused ConnectionRefusedReason.ServerUnavailable);
       ConnAck.other_properties := ConnAck.OtherProperties_default |},
      None);
    (Packet.ConnAck {| ConnAck.reason_code := (ConnectReasonCode.Refused ConnectionRefusedReason.BadUserNameOrPassword);
       ConnAck.other_properties := ConnAck.OtherProperties_default |},
      None);
    (Packet.ConnAck {| ConnAck.reason_code := (ConnectReasonCode.Refused ConnectionRefusedReason.NotAuthorized);
       ConnAck.other_properties := ConnAck.OtherProperties_default |},
      None) ].

Definition encode_decode_v5 : list (Packet.t * option (list u8)) :=
  [ (Packet.ConnAck {| ConnAck.reason_code := (ConnectReasonCode.Success true);
       ConnAck.other_properties := {| ConnAck.session_expiry_interval := None;
          ConnAck.receive_maximum := u16_MAX;
          ConnAck.maximum_qos := QoS.ExactlyOnce;
          ConnAck.retain_available := true;
          ConnAck.maximum_packet_size := u32_MAX;
          ConnAck.assigned_client_id := None;
          ConnAck.topic_alias_maximum := 0;
          ConnAck.reason_string := None;
          ConnAck.user_properties := [];
          ConnAck.wildcard_subscription_available := true;
          ConnAck.shared_subscription_available := true;
          ConnAck.subscription_identifiers_available := true;
          ConnAck.server_keep_alive := None;
          ConnAck.response_information := None;
          ConnAck.server_reference := None;
          ConnAck.authentication := None |} |},
      None);
    (Packet.ConnAck {| ConnAck.reason_code := (ConnectReasonCode.Success true);
       ConnAck.other_properties := {| ConnAck.session_expiry_interval := (Some SessionExpiryInterval.Infinite);
          ConnAck.receive_maximum := u16_MAX;
          ConnAck.maximum_qos := QoS.ExactlyOnce;
          ConnAck.retain_available := true;
          ConnAck.maximum_packet_size := u32_MAX;
          ConnAck.assigned_client_id := None;
          ConnAck.topic_alias_maximum := 0;
          ConnAck.reason_string := None;
          ConnAck.user_properties := [];
          ConnAck.wildcard_subscription_available := true;
          ConnAck.shared_subscription_available := true;
          ConnAck.subscription_identifiers_available := true;
          ConnAck.server_keep_alive := None;
          ConnAck.response_information := None;
          ConnAck.server_reference := None;
          ConnAck.authentication := None |} |},
      None);
    (Packet.ConnAck {| ConnAck.reason_code := (ConnectReasonCode.Success true);
       ConnAck.other_properties := {| ConnAck.session_expiry_interval := None;
          ConnAck.receive_maximum := u16_MAX;
          ConnAck.maximum_qos := QoS.ExactlyOnce;
          ConnAck.retain_available := true;
          ConnAck.maximum_packet_size := u32_MAX;
          ConnAck.assigned_client_id := None;
          ConnAck.topic_alias_maximum := 0;
          ConnAck.reason_string := None;
          ConnAck.user_properties := [];
          ConnAck.wildcard_subscription_available := false;
          ConnAck.shared_subscription_available := false;
          ConnAck.subscription_identifiers_available := false;
          ConnAck.server_keep_alive := None;
          ConnAck.response_information := None;
          ConnAck.server_reference := None;
          ConnAck.authentication := None |} |},
      None);
    (Packet.ConnAck {| ConnAck.reason_code := (ConnectReasonCode.Success true);
       ConnAck.other_properties := {| ConnAck.session_expiry_interval := None;
          ConnAck.receive_maximum := u16_MAX;
          ConnAck.maximum_qos := QoS.AtMostOnce;
          ConnAck.retain_available := true;
          ConnAck.maximum_packet_size := u32_MAX;
          ConnAck.assigned_client_id := None;
          ConnAck.topic_alias_maximum := 0;
          ConnAck.reason_string := None;
          ConnAck.user_properties := [];
          ConnAck.wildcard_subscription_available := true;
          ConnAck.shared_subscription_available := true;
          ConnAck.subscription_identifiers_available := true;
          ConnAck.server_keep_alive := None;
          ConnAck.response_information := None;
          ConnAck.server_reference := None;
          ConnAck.authentication := None |} |},
      None);
    (Packet.ConnAck {| ConnAck.reason_code := (ConnectReasonCode.Success true);
       ConnAck.other_properties := {| ConnAck.session_expiry_interval := None;
          ConnAck.receive_maximum := 1;
          ConnAck.maximum_qos := QoS.ExactlyOnce;
          ConnAck.retain_available := true;
          ConnAck.maximum_packet_size := 1;
          ConnAck.assigned_client_id := None;
          ConnAck.topic_alias_maximum := 0;
          ConnAck.reason_string := None;
          ConnAck.user_properties := [];
          ConnAck.wildcard_subscription_available := true;
          ConnAck.shared_subscription_available := true;
          ConnAck.subscription_identifiers_available := true;
          ConnAck.server_keep_alive := None;
          ConnAck.response_information := None;
          ConnAck.server_reference := None;
          ConnAck.authentication := None |} |},
      None);
    (Packet.ConnAck {| ConnAck.reason_code := (ConnectReasonCode.Success true);
       ConnAck.other_properties := {| ConnAck.session_expiry_interval := None;
          ConnAck.receive_maximum := u16_MAX;
          ConnAck.maximum_qos := QoS.ExactlyOnce;
          ConnAck.retain_available := true;
          ConnAck.maximum_packet_size := u32_MAX;
          ConnAck.assigned_client_id := None;
          ConnAck.topic_alias_maximum := 10;
          ConnAck.reason_string := None;
          ConnAck.user_properties := [];
          ConnAck.wildcard_subscription_available := true;
          ConnAck.shared_subscription_available := true;
          ConnAck.subscription_identifiers_available := true;
          ConnAck.server_keep_alive := None;
          ConnAck.response_information := None;
          ConnAck.server_reference := None;
          ConnAck.authentication := None |} |},
      None);
    (Packet.ConnAck {| ConnAck.reason_code := (ConnectReasonCode.Success true);
       ConnAck.other_properties := {| ConnAck.session_expiry_interval := None;
          ConnAck.receive_maximum := u16_MAX;
          ConnAck.maximum_qos := QoS.ExactlyOnce;
          ConnAck.retain_available := true;
          ConnAck.maximum_packet_size := u32_MAX;
          ConnAck.assigned_client_id := None;
          ConnAck.topic_alias_maximum := 0;
          ConnAck.reason_string := None;
          ConnAck.user_properties := [((text (lit "key")), (text (lit "value")))];
          ConnAck.wildcard_subscription_available := true;
          ConnAck.shared_subscription_available := true;
          ConnAck.subscription_identifiers_available := true;
          ConnAck.server_keep_alive := None;
          ConnAck.response_information := None;
          ConnAck.server_reference := None;
          ConnAck.authentication := None |} |},
      None) ].

Definition encode_decode_all_the_codes : outcome unit :=
  for_each (all_codes (C := ConnectionRefusedReason.t)) (fun code =>
    let packet := Packet.ConnAck {| ConnAck.reason_code := ConnectReasonCode.Refused code;
       ConnAck.other_properties := ConnAck.OtherProperties_default |} in
    let! encoding := ProtoTests.encode packet V5 in
    let! decoded_packet := ProtoTests.decode encoding V5 in
    assert_eq packet decoded_packet "assert_eq").

Definition zero_session_expiry_interval : outcome unit :=
  let! src := ProtoTests.create_packet_as_shared 0x20 [0x00; 0x00; 0x05; 0x11; 0x00; 0x00; 0x00; 0x00] in
  let! packet := ProtoTests.decode src V5 in
  let! _ := assert (match packet with
    | Packet.ConnAck {| ConnAck.reason_code := ConnectReasonCode.Success false;
        ConnAck.other_properties := {| ConnAck.session_expiry_interval := Some (SessionExpiryInterval.Duration 0) |} |} => true
    | _ => false
    end) in
  let! encoded_packet := ProtoTests.encode packet V5 in
  assert_eq encoded_packet [0x20; 0x08; 0x00; 0x00; 0x05; 0x11; 0x00; 0x00; 0x00; 0x00] "assert_eq".

Definition all : list (outcome unit) :=
  [ for_each encode_decode_v3 (ProtoTests.encode_decode V3);
    for_each encode_decode_v5 (ProtoTests.encode_decode V5);
    encode_decode_all_the_codes;
    zero_session_expiry_interval ].
End ConnAckTests.

(** ** mqtt_proto/connect.rs *)

Module ConnectTests.
Definition encode_decode_v3 : list (Packet.t * option (list u8)) :=
  [ (Packet.Connect {| Connect.username := None;
       Connect.password := None;
       Connect.will := None;
       Connect.client_id := (Some (text (lit "kittens")));
       Connect.clean_start := false;
       Connect.keep_alive := (KeepAlive.from_u16 30);
       Connect.other_properties := {| Connect.session_expiry_interval := SessionExpiryInterval.Infinite;
          Connect.receive_maximum := Connect.receive_maximum Connect.OtherProperties_default;
          Connect.maximum_packet_size := Connect.maximum_packet_size Connect.OtherProperties_default;
          Connect.topic_alias_maximum := Connect.topic_alias_maximum Connect.OtherProperties_default;
          Connect.request_response_information := Connect.request_response_information Connect.OtherProperties_default;
          Connect.request_problem_information := Connect.request_problem_information Connect.OtherProperties_default;
          Connect.user_properties := Connect.user_properties Connect.OtherProperties_default;
          Connect.authentication := Connect.authentication Connect.OtherProperties_default |} |},
      None);
    (Packet.Connect {| Connect.username := None;
       Connect.password := None;
       Connect.will := None;
       Connect.client_id := None;
       Connect.clean_start := true;
       Connect.keep_alive := (KeepAlive.from_u16 30);
       Connect.other_properties := {| Connect.session_expiry_interval := (SessionExpiryInterval.Duration 0);
          Connect.receive_maximum := Connect.receive_maximum Connect.OtherProperties_default;
          Connect.maximum_packet_size := Connect.maximum_packet_size Connect.OtherProperties_default;
          Connect.topic_alias_maximum := Connect.topic_alias_maximum Connect.OtherProperties_default;
          Connect.request_response_information := Connect.request_response_information Connect.OtherProperties_default;
          Connect.request_problem_information := Connect.request_problem_information Connect.OtherProperties_default;
          Connect.user_properties := Connect.user_properties Connect.OtherProperties_default;
          Connect.authentication := Connect.authentication Connect.OtherProperties_default |} |},
      None);
    (Packet.Connect {| Connect.username := None;
       Connect.password := None;
       Connect.will := (Some ({| Publication.topic_name := (topic (lit "foo/bar"));
          Publication.qos := QoS.AtLeastOnce;
          Publication.retain := true;
          Publication.other_properties := {| Publication.payload_is_utf8 := false;
             Publication.message_expiry_interval := None;
             Publication.response_topic := None;
             Publication.correlation_data := None;
             Publication.user_properties := [];
             Publication.content_type := None |};
          Publication.payload := (lit "hello world") |}, 0));
       Connect.client_id := (Some (text (lit "kittens")));
       Connect.clean_start := true;
       Connect.keep_alive := (KeepAlive.from_u16 30);
       Connect.other_properties := Connect.OtherProperties_default |},
      None) ].

Definition encode_decode_v5 : list (Packet.t * option (list u8)) :=
  [ (Packet.Connect {| Connect.username := None;
       Connect.password := None;
       Connect.will := None;
       Connect.client_id := None;
       Connect.clean_start := true;
       Connect.keep_alive := (KeepAlive.from_u16 10);
       Connect.other_properties := {| Connect.session_expiry_interval := (SessionExpiryInterval.Duration 0);
          Connect.receive_maximum := 11;
          Connect.maximum_packet_size := 10;
          Connect.topic_alias_maximum := 10;
          Connect.request_response_information := true;
          Connect.request_problem_information := true;
          Connect.user_properties := [];
          Connect.authentication := None |} |},
      None);
    (Packet.Connect {| Connect.username := None;
       Connect.password := None;
       Connect.will := None;
       Connect.client_id := None;
       Connect.clean_start := false;
       Connect.keep_alive := (KeepAlive.from_u16 10);
       Connect.other_properties := {| Connect.session_expiry_interval := (SessionExpiryInterval.Duration 0);
          Connect.receive_maximum := 11;
          Connect.maximum_packet_size := 10;
          Connect.topic_alias_maximum := 10;
          Connect.request_response_information := true;
          Connect.request_problem_information := true;
          Connect.user_properties := [];
          Connect.authentication := None |} |},
      None);
    (Packet.Connect {| Connect.username := None;
       Connect.password := None;
       Connect.will := None;
       Connect.client_id := (Some (text (lit "client_id")));
       Connect.clean_start := true;
       Connect.keep_alive := (KeepAlive.from_u16 10);
       Connect.other_properties := {| Connect.session_expiry_interval := (SessionExpiryInterval.Duration 0);
          Connect.receive_maximum := 11;
          Connect.maximum_packet_size := 10;
          Connect.topic_alias_maximum := 10;
          Connect.request_response_information := true;
          Connect.request_problem_information := true;
          Connect.user_properties := [];
          Connect.authentication := None |} |},
      None);
    (Packet.Connect {| Connect.username := (Some (text (lit "username")));
       Connect.password := (Some (data (lit "password")));
       Connect.will := (Some ({| Publication.topic_name := (topic (lit "topic"));
          Publication.qos := QoS.AtLeastOnce;
          Publication.retain := true;
          Publication.other_properties := {| Publication.payload_is_utf8 := true;
             Publication.message_expiry_interval := (Some 10);
             Publication.response_topic := (Some (topic (lit "response")));
             Publication.correlation_data := (Some (data (lit "correlation")));
             Publication.user_properties := [((text (lit "foo")), (text (lit "bar")))];
             Publication.content_type := (Some (text (lit "content"))) |};
          Publication.payload := (lit "payload") |}, 10));
       Connect.client_id := (Some (text (lit "client_id")));
       Connect.clean_start := false;
       Connect.keep_alive := (KeepAlive.from_u16 10);
       Connect.other_properties := {| Connect.session_expiry_interval := (SessionExpiryInterval.Duration 30);
          Connect.receive_maximum := 11;
          Connect.maximum_packet_size := 10;
          Connect.topic_alias_maximum := 10;
          Connect.request_response_information := true;
          Connect.request_problem_information := true;
          Connect.user_properties := [((text (lit "foo")), (text (lit "bar")))];
          Connect.authentication := (Some {| Authentication.method := (text (lit "method"));
             Authentication.data := (Some (data (lit "data"))) |}) |} |},
      None) ].

Definition will_properties_flags_set_but_not_will_flag (case : list u8 * ProtocolVersion) : outcome unit :=
  let '(encoding, version) := case in
  let! encoding := BinaryData_from encoding in
  let buffer := drop 2 (bd_shared encoding) in
  assert (match Packet.decode_full buffer version with
          | Err DecodeError.WillPropertiesFlagsSetButNotWillFlag => true | _ => false end).

Definition will_flags_cases : list (list u8 * ProtocolVersion) :=
  [ ([0x10; 0x0C; 0x00; 0x04; 0x4D; 0x51; 0x54; 0x54; 0x04; 0x22; 0x00; 0x0A; 0x00; 0x00], V3);
    ([0x10; 0x0C; 0x00; 0x04; 0x4D; 0x51; 0x54; 0x54; 0x04; 0x0A; 0x00; 0x0A; 0x00; 0x00], V3);
    ([0x10; 0x0C; 0x00; 0x04; 0x4D; 0x51; 0x54; 0x54; 0x04; 0x2A; 0x00; 0x0A; 0x00; 0x00], V3);
    ([0x10; 0x0D; 0x00; 0x04; 0x4D; 0x51; 0x54; 0x54; 0x05; 0x22; 0x00; 0x0A; 0x00; 0x00; 0x00], V5);
    ([0x10; 0x0D; 0x00; 0x04; 0x4D; 0x51; 0x54; 0x54; 0x05; 0x0A; 0x00; 0x0A; 0x00; 0x00; 0x00], V5);
    ([0x10; 0x0D; 0x00; 0x04; 0x4D; 0x51; 0x54; 0x54; 0x05; 0x2A; 0x00; 0x0A; 0x00; 0x00; 0x00], V5) ].

Definition password_packet (username_present password_present : bool) : Packet.t :=
  Packet.Connect
    {| Connect.username := if username_present then Some (text (lit "username")) else None;
       Connect.password := if password_present then Some (data (lit "password")) else None;
       Connect.will := None;
       Connect.client_id := None;
       Connect.clean_start := true;
       Connect.keep_alive := KeepAlive.from_u16 10;
       Connect.other_properties := Connect.OtherProperties_default |}.

Definition password_flag_set_but_not_username_flag
    (case : list u8 * ProtocolVersion * bool * bool) : outcome unit :=
  let '(encoding, version, username_present, password_present) := case in
  let! encoding := BinaryData_from encoding in
  let buffer := drop 2 (bd_shared encoding) in
  let actual_packet := Packet.decode_full buffer version in
  let! _ :=
    match version, username_present, password_present with
    | V3, false, true =>
        assert (match actual_packet with
                | Err DecodeError.ConnectPasswordFlagSetButNotUsernameFlag => true | _ => false end)
    | _, _, _ =>
        let! actual_packet := unwrap_ok actual_packet in
        assert_eq actual_packet (password_packet username_present password_present) "assert_eq"
    end in
  let packet := password_packet username_present password_present in
  let! new_encoding := ProtoTests.try_encode packet version in
  match version, username_present, password_present with
  | V3, false, true =>
      assert (match new_encoding with
              | Err EncodeError.ConnectPasswordWithoutUsername => true | _ => false end)
  | _, _, _ =>
      let! new_encoding := unwrap_ok new_encoding in
      assert_eq new_encoding (BinaryData_as_bytes encoding) "assert_eq"
  end.

Definition password_flag_cases : list (list u8 * ProtocolVersion * bool * bool) :=
  [ ([0x10; 0x0C; 0x00; 0x04; 0x4D; 0x51; 0x54; 0x54; 0x04; 0x02; 0x00; 0x0A; 0x00; 0x00], V3, false, false);
    ([0x10; 0x16; 0x00; 0x04; 0x4D; 0x51; 0x54; 0x54; 0x04; 0x42; 0x00; 0x0A; 0x00; 0x00; 0x00; 0x08; 0x70; 0x61; 0x73; 0x73; 0x77; 0x6F; 0x72; 0x64], V3, false, true);
    ([0x10; 0x16; 0x00; 0x04; 0x4D; 0x51; 0x54; 0x54; 0x04; 0x82; 0x00; 0x0A; 0x00; 0x00; 0x00; 0x08; 0x75; 0x73; 0x65; 0x72; 0x6E; 0x61; 0x6D; 0x65], V3, true, false);
    ([0x10; 0x20; 0x00; 0x04; 0x4D; 0x51; 0x54; 0x54; 0x04; 0xC2; 0x00; 0x0A; 0x00; 0x00; 0x00; 0x08; 0x75; 0x73; 0x65; 0x72; 0x6E; 0x61; 0x6D; 0x65; 0x00; 0x08; 0x70; 0x61; 0x73; 0x73; 0x77; 0x6F; 0x72; 0x64], V3, true, true);
    ([0x10; 0x0D; 0x00; 0x04; 0x4D; 0x51; 0x54; 0x54; 0x05; 0x02; 0x00; 0x0A; 0x00; 0x00; 0x00], V5, false, false);
    ([0x10; 0x17; 0x00; 0x04; 0x4D; 0x51; 0x54; 0x54; 0x05; 0x42; 0x00; 0x0A; 0x00; 0x00; 0x00; 0x00; 0x08; 0x70; 0x61; 0x73; 0x73; 0x77; 0x6F; 0x72; 0x64], V5, false, true);
    ([0x10; 0x17; 0x00; 0x04; 0x4D; 0x51; 0x54; 0x54; 0x05; 0x82; 0x00; 0x0A; 0x00; 0x00; 0x00; 0x00; 0x08; 0x75; 0x73; 0x65; 0x72; 0x6E; 0x61; 0x6D; 0x65], V5, true, false);
    ([0x10; 0x21; 0x00; 0x04; 0x4D; 0x51; 0x54; 0x54; 0x05; 0xC2; 0x00; 0x0A; 0x00; 0x00; 0x00; 0x00; 0x08; 0x75; 0x73; 0x65; 0x72; 0x6E; 0x61; 0x6D; 0x65; 0x00; 0x08; 0x70; 0x61; 0x73; 0x73; 0x77; 0x6F; 0x72; 0x64], V5, true, true) ].

Definition all : list (outcome unit) :=
  [ for_each encode_decode_v3 (ProtoTests.encode_decode V3);
    for_each encode_decode_v5 (ProtoTests.encode_decode V5);
    for_each will_flags_cases will_properties_flags_set_but_not_will_flag;
    for_each password_flag_cases password_flag_set_but_not_username_flag ].
End ConnectTests.

(** ** mqtt_proto/disconnect.rs *)

Module DisconnectTests.
Definition encode_decode_v3 : list (Packet.t * option (list u8)) :=
  [ (Packet.Disconnect {| Disconnect.reason_code := DisconnectReasonCode.Normal;
       Disconnect.other_properties := Disconnect.OtherProperties_default |},
      None) ].

Definition encode_decode_v5 : list (Packet.t * option (list u8)) :=
  [ (Packet.Disconnect {| Disconnect.reason_code := DisconnectReasonCode.Normal;
       Disconnect.other_properties := {| Disconnect.session_expiry_interval := (Some (SessionExpiryInterval.Duration 0));
          Disconnect.reason_string := (Some (text (lit "just cause")));
          Disconnect.user_properties := [((text (lit "key")), (text (lit "value")))];
          Disconnect.server_reference := (Some (text (lit "server"))) |} |},
      None);
    (Packet.Disconnect {| Disconnect.reason_code := DisconnectReasonCode.Normal;
       Disconnect.other_properties := {| Disconnect.session_expiry_interval := (Some (SessionExpiryInterval.Duration 1));
          Disconnect.reason_string := (Some (text (lit "just cause")));
          Disconnect.user_properties := [((text (lit "key")), (text (lit "value")))];
          Disconnect.server_reference := (Some (text (lit "server"))) |} |},
      None) ].

Definition encode_decode_all_the_codes : outcome unit :=
  for_each (all_codes (C := DisconnectReasonCode.t)) (fun code =>
    let packet := Packet.Disconnect {| Disconnect.reason_code := code;
       Disconnect.other_properties := {| Disconnect.session_expiry_interval := Some (SessionExpiryInterval.Duration 1);
          Disconnect.reason_string := Some (text (lit "just cause"));
          Disconnect.user_properties := [(text (lit "key"), text (lit "value"))];
          Disconnect.server_reference := Some (text (lit "server")) |} |} in
    let! encoding := ProtoTests.encode packet V5 in
    let! decoded_packet := ProtoTests.decode encoding V5 in
    assert_eq packet decoded_packet "assert_eq").

Definition no_properties_and_no_properties_length : outcome unit :=
  let! src := ProtoTests.create_packet_as_shared 0xE0 [0x04] in
  let! packet := ProtoTests.decode src V5 in
  let! _ := assert (match packet with
    | Packet.Disconnect {| Disconnect.reason_code := DisconnectReasonCode.DisconnectWithWillMessage |} => true
    | _ => false
    end) in
  let! encoded_packet := ProtoTests.encode packet V5 in
  assert_eq encoded_packet [0xE0; 0x01; 0x04] "assert_eq".

Definition no_properties_and_explicit_properties_length : outcome unit :=
  let! src := ProtoTests.create_packet_as_shared 0xE0 [0x04; 0x00] in
  let! packet := ProtoTests.decode src V5 in
  let! _ := assert (match packet with
    | Packet.Disconnect {| Disconnect.reason_code := DisconnectReasonCode.DisconnectWithWillMessage |} => true
    | _ => false
    end) in
  let! encoded_packet := ProtoTests.encode packet V5 in
  assert_eq encoded_packet [0xE0; 0x01; 0x04] "assert_eq".

Definition some_properties : outcome unit :=
  let! src := ProtoTests.create_packet_as_shared 0xE0 [0x04; 0x05; 0x11; 0xFF; 0xFF; 0xFF; 0xFF] in
  let! packet := ProtoTests.decode src V5 in
  let! _ := assert (match packet with
    | Packet.Disconnect {| Disconnect.reason_code := DisconnectReasonCode.DisconnectWithWillMessage;
        Disconnect.other_properties := {| Disconnect.session_expiry_interval := Some SessionExpiryInterval.Infinite |} |} => true
    | _ => false
    end) in
  let! encoded_packet := ProtoTests.encode packet V5 in
  assert_eq encoded_packet [0xE0; 0x07; 0x04; 0x05; 0x11; 0xFF; 0xFF; 0xFF; 0xFF] "assert_eq".

Definition zero_session_expiry_interval : outcome unit :=
  let! src := ProtoTests.create_packet_as_shared 0xE0 [0x04; 0x05; 0x11; 0x00; 0x00; 0x00; 0x00] in
  let! packet := ProtoTests.decode src V5 in
  let! _ := assert (match packet with
    | Packet.Disconnect {| Disconnect.reason_code := DisconnectReasonCode.DisconnectWithWillMessage;
        Disconnect.other_properties := {| Disconnect.session_expiry_interval := Some (SessionExpiryInterval.Duration 0) |} |} => true
    | _ => false
    end) in
  let! encoded_packet := ProtoTests.encode packet V5 in
  assert_eq encoded_packet [0xE0; 0x07; 0x04; 0x05; 0x11; 0x00; 0x00; 0x00; 0x00] "assert_eq".

Definition all : list (outcome unit) :=
  [ for_each encode_decode_v3 (ProtoTests.encode_decode V3);
    for_each encode_decode_v5 (ProtoTests.encode_decode V5);
    encode_decode_all_the_codes;
    no_properties_and_no_properties_length;
    no_properties_and_explicit_properties_length;
    some_properties;
    zero_session_expiry_interval ].
End DisconnectTests.

(** ** mqtt_proto/pingreq.rs *)

Module PingReqTests.
Definition encode_decode_v3 : list (Packet.t * option (list u8)) :=
  [ (Packet.PingReq PingReq.mk,
      None) ].

Definition encode_decode_v5 : list (Packet.t * option (list u8)) :=
  [ (Packet.PingReq PingReq.mk,
      None) ].

Definition all : list (outcome unit) :=
  [ for_each encode_decode_v3 (ProtoTests.encode_decode V3);
    for_each encode_decode_v5 (ProtoTests.encode_decode V5) ].
End PingReqTests.

(** ** mqtt_proto/pingresp.rs *)

Module PingRespTests.
Definition encode_decode_v3 : list (Packet.t * option (list u8)) :=
  [ (Packet.PingResp PingResp.mk,
      None) ].

Definition encode_decode_v5 : list (Packet.t * option (list u8)) :=
  [ (Packet.PingResp PingResp.mk,
      None) ].

Definition all : list (outcome unit) :=
  [ for_each encode_decode_v3 (ProtoTests.encode_decode V3);
    for_each encode_decode_v5 (ProtoTests.encode_decode V5) ].
End PingRespTests.

(** ** mqtt_proto/puback.rs *)

Module PubAckTests.
Definition encode_decode_v3 : list (Packet.t * option (list u8)) :=
  [ (Packet.PubAck {| Ack.packet_identifier := (pkid 0x1234);
       Ack.reason_code := PubAckReasonCode.Success;
       Ack.other_properties := ReasonProperties_default |},
      Some [0x40; 0x02; 0x12; 0x34]) ].

Definition encode_decode_v5 : list (Packet.t * option (list u8)) :=
  [ (Packet.PubAck {| Ack.packet_identifier := (pkid 0x1234);
       Ack.reason_code := PubAckReasonCode.Success;
       Ack.other_properties := ReasonProperties_default |},
      Some [0x40; 0x02; 0x12; 0x34]);
    (Packet.PubAck {| Ack.packet_identifier := (pkid 0x1234);
       Ack.reason_code := PubAckReasonCode.Success;
       Ack.other_properties := {| Acks.reason_string := (Some (text (lit "foo")));
          Acks.user_properties := [((text (lit "bar")), (text (lit "baz")))] |} |},
      Some [0x40; 0x15; 0x12; 0x34; 0x00; 0x11; 0x1F; 0x00; 0x03; 0x66; 0x6F; 0x6F; 0x26; 0x00; 0x03; 0x62; 0x61; 0x72; 0x00; 0x03; 0x62; 0x61; 0x7A]);
    (Packet.PubAck {| Ack.packet_identifier := (pkid 0x1234);
       Ack.reason_code := PubAckReasonCode.NoMatchingSubscribers;
       Ack.other_properties := ReasonProperties_default |},
      Some [0x40; 0x03; 0x12; 0x34; 0x10]);
    (Packet.PubAck {| Ack.packet_identifier := (pkid 0x1234);
       Ack.reason_code := PubAckReasonCode.NoMatchingSubscribers;
       Ack.other_properties := {| Acks.reason_string := (Some (text (lit "foo")));
          Acks.user_properties := [((text (lit "bar")), (text (lit "baz")))] |} |},
      Some [0x40; 0x15; 0x12; 0x34; 0x10; 0x11; 0x1F; 0x00; 0x03; 0x66; 0x6F; 0x6F; 0x26; 0x00; 0x03; 0x62; 0x61; 0x72; 0x00; 0x03; 0x62; 0x61; 0x7A]);
    (Packet.PubAck {| Ack.packet_identifier := (pkid 0x1234);
       Ack.reason_code := PubAckReasonCode.UnspecifiedError;
       Ack.other_properties := ReasonProperties_default |},
      Some [0x40; 0x03; 0x12; 0x34; 0x80]);
    (Packet.PubAck {| Ack.packet_identifier := (pkid 0x1234);
       Ack.reason_code := PubAckReasonCode.UnspecifiedError;
       Ack.other_properties := {| Acks.reason_string := (Some (text (lit "foo")));
          Acks.user_properties := [((text (lit "bar")), (text (lit "baz")))] |} |},
      Some [0x40; 0x15; 0x12; 0x34; 0x80; 0x11; 0x1F; 0x00; 0x03; 0x66; 0x6F; 0x6F; 0x26; 0x00; 0x03; 0x62; 0x61; 0x72; 0x00; 0x03; 0x62; 0x61; 0x7A]);
    (Packet.PubAck {| Ack.packet_identifier := (pkid 0x1234);
       Ack.reason_code := PubAckReasonCode.ImplementationSpecificError;
       Ack.other_properties := ReasonProperties_default |},
      None);
    (Packet.PubAck {| Ack.packet_identifier := (pkid 0x1234);
       Ack.reason_code := PubAckReasonCode.NotAuthorized;
       Ack.other_properties := ReasonProperties_default |},
      None);
    (Packet.PubAck {| Ack.packet_identifier := (pkid 0x1234);
       Ack.reason_code := PubAckReasonCode.TopicNameInvalid;
       Ack.other_properties := ReasonProperties_default |},
      None);
    (Packet.PubAck {| Ack.packet_identifier := (pkid 0x1234);
       Ack.reason_code := PubAckReasonCode.PacketIdentifierInUse;
       Ack.other_properties := ReasonProperties_default |},
      None);
    (Packet.PubAck {| Ack.packet_identifier := (pkid 0x1234);
       Ack.reason_code := PubAckReasonCode.QuotaExceeded;
       Ack.other_properties := ReasonProperties_default |},
      None);
    (Packet.PubAck {| Ack.packet_identifier := (pkid 0x1234);
       Ack.reason_code := PubAckReasonCode.PayloadFormatInvalid;
       Ack.other_properties := ReasonProperties_default |},
      None) ].

Definition all : list (outcome unit) :=
  [ for_each encode_decode_v3 (ProtoTests.encode_decode V3);
    for_each encode_decode_v5 (ProtoTests.encode_decode V5) ].
End PubAckTests.

(** ** mqtt_proto/pubcomp.rs *)

Module PubCompTests.
Definition encode_decode_v3 : list (Packet.t * option (list u8)) :=
  [ (Packet.PubComp {| Ack.packet_identifier := (pkid 0x1234);
       Ack.reason_code := PubCompReasonCode.Success;
       Ack.other_properties := ReasonProperties_default |},
      Some [0x70; 0x02; 0x12; 0x34]) ].

Definition encode_decode_v5 : list (Packet.t * option (list u8)) :=
  [ (Packet.PubComp {| Ack.packet_identifier := (pkid 0x1234);
       Ack.reason_code := PubCompReasonCode.Success;
       Ack.other_properties := ReasonProperties_default |},
      Some [0x70; 0x02; 0x12; 0x34]);
    (Packet.PubComp {| Ack.packet_identifier := (pkid 0x1234);
       Ack.reason_code := PubCompReasonCode.Success;
       Ack.other_properties := {| Acks.reason_string := (Some (text (lit "foo")));
          Acks.user_properties := [((text (lit "bar")), (text (lit "baz")))] |} |},
      Some [0x70; 0x15; 0x12; 0x34; 0x00; 0x11; 0x1F; 0x00; 0x03; 0x66; 0x6F; 0x6F; 0x26; 0x00; 0x03; 0x62; 0x61; 0x72; 0x00; 0x03; 0x62; 0x61; 0x7A]);
    (Packet.PubComp {| Ack.packet_identifier := (pkid 0x1234);
       Ack.reason_code := PubCompReasonCode.PacketIdentifierNotFound;
       Ack.other_properties := ReasonProperties_default |},
      Some [0x70; 0x03; 0x12; 0x34; 0x92]);
    (Packet.PubComp {| Ack.packet_identifier := (pkid 0x1234);
       Ack.reason_code := PubCompReasonCode.PacketIdentifierNotFound;
       Ack.other_properties := {| Acks.reason_string := (Some (text (lit "foo")));
          Acks.user_properties := [((text (lit "bar")), (text (lit "baz")))] |} |},
      Some [0x70; 0x15; 0x12; 0x34; 0x92; 0x11; 0x1F; 0x00; 0x03; 0x66; 0x6F; 0x6F; 0x26; 0x00; 0x03; 0x62; 0x61; 0x72; 0x00; 0x03; 0x62; 0x61; 0x7A]) ].

Definition all : list (outcome unit) :=
  [ for_each encode_decode_v3 (ProtoTests.encode_decode V3);
    for_each encode_decode_v5 (ProtoTests.encode_decode V5) ].
End PubCompTests.

(** ** mqtt_proto/publish.rs *)

Module PublishTests.
Definition encode_decode_v3 : list (Packet.t * option (list u8)) :=
  [ (Packet.Publish {| Publish.packet_identifier_dup_qos := (PacketIdentifierDupQoS.AtLeastOnce (pkid 1) false);
       Publish.retain := false;
       Publish.topic_name := (topic (lit "foo/bar"));
       Publish.payload := (lit "hello world");
       Publish.other_properties := Publish.OtherProperties_default |},
      None) ].

Definition encode_decode_v5 : list (Packet.t * option (list u8)) :=
  [ (Packet.Publish {| Publish.packet_identifier_dup_qos := PacketIdentifierDupQoS.AtMostOnce;
       Publish.retain := false;
       Publish.topic_name := (topic (lit "foo/bar"));
       Publish.payload := (lit "hello world");
       Publish.other_properties := {| Publish.user_properties := [((text (lit "hello")), (text (lit "world")))];
          Publish.payload_is_utf8 := Publish.payload_is_utf8 Publish.OtherProperties_default;
          Publish.message_expiry_interval := Publish.message_expiry_interval Publish.OtherProperties_default;
          Publish.topic_alias := Publish.topic_alias Publish.OtherProperties_default;
          Publish.response_topic := Publish.response_topic Publish.OtherProperties_default;
          Publish.correlation_data := Publish.correlation_data Publish.OtherProperties_default;
          Publish.subscription_identifiers := Publish.subscription_identifiers Publish.OtherProperties_default;
          Publish.content_type := Publish.content_type Publish.OtherProperties_default |} |},
      None);
    (Packet.Publish {| Publish.packet_identifier_dup_qos := (PacketIdentifierDupQoS.AtLeastOnce (pkid 1) false);
       Publish.retain := false;
       Publish.topic_name := (topic (lit "foo/bar"));
       Publish.payload := (lit "hello world");
       Publish.other_properties := {| Publish.user_properties := [((text (lit "hello")), (text (lit "world")))];
          Publish.payload_is_utf8 := Publish.payload_is_utf8 Publish.OtherProperties_default;
          Publish.message_expiry_interval := Publish.message_expiry_interval Publish.OtherProperties_default;
          Publish.topic_alias := Publish.topic_alias Publish.OtherProperties_default;
          Publish.response_topic := Publish.response_topic Publish.OtherProperties_default;
          Publish.correlation_data := Publish.correlation_data Publish.OtherProperties_default;
          Publish.subscription_identifiers := Publish.subscription_identifiers Publish.OtherProperties_default;
          Publish.content_type := Publish.content_type Publish.OtherProperties_default |} |},
      None);
    (Packet.Publish {| Publish.packet_identifier_dup_qos := (PacketIdentifierDupQoS.ExactlyOnce (pkid 1) false);
       Publish.retain := false;
       Publish.topic_name := (topic (lit "foo/bar"));
       Publish.payload := (lit "hello world");
       Publish.other_properties := {| Publish.user_properties := [((text (lit "hello")), (text (lit "world")))];
          Publish.payload_is_utf8 := Publish.payload_is_utf8 Publish.OtherProperties_default;
          Publish.message_expiry_interval := Publish.message_expiry_interval Publish.OtherProperties_default;
          Publish.topic_alias := Publish.topic_alias Publish.OtherProperties_default;
          Publish.response_topic := Publish.response_topic Publish.OtherProperties_default;
          Publish.correlation_data := Publish.correlation_data Publish.OtherProperties_default;
          Publish.subscription_identifiers := Publish.subscription_identifiers Publish.OtherProperties_default;
          Publish.content_type := Publish.content_type Publish.OtherProperties_default |} |},
      None);
    (Packet.Publish {| Publish.packet_identifier_dup_qos := (PacketIdentifierDupQoS.AtLeastOnce (pkid 1) false);
       Publish.retain := false;
       Publish.topic_name := (topic (lit "foo/bar"));
       Publish.payload := (lit "hello world");
       Publish.other_properties := {| Publish.user_properties := [((text (lit "hello")), (text (lit "world")))];
          Publish.payload_is_utf8 := true;
          Publish.message_expiry_interval := (Some 10);
          Publish.topic_alias := (Some 16);
          Publish.response_topic := (Some (topic (lit "response/topic")));
          Publish.correlation_data := (Some (data (lit "cd")));
          Publish.subscription_identifiers := [1; 2];
          Publish.content_type := (Some (text (lit "stuff"))) |} |},
      None) ].

Definition test_to_shared : outcome unit :=
  let publish :=
    {| Publish.topic_name := topic (lit "kittens");
       Publish.packet_identifier_dup_qos := PacketIdentifierDupQoS.AtMostOnce;
       Publish.retain := false;
       Publish.payload := lit "meow";
       Publish.other_properties :=
         {| Publish.response_topic := Some (topic (lit "cute"));
            Publish.user_properties := [(text (lit "genus"), text (lit "felix"))];
            Publish.correlation_data := Some (data (lit "corr_data"));
            Publish.payload_is_utf8 := false; Publish.message_expiry_interval := None;
            Publish.topic_alias := None; Publish.subscription_identifiers := [];
            Publish.content_type := None |} |} in
  let owned := BytesPool_take_empty_owned (B := Room) in
  let! r := Publish_to_shared publish owned in
  let! (publish_shared, _) := unwrap_ok r in
  assert_eq publish publish_shared "assert_eq".

Definition all : list (outcome unit) :=
  [ for_each encode_decode_v3 (ProtoTests.encode_decode V3);
    for_each encode_decode_v5 (ProtoTests.encode_decode V5);
    test_to_shared ].
End PublishTests.

(** ** mqtt_proto/pubrec.rs *)

Module PubRecTests.
Definition encode_decode_v3 : list (Packet.t * option (list u8)) :=
  [ (Packet.PubRec {| Ack.packet_identifier := (pkid 0x1234);
       Ack.reason_code := PubRecReasonCode.Success;
       Ack.other_properties := ReasonProperties_default |},
      Some [0x50; 0x02; 0x12; 0x34]) ].

Definition encode_decode_v5 : list (Packet.t * option (list u8)) :=
  [ (Packet.PubRec {| Ack.packet_identifier := (pkid 0x1234);
       Ack.reason_code := PubRecReasonCode.Success;
       Ack.other_properties := ReasonProperties_default |},
      Some [0x50; 0x02; 0x12; 0x34]);
    (Packet.PubRec {| Ack.packet_identifier := (pkid 0x1234);
       Ack.reason_code := PubRecReasonCode.Success;
       Ack.other_properties := {| Acks.reason_string := (Some (text (lit "foo")));
          Acks.user_properties := [((text (lit "bar")), (text (lit "baz")))] |} |},
      Some [0x50; 0x15; 0x12; 0x34; 0x00; 0x11; 0x1F; 0x00; 0x03; 0x66; 0x6F; 0x6F; 0x26; 0x00; 0x03; 0x62; 0x61; 0x72; 0x00; 0x03; 0x62; 0x61; 0x7A]);
    (Packet.PubRec {| Ack.packet_identifier := (pkid 0x1234);
       Ack.reason_code := PubRecReasonCode.NoMatchingSubscribers;
       Ack.other_properties := ReasonProperties_default |},
      Some [0x50; 0x03; 0x12; 0x34; 0x10]);
    (Packet.PubRec {| Ack.packet_identifier := (pkid 0x1234);
       Ack.reason_code := PubRecReasonCode.NoMatchingSubscribers;
       Ack.other_properties := {| Acks.reason_string := (Some (text (lit "foo")));
          Acks.user_properties := [((text (lit "bar")), (text (lit "baz")))] |} |},
      Some [0x50; 0x15; 0x12; 0x34; 0x10; 0x11; 0x1F; 0x00; 0x03; 0x66; 0x6F; 0x6F; 0x26; 0x00; 0x03; 0x62; 0x61; 0x72; 0x00; 0x03; 0x62; 0x61; 0x7A]) ].

Definition all : list (outcome unit) :=
  [ for_each encode_decode_v3 (ProtoTests.encode_decode V3);
    for_each encode_decode_v5 (ProtoTests.encode_decode V5) ].
End PubRecTests.

(** ** mqtt_proto/pubrel.rs *)

Module PubRelTests.
Definition encode_decode_v3 : list (Packet.t * option (list u8)) :=
  [ (Packet.PubRel {| Ack.packet_identifier := (pkid 0x1234);
       Ack.reason_code := PubRelReasonCode.Success;
       Ack.other_properties := ReasonProperties_default |},
      Some [0x62; 0x02; 0x12; 0x34]) ].

Definition encode_decode_v5 : list (Packet.t * option (list u8)) :=
  [ (Packet.PubRel {| Ack.packet_identifier := (pkid 0x1234);
       Ack.reason_code := PubRelReasonCode.Success;
       Ack.other_properties := ReasonProperties_default |},
      Some [0x62; 0x02; 0x12; 0x34]);
    (Packet.PubRel {| Ack.packet_identifier := (pkid 0x1234);
       Ack.reason_code := PubRelReasonCode.Success;
       Ack.other_properties := {| Acks.reason_string := (Some (text (lit "foo")));
          Acks.user_properties := [((text (lit "bar")), (text (lit "baz")))] |} |},
      Some [0x62; 0x15; 0x12; 0x34; 0x00; 0x11; 0x1F; 0x00; 0x03; 0x66; 0x6F; 0x6F; 0x26; 0x00; 0x03; 0x62; 0x61; 0x72; 0x00; 0x03; 0x62; 0x61; 0x7A]);
    (Packet.PubRel {| Ack.packet_identifier := (pkid 0x1234);
       Ack.reason_code := PubRelReasonCode.PacketIdentifierNotFound;
       Ack.other_properties := ReasonProperties_default |},
      Some [0x62; 0x03; 0x12; 0x34; 0x92]);
    (Packet.PubRel {| Ack.packet_identifier := (pkid 0x1234);
       Ack.reason_code := PubRelReasonCode.PacketIdentifierNotFound;
       Ack.other_properties := {| Acks.reason_string := (Some (text (lit "foo")));
          Acks.user_properties := [((text (lit "bar")), (text (lit "baz")))] |} |},
      Some [0x62; 0x15; 0x12; 0x34; 0x92; 0x11; 0x1F; 0x00; 0x03; 0x66; 0x6F; 0x6F; 0x26; 0x00; 0x03; 0x62; 0x61; 0x72; 0x00; 0x03; 0x62; 0x61; 0x7A]) ].

Definition all : list (outcome unit) :=
  [ for_each encode_decode_v3 (ProtoTests.encode_decode V3);
    for_each encode_decode_v5 (ProtoTests.encode_decode V5) ].
End PubRelTests.

(** ** mqtt_proto/suback.rs *)

Module SubAckTests.
Definition encode_decode_v3 : list (Packet.t * option (list u8)) :=
  [ (Packet.SubAck {| SubAck.packet_identifier := (pkid 1);
       SubAck.reason_codes := [SubscribeReasonCode.GrantedQoS1];
       SubAck.other_properties := ReasonProperties_default |},
      None) ].

Definition encode_decode_v5 : list (Packet.t * option (list u8)) :=
  [ (Packet.SubAck {| SubAck.packet_identifier := (pkid 0x1234);
       SubAck.reason_codes := [SubscribeReasonCode.GrantedQoS0; SubscribeReasonCode.GrantedQoS1; SubscribeReasonCode.GrantedQoS2; SubscribeReasonCode.UnspecifiedError; SubscribeReasonCode.ImplementationSpecificError; SubscribeReasonCode.NotAuthorized; SubscribeReasonCode.TopicFilterInvalid; SubscribeReasonCode.PacketIdentifierInUse; SubscribeReasonCode.QuotaExceeded; SubscribeReasonCode.SharedSubscriptionsNotSupported; SubscribeReasonCode.SubscriptionIdentifiersNotSupported; SubscribeReasonCode.WildcardSubscriptionsNotSupported];
       SubAck.other_properties := {| Acks.reason_string := (Some (text (lit "reason")));
          Acks.user_properties := [((text (lit "foo")), (text (lit "bar")))] |} |},
      None) ].

Definition reason_code_to_u8 (case : ProtocolVersion * SubscribeReasonCode.t * u8) : outcome unit :=
  let '(proto, code, expected) := case in
  assert_eq (SubAck.reason_to_u8 code proto) expected "assert_eq".

Definition reason_code_cases : list (ProtocolVersion * SubscribeReasonCode.t * u8) :=
  [ (V3, SubscribeReasonCode.GrantedQoS0, 0x00);
    (V3, SubscribeReasonCode.GrantedQoS1, 0x01);
    (V3, SubscribeReasonCode.GrantedQoS2, 0x02);
    (V3, SubscribeReasonCode.UnspecifiedError, 0x80);
    (V5, SubscribeReasonCode.ImplementationSpecificError, 0x83) ].

Definition subscribe_reason_code_from_qos (case : QoS.t * SubscribeReasonCode.t) : outcome unit :=
  let '(qos, code) := case in
  assert_eq (SubAck.reason_from_qos qos) code "assert_eq".

Definition from_qos_cases : list (QoS.t * SubscribeReasonCode.t) :=
  [ (QoS.AtMostOnce, SubscribeReasonCode.GrantedQoS0); (QoS.AtLeastOnce, SubscribeReasonCode.GrantedQoS1);
    (QoS.ExactlyOnce, SubscribeReasonCode.GrantedQoS2) ].

Definition all : list (outcome unit) :=
  [ for_each encode_decode_v3 (ProtoTests.encode_decode V3);
    for_each encode_decode_v5 (ProtoTests.encode_decode V5);
    for_each reason_code_cases reason_code_to_u8;
    for_each from_qos_cases subscribe_reason_code_from_qos ].
End SubAckTests.

(** ** mqtt_proto/subscribe.rs *)

Module SubscribeTests.
Definition encode_decode_v3 : list (Packet.t * option (list u8)) :=
  [ (Packet.Subscribe {| Subscribe.packet_identifier := (pkid 1);
       Subscribe.subscribe_to := [{| SubscribeTo.topic_filter := (filter (lit "foo/bar"));
          SubscribeTo.options := {| SubscribeOptions.maximum_qos := QoS.AtLeastOnce;
             SubscribeOptions.other_properties := SubscribeOptions.OtherProperties_default |} |}];
       Subscribe.other_properties := Subscribe.OtherProperties_default |},
      None) ].

Definition encode_decode_v5 : list (Packet.t * option (list u8)) :=
  [ (Packet.Subscribe {| Subscribe.packet_identifier := (pkid 1);
       Subscribe.subscribe_to := [{| SubscribeTo.topic_filter := (filter (lit "foo/bar"));
          SubscribeTo.options := {| SubscribeOptions.maximum_qos := QoS.AtLeastOnce;
             SubscribeOptions.other_properties := {| SubscribeOptions.no_local := true;
                SubscribeOptions.retain_as_published := true;
                SubscribeOptions.retain_handling := RetainHandling.DoNotSend |} |} |}];
       Subscribe.other_properties := {| Subscribe.subscription_identifier := (Some 1);
          Subscribe.user_properties := [((text (lit "cat")), (text (lit "dog")))] |} |},
      None) ].

Definition no_local_for_shared_subscription (encoding : list u8) : outcome unit :=
  let! encoding := BinaryData_from encoding in
  let buffer := drop 2 (bd_shared encoding) in
  assert (match Packet.decode_full buffer V5 with
          | Err DecodeError.NoLocalWithSharedSubscription => true | _ => false end).

Definition no_local_cases : list (list u8) :=
  [ [0x82; 0x21; 0x00; 0x02; 0x0D; 0x0B; 0x01; 0x26; 0x00; 0x03; 0x63; 0x61; 0x74; 0x00; 0x03; 0x64; 0x6F; 0x67; 0x00; 0x0E; 0x24; 0x73; 0x68; 0x61; 0x72; 0x65; 0x2F; 0x66; 0x6F; 0x6F; 0x2F; 0x62; 0x61; 0x72; 0x2D] ].

Definition all : list (outcome unit) :=
  [ for_each encode_decode_v3 (ProtoTests.encode_decode V3);
    for_each encode_decode_v5 (ProtoTests.encode_decode V5);
    for_each no_local_cases no_local_for_shared_subscription ].
End SubscribeTests.

(** ** mqtt_proto/unsuback.rs *)

Module UnsubAckTests.
Definition encode_decode_v3 : list (Packet.t * option (list u8)) :=
  [ (Packet.UnsubAck {| UnsubAck.packet_identifier := (pkid 1);
       UnsubAck.reason_codes := [];
       UnsubAck.other_properties := ReasonProperties_default |},
      None) ].

Definition encode_decode_v5 : list (Packet.t * option (list u8)) :=
  [ (Packet.UnsubAck {| UnsubAck.packet_identifier := (pkid 0x1234);
       UnsubAck.reason_codes := [UnsubAckReasonCode.Success; UnsubAckReasonCode.NoSubscriptionExisted; UnsubAckReasonCode.UnspecifiedError; UnsubAckReasonCode.ImplementationSpecificError; UnsubAckReasonCode.NotAuthorized; UnsubAckReasonCode.TopicFilterInvalid; UnsubAckReasonCode.PacketIdentifierInUse];
       UnsubAck.other_properties := {| Acks.reason_string := (Some (text (lit "reason")));
          Acks.user_properties := [((text (lit "foo")), (text (lit "bar")))] |} |},
      None) ].

Definition decode_packet_unsuback_v5
    (case : list u8 * UnsubAckReasonCode.t * str * ProtocolVersion) : outcome unit :=
  let '(encoding, reason, reason_str, version) := case in
  let! encoding := BinaryData_from encoding in
  let! reason_string := ByteStr_from reason_str in
  let packet := Packet.UnsubAck
    {| UnsubAck.packet_identifier := pkid 0x1234;
       UnsubAck.reason_codes := [reason];
       UnsubAck.other_properties := mkReasonProperties (Some reason_string) [] |} in
  let! new_encoding := ProtoTests.try_encode packet version in
  let! new_encoding := unwrap_ok new_encoding in
  assert_eq new_encoding (BinaryData_as_bytes encoding) "assert_eq".

Definition unsuback_cases : list (list u8 * UnsubAckReasonCode.t * str * ProtocolVersion) :=
  [ ([0xB0; 0x0E; 0x12; 0x34; 0x0A; 0x1F; 0x00; 0x07; 0x53; 0x75; 0x63; 0x63; 0x65; 0x73; 0x73; 0x00], UnsubAckReasonCode.Success, lit "Success", V5);
    ([0xB0; 0x1E; 0x12; 0x34; 0x1A; 0x1F; 0x00; 0x17; 0x4E; 0x6F; 0x20; 0x73; 0x75; 0x62; 0x73; 0x63; 0x72; 0x69; 0x70; 0x74; 0x69; 0x6F; 0x6E; 0x20; 0x65; 0x78; 0x69; 0x73; 0x74; 0x65; 0x64; 0x11], UnsubAckReasonCode.NoSubscriptionExisted, lit "No subscription existed", V5);
    ([0xB0; 0x18; 0x12; 0x34; 0x14; 0x1F; 0x00; 0x11; 0x55; 0x6E; 0x73; 0x70; 0x65; 0x63; 0x69; 0x66; 0x69; 0x65; 0x64; 0x20; 0x65; 0x72; 0x72; 0x6F; 0x72; 0x80], UnsubAckReasonCode.UnspecifiedError, lit "Unspecified error", V5);
    ([0xB0; 0x24; 0x12; 0x34; 0x20; 0x1F; 0x00; 0x1D; 0x49; 0x6D; 0x70; 0x6C; 0x65; 0x6D; 0x65; 0x6E; 0x74; 0x61; 0x74; 0x69; 0x6F; 0x6E; 0x20; 0x73; 0x70; 0x65; 0x63; 0x69; 0x66; 0x69; 0x63; 0x20; 0x65; 0x72; 0x72; 0x6F; 0x72; 0x83], UnsubAckReasonCode.ImplementationSpecificError, lit "Implementation specific error", V5);
    ([0xB0; 0x15; 0x12; 0x34; 0x11; 0x1F; 0x00; 0x0E; 0x4E; 0x6F; 0x74; 0x20; 0x61; 0x75; 0x74; 0x68; 0x6F; 0x72; 0x69; 0x7A; 0x65; 0x64; 0x87], UnsubAckReasonCode.NotAuthorized, lit "Not authorized", V5);
    ([0xB0; 0x1B; 0x12; 0x34; 0x17; 0x1F; 0x00; 0x14; 0x54; 0x6F; 0x70; 0x69; 0x63; 0x20; 0x46; 0x69; 0x6C; 0x74; 0x65; 0x72; 0x20; 0x69; 0x6E; 0x76; 0x61; 0x6C; 0x69; 0x64; 0x8F], UnsubAckReasonCode.TopicFilterInvalid, lit "Topic Filter invalid", V5);
    ([0xB0; 0x1F; 0x12; 0x34; 0x1B; 0x1F; 0x00; 0x18; 0x50; 0x61; 0x63; 0x6B; 0x65; 0x74; 0x20; 0x49; 0x64; 0x65; 0x6E; 0x74; 0x69; 0x66; 0x69; 0x65; 0x72; 0x20; 0x69; 0x6E; 0x20; 0x75; 0x73; 0x65; 0x91], UnsubAckReasonCode.PacketIdentifierInUse, lit "Packet Identifier in use", V5) ].

Definition all : list (outcome unit) :=
  [ for_each encode_decode_v3 (ProtoTests.encode_decode V3);
    for_each encode_decode_v5 (ProtoTests.encode_decode V5);
    for_each unsuback_cases decode_packet_unsuback_v5 ].
End UnsubAckTests.

(** ** mqtt_proto/unsubscribe.rs *)

Module UnsubscribeTests.
Definition encode_decode_v3 : list (Packet.t * option (list u8)) :=
  [ (Packet.Unsubscribe {| Unsubscribe.packet_identifier := (pkid 1);
       Unsubscribe.unsubscribe_from := [(filter (lit "foo/bar"))];
       Unsubscribe.user_properties := [] |},
      None) ].

Definition encode_decode_v5 : list (Packet.t * option (list u8)) :=
  [ (Packet.Unsubscribe {| Unsubscribe.packet_identifier := (pkid 0x1234);
       Unsubscribe.unsubscribe_from := [(filter (lit "topic"))];
       Unsubscribe.user_properties := [((text (lit "foo")), (text (lit "bar")))] |},
      None) ].

Definition all : list (outcome unit) :=
  [ for_each encode_decode_v3 (ProtoTests.encode_decode V3);
    for_each encode_decode_v5 (ProtoTests.encode_decode V5) ].
End UnsubscribeTests.

(** ** All of them *)

Definition packet_tests : list (outcome unit) :=
  ProtoTests.all ++ AuthTests.all ++ ConnAckTests.all ++ ConnectTests.all ++ DisconnectTests.all ++ PingReqTests.all ++ PingRespTests.all ++ PubAckTests.all ++ PubCompTests.all ++ PublishTests.all ++ PubRecTests.all ++ PubRelTests.all ++ SubAckTests.all ++ SubscribeTests.all ++ UnsubAckTests.all ++ UnsubscribeTests.all.

(** The packet codec passes the unit tests of its files: every example packet encodes, to the
    expected bytes where the test gives them, and decodes to an equal packet, and malformed
    packets give the errors that the tests expect. *)
Lemma packet_tests_pass : Forall (fun test => test = Returns tt) packet_tests.
Proof. apply all_pass. vm_compute. reflexivity. Qed.
