(* ===== verification/StringTests.v ===== *)
(** * The unit tests of strings, topics and filters

    The [mod tests] of binary_data.rs, byte_str.rs, byte_counter.rs, topic.rs and filter.rs
    under mqtt_proto/, run on the model as those of PacketTests.v. [Display] of a string is its
    text. *)

From S2P Require Export PacketTests.
From S2P Require Import DebugFmt.
Local Open Scope Z_scope.

(** [str::repeat]. *)
Definition str_repeat (s : str) (n : Z) : str := concat (repeat s (Z.to_nat n)).

(** [Iterator::eq] on strings. *)
Definition iter_eq (l r : list str) : bool := bool_decide (l = r).

#[export] Instance HashWrite_eq_dec : EqDecision HashWrite.
Proof. solve_decision. Defined.

(** [BytesPool.take_empty_owned()]. *)
Definition owned0 : Room := BytesPool_take_empty_owned (B := Room).

(** ** mqtt_proto/binary_data.rs *)

Module BinaryDataTests.
(** The hashes are equal when the same is written to the hasher. *)
Definition test_binary_data_hash (case : list u8 * list u8 * bool) : outcome unit :=
  let '(l, r, expected) := case in
  let! l := BinaryData_from l in
  let! r := BinaryData_from r in
  assert_eq (bool_decide (BinaryDataOrd.hash l = BinaryDataOrd.hash r)) expected "assert_eq".

Definition hash_cases : list (list u8 * list u8 * bool) :=
  [ (lit "cats", lit "cats", true); (lit "cats", lit "dogs", false) ].

Definition test_binary_data_ord (case : list u8 * list u8 * comparison) : outcome unit :=
  let '(l, r, expected) := case in
  let! l := BinaryData_from l in
  let! r := BinaryData_from r in
  assert (match BinaryDataOrd.cmp l r, expected with
          | Eq, Eq | Lt, Lt | Gt, Gt => true | _, _ => false end).

Definition ord_cases : list (list u8 * list u8 * comparison) :=
  [ (lit "cats", lit "cats", Eq); (lit "cats", lit "dogs", Lt); (lit "dogs", lit "cats", Gt) ].

Definition test_binary_data_from_shared_with_trailing_garbage : outcome unit :=
  assert (match BinaryData_from_shared ([0x00; 0x01] ++ lit "hello world") with
          | Err DecodeError.TrailingGarbage => true | _ => false end).

Definition test_binary_data_from_shared_with_incomplete_packet : outcome unit :=
  assert (match BinaryData_from_shared ([0x01; 0x00] ++ lit "hello world") with
          | Err DecodeError.IncompletePacket => true | _ => false end).

Definition test_binary_data_from_shared_with_empty : outcome unit :=
  assert (is_ok (BinaryData_from_shared [0x00; 0x00])).

Definition test_binary_data_from_shared_simple : outcome unit :=
  assert (is_ok (BinaryData_from_shared ([0x00; 0x0B] ++ lit "hello world"))).

Definition all : list (outcome unit) :=
  [ for_each hash_cases test_binary_data_hash; for_each ord_cases test_binary_data_ord;
    test_binary_data_from_shared_with_trailing_garbage;
    test_binary_data_from_shared_with_incomplete_packet; test_binary_data_from_shared_with_empty;
    test_binary_data_from_shared_simple ].
End BinaryDataTests.

(** ** mqtt_proto/byte_str.rs *)

Module ByteStrTests.
Definition new : outcome unit :=
  let! r := ByteStr_new (lit "dummy") owned0 in
  let! (val, _) := unwrap_ok r in
  let! _ := assert_eq (as_ref val) (lit "dummy") "assert_eq" in
  assert_eq (ByteStr_len val) 5 "assert_eq".

Definition ord : outcome unit :=
  let! r := ByteStr_new (lit "dummy1") owned0 in
  let! (val1, buffer) := unwrap_ok r in
  let! r := ByteStr_new (lit "dummy2") buffer in
  let! (val2, _) := unwrap_ok r in
  assert (match ByteStrOrd.partial_cmp val1 val2 with Some Lt => true | _ => false end).

Definition debug : outcome unit :=
  let! r := ByteStr_new (lit "dummy") owned0 in
  let! (val, _) := unwrap_ok r in
  assert_eq (@render ascii_tables (fmt val)) ([34] ++ lit "dummy" ++ [34]) "assert_eq".

Definition into_shared_and_from_utf8_shared : outcome unit :=
  let test_string := str_repeat (lit "t") 398 in
  let! r := ByteStr_new test_string owned0 in
  let! (val, _) := unwrap_ok r in
  let src := bd_shared (bs_data val) in
  let! new_val := unwrap_ok (ByteStr_from_utf8_shared src) in
  assert_eq (as_ref new_val) test_string "assert_eq".

Definition decode_unicode_ok (input : str) : outcome unit :=
  let! src := BinaryData_from input in
  let! actual := unwrap_ok (ByteStr_decode (bd_shared src)) in
  let! (actual, _) := unwrap_some actual in
  assert_eq (as_ref actual) input "assert_eq".

Definition unicode_cases : list str := [ lit "abc"; [0x41; 0xF0; 0xAA; 0x9B; 0x94] ].

Definition decode_disallowed_unicode_codepoints_err (inputs : Z * Z) : outcome unit :=
  let '(first, last) := inputs in
  for_each (seq 0 (Z.to_nat (last - first + 1))) (fun i =>
    let input := utf8_encode (first + Z.of_nat i) in
    let! src := BinaryData_from input in
    assert (negb (is_ok (ByteStr_decode (bd_shared src))))).

Definition codepoint_cases : list (Z * Z) :=
  [ (0x0000, 0x0000); (0x0001, 0x001F); (0x007F, 0x009F); (0xFFFF, 0xFFFF) ].

Definition all : list (outcome unit) :=
  [ new; ord; debug; into_shared_and_from_utf8_shared; for_each unicode_cases decode_unicode_ok;
    for_each codepoint_cases decode_disallowed_unicode_codepoints_err ].
End ByteStrTests.

(** ** mqtt_proto/byte_counter.rs *)

Module ByteCounterTests.
Definition can_accept_more_always_true : outcome unit :=
  let! _ := assert (can_accept_more (ByteCounter_new (COUNT_SHARED := true))) in
  assert (can_accept_more (ByteCounter_new (COUNT_SHARED := false))).

(** [count_shared] and [dont_count_shared]. *)
Definition count_foo (COUNT_SHARED : bool) (expected : usize) : outcome unit :=
  let! counter := unwrap_some (try_put_u8 1 (ByteCounter_new (COUNT_SHARED := COUNT_SHARED))) in
  let counter := put_shared (lit "foo") counter in
  let! counter := unwrap_some (try_put_u8 2 counter) in
  assert_eq (into_count counter) expected "assert_eq".

Definition count_shared : outcome unit := count_foo true (1 + 3 + 1).
Definition dont_count_shared : outcome unit := count_foo false (1 + 0 + 1).

Definition all : list (outcome unit) := [can_accept_more_always_true; count_shared; dont_count_shared].
End ByteCounterTests.

(** ** mqtt_proto/topic.rs *)

Module TopicTests.
Definition create : outcome unit :=
  let! topic := TestValues.topic (lit "a/b/c") in
  assert (iter_eq (Topic_into_iter topic) [lit "a"; lit "b"; lit "c"]).

Definition valid (case : str * list str) : outcome unit :=
  let '(topic, components) := case in
  let! topic := TestValues.topic topic in
  assert (iter_eq (Topic_into_iter topic) components).

Definition valid_cases : list (str * list str) :=
  [ (lit "a", [lit "a"]);
    (lit "a cat", [lit "a cat"]);
    (lit "a/b/c", [lit "a"; lit "b"; lit "c"]);
    (lit "$a/b/c", [lit "$a"; lit "b"; lit "c"]) ].

Definition maximum_length : outcome unit :=
  let! topic := unwrap_ok (Topic_new (str_repeat (lit "a") u16_MAX)) in
  assert_eq (len (Topic_as_str topic)) u16_MAX "assert_eq".

Definition invalid (topic : str) : outcome unit :=
  let! s := ByteStr_from topic in
  assert (match Topic_new s with Err (DecodeError.InvalidTopic t) => str_eqb t topic | _ => false end).

Definition invalid_cases : list str := [lit "+"; lit "a/+"; lit "b/#"].

Definition invalid_mqtt_string (topic : str) : outcome unit :=
  assert (match Topic_new topic with Err (DecodeError.InvalidByteStr _) => true | _ => false end).

Definition invalid_mqtt_string_cases : list str :=
  [ [0x61; 0x00; 0x62];
    [0x61; 0x01; 0x62];
    [0x61; 0x7F; 0x62];
    [0x61; 0xEF; 0xBF; 0xBF; 0x62];
    str_repeat (lit "a") (u16_MAX + 1);
    str_repeat [0xC3; 0xA9] (u16_MAX / 2 + 1) ].

Definition uniqueness (case : str * list str * str * list str) : outcome unit :=
  let '(lhs, expected_left_comp, rhs, expected_right_comp) := case in
  let! lhs := TestValues.topic lhs in
  let! _ := assert (iter_eq (Topic_into_iter lhs) expected_left_comp) in
  let! rhs := TestValues.topic rhs in
  let! _ := assert (iter_eq (Topic_into_iter rhs) expected_right_comp) in
  assert (negb (TopicOrd.eq lhs rhs)).

Definition uniqueness_cases : list (str * list str * str * list str) :=
  [ (lit "/b", [[]; lit "b"], lit "b", [lit "b"]);
    (lit "a/", [lit "a"; []], lit "a", [lit "a"]);
    (lit "C", [lit "C"], lit "c", [lit "c"]) ].

Definition of_byte_str : outcome unit :=
  let! topic := TestValues.topic (lit "/a/b/c") in
  let! _ := assert_eq (Topic_as_str topic) (lit "/a/b/c") "assert_eq" in
  let! part := unwrap_some (Topic_into_iter topic !! 2%nat) in
  assert_eq part (lit "b") "assert_eq".

Definition combine_maximum_length : outcome unit :=
  let! second := unwrap_ok (Topic_new (lit "b")) in
  let maximum_prefix := str_repeat (lit "a") (u16_MAX - len (Topic_as_str second)) in
  let! maximum_length := unwrap_ok (Topic_combine maximum_prefix second) in
  assert_eq (len (Topic_as_str maximum_length)) u16_MAX "assert_eq".

Definition combine_invalid_mqtt_string (first : str) : outcome unit :=
  let! second := unwrap_ok (Topic_new (lit "b")) in
  assert (match Topic_combine first second with Err (DecodeError.InvalidByteStr _) => true | _ => false end).

Definition combine_cases : list str :=
  [ [0x61; 0x00];
    [0x61; 0x01];
    [0x61; 0x7F];
    [0x61; 0xEF; 0xBF; 0xBF];
    str_repeat (lit "a") (u16_MAX) ].

Definition all : list (outcome unit) :=
  [ create; for_each valid_cases valid; maximum_length; for_each invalid_cases invalid;
    for_each invalid_mqtt_string_cases invalid_mqtt_string; for_each uniqueness_cases uniqueness;
    of_byte_str; combine_maximum_length; for_each combine_cases combine_invalid_mqtt_string ].
End TopicTests.

(** ** mqtt_proto/filter.rs *)

Module FilterTests.
(** [fn filter_str] and [fn topic_str]. *)
Definition filter_str (s : str) : outcome (Filter str) := unwrap_ok (Filter_new s).
Definition topic_str (s : str) : outcome (Topic str) := unwrap_ok (Topic_new s).

(** The two errors are compared by their fields. *)
Definition invalid (case : str * DecodeError.t) : outcome unit :=
  let '(filter, err) := case in
  assert (match Filter_new filter, err with
          | Err DecodeError.EmptyFilter, DecodeError.EmptyFilter => true
          | Err (DecodeError.InvalidFilter a), DecodeError.InvalidFilter b => str_eqb a b
          | _, _ => false
          end).

Definition invalid_cases : list (str * DecodeError.t) :=
  [ ([], DecodeError.EmptyFilter);
    (lit "foo/#baz", DecodeError.InvalidFilter (lit "foo/#baz"));
    (lit "foo/baz#", DecodeError.InvalidFilter (lit "foo/baz#"));
    (lit "foo/#/baz", DecodeError.InvalidFilter (lit "foo/#/baz"));
    (lit "$share/mygroup", DecodeError.InvalidFilter (lit "$share/mygroup"));
    (lit "$share//mytopic", DecodeError.InvalidFilter (lit "$share//mytopic"));
    (lit "$share/mygroup/", DecodeError.EmptyFilter);
    (lit "$share/mygroup+/", DecodeError.InvalidFilter (lit "$share/mygroup+/"));
    (lit "$share/#/", DecodeError.InvalidFilter (lit "$share/#/")) ].

Definition invalid_mqtt_string (filter : str) : outcome unit :=
  assert (match Filter_new filter with Err (DecodeError.InvalidByteStr _) => true | _ => false end).

Definition invalid_mqtt_string_cases : list str :=
  [ [0x61; 0x00; 0x62];
    [0x61; 0x01; 0x62];
    [0x61; 0x7F; 0x62];
    [0x61; 0xEF; 0xBF; 0xBF; 0x62];
    str_repeat (lit "a") (u16_MAX + 1);
    str_repeat [0xC3; 0xA9] (u16_MAX / 2 + 1) ].

Definition valid (case : str * list str) : outcome unit :=
  let '(filter, components) := case in
  let! filter := TestValues.filter filter in
  assert (iter_eq (Filter_into_iter filter) components).

Definition valid_cases : list (str * list str) :=
  [ (lit "a", [lit "a"]);
    (lit "foo/+/baz", [lit "foo"; lit "+"; lit "baz"]);
    (lit "foo/+/#", [lit "foo"; lit "+"; lit "#"]);
    (lit "#", [lit "#"]);
    (lit "+/#", [lit "+"; lit "#"]) ].

Definition maximum_length : outcome unit :=
  let! filter := unwrap_ok (Filter_new (str_repeat (lit "a") u16_MAX)) in
  assert_eq (len (Filter_as_str filter)) u16_MAX "assert_eq".

Definition uniqueness (case : str * list str * str * list str) : outcome unit :=
  let '(lhs, expected_left_comp, rhs, expected_right_comp) := case in
  let! lhs := TestValues.filter lhs in
  let! _ := assert (iter_eq (Filter_into_iter lhs) expected_left_comp) in
  let! rhs := TestValues.filter rhs in
  let! _ := assert (iter_eq (Filter_into_iter rhs) expected_right_comp) in
  assert (negb (FilterOrd.eq lhs rhs)).

Definition uniqueness_cases : list (str * list str * str * list str) :=
  [ (lit "/b", [[]; lit "b"], lit "b", [lit "b"]);
    (lit "a/", [lit "a"; []], lit "a", [lit "a"]);
    (lit "C", [lit "C"], lit "c", [lit "c"]) ].

Definition of_byte_str : outcome unit :=
  let! filter := TestValues.filter (lit "/a/b/c") in
  let! _ := assert_eq (Filter_as_str filter) (lit "/a/b/c") "assert_eq" in
  let! part := unwrap_some (Filter_into_iter filter !! 2%nat) in
  assert_eq part (lit "b") "assert_eq".

Definition shared_subscription_valid : outcome unit :=
  let! filter := filter_str (lit "$share/group1/mytopic") in
  match Filter_classify filter with
  | ClassifiedFilter.Shared group_name filter =>
      let! _ := assert_eq group_name (lit "group1") "assert_eq" in
      let! _ := assert_eq (Filter_as_str filter) (lit "mytopic") "assert_eq" in
      assert (FilterOrd.kind_eq (filter_kind filter) FilterKind.Regular)
  | _ => Panics "Expected filter of type: Shared"
  end.

Definition shared_subscription_maximum_length : outcome unit :=
  let prefix := lit "$share/group/" in
  let! filter := unwrap_ok (Filter_new (prefix ++ str_repeat (lit "a") (u16_MAX - len prefix))) in
  assert_eq (len (Filter_as_str filter)) u16_MAX "assert_eq".

Definition shared_invalid_cases : list str :=
  [ lit "$share/group/" ++ str_repeat (lit "a") (u16_MAX - len (lit "$share/group/") + 1);
    [0x24; 0x73; 0x68; 0x61; 0x72; 0x65; 0x2F; 0x67; 0x72; 0x6F; 0x00; 0x75; 0x70; 0x2F; 0x61];
    [0x24; 0x73; 0x68; 0x61; 0x72; 0x65; 0x2F; 0x67; 0x72; 0x6F; 0x01; 0x75; 0x70; 0x2F; 0x61];
    [0x24; 0x73; 0x68; 0x61; 0x72; 0x65; 0x2F; 0x67; 0x72; 0x6F; 0x7F; 0x75; 0x70; 0x2F; 0x61];
    [0x24; 0x73; 0x68; 0x61; 0x72; 0x65; 0x2F; 0x67; 0x72; 0x6F; 0xEF; 0xBF; 0xBF; 0x75; 0x70; 0x2F; 0x61] ].

Definition filter_kind_test (case : str * FilterKind.t) : outcome unit :=
  let '(filter, kind) := case in
  let! filter := filter_str filter in
  assert (FilterOrd.kind_eq (filter_kind filter) kind).

Definition filter_kind_cases : list (str * FilterKind.t) :=
  [ (lit "$share/group1/mytopic", FilterKind.Shared 13);
    (lit "$share/group1/m", FilterKind.Shared 13);
    (lit "$sharetest/group1/mytopic", FilterKind.Dollar);
    (lit "$test/group1/mytopic", FilterKind.Dollar);
    (lit "share/group1/mytopic", FilterKind.Regular);
    ([0x24; 0x73; 0x68; 0x61; 0x72; 0x65; 0x2F; 0xE2; 0x9C; 0x94; 0x2F; 0x66; 0x6F; 0x6F], FilterKind.Shared 10) ].

Definition filter_match (case : str * list str) : outcome unit :=
  let '(filter, topics) := case in
  let! filter := filter_str filter in
  for_each topics (fun t => let! topic := topic_str t in assert (Filter_matches_topic filter topic)).

Definition filter_match_cases : list (str * list str) :=
  [ (lit "sport", [lit "sport"]);
    (lit "+", [lit "sport"; lit "finance"]);
    (lit "#", [lit "sport"; lit "sport/tennis"; lit "sport/tennis/player1"; lit "sport/tennis/player1/ranking"; lit "sport/"; lit "sport/"; lit "/sport/"; lit "/"; lit "//"]);
    (lit "$share/consumer1/sport", [lit "sport"]);
    (lit "$share/consumer1/+", [lit "sport"; lit "finance"]);
    (lit "$share/consumer1/#", [lit "sport/tennis"; lit "sport/tennis/player1"; lit "sport/tennis/player1/ranking"; lit "finance/bonds/banker1"; lit "/"; lit "//"]);
    (lit "$SYS", [lit "$SYS"]);
    (lit "sport/tennis/player1", [lit "sport/tennis/player1"]);
    (lit "sport/tennis/+", [lit "sport/tennis/player1"; lit "sport/tennis/player2"; lit "sport/tennis/"]);
    (lit "sport/+/+", [lit "sport/tennis/player1"; lit "sport/tennis/player2"; lit "sport/badminton/player1"; lit "sport/badminton/player2"; lit "sport//player1"]);
    (lit "sport/tennis/#", [lit "sport/tennis/player1"; lit "sport/tennis/player1/ranking"; lit "sport/tennis/player2"; lit "sport/tennis/player2/ranking"]);
    (lit "sport/+/#", [lit "sport/tennis/player1"; lit "sport/tennis/player1/ranking"; lit "sport/tennis/player2"; lit "sport/tennis/player2/ranking"; lit "sport/badminton/player1"; lit "sport/badminton/player1/ranking"; lit "sport/badminton/player2"; lit "sport/badminton/player2/ranking"; lit "sport/tennis/"; lit "sport//"]);
    (lit "+/+", [lit "sport/tennis"; lit "/sport"; lit "sport/"; lit "/"]);
    (lit "+/#", [lit "sport/tennis"; lit "sport/tennis/player1"; lit "finance/banking"; lit "finance/banking/banker1"; lit "/"; lit "//"]);
    (lit "/finance", [lit "/finance"]);
    (lit "$share/consumer1/sport/tennis/player1", [lit "sport/tennis/player1"]);
    (lit "$share/consumer1/sport/+/player1", [lit "sport/tennis/player1"; lit "sport/badminton/player1"; lit "sport//player1"]);
    (lit "$share/consumer1/sport/#", [lit "sport/tennis"; lit "sport/tennis/player1"; lit "sport/tennis/player1/ranking"; lit "sport/badminton"; lit "sport/"; lit "sport//"]);
    (lit "$share/consumer1//finance", [lit "/finance"]);
    (lit "$SYS/monitor/Clients", [lit "$SYS/monitor/Clients"]);
    (lit "$SYS/monitor/+", [lit "$SYS/monitor/Clients"; lit "$SYS/monitor/Connections"]);
    (lit "$SYS/#", [lit "$SYS/monitor/Clients"; lit "$SYS/monitor/Connections"; lit "$SYS/broker/log"]);
    (lit "$SYS//Clients", [lit "$SYS//Clients"]) ].

Definition filter_mismatch (case : str * list str) : outcome unit :=
  let '(filter, topics) := case in
  let! filter := filter_str filter in
  for_each topics (fun t => let! topic := topic_str t in assert (negb (Filter_matches_topic filter topic))).

Definition filter_mismatch_cases : list (str * list str) :=
  [ (lit "sport", [lit "finance"; lit "sport/tennis"]);
    (lit "+", [lit "/sport"; lit "sport/"; lit "/sport/"; lit "/"; lit "//"; lit "$SYS"]);
    (lit "#", [lit "$SYS"; lit "$SYS/monitor/Clients"]);
    (lit "$share/consumer1/sport", [lit "finance/banking/banker1"; lit "sport/tennis/player1"]);
    (lit "sport/tennis/player1", [lit "sport/tennis/player2"; lit "sport/tennis"; lit "sport/tennis/player1/ranking"]);
    (lit "+/tennis/player1", [lit "sport/badminton/player1"; lit "$SYS/tennis/player1"; lit "sport/two/tennis/player1"]);
    (lit "sport/tennis/+", [lit "sport/tennis/player1/ranking"; lit "sport/badminton/player1"; lit "sport/tennis"]);
    (lit "sport/+/+", [lit "sport/tennis/player1/ranking"; lit "finance/banking/banker1"; lit "sport"]);
    (lit "sport/tennis/#", [lit "sport/tennis"; lit "sport/badminton"; lit "finance/banking/banker1"]);
    (lit "sport/+/#", [lit "sport/tennis"; lit "sport/badminton"; lit "finance/banking/banker1"]);
    (lit "+/+", [lit "/sport/tennis"; lit "sport/tennis/"; lit "/tennis/"; lit "//"; lit "$SYS/monitor"]);
    (lit "+/#", [lit "sport"; lit "$SYS/monitor"; lit "$SYS/monitor/Clients"]);
    (lit "$share/consumer1/sport", [lit "finance/banking/banker1"; lit "sport/tennis/player1"]) ].

Definition all : list (outcome unit) :=
  [ for_each invalid_cases invalid; for_each invalid_mqtt_string_cases invalid_mqtt_string;
    for_each valid_cases valid; maximum_length; for_each uniqueness_cases uniqueness; of_byte_str;
    shared_subscription_valid; shared_subscription_maximum_length;
    for_each shared_invalid_cases invalid_mqtt_string; for_each filter_kind_cases filter_kind_test;
    for_each filter_match_cases filter_match; for_each filter_mismatch_cases filter_mismatch ].
End FilterTests.

(** ** All of them *)

Definition string_tests : list (outcome unit) :=
  BinaryDataTests.all ++ ByteStrTests.all ++ ByteCounterTests.all ++ TopicTests.all ++ FilterTests.all.

(** Strings, topics and filters pass the unit tests of their files: the validity, the levels
    and the kinds of the examples, at the maximum length and beyond it, and the matches and
    mismatches of each filter of the tables. *)
Lemma string_tests_pass : Forall (fun test => test = Returns tt) string_tests.
Proof. apply all_pass. vm_compute. reflexivity. Qed.
