(* ===== verification/ConversionTests.v ===== *)
(** * The unit tests of the public packets

    The [mod test] of packet.rs, with its example packets, and that of topic.rs, run on the
    model as those of PacketTests.v. *)

From S2P Require Export UserPackets StringTests.
Local Open Scope Z_scope.
Local Open Scope partial_eq_scope.

Abbreviation topic_name s := (unwrapped (unwrap_ok (TopicName_new s)) : TopicName) (only parsing).

(** ** The derived [PartialEq] of the public types, which is identity *)

#[export] Instance Topic_str_eq_dec : EqDecision (Topic str).
Proof. solve_decision. Defined.
#[export] Instance TopicName_eq_dec : EqDecision TopicName.
Proof. solve_decision. Defined.
#[export] Instance PayloadFormatIndicator_eq_dec : EqDecision PayloadFormatIndicator.t.
Proof. solve_decision. Defined.
#[export] Instance DeliveryInfo_eq_dec : EqDecision DeliveryInfo.t.
Proof. solve_decision. Defined.
#[export] Instance DeliveryQoS_eq_dec : EqDecision DeliveryQoS.t.
Proof. solve_decision. Defined.
#[export] Instance AuthenticationInfo_eq_dec : EqDecision AuthenticationInfo.t.
Proof. solve_decision. Defined.
#[export] Instance SessionExpiryInterval_eq_dec : EqDecision SessionExpiryInterval.t.
Proof. solve_decision. Defined.
#[export] Instance KeepAlive_eq_dec : EqDecision KeepAlive.t.
Proof. solve_decision. Defined.
#[export] Instance packet_QoS_eq_dec : EqDecision packet_QoS.t.
Proof. solve_decision. Defined.
#[export] Instance PubAckProperties_eq_dec : EqDecision PubAckProperties.t.
Proof. solve_decision. Defined.
#[export] Instance PubRecProperties_eq_dec : EqDecision PubRecProperties.t.
Proof. solve_decision. Defined.
#[export] Instance PubRelProperties_eq_dec : EqDecision PubRelProperties.t.
Proof. solve_decision. Defined.
#[export] Instance PubCompProperties_eq_dec : EqDecision PubCompProperties.t.
Proof. solve_decision. Defined.
#[export] Instance SubAckProperties_eq_dec : EqDecision SubAckProperties.t.
Proof. solve_decision. Defined.
#[export] Instance UnsubAckProperties_eq_dec : EqDecision UnsubAckProperties.t.
Proof. solve_decision. Defined.
#[export] Instance AuthProperties_eq_dec : EqDecision AuthProperties.t.
Proof. solve_decision. Defined.
#[export] Instance SubscribeProperties_eq_dec : EqDecision SubscribeProperties.t.
Proof. solve_decision. Defined.
#[export] Instance UnsubscribeProperties_eq_dec : EqDecision UnsubscribeProperties.t.
Proof. solve_decision. Defined.
#[export] Instance DisconnectProperties_eq_dec : EqDecision DisconnectProperties.t.
Proof. solve_decision. Defined.
#[export] Instance ConnectProperties_eq_dec : EqDecision ConnectProperties.t.
Proof. solve_decision. Defined.
#[export] Instance ConnAckProperties_eq_dec : EqDecision ConnAckProperties.t.
Proof. solve_decision. Defined.
#[export] Instance PublishProperties_eq_dec : EqDecision PublishProperties.t.
Proof. solve_decision. Defined.
#[export] Instance ConnAckReason_eq_dec : EqDecision ConnAckReason.t.
Proof. solve_decision. Defined.
#[export] Instance PubAckReason_eq_dec : EqDecision PubAckReason.t.
Proof. solve_decision. Defined.
#[export] Instance PubRecReason_eq_dec : EqDecision PubRecReason.t.
Proof. solve_decision. Defined.
#[export] Instance PubRelReason_eq_dec : EqDecision PubRelReason.t.
Proof. solve_decision. Defined.
#[export] Instance PubCompReason_eq_dec : EqDecision PubCompReason.t.
Proof. solve_decision. Defined.
#[export] Instance SubAckReason_eq_dec : EqDecision SubAckReason.t.
Proof. solve_decision. Defined.
#[export] Instance UnsubAckReason_eq_dec : EqDecision UnsubAckReason.t.
Proof. solve_decision. Defined.
#[export] Instance DisconnectReason_eq_dec : EqDecision DisconnectReason.t.
Proof. solve_decision. Defined.
#[export] Instance AuthReason_eq_dec : EqDecision AuthReason.t.
Proof. solve_decision. Defined.
#[export] Instance packet_ConnAck_eq_dec : EqDecision packet_ConnAck.t.
Proof. solve_decision. Defined.
#[export] Instance packet_Publish_eq_dec : EqDecision packet_Publish.t.
Proof. solve_decision. Defined.
#[export] Instance packet_PubAck_eq_dec : EqDecision packet_PubAck.t.
Proof. solve_decision. Defined.
#[export] Instance packet_PubRec_eq_dec : EqDecision packet_PubRec.t.
Proof. solve_decision. Defined.
#[export] Instance packet_PubRel_eq_dec : EqDecision packet_PubRel.t.
Proof. solve_decision. Defined.
#[export] Instance packet_PubComp_eq_dec : EqDecision packet_PubComp.t.
Proof. solve_decision. Defined.
#[export] Instance packet_SubAck_eq_dec : EqDecision packet_SubAck.t.
Proof. solve_decision. Defined.
#[export] Instance packet_UnsubAck_eq_dec : EqDecision packet_UnsubAck.t.
Proof. solve_decision. Defined.
#[export] Instance packet_Disconnect_eq_dec : EqDecision packet_Disconnect.t.
Proof. solve_decision. Defined.
#[export] Instance packet_Auth_eq_dec : EqDecision packet_Auth.t.
Proof. solve_decision. Defined.

(** ** The helpers *)

(** [compare_as_unbuffered] and [compare_as_buffered]. *)
Definition compare_as_unbuffered {T U} `{EqDecision T} (from : U -> T) (packet : T) (proto_packet : U) :
    outcome unit :=
  assert (bool_decide (from proto_packet = packet)).

Definition compare_as_buffered {T U} `{PartialEq U} (into : T -> outcome U) (packet : T) (proto_packet : U) :
    outcome unit :=
  let! buffered := into packet in
  assert_eq buffered proto_packet "assert_eq".

(** [test_bidirectional_conversion!]. *)
Definition bidirectional_conversion {T U} `{EqDecision T} `{PartialEq U} (from : U -> T) (into : T -> outcome U)
    (packet : T) (proto_packet : U) : outcome unit :=
  let! _ := compare_as_unbuffered from packet proto_packet in
  compare_as_buffered into packet proto_packet.

Module ConversionTests.
(** ** Defaults *)

Definition property_defaults : outcome unit :=
  let! _ := compare_as_buffered ConnectProperties.into ConnectProperties.default Connect.OtherProperties_default in
  let! _ := compare_as_buffered ConnAckProperties.into ConnAckProperties.default ConnAck.OtherProperties_default in
  let! _ := compare_as_buffered PublishProperties.into PublishProperties.default Publish.OtherProperties_default in
  let! _ := compare_as_buffered PubAckProperties.into PubAckProperties.default ReasonProperties_default in
  let! _ := compare_as_buffered PubRecProperties.into PubRecProperties.default ReasonProperties_default in
  let! _ := compare_as_buffered PubRelProperties.into PubRelProperties.default ReasonProperties_default in
  let! _ := compare_as_buffered PubCompProperties.into PubCompProperties.default ReasonProperties_default in
  let! _ := compare_as_buffered SubscribeProperties.into SubscribeProperties.default Subscribe.OtherProperties_default in
  let! _ := compare_as_buffered SubAckProperties.into SubAckProperties.default ReasonProperties_default in
  let! _ := compare_as_buffered UnsubscribeProperties.into UnsubscribeProperties.default [] in
  let! _ := compare_as_buffered UnsubAckProperties.into UnsubAckProperties.default ReasonProperties_default in
  compare_as_buffered DisconnectProperties.into DisconnectProperties.default Disconnect.OtherProperties_default.

(** ** Examples *)

Definition connect_public : ConnectProperties.t :=
    {| ConnectProperties.session_expiry_interval := (SessionExpiryInterval.Duration 3600);
       ConnectProperties.receive_maximum := 100;
       ConnectProperties.maximum_packet_size := 1024;
       ConnectProperties.topic_alias_maximum := 10;
       ConnectProperties.request_response_information := true;
       ConnectProperties.request_problem_information := false;
       ConnectProperties.user_properties := [((lit "key1"), (lit "value1")); ((lit "key2"), (lit "value2"))] |}.

Definition connect_internal : Connect.OtherProperties :=
    {| Connect.session_expiry_interval := (SessionExpiryInterval.Duration 3600);
       Connect.receive_maximum := 100;
       Connect.maximum_packet_size := 1024;
       Connect.topic_alias_maximum := 10;
       Connect.request_response_information := true;
       Connect.request_problem_information := false;
       Connect.user_properties := [((text (lit "key1")), (text (lit "value1"))); ((text (lit "key2")), (text (lit "value2")))];
       Connect.authentication := None |}.

Definition connect_properties_conversion : outcome unit :=
  bidirectional_conversion ConnectProperties.from ConnectProperties.into connect_public connect_internal.

Definition connack_public : packet_ConnAck.t :=
    {| packet_ConnAck.session_present := true;
       packet_ConnAck.reason := ConnAckReason.Success;
       packet_ConnAck.properties := {| ConnAckProperties.session_expiry_interval := (Some (SessionExpiryInterval.Duration 3600));
          ConnAckProperties.receive_maximum := 100;
          ConnAckProperties.maximum_qos := packet_QoS.AtLeastOnce;
          ConnAckProperties.retain_available := true;
          ConnAckProperties.maximum_packet_size := 1024;
          ConnAckProperties.assigned_client_identifier := (Some (lit "client_id"));
          ConnAckProperties.topic_alias_maximum := 10;
          ConnAckProperties.reason_string := (Some (lit "Not authorized"));
          ConnAckProperties.user_properties := [((lit "key1"), (lit "value1")); ((lit "key2"), (lit "value2"))];
          ConnAckProperties.wildcard_subscription_available := true;
          ConnAckProperties.subscription_identifiers_available := true;
          ConnAckProperties.shared_subscription_available := false;
          ConnAckProperties.server_keep_alive := (Some (KeepAlive.Duration 30));
          ConnAckProperties.response_information := (Some (lit "response info"));
          ConnAckProperties.server_reference := (Some (lit "server ref")) |} |}.

Definition connack_internal : ConnAck.t :=
    {| ConnAck.reason_code := (ConnectReasonCode.Success true);
       ConnAck.other_properties := {| ConnAck.session_expiry_interval := (Some (SessionExpiryInterval.Duration 3600));
          ConnAck.receive_maximum := 100;
          ConnAck.maximum_qos := QoS.AtLeastOnce;
          ConnAck.retain_available := true;
          ConnAck.maximum_packet_size := 1024;
          ConnAck.assigned_client_id := (Some (text (lit "client_id")));
          ConnAck.topic_alias_maximum := 10;
          ConnAck.reason_string := (Some (text (lit "Not authorized")));
          ConnAck.user_properties := [((text (lit "key1")), (text (lit "value1"))); ((text (lit "key2")), (text (lit "value2")))];
          ConnAck.wildcard_subscription_available := true;
          ConnAck.subscription_identifiers_available := true;
          ConnAck.shared_subscription_available := false;
          ConnAck.server_keep_alive := (Some (KeepAlive.Duration 30));
          ConnAck.response_information := (Some (text (lit "response info")));
          ConnAck.server_reference := (Some (text (lit "server ref")));
          ConnAck.authentication := None |} |}.

Definition connack_to_public : outcome unit :=
  compare_as_unbuffered packet_ConnAck.from connack_public connack_internal.

Definition connack_properties_conversion : outcome unit :=
  bidirectional_conversion ConnAckProperties.from ConnAckProperties.into
    (packet_ConnAck.properties connack_public) (ConnAck.other_properties connack_internal).

Definition publish_public : packet_Publish.t :=
    {| packet_Publish.payload := (lit "payload");
       packet_Publish.qos := (DeliveryQoS.AtLeastOnce {| DeliveryInfo.dup := true;
          DeliveryInfo.packet_identifier := (pkid 42) |});
       packet_Publish.retain := true;
       packet_Publish.topic_name := (topic_name (lit "topic/name"));
       packet_Publish.properties := {| PublishProperties.payload_format_indicator := PayloadFormatIndicator.UTF8;
          PublishProperties.message_expiry_interval := (Some 3600);
          PublishProperties.topic_alias := (Some 1);
          PublishProperties.response_topic := (Some (topic_name (lit "response/topic")));
          PublishProperties.correlation_data := (Some (lit "correlation"));
          PublishProperties.user_properties := [((lit "key1"), (lit "value1")); ((lit "key2"), (lit "value2"))];
          PublishProperties.subscription_identifiers := [1; 42];
          PublishProperties.content_type := (Some (lit "content/type")) |} |}.

Definition publish_internal : Publish.t :=
    {| Publish.payload := (lit "payload");
       Publish.packet_identifier_dup_qos := (PacketIdentifierDupQoS.AtLeastOnce (pkid 42) true);
       Publish.retain := true;
       Publish.topic_name := (topic (lit "topic/name"));
       Publish.other_properties := {| Publish.payload_is_utf8 := true;
          Publish.message_expiry_interval := (Some 3600);
          Publish.topic_alias := (Some 1);
          Publish.response_topic := (Some (topic (lit "response/topic")));
          Publish.correlation_data := (Some (data (lit "correlation")));
          Publish.user_properties := [((text (lit "key1")), (text (lit "value1"))); ((text (lit "key2")), (text (lit "value2")))];
          Publish.subscription_identifiers := [1; 42];
          Publish.content_type := (Some (text (lit "content/type"))) |} |}.

Definition publish_to_public : outcome unit :=
  compare_as_unbuffered packet_Publish.from publish_public publish_internal.

Definition publish_properties_conversion : outcome unit :=
  bidirectional_conversion PublishProperties.from PublishProperties.into
    (packet_Publish.properties publish_public) (Publish.other_properties publish_internal).

Definition puback_public : packet_PubAck.t :=
    {| packet_PubAck.packet_identifier := (pkid 42);
       packet_PubAck.reason := PubAckReason.NotAuthorized;
       packet_PubAck.properties := {| PubAckProperties.reason_string := (Some (lit "Not authorized"));
          PubAckProperties.user_properties := [((lit "key1"), (lit "value1")); ((lit "key2"), (lit "value2"))] |} |}.

Definition puback_internal : PubAck.t :=
    {| Ack.packet_identifier := (pkid 42);
       Ack.reason_code := PubAckReasonCode.NotAuthorized;
       Ack.other_properties := {| Acks.reason_string := (Some (text (lit "Not authorized")));
          Acks.user_properties := [((text (lit "key1")), (text (lit "value1"))); ((text (lit "key2")), (text (lit "value2")))] |} |}.

Definition puback_to_public : outcome unit :=
  compare_as_unbuffered packet_PubAck.from puback_public puback_internal.

Definition puback_properties_conversion : outcome unit :=
  bidirectional_conversion PubAckProperties.from PubAckProperties.into
    (packet_PubAck.properties puback_public) (Ack.other_properties puback_internal).

Definition pubrec_public : packet_PubRec.t :=
    {| packet_PubRec.packet_identifier := (pkid 42);
       packet_PubRec.reason := PubRecReason.NotAuthorized;
       packet_PubRec.properties := {| PubRecProperties.reason_string := (Some (lit "Not authorized"));
          PubRecProperties.user_properties := [((lit "key1"), (lit "value1")); ((lit "key2"), (lit "value2"))] |} |}.

Definition pubrec_internal : PubRec.t :=
    {| Ack.packet_identifier := (pkid 42);
       Ack.reason_code := PubRecReasonCode.NotAuthorized;
       Ack.other_properties := {| Acks.reason_string := (Some (text (lit "Not authorized")));
          Acks.user_properties := [((text (lit "key1")), (text (lit "value1"))); ((text (lit "key2")), (text (lit "value2")))] |} |}.

Definition pubrec_to_public : outcome unit :=
  compare_as_unbuffered packet_PubRec.from pubrec_public pubrec_internal.

Definition pubrec_properties_conversion : outcome unit :=
  bidirectional_conversion PubRecProperties.from PubRecProperties.into
    (packet_PubRec.properties pubrec_public) (Ack.other_properties pubrec_internal).

Definition pubrel_public : packet_PubRel.t :=
    {| packet_PubRel.packet_identifier := (pkid 42);
       packet_PubRel.reason := PubRelReason.PacketIdentifierNotFound;
       packet_PubRel.properties := {| PubRelProperties.reason_string := (Some (lit "Packet ID not found"));
          PubRelProperties.user_properties := [((lit "key1"), (lit "value1")); ((lit "key2"), (lit "value2"))] |} |}.

Definition pubrel_internal : PubRel.t :=
    {| Ack.packet_identifier := (pkid 42);
       Ack.reason_code := PubRelReasonCode.PacketIdentifierNotFound;
       Ack.other_properties := {| Acks.reason_string := (Some (text (lit "Packet ID not found")));
          Acks.user_properties := [((text (lit "key1")), (text (lit "value1"))); ((text (lit "key2")), (text (lit "value2")))] |} |}.

Definition pubrel_to_public : outcome unit :=
  compare_as_unbuffered packet_PubRel.from pubrel_public pubrel_internal.

Definition pubrel_properties_conversion : outcome unit :=
  bidirectional_conversion PubRelProperties.from PubRelProperties.into
    (packet_PubRel.properties pubrel_public) (Ack.other_properties pubrel_internal).

Definition pubcomp_public : packet_PubComp.t :=
    {| packet_PubComp.packet_identifier := (pkid 42);
       packet_PubComp.reason := PubCompReason.PacketIdentifierNotFound;
       packet_PubComp.properties := {| PubCompProperties.reason_string := (Some (lit "Packet ID not found"));
          PubCompProperties.user_properties := [((lit "key1"), (lit "value1")); ((lit "key2"), (lit "value2"))] |} |}.

Definition pubcomp_internal : PubComp.t :=
    {| Ack.packet_identifier := (pkid 42);
       Ack.reason_code := PubCompReasonCode.PacketIdentifierNotFound;
       Ack.other_properties := {| Acks.reason_string := (Some (text (lit "Packet ID not found")));
          Acks.user_properties := [((text (lit "key1")), (text (lit "value1"))); ((text (lit "key2")), (text (lit "value2")))] |} |}.

Definition pubcomp_to_public : outcome unit :=
  compare_as_unbuffered packet_PubComp.from pubcomp_public pubcomp_internal.

Definition pubcomp_properties_conversion : outcome unit :=
  bidirectional_conversion PubCompProperties.from PubCompProperties.into
    (packet_PubComp.properties pubcomp_public) (Ack.other_properties pubcomp_internal).

Definition subscribe_public : SubscribeProperties.t :=
    {| SubscribeProperties.subscription_identifier := (Some 42);
       SubscribeProperties.user_properties := [((lit "key1"), (lit "value1")); ((lit "key2"), (lit "value2"))] |}.

Definition subscribe_internal : Subscribe.OtherProperties :=
    {| Subscribe.subscription_identifier := (Some 42);
       Subscribe.user_properties := [((text (lit "key1")), (text (lit "value1"))); ((text (lit "key2")), (text (lit "value2")))] |}.

Definition subscribe_properties_conversion : outcome unit :=
  bidirectional_conversion SubscribeProperties.from SubscribeProperties.into subscribe_public subscribe_internal.

Definition suback_public : packet_SubAck.t :=
    {| packet_SubAck.packet_identifier := (pkid 42);
       packet_SubAck.reasons := [SubAckReason.GrantedQoS0; SubAckReason.NotAuthorized];
       packet_SubAck.properties := {| SubAckProperties.reason_string := (Some (lit "Not authorized"));
          SubAckProperties.user_properties := [((lit "key1"), (lit "value1")); ((lit "key2"), (lit "value2"))] |} |}.

Definition suback_internal : SubAck.t :=
    {| SubAck.packet_identifier := (pkid 42);
       SubAck.reason_codes := [SubscribeReasonCode.GrantedQoS0; SubscribeReasonCode.NotAuthorized];
       SubAck.other_properties := {| Acks.reason_string := (Some (text (lit "Not authorized")));
          Acks.user_properties := [((text (lit "key1")), (text (lit "value1"))); ((text (lit "key2")), (text (lit "value2")))] |} |}.

Definition suback_to_public : outcome unit :=
  compare_as_unbuffered packet_SubAck.from suback_public suback_internal.

Definition suback_properties_conversion : outcome unit :=
  bidirectional_conversion SubAckProperties.from SubAckProperties.into
    (packet_SubAck.properties suback_public) (SubAck.other_properties suback_internal).

Definition unsubscribe_public : UnsubscribeProperties.t :=
    {| UnsubscribeProperties.user_properties := [((lit "key1"), (lit "value1")); ((lit "key2"), (lit "value2"))] |}.

Definition unsubscribe_internal : list (ByteStr * ByteStr) :=
    [((text (lit "key1")), (text (lit "value1"))); ((text (lit "key2")), (text (lit "value2")))].

Definition unsubscribe_properties_conversion : outcome unit :=
  bidirectional_conversion UnsubscribeProperties.from UnsubscribeProperties.into unsubscribe_public unsubscribe_internal.

Definition unsuback_public : packet_UnsubAck.t :=
    {| packet_UnsubAck.packet_identifier := (pkid 42);
       packet_UnsubAck.reasons := [UnsubAckReason.Success; UnsubAckReason.NotAuthorized];
       packet_UnsubAck.properties := {| UnsubAckProperties.reason_string := (Some (lit "Not authorized"));
          UnsubAckProperties.user_properties := [((lit "key1"), (lit "value1")); ((lit "key2"), (lit "value2"))] |} |}.

Definition unsuback_internal : UnsubAck.t :=
    {| UnsubAck.packet_identifier := (pkid 42);
       UnsubAck.reason_codes := [UnsubAckReasonCode.Success; UnsubAckReasonCode.NotAuthorized];
       UnsubAck.other_properties := {| Acks.reason_string := (Some (text (lit "Not authorized")));
          Acks.user_properties := [((text (lit "key1")), (text (lit "value1"))); ((text (lit "key2")), (text (lit "value2")))] |} |}.

Definition unsuback_to_public : outcome unit :=
  compare_as_unbuffered packet_UnsubAck.from unsuback_public unsuback_internal.

Definition unsuback_properties_conversion : outcome unit :=
  bidirectional_conversion UnsubAckProperties.from UnsubAckProperties.into
    (packet_UnsubAck.properties unsuback_public) (UnsubAck.other_properties unsuback_internal).

Definition disconnect_public : packet_Disconnect.t :=
    {| packet_Disconnect.reason := DisconnectReason.NormalDisconnection;
       packet_Disconnect.properties := {| DisconnectProperties.session_expiry_interval := (Some (SessionExpiryInterval.Duration 3600));
          DisconnectProperties.reason_string := (Some (lit "Normal disconnection"));
          DisconnectProperties.user_properties := [((lit "key1"), (lit "value1")); ((lit "key2"), (lit "value2"))];
          DisconnectProperties.server_reference := (Some (lit "server/ref")) |} |}.

Definition disconnect_internal : Disconnect.t :=
    {| Disconnect.reason_code := DisconnectReasonCode.Normal;
       Disconnect.other_properties := {| Disconnect.session_expiry_interval := (Some (SessionExpiryInterval.Duration 3600));
          Disconnect.reason_string := (Some (text (lit "Normal disconnection")));
          Disconnect.user_properties := [((text (lit "key1")), (text (lit "value1"))); ((text (lit "key2")), (text (lit "value2")))];
          Disconnect.server_reference := (Some (text (lit "server/ref"))) |} |}.

Definition disconnect_to_public : outcome unit :=
  compare_as_unbuffered packet_Disconnect.from disconnect_public disconnect_internal.

Definition disconnect_properties_conversion : outcome unit :=
  bidirectional_conversion DisconnectProperties.from DisconnectProperties.into
    (packet_Disconnect.properties disconnect_public) (Disconnect.other_properties disconnect_internal).

Definition auth_public : packet_Auth.t :=
    {| packet_Auth.reason := AuthReason.ContinueAuthentication;
       packet_Auth.authentication_info := (Some {| AuthenticationInfo.method := (lit "authmethod");
          AuthenticationInfo.data := (Some (lit "authdata")) |});
       packet_Auth.properties := {| AuthProperties.reason_string := (Some (lit "Continue authentication"));
          AuthProperties.user_properties := [((lit "key1"), (lit "value1")); ((lit "key2"), (lit "value2"))] |} |}.

Definition auth_internal : Auth.t :=
    {| Auth.reason_code := AuthenticateReasonCode.ContinueAuthentication;
       Auth.authentication := (Some {| Authentication.method := (text (lit "authmethod"));
          Authentication.data := (Some (data (lit "authdata"))) |});
       Auth.reason_string := (Some (text (lit "Continue authentication")));
       Auth.user_properties := [((text (lit "key1")), (text (lit "value1"))); ((text (lit "key2")), (text (lit "value2")))] |}.

Definition auth_conversion : outcome unit :=
  bidirectional_conversion packet_Auth.from packet_Auth.into auth_public auth_internal.

(** ** topic.rs *)

Definition convert_to_buffered_proto_types : outcome unit :=
  let! tn := unwrap_ok (TopicName_new (lit "a/b/c")) in
  let! tf := unwrap_ok (TopicFilter_new (lit "a/b/+")) in
  let! tn_buffered := Topic_from (TopicName_into_inner tn) in
  let! _ := assert_eq (TopicName_as_str tn) (Topic_as_str tn_buffered) "assert_eq" in
  let! tf_buffered := Filter_from (TopicFilter_into_inner tf) in
  assert_eq (TopicFilter_as_str tf) (Filter_as_str tf_buffered) "assert_eq".

Definition convert_from_buffered_proto_types : outcome unit :=
  let! s := ByteStr_from (lit "a/b/c") in
  let! tn_buffered := unwrap_ok (Topic_new s) in
  let! s := ByteStr_from (lit "a/b/+") in
  let! tf_buffered := unwrap_ok (Filter_new s) in
  let tn := TopicName_from (Topic_to_owned tn_buffered) in
  let tf := TopicFilter_from (Filter_to_owned tf_buffered) in
  let! _ := assert_eq (TopicName_as_str tn) (Topic_as_str tn_buffered) "assert_eq" in
  assert_eq (TopicFilter_as_str tf) (Filter_as_str tf_buffered) "assert_eq".

Definition all : list (outcome unit) :=
  [ property_defaults; connect_properties_conversion; connack_to_public; connack_properties_conversion;
    publish_to_public; publish_properties_conversion; puback_to_public;
    puback_properties_conversion; pubrec_to_public; pubrec_properties_conversion;
    pubrel_to_public; pubrel_properties_conversion; pubcomp_to_public;
    pubcomp_properties_conversion; subscribe_properties_conversion; suback_to_public;
    suback_properties_conversion; unsubscribe_properties_conversion; unsuback_to_public;
    unsuback_properties_conversion; disconnect_to_public; disconnect_properties_conversion;
    auth_conversion; convert_to_buffered_proto_types; convert_from_buffered_proto_types ].
End ConversionTests.

(** The public packets pass the unit tests of packet.rs and topic.rs: the example of each packet
    converts to the public type field by field, its properties convert both ways, and so do the
    defaults. *)
Lemma conversion_tests_pass : Forall (fun test => test = Returns tt) ConversionTests.all.
Proof. apply all_pass. vm_compute. reflexivity. Qed.
