(* ===== verification/WebSocket.v ===== *)
(** * MQTT over WebSocket messages

    [WebSocketStream] of io/tokio_ws.rs: a byte stream over the messages of a
    WebSocket connection. The connection itself is tungstenite's, a [Stream] and
    a [Sink] of messages, and is the parameter [MessageStream]. *)

From S2P Require Export Writer.
Local Open Scope Z_scope.

(** [tungstenite::Message] and [tungstenite::Error]. *)
Inductive Message : Set :=
  | Text (text : str)
  | Binary (data : list u8)
  | Ping (data : list u8)
  | Pong (data : list u8)
  | Close (frame : option (u16 * str))
  | Frame (frame : list u8).

Inductive WsError : Set :=
  | WsIo (err : IoError)
  | WsOther (code : Z).

(** [tungstenite_err_to_io_err], which [poll_read] and the others write out:
    [IoError::other] keeps the error of the library. *)
Definition tungstenite_err_to_io_err (err : WsError) : IoError :=
  match err with
  | WsIo err => err
  | WsOther code => StreamError code
  end.

(** The two directions of [TungsteniteWebSocketStream], awaited; [backlog] bounds the
    messages that are still to come. *)
Class MessageStream (Tu : Type) := {
  poll_next : Tu -> option (result WsError Message) * Tu;
  backlog : Tu -> nat;
  poll_ready : Tu -> result WsError () * Tu;
  start_send : Message -> Tu -> result WsError () * Tu;
  sink_flush : Tu -> result WsError () * Tu;
  sink_close : Tu -> result WsError () * Tu;
}.

(** [struct WebSocketStream]. *)
Record WebSocketStream (Tu : Type) := mkWebSocketStream { ws_inner : Tu; next_read : list u8 }.
Arguments mkWebSocketStream {_} _ _.
Arguments ws_inner {_} _.
Arguments next_read {_} _.

Section websocket.
Context {Tu : Type} `{MessageStream Tu}.
Implicit Types s : WebSocketStream Tu.

(** [AsyncRead::poll_read] with a buffer that has room for [remaining] bytes. A
    round that goes on has taken a message; [None] is out of fuel. *)
Fixpoint poll_read_loop (fuel : nat) (remaining : usize) s :
    option (WebSocketStream Tu * outcome (result IoError (list u8))) :=
  match fuel with
  | O => None
  | S fuel =>
      if list_is_empty (next_read s) then
        let '(next, inner) := poll_next (ws_inner s) in
        let s := mkWebSocketStream inner (next_read s) in
        match next with
        | Some (Ok (Binary next_read)) => poll_read_loop fuel remaining (mkWebSocketStream inner next_read)
        | Some (Ok (Text _)) =>
            Some (s, Returns (Err (InvalidData "MQTT data must be sent in WebSocket binary frames")))
        | Some (Ok (Close _)) => Some (s, Returns (Ok []))
        | Some (Ok (Ping _)) | Some (Ok (Pong _)) => poll_read_loop fuel remaining s
        | Some (Ok (Frame _)) => Some (s, Panics "reading from tungstenite stream never yields raw frames")
        | Some (Err err) => Some (s, Returns (Err (tungstenite_err_to_io_err err)))
        | None => Some (s, Returns (Ok []))
        end
      else
        let to_read := Z.min remaining (len (next_read s)) in
        Some (mkWebSocketStream (ws_inner s) (drop (Z.to_nat to_read) (next_read s)),
              Returns (Ok (take (Z.to_nat to_read) (next_read s))))
  end.

(** One round per message that is to come, one to find the end or the next
    message, and one to deliver. *)
Definition ws_fuel s : nat := 2 + backlog (ws_inner s).
Definition ws_poll_read (remaining : usize) s := poll_read_loop (ws_fuel s) remaining s.

(** [AsyncWrite::poll_write]. *)
Definition ws_poll_write (buf : list u8) s : WebSocketStream Tu * result IoError usize :=
  match poll_ready (ws_inner s) with
  | (Err err, inner) => (mkWebSocketStream inner (next_read s), Err (tungstenite_err_to_io_err err))
  | (Ok _, inner) =>
      match start_send (Binary buf) inner with
      | (Ok _, inner) => (mkWebSocketStream inner (next_read s), Ok (len buf))
      | (Err err, inner) => (mkWebSocketStream inner (next_read s), Err (tungstenite_err_to_io_err err))
      end
  end.

(** [AsyncWrite::poll_flush] and [poll_shutdown]. *)
Definition ws_poll_flush s : WebSocketStream Tu * result IoError () :=
  let '(r, inner) := sink_flush (ws_inner s) in
  (mkWebSocketStream inner (next_read s), map_err tungstenite_err_to_io_err r).
Definition ws_poll_shutdown s : WebSocketStream Tu * result IoError () :=
  let '(r, inner) := sink_close (ws_inner s) in
  (mkWebSocketStream inner (next_read s), map_err tungstenite_err_to_io_err r).

(** [poll_write_vectored] is the provided method of [AsyncWrite]: it writes the
    first buffer that is not empty. *)
Definition first_buffer (bufs : list (list u8)) : list u8 :=
  unwrap_or (List.find (fun b => negb (list_is_empty b)) bufs) [].

(** [ReadableStream for WebSocketStreamRead] and [WritableStream for
    WebSocketStreamWrite]. A read returns: [ws_read_spec] shows that the two other
    cases do not arise. *)
#[export] Instance WebSocketStreamRead : ReadableStream (WebSocketStream Tu) := {|
  stream_read s n :=
    match ws_poll_read n s with
    | Some (s, Returns r) => (s, r)
    | _ => (s, Err UnexpectedEof)
    end;
|}.

#[export] Instance WebSocketStreamWrite : WritableStream (WebSocketStream Tu) := {|
  stream_write s bufs := ws_poll_write (first_buffer bufs) s;
  stream_flush s := ws_poll_flush s;
|}.
End websocket.

(** What tungstenite documents: the messages arrive one after the other and raw
    frames are not among them; a message given to [start_send] is queued, once, unless
    it is refused. *)
Class MessageLaws (Tu : Type) `{MessageStream Tu} := {
  messages : Tu -> list (result WsError Message);
  outbox : Tu -> list Message;
  poll_next_head : forall t, fst (poll_next t) = hd_error (messages t);
  poll_next_tail : forall t, messages (snd (poll_next t)) = tail (messages t);
  no_raw_frames : forall t f, Ok (Frame f) ∉ messages t;
  backlog_bound : forall t, (length (messages t) <= backlog t)%nat;
  poll_ready_outbox : forall t, outbox (snd (poll_ready t)) = outbox t;
  start_send_outbox : forall m t,
    outbox (snd (start_send m t)) = outbox t ++ match fst (start_send m t) with Ok _ => [m] | Err _ => [] end;
  sink_flush_outbox : forall t, outbox (snd (sink_flush t)) = outbox t;
}.
Arguments MessageLaws Tu {_}.

(** The bytes that messages carry until one that ends the stream. *)
Fixpoint payload (ms : list (result WsError Message)) : list u8 :=
  match ms with
  | Ok (Binary data) :: ms => data ++ payload ms
  | Ok (Ping _) :: ms | Ok (Pong _) :: ms => payload ms
  | _ => []
  end.

(** How a stream of messages ends: what a read yields when the bytes are gone. *)
Fixpoint ending (ms : list (result WsError Message)) : result IoError (list u8) :=
  match ms with
  | Ok (Binary _) :: ms | Ok (Ping _) :: ms | Ok (Pong _) :: ms => ending ms
  | Ok (Text _) :: _ => Err (InvalidData "MQTT data must be sent in WebSocket binary frames")
  | Err err :: _ => Err (tungstenite_err_to_io_err err)
  | Ok (Close _) :: _ | Ok (Frame _) :: _ | [] => Ok []
  end.

(** The bytes of the messages that were sent. *)
Definition message_data (m : Message) : list u8 := match m with Binary data => data | _ => [] end.
Definition sent_data (ms : list Message) : list u8 := concat (map message_data ms).

Section reading.
Context {Tu : Type} `{MessageLaws Tu}.
Implicit Types s : WebSocketStream Tu.

Definition ws_pending s : list u8 := next_read s ++ payload (messages (ws_inner s)).

(** A read always returns. It yields the next bytes of the binary messages, skipping
    empty ones, pings and pongs; only when there are none left, it yields what
    the end of the stream means. *)
Lemma poll_read_loop_spec fuel n s :
  0 < n -> (2 + length (messages (ws_inner s)) <= fuel)%nat ->
  exists s' r, poll_read_loop fuel n s = Some (s', Returns r) /\
    if list_is_empty (ws_pending s) then r = ending (messages (ws_inner s))
    else exists k, (1 <= k <= length (ws_pending s))%nat /\ Z.of_nat k <= n /\
      r = Ok (take k (ws_pending s)) /\ ws_pending s' = drop k (ws_pending s).
Proof.
  intros Hn. revert s. induction fuel as [|fuel IH]; intros s Hf; [lia|]. cbn [poll_read_loop].
  destruct s as [t [|b nr]]; cbn [next_read ws_inner list_is_empty] in *.
  - pose proof (poll_next_head t) as Hh. pose proof (poll_next_tail t) as Ht.
    pose proof (no_raw_frames t) as Hnf. unfold ws_pending. cbn [next_read ws_inner app].
    destruct (poll_next t) as [next inner]. cbn [fst snd] in Hh, Ht.
    destruct (messages t) as [|m ms]; cbn in Hh, Ht, Hf; subst next; [by do 2 eexists|].
    assert (Hloop : forall nr, exists s' r, poll_read_loop fuel n (mkWebSocketStream inner nr) = Some (s', Returns r) /\
      if list_is_empty (nr ++ payload ms) then r = ending ms
      else exists k, (1 <= k <= length (nr ++ payload ms))%nat /\ Z.of_nat k <= n /\
        r = Ok (take k (nr ++ payload ms)) /\ ws_pending s' = drop k (nr ++ payload ms)).
    { intros nr. destruct (IH (mkWebSocketStream inner nr)) as (s' & r & E & Hr); [cbn; rewrite Ht; lia|].
      change (ws_pending (mkWebSocketStream inner nr)) with (nr ++ payload (messages inner)) in Hr.
      cbn [ws_inner] in Hr. rewrite Ht in Hr. eauto. }
    destruct m as [[t'|data|d|d|f|f]|err]; try (by do 2 eexists); try (by apply Hloop).
    exfalso. by apply (Hnf f), list_elem_of_here.
  - unfold ws_pending at 1. cbn [next_read ws_inner app list_is_empty]. do 2 eexists. split; [reflexivity|].
    set (l := b :: nr). exists (Z.to_nat (Z.min n (len l))).
    assert (1 <= len l) by (unfold l; rewrite len_cons; pose proof (len_nonneg nr); lia).
    unfold ws_pending. cbn [next_read ws_inner]. fold l. rewrite length_app.
    assert (Hle : (Z.to_nat (Z.min n (len l)) <= length l)%nat) by (unfold len in *; lia).
    split; [lia|]. split; [lia|]. by rewrite take_app_le, drop_app_le.
Qed.

Lemma ws_read_spec n s :
  0 < n ->
  exists s' r, ws_poll_read n s = Some (s', Returns r) /\ stream_read s n = (s', r) /\
    if list_is_empty (ws_pending s) then r = ending (messages (ws_inner s))
    else exists k, (1 <= k <= length (ws_pending s))%nat /\ Z.of_nat k <= n /\
      r = Ok (take k (ws_pending s)) /\ ws_pending s' = drop k (ws_pending s).
Proof.
  intros Hn. destruct (poll_read_loop_spec (ws_fuel s) n s Hn) as (s' & r & E & Hr).
  { unfold ws_fuel. pose proof (backlog_bound (ws_inner s)). lia. }
  exists s', r. split; [exact E|]. split; [|exact Hr].
  cbn [stream_read WebSocketStreamRead]. unfold ws_poll_read. by rewrite E.
Qed.

(** So the stream is the one that the reader is proved against. *)
#[export] Instance WebSocketStream_reliable : ReliableStream (WebSocketStream Tu).
Proof.
  refine {| pending := ws_pending |}. intros s n Hn Hp.
  destruct (ws_read_spec n s Hn) as (s' & r & _ & E & Hr). destruct (ws_pending s) eqn:Ep; [done|].
  cbn [list_is_empty] in Hr. destruct Hr as (k & Hk & Hkn & -> & Hs'). exists k, s'.
  split; [exact Hk|]. split; [exact Hkn|]. split; [exact E|exact Hs'].
Defined.

(** It stores bytes if the messages carry bytes. *)
Definition message_bytes (m : result WsError Message) : Prop :=
  match m with Ok m => bytes_ok (message_data m) | Err _ => True end.
Definition ws_ok s : Prop := bytes_ok (next_read s) /\ Forall message_bytes (messages (ws_inner s)).

Lemma poll_read_loop_lawful fuel n s s' r :
  poll_read_loop fuel n s = Some (s', Returns r) ->
  (forall bs, r = Ok bs -> 0 <= n -> len bs <= n) /\
  (ws_ok s -> ws_ok s' /\ forall bs, r = Ok bs -> bytes_ok bs).
Proof.
  revert s. induction fuel as [|fuel IH]; intros [t [|b nr]] E; [done..| |]; cbn [poll_read_loop] in E;
    cbn [next_read ws_inner list_is_empty] in E.
  - pose proof (poll_next_tail t) as Ht. pose proof (poll_next_head t) as Hh.
    destruct (poll_next t) as [next inner]. cbn [fst snd] in Ht, Hh.
    assert (Hk : forall nr, bytes_ok nr -> ws_ok (mkWebSocketStream t []) -> ws_ok (mkWebSocketStream inner nr)).
    { intros nr Hnr [_ Hm]. split; [done|]. cbn in *. rewrite Ht. destruct (messages t); [done|]. by inversion Hm. }
    assert (Hd : forall data, ws_ok (mkWebSocketStream t []) -> next = Some (Ok (Binary data)) -> bytes_ok data).
    { intros data [_ Hm] ->. cbn in Hm. destruct (messages t); [done|]. injection Hh as <-. by inversion Hm. }
    assert (Hnil : bytes_ok []) by constructor.
    destruct next as [[[t'|data|d|d|f|f]|err]|]; try done; try (injection E as <- <-);
      try (apply IH in E as [Hf Ho]; split; [done|]; intros Hs; apply Ho, Hk; [|done]; eauto; fail);
      (split; [by intros bs [= <-] Hn|]); intros Hs; (split; [by apply Hk|]); by intros bs [= <-].
  - injection E as <- <-. set (l := b :: nr). split.
    + intros bs [= <-] Hn. unfold len in *. rewrite length_take. lia.
    + intros [Hb Hm]. cbn in Hb, Hm. split; [split; [by apply Forall_drop|done]|].
      intros bs [= <-]. by apply Forall_take.
Qed.

Lemma ws_stream_read_cases n s s' r :
  stream_read s n = (s', r) ->
  ws_poll_read n s = Some (s', Returns r) \/ s' = s /\ r = Err UnexpectedEof.
Proof.
  cbn [stream_read WebSocketStreamRead]. destruct (ws_poll_read n s) as [[s1 [r1|m]]|];
    intros [= <- <-]; auto.
Qed.

#[export] Instance WebSocketStream_readable : LawfulReadable (WebSocketStream Tu).
Proof.
  refine {| stream_ok := ws_ok |}; intros s n s' r.
  - intros Hn [E|[_ [=]]]%ws_stream_read_cases. by apply (poll_read_loop_lawful _ _ _ _ _ E).
  - intros Hs [E|[_ [=]]]%ws_stream_read_cases. by apply (poll_read_loop_lawful _ _ _ _ _ E).
  - intros Hs [E|[-> _]]%ws_stream_read_cases; [|done]. by apply (poll_read_loop_lawful _ _ _ _ _ E).
Defined.

(** And the stream that the writer is proved against: every write is one message. *)
#[export] Instance WebSocketStream_writable : LawfulWritable (WebSocketStream Tu).
Proof.
  refine {| sent s := sent_data (outbox (ws_inner s)) |}.
  - intros s bufs s' n. cbn. unfold ws_poll_write. pose proof (poll_ready_outbox (ws_inner s)) as H1.
    destruct (poll_ready (ws_inner s)) as [[[]|] t]; [|done]. cbn in H1.
    pose proof (start_send_outbox (Binary (first_buffer bufs)) t) as H2.
    destruct (start_send _ t) as [[[]|] t']; [|done]. cbn in H2. intros [= <- <-]. cbn [ws_inner].
    rewrite H2, H1. unfold sent_data. rewrite map_app, concat_app. cbn. rewrite app_nil_r.
    assert (Hp : exists rest, concat bufs = first_buffer bufs ++ rest).
    { unfold first_buffer. clear. induction bufs as [|[|b buf] bufs IH]; [by exists []|exact IH|]. cbn. eauto. }
    destruct Hp as [rest ->]. rewrite len_app, take_len_app. pose proof (len_nonneg (first_buffer bufs)).
    pose proof (len_nonneg rest). split; [lia|done].
  - intros s bufs s' e. cbn. unfold ws_poll_write. pose proof (poll_ready_outbox (ws_inner s)) as H1.
    destruct (poll_ready (ws_inner s)) as [[[]|] t]; cbn in H1; [|intros [= <- _]; cbn; by rewrite H1].
    pose proof (start_send_outbox (Binary (first_buffer bufs)) t) as H2.
    destruct (start_send _ t) as [[[]|] t']; [done|]. cbn in H2. intros [= <- _]. cbn.
    by rewrite H2, app_nil_r, H1.
  - intros s s' r. cbn. unfold ws_poll_flush. pose proof (sink_flush_outbox (ws_inner s)) as H1.
    destruct (sink_flush (ws_inner s)) as [r1 t]. intros [= <- _]. cbn in *. by rewrite H1.
Defined.
End reading.

(** ** Packets over WebSocket *)

(** The error of a reader that finds the end of the stream. *)
Definition end_error (r : result IoError (list u8)) : IoError :=
  match r with Ok _ => UnexpectedEof | Err e => e end.

Lemma ending_not_bytes ms : match ending ms with Ok bs => bs = [] | Err _ => True end.
Proof. induction ms as [|[[]|] ms IH]; cbn; done. Qed.

Section connection.
Context {Tu B : Type} `{MessageLaws Tu} `{LawfulQueue B} `{UnicodeLaws}.
Context {Tr Ow : Type} `{MessageLaws Tr} `{LawfulOwned Ow}.
Context (pool_unlimited : forall n (o : Ow), exists o', owned_reserve n o = Ok o').

Lemma mqtt_receive_end (r : Reader (WebSocketStream Tr) Ow) :
  incoming r = [] ->
  exists r', mqtt_receive r = Some (r', Err (ReceiveIo (end_error (ending (messages (ws_inner (reader_inner r))))))).
Proof.
  unfold incoming. intros [Hf Hp]%app_eq_nil. unfold mqtt_receive, Reader_read. cbn [read_header].
  rewrite Hf. cbn [decode_fixed_header]. unfold reserve_buf.
  destruct (pool_unlimited 5 (reader_buf r)) as [o Eo]. rewrite Eo.
  pose proof (unfilled_mut_len o 5 (owned_reserve_capacity _ _ _ Eo)) as Hn.
  unfold read_some. cbn [reader_inner reader_buf]. destruct (unfilled_mut o) as [o' n]. cbn in Hn.
  destruct (ws_read_spec n (reader_inner r) ltac:(lia)) as (s' & res & _ & -> & Hr).
  change (pending (reader_inner r)) with (ws_pending (reader_inner r)) in Hp. rewrite Hp in Hr. cbn in Hr.
  pose proof (ending_not_bytes (messages (ws_inner (reader_inner r)))) as He. rewrite <- Hr in *.
  destruct res as [bs|e]; [subst bs|]; eexists; reflexivity.
Qed.

(** C24: MQTT over WebSocket. Packets that are written on a fresh connection and flushed
    arrive at a peer whose binary messages carry the bytes that were sent, cut
    into messages in any way and with empty messages, pings and pongs in between: the
    same packets, in order, each once. After them the next read fails with what
    follows: [InvalidData] for a text message, the error of the connection, or an
    unexpected end after a close or the end of the stream. *)
Theorem websocket_in_order (w : Writer (WebSocketStream Tu) B) packets w1 fuel w2
    (r : Reader (WebSocketStream Tr) Ow) :
  acc_committed (writer_buf w) -> output w = [] ->
  Forall (Packet.wf V5) packets ->
  writes w packets w1 ->
  len (view (writer_buf w1)) < Z.of_nat fuel ->
  Writer_flush fuel w1 = Some (w2, Returns (Ok tt)) ->
  filled (reader_buf r) = [] -> next_read (reader_inner r) = [] ->
  bytes_ok (payload (messages (ws_inner (reader_inner r)))) ->
  payload (messages (ws_inner (reader_inner r))) = sent_data (outbox (ws_inner (writer_inner w2))) ->
  exists r' r'', receive_many (length packets) r = Some (r', Ok packets) /\
    mqtt_receive r' =
      Some (r'', Err (ReceiveIo (end_error (ending (messages (ws_inner (reader_inner r'))))))).
Proof.
  intros Hc Ho Hwf Hw Hf Hfl Hfill Hnr Hb Hi.
  assert (Hin : incoming r = payload (messages (ws_inner (reader_inner r)))).
  { unfold incoming. rewrite Hfill. cbn. unfold ws_pending. by rewrite Hnr. }
  destruct (writes_received pool_unlimited w packets w1 fuel w2 r) as (r' & Hr & He); try done.
  { by rewrite Hin. }
  { by rewrite Hin. }
  destruct (mqtt_receive_end r' He) as [r'' E]. eauto.
Qed.
End connection.

(** ** Evaluation *)

(** A connection whose messages are at hand and that queues everything. *)
Record Chat : Set := mkChat { chat_in : list (result WsError Message); chat_out : list Message }.

Definition not_frame (m : result WsError Message) : bool :=
  match m with Ok (Frame _) => false | _ => true end.

Definition chat_messages (t : Chat) : list (result WsError Message) := List.filter not_frame (chat_in t).

#[export] Instance Chat_stream : MessageStream Chat := {|
  poll_next t := (hd_error (chat_messages t), mkChat (tail (chat_messages t)) (chat_out t));
  backlog t := length (chat_in t);
  poll_ready t := (Ok tt, t);
  start_send m t := (Ok tt, mkChat (chat_in t) (chat_out t ++ [m]));
  sink_flush t := (Ok tt, t);
  sink_close t := (Ok tt, t);
|}.

#[export] Instance Chat_laws : MessageLaws Chat.
Proof.
  refine {| messages := chat_messages; outbox := chat_out |}; try done.
  - intros t. change (List.filter not_frame (tail (chat_messages t)) = tail (chat_messages t)).
    assert (HF : Forall (fun m => not_frame m = true) (chat_messages t)).
    { apply Forall_forall. intros m Hm%list_elem_of_In%filter_In. apply Hm. }
    destruct HF as [|m ms _ HF]; [done|]. cbn. induction HF as [|m' ms Hm _ IH]; [done|]. cbn. by rewrite Hm, IH.
  - intros t f Hf%list_elem_of_In%filter_In. by destruct Hf.
  - intros t. cbn. apply List.filter_length_le.
Defined.

Definition ws_writer : Writer (WebSocketStream Chat) (EitherAccumulator VecOwned) :=
  mkWriter (mkWebSocketStream (mkChat [] []) []) (EitherSingle SingleAccumulator_new).
Definition ws_packets : list Packet.t := [Packet.PingReq PingReq.mk; publish_sample].
Definition ws_written : Writer (WebSocketStream Chat) (EitherAccumulator VecOwned) :=
  foldl (fun w p => match Writer_write (H1 := Ascii) 60 p V5 w with Some (w, _) => w | None => w end)
    ws_writer ws_packets.
Definition ws_flushed : Writer (WebSocketStream Chat) (EitherAccumulator VecOwned) :=
  match Writer_flush 60 ws_written with Some (w, _) => w | None => ws_written end.

(** The same bytes in other messages, and a text message at the end. *)
Definition ws_reader : Reader (WebSocketStream Chat) VecOwned :=
  mkReader (mkWebSocketStream (mkChat
    [Ok (Ping []); Ok (Binary [192]); Ok (Binary []); Ok (Binary (0 :: take 3 publish_sample_bytes));
     Ok (Pong [1]); Ok (Binary (drop 3 publish_sample_bytes)); Ok (Text [])] []) []) (mkVecOwned [] 0).

Lemma websocket_in_order_witness :
  chat_out (ws_inner (writer_inner ws_flushed)) = [Binary ([192; 0] ++ publish_sample_bytes)] /\
  exists r' r'', receive_many (H1 := Ascii) 2 ws_reader = Some (r', Ok ws_packets) /\
    mqtt_receive (H1 := Ascii) r' = Some (r'', Err (ReceiveIo
      (end_error (ending (messages (ws_inner (reader_inner r'))))))).
Proof.
  split; [vm_compute; reflexivity|].
  apply (@websocket_in_order _ _ _ _ _ _ _ Ascii Ascii_laws _ _ _ _ _ _ vec_unlimited
    ws_writer ws_packets ws_written 60 ws_flushed ws_reader).
  - exact I.
  - reflexivity.
  - constructor; [exact I|constructor; [|constructor]].
    apply (@Packet_decode_full_wf Ascii Ascii_laws publish_sample_bytes);
      [apply publish_sample_bytes_ok | vm_compute; reflexivity].
  - do 2 (eapply (writes_cons 60); [vm_compute; reflexivity|vm_compute; reflexivity|]). apply writes_nil.
  - vm_compute; reflexivity.
  - vm_compute; reflexivity.
  - reflexivity.
  - reflexivity.
  - replace (payload _) with ([192; 0] ++ publish_sample_bytes) by (vm_compute; reflexivity).
    apply Forall_app; split; [solve_bytes|apply publish_sample_bytes_ok].
  - vm_compute; reflexivity.
Defined.
