(* ===== verification/IoTests.v ===== *)
(** * The unit tests of the streams

    The [mod tests] of io/reader.rs, io/writer.rs, io/stream.rs and io/tokio_ws.rs, run on the
    model as those of PacketTests.v, with their mock streams. The WebSocket tests run on the
    messages that their server sends; the handshake before them belongs to the library. *)

From S2P Require Export WebSocket Proxy StringTests.
Local Open Scope Z_scope.

(** [.await] of a future that is ready. *)
Definition ready {A} (r : option A) : outcome A :=
  match r with Some a => Returns a | None => Panics "out of fuel" end.

(** ** io/reader.rs *)

Module ReaderTests.
(** [struct MockReadableStream]: the pieces that the reads return. *)
Record MockReadableStream : Set := mkMock { reads : list (list u8) }.

#[export] Instance MockReadableStream_readable : ReadableStream MockReadableStream := {|
  stream_read s n :=
    match reads s with
    | [] => (s, Ok [])
    | next_read :: rest =>
        let read := take (Z.to_nat n) next_read in
        let next_read := drop (Z.to_nat n) next_read in
        (mkMock (if list_is_empty next_read then rest else next_read :: rest), Ok read)
    end;
|}.

Definition read (r : Reader MockReadableStream Room) :
    outcome (Reader MockReadableStream Room * result IoError RawPacket) := ready (Reader_read r).

(** At the end the stream is dropped, which asserts that it was read to its end. *)
Definition it_works : outcome unit :=
  let stream := mkMock
    [ [0x10; 0x12; 0x00; 0x04];
      [0x4D; 0x51; 0x54; 0x54; 0x05; 0x02; 0x00; 0x00; 0x05; 0x11; 0xFF; 0xFF; 0xFF; 0xFF; 0x00; 0x00; 0x82];
      [0x09; 0x00; 0x01; 0x00; 0x00; 0x03; 0x66; 0x6F; 0x6F; 0x09; 0x32] ] in
  let reader := mkReader stream owned0 in
  let! (reader, packet) := read reader in
  let! packet := unwrap_ok packet in
  let! _ := assert ((raw_first_byte packet =? 0x10) && str_eqb (raw_rest packet)
    [0x00; 0x04; 0x4D; 0x51; 0x54; 0x54; 0x05; 0x02; 0x00; 0x00; 0x05; 0x11; 0xFF; 0xFF; 0xFF; 0xFF; 0x00; 0x00]) in
  let! (reader, packet) := read reader in
  let! packet := unwrap_ok packet in
  let! _ := assert ((raw_first_byte packet =? 0x82) && str_eqb (raw_rest packet)
    [0x00; 0x01; 0x00; 0x00; 0x03; 0x66; 0x6F; 0x6F; 0x09]) in
  let! (reader, packet) := read reader in
  let! _ := assert (match packet with Err UnexpectedEof => true | _ => false end) in
  assert (list_is_empty (reads (reader_inner reader))).
End ReaderTests.

(** ** io/writer.rs *)

Module WriterTests.
(** [struct MockWritableStream] takes everything. It panics on a write that is not the next
    expected one; here it keeps the writes, which are compared when it is dropped. *)
Record MockWritableStream : Set := mkMock { written_slices : list (list (list u8)) }.

#[export] Instance MockWritableStream_writable : WritableStream MockWritableStream := {|
  stream_write s bufs := (mkMock (written_slices s ++ [bufs]), Ok (len (concat bufs)));
  stream_flush s := (s, Ok tt);
|}.

Abbreviation MockWriter := (Writer MockWritableStream (EitherAccumulator Room)).

Definition write (packet : Packet.t) (w : MockWriter) : outcome MockWriter :=
  let! (w, r) := ready (Writer_write 100 packet V5 w) in
  let! r := r in
  let! _ := unwrap_ok r in
  Returns w.

Definition flush (w : MockWriter) : outcome MockWriter :=
  let! (w, r) := ready (Writer_flush 100 w) in
  let! r := r in
  let! _ := unwrap_ok r in
  Returns w.

Definition p1 : Packet.t :=
  Packet.Connect
    {| Connect.username := None;
       Connect.password := None;
       Connect.will := None;
       Connect.client_id := None;
       Connect.clean_start := true;
       Connect.keep_alive := KeepAlive.Infinite;
       Connect.other_properties := Connect.OtherProperties_default |}.

Definition p2 : Packet.t :=
  Packet.Subscribe
    {| Subscribe.packet_identifier := pkid 1;
       Subscribe.subscribe_to :=
         [ {| SubscribeTo.topic_filter := filter (lit "foo");
              SubscribeTo.options :=
                {| SubscribeOptions.maximum_qos := QoS.AtLeastOnce;
                   SubscribeOptions.other_properties := SubscribeOptions.OtherProperties_default |} |} ];
       Subscribe.other_properties := Subscribe.OtherProperties_default |}.

Definition expected_writes : list (list (list u8)) :=
  [ [ [0x10; 0x0D; 0x00; 0x04; 0x4D; 0x51; 0x54; 0x54; 0x05; 0x02; 0x00; 0x00; 0x00; 0x00; 0x00];
      [0x82; 0x09; 0x00; 0x01; 0x00];
      [0x00; 0x03; 0x66; 0x6F; 0x6F];
      [0x09] ] ].

Definition it_works : outcome unit :=
  let writer := mkWriter (mkMock []) (EitherIovecs (IovecsAccumulator_new owned0)) in
  let! writer := write p1 writer in
  let! writer := write p2 writer in
  let! writer := flush writer in
  assert (bool_decide (written_slices (writer_inner writer) = expected_writes)).
End WriterTests.

(** ** io/stream.rs *)

Module StreamTests.
(** [tokio::io::DuplexStream], as the client sees it: what it sent, and what the proxy wrote. *)
Record DuplexStream : Set := mkDuplex { duplex_sent : list u8; duplex_inbox : list u8 }.

(** The bytes up to a newline, and no more than [n]. *)
Fixpoint line_upto (n : Z) (bs : list u8) : list u8 :=
  match bs with
  | [] => []
  | b :: bs => if n <=? 0 then [] else b :: (if b =? 10 then [] else line_upto (n - 1) bs)
  end.

#[export] Instance Duplex_proxy : ProxyStream unit DuplexStream := {|
  BufReader := DuplexStream;
  async_write_all bs s := io_ret (mkDuplex (duplex_sent s ++ bs) (duplex_inbox s));
  BufReader_new s := s;
  take_read_line n r :=
    let l := line_upto n (duplex_inbox r) in
    if valid_utf8 l then io_ret (l, mkDuplex (duplex_sent r) (drop (length l) (duplex_inbox r)))
    else io_err (InvalidData "stream did not contain valid UTF-8");
  into_inner r := r;
|}.

(** What the exchange has become, without waiting for more than what the proxy sent. *)
Definition exchange (host : str) (response : list u8) : outcome (result IoError DuplexStream) :=
  match fst (http_connect_exchange (mkDuplex [] response) host 443 ProxyAuthorization.None tt) with
  | Ready r => Returns r
  | _ => Panics "proxy exchange should finish before the peer closes"
  end.

Definition exchange_response (response : list u8) : outcome (result IoError DuplexStream) :=
  exchange (lit "example.com") response.

Definition unwrap_err {A} (r : result IoError A) : outcome IoError :=
  match r with Err e => Returns e | Ok _ => Panics "called `Result::unwrap_err()` on an `Ok` value" end.

Definition is_invalid_data (e : IoError) : bool := match e with InvalidData _ => true | _ => false end.
Definition is_other (e : IoError) : bool :=
  match e with OtherText _ | OtherDecode _ | OtherEncode _ | OtherPool _ => true | _ => false end.

(** [let err = exchange_response(response).await.unwrap_err(); assert_eq!(err.kind(), kind);] *)
Definition rejects (kind : IoError -> bool) (response : list u8) : outcome unit :=
  let! r := exchange_response response in
  let! err := unwrap_err r in
  assert (kind err).

Definition rejects_oversized_proxy_status_line : outcome unit :=
  let response := lit "HTTP/1.1 200 " in
  rejects is_invalid_data
    (response ++ str_repeat (lit "x") (MAX_PROXY_RESPONSE_HEADER_BYTES + 1 - len response)).

(** The [while] loop appends the header as often as it fits below the limit, and once more. *)
Definition rejects_proxy_headers_over_cumulative_limit : outcome unit :=
  let response := lit "HTTP/1.1 200 OK" ++ CRLF in
  let header := lit "X-Test: value" ++ CRLF in
  let n := (MAX_PROXY_RESPONSE_HEADER_BYTES - len response) / len header + 1 in
  rejects is_invalid_data (response ++ str_repeat header n).

Definition formats_ipv6_proxy_authority : outcome unit :=
  let response := lit "HTTP/1.1 200 OK" ++ CRLF ++ CRLF in
  let expected_request := lit "CONNECT [2001:db8::1]:443 HTTP/1.1" ++ CRLF ++
    lit "Host: [2001:db8::1]:443" ++ CRLF ++ CRLF in
  let! r := exchange (lit "2001:db8::1") response in
  let! stream := unwrap_ok r in
  assert_eq (duplex_sent stream) expected_request "assert_eq".

Definition rejects_non_2xx_or_malformed_status_codes : outcome unit :=
  for_each [lit "199"; lit "300"; lit "2000"] (fun status =>
    rejects is_other (lit "HTTP/1.1 " ++ status ++ lit " Not Successful" ++ CRLF ++ CRLF)).

Definition accepts_any_2xx_status_code : outcome unit :=
  for_each [201; 250; 299] (fun status =>
    let response := lit "HTTP/1.1 " ++ decimal status ++ lit " Success" ++ CRLF ++ CRLF in
    let! r := exchange_response response in
    let! _ := unwrap_ok r in
    Returns tt).

Definition all : list (outcome unit) :=
  [ rejects_oversized_proxy_status_line; rejects_proxy_headers_over_cumulative_limit;
    formats_ipv6_proxy_authority; rejects_non_2xx_or_malformed_status_codes; accepts_any_2xx_status_code ].
End StreamTests.

(** ** io/tokio_ws.rs *)

Module WebSocketTests.
(** [websocket_reader]: the reader of a connection on which the server sends [messages]. *)
Definition websocket_reader (messages : list Message) : Reader (WebSocketStream Chat) Room :=
  mkReader (mkWebSocketStream (mkChat (map Ok messages) []) []) owned0.

Definition binary_frames_are_read_as_mqtt_packets : outcome unit :=
  let packet := [0x30; 0x04; 0x00; 0x01; 0x61; 0x00] in
  let reader := websocket_reader [Ping []; Binary packet] in
  let! (_, r) := ready (Reader_read reader) in
  assert (match r with
          | Ok packet => (raw_first_byte packet =? 0x30) && str_eqb (raw_rest packet) [0x00; 0x01; 0x61; 0x00]
          | Err _ => false
          end).

Definition text_frames_are_rejected (text : str) : outcome unit :=
  let reader := websocket_reader [Text text] in
  let! (_, r) := ready (Reader_read reader) in
  assert (match r with Err (InvalidData _) => true | _ => false end).

Definition text_cases : list str := [[0x30; 0x04; 0x00; 0x01; 0x61; 0x00]; []].

Definition all : list (outcome unit) :=
  [binary_frames_are_read_as_mqtt_packets; for_each text_cases text_frames_are_rejected].
End WebSocketTests.

(** ** All of them *)

Definition io_tests : list (outcome unit) :=
  ReaderTests.it_works :: WriterTests.it_works :: StreamTests.all ++ WebSocketTests.all.

(** The streams pass the unit tests of their files: packets cut across reads, vectored writes
    with the slices in place, the limits and status lines of the proxy exchange, and the frames
    of a WebSocket. *)
Lemma io_tests_pass : Forall (fun test => test = Returns tt) io_tests.
Proof. apply all_pass. vm_compute. reflexivity. Qed.
