(* ===== verification/Transport.v ===== *)
(** * Transports

    How a connection to the server is established: the configuration of
    transport.rs, [connect] and [connect_tls] of io/stream.rs with the proxy in
    between, the transports of io/tokio_tcp.rs, io/tokio_tls.rs and io/tokio_ws.rs, and
    [transport_connect] of client.rs. Sockets are tokio's, TLS is openssl's and
    the WebSocket handshake is tungstenite's: they are parameters. *)

From S2P Require Export Proxy WebSocket.
Local Open Scope Z_scope.

(** ** Foreign code *)

(** Certificates, keys and the configuration of TLS. Errors of openssl are
    converted to [io::Error] by [?]. *)
Class Openssl := {
  X509 : Type;
  PKey : Type;
  SslConnectorBuilder : Type;
  ConnectConfiguration : Type;
  Ssl : Type;
  SslConnector_builder : result IoError SslConnectorBuilder;
  set_min_proto_version_tls12 : SslConnectorBuilder -> result IoError SslConnectorBuilder;
  set_certificate : X509 -> SslConnectorBuilder -> result IoError SslConnectorBuilder;
  set_private_key : PKey -> SslConnectorBuilder -> result IoError SslConnectorBuilder;
  add_extra_chain_cert : X509 -> SslConnectorBuilder -> result IoError SslConnectorBuilder;
  cert_store_add_cert : X509 -> SslConnectorBuilder -> result IoError SslConnectorBuilder;
  stack_from_pem : list u8 -> result IoError (list X509);
  private_key_from_pem : list u8 -> result IoError PKey;
  build_configure : SslConnectorBuilder -> result IoError ConnectConfiguration;
  into_ssl : str -> ConnectConfiguration -> result IoError Ssl;
}.

(** [openssl::ssl::Error]. *)
Inductive SslError : Set :=
  | SslIo (err : IoError)
  | SslOther (code : Z).

(** [openssl_err_to_io_err]. *)
Definition openssl_err_to_io_err (err : SslError) : IoError :=
  match err with
  | SslIo err => err
  | SslOther code => StreamError code
  end.

(** Sockets and TLS streams, and the clock. *)
Class Network (W : Type) `{Openssl} := {
  TcpStream : Type;
  SslStream : Type -> Type;
  TcpStream_connect : str -> u16 -> io W TcpStream;
  set_nodelay : bool -> TcpStream -> result IoError TcpStream;
  SslStream_new : forall T, Ssl -> T -> result IoError (SslStream T);
  SslStream_connect : forall T, SslStream T -> W -> poll (result SslError (SslStream T)) * W;
  tcp_proxy :: ProxyStream W TcpStream;
  ssl_proxy :: ProxyStream W (SslStream TcpStream);
  clock : W -> Z;
}.
Arguments TcpStream W {_ _}.
Arguments SslStream W {_ _} _.
Arguments SslStream_new {W _ _ T} _ _.
Arguments SslStream_connect {W _ _ T} _ _.

(** ** Configuration *)

(** [TlsConfig]. *)
Record TlsConfig `{Openssl} := mkTlsConfig { tls_connector : SslConnectorBuilder }.

Section tls_config.
Context `{Openssl}.

(** [TlsConfig::new]. *)
Definition TlsConfig_new (client_cert : option (X509 * PKey * list X509)) (ca_trust_bundle : list X509) :
    result IoError TlsConfig :=
  let? connector := SslConnector_builder in
  let? connector := set_min_proto_version_tls12 connector in
  let? connector :=
    match client_cert with
    | Some (cert, pkey, cert_chain) =>
        let? connector := set_certificate cert connector in
        let? connector := set_private_key pkey connector in
        foldM (fun connector cert => add_extra_chain_cert cert connector) connector cert_chain
    | None => Ok connector
    end in
  let? connector :=
    if negb (list_is_empty ca_trust_bundle) then
      foldM (fun connector cert => cert_store_add_cert cert connector) connector ca_trust_bundle
    else Ok connector in
  Ok (mkTlsConfig _ connector).

(** [Vec::pop]. *)
Definition pop {A} (l : list A) : option (A * list A) :=
  match rev l with [] => None | a :: l => Some (a, rev l) end.

(** [TlsConfig::from_pem]. *)
Definition TlsConfig_from_pem (client_cert : option (list u8 * list u8)) (ca_trust_bundle : list u8) :
    result IoError TlsConfig :=
  let? client_cert :=
    match client_cert with
    | Some (cert, pkey) =>
        let? client_cert_chain := stack_from_pem cert in
        let? (client_cert, client_cert_chain) :=
          ok_or (pop (rev client_cert_chain))
            (OtherText (lit "client cert PEM does not contain any certificates")) in
        let? pkey := private_key_from_pem pkey in
        Ok (Some (client_cert, pkey, rev client_cert_chain))
    | None => Ok None
    end in
  let? ca_trust_bundle := stack_from_pem ca_trust_bundle in
  TlsConfig_new client_cert ca_trust_bundle.

(** The first certificate of the PEM is the client's, and the others are its chain, in
    the order of the PEM. *)
Lemma from_pem_chain cert pkey ca chain key bundle :
  stack_from_pem cert = Ok chain -> private_key_from_pem pkey = Ok key -> stack_from_pem ca = Ok bundle ->
  TlsConfig_from_pem (Some (cert, pkey)) ca =
    match chain with
    | [] => Err (OtherText (lit "client cert PEM does not contain any certificates"))
    | c :: cs => TlsConfig_new (Some (c, key, cs)) bundle
    end.
Proof.
  intros Ec Ek Eb. unfold TlsConfig_from_pem, pop. rewrite Ec, rev_involutive.
  destruct chain as [|c cs]; cbn [ok_or]; [done|]. by rewrite Ek, rev_involutive, Eb.
Qed.
End tls_config.

(** [ProxyEndpoint] and [Proxy]. *)
Module ProxyEndpoint.
Inductive t `{Openssl} : Type :=
  | Http (hostname : str) (port : u16)
  | Https (hostname : str) (port : u16) (tls_config : TlsConfig).
End ProxyEndpoint.

Record Proxy `{Openssl} := mkProxy { endpoint : ProxyEndpoint.t; auth : ProxyAuthorization.t }.

(** ** The byte stream *)

(** [TransportStreamInner]. *)
Inductive TransportStream (W : Type) `{Network W} : Type :=
  | Plain (s : TcpStream W)
  | Tls (s : SslStream W (TcpStream W)).
Arguments Plain {W _ _} _.
Arguments Tls {W _ _} _.

Section streams.
Context {W : Type} `{Network W} `{Base64}.

Definition tcp_connect (host : str) (port : u16) (tcp_nodelay : bool) : io W (TcpStream W) :=
  let* stream := TcpStream_connect host port in
  io_of (set_nodelay tcp_nodelay stream).

Definition tls_handshake {T} (stream : T) (config : TlsConfig) (hostname : str) : io W (SslStream W T) :=
  let* connector := io_of (build_configure (tls_connector config)) in
  let* ssl := io_of (into_ssl hostname connector) in
  let* ssl_stream := io_of (SslStream_new ssl stream) in
  fun w =>
    match SslStream_connect ssl_stream w with
    | (Ready r, w) => (Ready (map_err openssl_err_to_io_err r), w)
    | (Pending, w) => (Pending, w)
    | (Panicked m, w) => (Panicked m, w)
    | (OutOfFuel, w) => (OutOfFuel, w)
    end.

Definition http_connect_tunnel (proxy : Proxy) (target_host : str) (target_port : u16)
    (tcp_nodelay : bool) : io W (TransportStream W) :=
  match endpoint proxy with
  | ProxyEndpoint.Http hostname port =>
      let* stream := tcp_connect hostname port tcp_nodelay in
      let* stream := http_connect_exchange stream target_host target_port (auth proxy) in
      io_ret (Plain stream)
  | ProxyEndpoint.Https hostname port tls_config =>
      let* stream := tcp_connect hostname port tcp_nodelay in
      let* stream := tls_handshake stream tls_config hostname in
      let* stream := http_connect_exchange stream target_host target_port (auth proxy) in
      io_ret (Tls stream)
  end.

(** [connect] and [connect_tls] of io/stream.rs. *)
Definition stream_connect (hostname : str) (port : u16) (proxy : option Proxy) (tcp_nodelay : bool) :
    io W (TransportStream W) :=
  match proxy with
  | None =>
      let* stream := tcp_connect hostname port tcp_nodelay in
      io_ret (Plain stream)
  | Some proxy => http_connect_tunnel proxy hostname port tcp_nodelay
  end.

Definition stream_connect_tls (hostname : str) (port : u16) (config : TlsConfig) (proxy : option Proxy)
    (tcp_nodelay : bool) : io W (SslStream W (TransportStream W)) :=
  let* stream := stream_connect hostname port proxy tcp_nodelay in
  tls_handshake stream config hostname.
End streams.

(** [AsyncRead] and [AsyncWrite] for [TransportStream]: the calls go to the stream
    inside. *)
#[export] Instance TransportStream_read {W} `{Network W} `{ReadableStream (TcpStream W)}
    `{ReadableStream (SslStream W (TcpStream W))} : ReadableStream (TransportStream W) := {|
  stream_read t n :=
    match t with
    | Plain s => let '(s, r) := stream_read s n in (Plain s, r)
    | Tls s => let '(s, r) := stream_read s n in (Tls s, r)
    end;
|}.

#[export] Instance TransportStream_write {W} `{Network W} `{WritableStream (TcpStream W)}
    `{WritableStream (SslStream W (TcpStream W))} : WritableStream (TransportStream W) := {|
  stream_write t bufs :=
    match t with
    | Plain s => let '(s, r) := stream_write s bufs in (Plain s, r)
    | Tls s => let '(s, r) := stream_write s bufs in (Tls s, r)
    end;
  stream_flush t :=
    match t with
    | Plain s => let '(s, r) := stream_flush s in (Plain s, r)
    | Tls s => let '(s, r) := stream_flush s in (Tls s, r)
    end;
|}.

(** The other methods of [AsyncWrite], which TLS and tungstenite call. *)
Class RawWrite (T : Type) := {
  raw_write : T -> list u8 -> T * result IoError usize;
  raw_is_write_vectored : T -> bool;
  raw_shutdown : T -> T * result IoError ();
}.

#[export] Instance TransportStream_raw {W} `{Network W} `{RawWrite (TcpStream W)}
    `{RawWrite (SslStream W (TcpStream W))} : RawWrite (TransportStream W) := {|
  raw_write t buf :=
    match t with
    | Plain s => let '(s, r) := raw_write s buf in (Plain s, r)
    | Tls s => let '(s, r) := raw_write s buf in (Tls s, r)
    end;
  raw_is_write_vectored t :=
    match t with
    | Plain s => raw_is_write_vectored s
    | Tls s => raw_is_write_vectored s
    end;
  raw_shutdown t :=
    match t with
    | Plain s => let '(s, r) := raw_shutdown s in (Plain s, r)
    | Tls s => let '(s, r) := raw_shutdown s in (Tls s, r)
    end;
|}.

(** ** The transports *)

(** The WebSocket handshake and the parts of the request that are looked at. *)
Class WebSockets (W : Type) `{Network W} := {
  WsRequest : Type;
  Tungstenite : Type -> Type;
  into_client_request : WsRequest -> result WsError WsRequest;
  insert_header : str -> str -> WsRequest -> WsRequest;
  uri_host : WsRequest -> option str;
  uri_port_u16 : WsRequest -> option u16;
  uri_scheme_str : WsRequest -> option str;
  client_async : forall T, WsRequest -> T -> W -> poll (result WsError (Tungstenite T)) * W;
}.
Arguments WsRequest W {_ _ _}.
Arguments Tungstenite W {_ _ _} _.
Arguments client_async {W _ _ _ T} _ _ _.

(** [ConnectionTransportType] and [ConnectionTransportConfig]. *)
Module ConnectionTransportType.
Inductive t (W : Type) `{WebSockets W} : Type :=
  | Tcp (hostname : str) (port : u16)
  | Tls (hostname : str) (port : u16) (tls_config : TlsConfig)
  | Ws (request : WsRequest W) (tls_config : option TlsConfig).
Arguments Tcp {W _ _ _} _ _.
Arguments Tls {W _ _ _} _ _ _.
Arguments Ws {W _ _ _} _ _.
End ConnectionTransportType.

Record ConnectionTransportConfig (W : Type) `{WebSockets W} := mkTransportConfig {
  transport_type : ConnectionTransportType.t W;
  timeout : option Z;
  proxy : option Proxy;
  tcp_nodelay : bool;
}.
Arguments mkTransportConfig {W _ _ _} _ _ _ _.
Arguments transport_type {W _ _ _} _.
Arguments timeout {W _ _ _} _.
Arguments proxy {W _ _ _} _.
Arguments tcp_nodelay {W _ _ _} _.

(** The [Box<dyn ReadableStream>] of a reader and the [Box<dyn WritableStream>] of a
    writer: the two halves into which [tokio::io::split] cuts a stream, one
    constructor for each type in the box. *)
Inductive NetStream (W : Type) `{WebSockets W} : Type :=
  | TransportStreamHalf (inner : TransportStream W)
  | OpensslStreamHalf (inner : SslStream W (TransportStream W))
  | WebSocketHalf (inner : WebSocketStream (Tungstenite W (TransportStream W)))
  | WebSocketTlsHalf (inner : WebSocketStream (Tungstenite W (SslStream W (TransportStream W)))).
Arguments TransportStreamHalf {W _ _ _} _.
Arguments OpensslStreamHalf {W _ _ _} _.
Arguments WebSocketHalf {W _ _ _} _.
Arguments WebSocketTlsHalf {W _ _ _} _.

(** [BufferPool::take_empty_owned]. *)
Class BufferPool (BP Ow : Type) := take_empty_owned : BP -> Ow.

Section connect.
Context {W BP Ow : Type} `{WebSockets W} `{Base64} `{BufferPool BP Ow}.

Abbreviation Ends := (Reader (NetStream W) Ow * Writer (NetStream W) (EitherAccumulator Ow))%type (only parsing).

(** The ends of a connection over the stream [s]. *)
Definition ends (s : NetStream W) (read_buf : Ow) (write_buf : EitherAccumulator Ow) : Ends :=
  (mkReader s read_buf, mkWriter s write_buf).

(** [tokio_tcp::connect]. *)
Definition tokio_tcp_connect (hostname : str) (port : u16) (proxy : option Proxy) (tcp_nodelay : bool)
    (reader_pool writer_pool : BP) : io W Ends :=
  let* stream := stream_connect hostname port proxy tcp_nodelay in
  io_ret (ends (TransportStreamHalf stream) (take_empty_owned reader_pool)
    (EitherIovecs (IovecsAccumulator_new (take_empty_owned writer_pool)))).

(** [tokio_tls::connect]. *)
Definition tokio_tls_connect (hostname : str) (port : u16) (config : TlsConfig) (proxy : option Proxy)
    (tcp_nodelay : bool) (reader_pool : BP) : io W Ends :=
  let* ssl_stream := stream_connect_tls hostname port config proxy tcp_nodelay in
  io_ret (ends (OpensslStreamHalf ssl_stream) (take_empty_owned reader_pool)
    (EitherSingle SingleAccumulator_new)).

(** [async_tungstenite::tokio::client_async(request, stream).await
     .map_err(tungstenite_err_to_io_err)?] *)
Definition ws_upgrade {T} (request : WsRequest W) (stream : T) :
    io W (WebSocketStream (Tungstenite W T)) := fun w =>
  match client_async request stream w with
  | (Ready (Ok inner), w) => (Ready (Ok (mkWebSocketStream inner [])), w)
  | (Ready (Err err), w) => (Ready (Err (tungstenite_err_to_io_err err)), w)
  | (Pending, w) => (Pending, w)
  | (Panicked m, w) => (Panicked m, w)
  | (OutOfFuel, w) => (OutOfFuel, w)
  end.

(** [tokio_ws::connect]. *)
Definition tokio_ws_connect (request : WsRequest W) (tls_config : option TlsConfig) (proxy : option Proxy)
    (tcp_nodelay : bool) (reader_pool : BP) : io W Ends :=
  let* request := io_of (map_err tungstenite_err_to_io_err (into_client_request request)) in
  let request := insert_header (lit "Sec-WebSocket-Protocol") (lit "mqtt") request in
  let* addr := io_of (ok_or (uri_host request)
    (OtherText (lit "request URI does not contain a host component"))) in
  let port := uri_port_u16 request in
  let* scheme := io_of (ok_or (uri_scheme_str request)
    (OtherText (lit "request URI does not contain a scheme component"))) in
  if negb (str_eqb scheme (lit "ws") || str_eqb scheme (lit "wss"))
  then io_err (InvalidInput (lit "unsupported WebSocket URI scheme: " ++ scheme))
  else
    let scheme_is_tls := str_eqb scheme (lit "wss") in
    if negb (eqb scheme_is_tls (is_some tls_config))
    then io_err (InvalidInput (lit "`tls_config` must be provided for a `" ++ scheme ++
      lit "` URI and omitted otherwise"))
    else
      match tls_config with
      | Some tls_config =>
          let* stream := stream_connect_tls addr (unwrap_or port 443) tls_config proxy tcp_nodelay in
          let* stream := ws_upgrade request stream in
          io_ret (ends (WebSocketTlsHalf stream) (take_empty_owned reader_pool)
            (EitherSingle SingleAccumulator_new))
      | None =>
          let* stream := stream_connect addr (unwrap_or port 80) proxy tcp_nodelay in
          let* stream := ws_upgrade request stream in
          io_ret (ends (WebSocketHalf stream) (take_empty_owned reader_pool)
            (EitherSingle SingleAccumulator_new))
      end.

(** [maybe_timeout(timeout, f).await??]: [Elapsed] becomes an [io::Error]. The task is assumed
    to be polled when the timer fires: [tokio::time::timeout] polls [f] before the timer, so
    that on an executor that polls late it can also return what [f] completed with after the
    deadline. *)
Definition maybe_timeout_io {A} (timeout : option Z) (f : io W A) : io W A := fun w =>
  match timeout with
  | None => f w
  | Some timeout =>
      match f w with
      | (Ready r, w') =>
          if clock w' - clock w <=? timeout then (Ready r, w') else (Ready (Err TimedOut), w')
      | (Pending, w') => (Ready (Err TimedOut), w')
      | (Panicked m, w') => (Panicked m, w')
      | (OutOfFuel, w') => (OutOfFuel, w')
      end
  end.

(** [ConnectHandle::transport_connect]. *)
Definition transport_connect (transport_config : ConnectionTransportConfig W) (reader_pool writer_pool : BP) :
    io W Ends :=
  let timeout := timeout transport_config in
  let proxy := proxy transport_config in
  let tcp_nodelay := tcp_nodelay transport_config in
  match transport_type transport_config with
  | ConnectionTransportType.Tcp hostname port =>
      maybe_timeout_io timeout (tokio_tcp_connect hostname port proxy tcp_nodelay reader_pool writer_pool)
  | ConnectionTransportType.Tls hostname port tls_config =>
      maybe_timeout_io timeout (tokio_tls_connect hostname port tls_config proxy tcp_nodelay reader_pool)
  | ConnectionTransportType.Ws request tls_config =>
      maybe_timeout_io timeout (tokio_ws_connect request tls_config proxy tcp_nodelay reader_pool)
  end.
End connect.

(** ** Input and output

    What [ReadableStream::read], [write_vectored] and [flush] of each transport do:
    [read_buf] and the write calls of the stream in the box. The streams of the
    libraries are parameters. *)
Class NetIO (W : Type) `{WebSockets W} := {
  tcp_read :: ReadableStream (TcpStream W);
  tcp_write :: WritableStream (TcpStream W);
  ssl_read :: ReadableStream (SslStream W (TcpStream W));
  ssl_write :: WritableStream (SslStream W (TcpStream W));
  target_read :: ReadableStream (SslStream W (TransportStream W));
  target_write :: WritableStream (SslStream W (TransportStream W));
  ws_messages :: MessageStream (Tungstenite W (TransportStream W));
  wss_messages :: MessageStream (Tungstenite W (SslStream W (TransportStream W)));
}.

#[export] Instance NetStream_read {W} `{NetIO W} : ReadableStream (NetStream W) := {|
  stream_read t n :=
    match t with
    | TransportStreamHalf s => let '(s, r) := stream_read s n in (TransportStreamHalf s, r)
    | OpensslStreamHalf s => let '(s, r) := stream_read s n in (OpensslStreamHalf s, r)
    | WebSocketHalf s => let '(s, r) := stream_read s n in (WebSocketHalf s, r)
    | WebSocketTlsHalf s => let '(s, r) := stream_read s n in (WebSocketTlsHalf s, r)
    end;
|}.

#[export] Instance NetStream_write {W} `{NetIO W} : WritableStream (NetStream W) := {|
  stream_write t bufs :=
    match t with
    | TransportStreamHalf s => let '(s, r) := stream_write s bufs in (TransportStreamHalf s, r)
    | OpensslStreamHalf s => let '(s, r) := stream_write s bufs in (OpensslStreamHalf s, r)
    | WebSocketHalf s => let '(s, r) := stream_write s bufs in (WebSocketHalf s, r)
    | WebSocketTlsHalf s => let '(s, r) := stream_write s bufs in (WebSocketTlsHalf s, r)
    end;
  stream_flush t :=
    match t with
    | TransportStreamHalf s => let '(s, r) := stream_flush s in (TransportStreamHalf s, r)
    | OpensslStreamHalf s => let '(s, r) := stream_flush s in (OpensslStreamHalf s, r)
    | WebSocketHalf s => let '(s, r) := stream_flush s in (WebSocketHalf s, r)
    | WebSocketTlsHalf s => let '(s, r) := stream_flush s in (WebSocketTlsHalf s, r)
    end;
|}.

(** If the libraries deliver and take bytes in order, so does every transport: the
    theorems about [Reader] and [Writer] hold for all of them. *)
Section inside.
Context {S T : Type} (f : S -> T).

Lemma read_inside `{ReliableStream S} `{ReadableStream T} (pend : T -> list u8) s n :
  (forall s n, stream_read (f s) n = let '(s, r) := stream_read s n in (f s, r)) ->
  (forall s, pend (f s) = pending s) -> 0 < n -> pend (f s) <> [] ->
  exists k t', (1 <= k <= length (pend (f s)))%nat /\ Z.of_nat k <= n /\
    stream_read (f s) n = (t', Ok (take k (pend (f s)))) /\ pend t' = drop k (pend (f s)).
Proof.
  intros Hr Hpend Hn. rewrite Hpend. intros Hp.
  destruct (stream_read_pending s n Hn Hp) as (k & s' & Hk & Hkn & E & Hs').
  exists k, (f s'). rewrite Hr, E, Hpend. by split_and!; try apply Hk.
Qed.

Lemma lawful_inside `{LawfulReadable S} `{ReadableStream T} (ok : T -> Prop) s n t' r :
  (forall s n, stream_read (f s) n = let '(s, r) := stream_read s n in (f s, r)) ->
  (forall s, ok (f s) = stream_ok s) -> stream_read (f s) n = (t', r) ->
  (forall bs, r = Ok bs -> 0 <= n -> len bs <= n) /\
  (ok (f s) -> ok t' /\ forall bs, r = Ok bs -> bytes_ok bs).
Proof.
  intros Hr Hok. rewrite Hr, Hok. destruct (stream_read s n) as [s' r'] eqn:E. intros [= <- <-].
  rewrite Hok. split; [intros bs -> Hn; by eapply stream_read_fits|]. intros Hs.
  split; [by eapply stream_read_keeps|]. intros bs ->. by eapply stream_read_bytes.
Qed.

Lemma write_inside `{LawfulWritable S} `{WritableStream T} (out : T -> list u8) s bufs t' r :
  (forall s bufs, stream_write (f s) bufs = let '(s, r) := stream_write s bufs in (f s, r)) ->
  (forall s, out (f s) = sent s) -> stream_write (f s) bufs = (t', r) ->
  match r with
  | Ok n => 0 <= n <= len (concat bufs) /\ out t' = out (f s) ++ take (Z.to_nat n) (concat bufs)
  | Err _ => out t' = out (f s)
  end.
Proof.
  intros Hw Hout. rewrite Hw, Hout. destruct (stream_write s bufs) as [s' r'] eqn:E. intros [= <- <-].
  rewrite Hout. destruct r' as [n|e]; [by apply stream_write_ok in E|by apply stream_write_err in E].
Qed.

Lemma flush_inside `{LawfulWritable S} `{WritableStream T} (out : T -> list u8) s t' r :
  (forall s, stream_flush (f s) = let '(s, r) := stream_flush s in (f s, r)) ->
  (forall s, out (f s) = sent s) -> stream_flush (f s) = (t', r) -> out t' = out (f s).
Proof.
  intros Hw Hout. rewrite Hw, Hout. destruct (stream_flush s) as [s' r'] eqn:E. intros [= <- <-].
  rewrite Hout. by apply stream_flush_sent in E.
Qed.
End inside.

Section readable_transports.
Context {W : Type} `{NetIO W}.
Context `{!LawfulReadable (TcpStream W)} `{!LawfulReadable (SslStream W (TcpStream W))}.
Context `{!LawfulReadable (SslStream W (TransportStream W))}.
Context `{!MessageLaws (Tungstenite W (TransportStream W))}.
Context `{!MessageLaws (Tungstenite W (SslStream W (TransportStream W)))}.

Definition transport_ok (t : TransportStream W) : Prop :=
  match t with Plain s => stream_ok s | Tls s => stream_ok s end.

#[export] Instance TransportStream_readable : LawfulReadable (TransportStream W).
Proof.
  assert (Hl : forall t n t' r, stream_read t n = (t', r) ->
    (forall bs, r = Ok bs -> 0 <= n -> len bs <= n) /\
    (transport_ok t -> transport_ok t' /\ forall bs, r = Ok bs -> bytes_ok bs)).
  { intros [s|s] n t' r.
    - by apply (lawful_inside Plain transport_ok).
    - by apply (lawful_inside Tls transport_ok). }
  refine {| stream_ok := transport_ok |}; intros t n t' r.
  - intros Hn E. by apply (Hl _ _ _ _ E).
  - intros Hs E. by apply (Hl _ _ _ _ E).
  - intros Hs E. by apply (Hl _ _ _ _ E).
Defined.

Definition net_ok (t : NetStream W) : Prop :=
  match t with
  | TransportStreamHalf s => stream_ok s
  | OpensslStreamHalf s => stream_ok s
  | WebSocketHalf s => stream_ok s
  | WebSocketTlsHalf s => stream_ok s
  end.

#[export] Instance NetStream_readable : LawfulReadable (NetStream W).
Proof.
  assert (Hl : forall t n t' r, stream_read t n = (t', r) ->
    (forall bs, r = Ok bs -> 0 <= n -> len bs <= n) /\
    (net_ok t -> net_ok t' /\ forall bs, r = Ok bs -> bytes_ok bs)).
  { intros [s|s|s|s] n t' r.
    - by apply (lawful_inside TransportStreamHalf net_ok).
    - by apply (lawful_inside OpensslStreamHalf net_ok).
    - by apply (lawful_inside WebSocketHalf net_ok).
    - by apply (lawful_inside WebSocketTlsHalf net_ok). }
  refine {| stream_ok := net_ok |}; intros t n t' r.
  - intros Hn E. by apply (Hl _ _ _ _ E).
  - intros Hs E. by apply (Hl _ _ _ _ E).
  - intros Hs E. by apply (Hl _ _ _ _ E).
Defined.
End readable_transports.

Section lawful_transports.
Context {W : Type} `{NetIO W}.
Context `{!ReliableStream (TcpStream W)} `{!ReliableStream (SslStream W (TcpStream W))}.
Context `{!ReliableStream (SslStream W (TransportStream W))}.
Context `{!LawfulWritable (TcpStream W)} `{!LawfulWritable (SslStream W (TcpStream W))}.
Context `{!LawfulWritable (SslStream W (TransportStream W))}.
Context `{!MessageLaws (Tungstenite W (TransportStream W))}.
Context `{!MessageLaws (Tungstenite W (SslStream W (TransportStream W)))}.

Definition transport_pending (t : TransportStream W) : list u8 :=
  match t with Plain s => pending s | Tls s => pending s end.
Definition transport_sent (t : TransportStream W) : list u8 :=
  match t with Plain s => sent s | Tls s => sent s end.

#[export] Instance TransportStream_reliable : ReliableStream (TransportStream W).
Proof.
  refine {| pending := transport_pending |}. intros [s|s] n.
  - by apply (read_inside Plain transport_pending).
  - by apply (read_inside Tls transport_pending).
Defined.

#[export] Instance TransportStream_writable : LawfulWritable (TransportStream W).
Proof.
  assert (Hw : forall t bufs t' r, stream_write t bufs = (t', r) ->
    match r with
    | Ok n => 0 <= n <= len (concat bufs) /\
        transport_sent t' = transport_sent t ++ take (Z.to_nat n) (concat bufs)
    | Err _ => transport_sent t' = transport_sent t
    end).
  { intros [s|s] bufs t' r.
    - by apply (write_inside Plain transport_sent).
    - by apply (write_inside Tls transport_sent). }
  refine {| sent := transport_sent |}.
  - intros t bufs t' n E. exact (Hw _ _ _ _ E).
  - intros t bufs t' e E. exact (Hw _ _ _ _ E).
  - intros [s|s] t' r.
    + by apply (flush_inside Plain transport_sent).
    + by apply (flush_inside Tls transport_sent).
Defined.

Definition net_pending (t : NetStream W) : list u8 :=
  match t with
  | TransportStreamHalf s => pending s
  | OpensslStreamHalf s => pending s
  | WebSocketHalf s => pending s
  | WebSocketTlsHalf s => pending s
  end.
Definition net_sent (t : NetStream W) : list u8 :=
  match t with
  | TransportStreamHalf s => sent s
  | OpensslStreamHalf s => sent s
  | WebSocketHalf s => sent s
  | WebSocketTlsHalf s => sent s
  end.

#[export] Instance NetStream_reliable : ReliableStream (NetStream W).
Proof.
  refine {| pending := net_pending |}. intros [s|s|s|s] n.
  - by apply (read_inside TransportStreamHalf net_pending).
  - by apply (read_inside OpensslStreamHalf net_pending).
  - by apply (read_inside WebSocketHalf net_pending).
  - by apply (read_inside WebSocketTlsHalf net_pending).
Defined.

#[export] Instance NetStream_writable : LawfulWritable (NetStream W).
Proof.
  assert (Hw : forall t bufs t' r, stream_write t bufs = (t', r) ->
    match r with
    | Ok n => 0 <= n <= len (concat bufs) /\ net_sent t' = net_sent t ++ take (Z.to_nat n) (concat bufs)
    | Err _ => net_sent t' = net_sent t
    end).
  { intros [s|s|s|s] bufs t' r.
    - by apply (write_inside TransportStreamHalf net_sent).
    - by apply (write_inside OpensslStreamHalf net_sent).
    - by apply (write_inside WebSocketHalf net_sent).
    - by apply (write_inside WebSocketTlsHalf net_sent). }
  refine {| sent := net_sent |}.
  - intros t bufs t' n E. exact (Hw _ _ _ _ E).
  - intros t bufs t' e E. exact (Hw _ _ _ _ E).
  - intros [s|s|s|s] t' r.
    + by apply (flush_inside TransportStreamHalf net_sent).
    + by apply (flush_inside OpensslStreamHalf net_sent).
    + by apply (flush_inside WebSocketHalf net_sent).
    + by apply (flush_inside WebSocketTlsHalf net_sent).
Defined.
End lawful_transports.

(** ** What the libraries promise *)

(** An identity that reading and writing leave alone. *)
Class Identified (W T A : Type) `{ProxyStream W T} (ident : T -> A) : Prop := {
  write_ident : forall bs s w s' w', async_write_all bs s w = (Ready (Ok s'), w') -> ident s' = ident s;
  read_ident : forall n r w l r' w', take_read_line n r w = (Ready (Ok (l, r')), w') ->
    ident (into_inner r') = ident (into_inner r);
}.

(** [tcp_peer]: where a socket is connected to, and its TCP_NODELAY option.
    [session]: the configuration of a TLS session, the name for SNI against which the
    certificate of the peer was checked, and the stream it was set up over.
    Nothing has been sent on a new socket or, as application data, on a new
    session. openssl documents that [into_ssl] configures the connection for that name and
    that [connect] succeeds when the handshake does. *)
Class NetworkLaws (W : Type) `{Network W} := {
  tcp_laws :: ProxyStreamLaws W (TcpStream W);
  ssl_laws :: ProxyStreamLaws W (SslStream W (TcpStream W));
  tcp_peer : TcpStream W -> str * u16 * bool;
  session : forall T, SslStream W T -> SslConnectorBuilder * str * T;
  tcp_ident :: Identified W (TcpStream W) _ tcp_peer;
  ssl_ident :: Identified W (SslStream W (TcpStream W)) _ (session (TcpStream W));
  TcpStream_connect_peer : forall host port w s w', TcpStream_connect host port w = (Ready (Ok s), w') ->
    fst (tcp_peer s) = (host, port) /\ sent_bytes s = [];
  set_nodelay_peer : forall b s s', set_nodelay b s = Ok s' -> tcp_peer s' = (fst (tcp_peer s), b) /\
    sent_bytes s' = sent_bytes s;
  handshake_session : forall T builder c name ssl (s : T) t w t' w',
    build_configure builder = Ok c -> into_ssl name c = Ok ssl -> SslStream_new ssl s = Ok t ->
    SslStream_connect t w = (Ready (Ok t'), w') -> session T t' = (builder, name, s);
  handshake_sent : forall (t : SslStream W (TcpStream W)) w t' w',
    SslStream_connect t w = (Ready (Ok t'), w') -> sent_bytes t' = [];
}.
Arguments NetworkLaws W {_ _}.
Arguments session {W _ _ _ T} _.

(** The request and the stream of a WebSocket connection. *)
Class WebSocketLaws (W : Type) `{WebSockets W} := {
  upgraded : forall T, Tungstenite W T -> WsRequest W * T;
  client_async_upgraded : forall T request (s : T) w t w',
    client_async request s w = (Ready (Ok t), w') -> upgraded T t = (request, s);
}.
Arguments WebSocketLaws W {_ _ _}.
Arguments upgraded {W _ _ _ _ T} _.

(** ** Where a connection leads *)

Section routes.
Context {W : Type} `{WebSockets W} `{!NetworkLaws W} `{!WebSocketLaws W} `{Base64}.

(** [s] is a connection to a proxy on which nothing was sent but the CONNECT to the
    target, and on which the proxy granted it. *)
Definition tunnel {T A} `{ProxyStreamLaws W T} (ident : T -> A) (s : T) (host : str) (port : u16)
    (auth : ProxyAuthorization.t) : Prop :=
  target_host_ok host = true /\ sent_bytes s = connect_request host port auth /\
  exists s0, ident s0 = ident s /\ sent_bytes s0 = [] /\ grants (reply s0).

(** The stream leads to the port of the host, directly or through the proxy. *)
Inductive reaches (host : str) (port : u16) (nodelay : bool) : option Proxy -> TransportStream W -> Prop :=
  | reaches_direct s :
      tcp_peer s = (host, port, nodelay) -> reaches host port nodelay None (Plain s)
  | reaches_http h p auth s :
      tcp_peer s = (h, p, nodelay) -> tunnel tcp_peer s host port auth ->
      reaches host port nodelay (Some (mkProxy _ (ProxyEndpoint.Http h p) auth)) (Plain s)
  | reaches_https h p config auth s base :
      session s = (tls_connector config, h, base) -> tcp_peer base = (h, p, nodelay) ->
      tunnel session s host port auth ->
      reaches host port nodelay (Some (mkProxy _ (ProxyEndpoint.Https h p config) auth)) (Tls s).

(** A TLS session with the host itself, over a stream that leads to it. *)
Definition secured (t : SslStream W (TransportStream W)) (config : TlsConfig) (host : str) (port : u16)
    (nodelay : bool) (proxy : option Proxy) : Prop :=
  exists s, session t = (tls_connector config, host, s) /\ reaches host port nodelay proxy s.

(** The request that is sent for a WebSocket connection. *)
Definition ws_request (request request' : WsRequest W) : Prop :=
  exists r, into_client_request request = Ok r /\
    request' = insert_header (lit "Sec-WebSocket-Protocol") (lit "mqtt") r.

Lemma io_of_ready {A} (r : result IoError A) (w : W) a w' :
  io_of r w = (Ready (Ok a), w') -> r = Ok a /\ w' = w.
Proof. unfold io_of. by intros [= -> ->]. Qed.

Lemma tcp_connect_ok host port nodelay (w : W) s w' :
  tcp_connect host port nodelay w = (Ready (Ok s), w') ->
  tcp_peer s = (host, port, nodelay) /\ sent_bytes s = [].
Proof.
  unfold tcp_connect. intros E. inv_io E. apply io_of_ready in E as [E _].
  apply TcpStream_connect_peer in E0 as [Hp Hs]. apply set_nodelay_peer in E as [Hp' Hs'].
  by rewrite Hp', Hs', Hp.
Qed.

Lemma tls_handshake_ok {T} (s : T) config name (w : W) t w' :
  tls_handshake s config name w = (Ready (Ok t), w') ->
  session t = (tls_connector config, name, s) /\
  exists t0 w0 w1, SslStream_connect t0 w0 = (Ready (Ok t), w1).
Proof.
  unfold tls_handshake. intros E. apply io_bind_ready in E as (c & w1 & Ec%io_of_ready & E).
  apply io_bind_ready in E as (ssl & w2 & Es%io_of_ready & E).
  apply io_bind_ready in E as (t0 & w3 & Et%io_of_ready & E). cbn beta in E.
  destruct (SslStream_connect t0 w3) as [[[t'|e]| | |] w4] eqn:Ehs; try done. injection E as -> ->.
  destruct Ec as [Ec _], Es as [Es _], Et as [Et _]. split; [by eapply handshake_session|eauto].
Qed.

Lemma line_ident {T A} `{ProxyStreamLaws W T} (ident : T -> A) `{!Identified W T A ident}
    (r : BufReader W T) line total (w : W) l r' total' w' :
  read_proxy_response_line r line total w = (Ready (Ok (l, r', total')), w') ->
  ident (into_inner r') = ident (into_inner r).
Proof.
  unfold read_proxy_response_line. intros E. apply io_bind_ready in E as ([l1 r1] & w1 & E1 & E).
  destruct (_ <? _); [done|]. injection E as <- <- <- <-. by eapply read_ident.
Qed.

Lemma headers_ident {T A} `{ProxyStreamLaws W T} (ident : T -> A) `{!Identified W T A ident}
    fuel (r : BufReader W T) total (w : W) r' w' :
  read_headers fuel r total w = (Ready (Ok r'), w') -> ident (into_inner r') = ident (into_inner r).
Proof.
  revert r total w. induction fuel as [|fuel IH]; intros r total w E; [done|]. cbn [read_headers] in E.
  apply io_bind_ready in E as ([[l r1] t1] & w1 & E1 & E). apply (line_ident ident) in E1.
  destruct (is_blank l); [injection E as <- <-; done|]. rewrite <- E1. by eapply IH.
Qed.

Lemma exchange_tunnel {T A} `{ProxyStreamLaws W T} (ident : T -> A) `{!Identified W T A ident}
    (s : T) host port auth (w : W) s' w' :
  http_connect_exchange s host port auth w = (Ready (Ok s'), w') -> sent_bytes s = [] ->
  ident s' = ident s /\ tunnel ident s' host port auth.
Proof.
  intros E Hs. pose proof E as Hx. apply http_connect_exchange_sound in Hx as (Hh & Hw & Hg).
  assert (Hi : ident s' = ident s).
  { unfold http_connect_exchange in E. rewrite Hh in E. cbn [negb] in E.
    apply io_bind_ready in E as (s1 & w1 & E1 & E). apply (write_ident (ident := ident)) in E1.
    apply io_bind_ready in E as ([[l r] t] & w2 & E2 & E). apply (line_ident ident) in E2.
    destruct (negb _); [done|]. apply io_bind_ready in E as (r' & w3 & E3 & E).
    apply (headers_ident ident) in E3. injection E as <- <-. by rewrite E3, E2, BufReader_new_inner. }
  split; [done|]. unfold tunnel. rewrite Hw, Hs. split; [done|]. split; [done|]. eauto.
Qed.

Lemma stream_connect_reaches host port proxy nodelay (w : W) s w' :
  stream_connect host port proxy nodelay w = (Ready (Ok s), w') -> reaches host port nodelay proxy s.
Proof.
  unfold stream_connect, http_connect_tunnel. intros E. destruct proxy as [[[h p|h p config] auth]|]; cbn in E.
  - inv_io E. apply tcp_connect_ok in E0 as [Hp Hs].
    apply (exchange_tunnel tcp_peer) in E1 as [Hi Ht]; [|done]. constructor; [by rewrite Hi|done].
  - inv_io E. apply tcp_connect_ok in E0 as [Hp _]. apply tls_handshake_ok in E1 as [Hs (t0 & w3 & w4 & Hc)].
    apply handshake_sent in Hc. apply (exchange_tunnel session) in E2 as [Hi Ht]; [|done].
    econstructor; [by rewrite Hi|done|done].
  - inv_io E. apply tcp_connect_ok in E0 as [Hp _]. by constructor.
Qed.

Lemma stream_connect_tls_secured host port config proxy nodelay (w : W) t w' :
  stream_connect_tls host port config proxy nodelay w = (Ready (Ok t), w') ->
  secured t config host port nodelay proxy.
Proof.
  unfold stream_connect_tls, secured. intros E. apply io_bind_ready in E as (s & w1 & E1 & E).
  apply stream_connect_reaches in E1. apply tls_handshake_ok in E as [E _]. eauto.
Qed.

Lemma ws_upgrade_ok {T} request (s : T) (w : W) t w' :
  ws_upgrade request s w = (Ready (Ok t), w') -> upgraded (ws_inner t) = (request, s) /\ next_read t = [].
Proof.
  unfold ws_upgrade. destruct (client_async request s w) as [[[t'|e]| | |] w1] eqn:Ec; try done.
  intros [= <- <-]. split; [|done]. by eapply client_async_upgraded.
Qed.

Lemma maybe_timeout_io_ok {A} timeout (f : io W A) w a w' :
  maybe_timeout_io timeout f w = (Ready (Ok a), w') ->
  f w = (Ready (Ok a), w') /\ match timeout with Some d => clock w' - clock w <= d | None => True end.
Proof.
  unfold maybe_timeout_io. destruct timeout as [d|]; [|done].
  destruct (f w) as [[r| | |] w1]; try done. destruct (_ <=? _) eqn:E; [|done]. intros [= -> ->].
  bool_to_prop. done.
Qed.

(** A [ws] URI goes without a TLS configuration and a [wss] URI with one; otherwise
    the connection is refused before anything happens on the network. *)
Definition scheme_agrees (request : WsRequest W) (tls_config : option TlsConfig) : Prop :=
  match tls_config with
  | Some _ => uri_scheme_str request = Some (lit "wss")
  | None => uri_scheme_str request = Some (lit "ws")
  end.

Definition default_port (request : WsRequest W) (tls_config : option TlsConfig) : u16 :=
  unwrap_or (uri_port_u16 request) (match tls_config with Some _ => 443 | None => 80 end).

Context {BP Ow : Type} `{BufferPool BP Ow}.

Lemma tokio_ws_connect_ok request tls_config proxy nodelay (pool : BP) (w : W) reader writer w' :
  tokio_ws_connect request tls_config proxy nodelay pool w = (Ready (Ok (reader, writer)), w') ->
  reader_inner reader = writer_inner writer /\
  exists request' host, ws_request request request' /\ uri_host request' = Some host /\
    scheme_agrees request' tls_config /\
    match tls_config, reader_inner reader with
    | None, WebSocketHalf t => next_read t = [] /\ exists s, upgraded (ws_inner t) = (request', s) /\
        reaches host (default_port request' tls_config) nodelay proxy s
    | Some config, WebSocketTlsHalf t => next_read t = [] /\ exists s, upgraded (ws_inner t) = (request', s) /\
        secured s config host (default_port request' tls_config) nodelay proxy
    | _, _ => False
    end.
Proof.
  unfold tokio_ws_connect. intros E. apply io_bind_ready in E as (r & w1 & Er%io_of_ready & E).
  destruct Er as [Er _]. set (request' := insert_header _ _ r) in E.
  apply io_bind_ready in E as (host & w2 & [Eh _]%io_of_ready & E).
  apply io_bind_ready in E as (scheme & w3 & [Es _]%io_of_ready & E).
  destruct (uri_host request') as [h|] eqn:Euh; [injection Eh as ->|done].
  destruct (uri_scheme_str request') as [sc|] eqn:Eus; [injection Es as ->|done].
  destruct (str_eqb scheme (lit "ws") || _) eqn:Esch; [|done]. cbn [negb] in E.
  assert (Hr : ws_request request request').
  { exists r. split; [|done]. by destruct (into_client_request request) as [|]; [injection Er as ->|]. }
  destruct tls_config as [config|]; cbn [is_some] in E.
  - destruct (str_eqb scheme (lit "wss")) eqn:Ewss; [|done]. cbn [eqb negb] in E. inv_io E.
    apply stream_connect_tls_secured in E0. apply ws_upgrade_ok in E1 as [Hu Hn]. split; [done|].
    exists request', host. apply bool_decide_eq_true in Ewss as ->. split_and!; [done..|]. split; [exact Hn|]. exists a. split; [exact Hu|exact E0].
  - destruct (str_eqb scheme (lit "wss")) eqn:Ewss; [done|]. cbn [eqb negb] in E. inv_io E.
    apply stream_connect_reaches in E0. apply ws_upgrade_ok in E1 as [Hu Hn]. split; [done|].
    exists request', host. rewrite orb_false_r in Esch. apply bool_decide_eq_true in Esch as ->.
    split_and!; [done..|]. split; [exact Hn|]. exists a. split; [exact Hu|exact E0].
Qed.

(** Where the stream of a configuration leads. *)
Definition leads (config : ConnectionTransportConfig W) (stream : NetStream W) : Prop :=
  let nodelay := tcp_nodelay config in
  match transport_type config, stream with
  | ConnectionTransportType.Tcp host port, TransportStreamHalf s => reaches host port nodelay (proxy config) s
  | ConnectionTransportType.Tls host port tls, OpensslStreamHalf t =>
      secured t tls host port nodelay (proxy config)
  | ConnectionTransportType.Ws request tls, s => exists request' host,
      ws_request request request' /\ uri_host request' = Some host /\ scheme_agrees request' tls /\
      match tls, s with
      | None, WebSocketHalf t => next_read t = [] /\ exists s, upgraded (ws_inner t) = (request', s) /\
          reaches host (default_port request' tls) nodelay (proxy config) s
      | Some tls', WebSocketTlsHalf t => next_read t = [] /\ exists s, upgraded (ws_inner t) = (request', s) /\
          secured s tls' host (default_port request' tls) nodelay (proxy config)
      | _, _ => False
      end
  | _, _ => False
  end.

Lemma transport_connect_leads (config : ConnectionTransportConfig W) (rp wp : BP) w reader writer w' :
  transport_connect config rp wp w = (Ready (Ok (reader, writer)), w') ->
  reader_inner reader = writer_inner writer /\
  match timeout config with Some d => clock w' - clock w <= d | None => True end /\
  leads config (reader_inner reader).
Proof.
  unfold transport_connect, leads. destruct (transport_type config) as [host port|host port tls|request tls];
    intros [E Ht]%maybe_timeout_io_ok.
  - unfold tokio_tcp_connect in E. inv_io E. apply stream_connect_reaches in E0. by split_and!.
  - unfold tokio_tls_connect in E. inv_io E. apply stream_connect_tls_secured in E0. by split_and!.
  - apply tokio_ws_connect_ok in E as [Hrw Hws]. by split_and!.
Qed.

(** C21: where a connection that [transport_connect] returns leads. The reader and the
    writer are the ends of one stream, established within the timeout. It leads to the
    configured host and port, on a socket to them or on a socket to the proxy,
    on which then exactly the CONNECT to the target was sent and granted; an HTTPS
    proxy is spoken to inside a TLS session for its own name and configuration.
    A TLS or [wss] transport is inside a TLS session negotiated with the configured
    host, never with the proxy, and no [wss] connection is ever in the clear; a WebSocket
    connection was upgraded with the request of the application, asking for the [mqtt]
    protocol. *)
Theorem transport_connect_route (config : ConnectionTransportConfig W) (rp wp : BP) w reader writer w' :
  transport_connect config rp wp w = (Ready (Ok (reader, writer)), w') ->
  reader_inner reader = writer_inner writer /\
  match timeout config with Some d => clock w' - clock w <= d | None => True end /\
  let nodelay := tcp_nodelay config in
  match transport_type config, reader_inner reader with
  | ConnectionTransportType.Tcp host port, TransportStreamHalf s => reaches host port nodelay (proxy config) s
  | ConnectionTransportType.Tls host port tls, OpensslStreamHalf t =>
      secured t tls host port nodelay (proxy config)
  | ConnectionTransportType.Ws request tls, s => exists request' host,
      ws_request request request' /\ uri_host request' = Some host /\ scheme_agrees request' tls /\
      match tls, s with
      | None, WebSocketHalf t => next_read t = [] /\ exists s, upgraded (ws_inner t) = (request', s) /\
          reaches host (default_port request' tls) nodelay (proxy config) s
      | Some tls', WebSocketTlsHalf t => next_read t = [] /\ exists s, upgraded (ws_inner t) = (request', s) /\
          secured s tls' host (default_port request' tls) nodelay (proxy config)
      | _, _ => False
      end
  | _, _ => False
  end.
Proof. apply transport_connect_leads. Qed.
End routes.

Lemma ws_scheme_guard {W BP Ow : Type} `{WebSockets W} `{Base64} `{BufferPool BP Ow}
    request tls_config proxy nodelay (pool : BP) (w : W) request' scheme host :
  ws_request request request' -> uri_host request' = Some host -> uri_scheme_str request' = Some scheme ->
  ~ scheme_agrees request' tls_config ->
  exists msg, tokio_ws_connect request tls_config proxy nodelay pool w = (Ready (Err (InvalidInput msg)), w).
Proof.
  intros (r & Er & ->) Eh Es Hs. unfold tokio_ws_connect, io_bind, io_of. rewrite Er. cbn [map_err].
  rewrite Eh, Es. cbn [ok_or]. unfold scheme_agrees in Hs. rewrite Es in Hs.
  unfold str_eqb. repeat case_bool_decide; subst; destruct tls_config; cbn; try (eexists; reflexivity); exfalso; by apply Hs.
Qed.

(** ** Evaluation *)

(** A stream that carries what identifies it. *)
#[export] Instance tagged_proxy (W A : Type) : ProxyStream W (A * Pipe) := {|
  BufReader := (A * Pipe)%type;
  async_write_all bs s := io_ret (fst s, mkPipe (pipe_sent (snd s) ++ bs) (pipe_inbox (snd s)));
  BufReader_new s := s;
  take_read_line n r :=
    let l := next_line (take (Z.to_nat n) (pipe_inbox (snd r))) in
    if valid_utf8 l then io_ret (l, (fst r, mkPipe (pipe_sent (snd r)) (drop (length l) (pipe_inbox (snd r)))))
    else io_err (InvalidData "stream did not contain valid UTF-8");
  into_inner r := r;
|}.

#[export] Instance tagged_laws (W A : Type) : ProxyStreamLaws W (A * Pipe).
Proof.
  refine {| sent_bytes s := pipe_sent (snd s); reply s := pipe_inbox (snd s);
    unread := (fun s => pipe_inbox (snd s)) : BufReader W (A * Pipe) -> _ |}; cbn.
  - intros bs s w s' w' E. by injection E as <- <-.
  - done.
  - done.
  - intros n r w l r' w' E. destruct (valid_utf8 _) eqn:Ev; [|done]. by injection E as <- <- <-.
Defined.

#[export] Instance tagged_ident (W A : Type) : Identified W (A * Pipe) A fst.
Proof.
  split; cbn.
  - intros bs s w s' w' E. by injection E as <- <-.
  - intros n r w l r' w' E. destruct (valid_utf8 _); [|done]. by injection E as <- <- <-.
Qed.

#[export] Instance Demo_openssl : Openssl := {|
  X509 := nat;
  PKey := nat;
  SslConnectorBuilder := list nat;
  ConnectConfiguration := list nat;
  Ssl := (list nat * str)%type;
  SslConnector_builder := Ok [];
  set_min_proto_version_tls12 b := Ok b;
  set_certificate c b := Ok (b ++ [c]);
  set_private_key k b := Ok b;
  add_extra_chain_cert c b := Ok (b ++ [c]);
  cert_store_add_cert c b := Ok (b ++ [c]);
  stack_from_pem pem := Ok (map Z.to_nat pem);
  private_key_from_pem pem := Ok 0%nat;
  build_configure b := Ok b;
  into_ssl name c := Ok (c, name);
|}.

(** A network whose hosts all grant tunnels and on which every step takes a second. *)
Definition granted : Pipe := mkPipe [] (lit "HTTP/1.0 200" ++ CRLF ++ CRLF).

#[export] Instance Demo_network : Network Z := {|
  TcpStream := (str * u16 * bool * Pipe)%type;
  SslStream T := (list nat * str * T * Pipe)%type;
  TcpStream_connect host port w := (Ready (Ok (host, port, false, granted)), w + 1);
  set_nodelay b s := Ok (fst (fst s), b, snd s);
  SslStream_new T ssl s := Ok (ssl, s, granted);
  SslStream_connect T t w := (Ready (Ok (fst t, mkPipe [] (pipe_inbox (snd t)))), w + 1);
  clock w := w;
|}.

#[export] Instance Demo_laws : NetworkLaws Z.
Proof.
  unshelve refine {| tcp_laws := tagged_laws Z _; ssl_laws := tagged_laws Z _;
    tcp_peer := fst; session T t := fst t;
    tcp_ident := tagged_ident Z _; ssl_ident := tagged_ident Z _ |}; cbn.
  - intros host port w s w' E. by injection E as <- <-.
  - intros b s s' E. by injection E as <-.
  - intros T b c name ssl s t w t' w' E1 E2 E3 E4. injection E1 as ->. injection E2 as <-.
    injection E3 as <-. by injection E4 as <- <-.
  - intros t w t' w' E. by injection E as <- <-.
Defined.

Record DemoRequest : Set := mkRequest {
  demo_scheme : str; demo_uri_host : str; demo_port : option u16; demo_headers : list (str * str) }.

#[export] Instance Demo_websockets : WebSockets Z := {|
  WsRequest := DemoRequest;
  Tungstenite T := (DemoRequest * T)%type;
  into_client_request r := Ok r;
  insert_header name value r :=
    mkRequest (demo_scheme r) (demo_uri_host r) (demo_port r) (demo_headers r ++ [(name, value)]);
  uri_host r := Some (demo_uri_host r);
  uri_port_u16 r := demo_port r;
  uri_scheme_str r := Some (demo_scheme r);
  client_async T request s w := (Ready (Ok (request, s)), w + 1);
|}.

#[export] Instance Demo_websocket_laws : WebSocketLaws Z.
Proof.
  refine {| upgraded T t := t : DemoRequest * T |}. intros T request s w t w' E. by injection E as <- <-.
Defined.

#[export] Instance Vec_pool : BufferPool unit VecOwned := fun _ => mkVecOwned [] 0.

Definition demo_tls : TlsConfig := mkTlsConfig _ [1%nat].
Definition demo_proxy : Proxy :=
  mkProxy _ (ProxyEndpoint.Https (lit "proxy.example") 3128 (mkTlsConfig _ [2%nat])) demo_auth.
Definition demo_request : DemoRequest := mkRequest (lit "wss") (lit "mqtt.example.com") None [].
Definition demo_config : ConnectionTransportConfig Z :=
  mkTransportConfig (ConnectionTransportType.Ws (demo_request : WsRequest Z) (Some demo_tls)) (Some 10)
    (Some demo_proxy) true.

Lemma transport_connect_route_witness :
  exists (reader : Reader (NetStream Z) VecOwned) writer t s,
    transport_connect demo_config tt tt 0 = (Ready (Ok (reader, writer)), 4) /\
    reader_inner reader = WebSocketTlsHalf t /\ snd (upgraded (ws_inner t)) = s /\
    secured s demo_tls (lit "mqtt.example.com") 443 true (Some demo_proxy).
Proof.
  assert (E : exists (reader : Reader (NetStream Z) VecOwned) writer t,
    transport_connect demo_config tt tt 0 = (Ready (Ok (reader, writer)), 4) /\
    reader_inner reader = WebSocketTlsHalf t).
  { do 3 eexists. split; reflexivity. }
  destruct E as (reader & writer & t & E & Et).
  destruct (transport_connect_route demo_config tt tt 0 reader writer 4 E) as (_ & _ & Hr).
  cbv zeta in Hr. change (transport_type demo_config) with
    (ConnectionTransportType.Ws (demo_request : WsRequest Z) (Some demo_tls)) in Hr.
  cbv iota beta in Hr. rewrite Et in Hr.
  destruct Hr as (rq & host & (r & Er & ->) & Eh & _ & _ & s & Es & Hs).
  injection Er as <-. injection Eh as <-. exists reader, writer, t, s. split; [exact E|]. split; [exact Et|].
  split; [by rewrite Es|exact Hs].
Defined.
