(* ===== verification/Requests.v ===== *)
(** * Requests between the application and the session

    The messages of client/channel_data.rs, the tokens the session hands out
    (client/token), and [Timer] (client/timer.rs). A completion notifier is the
    sending half of a one-shot channel; it is modelled by its identity, and
    what is sent through it is recorded as an [Event]. *)

From S2P Require Export IndexMap Pkid Packet.
Local Open Scope Z_scope.

(** [CompletionNotifier]. *)
Definition Notifier : Set := nat.

(** [PubAckToken], [PubRecToken], [PubRelToken], [PubCompToken] and [ReauthToken],
    without the sender they all carry. *)
Record PubAckToken : Set := mkPubAckToken { token_pkid : PacketIdentifier; token_epoch : u64 }.
Record PubRecToken : Set := mkPubRecToken { pubrec_token_pkid : PacketIdentifier }.
Record PubRelToken : Set := mkPubRelToken { pubrel_token_pkid : PacketIdentifier }.
Record PubCompToken : Set := mkPubCompToken { pubcomp_token_pkid : PacketIdentifier }.
Record ReauthToken : Set := mkReauthToken { reauth_token_method : ByteStr }.

Module ReauthResult.
Inductive t : Type :=
  | Continue (auth : Auth.t) (token : ReauthToken)
  | Success (auth : Auth.t)
  | Failure.
End ReauthResult.

(** The value a notifier completes with, per notifier type. *)
Inductive Completion : Type :=
  | CompletedUnit
  | CompletedPubAck (puback : PubAck.t)
  | CompletedPubRec (pubrec : PubRec.t) (token : option PubRelToken)
  | CompletedPubRel (pubrel : PubRel.t) (token : PubCompToken)
  | CompletedPubComp (pubcomp : PubComp.t)
  | CompletedSubAck (suback : SubAck.t)
  | CompletedUnsubAck (unsuback : UnsubAck.t)
  | CompletedPing (elapsed : Z)
  | CompletedReauth (result : ReauthResult.t).

(** [notifier.complete(value)] and [notifier.cancel(reason)]. *)
Inductive Event : Type :=
  | Complete (notifier : Notifier) (value : Completion)
  | Cancel (notifier : Notifier) (reason : string).

Definition event_notifier (e : Event) : Notifier :=
  match e with Complete n _ => n | Cancel n _ => n end.

Record DisconnectRequest : Set := mkDisconnectRequest { disconnect_request : Disconnect.t }.

Record PublishRequestQoS0 : Set := mkPublishRequestQoS0 {
  q0_notifier : Notifier;
  q0_topic_name : Topic ByteStr;
  q0_payload : Shared;
  q0_retain : bool;
  q0_other_properties : Publish.OtherProperties;
}.

Module PublishRequestQoS1QoS2.
Inductive t : Type :=
  | PublishQoS1 (notifier : Notifier) (topic_name : Topic ByteStr) (payload : Shared) (retain : bool)
      (other_properties : Publish.OtherProperties)
  | PublishQoS2 (notifier : Notifier) (topic_name : Topic ByteStr) (payload : Shared) (retain : bool)
      (other_properties : Publish.OtherProperties).
End PublishRequestQoS1QoS2.

Module SubscriptionRequest.
Inductive t : Type :=
  | Subscribe (notifier : Notifier) (topic_filter : Filter ByteStr) (options : SubscribeOptions.t)
      (other_properties : Subscribe.OtherProperties)
  | Unsubscribe (notifier : Notifier) (topic_filter : Filter ByteStr)
      (other_properties : list (ByteStr * ByteStr)).
End SubscriptionRequest.

Module AcknowledgementRequest.
Inductive t : Type :=
  | PubAck (notifier : Notifier) (puback : PubAck.t) (epoch : u64)
  | PubRecAccept (notifier : Notifier) (pubrec : PubRec.t)
  | PubRecReject (notifier : Notifier) (pubrec : PubRec.t)
  | PubRel (notifier : Notifier) (pubrel : PubRel.t)
  | PubComp (notifier : Notifier) (pubcomp : PubComp.t).
End AcknowledgementRequest.

Record ReauthRequest : Set := mkReauthRequest { reauth_notifier : Notifier; reauth_auth : Auth.t }.

Record PingRequest : Set := mkPingRequest { ping_notifier : Notifier }.

Module IncomingPublishAndToken.
Inductive t : Type :=
  | QoS0 (publish : Publish.t)
  | QoS1 (publish : Publish.t) (token : PubAckToken)
  | QoS2 (publish : Publish.t) (token : PubRecToken).
End IncomingPublishAndToken.

(** ** [Timer]: a [tokio::time::Sleep] and the duration it is reset to. Times are
    in milliseconds, and [now] is an argument of every operation that reads the
    clock. *)
Record Timer : Set := mkTimer { timer_deadline : Z; timer_duration : Z }.

Definition Timer_new (now duration : Z) : Timer := mkTimer (now + duration) duration.
Definition Timer_reset (now : Z) (t : Timer) : Timer :=
  mkTimer (now + timer_duration t) (timer_duration t).
Definition Timer_deadline (t : Timer) : Z := timer_deadline t.
Definition Timer_remaining_duration (now : Z) (t : Timer) : Z := Z.max 0 (timer_deadline t - now).
Definition Timer_poll (now : Z) (t : Timer) : bool := timer_deadline t <=? now.
