(* ===== verification/Session.v ===== *)
(** * The session

    [Session] of client/session.rs: the operations in flight, the order of
    acknowledgements, replay after a reconnect and session expiry.

    A handler is a function from the session to the session. Channels are the
    lists of what is queued in them; what the session sends through completion
    notifiers is appended to [events]; the clock is an argument. [async]
    functions are modelled up to the next point where they would wait, which
    is the value [Pending]; a panic is [Panicked]. *)

From stdpp Require Import gmap.
From S2P Require Export Requests.
Local Open Scope Z_scope.

(** [ProtocolErrorRepr]. *)
Inductive ProtocolError : Set :=
  | MalformedPacket (e : DecodeError.t)
  | UnexpectedPacket
  | AuthenticationMethodMismatch.

(** [oneshot::Receiver]: waiting, holding a value, or abandoned by its sender. *)
Inductive Oneshot (A : Type) : Type :=
  | OneshotWaiting
  | OneshotValue (a : A)
  | OneshotClosed.
Arguments OneshotWaiting {_}.
Arguments OneshotValue {_} _.
Arguments OneshotClosed {_}.

(** [struct Channels]. The senders [ack_tx] and [auth_tx], which are only cloned,
    are left out. *)
Record Channels : Type := mkChannels {
  disconnect_rx : option (Oneshot DisconnectRequest);
  o_pub_q0_rx : list PublishRequestQoS0;
  o_pub_q12_rx : list PublishRequestQoS1QoS2.t;
  sub_rx : list SubscriptionRequest.t;
  ack_rx : list AcknowledgementRequest.t;
  auth_rx : list ReauthRequest;
  ping_rx : list PingRequest;
  i_pub_tx : list IncomingPublishAndToken.t;
}.

Inductive PendingAcknowledgement : Type :=
  | NotReady
  | AckReady (ack_req : AcknowledgementRequest.t).

(** [struct InflightTracker]. *)
Record InflightTracker : Type := mkInflight {
  publish_qos1 : IndexMap PacketIdentifier (Publish.t * Notifier);
  publish_qos2 : IndexMap PacketIdentifier (Publish.t * Notifier);
  subscribe : gmap PacketIdentifier Notifier;
  unsubscribe : gmap PacketIdentifier Notifier;
  pubrec : gmap PacketIdentifier (PubRec.t * Notifier);
  pubrel : IndexMap PacketIdentifier (PubRel.t * Notifier);
  packets_to_replay : list Packet.t;
  inflight_auth : option (ByteStr * Notifier);
  pingreq : list (Z * option Notifier);
}.

Definition InflightTracker_default : InflightTracker := mkInflight [] [] ∅ ∅ ∅ [] [] None [].

Inductive ConnectionState : Type :=
  | Disconnected
  | Connected (connack : ConnAck.t).

(** [struct Session]; [events] records the notifications. [outgoing_queue], which
    no operation uses, and [owned], a scratch buffer, are left out. *)
Record Session : Type := mkSession {
  ch : Channels;
  pkid_pool : PkidPool;
  inflight : InflightTracker;
  in_application : IndexMap PacketIdentifier PendingAcknowledgement;
  connected : ConnectionState;
  connection_epoch : u64;
  expiry_interval : SessionExpiryInterval.t;
  pingreq_timer : option Timer;
  events : list Event;
}.

(** Field updates. *)
Definition set_ch (c : Channels) (s : Session) : Session :=
  mkSession c (pkid_pool s) (inflight s) (in_application s) (connected s) (connection_epoch s)
    (expiry_interval s) (pingreq_timer s) (events s).
Definition set_pool (p : PkidPool) (s : Session) : Session :=
  mkSession (ch s) p (inflight s) (in_application s) (connected s) (connection_epoch s)
    (expiry_interval s) (pingreq_timer s) (events s).
Definition set_inflight (i : InflightTracker) (s : Session) : Session :=
  mkSession (ch s) (pkid_pool s) i (in_application s) (connected s) (connection_epoch s)
    (expiry_interval s) (pingreq_timer s) (events s).
Definition set_in_application (a : IndexMap PacketIdentifier PendingAcknowledgement) (s : Session) :=
  mkSession (ch s) (pkid_pool s) (inflight s) a (connected s) (connection_epoch s)
    (expiry_interval s) (pingreq_timer s) (events s).
Definition set_connected (c : ConnectionState) (s : Session) : Session :=
  mkSession (ch s) (pkid_pool s) (inflight s) (in_application s) c (connection_epoch s)
    (expiry_interval s) (pingreq_timer s) (events s).
Definition set_epoch (e : u64) (s : Session) : Session :=
  mkSession (ch s) (pkid_pool s) (inflight s) (in_application s) (connected s) e
    (expiry_interval s) (pingreq_timer s) (events s).
Definition set_expiry (e : SessionExpiryInterval.t) (s : Session) : Session :=
  mkSession (ch s) (pkid_pool s) (inflight s) (in_application s) (connected s) (connection_epoch s)
    e (pingreq_timer s) (events s).
Definition set_timer (t : option Timer) (s : Session) : Session :=
  mkSession (ch s) (pkid_pool s) (inflight s) (in_application s) (connected s) (connection_epoch s)
    (expiry_interval s) t (events s).
Definition emit (es : list Event) (s : Session) : Session :=
  mkSession (ch s) (pkid_pool s) (inflight s) (in_application s) (connected s) (connection_epoch s)
    (expiry_interval s) (pingreq_timer s) (events s ++ es).

Definition set_publish_qos1 m (i : InflightTracker) :=
  mkInflight m (publish_qos2 i) (subscribe i) (unsubscribe i) (pubrec i) (pubrel i)
    (packets_to_replay i) (inflight_auth i) (pingreq i).
Definition set_publish_qos2 m (i : InflightTracker) :=
  mkInflight (publish_qos1 i) m (subscribe i) (unsubscribe i) (pubrec i) (pubrel i)
    (packets_to_replay i) (inflight_auth i) (pingreq i).
Definition set_subscribe m (i : InflightTracker) :=
  mkInflight (publish_qos1 i) (publish_qos2 i) m (unsubscribe i) (pubrec i) (pubrel i)
    (packets_to_replay i) (inflight_auth i) (pingreq i).
Definition set_unsubscribe m (i : InflightTracker) :=
  mkInflight (publish_qos1 i) (publish_qos2 i) (subscribe i) m (pubrec i) (pubrel i)
    (packets_to_replay i) (inflight_auth i) (pingreq i).
Definition set_pubrec m (i : InflightTracker) :=
  mkInflight (publish_qos1 i) (publish_qos2 i) (subscribe i) (unsubscribe i) m (pubrel i)
    (packets_to_replay i) (inflight_auth i) (pingreq i).
Definition set_pubrel m (i : InflightTracker) :=
  mkInflight (publish_qos1 i) (publish_qos2 i) (subscribe i) (unsubscribe i) (pubrec i) m
    (packets_to_replay i) (inflight_auth i) (pingreq i).
Definition set_replay l (i : InflightTracker) :=
  mkInflight (publish_qos1 i) (publish_qos2 i) (subscribe i) (unsubscribe i) (pubrec i) (pubrel i)
    l (inflight_auth i) (pingreq i).
Definition set_auth a (i : InflightTracker) :=
  mkInflight (publish_qos1 i) (publish_qos2 i) (subscribe i) (unsubscribe i) (pubrec i) (pubrel i)
    (packets_to_replay i) a (pingreq i).
Definition set_pingreq l (i : InflightTracker) :=
  mkInflight (publish_qos1 i) (publish_qos2 i) (subscribe i) (unsubscribe i) (pubrec i) (pubrel i)
    (packets_to_replay i) (inflight_auth i) l.

Definition update_inflight (f : InflightTracker -> InflightTracker) (s : Session) : Session :=
  set_inflight (f (inflight s)) s.

(** [self.pkid_pool.release_pkid(pkid);] *)
Definition release (pkid : PacketIdentifier) (s : Session) : Session :=
  set_pool (snd (release_pkid pkid (pkid_pool s))) s.

(** [Session::new], with what is already queued in the channels. *)
Definition Session_new (channels : Channels) (max_pkid : PacketIdentifier) : Session :=
  mkSession channels (PkidPool_new max_pkid) InflightTracker_default [] Disconnected 0
    (SessionExpiryInterval.Duration 0) None [].

Definition is_connected (s : Session) : bool :=
  match connected s with Connected _ => true | Disconnected => false end.

(** ** Incoming packets *)

Module CompletedOperation.
Inductive t : Type :=
  | PublishQoS1 (puback : PubAck.t)
  | PublishQoS2 (pubrec : PubRec.t)
  | PubRec (pubrel : PubRel.t)
  | PubRel (pubcomp : PubComp.t)
  | Subscribe (suback : SubAck.t)
  | Unsubscribe (unsuback : UnsubAck.t).
End CompletedOperation.

(** [Session::complete_inflight]. *)
Definition complete_inflight (operation : CompletedOperation.t) (s : Session) :
    result ProtocolError () * Session :=
  match operation with
  | CompletedOperation.Subscribe suback =>
      let pkid := SubAck.packet_identifier suback in
      let s := release pkid s in
      match subscribe (inflight s) !! pkid with
      | None => (Err UnexpectedPacket, s)
      | Some notifier =>
          let s := update_inflight (set_subscribe (delete pkid (subscribe (inflight s)))) s in
          (Ok tt, emit [Complete notifier (CompletedSubAck suback)] s)
      end
  | CompletedOperation.Unsubscribe unsuback =>
      let pkid := UnsubAck.packet_identifier unsuback in
      let s := release pkid s in
      match unsubscribe (inflight s) !! pkid with
      | None => (Err UnexpectedPacket, s)
      | Some notifier =>
          let s := update_inflight (set_unsubscribe (delete pkid (unsubscribe (inflight s)))) s in
          (Ok tt, emit [Complete notifier (CompletedUnsubAck unsuback)] s)
      end
  | CompletedOperation.PublishQoS1 puback =>
      let pkid := Ack.packet_identifier puback in
      let s := release pkid s in
      match im_shift_remove pkid (publish_qos1 (inflight s)) with
      | (None, _) => (Err UnexpectedPacket, s)
      | (Some (_, notifier), m) =>
          (Ok tt, emit [Complete notifier (CompletedPubAck puback)] (update_inflight (set_publish_qos1 m) s))
      end
  | CompletedOperation.PublishQoS2 pubrec =>
      let pkid := Ack.packet_identifier pubrec in
      let '(token, s) :=
        if PubRec.is_success (Ack.reason_code pubrec) then (Some (mkPubRelToken pkid), s)
        else (None, release pkid s) in
      match im_shift_remove pkid (publish_qos2 (inflight s)) with
      | (None, _) => (Err UnexpectedPacket, s)
      | (Some (_, notifier), m) =>
          (Ok tt, emit [Complete notifier (CompletedPubRec pubrec token)]
            (update_inflight (set_publish_qos2 m) s))
      end
  | CompletedOperation.PubRec pubrel =>
      let pkid := Ack.packet_identifier pubrel in
      match pubrec (inflight s) !! pkid with
      | None => (Err UnexpectedPacket, s)
      | Some (_, notifier) =>
          let s := update_inflight (set_pubrec (delete pkid (pubrec (inflight s)))) s in
          (Ok tt, emit [Complete notifier (CompletedPubRel pubrel (mkPubCompToken pkid))] s)
      end
  | CompletedOperation.PubRel pubcomp =>
      let pkid := Ack.packet_identifier pubcomp in
      let s := release pkid s in
      match im_shift_remove pkid (pubrel (inflight s)) with
      | (None, _) => (Err UnexpectedPacket, s)
      | (Some (_, notifier), m) =>
          (Ok tt, emit [Complete notifier (CompletedPubComp pubcomp)] (update_inflight (set_pubrel m) s))
      end
  end.

(** ** The end of a connection and of a session *)

Definition CLIENT_DISCONNECTED : string := "Client disconnected".
Definition SESSION_EXPIRED : string := "MQTT session expired".

Definition release_all (pkids : list PacketIdentifier) (s : Session) : Session :=
  foldl (fun s pkid => release pkid s) s pkids.

(** [if let AtLeastOnce(_, dup) | ExactlyOnce(_, dup) = .. { *dup = true; }] *)
Definition set_dup (publish : Publish.t) : Publish.t :=
  let dup_qos :=
    match Publish.packet_identifier_dup_qos publish with
    | PacketIdentifierDupQoS.AtMostOnce => PacketIdentifierDupQoS.AtMostOnce
    | PacketIdentifierDupQoS.AtLeastOnce pkid _ => PacketIdentifierDupQoS.AtLeastOnce pkid true
    | PacketIdentifierDupQoS.ExactlyOnce pkid _ => PacketIdentifierDupQoS.ExactlyOnce pkid true
    end in
  Publish.mk (Publish.topic_name publish) dup_qos (Publish.retain publish) (Publish.payload publish)
    (Publish.other_properties publish).

(** The loops that build [packets_to_replay]. *)
Definition replay_list (i : InflightTracker) : list Packet.t :=
  map (fun v => Packet.PubRel (fst v)) (im_values (pubrel i)) ++
  map (fun v => Packet.Publish (set_dup (fst v))) (im_values (publish_qos1 i) ++ im_values (publish_qos2 i)).

(** [Session::disconnected]. *)
Definition disconnected (s : Session) : Session :=
  let s := set_timer None (set_connected Disconnected s) in
  let subs := map_to_list (subscribe (inflight s)) in
  let s := emit (map (fun e => Cancel (snd e) CLIENT_DISCONNECTED) subs) s in
  let s := release_all (map fst subs) (update_inflight (set_subscribe ∅) s) in
  let unsubs := map_to_list (unsubscribe (inflight s)) in
  let s := emit (map (fun e => Cancel (snd e) CLIENT_DISCONNECTED) unsubs) s in
  let s := release_all (map fst unsubs) (update_inflight (set_unsubscribe ∅) s) in
  let s :=
    match inflight_auth (inflight s) with
    | Some (_, notifier) => emit [Cancel notifier CLIENT_DISCONNECTED] (update_inflight (set_auth None) s)
    | None => s
    end in
  let pings := omap snd (pingreq (inflight s)) in
  let s := emit (map (fun n => Cancel n CLIENT_DISCONNECTED) pings) (update_inflight (set_pingreq []) s) in
  let s := set_in_application [] s in
  update_inflight (set_replay (replay_list (inflight s))) s.

(** [Session::session_expired]. *)
Definition session_expired (s : Session) : Session :=
  let q1 := publish_qos1 (inflight s) in
  let s := emit (map (fun v => Cancel (snd v) SESSION_EXPIRED) (im_values q1)) s in
  let s := release_all (im_keys q1) (update_inflight (set_publish_qos1 []) s) in
  let q2 := publish_qos2 (inflight s) in
  let s := emit (map (fun v => Cancel (snd v) SESSION_EXPIRED) (im_values q2)) s in
  let s := release_all (im_keys q2) (update_inflight (set_publish_qos2 []) s) in
  let recs := map_to_list (pubrec (inflight s)) in
  let s := emit (map (fun e => Cancel (snd (snd e)) SESSION_EXPIRED) recs)
    (update_inflight (set_pubrec ∅) s) in
  let rels := pubrel (inflight s) in
  let s := emit (map (fun v => Cancel (snd v) SESSION_EXPIRED) (im_values rels))
    (update_inflight (set_pubrel []) s) in
  update_inflight (set_replay []) s.

(** [if self.expiry_interval == SessionExpiryInterval::Duration(0) { .. }] *)
Definition expire_if_zero (s : Session) : Session :=
  match expiry_interval s with
  | SessionExpiryInterval.Duration 0 => session_expired s
  | _ => s
  end.

(** [Session::client_disconnect]. *)
Definition client_disconnect (disconnect : Disconnect.t) (s : Session) : Session :=
  let s := disconnected s in
  let s :=
    match Disconnect.session_expiry_interval (Disconnect.other_properties disconnect) with
    | Some interval => set_expiry interval s
    | None => s
    end in
  expire_if_zero s.

(** [Session::server_disconnect]. *)
Definition server_disconnect (disconnect : Disconnect.t) (s : Session) : Session :=
  expire_if_zero (disconnected s).

(** [Session::transport_disconnect]. *)
Definition transport_disconnect (s : Session) : Session := expire_if_zero (disconnected s).

(** ** CONNACK, PUBLISH, AUTH and PINGRESP *)

(** [authentication_method_matches]. *)
Definition authentication_method_matches (authentication : option Authentication.t)
    (expected_method : option str) : bool :=
  match authentication, expected_method with
  | None, None => true
  | Some authentication, Some expected_method =>
      str_eqb (as_ref (Authentication.method authentication)) expected_method
  | _, _ => false
  end.

(** [connection_epoch += 1] on a [u64]. *)
Definition next_epoch (e : u64) : u64 := (e + 1) mod 2 ^ 64.

Definition connack_success (connack : ConnAck.t) : bool :=
  match ConnAck.reason_code connack with ConnectReasonCode.Success _ => true | _ => false end.

Section incoming.
(** [cfg!(feature = "__allow_omitted_auth_method")]. *)
Context (allow_omitted_auth_method : bool).

(** [Session::incoming_connack]. *)
Definition incoming_connack (now : Z) (connack : ConnAck.t) (client_keep_alive : KeepAlive.t)
    (client_auth_method : option str) (client_session_expiry_interval : SessionExpiryInterval.t)
    (s : Session) : result ProtocolError () * Session :=
  let server_authentication := ConnAck.authentication (ConnAck.other_properties connack) in
  let is_rejected_enhanced_auth := is_some client_auth_method && negb (connack_success connack) in
  let is_allowed_omission :=
    allow_omitted_auth_method && is_some client_auth_method && connack_success connack &&
    negb (is_some server_authentication) in
  if negb is_allowed_omission && (negb is_rejected_enhanced_auth &&
      negb (authentication_method_matches server_authentication client_auth_method))
  then (Err AuthenticationMethodMismatch, s)
  else
    match ConnAck.reason_code connack with
    | ConnectReasonCode.Refused _ => (Ok tt, s)
    | ConnectReasonCode.Success session_present =>
        let s := if negb session_present then session_expired s else s in
        let s := set_epoch (next_epoch (connection_epoch s)) s in
        let s := set_expiry (unwrap_or
          (ConnAck.session_expiry_interval (ConnAck.other_properties connack))
          client_session_expiry_interval) s in
        let keep_alive :=
          match ConnAck.server_keep_alive (ConnAck.other_properties connack) with
          | Some keep_alive => keep_alive
          | None => client_keep_alive
          end in
        let s :=
          match keep_alive with
          | KeepAlive.Duration duration => set_timer (Some (Timer_new now (duration * 1000))) s
          | KeepAlive.Infinite => set_timer None s
          end in
        (Ok tt, set_connected (Connected connack) s)
    end.

(** [Session::incoming_auth]. *)
Definition incoming_auth (auth : Auth.t) (s : Session) : result ProtocolError () * Session :=
  match inflight_auth (inflight s) with
  | None => (Err UnexpectedPacket, s)
  | Some (method, notifier) =>
      let is_success := bool_decide (Auth.reason_code auth = AuthenticateReasonCode.Success) in
      let is_allowed_omission :=
        allow_omitted_auth_method && is_success && negb (is_some (Auth.authentication auth)) in
      if negb is_allowed_omission &&
        negb (authentication_method_matches (Auth.authentication auth) (Some (as_ref method)))
      then (Err AuthenticationMethodMismatch, s)
      else
        match Auth.reason_code auth with
        | AuthenticateReasonCode.Success =>
            (Ok tt, emit [Complete notifier (CompletedReauth (ReauthResult.Success auth))]
              (update_inflight (set_auth None) s))
        | AuthenticateReasonCode.ContinueAuthentication =>
            (Ok tt, emit [Complete notifier
                (CompletedReauth (ReauthResult.Continue auth (mkReauthToken method)))]
              (update_inflight (set_auth None) s))
        | AuthenticateReasonCode.ReAuthenticate => (Err UnexpectedPacket, s)
        end
  end.
End incoming.

Definition send_incoming (incoming : IncomingPublishAndToken.t) (s : Session) : Session :=
  let c := ch s in
  set_ch (mkChannels (disconnect_rx c) (o_pub_q0_rx c) (o_pub_q12_rx c) (sub_rx c) (ack_rx c)
    (auth_rx c) (ping_rx c) (i_pub_tx c ++ [incoming])) s.

(** [Session::incoming_publish]. *)
Definition incoming_publish (publish : Publish.t) (s : Session) : outcome Session :=
  match Publish.packet_identifier_dup_qos publish with
  | PacketIdentifierDupQoS.AtMostOnce =>
      Returns (send_incoming (IncomingPublishAndToken.QoS0 publish) s)
  | PacketIdentifierDupQoS.AtLeastOnce packet_identifier _ =>
      let '(r, m) := im_insert packet_identifier NotReady (in_application s) in
      let s := set_in_application m s in
      if is_some r then Panics "TODO: Handle the case where pkid already exists"
      else Returns (send_incoming (IncomingPublishAndToken.QoS1 publish
        (mkPubAckToken packet_identifier (connection_epoch s))) s)
  | PacketIdentifierDupQoS.ExactlyOnce _ _ => Panics "not yet implemented"
  end.

(** [Session::incoming_pingresp]; [now] gives [sent_at.elapsed()]. *)
Definition incoming_pingresp (now : Z) (s : Session) : Session :=
  match pingreq (inflight s) with
  | [] => s
  | (sent_at, notifier) :: rest =>
      let s := update_inflight (set_pingreq rest) s in
      match notifier with
      | Some notifier => emit [Complete notifier (CompletedPing (now - sent_at))] s
      | None => s
      end
  end.

(** ** Outgoing packets *)

(** [enum PublishRequestWithPkid]. *)
Module PublishRequestWithPkid.
Inductive t : Type :=
  | PublishQoS0 (notifier : Notifier) (topic_name : Topic ByteStr) (payload : Shared) (retain : bool)
      (other_properties : Publish.OtherProperties)
  | PublishQoS1 (notifier : Notifier) (topic_name : Topic ByteStr) (payload : Shared) (retain : bool)
      (other_properties : Publish.OtherProperties) (packet_identifier : PacketIdentifier)
  | PublishQoS2 (notifier : Notifier) (topic_name : Topic ByteStr) (payload : Shared) (retain : bool)
      (other_properties : Publish.OtherProperties) (packet_identifier : PacketIdentifier).

Definition of_request (r : PublishRequestQoS1QoS2.t) (pkid : PacketIdentifier) : t :=
  match r with
  | PublishRequestQoS1QoS2.PublishQoS1 n t p r o => PublishQoS1 n t p r o pkid
  | PublishRequestQoS1QoS2.PublishQoS2 n t p r o => PublishQoS2 n t p r o pkid
  end.
End PublishRequestWithPkid.

(** [enum OutgoingPacketRequest]. *)
Module OutgoingPacketRequest.
Inductive t : Type :=
  | Disconnect (request : DisconnectRequest)
  | Acknowledgement (request : AcknowledgementRequest.t)
  | Subscription (request : SubscriptionRequest.t) (packet_identifier : PacketIdentifier)
  | Publish (request : PublishRequestWithPkid.t)
  | Reauth (request : ReauthRequest)
  | PingReq (notifier : option Notifier).
End OutgoingPacketRequest.

Definition set_ack_rx l (c : Channels) :=
  mkChannels (disconnect_rx c) (o_pub_q0_rx c) (o_pub_q12_rx c) (sub_rx c) l (auth_rx c) (ping_rx c)
    (i_pub_tx c).
Definition set_auth_rx l (c : Channels) :=
  mkChannels (disconnect_rx c) (o_pub_q0_rx c) (o_pub_q12_rx c) (sub_rx c) (ack_rx c) l (ping_rx c)
    (i_pub_tx c).
Definition set_ping_rx l (c : Channels) :=
  mkChannels (disconnect_rx c) (o_pub_q0_rx c) (o_pub_q12_rx c) (sub_rx c) (ack_rx c) (auth_rx c) l
    (i_pub_tx c).
Definition set_sub_rx l (c : Channels) :=
  mkChannels (disconnect_rx c) (o_pub_q0_rx c) (o_pub_q12_rx c) l (ack_rx c) (auth_rx c) (ping_rx c)
    (i_pub_tx c).
Definition set_q0_rx l (c : Channels) :=
  mkChannels (disconnect_rx c) l (o_pub_q12_rx c) (sub_rx c) (ack_rx c) (auth_rx c) (ping_rx c)
    (i_pub_tx c).
Definition set_q12_rx l (c : Channels) :=
  mkChannels (disconnect_rx c) (o_pub_q0_rx c) l (sub_rx c) (ack_rx c) (auth_rx c) (ping_rx c)
    (i_pub_tx c).
Definition set_disconnect_rx d (c : Channels) :=
  mkChannels d (o_pub_q0_rx c) (o_pub_q12_rx c) (sub_rx c) (ack_rx c) (auth_rx c) (ping_rx c)
    (i_pub_tx c).

(** The first [if let] of [poll_for_outgoing_request]. *)
Definition poll_disconnect (c : Channels) : option DisconnectRequest * Channels :=
  match disconnect_rx c with
  | Some (OneshotValue req) => (Some req, set_disconnect_rx None c)
  | Some OneshotClosed => (None, set_disconnect_rx None c)
  | Some OneshotWaiting | None => (None, c)
  end.

(** The keep-alive timer, which comes last. *)
Definition poll_keep_alive (now : Z) (timer : option Timer) : poll OutgoingPacketRequest.t :=
  match timer with
  | Some timer => if Timer_poll now timer then Ready (OutgoingPacketRequest.PingReq None) else Pending
  | None => Pending
  end.

(** QoS 1 and QoS 2 publishes, if a packet identifier can be leased. *)
Definition poll_publish_qos12 (now : Z) (timer : option Timer) (c : Channels) (pool : PkidPool) :
    poll OutgoingPacketRequest.t * Channels * PkidPool :=
  match o_pub_q12_rx c with
  | [] => (poll_keep_alive now timer, c, pool)
  | publish :: rest =>
      match lease_next_pkid pool with
      | None => (OutOfFuel, c, pool)
      | Some (Panics m) => (Panicked m, c, pool)
      | Some (Returns (None, pool)) => (poll_keep_alive now timer, c, pool)
      | Some (Returns (Some pkid, pool)) =>
          (Ready (OutgoingPacketRequest.Publish (PublishRequestWithPkid.of_request publish pkid)),
           set_q12_rx rest c, pool)
      end
  end.

(** QoS 0 publishes. *)
Definition poll_publish (now : Z) (timer : option Timer) (c : Channels) (pool : PkidPool) :
    poll OutgoingPacketRequest.t * Channels * PkidPool :=
  match o_pub_q0_rx c with
  | r :: rest =>
      (Ready (OutgoingPacketRequest.Publish (PublishRequestWithPkid.PublishQoS0 (q0_notifier r)
        (q0_topic_name r) (q0_payload r) (q0_retain r) (q0_other_properties r))), set_q0_rx rest c, pool)
  | [] => poll_publish_qos12 now timer c pool
  end.

(** Subscriptions, if a packet identifier can be leased. *)
Definition poll_subscription (now : Z) (timer : option Timer) (c : Channels) (pool : PkidPool) :
    poll OutgoingPacketRequest.t * Channels * PkidPool :=
  match sub_rx c with
  | [] => poll_publish now timer c pool
  | sub_req :: rest =>
      match lease_next_pkid pool with
      | None => (OutOfFuel, c, pool)
      | Some (Panics m) => (Panicked m, c, pool)
      | Some (Returns (None, pool)) => poll_publish now timer c pool
      | Some (Returns (Some pkid, pool)) =>
          (Ready (OutgoingPacketRequest.Subscription sub_req pkid), set_sub_rx rest c, pool)
      end
  end.

(** [poll_for_outgoing_request]. *)
Definition poll_for_outgoing_request (now : Z) (c : Channels) (timer : option Timer) (pool : PkidPool) :
    poll OutgoingPacketRequest.t * Channels * PkidPool :=
  match poll_disconnect c with
  | (Some req, c) => (Ready (OutgoingPacketRequest.Disconnect req), c, pool)
  | (None, c) =>
      match ack_rx c with
      | req :: rest => (Ready (OutgoingPacketRequest.Acknowledgement req), set_ack_rx rest c, pool)
      | [] =>
          match auth_rx c with
          | req :: rest => (Ready (OutgoingPacketRequest.Reauth req), set_auth_rx rest c, pool)
          | [] =>
              match ping_rx c with
              | req :: rest =>
                  (Ready (OutgoingPacketRequest.PingReq (Some (ping_notifier req))), set_ping_rx rest c, pool)
              | [] => poll_subscription now timer c pool
              end
          end
      end
  end.

(** Where an acknowledgement goes: [None] is dropped, [Some (inl pkid)] waits for
    its turn under [pkid], [Some (inr tt)] is sent at once. *)
Definition route (epoch : u64) (ack_req : AcknowledgementRequest.t) : option (PacketIdentifier + ()) :=
  match ack_req with
  | AcknowledgementRequest.PubAck _ puback e =>
      if negb (e =? epoch) then None else Some (inl (Ack.packet_identifier puback))
  | AcknowledgementRequest.PubRecAccept _ pubrec | AcknowledgementRequest.PubRecReject _ pubrec =>
      Some (inl (Ack.packet_identifier pubrec))
  | AcknowledgementRequest.PubRel _ pubrel => Some (inl (Ack.packet_identifier pubrel))
  | AcknowledgementRequest.PubComp _ _ => Some (inr tt)
  end.

(** Whether a ready acknowledgement is still for this connection. *)
Definition current (epoch : u64) (ack_req : AcknowledgementRequest.t) : bool :=
  match ack_req with AcknowledgementRequest.PubAck _ _ e => e =? epoch | _ => true end.

(** [Session::next_outgoing_request]. Every round of the loop removes an entry of
    [in_application] or a request from [ack_rx], so that [next_request_fuel] is
    enough ([next_request_loop_spec]). *)
Fixpoint next_request_loop (fuel : nat) (now : Z) (s : Session) :
    poll OutgoingPacketRequest.t * Session :=
  match fuel with
  | O => (OutOfFuel, s)
  | S fuel =>
      match in_application s with
      | (_, AckReady ack_req) :: rest =>
          let s := set_in_application rest s in
          if current (connection_epoch s) ack_req then (Ready (OutgoingPacketRequest.Acknowledgement ack_req), s)
          else next_request_loop fuel now s
      | _ =>
          let '(r, c, pool) := poll_for_outgoing_request now (ch s) (pingreq_timer s) (pkid_pool s) in
          let s := set_pool pool (set_ch c s) in
          match r with
          | Ready (OutgoingPacketRequest.Acknowledgement ack_req) =>
              match route (connection_epoch s) ack_req with
              | None => next_request_loop fuel now s
              | Some (inr _) => (Ready (OutgoingPacketRequest.Acknowledgement ack_req), s)
              | Some (inl pkid) =>
                  match im_get pkid (in_application s) with
                  | None => (Panicked "application forged an AcknowledgementRequest for a PUBLISH that we didn't give it", s)
                  | Some _ =>
                      next_request_loop fuel now
                        (set_in_application (snd (im_insert pkid (AckReady ack_req) (in_application s))) s)
                  end
              end
          | r => (r, s)
          end
      end
  end.

Definition next_request_fuel (s : Session) : nat :=
  S (length (in_application s) + length (ack_rx (ch s))).

Definition next_outgoing_request (now : Z) (s : Session) : poll OutgoingPacketRequest.t * Session :=
  next_request_loop (next_request_fuel s) now s.

(** The [match] of [next_outgoing_packet] that turns a request into a packet. *)
Definition packet_of_acknowledgement (ack_req : AcknowledgementRequest.t) (s : Session) :
    Packet.t * Session :=
  match ack_req with
  | AcknowledgementRequest.PubAck notifier puback _ =>
      (Packet.PubAck puback, emit [Complete notifier CompletedUnit] s)
  | AcknowledgementRequest.PubRecAccept notifier pr =>
      (Packet.PubRec pr, update_inflight
        (set_pubrec (<[Ack.packet_identifier pr := (pr, notifier)]> (pubrec (inflight s)))) s)
  | AcknowledgementRequest.PubRecReject notifier pr =>
      (Packet.PubRec pr, emit [Complete notifier CompletedUnit] s)
  | AcknowledgementRequest.PubRel notifier pr =>
      (Packet.PubRel pr, update_inflight
        (set_pubrel (snd (im_insert (Ack.packet_identifier pr) (pr, notifier) (pubrel (inflight s))))) s)
  | AcknowledgementRequest.PubComp notifier pc =>
      (Packet.PubComp pc, emit [Complete notifier CompletedUnit] s)
  end.

Definition packet_of_subscription (sub_req : SubscriptionRequest.t) (pkid : PacketIdentifier) (s : Session) :
    Packet.t * Session :=
  match sub_req with
  | SubscriptionRequest.Subscribe notifier topic_filter options other_properties =>
      (Packet.Subscribe (Subscribe.mk pkid [SubscribeTo.mk topic_filter options] other_properties),
       update_inflight (set_subscribe (<[pkid := notifier]> (subscribe (inflight s)))) s)
  | SubscriptionRequest.Unsubscribe notifier topic_filter other_properties =>
      (Packet.Unsubscribe (Unsubscribe.mk pkid [topic_filter] other_properties),
       update_inflight (set_unsubscribe (<[pkid := notifier]> (unsubscribe (inflight s)))) s)
  end.

Definition packet_of_publish (pub_req : PublishRequestWithPkid.t) (s : Session) : Packet.t * Session :=
  match pub_req with
  | PublishRequestWithPkid.PublishQoS0 notifier topic payload retain other =>
      (Packet.Publish (Publish.mk topic PacketIdentifierDupQoS.AtMostOnce retain payload other),
       emit [Complete notifier CompletedUnit] s)
  | PublishRequestWithPkid.PublishQoS1 notifier topic payload retain other pkid =>
      let publish := Publish.mk topic (PacketIdentifierDupQoS.AtLeastOnce pkid false) retain payload other in
      (Packet.Publish publish, update_inflight
        (set_publish_qos1 (snd (im_insert pkid (publish, notifier) (publish_qos1 (inflight s))))) s)
  | PublishRequestWithPkid.PublishQoS2 notifier topic payload retain other pkid =>
      let publish := Publish.mk topic (PacketIdentifierDupQoS.ExactlyOnce pkid false) retain payload other in
      (Packet.Publish publish, update_inflight
        (set_publish_qos2 (snd (im_insert pkid (publish, notifier) (publish_qos2 (inflight s))))) s)
  end.

Definition packet_of_reauth (req : ReauthRequest) (s : Session) : outcome (Packet.t * Session) :=
  match Auth.authentication (reauth_auth req) with
  | None => Panics "outgoing AUTH guaranteed to contain an Authentication Method"
  | Some authentication =>
      Returns (Packet.Auth (reauth_auth req), update_inflight
        (set_auth (Some (Authentication.method authentication, reauth_notifier req))) s)
  end.

Definition packet_of_ping (now : Z) (notifier : option Notifier) (s : Session) : Packet.t * Session :=
  (Packet.PingReq PingReq.mk,
   update_inflight (set_pingreq (pingreq (inflight s) ++ [(now, notifier)])) s).

Definition packet_of_request (now : Z) (r : OutgoingPacketRequest.t) (s : Session) :
    outcome (Packet.t * Session) :=
  match r with
  | OutgoingPacketRequest.Disconnect req => Returns (Packet.Disconnect (disconnect_request req), s)
  | OutgoingPacketRequest.Acknowledgement ack_req => Returns (packet_of_acknowledgement ack_req s)
  | OutgoingPacketRequest.Subscription sub_req pkid => Returns (packet_of_subscription sub_req pkid s)
  | OutgoingPacketRequest.Publish pub_req => Returns (packet_of_publish pub_req s)
  | OutgoingPacketRequest.Reauth req => packet_of_reauth req s
  | OutgoingPacketRequest.PingReq notifier => Returns (packet_of_ping now notifier s)
  end.

(** A packet popped from [packets_to_replay]. *)
Definition replayed (packet : Packet.t) : Packet.t :=
  match packet with
  | Packet.Publish publish => Packet.Publish (set_dup publish)
  | other => other
  end.

Definition reset_ping_timer (now : Z) (s : Session) : Session :=
  match pingreq_timer s with
  | Some timer => set_timer (Some (Timer_reset now timer)) s
  | None => s
  end.

(** [Session::next_outgoing_packet]. *)
Definition next_outgoing_packet (now : Z) (s : Session) : poll Packet.t * Session :=
  if negb (is_connected s) then (Panicked "assertion failed: self.is_connected()", s)
  else
    match packets_to_replay (inflight s) with
    | packet :: rest =>
        (Ready (replayed packet), reset_ping_timer now (update_inflight (set_replay rest) s))
    | [] =>
        match next_outgoing_request now s with
        | (Ready r, s) =>
            match packet_of_request now r s with
            | Returns (packet, s) => (Ready packet, reset_ping_timer now s)
            | Panics m => (Panicked m, s)
            end
        | (Pending, s) => (Pending, s)
        | (Panicked m, s) => (Panicked m, s)
        | (OutOfFuel, s) => (OutOfFuel, s)
        end
    end.
