(* ===== verification/SessionInv.v ===== *)
(** * The session's invariants

    Which packet identifiers are in flight and that they are leased, what the
    end of a connection or of a session does as one record, and that the loop
    of [next_outgoing_request] ends and keeps acknowledgements matched to the
    PUBLISHes that wait for them. *)

From stdpp Require Import gmap list_tactics.
From S2P Require Export Session.
Local Open Scope Z_scope.

(** ** Packet identifiers in flight *)

Definition inflight_pkids (i : InflightTracker) : list PacketIdentifier :=
  im_keys (publish_qos1 i) ++ im_keys (publish_qos2 i) ++ im_keys (pubrel i) ++
  (map_to_list (subscribe i)).*1 ++ (map_to_list (unsubscribe i)).*1.

(** No two operations in flight share an identifier, and all of them are leased. *)
Definition pkids_inv (s : Session) : Prop :=
  pool_wf (pkid_pool s) /\ NoDup (inflight_pkids (inflight s)) /\
  (forall k, k ∈ inflight_pkids (inflight s) -> k ∈ leased (pkid_pool s)).

Lemma map_keys_insert {A} (m : gmap PacketIdentifier A) k v :
  m !! k = None -> (map_to_list (<[k := v]> m)).*1 ≡ₚ k :: (map_to_list m).*1.
Proof. intros H. by rewrite map_to_list_insert. Qed.

Lemma map_keys_delete {A} (m : gmap PacketIdentifier A) k v :
  m !! k = Some v -> (map_to_list m).*1 ≡ₚ k :: (map_to_list (delete k m)).*1.
Proof. intros H. by rewrite <- (map_to_list_delete m k v H). Qed.

Lemma elem_of_map_keys {A} (m : gmap PacketIdentifier A) k :
  k ∈ (map_to_list m).*1 <-> is_Some (m !! k).
Proof.
  rewrite list_elem_of_fmap. split.
  - intros ([k' v] & -> & Hv%elem_of_map_to_list). cbn. eauto.
  - intros [v Hv]. exists (k, v). by rewrite elem_of_map_to_list.
Qed.

(** Leasing an identifier for a new operation. *)
Lemma pkids_inv_lease i i' pool pool' k :
  pool_wf pool' -> (k ∉ leased pool) -> leased pool' = {[k]} ∪ leased pool ->
  NoDup (inflight_pkids i) -> (forall q, q ∈ inflight_pkids i -> q ∈ leased pool) ->
  inflight_pkids i' ≡ₚ k :: inflight_pkids i ->
  NoDup (inflight_pkids i') /\ (forall q, q ∈ inflight_pkids i' -> q ∈ leased pool').
Proof.
  intros Hwf Hk Hl Hnd Hsub Hp. rewrite Hp. split.
  - apply NoDup_cons. split; [auto|done].
  - intros q. rewrite Hp, elem_of_cons, Hl. intros [->|Hq].
    + apply elem_of_union_l. by apply elem_of_singleton.
    + apply elem_of_union_r. auto.
Qed.

(** Releasing the identifier of an operation that ends. *)
Lemma pkids_inv_release s k i' :
  pkids_inv s -> k :: inflight_pkids i' ≡ₚ inflight_pkids (inflight s) ->
  pkids_inv (set_inflight i' (release k s)).
Proof.
  intros (Hwf & Hnd & Hsub) Hp. rewrite <- Hp in Hnd. apply NoDup_cons in Hnd as [Hk Hnd].
  split; [by apply pool_wf_release|]. split; [done|]. cbn. intros q Hq.
  apply elem_of_difference. split.
  - apply Hsub. rewrite <- Hp. by right.
  - intros ->%elem_of_singleton. done.
Qed.

(** An operation that ends but keeps its identifier. *)
Lemma pkids_inv_shrink s k i' :
  pkids_inv s -> k :: inflight_pkids i' ≡ₚ inflight_pkids (inflight s) ->
  pkids_inv (set_inflight i' s).
Proof.
  intros (Hwf & Hnd & Hsub) Hp. rewrite <- Hp in Hnd. apply NoDup_cons in Hnd as [_ Hnd].
  split; [done|]. split; [done|]. cbn. intros q Hq. apply Hsub. rewrite <- Hp. by right.
Qed.

Lemma pkids_inv_release_all l s :
  pkids_inv s -> (forall k, k ∈ l -> k ∉ inflight_pkids (inflight s)) -> pkids_inv (release_all l s).
Proof.
  revert s; induction l as [|k l IH]; intros s (Hwf & Hnd & Hsub) Hl; cbn; [done|].
  apply IH.
  - split; [by apply pool_wf_release|]. split; [done|]. cbn. intros q Hq.
    apply elem_of_difference. split; [auto|]. intros ->%elem_of_singleton. by apply (Hl k); [left|].
  - intros q Hq. apply Hl. by right.
Qed.

Definition release_set (ks : gset PacketIdentifier) (p : PkidPool) : PkidPool :=
  mkPkidPool (leased p ∖ ks) (pool_cycle p) (max_pkid p).

(** Releasing changes only the pool. *)
Lemma release_all_eq l s : release_all l s = set_pool (release_set (list_to_set l) (pkid_pool s)) s.
Proof.
  unfold release_all. revert s; induction l as [|k l IH]; intros s; cbn.
  - destruct s as [c [le cy m] i a co e x t ev]. unfold set_pool, release_set. cbn. do 2 f_equal.
    apply set_eq. intros q. rewrite elem_of_difference.
    split; [intros ?; split; [done|apply not_elem_of_empty]|by intros []].
  - rewrite IH. unfold set_pool, release, release_set. cbn. do 2 f_equal. apply set_eq. intros q.
    rewrite !elem_of_difference, elem_of_union. tauto.
Qed.

(** ** Completing operations *)

(** [k] moved to the front of the identifiers in flight. *)
Ltac pkids_perm H :=
  unfold inflight_pkids; cbn [publish_qos1 publish_qos2 pubrel subscribe unsubscribe set_publish_qos1
    set_publish_qos2 set_pubrel set_subscribe set_unsubscribe set_pubrec inflight release set_pool];
  rewrite H; cbn [app]; rewrite <- ?Permutation_middle; done.

Lemma complete_inflight_pkids op s s' :
  pkids_inv s -> complete_inflight op s = (Ok tt, s') -> pkids_inv s'.
Proof.
  intros Hinv E. destruct op as [a|a|a|a|a|a]; cbn in E.
  - destruct (im_shift_remove _ _) as [[[p n]|] m] eqn:Em; [|done]. injection E as <-.
    apply im_shift_remove_keys in Em. eapply pkids_inv_release; [done|]. pkids_perm Em.
  - destruct (PubRec.is_success _);
      (destruct (im_shift_remove _ _) as [[[p n]|] m] eqn:Em; [|done]); injection E as <-;
      apply im_shift_remove_keys in Em.
    + eapply pkids_inv_shrink; [done|]. pkids_perm Em.
    + eapply pkids_inv_release; [done|]. pkids_perm Em.
  - destruct (pubrec (inflight s) !! _) as [[p n]|]; [|done]. injection E as <-. exact Hinv.
  - destruct (im_shift_remove _ _) as [[[p n]|] m] eqn:Em; [|done]. injection E as <-.
    apply im_shift_remove_keys in Em. eapply pkids_inv_release; [done|]. pkids_perm Em.
  - destruct (subscribe (inflight s) !! _) as [n|] eqn:Em; [|done]. injection E as <-.
    apply map_keys_delete in Em. eapply pkids_inv_release; [done|]. pkids_perm Em.
  - destruct (unsubscribe (inflight s) !! _) as [n|] eqn:Em; [|done]. injection E as <-.
    apply map_keys_delete in Em. eapply pkids_inv_release; [done|]. pkids_perm Em.
Qed.

(** ** The end of a connection and of a session *)

(** The notifiers that [disconnected] cancels. *)
Definition connection_notifiers (i : InflightTracker) : list Notifier :=
  (map_to_list (subscribe i)).*2 ++ (map_to_list (unsubscribe i)).*2 ++
  option_list (option_map snd (inflight_auth i)) ++ omap snd (pingreq i).

(** The notifiers that [session_expired] cancels. *)
Definition session_notifiers (i : InflightTracker) : list Notifier :=
  (im_values (publish_qos1 i)).*2 ++ (im_values (publish_qos2 i)).*2 ++
  (map_to_list (pubrec i)).*2.*2 ++ (im_values (pubrel i)).*2.

(** Compute the fields of an updated session, and nothing else. *)
Ltac sess :=
  cbv [ch pkid_pool inflight in_application connected connection_epoch expiry_interval pingreq_timer
    events publish_qos1 publish_qos2 subscribe unsubscribe pubrec pubrel packets_to_replay inflight_auth
    pingreq set_ch set_pool set_inflight set_in_application set_connected set_epoch set_expiry set_timer
    emit set_publish_qos1 set_publish_qos2 set_subscribe set_unsubscribe set_pubrec set_pubrel set_replay
    set_auth set_pingreq update_inflight release replay_list option_map option_list].

(** The same under projections, which keeps the fields of variables folded. *)
Ltac fields :=
  cbn [ch pkid_pool inflight in_application connected connection_epoch expiry_interval pingreq_timer
    events publish_qos1 publish_qos2 subscribe unsubscribe pubrec pubrel packets_to_replay inflight_auth
    pingreq set_ch set_pool set_inflight set_in_application set_connected set_epoch set_expiry set_timer
    emit set_publish_qos1 set_publish_qos2 set_subscribe set_unsubscribe set_pubrec set_pubrel set_replay
    set_auth set_pingreq update_inflight release].

(** Two sessions with the same fields and the same list of events. *)
Ltac same_but_events :=
  match goal with
  | |- mkSession _ _ _ _ _ _ _ _ ?x = mkSession _ _ _ _ _ _ _ _ ?y =>
      let H := fresh in assert (H : x = y);
      [rewrite ?map_app, ?map_map, <- ?app_assoc, ?app_nil_r; reflexivity | rewrite H; reflexivity]
  end.

Lemma disconnected_eq s :
  disconnected s =
  let i := inflight s in
  mkSession (ch s)
    (release_set (list_to_set (map_to_list (unsubscribe i)).*1)
      (release_set (list_to_set (map_to_list (subscribe i)).*1) (pkid_pool s)))
    (mkInflight (publish_qos1 i) (publish_qos2 i) ∅ ∅ (pubrec i) (pubrel i) (replay_list i) None [])
    [] Disconnected (connection_epoch s) (expiry_interval s) None
    (events s ++ map (fun n => Cancel n CLIENT_DISCONNECTED) (connection_notifiers i)).
Proof.
  unfold disconnected, connection_notifiers. rewrite !release_all_eq.
  destruct s as [c p [q1 q2 su un pr pl re au pi] a co e x t ev]. sess.
  destruct au as [[me n]|]; sess; same_but_events.
Qed.

Lemma session_expired_eq s :
  session_expired s =
  let i := inflight s in
  mkSession (ch s)
    (release_set (list_to_set (im_keys (publish_qos2 i)))
      (release_set (list_to_set (im_keys (publish_qos1 i))) (pkid_pool s)))
    (mkInflight [] [] (subscribe i) (unsubscribe i) ∅ [] [] (inflight_auth i) (pingreq i))
    (in_application s) (connected s) (connection_epoch s) (expiry_interval s) (pingreq_timer s)
    (events s ++ map (fun n => Cancel n SESSION_EXPIRED) (session_notifiers i)).
Proof.
  unfold session_expired, session_notifiers. rewrite !release_all_eq.
  destruct s as [c p [q1 q2 su un pr pl re au pi] a co e x t ev]. sess. same_but_events.
Qed.

Lemma release_set_wf ks p : pool_wf p -> pool_wf (release_set ks p).
Proof.
  intros (? & ? & Hl). split; [done|]. split; [done|]. cbn. intros q Hq. apply Hl.
  by apply elem_of_difference in Hq as [? _].
Qed.

(** Operations that end together, some of whose identifiers are released. *)
Lemma pkids_inv_release_set s s' dropped ks :
  pkids_inv s -> pkid_pool s' = release_set (list_to_set ks) (pkid_pool s) ->
  inflight_pkids (inflight s) ≡ₚ dropped ++ inflight_pkids (inflight s') ->
  (forall k, k ∈ ks -> k ∈ dropped) -> pkids_inv s'.
Proof.
  intros (Hwf & Hnd & Hsub) Hpool Hp Hks. rewrite Hp in Hnd. apply NoDup_app in Hnd as (_ & Hdis & Hnd).
  unfold pkids_inv. rewrite Hpool. split; [by apply release_set_wf|]. split; [done|].
  cbn. intros q Hq. apply elem_of_difference. split.
  - apply Hsub. rewrite Hp. apply elem_of_app. by right.
  - intros Hin%elem_of_list_to_set. by apply (Hdis q); [apply Hks|].
Qed.

Lemma disconnected_pkids s : pkids_inv s -> pkids_inv (disconnected s).
Proof.
  intros Hinv. rewrite disconnected_eq. cbv zeta.
  assert (H1 : pkids_inv (set_pool (release_set (list_to_set (map_to_list (subscribe (inflight s))).*1)
    (pkid_pool s)) (update_inflight (set_subscribe ∅) s))).
  { eapply (pkids_inv_release_set s _ (map_to_list (subscribe (inflight s))).*1); [done|done| |done].
    unfold inflight_pkids. sess. rewrite map_to_list_empty. cbn [fmap list_fmap app]. solve_Permutation. }
  eapply (pkids_inv_release_set _ _ (map_to_list (unsubscribe (inflight s))).*1); [exact H1|done| |done].
  unfold inflight_pkids. sess. rewrite map_to_list_empty. cbn [fmap list_fmap app]. solve_Permutation.
Qed.

Lemma session_expired_pkids s : pkids_inv s -> pkids_inv (session_expired s).
Proof.
  intros Hinv. rewrite session_expired_eq. cbv zeta.
  assert (H1 : pkids_inv (set_pool (release_set (list_to_set (im_keys (publish_qos1 (inflight s))))
    (pkid_pool s)) (update_inflight (set_publish_qos1 []) s))).
  { eapply (pkids_inv_release_set s _ (im_keys (publish_qos1 (inflight s)))); [done|done| |done].
    unfold inflight_pkids. sess. cbn [im_keys map app]. solve_Permutation. }
  eapply (pkids_inv_release_set _ _ (im_keys (publish_qos2 (inflight s)) ++ im_keys (pubrel (inflight s))));
    [exact H1|done| |].
  - unfold inflight_pkids. sess. cbn [im_keys map app]. solve_Permutation.
  - intros k Hk. apply elem_of_app. by left.
Qed.

Lemma expire_if_zero_pkids s : pkids_inv s -> pkids_inv (expire_if_zero s).
Proof.
  intros Hs. unfold expire_if_zero. destruct (expiry_interval s) as [|[| |]]; try done.
  by apply session_expired_pkids.
Qed.

(** ** What the outgoing side takes from the channels and the pool *)

(** The identifier leased for a request. *)
Definition request_pkid (r : poll OutgoingPacketRequest.t) : option PacketIdentifier :=
  match r with
  | Ready (OutgoingPacketRequest.Subscription _ pkid) => Some pkid
  | Ready (OutgoingPacketRequest.Publish (PublishRequestWithPkid.PublishQoS1 _ _ _ _ _ pkid)) => Some pkid
  | Ready (OutgoingPacketRequest.Publish (PublishRequestWithPkid.PublishQoS2 _ _ _ _ _ pkid)) => Some pkid
  | _ => None
  end.

Definition leases (r : poll OutgoingPacketRequest.t) (pool pool' : PkidPool) : Prop :=
  pool_wf pool' /\
  match request_pkid r with
  | Some pkid => (pkid ∉ leased pool) /\ leased pool' = {[pkid]} ∪ leased pool
  | None => leased pool' = leased pool
  end.

Definition settled {A} (r : poll A) : Prop := match r with Ready _ | Pending => True | _ => False end.

Definition is_ack (r : poll OutgoingPacketRequest.t) : option AcknowledgementRequest.t :=
  match r with Ready (OutgoingPacketRequest.Acknowledgement a) => Some a | _ => None end.

Definition auth_ok (req : ReauthRequest) : Prop := is_some (Auth.authentication (reauth_auth req)) = true.

Definition reauth_ok (r : poll OutgoingPacketRequest.t) : Prop :=
  match r with Ready (OutgoingPacketRequest.Reauth req) => auth_ok req | _ => True end.

(** What every stage of [poll_for_outgoing_request] guarantees: it does not
    panic, leases at most the identifier it returns, and takes at most the
    first acknowledgement. *)
Definition poll_spec (c : Channels) (pool : PkidPool)
    (res : poll OutgoingPacketRequest.t * Channels * PkidPool) : Prop :=
  let '(r, c', pool') := res in
  settled r /\ leases r pool pool' /\
  ack_rx c = option_list (is_ack r) ++ ack_rx c' /\
  (Forall auth_ok (auth_rx c) -> reauth_ok r /\ Forall auth_ok (auth_rx c')).

(** A stage that returns a request and leaves the rest. *)
Ltac poll_case :=
  try unfold poll_spec; split; [done|]; split; [split; done|]; split; [done|]; intros; split; done.

Lemma poll_spec_none r c pool :
  settled r -> request_pkid r = None -> is_ack r = None -> (forall q, r <> Ready (OutgoingPacketRequest.Reauth q)) ->
  pool_wf pool -> poll_spec c pool (r, c, pool).
Proof.
  intros Hs Hr Ha Hn Hwf. split; [done|]. split; [split; [done|by rewrite Hr]|]. rewrite Ha.
  split; [done|]. intros HF. split; [|done]. destruct r as [[]| | |]; try done. by destruct (Hn request).
Qed.

Lemma poll_keep_alive_spec now timer c pool :
  pool_wf pool -> poll_spec c pool (poll_keep_alive now timer, c, pool).
Proof.
  intros Hwf. unfold poll_keep_alive. destruct timer as [t|]; [destruct (Timer_poll now t)|];
    by apply poll_spec_none.
Qed.

Lemma poll_publish_qos12_spec now timer c pool :
  pool_wf pool -> poll_spec c pool (poll_publish_qos12 now timer c pool).
Proof.
  intros Hwf. unfold poll_publish_qos12. destruct (o_pub_q12_rx c) as [|p rest].
  { by apply poll_keep_alive_spec. }
  destruct (lease_spec pool Hwf) as ([pkid|] & pool' & -> & Hwf' & _ & Hl).
  - destruct Hl as (Hn & _ & Hle & _). split; [done|]. split; [|done].
    split; [done|]. destruct p; cbn; done.
  - destruct Hl as [-> _]. by apply poll_keep_alive_spec.
Qed.

Lemma poll_publish_spec now timer c pool :
  pool_wf pool -> poll_spec c pool (poll_publish now timer c pool).
Proof.
  intros Hwf. unfold poll_publish. destruct (o_pub_q0_rx c) as [|p rest].
  { by apply poll_publish_qos12_spec. }
  poll_case.
Qed.

Lemma poll_subscription_spec now timer c pool :
  pool_wf pool -> poll_spec c pool (poll_subscription now timer c pool).
Proof.
  intros Hwf. unfold poll_subscription. destruct (sub_rx c) as [|p rest].
  { by apply poll_publish_spec. }
  destruct (lease_spec pool Hwf) as ([pkid|] & pool' & -> & Hwf' & _ & Hl).
  - destruct Hl as (Hn & _ & Hle & _). poll_case.
  - destruct Hl as [-> _]. by apply poll_publish_spec.
Qed.

Lemma poll_for_outgoing_request_spec now c timer pool :
  pool_wf pool -> poll_spec c pool (poll_for_outgoing_request now c timer pool).
Proof.
  intros Hwf. unfold poll_for_outgoing_request.
  assert (Hd : ack_rx (snd (poll_disconnect c)) = ack_rx c /\ auth_rx (snd (poll_disconnect c)) = auth_rx c).
  { unfold poll_disconnect. by destruct (disconnect_rx c) as [[]|]. }
  destruct (poll_disconnect c) as [[req|] c1]; cbn in Hd; destruct Hd as [Ha Hau].
  { unfold poll_spec. rewrite <- Ha, <- Hau. poll_case. }
  enough (H : poll_spec c1 pool (match ack_rx c1 with
      | req :: rest => (Ready (OutgoingPacketRequest.Acknowledgement req), set_ack_rx rest c1, pool)
      | [] => match auth_rx c1 with
        | req :: rest => (Ready (OutgoingPacketRequest.Reauth req), set_auth_rx rest c1, pool)
        | [] => match ping_rx c1 with
          | req :: rest =>
              (Ready (OutgoingPacketRequest.PingReq (Some (ping_notifier req))), set_ping_rx rest c1, pool)
          | [] => poll_subscription now timer c1 pool
          end end end)).
  { unfold poll_spec in *. rewrite <- Ha, <- Hau. exact H. }
  destruct (ack_rx c1) as [|req rest] eqn:E1.
  - destruct (auth_rx c1) as [|req rest] eqn:E2.
    + destruct (ping_rx c1) as [|req rest] eqn:E3; [by apply poll_subscription_spec|].
      unfold poll_spec. cbn. rewrite E1, E2. poll_case.
    + unfold poll_spec. cbn. rewrite E1, E2. split; [done|]. split; [by split|]. split; [done|].
      by intros [? ?]%Forall_cons.
  - unfold poll_spec. cbn. rewrite E1. poll_case.
Qed.

(** ** Acknowledgements waiting for their turn *)

Definition is_puback (req : AcknowledgementRequest.t) : Prop :=
  match req with AcknowledgementRequest.PubAck _ _ _ => True | _ => False end.

(** The PUBLISHes of epoch [e] that a request acknowledges. *)
Definition request_keys (e : u64) (req : AcknowledgementRequest.t) : list PacketIdentifier :=
  match req with
  | AcknowledgementRequest.PubAck _ puback e' => if e' =? e then [Ack.packet_identifier puback] else []
  | _ => []
  end.

Definition entry_not_ready (entry : PacketIdentifier * PendingAcknowledgement) : list PacketIdentifier :=
  match snd entry with NotReady => [fst entry] | AckReady _ => [] end.

Definition current_tokens (e : u64) (ts : list PubAckToken) : list PacketIdentifier :=
  flat_map (fun t => if token_epoch t =? e then [token_pkid t] else []) ts.
Definition current_requests (e : u64) (reqs : list AcknowledgementRequest.t) : list PacketIdentifier :=
  flat_map (request_keys e) reqs.
Definition not_ready (m : IndexMap PacketIdentifier PendingAcknowledgement) : list PacketIdentifier :=
  flat_map entry_not_ready m.

(** A ready entry holds the PUBACK of its own key, from this connection. *)
Definition entry_ok (e : u64) (entry : PacketIdentifier * PendingAcknowledgement) : Prop :=
  match snd entry with
  | NotReady => True
  | AckReady (AcknowledgementRequest.PubAck _ puback e') => e' = e /\ Ack.packet_identifier puback = fst entry
  | AckReady _ => False
  end.

(** Every PUBLISH the application has not acknowledged is matched by exactly one
    token it holds or one request on its way. *)
Definition acks_inv (s : Session) (ts : list PubAckToken) : Prop :=
  NoDup (im_keys (in_application s)) /\
  Forall (entry_ok (connection_epoch s)) (in_application s) /\
  Forall is_puback (ack_rx (ch s)) /\
  current_tokens (connection_epoch s) ts ++ current_requests (connection_epoch s) (ack_rx (ch s))
    ≡ₚ not_ready (in_application s).

Lemma not_ready_keys m k : k ∈ not_ready m -> k ∈ im_keys m.
Proof.
  induction m as [|[k' v] m IH]; cbn; [done|]. rewrite elem_of_app, elem_of_cons.
  intros [Hk|Hk]; [|auto]. left. destruct v; cbn in Hk; [by apply list_elem_of_singleton in Hk|by apply elem_of_nil in Hk].
Qed.

Lemma im_insert_ready e k req m :
  NoDup (im_keys m) -> k ∈ not_ready m -> Forall (entry_ok e) m -> entry_ok e (k, AckReady req) ->
  let m' := snd (im_insert k (AckReady req) m) in
  im_keys m' = im_keys m /\ not_ready m ≡ₚ k :: not_ready m' /\ Forall (entry_ok e) m'.
Proof.
  intros Hnd Hk HF He. cbv zeta. split; [by apply im_insert_keys, not_ready_keys|].
  induction m as [|[k' v] m IH]; [by apply elem_of_nil in Hk|]. cbn [im_insert].
  cbn in Hnd. apply NoDup_cons in Hnd as [Hk' Hnd]. apply Forall_cons in HF as [Hv HF].
  destruct (decide (k = k')) as [->|Hne].
  - cbn [snd]. split; [|by apply Forall_cons]. destruct v; [done|].
    cbn in Hk. by apply not_ready_keys in Hk.
  - assert (Hm : k ∈ not_ready m).
    { cbn in Hk. apply elem_of_app in Hk as [Hk|Hk]; [|done].
      destruct v; cbn in Hk; [by apply list_elem_of_singleton in Hk|by apply elem_of_nil in Hk]. }
    specialize (IH Hnd Hm HF). destruct (im_insert k (AckReady req) m) as [o m']. cbn in *.
    destruct IH as [Hp HF']. split; [|by apply Forall_cons]. rewrite Hp. by rewrite Permutation_middle.
Qed.

(** What the loop of [next_outgoing_request] leaves alone. *)
Definition same_state (s s' : Session) : Prop :=
  inflight s' = inflight s /\ connected s' = connected s /\ connection_epoch s' = connection_epoch s /\
  expiry_interval s' = expiry_interval s /\ pingreq_timer s' = pingreq_timer s /\ events s' = events s.

Lemma same_state_trans s1 s2 s3 : same_state s1 s2 -> same_state s2 s3 -> same_state s1 s3.
Proof. unfold same_state. intuition congruence. Qed.

Definition request_spec (s : Session) (ts : list PubAckToken) (res : poll OutgoingPacketRequest.t * Session) : Prop :=
  let '(r, s') := res in
  settled r /\ same_state s s' /\ leases r (pkid_pool s) (pkid_pool s') /\
  reauth_ok r /\ Forall auth_ok (auth_rx (ch s')) /\ acks_inv s' ts /\
  (exists taken, ack_rx (ch s) = taken ++ ack_rx (ch s')) /\
  match is_ack r with
  | Some a => exists n p, a = AcknowledgementRequest.PubAck n p (connection_epoch s) /\
      im_keys (in_application s) = Ack.packet_identifier p :: im_keys (in_application s')
  | None => im_keys (in_application s') = im_keys (in_application s)
  end.

(** One round that only moves an acknowledgement, followed by the rest. *)
Lemma request_spec_step s s1 ts res :
  same_state s s1 -> leased (pkid_pool s1) = leased (pkid_pool s) ->
  (exists taken, ack_rx (ch s) = taken ++ ack_rx (ch s1)) ->
  im_keys (in_application s1) = im_keys (in_application s) ->
  request_spec s1 ts res -> request_spec s ts res.
Proof.
  intros Hs Hp (t1 & Ht) Hk. destruct res as [r s'].
  intros (H1 & H2 & [H3 H3'] & H4 & H5 & H6 & (t2 & H7) & H8).
  split; [done|]. split; [by eapply same_state_trans|]. split; [|split; [done|]; split; [done|]; split; [done|]; split].
  - split; [done|]. by rewrite <- Hp.
  - exists (t1 ++ t2). by rewrite Ht, H7, app_assoc.
  - destruct Hs as (_ & _ & He & _). by rewrite He, Hk in H8.
Qed.

Lemma acks_inv_pop s ts k a rest :
  acks_inv s ts -> in_application s = (k, AckReady a) :: rest ->
  acks_inv (set_in_application rest s) ts /\
  exists n p, a = AcknowledgementRequest.PubAck n p (connection_epoch s) /\ Ack.packet_identifier p = k.
Proof.
  intros (Hnd & HF & Ha & Hp) E. unfold acks_inv. rewrite E in *. cbn in Hnd.
  apply NoDup_cons in Hnd as [_ Hnd]. apply Forall_cons in HF as [He HF].
  split; [by split|]. destruct a as [n p e|n p|n p|n p|n p]; cbn in He; try done.
  destruct He as [-> <-]. eauto.
Qed.

(** A stale acknowledgement is dropped. *)
Lemma acks_inv_stale s ts c pool n p e :
  acks_inv s ts -> ack_rx (ch s) = AcknowledgementRequest.PubAck n p e :: ack_rx c ->
  e <> connection_epoch s -> acks_inv (set_pool pool (set_ch c s)) ts.
Proof.
  intros (Hnd & HF & Ha & Hp) E Hne. unfold acks_inv. fields. rewrite E in *. cbn in Hp.
  replace (e =? connection_epoch s) with false in Hp by (symmetry; by apply Z.eqb_neq).
  apply Forall_cons in Ha as [_ Ha]. by split.
Qed.

(** A current one finds its entry and is stored there. *)
Lemma acks_inv_store s ts c pool n p :
  let a := AcknowledgementRequest.PubAck n p (connection_epoch s) in
  let k := Ack.packet_identifier p in
  let m := snd (im_insert k (AckReady a) (in_application s)) in
  acks_inv s ts -> ack_rx (ch s) = a :: ack_rx c ->
  is_Some (im_get k (in_application s)) /\ im_keys m = im_keys (in_application s) /\
  acks_inv (set_in_application m (set_pool pool (set_ch c s))) ts.
Proof.
  intros a k m (Hnd & HF & Ha & Hp) E. rewrite E in *. cbn in Hp. rewrite Z.eqb_refl in Hp. cbn [app] in Hp.
  assert (Hk : k ∈ not_ready (in_application s)).
  { rewrite <- Hp. apply elem_of_app. right. by left. }
  destruct (im_insert_ready (connection_epoch s) k a (in_application s) Hnd Hk HF ltac:(by split))
    as (Hkeys & Hnr & HF'). fold m in Hkeys, Hnr, HF'. split; [|split; [done|]].
  - apply not_eq_None_Some. intros Hn%im_get_None. by apply Hn, not_ready_keys.
  - unfold acks_inv. fields. rewrite Hkeys. apply Forall_cons in Ha as [_ Ha]. split_and!; try done.
    apply (Permutation_cons_inv (a := k)). rewrite <- Hnr, <- Hp. by rewrite <- Permutation_middle.
Qed.

(** A round of the loop that polls the channels, with the rest of the loop. *)
Definition poll_round (loop : Session -> poll OutgoingPacketRequest.t * Session) (now : Z) (s : Session) :
    poll OutgoingPacketRequest.t * Session :=
  let '(r, c, pool) := poll_for_outgoing_request now (ch s) (pingreq_timer s) (pkid_pool s) in
  let s := set_pool pool (set_ch c s) in
  match r with
  | Ready (OutgoingPacketRequest.Acknowledgement ack_req) =>
      match route (connection_epoch s) ack_req with
      | None => loop s
      | Some (inr _) => (Ready (OutgoingPacketRequest.Acknowledgement ack_req), s)
      | Some (inl pkid) =>
          match im_get pkid (in_application s) with
          | None => (Panicked "application forged an AcknowledgementRequest for a PUBLISH that we didn't give it", s)
          | Some _ => loop (set_in_application (snd (im_insert pkid (AckReady ack_req) (in_application s))) s)
          end
      end
  | r => (r, s)
  end.

Lemma next_request_loop_S fuel now s :
  next_request_loop (S fuel) now s =
  match in_application s with
  | (_, AckReady ack_req) :: rest =>
      let s := set_in_application rest s in
      if current (connection_epoch s) ack_req then (Ready (OutgoingPacketRequest.Acknowledgement ack_req), s)
      else next_request_loop fuel now s
  | _ => poll_round (next_request_loop fuel now) now s
  end.
Proof. reflexivity. Qed.

(** What the loop needs of the state it starts in, with the rounds it may take. *)
Definition request_pre (fuel : nat) (s : Session) (ts : list PubAckToken) : Prop :=
  (length (in_application s) + length (ack_rx (ch s)) < fuel)%nat /\
  pool_wf (pkid_pool s) /\ acks_inv s ts /\ Forall auth_ok (auth_rx (ch s)).

Lemma poll_round_spec fuel loop now s ts :
  (forall s, request_pre fuel s ts -> request_spec s ts (loop s)) ->
  request_pre (S fuel) s ts -> request_spec s ts (poll_round loop now s).
Proof.
  intros IH (Hf & Hwf & Hacks & Hauth). unfold poll_round.
  pose proof (poll_for_outgoing_request_spec now (ch s) (pingreq_timer s) (pkid_pool s) Hwf) as Hspec.
  destruct (poll_for_outgoing_request _ _ _ _) as [[r c] pool]. destruct Hspec as (Hset & Hle & Hack & Hau).
  specialize (Hau Hauth) as [Hre Hau].
  destruct (is_ack r) as [a|] eqn:Ea.
  - destruct r as [[|a'| | | |]| | |]; try discriminate Ea. injection Ea as ->. cbn in Hack.
    pose proof Hacks as (_ & _ & Hpub & _). rewrite Hack in Hpub. apply Forall_cons in Hpub as [Hpub _].
    destruct a as [n p e|n p|n p|n p|n p]; try done. cbn [route]. fields.
    destruct Hle as [Hwf' Hleased]. cbn in Hleased. rewrite Hack in Hf. cbn in Hf.
    destruct (e =? connection_epoch s) eqn:Ee; bool_to_prop; cbn [negb].
    + subst e. destruct (acks_inv_store s ts c pool n p Hacks Hack) as ((v & Hv) & Hkeys & Hinv).
      rewrite Hv. eapply request_spec_step; [..|apply IH]; fields; try done; [by eexists [_]|].
      split_and!; fields; try done. apply (f_equal length) in Hkeys. unfold im_keys in Hkeys.
      rewrite !length_map in Hkeys. lia.
    + eapply request_spec_step; [..|apply IH]; fields; try done; [by eexists [_]|].
      split; fields; [lia|]. split; [done|]. split; [by eapply acks_inv_stale|done].
  - assert (Hinv : acks_inv (set_pool pool (set_ch c s)) ts).
    { destruct Hacks as (? & ? & ? & ?). unfold acks_inv. fields. cbn in Hack. rewrite <- Hack. done. }
    assert (Hgoal : request_spec s ts (r, set_pool pool (set_ch c s))).
    { split; [done|]. split; [done|]. split; [done|]. split; [done|]. split; [done|]. split; [done|].
      split; [by exists []|]. by rewrite Ea. }
    destruct r as [[]| | |]; try done.
Qed.

Lemma next_request_loop_spec fuel now s ts :
  (length (in_application s) + length (ack_rx (ch s)) < fuel)%nat ->
  pool_wf (pkid_pool s) -> acks_inv s ts -> Forall auth_ok (auth_rx (ch s)) ->
  request_spec s ts (next_request_loop fuel now s).
Proof.
  intros Hf Hwf Hacks Hauth. assert (Hpre : request_pre fuel s ts) by (by split_and!).
  clear Hf Hwf Hacks Hauth. revert s Hpre. induction fuel as [|fuel IH]; intros s Hpre; [destruct Hpre; lia|].
  rewrite next_request_loop_S. pose proof (poll_round_spec fuel _ now s ts IH Hpre) as Hpoll.
  destruct (in_application s) as [|[k [|a]] rest] eqn:Ein; [exact Hpoll|exact Hpoll|]. clear Hpoll.
  destruct Hpre as (_ & Hwf & Hacks & Hauth).
  destruct (acks_inv_pop s ts k a rest Hacks Ein) as (Hinv & n & p & -> & Hk). fields. cbn [current].
  rewrite Z.eqb_refl. split; [done|]. split; [done|]. split; [done|]. split; [done|]. split; [done|].
  split; [done|]. split; [by exists []|]. cbn. exists n, p. split; [done|]. rewrite Ein. cbn. by rewrite Hk.
Qed.
