(* ===== verification/SessionSystem.v ===== *)
(** * The session between the application and the server

    Sessions together with the PUBACK tokens the application holds, as a
    transition system whose steps are the calls of the connection driver
    (client.rs) and of the application, and its invariant. *)

From stdpp Require Import gmap list_tactics.
From S2P Require Export SessionInv.
Local Open Scope Z_scope.

Definition replayable (p : Packet.t) : Prop :=
  match p with Packet.PubRel _ | Packet.Publish _ => True | _ => False end.

Definition request_before (e : u64) (req : AcknowledgementRequest.t) : Prop :=
  match req with AcknowledgementRequest.PubAck _ _ e' => e' <= e | _ => False end.

(** The invariant of a session [s] while the application holds the tokens [ts]. *)
Record sys_inv (s : Session) (ts : list PubAckToken) : Prop := mkSysInv {
  inv_pkids : pkids_inv s;
  inv_auth : Forall auth_ok (auth_rx (ch s));
  inv_replay : Forall replayable (packets_to_replay (inflight s));
  inv_tokens : Forall (fun t => token_epoch t <= connection_epoch s) ts;
  inv_requests : Forall (request_before (connection_epoch s)) (ack_rx (ch s));
  inv_epoch : 0 <= connection_epoch s;
  inv_acks : if is_connected s then acks_inv s ts else in_application s = [];
}.

(** ** Turning a request into a packet *)

Lemma subscribe_fresh i k : k ∉ inflight_pkids i -> subscribe i !! k = None.
Proof.
  intros Hk. apply eq_None_not_Some. intros Hs. apply Hk. unfold inflight_pkids.
  apply elem_of_map_keys in Hs. rewrite !elem_of_app. tauto.
Qed.

Lemma unsubscribe_fresh i k : k ∉ inflight_pkids i -> unsubscribe i !! k = None.
Proof.
  intros Hk. apply eq_None_not_Some. intros Hs. apply Hk. unfold inflight_pkids.
  apply elem_of_map_keys in Hs. rewrite !elem_of_app. tauto.
Qed.

Lemma im_keys_insert_new {V} k (v : V) (m : IndexMap PacketIdentifier V) :
  k ∉ im_keys m -> im_keys (snd (im_insert k v m)) ≡ₚ k :: im_keys m.
Proof.
  intros Hk. rewrite im_insert_new by done. cbn [snd]. rewrite im_keys_app. cbn [im_keys map fst]. by rewrite Permutation_app_comm.
Qed.

(** The operation a packet starts is in flight under the leased identifier. *)
Lemma packet_of_request_pkids now r pool s packet s' :
  pool_wf pool -> NoDup (inflight_pkids (inflight s)) ->
  (forall k, k ∈ inflight_pkids (inflight s) -> k ∈ leased pool) ->
  leases (Ready r) pool (pkid_pool s) ->
  (forall a, r = OutgoingPacketRequest.Acknowledgement a -> is_puback a) ->
  packet_of_request now r s = Returns (packet, s') ->
  pkids_inv s' /\ forall k, request_pkid (Ready r) = Some k -> k ∉ inflight_pkids (inflight s).
Proof.
  intros Hwf Hnd Hsub [Hwf' Hl] Ha E.
  assert (Hfresh : forall k, request_pkid (Ready r) = Some k -> k ∉ inflight_pkids (inflight s)).
  { intros k Hk. rewrite Hk in Hl. destruct Hl as [Hn _]. auto. }
  split; [|done].
  assert (Hsame : forall s1, request_pkid (Ready r) = None -> pkid_pool s1 = pkid_pool s ->
    inflight_pkids (inflight s1) = inflight_pkids (inflight s) -> pkids_inv s1).
  { intros s1 Hr Hp Hi. rewrite Hr in Hl. unfold pkids_inv. rewrite Hp, Hi, Hl. auto. }
  assert (Hnew : forall s1 k, request_pkid (Ready r) = Some k -> pkid_pool s1 = pkid_pool s ->
    inflight_pkids (inflight s1) ≡ₚ k :: inflight_pkids (inflight s) -> pkids_inv s1).
  { intros s1 k Hr Hp Hi. rewrite Hr in Hl. destruct Hl as [Hn Hl]. unfold pkids_inv. rewrite Hp.
    split; [done|]. by apply (pkids_inv_lease (inflight s) (inflight s1) pool (pkid_pool s) k). }
  destruct r as [req|a|sub k|pub|req|n]; cbn in E.
  - injection E as _ <-. by apply Hsame.
  - specialize (Ha a eq_refl). destruct a; try done. injection E as _ <-. by apply Hsame.
  - specialize (Hfresh k eq_refl). destruct sub; injection E as _ <-; apply (Hnew _ k); try done;
      unfold inflight_pkids; fields.
    + rewrite map_keys_insert by (by apply subscribe_fresh). solve_Permutation.
    + rewrite map_keys_insert by (by apply unsubscribe_fresh). solve_Permutation.
  - destruct pub as [n t p rt o|n t p rt o k|n t p rt o k]; injection E as _ <-.
    + by apply Hsame.
    + specialize (Hfresh k eq_refl). apply (Hnew _ k); try done. unfold inflight_pkids in *. fields.
      rewrite im_keys_insert_new; [solve_Permutation|]. rewrite !elem_of_app in Hfresh. tauto.
    + specialize (Hfresh k eq_refl). apply (Hnew _ k); try done. unfold inflight_pkids in *. fields.
      rewrite im_keys_insert_new; [solve_Permutation|]. rewrite !elem_of_app in Hfresh. tauto.
  - unfold packet_of_reauth in E. destruct (Auth.authentication _); [|done]. injection E as _ <-. by apply Hsame.
  - injection E as _ <-. by apply Hsame.
Qed.

(** Besides the tables of operations in flight, only [events] changes. *)
Lemma packet_of_request_frame now r s packet s' :
  packet_of_request now r s = Returns (packet, s') ->
  ch s' = ch s /\ in_application s' = in_application s /\ connected s' = connected s /\
  connection_epoch s' = connection_epoch s /\
  packets_to_replay (inflight s') = packets_to_replay (inflight s).
Proof.
  intros E. destruct r as [req|[]|[] k|[]|req|n]; cbn in E;
    try (unfold packet_of_reauth in E; destruct (Auth.authentication _); [|done]); injection E as _ <-; done.
Qed.

Lemma packet_of_request_puback now r s packet s' :
  packet_of_request now r s = Returns (packet, s') ->
  match packet with
  | Packet.PubAck p => exists n e, r = OutgoingPacketRequest.Acknowledgement (AcknowledgementRequest.PubAck n p e)
  | _ => forall n p e, r <> OutgoingPacketRequest.Acknowledgement (AcknowledgementRequest.PubAck n p e)
  end.
Proof.
  intros E. destruct r as [req|[]|[] k|[]|req|n]; cbn in E;
    try (unfold packet_of_reauth in E; destruct (Auth.authentication _); [|done]); injection E as <- _; try done. eauto.
Qed.

Lemma reset_ping_timer_frame now s :
  ch (reset_ping_timer now s) = ch s /\ pkid_pool (reset_ping_timer now s) = pkid_pool s /\
  inflight (reset_ping_timer now s) = inflight s /\ in_application (reset_ping_timer now s) = in_application s /\
  connected (reset_ping_timer now s) = connected s /\
  connection_epoch (reset_ping_timer now s) = connection_epoch s.
Proof. unfold reset_ping_timer. by destruct (pingreq_timer s). Qed.

(** ** One packet *)

(** Equal fields preserve the invariant. *)
Lemma sys_inv_ext s s' ts :
  sys_inv s ts -> ch s' = ch s -> pkid_pool s' = pkid_pool s -> inflight s' = inflight s ->
  in_application s' = in_application s -> connected s' = connected s ->
  connection_epoch s' = connection_epoch s -> sys_inv s' ts.
Proof.
  intros [H1 H2 H3 H4 H5 H0 H6] E1 E2 E3 E4 E5 E6.
  split; unfold pkids_inv, is_connected, acks_inv in *; by rewrite ?E1, ?E2, ?E3, ?E4, ?E5, ?E6.
Qed.

(** What a packet handed to the writer does to the PUBLISHes that wait for
    their acknowledgement. *)
Definition puback_step (r : poll Packet.t) (s s' : Session) : Prop :=
  match r with
  | Ready (Packet.PubAck p) =>
      im_keys (in_application s) = Ack.packet_identifier p :: im_keys (in_application s')
  | _ => im_keys (in_application s') = im_keys (in_application s)
  end.

(** The identifier of the operation a packet starts. *)
Definition packet_pkid (r : poll Packet.t) : option PacketIdentifier :=
  match r with
  | Ready (Packet.Subscribe p) => Some (Subscribe.packet_identifier p)
  | Ready (Packet.Unsubscribe p) => Some (Unsubscribe.packet_identifier p)
  | Ready (Packet.Publish p) =>
      match Publish.packet_identifier_dup_qos p with
      | PacketIdentifierDupQoS.AtMostOnce => None
      | PacketIdentifierDupQoS.AtLeastOnce pkid _ | PacketIdentifierDupQoS.ExactlyOnce pkid _ => Some pkid
      end
  | _ => None
  end.

Lemma packet_of_request_pkid now r s packet s' :
  packet_of_request now r s = Returns (packet, s') -> packet_pkid (Ready packet) = request_pkid (Ready r).
Proof.
  intros E. destruct r as [req|[]|[] k|[]|req|n]; cbn in E;
    try (unfold packet_of_reauth in E; destruct (Auth.authentication _); [|done]); injection E as <- _; done.
Qed.

Lemma replayed_puback p : replayable p -> forall q, replayed p <> Packet.PubAck q.
Proof. by destruct p. Qed.

(** [next_outgoing_packet] when there is nothing to replay. *)
Lemma next_request_inv now s ts :
  sys_inv s ts -> is_connected s = true ->
  match next_outgoing_request now s with
  | (Ready r, s1) => exists packet s', packet_of_request now r s1 = Returns (packet, s') /\
      sys_inv s' ts /\ is_connected s' = true /\ puback_step (Ready packet) s s' /\
      (forall k, packet_pkid (Ready packet) = Some k -> k ∉ inflight_pkids (inflight s))
  | (r, s1) => r = Pending /\ sys_inv s1 ts /\ is_connected s1 = true /\
      im_keys (in_application s1) = im_keys (in_application s)
  end.
Proof.
  intros [(Hwf & Hnd & Hsub) Hau Hre Hts Hrq He0 Hacks] Hc. rewrite Hc in Hacks.
  pose proof (next_request_loop_spec (next_request_fuel s) now s ts ltac:(unfold next_request_fuel; lia)
    Hwf Hacks Hau) as Hspec. unfold next_outgoing_request.
  destruct (next_request_loop _ now s) as [r s1].
  destruct Hspec as (Hset & (Ei & Ec & Ee & _) & Hle & Hro & Hau1 & Hacks1 & (taken & Htk) & Hack).
  assert (Hc1 : is_connected s1 = true) by (unfold is_connected in *; by rewrite Ec).
  assert (Hrq1 : Forall (request_before (connection_epoch s1)) (ack_rx (ch s1))).
  { rewrite Htk in Hrq. rewrite Ee. by apply Forall_app in Hrq as [_ ?]. }
  destruct r as [r| | |]; try done.
  - assert (Hpk : exists packet s', packet_of_request now r s1 = Returns (packet, s')).
    { destruct r as [req|[]|[] k|[]|req|n]; cbn; eauto.
      cbn in Hro. unfold auth_ok in Hro. unfold packet_of_reauth. destruct (Auth.authentication _); [eauto|done]. }
    destruct Hpk as (packet & s' & Ep). exists packet, s'. split; [done|].
    destruct (packet_of_request_frame _ _ _ _ _ Ep) as (F1 & F2 & F3 & F4 & F5).
    assert (Hack1 : forall a, r = OutgoingPacketRequest.Acknowledgement a -> is_puback a).
    { intros a ->. cbn in Hack. by destruct Hack as (n & p & -> & _). }
    rewrite <- Ei in Hnd, Hsub.
    destruct (packet_of_request_pkids now r (pkid_pool s) s1 packet s' Hwf Hnd Hsub Hle Hack1 Ep)
      as [Hpk Hfresh].
    split; [|split; [|split]].
    + split; try done.
      * by rewrite F1.
      * by rewrite F5, Ei.
      * by rewrite F4, Ee.
      * by rewrite F4, F1.
      * by rewrite F4, Ee.
      * unfold is_connected. rewrite F3. fold (is_connected s1). rewrite Hc1.
        unfold acks_inv in *. by rewrite F1, F2, F4.
    + unfold is_connected. rewrite F3. exact Hc1.
    + pose proof (packet_of_request_puback _ _ _ _ _ Ep) as Hp. unfold puback_step. rewrite F2.
      destruct (is_ack (Ready r)) as [a|] eqn:Ea.
      * destruct Hack as (n & p & -> & Hk). destruct r; try discriminate Ea. injection Ea as ->.
        destruct packet; try (by destruct (Hp n p (connection_epoch s))).
        destruct Hp as (n' & e' & [= <- <- <-]). exact Hk.
      * destruct packet; try exact Hack. by destruct Hp as (n & e & ->).
    + intros k Hk. rewrite <- Ei. apply Hfresh. by rewrite <- (packet_of_request_pkid _ _ _ _ _ Ep).
  - cbn in Hack. destruct Hle as [Hwf1 Hl]. cbn in Hl. split; [done|]. split; [|split; done].
    split; try done.
    + unfold pkids_inv. by rewrite Ei, Hl.
    + by rewrite Ei.
    + by rewrite Ee.
    + by rewrite Ee.
    + by rewrite Hc1.
Qed.

Lemma next_outgoing_packet_inv now s ts :
  sys_inv s ts -> is_connected s = true ->
  let '(r, s') := next_outgoing_packet now s in
  settled r /\ sys_inv s' ts /\ is_connected s' = true /\ puback_step r s s' /\
  (packets_to_replay (inflight s) = [] ->
    forall k, packet_pkid r = Some k -> k ∉ inflight_pkids (inflight s)).
Proof.
  intros Hinv Hc. unfold next_outgoing_packet. rewrite Hc. cbn [negb].
  destruct (packets_to_replay (inflight s)) as [|p rest] eqn:Er.
  - pose proof (next_request_inv now s ts Hinv Hc) as Hn.
    destruct (next_outgoing_request now s) as [[r| | |] s1]; try (by destruct Hn).
    + destruct Hn as (packet & s' & -> & Hi & Hc' & Hp & Hf).
      destruct (reset_ping_timer_frame now s') as (F1 & F2 & F3 & F4 & F5 & F6).
      split; [done|]. split; [by eapply sys_inv_ext|]. split; [unfold is_connected; by rewrite F5|].
      split; [|by intros _]. unfold puback_step. by rewrite F4.
    + destruct Hn as (_ & Hi & Hc' & Hk). by split_and!.
  - set (s1 := update_inflight (set_replay rest) s).
    destruct (reset_ping_timer_frame now s1) as (F1 & F2 & F3 & F4 & F5 & F6).
    pose proof Hinv as [H1 H2 H3 H4 H5 H0 H6]. rewrite Er in H3. apply Forall_cons in H3 as [Hp H3].
    split; [done|]. split; [|split; [unfold is_connected; by rewrite F5|split; [|done]]].
    + apply (sys_inv_ext s1); try done.
    + unfold puback_step. rewrite F4. pose proof (replayed_puback p Hp) as Hq.
      destruct (replayed p); try done. by destruct (Hq packet).
Qed.

(** ** The transition system *)

(** What a step shows to the outside. *)
Inductive label : Type :=
  | Sent (packet : Packet.t)
  | Received (pkid : PacketIdentifier)
  | ConnectionLost
  | Silent.

Definition received_label (publish : Publish.t) : label :=
  match Publish.packet_identifier_dup_qos publish with
  | PacketIdentifierDupQoS.AtLeastOnce pkid _ => Received pkid
  | _ => Silent
  end.

(** The token that goes to the application with a QoS 1 PUBLISH. *)
Definition received_token (e : u64) (publish : Publish.t) : list PubAckToken :=
  match Publish.packet_identifier_dup_qos publish with
  | PacketIdentifierDupQoS.AtLeastOnce pkid _ => [mkPubAckToken pkid e]
  | _ => []
  end.

(** The identifier an acknowledgement from the server carries. *)
Definition op_pkid (op : CompletedOperation.t) : PacketIdentifier :=
  match op with
  | CompletedOperation.PublishQoS1 ack | CompletedOperation.PublishQoS2 ack
  | CompletedOperation.PubRec ack | CompletedOperation.PubRel ack => Ack.packet_identifier ack
  | CompletedOperation.Subscribe suback => SubAck.packet_identifier suback
  | CompletedOperation.Unsubscribe unsuback => UnsubAck.packet_identifier unsuback
  end.

Section system.
Context (allow_omitted_auth_method : bool).

Inductive step : Session * list PubAckToken -> label -> Session * list PubAckToken -> Prop :=
  (** The application submits requests of any kind but acknowledgements; AUTH
      requests carry a method, as [ReauthToken] and the client build them. *)
  | step_submit s ts c :
      ack_rx c = ack_rx (ch s) -> Forall auth_ok (auth_rx c) ->
      step (s, ts) Silent (set_ch c s, ts)
  (** The application accepts, rejects or drops a PUBACK token. *)
  | step_acknowledge s ts1 t ts2 n p :
      Ack.packet_identifier p = token_pkid t ->
      step (s, ts1 ++ t :: ts2) Silent
        (set_ch (set_ack_rx (ack_rx (ch s) ++ [AcknowledgementRequest.PubAck n p (token_epoch t)]) (ch s)) s,
         ts1 ++ ts2)
  (** The driver asks for the next packet. *)
  | step_send now s ts p s' :
      is_connected s = true -> next_outgoing_packet now s = (Ready p, s') -> step (s, ts) (Sent p) (s', ts)
  | step_wait now s ts s' :
      is_connected s = true -> next_outgoing_packet now s = (Pending, s') -> step (s, ts) Silent (s', ts)
  (** The server acknowledges an operation in flight, or one that does not exist.
      The case left out, an acknowledgement of the wrong type for an identifier
      in flight, breaks the invariant: see [any_run] below and SessionProps. *)
  | step_complete s ts op r s' :
      is_connected s = true -> complete_inflight op s = (r, s') ->
      r = Ok tt \/ op_pkid op ∉ inflight_pkids (inflight s) -> step (s, ts) Silent (s', ts)
  (** The server delivers a PUBLISH. *)
  | step_publish s ts p s' :
      is_connected s = true -> incoming_publish p s = Returns s' ->
      step (s, ts) (received_label p) (s', ts ++ received_token (connection_epoch s) p)
  | step_auth s ts a r s' :
      is_connected s = true -> incoming_auth allow_omitted_auth_method a s = (r, s') ->
      step (s, ts) Silent (s', ts)
  | step_pingresp now s ts :
      is_connected s = true -> step (s, ts) Silent (incoming_pingresp now s, ts)
  (** The connection ends, or a new one begins. *)
  | step_client_disconnect s ts d :
      is_connected s = true -> step (s, ts) ConnectionLost (client_disconnect d s, ts)
  | step_server_disconnect s ts d :
      is_connected s = true -> step (s, ts) ConnectionLost (server_disconnect d s, ts)
  | step_transport_disconnect s ts :
      is_connected s = true -> step (s, ts) ConnectionLost (transport_disconnect s, ts)
  | step_connack now connack keep_alive auth_method expiry s ts r s' :
      is_connected s = false -> connection_epoch s + 1 < 2 ^ 64 ->
      incoming_connack allow_omitted_auth_method now connack keep_alive auth_method expiry s = (r, s') ->
      step (s, ts) Silent (s', ts).

(** *** Every step preserves the invariant *)

Lemma complete_inflight_frame op s r s' :
  complete_inflight op s = (r, s') ->
  ch s' = ch s /\ in_application s' = in_application s /\ connected s' = connected s /\
  connection_epoch s' = connection_epoch s /\
  packets_to_replay (inflight s') = packets_to_replay (inflight s).
Proof.
  intros E. destruct op as [a|a|a|a|a|a]; cbn in E;
    try (destruct (PubRec.is_success _));
    try (destruct (im_shift_remove _ _) as [[[q n]|] m]);
    try (destruct (subscribe (inflight s) !! _));
    try (destruct (unsubscribe (inflight s) !! _));
    try (destruct (pubrec (inflight s) !! _) as [[q n]|]); injection E as _ <-; done.
Qed.

(** An acknowledgement that is refused touches at most the pool. *)
Lemma complete_inflight_refused op s e s' :
  complete_inflight op s = (Err e, s') -> s' = s \/ s' = release (op_pkid op) s.
Proof.
  intros E. destruct op as [a|a|a|a|a|a]; cbn in E;
    try (destruct (PubRec.is_success _));
    try (destruct (im_shift_remove _ _) as [[[q n]|] m]);
    try (destruct (subscribe (inflight s) !! _));
    try (destruct (unsubscribe (inflight s) !! _));
    try (destruct (pubrec (inflight s) !! _) as [[q n]|]); simplify_eq; cbn; auto.
Qed.

Lemma inv_complete s ts op r s' :
  sys_inv s ts -> complete_inflight op s = (r, s') ->
  r = Ok tt \/ op_pkid op ∉ inflight_pkids (inflight s) -> sys_inv s' ts.
Proof.
  intros [H1 H2 H3 H4 H5 H0 H6] E Hr. destruct (complete_inflight_frame _ _ _ _ E) as (F1 & F2 & F3 & F4 & F5).
  split; [|unfold is_connected, acks_inv in *; by rewrite ?F1, ?F2, ?F3, ?F4, ?F5..].
  destruct r as [[]|e]; [by eapply complete_inflight_pkids|]. destruct Hr as [|Hr]; [done|].
  destruct (complete_inflight_refused _ _ _ _ E) as [->| ->]; [done|].
  apply (pkids_inv_release_all [op_pkid op] s H1). by intros k ->%list_elem_of_singleton.
Qed.

Lemma current_tokens_app e ts1 ts2 :
  current_tokens e (ts1 ++ ts2) = current_tokens e ts1 ++ current_tokens e ts2.
Proof. apply flat_map_app. Qed.

Lemma current_requests_app e l1 l2 :
  current_requests e (l1 ++ l2) = current_requests e l1 ++ current_requests e l2.
Proof. apply flat_map_app. Qed.

Lemma inv_acknowledge s ts1 t ts2 n p :
  sys_inv s (ts1 ++ t :: ts2) -> Ack.packet_identifier p = token_pkid t ->
  sys_inv (set_ch (set_ack_rx (ack_rx (ch s) ++ [AcknowledgementRequest.PubAck n p (token_epoch t)]) (ch s)) s)
    (ts1 ++ ts2).
Proof.
  intros [H1 H2 H3 H4 H5 H0 H6] Hp. apply Forall_app in H4 as [H4 H4']. apply Forall_cons in H4' as [Ht H4'].
  split; try done.
  - by apply Forall_app.
  - fields. cbn [ack_rx set_ack_rx]. apply Forall_app. split; [done|]. apply Forall_singleton. exact Ht.
  - unfold is_connected in *. fields. destruct (connected s); [done|].
    destruct H6 as (Hnd & HF & Ha & Hperm). split; [done|]. split; [done|]. fields. cbn [ack_rx set_ack_rx]. split.
    + apply Forall_app. split; [done|]. by apply Forall_singleton.
    + rewrite <- Hperm.
      rewrite !current_tokens_app, current_requests_app. cbn. rewrite Hp.
      destruct (token_epoch t =? connection_epoch s); cbn [app]; [solve_Permutation|].
      by rewrite !app_nil_r.
Qed.

Lemma inv_publish s ts p s' :
  sys_inv s ts -> is_connected s = true -> incoming_publish p s = Returns s' ->
  sys_inv s' (ts ++ received_token (connection_epoch s) p) /\
  match received_label p with
  | Received k => im_keys (in_application s') = im_keys (in_application s) ++ [k]
  | _ => im_keys (in_application s') = im_keys (in_application s)
  end.
Proof.
  intros [H1 H2 H3 H4 H5 H0 H6] Hc E. unfold incoming_publish, received_token, received_label in *.
  rewrite Hc in H6. destruct (Publish.packet_identifier_dup_qos p) as [|k d|k d]; [|..|done].
  - injection E as <-. rewrite app_nil_r. split; [|done]. split; try done.
    change (if is_connected s then acks_inv s ts else in_application s = []). by rewrite Hc.
  - destruct H6 as (Hnd & HF & Ha & Hperm).
    pose proof (im_insert_fst k NotReady (in_application s)) as Hfst.
    destruct (im_insert k NotReady (in_application s)) as [r m] eqn:Em. cbn in Hfst. subst r.
    destruct (im_get k (in_application s)) eqn:Eg; [done|]. apply im_get_None in Eg.
    rewrite (im_insert_new k NotReady _ Eg) in Em. injection Em as <-. injection E as <-. split; [|exact (im_keys_app (in_application s) [(k, NotReady)])].
    split; try done.
    + apply Forall_app. split; [done|]. apply Forall_singleton. cbn. lia.
    + unfold is_connected in Hc |- *. unfold send_incoming. fields. destruct (connected s); [done|].
      unfold acks_inv. fields. cbn [ack_rx]. rewrite im_keys_app, current_tokens_app. cbn [im_keys map fst].
      unfold not_ready. rewrite flat_map_app. fold (not_ready (in_application s)).
      cbn [current_tokens flat_map token_epoch token_pkid]. rewrite Z.eqb_refl. split_and!; try done.
      * apply NoDup_app. split; [done|]. split; [|apply NoDup_singleton].
        intros x Hx Hin. apply list_elem_of_singleton in Hin as ->. done.
      * apply Forall_app. split; [done|]. by apply Forall_singleton.
      * rewrite <- Hperm. cbn. solve_Permutation.
Qed.

Lemma inv_submit s ts c :
  sys_inv s ts -> ack_rx c = ack_rx (ch s) -> Forall auth_ok (auth_rx c) -> sys_inv (set_ch c s) ts.
Proof.
  intros [H1 H2 H3 H4 H5 H0 H6] Ea Hau. split; fields; rewrite ?Ea; try done.
  unfold is_connected in *. fields. destruct (connected s); [done|].
  unfold acks_inv in *. fields. by rewrite Ea.
Qed.

(** Handlers that leave everything the invariant speaks about alone. *)
Lemma incoming_auth_inv a s ts r s' :
  sys_inv s ts -> incoming_auth allow_omitted_auth_method a s = (r, s') -> sys_inv s' ts.
Proof.
  intros Hinv E. unfold incoming_auth in E. destruct (inflight_auth (inflight s)) as [[method n]|];
    [|by injection E as _ <-].
  case_match; [by injection E as _ <-|].
  destruct Hinv as [H1 H2 H3 H4 H5 H0 H6].
  destruct (Auth.reason_code a); injection E as _ <-; by split.
Qed.

Lemma incoming_pingresp_inv now s ts : sys_inv s ts -> sys_inv (incoming_pingresp now s) ts.
Proof.
  intros Hinv. unfold incoming_pingresp. destruct (pingreq (inflight s)) as [|[at_ [n|]] rest]; [done|..];
    destruct Hinv as [H1 H2 H3 H4 H5 H0 H6]; by split.
Qed.

(** *** The end of a connection *)

Lemma replay_list_replayable i : Forall replayable (replay_list i).
Proof.
  apply Forall_app. split; apply Forall_forall; intros x (y & -> & _)%list_elem_of_fmap; done.
Qed.

Lemma disconnected_inv s ts :
  sys_inv s ts -> sys_inv (disconnected s) ts /\ is_connected (disconnected s) = false.
Proof.
  intros [H1 H2 H3 H4 H5 H0 H6]. pose proof (disconnected_pkids s H1) as Hp.
  rewrite disconnected_eq in *. cbv zeta in *. split; [|done]. split; try done.
  apply replay_list_replayable.
Qed.

Lemma session_expired_inv s ts :
  sys_inv s ts -> is_connected s = false ->
  sys_inv (session_expired s) ts /\ is_connected (session_expired s) = false.
Proof.
  intros [H1 H2 H3 H4 H5 H0 H6] Hc. pose proof (session_expired_pkids s H1) as Hp.
  rewrite session_expired_eq in *. cbv zeta in *. split; [|done].
  by split.
Qed.

Lemma expire_if_zero_inv s ts :
  sys_inv s ts -> is_connected s = false ->
  sys_inv (expire_if_zero s) ts /\ is_connected (expire_if_zero s) = false.
Proof.
  intros Hinv Hc. unfold expire_if_zero. destruct (expiry_interval s) as [|[| |]]; try done.
  by apply session_expired_inv.
Qed.

Lemma client_disconnect_inv d s ts :
  sys_inv s ts -> sys_inv (client_disconnect d s) ts /\ is_connected (client_disconnect d s) = false.
Proof.
  intros Hinv. unfold client_disconnect. destruct (disconnected_inv s ts Hinv) as [Hd Hc].
  apply expire_if_zero_inv; destruct (Disconnect.session_expiry_interval _); try done.
  by apply (sys_inv_ext (disconnected s)).
Qed.

Lemma transport_disconnect_inv s ts :
  sys_inv s ts -> sys_inv (transport_disconnect s) ts /\ is_connected (transport_disconnect s) = false.
Proof. intros Hinv. destruct (disconnected_inv s ts Hinv). by apply expire_if_zero_inv. Qed.

(** *** The beginning of a connection *)

(** Nothing acknowledges a connection that has not begun. *)
Lemma current_tokens_fresh e ts :
  Forall (fun t => token_epoch t <= e) ts -> current_tokens (e + 1) ts = [].
Proof.
  unfold current_tokens. induction 1 as [|t ts Ht _ IH]; [done|]. cbn [flat_map]. rewrite IH.
  by replace (token_epoch t =? e + 1) with false by (symmetry; apply Z.eqb_neq; lia).
Qed.

Lemma current_requests_fresh e reqs :
  Forall (request_before e) reqs -> current_requests (e + 1) reqs = [].
Proof.
  unfold current_requests. induction 1 as [|req reqs Hr _ IH]; [done|]. cbn [flat_map]. rewrite IH. destruct req as [n p e'| | | |]; try done.
  cbn in *. by replace (e' =? e + 1) with false by (symmetry; apply Z.eqb_neq; lia).
Qed.

Lemma request_before_mono e e' req : e <= e' -> request_before e req -> request_before e' req.
Proof. destruct req; cbn; lia || done. Qed.

Lemma request_before_puback e req : request_before e req -> is_puback req.
Proof. by destruct req. Qed.

(** Opening the connection [connack] on a session that is not connected. *)
Lemma open_inv s s' ts connack :
  sys_inv s ts -> is_connected s = false ->
  ch s' = ch s -> pkid_pool s' = pkid_pool s -> inflight s' = inflight s ->
  in_application s' = in_application s -> connected s' = Connected connack ->
  connection_epoch s' = connection_epoch s + 1 -> sys_inv s' ts.
Proof.
  intros [H1 H2 H3 H4 H5 H0 H6] Hc E1 E2 E3 E4 E5 E6. rewrite Hc in H6.
  split; unfold is_connected, pkids_inv; rewrite ?E1, ?E2, ?E3, ?E6; try done.
  - eapply Forall_impl; [done|]. cbn. lia.
  - eapply Forall_impl; [done|]. intros req. apply request_before_mono. lia.
  - lia.
  - rewrite E5. unfold acks_inv. rewrite E1, E4, E6, H6. split; [by apply NoDup_nil|].
    split; [done|]. split; [eapply Forall_impl; [done|]; apply request_before_puback|].
    by rewrite current_tokens_fresh, current_requests_fresh.
Qed.

Lemma next_epoch_small e : 0 <= e -> e + 1 < 2 ^ 64 -> next_epoch e = e + 1.
Proof. intros. apply Z.mod_small. lia. Qed.

Lemma incoming_connack_inv now connack ka am ex s ts r s' :
  sys_inv s ts -> is_connected s = false -> connection_epoch s + 1 < 2 ^ 64 ->
  incoming_connack allow_omitted_auth_method now connack ka am ex s = (r, s') -> sys_inv s' ts.
Proof.
  intros Hinv Hc He E. unfold incoming_connack in E. case_match; [by injection E as _ <-|].
  destruct (ConnAck.reason_code connack) as [present|]; [|by injection E as _ <-].
  assert (Hs : exists s1, s1 = (if negb present then session_expired s else s) /\ sys_inv s1 ts /\
    is_connected s1 = false /\ connection_epoch s1 = connection_epoch s).
  { eexists. split; [done|]. destruct present; cbn [negb]; [done|].
    destruct (session_expired_inv s ts Hinv Hc). by rewrite session_expired_eq in *. }
  destruct Hs as (s1 & Es1 & Hinv1 & Hc1 & He1). rewrite <- Es1 in E. clear Es1.
  rewrite <- He1 in He. pose proof (inv_epoch _ _ Hinv1) as H0.
  injection E as _ <-. apply (open_inv s1 _ _ connack); try done;
    destruct (match ConnAck.server_keep_alive _ with Some _ => _ | None => _ end); try done;
    by apply next_epoch_small.
Qed.

(** *** All steps *)

(** What a label says about the PUBLISHes that wait for their acknowledgement. *)
Definition label_step (s : Session) (l : label) (s' : Session) : Prop :=
  match l with
  | Received k => im_keys (in_application s') = im_keys (in_application s) ++ [k]
  | Sent p => puback_step (Ready p) s s'
  | ConnectionLost => is_connected s' = false
  | Silent => im_keys (in_application s') = im_keys (in_application s)
  end.

Lemma incoming_auth_keys a s r s' :
  incoming_auth allow_omitted_auth_method a s = (r, s') -> in_application s' = in_application s.
Proof.
  intros E. unfold incoming_auth in E. destruct (inflight_auth (inflight s)) as [[method n]|];
    [|by injection E as _ <-].
  case_match; [by injection E as _ <-|]. destruct (Auth.reason_code a); by injection E as _ <-.
Qed.

Lemma incoming_connack_keys now connack ka am ex s r s' :
  incoming_connack allow_omitted_auth_method now connack ka am ex s = (r, s') ->
  in_application s' = in_application s.
Proof.
  intros E. unfold incoming_connack in E. case_match; [by injection E as _ <-|].
  destruct (ConnAck.reason_code connack) as [present|]; [|by injection E as _ <-].
  injection E as _ <-.
  destruct (match ConnAck.server_keep_alive _ with Some _ => _ | None => _ end); fields;
    destruct present; cbn [negb]; rewrite ?session_expired_eq; done.
Qed.

Lemma step_preserves s ts l s' ts' :
  step (s, ts) l (s', ts') -> sys_inv s ts -> sys_inv s' ts' /\ label_step s l s'.
Proof.
  intros Hstep Hinv. inversion Hstep; subst.
  - split; [by apply inv_submit|done].
  - split; [by apply inv_acknowledge|done].
  - pose proof (next_outgoing_packet_inv now s ts' Hinv ltac:(done)) as Hn.
    match goal with E : next_outgoing_packet _ _ = _ |- _ => rewrite E in Hn end. tauto.
  - pose proof (next_outgoing_packet_inv now s ts' Hinv ltac:(done)) as Hn.
    match goal with E : next_outgoing_packet _ _ = _ |- _ => rewrite E in Hn end. tauto.
  - split; [by eapply inv_complete|]. cbn. by destruct (complete_inflight_frame _ _ _ _ ltac:(eassumption)) as (_ & -> & _).
  - destruct (inv_publish s ts p s' Hinv) as [? Hl]; [done|done|]. split; [done|].
    unfold received_label in *. by destruct (Publish.packet_identifier_dup_qos p).
  - split; [by eapply incoming_auth_inv|]. cbn. by erewrite incoming_auth_keys.
  - split; [by apply incoming_pingresp_inv|]. cbn. unfold incoming_pingresp.
    by destruct (pingreq (inflight s)) as [|[? [?|]] ?].
  - by apply client_disconnect_inv.
  - by apply transport_disconnect_inv.
  - by apply transport_disconnect_inv.
  - split; [by eapply incoming_connack_inv|]. cbn. by erewrite incoming_connack_keys.
Qed.

(** *** Runs *)

Inductive steps : Session * list PubAckToken -> list label -> Session * list PubAckToken -> Prop :=
  | steps_nil c : steps c [] c
  | steps_cons c1 l c2 ls c3 : step c1 l c2 -> steps c2 ls c3 -> steps c1 (l :: ls) c3.

Lemma steps_preserve c ls c' :
  steps c ls c' -> sys_inv (fst c) (snd c) -> sys_inv (fst c') (snd c').
Proof.
  induction 1 as [|[s ts] l [s1 ts1] ls c3 Hl _ IH]; [done|]. intros Hinv. apply IH.
  by destruct (step_preserves _ _ _ _ _ Hl Hinv).
Qed.

(** A new session, on channels in which no acknowledgement can be queued yet. *)
Definition initial (channels : Channels) (max_pkid : PacketIdentifier) : Prop :=
  pkid_wf max_pkid /\ ack_rx channels = [] /\ Forall auth_ok (auth_rx channels).

Lemma initial_inv channels max_pkid :
  initial channels max_pkid -> sys_inv (Session_new channels max_pkid) [].
Proof.
  intros (Hm & Ha & Hau). split; try done.
  - split; [by apply pool_wf_new|]. split; [apply NoDup_nil_2|]. cbn. by intros k Hk%elem_of_nil.
  - cbn. by rewrite Ha.
Qed.

(** The states a session can be in. *)
Definition reachable (s : Session) (ts : list PubAckToken) : Prop :=
  exists channels max_pkid ls, initial channels max_pkid /\ steps (Session_new channels max_pkid, []) ls (s, ts).

Lemma reachable_inv s ts : reachable s ts -> sys_inv s ts.
Proof.
  intros (channels & max_pkid & ls & Hi & Hs). apply (steps_preserve _ _ _ Hs). by apply initial_inv.
Qed.

Lemma steps_snoc c ls c' l c'' : steps c ls c' -> step c' l c'' -> steps c (ls ++ [l]) c''.
Proof. induction 1; intros; cbn; eauto using steps. Qed.

(** *** Any server

    [step] leaves out one thing that a server can do: acknowledge an identifier in flight
    with a packet of the wrong type. [any_run] has it as an event of its own, so that what
    holds only without it can say so. *)
Inductive event : Type :=
  | Follows (l : label)
  | Mismatched (op : CompletedOperation.t).

Inductive any_run : list event -> Session -> list PubAckToken -> Prop :=
  | any_new channels max_pkid :
      initial channels max_pkid -> any_run [] (Session_new channels max_pkid) []
  | any_step es s ts l s' ts' :
      any_run es s ts -> step (s, ts) l (s', ts') -> any_run (es ++ [Follows l]) s' ts'
  | any_mismatched es s ts op e s' :
      any_run es s ts -> is_connected s = true -> complete_inflight op s = (Err e, s') ->
      op_pkid op ∈ inflight_pkids (inflight s) -> any_run (es ++ [Mismatched op]) s' ts.

(** The server acknowledges every operation in flight with a packet of its type. *)
Definition compliant (es : list event) : Prop := forall op, Mismatched op ∉ es.

Lemma compliant_reachable es s ts : any_run es s ts -> compliant es -> reachable s ts.
Proof.
  induction 1 as [channels m Hi|es s ts l s' ts' _ IH Hs|es s ts op e s' _ _ _ _ _]; intros Hc.
  - by exists channels, m, []; split; [|constructor].
  - destruct IH as (channels & m & ls & Hi & Hr).
    { intros op Hin. apply (Hc op), elem_of_app. by left. }
    exists channels, m, (ls ++ [l]). split; [done|]. by eapply steps_snoc.
  - destruct (Hc op). apply elem_of_app. right. by apply list_elem_of_singleton.
Qed.

Lemma reachable_any s ts : reachable s ts -> exists es, any_run es s ts /\ compliant es.
Proof.
  intros (channels & m & ls & Hi & Hr).
  assert (Hgo : forall es c, any_run es (fst c) (snd c) -> compliant es -> forall ls c', steps c ls c' ->
    exists es', any_run es' (fst c') (snd c') /\ compliant es').
  { intros es c Ha Hc ls' c' Hs. revert es Ha Hc. induction Hs as [c|[s1 ts1] l [s2 ts2] ls2 c3 Hl _ IH];
      intros es Ha Hc; [eauto|]. apply (IH (es ++ [Follows l])); [by eapply any_step|].
    intros op [Hin|Hin%list_elem_of_singleton]%elem_of_app; [by apply (Hc op)|done]. }
  apply (Hgo [] (_, _) (any_new _ _ Hi)) in Hr; [done|]. intros op. apply not_elem_of_nil.
Qed.
End system.
