(* ===== verification/Tokens.v ===== *)
(** * Tokens

    The controls handed to the application (client/token): acknowledgement
    tokens with their drop behaviour, completion tokens, and reauthentication
    tokens. A token of the source owns the sender of a channel; here the channel
    is an argument. *)

From S2P Require Export UserPackets SessionSystem.
Local Open Scope Z_scope.

(** [DetachedError]. *)
Inductive DetachedError : Set := mkDetachedError.

(** ** The channels between the application and the session

    What the handles of the application and the session share: the channels,
    whether the session still holds their receiving ends, and the notifiers
    created so far. *)
Record Link : Type := mkLink {
  link_ch : Channels;
  link_alive : bool;
  link_next : Notifier;
}.

(** [completion_pair()]: the notifier, which is also the identity of its token. *)
Definition completion_pair (l : Link) : Notifier * Link :=
  (link_next l, mkLink (link_ch l) (link_alive l) (S (link_next l))).

(** [tx.send(value)] on the channel at [get] and [set], of [capacity] if it is
    bounded. It fails once the receiver is dropped, and waits while the channel
    is full. *)
Definition send {A} (get : Channels -> list A) (set : list A -> Channels -> Channels)
    (capacity : option nat) (value : A) (l : Link) : poll (result DetachedError ()) * Link :=
  if negb (link_alive l) then (Ready (Err mkDetachedError), l)
  else if match capacity with Some n => (length (get (link_ch l)) <? n)%nat | None => true end then
    (Ready (Ok tt), mkLink (set (get (link_ch l) ++ [value]) (link_ch l)) (link_alive l) (link_next l))
  else (Pending, l).

(** [send(value).await.map_err(..)?; Ok(token)]. *)
Definition token_of (notifier : Notifier) (r : poll (result DetachedError ())) :
    poll (result DetachedError Notifier) :=
  match r with
  | Ready (Ok _) => Ready (Ok notifier)
  | Ready (Err e) => Ready (Err e)
  | Pending => Pending
  | Panicked m => Panicked m
  | OutOfFuel => OutOfFuel
  end.

(** The unbounded channel of acknowledgements, whose [send] does not wait. *)
Definition send_ack (value : AcknowledgementRequest.t) (l : Link) : result DetachedError () * Link :=
  if link_alive l then
    (Ok tt, mkLink (set_ack_rx (ack_rx (link_ch l) ++ [value]) (link_ch l)) true (link_next l))
  else (Err mkDetachedError, l).

(** ** [PubAckToken] *)

Module buffered_PubAckToken.
Record t : Set := mk { pkid : PacketIdentifier; epoch : u64; triggered : bool }.

Definition new (pkid : PacketIdentifier) (epoch : u64) : t := mk pkid epoch false.

(** [PubAckToken::inner_send]; the result is the completion token. *)
Definition inner_send (tx : Link) (packet_identifier : PacketIdentifier)
    (other_properties : ReasonProperties) (reason_code : PubAckReasonCode.t) (epoch : u64) :
    result DetachedError Notifier * Link :=
  let '(notifier, tx) := completion_pair tx in
  let puback := Ack.mk packet_identifier reason_code other_properties in
  let '(r, tx) := send_ack (AcknowledgementRequest.PubAck notifier puback epoch) tx in
  (let? _ := r in Ok notifier, tx).

(** [Drop::drop]. *)
Definition drop_token (this : t) (tx : Link) : Link :=
  if negb (triggered this) then
    snd (inner_send tx (pkid this) ReasonProperties_default PubAckReasonCode.Success (epoch this))
  else tx.

(** [PubAckToken::send], which drops the token when it returns. *)
Definition send_token (this : t) (properties : ReasonProperties) (reason : PubAckReasonCode.t)
    (tx : Link) : result DetachedError Notifier * Link :=
  match inner_send tx (pkid this) properties reason (epoch this) with
  | (Err e, tx) => (Err e, drop_token this tx)
  | (Ok completion, tx) =>
      let this := mk (pkid this) (epoch this) true in
      (Ok completion, drop_token this tx)
  end.

(** [PubAckToken::accept] and [PubAckToken::reject]. *)
Definition accept (this : t) (properties : ReasonProperties) (tx : Link) :=
  send_token this properties PubAckReasonCode.Success tx.

Definition reject (this : t) (reason : PubAckReasonCode.t) (properties : ReasonProperties)
    (tx : Link) :=
  send_token this properties reason tx.
End buffered_PubAckToken.

(** The public [PubAckToken::accept] and [PubAckToken::reject]. A panic of
    [properties.into()] unwinds, which drops the token. *)
Definition PubAckToken_accept (this : buffered_PubAckToken.t) (properties : PubAckProperties.t) (tx : Link) :
    outcome (result DetachedError Notifier) * Link :=
  match PubAckProperties.into properties with
  | Panics m => (Panics m, buffered_PubAckToken.drop_token this tx)
  | Returns properties =>
      let '(r, tx) := buffered_PubAckToken.accept this properties tx in (Returns r, tx)
  end.

Definition PubAckToken_reject (this : buffered_PubAckToken.t) (reason : PubRejectReason.t)
    (properties : PubAckProperties.t) (tx : Link) : outcome (result DetachedError Notifier) * Link :=
  match PubAckProperties.into properties with
  | Panics m => (Panics m, buffered_PubAckToken.drop_token this tx)
  | Returns properties =>
      let '(r, tx) :=
        buffered_PubAckToken.reject this (PubRejectReason.into_PubAckReasonCode reason) properties tx in
      (Returns r, tx)
  end.

(** ** Tokens of QoS 2, which are not implemented: every method panics, and so
    does dropping a token. *)

Module buffered_PubRecToken.
Definition accept (this : PubRecToken) (properties : ReasonProperties) : outcome () :=
  Panics "not implemented".
Definition reject (this : PubRecToken) (reason : PubRecReasonCode.t) (properties : ReasonProperties) :
    outcome () := Panics "not implemented".
Definition drop_token (this : PubRecToken) : outcome () := Panics "not implemented".
End buffered_PubRecToken.

Module buffered_PubRelToken.
Definition confirm (this : PubRelToken) (properties : ReasonProperties) : outcome () :=
  Panics "not implemented".
Definition drop_token (this : PubRelToken) : outcome () := Panics "not implemented".
End buffered_PubRelToken.

Module buffered_PubCompToken.
Definition confirm (this : PubCompToken) (properties : ReasonProperties) : outcome () :=
  Panics "not implemented".
Definition drop_token (this : PubCompToken) : outcome () := Panics "not implemented".
End buffered_PubCompToken.

(** The public [PubRecToken], [PubRelToken] and [PubCompToken], which convert the properties
    first. A panic there unwinds into [drop], which panics as well: the process aborts. *)
Definition PubRecToken_accept (this : PubRecToken) (properties : PubRecProperties.t) : outcome () :=
  let! properties := PubRecProperties.into properties in
  buffered_PubRecToken.accept this properties.

Definition PubRecToken_reject (this : PubRecToken) (reason : PubRejectReason.t)
    (properties : PubRecProperties.t) : outcome () :=
  let! properties := PubRecProperties.into properties in
  buffered_PubRecToken.reject this (PubRejectReason.into_PubRecReasonCode reason) properties.

Definition PubRelToken_confirm (this : PubRelToken) (properties : PubRelProperties.t) : outcome () :=
  let! properties := PubRelProperties.into properties in
  buffered_PubRelToken.confirm this properties.

Definition PubCompToken_confirm (this : PubCompToken) (properties : PubCompProperties.t) : outcome () :=
  let! properties := PubCompProperties.into properties in
  buffered_PubCompToken.confirm this properties.

(** There is no way to use a QoS 2 token that does not panic. *)
Lemma qos2_tokens_panic :
  (forall t p, exists m, PubRecToken_accept t p = Panics m) /\
  (forall t r p, exists m, PubRecToken_reject t r p = Panics m) /\
  (forall t, exists m, buffered_PubRecToken.drop_token t = Panics m) /\
  (forall t p, exists m, PubRelToken_confirm t p = Panics m) /\
  (forall t, exists m, buffered_PubRelToken.drop_token t = Panics m) /\
  (forall t p, exists m, PubCompToken_confirm t p = Panics m) /\
  (forall t, exists m, buffered_PubCompToken.drop_token t = Panics m).
Proof.
  unfold PubRecToken_accept, PubRecToken_reject, PubRelToken_confirm, PubCompToken_confirm.
  split_and!; intros; try (by eexists);
    match goal with |- context [match ?into with Returns _ => _ | Panics _ => _ end] => destruct into end;
    by eexists.
Qed.

(** ** Reauthentication *)

(** [buffered::ReauthToken::continue_reauth]. *)
Definition buffered_continue_reauth (this : ReauthToken) (authentication_data : option BinaryData)
    (reason_string : option ByteStr) (user_properties : list (ByteStr * ByteStr))
    (tx : Link) : poll (result DetachedError Notifier) * Link :=
  let '(notifier, tx) := completion_pair tx in
  let auth := Auth.mk AuthenticateReasonCode.ContinueAuthentication
    (Some (Authentication.mk (reauth_token_method this) authentication_data)) reason_string
    user_properties in
  let '(r, tx) := send auth_rx set_auth_rx (Some 1%nat) (mkReauthRequest notifier auth) tx in
  (token_of notifier r, tx).

(** [ReauthToken::continue_reauth]. *)
Definition continue_reauth (this : ReauthToken) (authentication_data : option (list u8))
    (properties : AuthProperties.t) (tx : Link) :
    outcome (poll (result DetachedError Notifier) * Link) :=
  let! authentication_data := opt_into BinaryData_from authentication_data in
  let! reason_string := opt_into ByteStr_from (AuthProperties.reason_string properties) in
  let! user_properties := map_user_properties_to_bytestr (AuthProperties.user_properties properties) in
  Returns (buffered_continue_reauth this authentication_data reason_string user_properties tx).

(** [client::ReauthResult], with [From<buffered::ReauthResult>]. *)
Module client_ReauthResult.
Inductive t : Type :=
  | Continue (auth : packet_Auth.t) (token : ReauthToken)
  | Success (auth : packet_Auth.t)
  | Failure.

Definition from (value : ReauthResult.t) : t :=
  match value with
  | ReauthResult.Continue auth token => Continue (packet_Auth.from auth) token
  | ReauthResult.Success auth => Success (packet_Auth.from auth)
  | ReauthResult.Failure => Failure
  end.
End client_ReauthResult.

(** ** Completion tokens

    The one-shot channel of a completion pair. *)

Module CompletionError.
Inductive t : Set := Detached | Canceled (reason : string).
End CompletionError.

Inductive CompletionChannel (T : Type) : Type :=
  | CompletionEmpty
  | CompletionHolds (r : result CompletionError.t T)
  | NotifierDropped
  | TokenDropped.
Arguments CompletionEmpty {_}.
Arguments CompletionHolds {_} _.
Arguments NotifierDropped {_}.
Arguments TokenDropped {_}.

Section completion.
Context {T : Type}.

(** [oneshot::Sender::send], which gives the value back when the token is gone.
    The notifier is consumed, so that the other states do not occur. *)
Definition oneshot_send (r : result CompletionError.t T) (c : CompletionChannel T) :
    result (result CompletionError.t T) () * CompletionChannel T :=
  match c with
  | CompletionEmpty => (Ok tt, CompletionHolds r)
  | _ => (Err r, c)
  end.

(** [CompletionNotifier::complete] and [CompletionNotifier::cancel]. *)
Definition CompletionNotifier_complete (value : T) (c : CompletionChannel T) :
    outcome (result T ()) * CompletionChannel T :=
  match oneshot_send (Ok value) c with
  | (Ok _, c) => (Returns (Ok tt), c)
  | (Err (Ok v), c) => (Returns (Err v), c)
  | (Err (Err _), c) => (Panics "internal error: entered unreachable code", c)
  end.

Definition CompletionNotifier_cancel (reason : string) (c : CompletionChannel T) :
    outcome (result string ()) * CompletionChannel T :=
  match oneshot_send (Err (CompletionError.Canceled reason)) c with
  | (Ok _, c) => (Returns (Ok tt), c)
  | (Err (Ok _), c) => (Panics "internal error: entered unreachable code", c)
  | (Err (Err _), c) => (Returns (Err "Token dropped"%string), c)
  end.

(** Dropping a half that is still held. *)
Definition drop_notifier (c : CompletionChannel T) : CompletionChannel T :=
  match c with CompletionEmpty => NotifierDropped | _ => c end.
Definition drop_completion_token (c : CompletionChannel T) : CompletionChannel T := TokenDropped.

(** [CompletionToken::poll]. *)
Definition CompletionToken_poll (c : CompletionChannel T) : poll (result CompletionError.t T) :=
  match c with
  | CompletionHolds r => Ready r
  | NotifierDropped => Ready (Err CompletionError.Detached)
  | CompletionEmpty | TokenDropped => Pending
  end.
End completion.

(** [poll] of the token types with a map function ([make_completion_token_ty!]). *)
Definition mapped_poll {T U} (map_fn : T -> U) (r : poll (result CompletionError.t T)) :
    poll (result CompletionError.t U) :=
  match r with
  | Ready (Ok value) => Ready (Ok (map_fn value))
  | Ready (Err error) => Ready (Err error)
  | Pending => Pending
  | Panicked m => Panicked m
  | OutOfFuel => OutOfFuel
  end.

(** What awaiting a token returns to the application. *)
Inductive PublicCompletion : Type :=
  | PublicUnit
  | PublicPubAck (puback : packet_PubAck.t)
  | PublicPubRec (pubrec : packet_PubRec.t) (token : option PubRelToken)
  | PublicPubRel (pubrel : packet_PubRel.t) (token : PubCompToken)
  | PublicPubComp (pubcomp : packet_PubComp.t)
  | PublicSubAck (suback : packet_SubAck.t)
  | PublicUnsubAck (unsuback : packet_UnsubAck.t)
  | PublicPing (elapsed : Z)
  | PublicReauth (result : client_ReauthResult.t).

(** The map functions of the token types, on the value each completes with. *)
Definition public_completion (value : Completion) : PublicCompletion :=
  match value with
  | CompletedUnit => PublicUnit
  | CompletedPubAck puback => PublicPubAck (packet_PubAck.from puback)
  | CompletedPubRec pubrec token => PublicPubRec (packet_PubRec.from pubrec) token
  | CompletedPubRel pubrel token => PublicPubRel (packet_PubRel.from pubrel) token
  | CompletedPubComp pubcomp => PublicPubComp (packet_PubComp.from pubcomp)
  | CompletedSubAck suback => PublicSubAck (packet_SubAck.from suback)
  | CompletedUnsubAck unsuback => PublicUnsubAck (packet_UnsubAck.from unsuback)
  | CompletedPing elapsed => PublicPing elapsed
  | CompletedReauth result => PublicReauth (client_ReauthResult.from result)
  end.

(** What the session does to the notifier [n], on the channel of its pair. *)
Definition deliver (n : Notifier) (c : CompletionChannel Completion) (e : Event) : CompletionChannel Completion :=
  match e with
  | Complete n' value => if (n' =? n)%nat then snd (CompletionNotifier_complete value c) else c
  | Cancel n' reason => if (n' =? n)%nat then snd (CompletionNotifier_cancel reason c) else c
  end.

(** The result of the token of [n] after the session has sent [events] and, if
    [held] is false, no longer holds the notifier. *)
Definition await_token (n : Notifier) (held : bool) (events : list Event) :
    poll (result CompletionError.t PublicCompletion) :=
  let c := fold_left (deliver n) events CompletionEmpty in
  mapped_poll public_completion (CompletionToken_poll (if held then c else drop_notifier c)).

(** ** A PUBACK token acknowledges its PUBLISH once *)

(** What the application does with a token: call a method, or drop it, which
    includes dropping the future of a method before its first poll. *)
Inductive TokenUse : Type :=
  | Accept (properties : PubAckProperties.t)
  | Reject (reason : PubRejectReason.t) (properties : PubAckProperties.t)
  | DropUnused.

Definition use_token (use : TokenUse) (this : buffered_PubAckToken.t) (tx : Link) :
    outcome (result DetachedError (option Notifier)) * Link :=
  let some r :=
    match r with Returns (Ok n) => Returns (Ok (Some n)) | Returns (Err e) => Returns (Err e)
    | Panics m => Panics m end in
  match use with
  | Accept properties => let '(r, tx) := PubAckToken_accept this properties tx in (some r, tx)
  | Reject reason properties =>
      let '(r, tx) := PubAckToken_reject this reason properties tx in (some r, tx)
  | DropUnused => (Returns (Ok None), buffered_PubAckToken.drop_token this tx)
  end.

(** The PUBACK the application asked for; [None] if its properties do not fit,
    which is a panic. *)
Definition requested (use : TokenUse) : option (PubAckReasonCode.t * PubAckProperties.t) :=
  match use with
  | Accept properties => if PubAckProperties.fits properties then Some (PubAckReasonCode.Success, properties) else None
  | Reject reason properties =>
      if PubAckProperties.fits properties
      then Some (PubRejectReason.into_PubAckReasonCode reason, properties) else None
  | DropUnused => Some (PubAckReasonCode.Success, PubAckProperties.default)
  end.

(** The channels after [req] is queued. *)
Definition acknowledged_with (req : AcknowledgementRequest.t) (l : Link) : Channels :=
  set_ack_rx (ack_rx (link_ch l) ++ [req]) (link_ch l).

Lemma inner_send_spec l k o c e :
  buffered_PubAckToken.inner_send l k o c e =
    if link_alive l then
      (Ok (link_next l), mkLink (acknowledged_with
        (AcknowledgementRequest.PubAck (link_next l) (Ack.mk k c o) e) l) true (S (link_next l)))
    else (Err mkDetachedError, mkLink (link_ch l) false (S (link_next l))).
Proof.
  unfold buffered_PubAckToken.inner_send, completion_pair, send_ack. cbn. by destruct (link_alive l).
Qed.

Lemma send_token_spec k e o c l :
  let '(r, l') := buffered_PubAckToken.send_token (buffered_PubAckToken.new k e) o c l in
  if link_alive l then
    r = Ok (link_next l) /\ link_alive l' = true /\
    link_ch l' = acknowledged_with (AcknowledgementRequest.PubAck (link_next l) (Ack.mk k c o) e) l
  else r = Err mkDetachedError /\ link_alive l' = false /\ link_ch l' = link_ch l.
Proof.
  unfold buffered_PubAckToken.send_token. rewrite inner_send_spec. cbn [buffered_PubAckToken.new buffered_PubAckToken.pkid buffered_PubAckToken.epoch].
  destruct (link_alive l) eqn:Ea; [done|]. unfold buffered_PubAckToken.drop_token. cbn [negb buffered_PubAckToken.triggered].
  rewrite inner_send_spec. done.
Qed.

Lemma drop_token_spec k e l :
  let l' := buffered_PubAckToken.drop_token (buffered_PubAckToken.new k e) l in
  if link_alive l then
    link_alive l' = true /\
    link_ch l' = acknowledged_with (AcknowledgementRequest.PubAck (link_next l)
      (Ack.mk k PubAckReasonCode.Success ReasonProperties_default) e) l
  else link_alive l' = false /\ link_ch l' = link_ch l.
Proof.
  unfold buffered_PubAckToken.drop_token. cbn [negb buffered_PubAckToken.triggered buffered_PubAckToken.new].
  rewrite inner_send_spec. by destruct (link_alive l).
Qed.

(** The PUBACK [p] and the result [r] are what [use] asks for; a token whose
    properties do not fit still accepts, with the default properties. *)
Definition as_requested (use : TokenUse) (n : Notifier) (p : PubAck.t)
    (r : outcome (result DetachedError (option Notifier))) : Prop :=
  match requested use with
  | Some (code, properties) =>
      Ack.reason_code p = code /\ PubAckProperties.from (Ack.other_properties p) = properties /\
      r = Returns (Ok (match use with DropUnused => None | _ => Some n end))
  | None =>
      Ack.reason_code p = PubAckReasonCode.Success /\
      Ack.other_properties p = ReasonProperties_default /\ exists m, r = Panics m
  end.

Lemma use_token_spec use k e l :
  let '(r, l') := use_token use (buffered_PubAckToken.new k e) l in
  if link_alive l then exists p, Ack.packet_identifier p = k /\ as_requested use (link_next l) p r /\
    link_ch l' = acknowledged_with (AcknowledgementRequest.PubAck (link_next l) p e) l
  else link_ch l' = link_ch l /\ forall n, r <> Returns (Ok (Some n)).
Proof.
  pose proof (drop_token_spec k e l) as Hd. cbv zeta in Hd.
  assert (Hcall : forall code o properties, PubAckProperties.into properties = Returns o ->
    let '(r, l') := buffered_PubAckToken.send_token (buffered_PubAckToken.new k e) o code l in
    if link_alive l then r = Ok (link_next l) /\
      PubAckProperties.from o = properties /\ PubAckProperties.fits properties = true /\
      link_ch l' = acknowledged_with (AcknowledgementRequest.PubAck (link_next l) (Ack.mk k code o) e) l
    else r = Err mkDetachedError /\ link_ch l' = link_ch l).
  { intros code o properties Ei. pose proof (send_token_spec k e o code l) as Hs.
    apply into_Returns in Ei as (Hf & _ & Hfrom).
    destruct (buffered_PubAckToken.send_token _ o code l) as [r l']. destruct (link_alive l); tauto. }
  unfold use_token, as_requested. destruct use as [ps|reason ps|]; cbn [requested];
    [unfold PubAckToken_accept, buffered_PubAckToken.accept|unfold PubAckToken_reject, buffered_PubAckToken.reject|].
  1, 2: pose proof (into_spec (into := PubAckProperties.into) ps) as Hi;
    destruct (PubAckProperties.into ps) as [o|m] eqn:Ei;
    [|rewrite Hi; destruct (link_alive l);
      [destruct Hd as [_ Hd]; exists (Ack.mk k PubAckReasonCode.Success ReasonProperties_default);
        split_and!; [done|done|done|by eexists|exact Hd]|by destruct Hd]].
  1, 2: match goal with |- context [buffered_PubAckToken.send_token _ _ ?c _] => specialize (Hcall c o ps Ei) end;
    destruct (buffered_PubAckToken.send_token _ _ _ l) as [r l']; destruct (link_alive l);
    [destruct Hcall as (-> & Hfrom & -> & Hch); eexists (Ack.mk k _ o); by split_and!|by destruct Hcall as [-> ?]].
  destruct (link_alive l); [|by destruct Hd]. destruct Hd as [_ Hd].
  exists (Ack.mk k PubAckReasonCode.Success ReasonProperties_default). by split_and!.
Qed.

(** C19: whatever the application does with a PUBACK token (accept, reject, drop
    it, drop the future of a call, or pass properties that make the call panic),
    the session receives exactly one acknowledgement for it, with the packet
    identifier and connection epoch of the token, and with the reason and the
    properties that were asked for; a token that was not used accepts with the
    default properties. The use is a step of the session's system that consumes
    the token. Once the session is dropped nothing is submitted, and no
    completion token is returned. *)
Theorem puback_token_once allow use k e l s ts1 ts2 :
  link_ch l = ch s ->
  let '(r, l') := use_token use (buffered_PubAckToken.new k e) l in
  if link_alive l then exists p,
    Ack.packet_identifier p = k /\ as_requested use (link_next l) p r /\
    ack_rx (link_ch l') = ack_rx (ch s) ++ [AcknowledgementRequest.PubAck (link_next l) p e] /\
    step allow (s, ts1 ++ mkPubAckToken k e :: ts2) Silent (set_ch (link_ch l') s, ts1 ++ ts2)
  else link_ch l' = ch s /\ forall n, r <> Returns (Ok (Some n)).
Proof.
  intros Hl. pose proof (use_token_spec use k e l) as Hu.
  destruct (use_token use (buffered_PubAckToken.new k e) l) as [r l']. rewrite <- Hl.
  destruct (link_alive l); [|done]. destruct Hu as (p & Hk & Hr & Hch). exists p. rewrite Hch.
  split_and!; [done|done|done|]. unfold acknowledged_with. rewrite Hl.
  apply (step_acknowledge allow s ts1 (mkPubAckToken k e) ts2 (link_next l) p Hk).
Qed.

Lemma puback_token_once_witness :
  let k := mkPacketIdentifier 7 in
  let s := Session_new (mkChannels None [] [] [] [] [] [] []) (mkPacketIdentifier 10) in
  let l := mkLink (ch s) true 3%nat in
  let '(r, l') := use_token (Reject PubRejectReason.NotAuthorized PubAckProperties.default)
    (buffered_PubAckToken.new k 1) l in
  r = Returns (Ok (Some 3%nat)) /\
  step false (s, [] ++ mkPubAckToken k 1 :: []) Silent (set_ch (link_ch l') s, []).
Proof.
  cbv zeta.
  pose proof (puback_token_once false (Reject PubRejectReason.NotAuthorized PubAckProperties.default)
    (mkPacketIdentifier 7) 1 (mkLink (mkChannels None [] [] [] [] [] [] []) true 3%nat)
    (Session_new (mkChannels None [] [] [] [] [] [] []) (mkPacketIdentifier 10)) [] [] eq_refl) as H.
  cbn in H |- *. destruct H as (p & _ & _ & _ & Hs). split; [reflexivity|exact Hs].
Defined.
