(* ===== verification/SessionTests.v ===== *)
(** * The unit tests of the session and its tokens

    The test modules of client/session.rs, client/session/pkid.rs, client/token/completion.rs
    and client/token/acknowledgement.rs, run on the model as those of PacketTests.v. What a
    test sends on a channel is queued for the session; the value of a completion token is
    determined by the events of the session. A paused tokio clock stands still while there is
    something to do, and jumps to the next deadline when there is not. *)

From S2P Require Export Tokens ConversionTests.
Local Open Scope Z_scope.
Local Open Scope partial_eq_scope.

(** ** client/session/pkid.rs *)

Module PkidTests.
Definition lease (pool : PkidPool) : outcome (option PacketIdentifier * PkidPool) :=
  match lease_next_pkid pool with Some r => r | None => Panics "out of fuel" end.

(** [assert_eq!(pool.lease_next_pkid(), expected)] and [assert!(pool.release_pkid(pkid))]. *)
Definition leases (expected : option PacketIdentifier) (pool : PkidPool) : outcome PkidPool :=
  let! (pkid, pool) := lease pool in
  let! _ := assert_eq pkid expected "assert_eq" in
  Returns pool.

Definition releases (expected : bool) (pkid : PacketIdentifier) (pool : PkidPool) : outcome PkidPool :=
  let '(released, pool) := release_pkid pkid pool in
  let! _ := assert_eq released expected "assert_eq" in
  Returns pool.

Definition pkid_lease_order : outcome unit :=
  let pool := PkidPool_new (pkid 5) in
  let! pool := leases (Some (pkid 1)) pool in
  let! pool := leases (Some (pkid 2)) pool in
  let! pool := leases (Some (pkid 3)) pool in
  let! pool := leases (Some (pkid 4)) pool in
  let! pool := leases (Some (pkid 5)) pool in
  let! pool := leases None pool in
  let! pool := releases true (pkid 1) pool in
  let! pool := leases (Some (pkid 1)) pool in
  let! pool := leases None pool in
  let! pool := releases true (pkid 3) pool in
  let! pool := leases (Some (pkid 3)) pool in
  let! pool := releases true (pkid 2) pool in
  let! pool := releases true (pkid 5) pool in
  let! pool := leases (Some (pkid 5)) pool in
  let! pool := leases (Some (pkid 2)) pool in
  let! _ := leases None pool in
  Returns tt.

Definition pkid_release_nonexistent : outcome unit :=
  let pool := PkidPool_new (pkid 5) in
  let! pool := releases false (pkid 1) pool in
  let! _ := releases false (pkid 6) pool in
  Returns tt.

(** The loop over [1..=max_pkid.get()]. *)
Fixpoint lease_all (n : nat) (next : Z) (pool : PkidPool) : outcome PkidPool :=
  match n with
  | O => Returns pool
  | S n =>
      let! expected := unwrap_some (PacketIdentifier_new next) in
      let! pool := leases (Some expected) pool in
      lease_all n (next + 1) pool
  end.

Definition pkid_pool_size (max_pkid : PacketIdentifier) : outcome unit :=
  let! pool := lease_all (Z.to_nat (pkid_get max_pkid)) 1 (PkidPool_new max_pkid) in
  let! _ := leases None pool in
  Returns tt.

Definition pool_size_cases : list PacketIdentifier := [pkid 1; pkid 100; PacketIdentifier_MAX].

Definition all : list (outcome unit) :=
  [pkid_lease_order; pkid_release_nonexistent; for_each pool_size_cases pkid_pool_size].

(** The last case leases 65535 identifiers, and the size of a set takes a pass over it: the test
    is not evaluated but passes for every size of the pool. *)
Lemma leases_next max pool z :
  pool_wf pool -> max_pkid pool = max -> 1 <= z <= pkid_get max ->
  next_value (pool_cycle pool) = z ->
  (forall k, k ∈ leased pool <-> 1 <= pkid_get k < z) ->
  exists pool', leases (Some (mkPacketIdentifier z)) pool = Returns pool' /\ pool_wf pool' /\
    max_pkid pool' = max /\ next_value (pool_cycle pool') = succ_value max z /\
    (forall k, k ∈ leased pool' <-> 1 <= pkid_get k < z + 1).
Proof.
  intros Hwf <- Hz Hn Hl. unfold leases, lease.
  destruct (lease_spec pool Hwf) as (r & pool' & -> & Hwf' & Hm & Hr).
  destruct r as [k|].
  - destruct Hr as (Hk & Hk2 & Hl' & Hn' & before & Hv & Hb).
    assert (k = mkPacketIdentifier z) as ->.
    { destruct before as [|x before]; cbn in Hv.
      - destruct k as [k]. cbn in Hv. congruence.
      - injection Hv as <- _. rewrite Hn in Hb. apply Forall_cons in Hb as [Hb _]. apply Hl in Hb. cbn in Hb. lia. }
    exists pool'. split; [|split_and!; try done].
    + unfold assert_eq. replace (_ == _) with true; [done|]. symmetry. apply bool_decide_eq_true. done.
    + intros [k]. rewrite Hl', elem_of_union, elem_of_singleton, Hl. cbn. split; [intros [[= ->]|?]; lia|].
      intros ?. destruct (decide (k = z)) as [->|]; [by left|right; lia].
  - destruct Hr as [_ Hall]. specialize (Hall (mkPacketIdentifier z) Hz). apply Hl in Hall. cbn in Hall. lia.
Qed.

Lemma lease_all_passes max n : forall pool z,
  pkid_wf max -> pool_wf pool -> max_pkid pool = max -> 1 <= z -> z + Z.of_nat n = pkid_get max + 1 ->
  (z <= pkid_get max -> next_value (pool_cycle pool) = z) ->
  (forall k, k ∈ leased pool <-> 1 <= pkid_get k < z) ->
  exists pool', lease_all n z pool = Returns pool' /\ pool_wf pool' /\ max_pkid pool' = max /\
    (forall k, k ∈ leased pool' <-> 1 <= pkid_get k < pkid_get max + 1).
Proof.
  induction n as [|n IH]; intros pool z Hmax Hwf Hm Hz Hn Hv Hl.
  { exists pool. split_and!; try done. by replace (pkid_get max + 1) with z by lia. }
  cbn [lease_all]. unfold unwrap_some, PacketIdentifier_new.
  replace (z =? 0) with false by (symmetry; apply Z.eqb_neq; lia).
  destruct (leases_next max pool z Hwf Hm ltac:(lia) (Hv ltac:(lia)) Hl) as (pool' & -> & Hwf' & Hm' & Hv' & Hl').
  apply IH; try done; try lia. intros Hlt. rewrite Hv'. unfold succ_value.
  by replace (z =? pkid_get max) with false by (symmetry; apply Z.eqb_neq; lia).
Qed.

Lemma pkid_pool_size_passes max : pkid_wf max -> pkid_pool_size max = Returns tt.
Proof.
  intros Hmax. unfold pkid_pool_size. assert (1 <= pkid_get max) by (destruct Hmax; lia).
  destruct (lease_all_passes max (Z.to_nat (pkid_get max)) (PkidPool_new max) 1) as (pool & -> & Hwf & Hm & Hl);
    try done; try lia.
  { intros k. split; [intros Hk; set_solver|lia]. }
  unfold leases, lease. destruct (lease_spec pool Hwf) as (r & pool' & -> & _ & _ & Hr). rewrite Hm in Hr.
  destruct r as [k|]; [|done]. destruct Hr as (Hk & Hr & _). exfalso. apply Hk, Hl. unfold in_range in Hr. lia.
Qed.
End PkidTests.

(** ** client/token/completion.rs *)

Module CompletionTests.
Definition completed {T} (eq : T -> T -> bool) (value : T) (r : poll (result CompletionError.t T)) : bool :=
  match r with Ready (Ok v) => eq v value | _ => false end.

Definition canceled {T} (reason : string) (r : poll (result CompletionError.t T)) : bool :=
  match r with Ready (Err (CompletionError.Canceled m)) => String.eqb m reason | _ => false end.

Definition detached {T} (r : poll (result CompletionError.t T)) : bool :=
  match r with Ready (Err CompletionError.Detached) => true | _ => false end.

(** [simple_completion] and [portability_completion], whose token is awaited by a task. *)
Definition simple_completion : outcome unit :=
  let '(r, c) := CompletionNotifier_complete (lit "hello_world") CompletionEmpty in
  let! r := r in
  let! _ := unwrap_ok r in
  assert (completed str_eqb (lit "hello_world") (CompletionToken_poll c)).

Definition simple_cancellation : outcome unit :=
  let '(r, c) := CompletionNotifier_cancel "test" (CompletionEmpty (T := str)) in
  let! r := r in
  let! _ := unwrap_ok r in
  assert (canceled "test" (CompletionToken_poll c)).

Definition dropped_token : outcome unit :=
  let c := drop_completion_token CompletionEmpty in
  let! res := fst (CompletionNotifier_complete (lit "hello_world") c) in
  assert (match res with Err v => str_eqb v (lit "hello_world") | Ok _ => false end).

Definition dropped_notifier : outcome unit :=
  assert (detached (CompletionToken_poll (drop_notifier (CompletionEmpty (T := str))))).

(** [test_wrapped_errors!], for the tokens that map the value with [map_fn]. *)
Definition wrapped_cancellation {T U} (map_fn : T -> U) : outcome unit :=
  let '(r, c) := CompletionNotifier_cancel "test" (CompletionEmpty (T := T)) in
  let! r := r in
  let! _ := unwrap_ok r in
  assert (canceled "test" (mapped_poll map_fn (CompletionToken_poll c))).

Definition wrapped_dropped_notifier {T U} (map_fn : T -> U) : outcome unit :=
  assert (detached (mapped_poll map_fn (CompletionToken_poll (drop_notifier (CompletionEmpty (T := T)))))).

Definition all : list (outcome unit) :=
  [ simple_completion; simple_cancellation; dropped_token; dropped_notifier;
    wrapped_cancellation public_completion; wrapped_dropped_notifier public_completion ].
End CompletionTests.

(** ** client/token/acknowledgement.rs *)

Module AcknowledgementTests.
Definition no_channels : Channels := mkChannels None [] [] [] [] [] [] [].

(** [acknowledgement_channel]. *)
Definition acknowledgement_channel : Link := mkLink no_channels true 0%nat.

Definition rx (tx : Link) : list AcknowledgementRequest.t := ack_rx (link_ch tx).

(** The request that [rx.recv()] yields is the PUBACK that the test expects. *)
Definition assert_puback (request : option AcknowledgementRequest.t) (packet_identifier : PacketIdentifier)
    (reason_code : PubAckReasonCode.t) (properties : ReasonProperties) (epoch : u64) : outcome Notifier :=
  match request with
  | Some (AcknowledgementRequest.PubAck notifier puback request_epoch) =>
      let! _ := assert_eq request_epoch epoch "assert_eq" in
      let! _ := assert_eq (Ack.packet_identifier puback) packet_identifier "assert_eq" in
      let! _ := assert_eq (Ack.reason_code puback) reason_code "assert_eq" in
      let! _ := assert_eq (Ack.other_properties puback) properties "assert_eq" in
      Returns notifier
  | _ => Panics "Did not receive PubAck acknowledgement request"
  end.

(** [assert_default_puback]; no one holds the completion token of a drop. *)
Definition assert_default_puback (request : option AcknowledgementRequest.t)
    (packet_identifier : PacketIdentifier) (epoch : u64) : outcome unit :=
  let! _ := assert_puback request packet_identifier PubAckReasonCode.Success ReasonProperties_default epoch in
  let! r := fst (CompletionNotifier_complete tt TokenDropped) in
  assert (negb (is_ok r)).

Definition properties (reason : str) : outcome ReasonProperties :=
  let! reason_string := ByteStr_from reason in
  Returns {| Acks.reason_string := Some reason_string;
             Acks.user_properties :=
               [(text (lit "key1"), text (lit "value1")); (text (lit "key2"), text (lit "value2"))] |}.

(** [puback_token_accept] and [puback_token_reject]: completing the notifier of the request
    completes the token that [accept] or [reject] returned. *)
Definition puback_token_use (reason : PubAckReasonCode.t) (reason_string : str)
    (use : buffered_PubAckToken.t -> ReasonProperties -> Link -> result DetachedError Notifier * Link) :
    outcome unit :=
  let tx := acknowledgement_channel in
  let! properties := properties reason_string in
  let token := buffered_PubAckToken.new (pkid 1) 3 in
  let '(r, tx) := use token properties tx in
  let! completion_token := unwrap_ok r in
  let! notifier := assert_puback (hd_error (rx tx)) (pkid 1) reason properties 3 in
  assert (match await_token completion_token false [Complete notifier CompletedUnit] with
          | Ready (Ok PublicUnit) => true | _ => false end).

Definition puback_token_accept : outcome unit :=
  puback_token_use PubAckReasonCode.Success (lit "Test Success") buffered_PubAckToken.accept.

Definition puback_token_reject : outcome unit :=
  puback_token_use PubAckReasonCode.NotAuthorized (lit "Test Reject")
    (fun token => buffered_PubAckToken.reject token PubAckReasonCode.NotAuthorized).

Definition puback_token_drop_before_use : outcome unit :=
  let tx := buffered_PubAckToken.drop_token (buffered_PubAckToken.new (pkid 1) 3) acknowledgement_channel in
  let! _ := assert (length (rx tx) =? 1)%nat in
  let! _ := assert_default_puback (hd_error (rx tx)) (pkid 1) 3 in
  assert (length (tail (rx tx)) =? 0)%nat.

(** Dropping the future of [accept] before its first poll drops the token in it. *)
Definition public_puback_accept_future_drop_before_poll : outcome unit :=
  let '(_, tx) := use_token DropUnused (buffered_PubAckToken.new (pkid 1) 3) acknowledgement_channel in
  assert_default_puback (hd_error (rx tx)) (pkid 1) 3.

Definition puback_accept_submits_on_first_poll : outcome unit :=
  let properties := {| Acks.reason_string := Some (text (lit "submitted"));
                       Acks.user_properties := [(text (lit "key"), text (lit "value"))] |} in
  let '(r, tx) := buffered_PubAckToken.accept (buffered_PubAckToken.new (pkid 1) 3) properties
    acknowledgement_channel in
  let! _ := unwrap_ok r in
  let! _ := assert_puback (hd_error (rx tx)) (pkid 1) PubAckReasonCode.Success properties 3 in
  assert (length (tail (rx tx)) =? 0)%nat.

Definition puback_token_drop_after_use : outcome unit :=
  let! properties := properties (lit "Test Success") in
  let '(r, tx) := buffered_PubAckToken.accept (buffered_PubAckToken.new (pkid 1) 3) properties
    acknowledgement_channel in
  let! _ := unwrap_ok r in
  let! _ := assert_puback (hd_error (rx tx)) (pkid 1) PubAckReasonCode.Success properties 3 in
  assert (length (tail (rx tx)) =? 0)%nat.

Fixpoint drop_tokens (n : nat) (next : Z) (tx : Link) : outcome Link :=
  match n with
  | O => Returns tx
  | S n =>
      let! packet_identifier := unwrap_some (PacketIdentifier_new next) in
      drop_tokens n (next + 1)
        (buffered_PubAckToken.drop_token (buffered_PubAckToken.new packet_identifier 3) tx)
  end.

Definition bulk_drop_without_receiver_progress_is_synchronous : outcome unit :=
  let! tx := drop_tokens 1024 1 acknowledgement_channel in
  assert (length (rx tx) =? 1024)%nat.

Definition detached_session_rejects_manual_submission_and_ignores_drop : outcome unit :=
  let tx := mkLink no_channels false 0%nat in
  let explicit := buffered_PubAckToken.new (pkid 1) 3 in
  let '(r, tx) := buffered_PubAckToken.accept explicit ReasonProperties_default tx in
  let! _ := assert (negb (is_ok r)) in
  let automatic := buffered_PubAckToken.new (pkid 2) 3 in
  let tx := buffered_PubAckToken.drop_token automatic tx in
  assert (length (rx tx) =? 0)%nat.

Definition all : list (outcome unit) :=
  [ puback_token_accept; puback_token_reject; puback_token_drop_before_use;
    public_puback_accept_future_drop_before_poll; puback_accept_submits_on_first_poll;
    puback_token_drop_after_use; bulk_drop_without_receiver_progress_is_synchronous;
    detached_session_rejects_manual_submission_and_ignores_drop ].
End AcknowledgementTests.

(** ** client/session.rs *)

Module SessionTests.
Definition max_pkid : PacketIdentifier := pkid u16_MAX.

(** [Session::new] on empty channels. *)
Definition session0 : Session := Session_new AcknowledgementTests.no_channels max_pkid.

(** [ping_tx.send(PingRequest(notifier))] and [ack_tx.send(..)]. *)
Definition send_ping (notifier : Notifier) (s : Session) : Session :=
  set_ch (set_ping_rx (ping_rx (ch s) ++ [mkPingRequest notifier]) (ch s)) s.
Definition send_acknowledgement (req : AcknowledgementRequest.t) (s : Session) : Session :=
  set_ch (set_ack_rx (ack_rx (ch s) ++ [req]) (ch s)) s.

Definition success_connack (session_present : bool) (authentication : option Authentication.t) : ConnAck.t :=
  let default := ConnAck.OtherProperties_default in
  {| ConnAck.reason_code := ConnectReasonCode.Success session_present;
     ConnAck.other_properties :=
       {| ConnAck.session_expiry_interval := ConnAck.session_expiry_interval default;
          ConnAck.receive_maximum := ConnAck.receive_maximum default;
          ConnAck.maximum_qos := ConnAck.maximum_qos default;
          ConnAck.retain_available := ConnAck.retain_available default;
          ConnAck.maximum_packet_size := ConnAck.maximum_packet_size default;
          ConnAck.assigned_client_id := ConnAck.assigned_client_id default;
          ConnAck.topic_alias_maximum := ConnAck.topic_alias_maximum default;
          ConnAck.reason_string := ConnAck.reason_string default;
          ConnAck.user_properties := ConnAck.user_properties default;
          ConnAck.wildcard_subscription_available := ConnAck.wildcard_subscription_available default;
          ConnAck.shared_subscription_available := ConnAck.shared_subscription_available default;
          ConnAck.subscription_identifiers_available := ConnAck.subscription_identifiers_available default;
          ConnAck.server_keep_alive := ConnAck.server_keep_alive default;
          ConnAck.response_information := ConnAck.response_information default;
          ConnAck.server_reference := ConnAck.server_reference default;
          ConnAck.authentication := authentication |} |}.

(** [session.incoming_connack(..).unwrap()]. *)
Definition connect (feature : bool) (now : Z) (connack : ConnAck.t) (keep_alive : KeepAlive.t)
    (method : option str) (s : Session) : outcome Session :=
  let '(r, s) := incoming_connack feature now connack keep_alive method (SessionExpiryInterval.Duration 0) s in
  let! _ := unwrap_ok r in
  Returns s.

(** [session.next_outgoing_packet().await], with the time at which it returns. *)
Definition next_packet (now : Z) (s : Session) : outcome (Packet.t * Z * Session) :=
  match next_outgoing_packet now s with
  | (Ready packet, s) => Returns (packet, now, s)
  | (Pending, s) =>
      match pingreq_timer s with
      | Some timer =>
          let now := Z.max now (Timer_deadline timer) in
          match next_outgoing_packet now s with
          | (Ready packet, s) => Returns (packet, now, s)
          | _ => Panics "not ready at the deadline"
          end
      | None => Panics "waits forever"
      end
  | (Panicked m, _) => Panics m
  | (OutOfFuel, _) => Panics "out of fuel"
  end.

Definition is_pingreq (packet : Packet.t) : bool := match packet with Packet.PingReq _ => true | _ => false end.

(** [ct.now_or_never()], while the session holds the notifier. *)
Definition now_or_never (notifier : Notifier) (s : Session) :
    option (result CompletionError.t PublicCompletion) :=
  match await_token notifier true (events s) with Ready r => Some r | _ => None end.

Definition pubcomp_bypasses_publish_acknowledgement_ordering : outcome unit :=
  let pubcomp := Ack.mk (pkid 1) PubCompReasonCode.Success ReasonProperties_default in
  let session := send_acknowledgement (AcknowledgementRequest.PubComp 0%nat pubcomp) session0 in
  match next_outgoing_request 0 session with
  | (Ready (OutgoingPacketRequest.Acknowledgement (AcknowledgementRequest.PubComp _ outgoing_pubcomp)), session) =>
      let! _ := assert_eq outgoing_pubcomp pubcomp "assert_eq" in
      assert (list_is_empty (in_application session))
  | _ => Panics "expected PUBCOMP acknowledgement request"
  end.

Definition keep_alive_pingresp_does_not_complete_manual_ping : outcome unit :=
  let! session := connect false 0 (success_connack false None) (KeepAlive.Duration 1) None session0 in
  let! (packet, now, session) := next_packet 0 session in
  let! _ := assert (is_pingreq packet) in
  let now := now + 100 in
  let ct := 0%nat in
  let session := send_ping ct session in
  let! (packet, now, session) := next_packet now session in
  let! _ := assert (is_pingreq packet) in
  let now := now + 250 in
  let session := incoming_pingresp now session in
  let! _ := assert (negb (is_some (now_or_never ct session))) in
  let session := incoming_pingresp now session in
  assert (match now_or_never ct session with Some (Ok (PublicPing 250)) => true | _ => false end).

Definition disconnect_cancels_inflight_manual_ping : outcome unit :=
  let! session := connect false 0 (success_connack false None) KeepAlive.Infinite None session0 in
  let stale_ct := 0%nat in
  let session := send_ping stale_ct session in
  let! (packet, now, session) := next_packet 0 session in
  let! _ := assert (is_pingreq packet) in
  let session := transport_disconnect session in
  let! _ := assert (match now_or_never stale_ct session with
                    | Some (Err (CompletionError.Canceled _)) => true | _ => false end) in
  let! session := connect false now (success_connack false None) KeepAlive.Infinite None session in
  let ct := 1%nat in
  let session := send_ping ct session in
  let! (packet, now, session) := next_packet now session in
  let! _ := assert (is_pingreq packet) in
  let session := incoming_pingresp now session in
  assert (match now_or_never ct session with Some (Ok _) => true | _ => false end).

Definition rejected_connack_leaves_session_unchanged : outcome unit :=
  let session := update_inflight (set_replay [Packet.PingReq PingReq.mk]) session0 in
  let connack := success_connack false (Some (Authentication.mk (text (lit "unexpected method")) None)) in
  let '(r, session) :=
    incoming_connack false 0 connack KeepAlive.Infinite None (SessionExpiryInterval.Duration 0) session in
  let! _ := assert (negb (is_ok r)) in
  let! _ := assert_eq (len (packets_to_replay (inflight session))) 1 "assert_eq" in
  let! _ := assert_eq (connection_epoch session) 0 "assert_eq" in
  assert (negb (is_connected session)).

(** With the feature [__allow_omitted_auth_method]. *)
Definition omitted_auth_method_tolerated_on_successful_connack : outcome unit :=
  let mismatched_method := success_connack false (Some (Authentication.mk (text (lit "other method")) None)) in
  let omitted_method := success_connack false None in
  let expected := Some (lit "expected method") in
  let '(r, session) := incoming_connack true 0 mismatched_method KeepAlive.Infinite expected
    (SessionExpiryInterval.Duration 0) session0 in
  let! _ := assert (negb (is_ok r)) in
  let! session := connect true 0 omitted_method KeepAlive.Infinite expected session in
  assert (is_connected session).

Definition omitted_auth_method_tolerated_on_reauth_success : outcome unit :=
  let ct := 0%nat in
  let session := update_inflight (set_auth (Some (text (lit "expected method"), ct))) session0 in
  let without_method reason := Auth.mk reason None None [] in
  let '(r, session) := incoming_auth true (without_method AuthenticateReasonCode.ContinueAuthentication) session in
  let! _ := assert (negb (is_ok r)) in
  let '(r, session) := incoming_auth true (without_method AuthenticateReasonCode.Success) session in
  let! _ := unwrap_ok r in
  assert (match now_or_never ct session with
          | Some (Ok (PublicReauth (client_ReauthResult.Success _))) => true | _ => false end).

Definition all : list (outcome unit) :=
  [ pubcomp_bypasses_publish_acknowledgement_ordering; keep_alive_pingresp_does_not_complete_manual_ping;
    disconnect_cancels_inflight_manual_ping; rejected_connack_leaves_session_unchanged;
    omitted_auth_method_tolerated_on_successful_connack; omitted_auth_method_tolerated_on_reauth_success ].
End SessionTests.

(** ** All of them *)

Definition session_tests : list (outcome unit) :=
  PkidTests.all ++ CompletionTests.all ++ AcknowledgementTests.all ++ SessionTests.all.

(** The session, its identifiers and its tokens pass the unit tests of their files: the order of
    leases, completion and cancellation of tokens, acknowledgement by use and by drop, the
    PINGRESP that answers the right PINGREQ, and the CONNACK and AUTH packets that are refused. *)
Lemma session_tests_pass : Forall (fun test => test = Returns tt) session_tests.
Proof.
  unfold session_tests. apply Forall_app. split.
  - unfold PkidTests.all, PkidTests.pool_size_cases. apply Forall_cons. split; [vm_compute; reflexivity|].
    apply Forall_cons. split; [vm_compute; reflexivity|]. apply Forall_singleton. cbn [for_each].
    rewrite !PkidTests.pkid_pool_size_passes by (unfold pkid_wf; cbn; solve_range). reflexivity.
  - apply all_pass. vm_compute. reflexivity.
Qed.
