(* ===== verification/UnitTests.v ===== *)
(** * The unit tests of the repository

    The tests of PacketTests.v, StringTests.v, ConversionTests.v, IoTests.v and SessionTests.v
    together. *)

From S2P Require Export IoTests SessionTests.

Definition unit_tests : list (outcome unit) :=
  packet_tests ++ string_tests ++ ConversionTests.all ++ io_tests ++ session_tests.

(** The definitions pass the unit tests of the code they model, with the inputs and the
    expected values of those tests: the example packets of the fifteen types and their bytes,
    all reason codes of CONNACK and DISCONNECT, the malformed packets and the varints with the
    errors they give; the strings, topics and filters at and beyond their limits, with the
    tables of matches; the conversions of the public packets; framing, vectored writes, the
    proxy exchange and WebSocket frames; and the packet identifiers, tokens, pings and refused
    CONNACKs of the session. *)
Theorem unit_tests_pass : Forall (fun test => test = Returns tt) unit_tests.
Proof.
  unfold unit_tests. rewrite !Forall_app. split_and!;
    [apply packet_tests_pass | apply string_tests_pass | apply conversion_tests_pass
    | apply io_tests_pass | apply session_tests_pass].
Qed.
