(* ===== verification/SessionProps.v ===== *)
(** * What a session guarantees

    Properties of the reachable states of a session: packet identifiers are
    unique, the outgoing side never panics, PUBACKs leave in order and are not
    held back, unacknowledged packets are replayed; and of its handlers:
    completion, expiry, and the two ways in which a server can upset it. *)

From stdpp Require Import gmap list_tactics.
From S2P Require Export SessionSystem.
Local Open Scope Z_scope.

(** ** Acknowledgements are not held back *)

(** A PUBLISH the application has acknowledged is ready, or its request is queued. *)
Lemma acknowledged_queued s ts k rest :
  acks_inv s ts -> in_application s = (k, NotReady) :: rest ->
  k ∉ current_tokens (connection_epoch s) ts ->
  k ∈ current_requests (connection_epoch s) (ack_rx (ch s)).
Proof.
  intros (_ & _ & _ & Hp) E Hk. assert (Hin : k ∈ not_ready (in_application s)) by (rewrite E; by left).
  rewrite <- Hp in Hin. by apply elem_of_app in Hin as [|].
Qed.

Lemma poll_acknowledgement now c timer pool a rest :
  fst (poll_disconnect c) = None -> ack_rx c = a :: rest ->
  exists c', poll_for_outgoing_request now c timer pool =
    (Ready (OutgoingPacketRequest.Acknowledgement a), c', pool) /\
    ack_rx c' = rest /\ fst (poll_disconnect c') = None.
Proof.
  intros Hd Ha. unfold poll_for_outgoing_request, poll_disconnect in *.
  destruct (disconnect_rx c) as [[|req|]|] eqn:Ed; try done; cbn; rewrite Ha;
    eexists; (split; [done|]); cbn; by rewrite ?Ed.
Qed.

Lemma next_request_loop_live fuel now s ts k v rest :
  (length (in_application s) + length (ack_rx (ch s)) < fuel)%nat ->
  acks_inv s ts -> fst (poll_disconnect (ch s)) = None ->
  in_application s = (k, v) :: rest -> k ∉ current_tokens (connection_epoch s) ts ->
  exists n p s', next_request_loop fuel now s =
    (Ready (OutgoingPacketRequest.Acknowledgement (AcknowledgementRequest.PubAck n p (connection_epoch s))), s') /\
    Ack.packet_identifier p = k.
Proof.
  revert s v rest; induction fuel as [|fuel IH]; intros s v rest Hf Hacks Hd E Hk; [lia|].
  cbn [next_request_loop]. rewrite E. destruct v as [|a].
  2: { destruct (acks_inv_pop s ts k a rest Hacks E) as (_ & n & p & -> & Hp). fields. cbn [current].
       rewrite Z.eqb_refl. eauto. }
  pose proof (acknowledged_queued s ts k rest Hacks E Hk) as Hq.
  destruct (ack_rx (ch s)) as [|a reqs] eqn:Ea; [by apply elem_of_nil in Hq|].
  destruct (poll_acknowledgement now (ch s) (pingreq_timer s) (pkid_pool s) a reqs Hd Ea) as (c & -> & Hc & Hd').
  pose proof Hacks as (_ & _ & Hpub & _). rewrite Ea in Hpub. apply Forall_cons in Hpub as [Hpub _].
  destruct a as [n p e|n p|n p|n p|n p]; try done. cbn [route]. fields.
  destruct (e =? connection_epoch s) eqn:Ee; bool_to_prop; cbn [negb].
  - subst e. destruct (acks_inv_store s ts c (pkid_pool s) n p Hacks) as ((w & Hw) & Hkeys & Hinv);
      [by rewrite Ea, Hc|].
    rewrite Hw. set (m := snd (im_insert _ _ (in_application s))) in *.
    assert (Hm : exists v' rest', m = (k, v') :: rest').
    { rewrite E in Hkeys. destruct m as [|[k' v'] m']; [done|]. injection Hkeys as -> _. eauto. }
    destruct Hm as (v' & rest' & Em). apply (f_equal length) in Hkeys. unfold im_keys in Hkeys.
    rewrite !length_map in Hkeys. cbn in Hf.
    apply (IH (set_in_application m (set_pool (pkid_pool s) (set_ch c s))) v' rest'); fields; try done.
    rewrite Hc. lia.
  - cbn in Hf. apply (IH (set_pool (pkid_pool s) (set_ch c s)) NotReady rest); fields; try done.
    + rewrite Hc. lia.
    + eapply acks_inv_stale; [done| |done]. by rewrite Ea, Hc.
Qed.

(** ** Replay *)

(** [next_outgoing_packet] at the times [nows]. *)
Fixpoint next_packets (nows : list Z) (s : Session) : list (poll Packet.t) * Session :=
  match nows with
  | [] => ([], s)
  | now :: nows =>
      let '(r, s) := next_outgoing_packet now s in
      let '(rs, s) := next_packets nows s in
      (r :: rs, s)
  end.

Lemma set_dup_idemp p : set_dup (set_dup p) = set_dup p.
Proof. destruct p as [t [| |] r pl o]; done. Qed.

Lemma replayed_replay_list i : map replayed (replay_list i) = replay_list i.
Proof.
  unfold replay_list. rewrite map_app, !map_map. f_equal. apply map_ext. intros v.
  cbn. by rewrite set_dup_idemp.
Qed.

(** As many calls as there are packets to replay return exactly those. *)
Lemma next_packets_replay nows s :
  is_connected s = true -> length nows = length (packets_to_replay (inflight s)) ->
  exists s', next_packets nows s = (map Ready (map replayed (packets_to_replay (inflight s))), s') /\
    is_connected s' = true /\ pkid_pool s' = pkid_pool s /\ in_application s' = in_application s /\
    inflight s' = set_replay [] (inflight s).
Proof.
  revert s; induction nows as [|now nows IH]; intros s Hc Hl;
    destruct (packets_to_replay (inflight s)) as [|p rest] eqn:Er; try done.
  - exists s. split_and!; try done. destruct s as [c po [] a co e x t ev]. cbn in *. by subst.
  - cbn [next_packets]. unfold next_outgoing_packet. rewrite Hc, Er. cbn [negb].
    set (s1 := reset_ping_timer now (update_inflight (set_replay rest) s)).
    destruct (reset_ping_timer_frame now (update_inflight (set_replay rest) s)) as (F1 & F2 & F3 & F4 & F5 & F6).
    fold s1 in F1, F2, F3, F4, F5, F6.
    assert (Er1 : packets_to_replay (inflight s1) = rest) by by rewrite F3.
    destruct (IH s1) as (s' & -> & Hc' & Hp & Ha & Hi).
    { unfold is_connected in *. by rewrite F5. }
    { rewrite Er1. by injection Hl. }
    exists s'. rewrite Er1. split; [done|]. split; [done|]. rewrite Hp, Ha, Hi, F2, F3, F4. done.
Qed.

(** ** Completion *)

(** The notifier that waits for an acknowledgement from the server. *)
Definition op_entry (op : CompletedOperation.t) (i : InflightTracker) : option Notifier :=
  match op with
  | CompletedOperation.PublishQoS1 puback => option_map snd (im_get (Ack.packet_identifier puback) (publish_qos1 i))
  | CompletedOperation.PublishQoS2 pubrec => option_map snd (im_get (Ack.packet_identifier pubrec) (publish_qos2 i))
  | CompletedOperation.PubRec pubrel => option_map snd (pubrec i !! Ack.packet_identifier pubrel)
  | CompletedOperation.PubRel pubcomp => option_map snd (im_get (Ack.packet_identifier pubcomp) (pubrel i))
  | CompletedOperation.Subscribe suback => subscribe i !! SubAck.packet_identifier suback
  | CompletedOperation.Unsubscribe unsuback => unsubscribe i !! UnsubAck.packet_identifier unsuback
  end.

(** The identifier stays leased for the PUBREL that follows a successful PUBREC;
    an incoming PUBREL is about an identifier of the server. *)
Definition op_keeps_pkid (op : CompletedOperation.t) : bool :=
  match op with
  | CompletedOperation.PublishQoS2 pubrec => PubRec.is_success (Ack.reason_code pubrec)
  | CompletedOperation.PubRec _ => true
  | _ => false
  end.

Definition op_freed (op : CompletedOperation.t) : list PacketIdentifier :=
  match op with CompletedOperation.PubRec _ => [] | _ => [op_pkid op] end.

Definition released_pool (op : CompletedOperation.t) (p : PkidPool) : PkidPool :=
  if op_keeps_pkid op then p else snd (release_pkid (op_pkid op) p).

Lemma complete_inflight_none op s :
  op_entry op (inflight s) = None ->
  complete_inflight op s = (Err UnexpectedPacket, set_pool (released_pool op (pkid_pool s)) s).
Proof.
  intros E. assert (Hid : set_pool (pkid_pool s) s = s) by by destruct s.
  destruct op as [a|a|a|a|a|a]; cbn in E |- *; unfold released_pool; cbn [op_keeps_pkid op_pkid].
  - pose proof (im_shift_remove_fst (Ack.packet_identifier a) (publish_qos1 (inflight s))) as Hr.
    destruct (im_shift_remove _ _) as [[q|] m]; cbn in Hr; [by rewrite <- Hr in E|done].
  - pose proof (im_shift_remove_fst (Ack.packet_identifier a) (publish_qos2 (inflight s))) as Hr.
    destruct (PubRec.is_success _); cbn; destruct (im_shift_remove _ _) as [[q|] m]; cbn in Hr;
      try (by rewrite <- Hr in E); by rewrite ?Hid.
  - destruct (pubrec (inflight s) !! _); [done|]. by rewrite Hid.
  - pose proof (im_shift_remove_fst (Ack.packet_identifier a) (pubrel (inflight s))) as Hr.
    destruct (im_shift_remove _ _) as [[q|] m]; cbn in Hr; [by rewrite <- Hr in E|done].
  - by rewrite E.
  - by rewrite E.
Qed.

(** An entry that is found is removed, and only its notifier completes. *)
Definition completed (op : CompletedOperation.t) (n : Notifier) (s : Session)
    (res : result ProtocolError () * Session) : Prop :=
  exists v s', res = (Ok tt, s') /\ events s' = events s ++ [Complete n v] /\
    pkid_pool s' = released_pool op (pkid_pool s) /\ op_entry op (inflight s') = None /\
    inflight_pkids (inflight s) ≡ₚ op_freed op ++ inflight_pkids (inflight s').

Lemma im_get_shift_remove {V} k (v : V) (m m' : IndexMap PacketIdentifier V) :
  NoDup (im_keys m) -> im_shift_remove k m = (Some v, m') -> im_get k m' = None.
Proof.
  intros Hnd Hk%im_shift_remove_keys. rewrite Hk in Hnd. apply NoDup_cons in Hnd as [Hn _].
  by apply im_get_None.
Qed.

(** The case of an operation whose entry [E] is in an indexed table without
    repeated keys [N]. *)
Ltac complete_table table N E :=
  match goal with |- context [im_shift_remove ?k table] =>
    let Hr := fresh in let Em := fresh in pose proof (im_shift_remove_fst k table) as Hr;
    destruct (im_shift_remove k table) as [[[? ?]|] ?] eqn:Em; cbn in Hr; rewrite <- Hr in E; [|done];
    injection E as ->; do 2 eexists; split_and!; try done; cbn;
    [by rewrite (im_get_shift_remove _ _ _ _ N Em)|apply im_shift_remove_keys in Em; pkids_perm Em]
  end.

Lemma complete_inflight_some op n s :
  NoDup (inflight_pkids (inflight s)) -> op_entry op (inflight s) = Some n ->
  completed op n s (complete_inflight op s).
Proof.
  intros Hnd E. assert (Hnd' := Hnd). unfold inflight_pkids in Hnd'.
  apply NoDup_app in Hnd' as (N1 & _ & Hnd'). apply NoDup_app in Hnd' as (N2 & _ & Hnd').
  apply NoDup_app in Hnd' as (N3 & _ & _). unfold completed, released_pool.
  destruct op as [a|a|a|a|a|a]; cbn in E |- *.
  - complete_table (publish_qos1 (inflight s)) N1 E.
  - destruct (PubRec.is_success _); cbn; complete_table (publish_qos2 (inflight s)) N2 E.
  - destruct (pubrec (inflight s) !! _) as [[q n']|] eqn:Em; [|done]. injection E as ->.
    do 2 eexists. split_and!; try done; cbn. by rewrite lookup_delete_eq.
  - complete_table (pubrel (inflight s)) N3 E.
  - rewrite E. do 2 eexists. split_and!; try done; cbn; [by rewrite lookup_delete_eq|].
    apply map_keys_delete in E. pkids_perm E.
  - rewrite E. do 2 eexists. split_and!; try done; cbn; [by rewrite lookup_delete_eq|].
    apply map_keys_delete in E. pkids_perm E.
Qed.

(** ** Reconnecting *)

Lemma incoming_connack_resumed allow now connack ka am ex s s' :
  ConnAck.reason_code connack = ConnectReasonCode.Success true ->
  incoming_connack allow now connack ka am ex s = (Ok tt, s') ->
  is_connected s' = true /\ inflight s' = inflight s /\ in_application s' = in_application s /\
  pkid_pool s' = pkid_pool s.
Proof.
  intros Hr E. unfold incoming_connack in E. case_match; [done|]. rewrite Hr in E. injection E as <-.
  by destruct (match ConnAck.server_keep_alive _ with Some _ => _ | None => _ end).
Qed.

Lemma expire_if_zero_resumable s :
  expiry_interval s <> SessionExpiryInterval.Duration 0 -> expire_if_zero s = s.
Proof. intros H. unfold expire_if_zero. by destruct (expiry_interval s) as [|[| |]]. Qed.

(** What is kept of the PUBLISHes in flight: their quality of service and their identifier
    are those of the table they are in. *)
Definition entry_is (qos : QoS.t) (e : PacketIdentifier * (Publish.t * Notifier)) : Prop :=
  exists dup, PacketIdentifierDupQoS.into (Publish.packet_identifier_dup_qos (fst (snd e))) = (qos, dup, Some (fst e)).
Definition entries_inv (i : InflightTracker) : Prop :=
  Forall (entry_is QoS.AtLeastOnce) (publish_qos1 i) /\ Forall (entry_is QoS.ExactlyOnce) (publish_qos2 i).

(** [q] is the PUBLISH in flight [e] with DUP set, and otherwise the same. *)
Definition resent (e : PacketIdentifier * (Publish.t * Notifier)) (q : Publish.t) : Prop :=
  let p := fst (snd e) in
  PacketIdentifierDupQoS.into (Publish.packet_identifier_dup_qos q) =
    (PacketIdentifierDupQoS.qos (Publish.packet_identifier_dup_qos p), true, Some (fst e)) /\
  Publish.topic_name q = Publish.topic_name p /\ Publish.retain q = Publish.retain p /\
  Publish.payload q = Publish.payload p /\ Publish.other_properties q = Publish.other_properties p.

Lemma replayed_packets allow s now connack ka am ex s' nows :
  expiry_interval s <> SessionExpiryInterval.Duration 0 ->
  ConnAck.reason_code connack = ConnectReasonCode.Success true ->
  incoming_connack allow now connack ka am ex (transport_disconnect s) = (Ok tt, s') ->
  let i := inflight s in
  length nows = (length (pubrel i) + length (publish_qos1 i) + length (publish_qos2 i))%nat ->
  exists s'', next_packets nows s' =
      (map (fun e => Ready (Packet.PubRel (fst (snd e)))) (pubrel i) ++
       map (fun e => Ready (Packet.Publish (set_dup (fst (snd e))))) (publish_qos1 i ++ publish_qos2 i), s'') /\
    inflight s'' = mkInflight (publish_qos1 i) (publish_qos2 i) ∅ ∅ (pubrec i) (pubrel i) [] None [] /\
    in_application s'' = [].
Proof.
  intros Hx Hr E i Hl. destruct (incoming_connack_resumed _ _ _ _ _ _ _ _ Hr E) as (Hc & Hi & Ha & _).
  unfold transport_disconnect in Hi, Ha. rewrite expire_if_zero_resumable in Hi, Ha
    by (rewrite disconnected_eq; done).
  rewrite disconnected_eq in Hi, Ha. cbv zeta in Hi, Ha. cbn [inflight in_application] in Hi, Ha. fold i in Hi.
  destruct (next_packets_replay nows s' Hc) as (s'' & Es & _ & _ & Ha' & Hi').
  { rewrite Hi. cbn. unfold replay_list, im_values. rewrite length_app, !length_map, length_app, !length_map. lia. }
  exists s''. rewrite Es, Ha', Hi', Ha, Hi. cbn [packets_to_replay]. split; [|done]. f_equal.
  rewrite replayed_replay_list. unfold replay_list, im_values. rewrite <- map_app, map_app, !map_map. done.
Qed.

Lemma set_dup_resent qos e : entry_is qos e -> resent e (set_dup (fst (snd e))).
Proof.
  intros [dup E]. unfold resent. destruct e as [k [[t dq r pl o] n]]. cbn in *.
  destruct dq; [discriminate E|injection E as _ _ <-; by split_and!..].
Qed.

(** *** Every run keeps [entries_inv] *)

Lemma next_request_loop_inflight fuel now s r s' :
  next_request_loop fuel now s = (r, s') -> inflight s' = inflight s.
Proof.
  revert s. induction fuel as [|fuel IH]; intros s E; [by injection E as _ <-|].
  rewrite next_request_loop_S in E. unfold poll_round in E.
  destruct (poll_for_outgoing_request _ _ _ _) as [[r1 c] pool].
  destruct (in_application s) as [|[k [|a]] rest];
    repeat match type of E with
    | context [match ?x with _ => _ end] => destruct x
    end; first [by injection E as _ <-|by apply IH in E].
Qed.

Lemma packet_of_request_entries now r s packet s' :
  packet_of_request now r s = Returns (packet, s') -> entries_inv (inflight s) -> entries_inv (inflight s').
Proof.
  intros E [H1 H2].
  destruct r as [req|[]|[] k|[]|req|n]; cbn in E;
    try (unfold packet_of_reauth in E; destruct (Auth.authentication _); [|done]); injection E as _ <-;
    split; fields; try done; (apply im_insert_Forall; [done|by eexists]).
Qed.

Lemma next_outgoing_packet_entries now s r s' :
  next_outgoing_packet now s = (r, s') -> entries_inv (inflight s) -> entries_inv (inflight s').
Proof.
  unfold next_outgoing_packet, next_outgoing_request. intros E Hi.
  assert (Hreset : forall s1, inflight (reset_ping_timer now s1) = inflight s1)
    by (intros s1; apply reset_ping_timer_frame).
  destruct (negb (is_connected s)); [by injection E as _ <-|].
  destruct (packets_to_replay (inflight s)); [|injection E as _ <-; by rewrite Hreset].
  destruct (next_request_loop _ now s) as [q s1] eqn:El. apply next_request_loop_inflight in El.
  rewrite <- El in Hi. destruct q as [q| | |]; try (by injection E as _ <-).
  destruct (packet_of_request now q s1) as [[p s2]|] eqn:Ep; injection E as _ <-; [|done].
  rewrite Hreset. by eapply packet_of_request_entries.
Qed.

Lemma complete_inflight_entries op s r s' :
  complete_inflight op s = (r, s') -> entries_inv (inflight s) -> entries_inv (inflight s').
Proof.
  intros E [H1 H2]. destruct op as [a|a|a|a|a|a]; cbn in E;
    try (destruct (PubRec.is_success _));
    try (destruct (subscribe (inflight s) !! _));
    try (destruct (unsubscribe (inflight s) !! _));
    try (destruct (pubrec (inflight s) !! _) as [[q n]|]);
    try match type of E with context [im_shift_remove ?k ?m] =>
      pose proof (fun P => im_shift_remove_Forall P k m) as Hs; destruct (im_shift_remove k m) as [[[q n]|] m']
    end; injection E as _ <-; split; fields; try done; by apply Hs.
Qed.

Lemma expire_if_zero_entries s : entries_inv (inflight s) -> entries_inv (inflight (expire_if_zero s)).
Proof. intros Hi. unfold expire_if_zero. destruct (expiry_interval s) as [|[| |]]; try done. by rewrite session_expired_eq. Qed.

Lemma disconnected_entries s : entries_inv (inflight s) -> entries_inv (inflight (disconnected s)).
Proof. intros [H1 H2]. rewrite disconnected_eq. by split. Qed.

Lemma step_entries allow s ts l s' ts' :
  step allow (s, ts) l (s', ts') -> entries_inv (inflight s) -> entries_inv (inflight s').
Proof.
  intros Hstep Hi. inversion Hstep; subst; try done.
  - by eapply next_outgoing_packet_entries.
  - by eapply next_outgoing_packet_entries.
  - by eapply complete_inflight_entries.
  - unfold incoming_publish in *. repeat case_match; simplify_eq; done.
  - unfold incoming_auth in *. repeat case_match; simplify_eq; done.
  - unfold incoming_pingresp. by destruct (pingreq (inflight s)) as [|[? [?|]] ?].
  - unfold client_disconnect. apply disconnected_entries in Hi.
    destruct (Disconnect.session_expiry_interval _); by apply expire_if_zero_entries.
  - by apply expire_if_zero_entries, disconnected_entries.
  - by apply expire_if_zero_entries, disconnected_entries.
  - match goal with E : incoming_connack _ _ _ _ _ _ _ = _ |- _ => unfold incoming_connack in E; rename E into E1 end.
    case_match; [by injection E1 as _ <-|].
    destruct (ConnAck.reason_code connack) as [present|]; [|by injection E1 as _ <-]. injection E1 as _ <-.
    destruct (match ConnAck.server_keep_alive _ with Some _ => _ | None => _ end); fields;
      destruct present; cbn [negb]; rewrite ?session_expired_eq; done.
Qed.

Lemma entries_run allow es s ts : any_run allow es s ts -> entries_inv (inflight s).
Proof.
  induction 1; [by split|by eapply step_entries|by eapply complete_inflight_entries].
Qed.

(** ** The theorems *)

(** C4: as long as the server has not acknowledged an identifier in flight with a packet of
    the wrong type, whatever else it and the application did, the operations in flight have
    pairwise distinct packet identifiers, each of them between 1 and the maximum and
    leased from the pool. *)
Theorem session_pkids_unique allow es s ts :
  any_run allow es s ts -> compliant es ->
  NoDup (inflight_pkids (inflight s)) /\
  forall k, k ∈ inflight_pkids (inflight s) -> k ∈ leased (pkid_pool s) /\ in_range (max_pkid (pkid_pool s)) k.
Proof.
  intros Ha Hc. pose proof (compliant_reachable _ _ _ _ Ha Hc) as Hr.
  destruct (inv_pkids _ _ (reachable_inv _ _ _ Hr)) as ((_ & _ & Hl) & Hnd & Hsub). auto.
Qed.

(** C5: in every reachable connected state [next_outgoing_packet] returns a packet
    or waits: none of its assertions fails and its loop ends. *)
Theorem session_never_panics allow now s ts :
  reachable allow s ts -> is_connected s = true ->
  match fst (next_outgoing_packet now s) with Ready _ | Pending => True | Panicked _ | OutOfFuel => False end.
Proof.
  intros Hr Hc. pose proof (next_outgoing_packet_inv now s ts (reachable_inv _ _ _ Hr) Hc) as H.
  destruct (next_outgoing_packet now s) as [r s']. apply H.
Qed.

(** C9: as long as the server has not acknowledged an identifier in flight with a packet of
    the wrong type, a SUBSCRIBE, UNSUBSCRIBE or PUBLISH that is sent for the first time (when
    nothing is left to replay) does not carry the identifier of an operation in flight. *)
Theorem session_fresh_pkid allow es now s ts p s' k :
  any_run allow es s ts -> compliant es -> is_connected s = true -> packets_to_replay (inflight s) = [] ->
  next_outgoing_packet now s = (Ready p, s') -> packet_pkid (Ready p) = Some k ->
  k ∉ inflight_pkids (inflight s).
Proof.
  intros Ha Hcs Hc Hre E Hk. pose proof (compliant_reachable _ _ _ _ Ha Hcs) as Hr.
  pose proof (next_outgoing_packet_inv now s ts (reachable_inv _ _ _ Hr) Hc) as H.
  rewrite E in H. by apply H.
Qed.

Definition received (ls : list label) : list PacketIdentifier :=
  flat_map (fun l => match l with Received k => [k] | _ => [] end) ls.
Definition acknowledged (ls : list label) : list PacketIdentifier :=
  flat_map (fun l => match l with Sent (Packet.PubAck p) => [Ack.packet_identifier p] | _ => [] end) ls.

(** C3: while a connection lasts, the PUBACKs sent are, in order and once each, for
    the QoS 1 PUBLISHes that were received, in whatever order the application
    acknowledges them: those not yet acknowledged at the beginning and those
    received since are those acknowledged followed by those still waiting. *)
Theorem puback_order allow s ts ls s' ts' :
  reachable allow s ts -> steps allow (s, ts) ls (s', ts') -> ConnectionLost ∉ ls ->
  im_keys (in_application s) ++ received ls = acknowledged ls ++ im_keys (in_application s').
Proof.
  intros Hinv%reachable_inv Hs. remember (s, ts) as c eqn:Ec. remember (s', ts') as c' eqn:Ec'.
  revert s ts Hinv Ec. induction Hs as [c|c l [s1 ts1] ls c3 Hl Hs IH]; intros s ts Hinv -> Hlost.
  { injection Ec' as -> ->. cbn. by rewrite app_nil_r. }
  apply not_elem_of_cons in Hlost as [Hlost1 Hlost].
  destruct (step_preserves _ _ _ _ _ _ Hl Hinv) as [Hinv1 Hkeys].
  specialize (IH Ec' s1 ts1 Hinv1 eq_refl Hlost). cbn [received acknowledged flat_map].
  fold (received ls) (acknowledged ls). destruct l as [p|k| |]; cbn in Hkeys; try done.
  - unfold puback_step in Hkeys. destruct p; try (by rewrite Hkeys in IH). by rewrite Hkeys; cbn; rewrite IH.
  - rewrite app_assoc, <- Hkeys. exact IH.
  - by rewrite Hkeys in IH.
Qed.

(** C8: an acknowledgement whose turn has come is sent: if the oldest PUBLISH not
    yet acknowledged on this connection has been accepted or dropped by the
    application, and neither a replay nor a DISCONNECT is due, then the next
    packet is its PUBACK. *)
Theorem puback_live allow now s ts k v rest :
  reachable allow s ts -> is_connected s = true ->
  in_application s = (k, v) :: rest -> mkPubAckToken k (connection_epoch s) ∉ ts ->
  packets_to_replay (inflight s) = [] -> fst (poll_disconnect (ch s)) = None ->
  exists p s', next_outgoing_packet now s = (Ready (Packet.PubAck p), s') /\
    Ack.packet_identifier p = k.
Proof.
  intros Hinv%reachable_inv Hc E Ht Hre Hd. pose proof (inv_acks _ _ Hinv) as Hacks. rewrite Hc in Hacks.
  destruct (next_request_loop_live (next_request_fuel s) now s ts k v rest) as (n & p & s1 & El & Hp);
    try done.
  { unfold next_request_fuel. lia. }
  { unfold current_tokens. intros (t & Hin & Hk)%list_elem_of_In%in_flat_map.
    destruct (token_epoch t =? connection_epoch s) eqn:Et; [|done]. bool_to_prop. cbn in Hk. destruct Hk as [<-|[]].
    apply Ht. rewrite <- Et. destruct t. by apply list_elem_of_In. }
  unfold next_outgoing_packet, next_outgoing_request. rewrite Hc, Hre, El. cbn. eauto.
Qed.

(** C7: when the connection of a session that does not expire with it is lost and the
    server resumes the session, the first
    packets sent are the PUBRELs, then the QoS 1 PUBLISHes, then the QoS 2
    PUBLISHes that were not acknowledged, in the order in which they were first
    sent, the PUBLISHes with DUP set and otherwise as they were; all of them stay in flight, and no
    acknowledgement of the old connection remains. *)
Theorem replay_after_reconnect allow es s ts now connack ka am ex s' nows :
  any_run allow es s ts -> expiry_interval s <> SessionExpiryInterval.Duration 0 ->
  ConnAck.reason_code connack = ConnectReasonCode.Success true ->
  incoming_connack allow now connack ka am ex (transport_disconnect s) = (Ok tt, s') ->
  let i := inflight s in
  length nows = (length (pubrel i) + length (publish_qos1 i) + length (publish_qos2 i))%nat ->
  exists s'' qs, next_packets nows s' =
      (map (fun e => Ready (Packet.PubRel (fst (snd e)))) (pubrel i) ++
       map (fun q => Ready (Packet.Publish q)) qs, s'') /\
    Forall2 resent (publish_qos1 i ++ publish_qos2 i) qs /\
    inflight s'' = mkInflight (publish_qos1 i) (publish_qos2 i) ∅ ∅ (pubrec i) (pubrel i) [] None [] /\
    in_application s'' = [].
Proof.
  intros Hrun Hx Hr E i Hl. destruct (replayed_packets allow s now connack ka am ex s' nows Hx Hr E Hl) as (s'' & Es & Hs).
  exists s'', (map (fun e => set_dup (fst (snd e))) (publish_qos1 i ++ publish_qos2 i)).
  rewrite map_map. split; [done|]. split; [|done]. apply Forall2_fmap_r, Forall_Forall2_diag.
  destruct (entries_run _ _ _ _ Hrun) as [H1 H2]. apply Forall_app.
  split; [apply (Forall_impl _ _ _ H1)|apply (Forall_impl _ _ _ H2)]; intros e; by apply set_dup_resent.
Qed.

(** C11: a DISCONNECT that ends the session leaves nothing in flight, cancels the
    notifier of every operation that was in flight once and no other, and
    releases the identifiers of SUBSCRIBEs, UNSUBSCRIBEs and PUBLISHes. *)
Theorem client_disconnect_expires d s :
  unwrap_or (Disconnect.session_expiry_interval (Disconnect.other_properties d)) (expiry_interval s)
    = SessionExpiryInterval.Duration 0 ->
  let s' := client_disconnect d s in
  let i := inflight s in
  inflight s' = InflightTracker_default /\ in_application s' = [] /\ is_connected s' = false /\
  events s' = events s ++ map (fun n => Cancel n CLIENT_DISCONNECTED) (connection_notifiers i)
    ++ map (fun n => Cancel n SESSION_EXPIRED) (session_notifiers i) /\
  forall k, k ∈ leased (pkid_pool s') <->
    k ∈ leased (pkid_pool s) /\ (k ∉ im_keys (publish_qos1 i)) /\ (k ∉ im_keys (publish_qos2 i)) /\
    subscribe i !! k = None /\ unsubscribe i !! k = None.
Proof.
  intros Hx s' i. assert (Es : exists x, s' = session_expired (set_expiry x (disconnected s))).
  { unfold s', client_disconnect, expire_if_zero. unfold unwrap_or in Hx.
    exists (SessionExpiryInterval.Duration 0). destruct (Disconnect.session_expiry_interval _).
    - cbn [expiry_interval set_expiry]. by rewrite Hx.
    - rewrite disconnected_eq. cbn [expiry_interval]. rewrite Hx. by do 2 f_equal. }
  destruct Es as [x ->]. rewrite session_expired_eq, disconnected_eq. cbv zeta. fold i.
  unfold set_expiry. split_and!; try done; cbn [inflight events pkid_pool leased release_set].
  - by rewrite <- app_assoc.
  - intros k. cbn [publish_qos1 publish_qos2]. rewrite !elem_of_difference, !elem_of_list_to_set, !elem_of_map_keys.
    rewrite !eq_None_not_Some. tauto.
Qed.

(** C10: an acknowledgement from the server completes exactly the operation of its
    type and identifier: its notifier alone is completed, it leaves the table,
    and the identifier is released unless a PUBREL follows. Any other
    acknowledgement is a protocol error that completes nothing. *)
Theorem complete_inflight_correct op s :
  NoDup (inflight_pkids (inflight s)) ->
  match op_entry op (inflight s) with
  | Some n =>
      exists v s', complete_inflight op s = (Ok tt, s') /\ events s' = events s ++ [Complete n v] /\
        leased (pkid_pool s') = (if op_keeps_pkid op then leased (pkid_pool s) else leased (pkid_pool s) ∖ {[op_pkid op]}) /\
        op_entry op (inflight s') = None /\
        inflight_pkids (inflight s) ≡ₚ op_freed op ++ inflight_pkids (inflight s')
  | None => exists s', complete_inflight op s = (Err UnexpectedPacket, s') /\
      inflight s' = inflight s /\ events s' = events s
  end.
Proof.
  intros Hnd. destruct (op_entry op (inflight s)) as [n|] eqn:E.
  - destruct (complete_inflight_some op n s Hnd E) as (v & s' & E1 & E2 & E3 & E4 & E5).
    exists v, s'. split_and!; try done. rewrite E3. unfold released_pool. by destruct (op_keeps_pkid op).
  - rewrite (complete_inflight_none op s E). eauto.
Qed.

(** C12: an acknowledgement of the wrong type for an identifier in flight is refused; but if
    it is one that ends an operation (a PUBACK, SUBACK or UNSUBACK, a PUBCOMP, or a PUBREC
    that reports a failure), then only after the identifier was released: the operation stays
    in flight under an identifier that the pool can lease again. An acknowledgement that leads to
    the next stage of a QoS 2 exchange (a PUBREC that reports success, or a PUBREL) is refused and
    leaves the session as it was. *)
Theorem mismatched_ack_frees_pkid op s :
  op_entry op (inflight s) = None -> op_pkid op ∈ inflight_pkids (inflight s) ->
  exists s', complete_inflight op s = (Err UnexpectedPacket, s') /\
    op_pkid op ∈ inflight_pkids (inflight s') /\
    if op_keeps_pkid op then s' = s else op_pkid op ∉ leased (pkid_pool s').
Proof.
  intros E Hin. rewrite (complete_inflight_none op s E). eexists. split; [done|]. split; [done|].
  unfold released_pool. destruct (op_keeps_pkid op); [by destruct s|].
  cbn. intros [_ Hn]%elem_of_difference. apply Hn. by apply elem_of_singleton.
Qed.


(** C14: [incoming_publish] panics exactly on a QoS 2 PUBLISH and on a QoS 1 PUBLISH
    whose identifier is that of one not yet acknowledged. *)
Theorem incoming_publish_panics_iff p s :
  (exists msg, incoming_publish p s = Panics msg) <->
  match Publish.packet_identifier_dup_qos p with
  | PacketIdentifierDupQoS.AtMostOnce => False
  | PacketIdentifierDupQoS.AtLeastOnce k _ => k ∈ im_keys (in_application s)
  | PacketIdentifierDupQoS.ExactlyOnce _ _ => True
  end.
Proof.
  unfold incoming_publish. destruct (Publish.packet_identifier_dup_qos p) as [|k d|k d].
  - split; [by intros []|done].
  - pose proof (im_insert_fst k NotReady (in_application s)) as Hr. pose proof (im_get_None k (in_application s)) as Hn.
    destruct (im_insert _ _ _) as [r m]. cbn in Hr. subst r.
    destruct (im_get k (in_application s)) as [v|]; cbn.
    + split; [intros _|eauto]. destruct (decide (k ∈ im_keys (in_application s))) as [|Hk]; [done|].
      by apply Hn in Hk.
    + split; [by intros []|]. intros Hk. by apply Hn in Hk.
  - split; [done|eauto].
Qed.

(** ** A run that meets the hypotheses *)

Definition run_topic : Topic ByteStr := mkTopic (mkByteStr (mkBinaryData [0; 1; 116])).
Definition run_request (n : Notifier) : PublishRequestQoS1QoS2.t :=
  PublishRequestQoS1QoS2.PublishQoS1 n run_topic [104; 105] false Publish.OtherProperties_default.
Definition run_publish (k : Z) : Publish.t :=
  Publish.mk run_topic (PacketIdentifierDupQoS.AtLeastOnce (mkPacketIdentifier k) false) false [104; 105]
    Publish.OtherProperties_default.
Definition run_channels : Channels := mkChannels None [] [run_request 1%nat; run_request 2%nat] [] [] [] [] [].
Definition run_connack (present : bool) : ConnAck.t :=
  ConnAck.mk (ConnectReasonCode.Success present) ConnAck.OtherProperties_default.
Definition run_connect (present : bool) (s : Session) : Session :=
  snd (incoming_connack false 0 (run_connack present) KeepAlive.Infinite None (SessionExpiryInterval.Duration 100) s).
Definition run_receive (k : Z) (s : Session) : Session :=
  match incoming_publish (run_publish k) s with Returns s => s | Panics _ => s end.
Definition run_ack (n : Notifier) (k : Z) : AcknowledgementRequest.t :=
  AcknowledgementRequest.PubAck n (Ack.mk (mkPacketIdentifier k) PubAckReasonCode.Success ReasonProperties_default) 1.
Definition run_acknowledge (n : Notifier) (k : Z) (s : Session) : Session :=
  set_ch (set_ack_rx (ack_rx (ch s) ++ [run_ack n k]) (ch s)) s.
Definition run_send (s : Session) : Session := snd (next_outgoing_packet 0 s).
Definition run_token (k : Z) : PubAckToken := mkPubAckToken (mkPacketIdentifier k) 1.

(** Connected, one PUBLISH sent, two received and none acknowledged. *)
Definition run_opened : Session := run_connect false (Session_new run_channels (mkPacketIdentifier 10)).
Definition run_waiting : Session := run_receive 9 (run_receive 7 (run_send run_opened)).
(** Both acknowledged, the later one first. *)
Definition run_acked : Session := run_acknowledge 4%nat 7 (run_acknowledge 3%nat 9 run_waiting).

Lemma run_opened_steps :
  steps false (Session_new run_channels (mkPacketIdentifier 10), []) [Silent] (run_opened, []).
Proof.
  eapply steps_cons; [|apply steps_nil].
  eapply (step_connack false 0 (run_connack false) KeepAlive.Infinite None (SessionExpiryInterval.Duration 100));
    vm_compute; reflexivity.
Qed.

Lemma run_initial : initial run_channels (mkPacketIdentifier 10).
Proof. split; [unfold pkid_wf; cbn; solve_range|by split]. Qed.

Lemma run_opened_reachable : reachable false run_opened [].
Proof. exists run_channels, (mkPacketIdentifier 10), [Silent]. split; [apply run_initial|apply run_opened_steps]. Qed.

Lemma steps_app allow c1 ls1 c2 ls2 c3 :
  steps allow c1 ls1 c2 -> steps allow c2 ls2 c3 -> steps allow c1 (ls1 ++ ls2) c3.
Proof. induction 1 as [|c1 l c c2 ls Hl _ IH]; [done|]. intros H. eapply steps_cons; [done|]. by apply IH. Qed.

Lemma run_waiting_steps :
  steps false (run_opened, [])
    [Sent (Packet.Publish (run_publish 1)); Received (mkPacketIdentifier 7); Received (mkPacketIdentifier 9)]
    (run_waiting, [run_token 7; run_token 9]).
Proof.
  eapply steps_cons; [apply (step_send false 0 run_opened [] (Packet.Publish (run_publish 1))
    (run_send run_opened)); vm_compute; reflexivity|].
  eapply steps_cons; [apply (step_publish false (run_send run_opened) [] (run_publish 7)
    (run_receive 7 (run_send run_opened))); vm_compute; reflexivity|].
  eapply steps_cons; [|apply steps_nil].
  apply (step_publish false (run_receive 7 (run_send run_opened)) [run_token 7] (run_publish 9) run_waiting);
    vm_compute; reflexivity.
Qed.

Lemma run_waiting_reachable : reachable false run_waiting [run_token 7; run_token 9].
Proof.
  exists run_channels, (mkPacketIdentifier 10). eexists. split; [apply run_initial|].
  eapply steps_app; [apply run_opened_steps|apply run_waiting_steps].
Qed.

Lemma run_acked_steps : steps false (run_waiting, [run_token 7; run_token 9]) [Silent; Silent] (run_acked, []).
Proof.
  eapply steps_cons; [apply (step_acknowledge false run_waiting [run_token 7] (run_token 9) [] 3%nat
    (Ack.mk (mkPacketIdentifier 9) PubAckReasonCode.Success ReasonProperties_default)); reflexivity|].
  eapply steps_cons; [|apply steps_nil].
  apply (step_acknowledge false (run_acknowledge 3%nat 9 run_waiting) [] (run_token 7) [] 4%nat
    (Ack.mk (mkPacketIdentifier 7) PubAckReasonCode.Success ReasonProperties_default)). reflexivity.
Qed.

Lemma run_acked_reachable : reachable false run_acked [].
Proof.
  exists run_channels, (mkPacketIdentifier 10). eexists. split; [apply run_initial|].
  eapply steps_app; [apply run_opened_steps|]. eapply steps_app; [apply run_waiting_steps|apply run_acked_steps].
Qed.

Definition run_puback (k : Z) : Packet.t :=
  Packet.PubAck (Ack.mk (mkPacketIdentifier k) PubAckReasonCode.Success ReasonProperties_default).

Lemma run_sent_steps :
  steps false (run_acked, []) [Sent (run_puback 7); Sent (run_puback 9)] (run_send (run_send run_acked), []).
Proof.
  eapply steps_cons; [apply (step_send false 0 run_acked [] (run_puback 7) (run_send run_acked));
    vm_compute; reflexivity|].
  eapply steps_cons; [|apply steps_nil].
  apply (step_send false 0 (run_send run_acked) [] (run_puback 9)); vm_compute; reflexivity.
Qed.

Lemma session_pkids_unique_witness :
  inflight_pkids (inflight run_waiting) = [mkPacketIdentifier 1] /\
  NoDup (inflight_pkids (inflight run_waiting)) /\ mkPacketIdentifier 1 ∈ leased (pkid_pool run_waiting).
Proof.
  split; [vm_compute; reflexivity|].
  destruct (reachable_any _ _ _ run_waiting_reachable) as (es & Ha & Hc).
  destruct (session_pkids_unique false es run_waiting _ Ha Hc) as [Hnd Hl].
  split; [exact Hnd|]. apply Hl. replace (inflight_pkids (inflight run_waiting)) with [mkPacketIdentifier 1]
    by (vm_compute; reflexivity). by left.
Defined.

Lemma session_never_panics_witness :
  match fst (next_outgoing_packet 0 run_acked) with Ready _ | Pending => True | Panicked _ | OutOfFuel => False end.
Proof. apply (session_never_panics false 0 run_acked [] run_acked_reachable). reflexivity. Defined.

Lemma session_fresh_pkid_witness : mkPacketIdentifier 2 ∉ inflight_pkids (inflight run_waiting).
Proof.
  destruct (reachable_any _ _ _ run_waiting_reachable) as (es & Ha & Hc).
  apply (session_fresh_pkid false es 0 run_waiting _ (Packet.Publish (run_publish 2)) (run_send run_waiting) _
    Ha Hc); vm_compute; reflexivity.
Defined.

(** The PUBACKs for 7 and 9 leave in that order, though 9 was acknowledged first. *)
Lemma puback_order_witness :
  im_keys (in_application run_acked) = [mkPacketIdentifier 7; mkPacketIdentifier 9] /\
  im_keys (in_application run_acked) ++ [] =
    [mkPacketIdentifier 7; mkPacketIdentifier 9] ++ im_keys (in_application (run_send (run_send run_acked))).
Proof.
  split; [vm_compute; reflexivity|].
  apply (puback_order false run_acked [] _ _ [] run_acked_reachable run_sent_steps).
  rewrite !not_elem_of_cons, elem_of_nil. naive_solver.
Defined.

Lemma puback_live_witness :
  exists p s', next_outgoing_packet 0 run_acked = (Ready (Packet.PubAck p), s') /\
    Ack.packet_identifier p = mkPacketIdentifier 7.
Proof.
  apply (puback_live false 0 run_acked [] (mkPacketIdentifier 7) NotReady [(mkPacketIdentifier 9, NotReady)]
    run_acked_reachable); try (vm_compute; reflexivity). apply not_elem_of_nil.
Defined.

(** The PUBLISH in flight is sent again after a reconnect. *)
Lemma replay_after_reconnect_witness :
  exists s q, next_packets [5] (run_connect true (transport_disconnect run_waiting)) = ([Ready (Packet.Publish q)], s) /\
    Publish.packet_identifier_dup_qos q = PacketIdentifierDupQoS.AtLeastOnce (mkPacketIdentifier 1) true /\
    Publish.payload q = Publish.payload (run_publish 1).
Proof.
  destruct (reachable_any _ _ _ run_waiting_reachable) as (es & Ha & _).
  edestruct (replay_after_reconnect false es run_waiting _ 0 (run_connack true) KeepAlive.Infinite None
    (SessionExpiryInterval.Duration 100) (run_connect true (transport_disconnect run_waiting)) [5] Ha)
    as (s & qs & E & Hq & _); [vm_compute; discriminate|vm_compute; reflexivity..|].
  assert (Ei : publish_qos1 (inflight run_waiting) ++ publish_qos2 (inflight run_waiting) =
    [(mkPacketIdentifier 1, (run_publish 1, 1%nat))]) by (vm_compute; reflexivity).
  rewrite Ei in Hq. apply Forall2_cons_inv_l in Hq as (q & qs' & (Hd & _ & _ & Hp & _) & Hnil & ->).
  apply Forall2_nil_inv_l in Hnil as ->. exists s, q. split; [exact E|]. split; [|exact Hp].
  cbn in Hd. destruct (Publish.packet_identifier_dup_qos q); cbn in Hd; congruence.
Defined.

Lemma client_disconnect_expires_witness :
  inflight (client_disconnect (Disconnect.mk DisconnectReasonCode.Normal
    (Disconnect.mkOther (Some (SessionExpiryInterval.Duration 0)) None [] None)) run_waiting)
  = InflightTracker_default.
Proof.
  apply (client_disconnect_expires (Disconnect.mk DisconnectReasonCode.Normal
    (Disconnect.mkOther (Some (SessionExpiryInterval.Duration 0)) None [] None)) run_waiting).
  reflexivity.
Defined.

Definition run_completion : CompletedOperation.t :=
  CompletedOperation.PublishQoS1
    (Ack.mk (mkPacketIdentifier 1) PubAckReasonCode.Success ReasonProperties_default).

Lemma complete_inflight_correct_witness :
  exists v s', complete_inflight run_completion run_waiting = (Ok tt, s') /\ events s' = [Complete 1%nat v].
Proof.
  pose proof (complete_inflight_correct run_completion run_waiting) as H.
  destruct H as (v & s' & E & Ev & _).
  { replace (inflight_pkids (inflight run_waiting)) with [mkPacketIdentifier 1] by (vm_compute; reflexivity).
    apply NoDup_singleton. }
  exists v, s'. split; [exact E|exact Ev].
Defined.

(** An UNSUBACK for the PUBLISH in flight under identifier 1. *)
Definition run_mismatch : CompletedOperation.t :=
  CompletedOperation.Unsubscribe
    (UnsubAck.mk (mkPacketIdentifier 1) [UnsubAckReasonCode.Success] ReasonProperties_default).

Lemma mismatched_ack_frees_pkid_witness :
  exists s', complete_inflight run_mismatch run_waiting = (Err UnexpectedPacket, s') /\
    mkPacketIdentifier 1 ∈ inflight_pkids (inflight s') /\ mkPacketIdentifier 1 ∉ leased (pkid_pool s').
Proof.
  apply (mismatched_ack_frees_pkid run_mismatch run_waiting); [vm_compute; reflexivity..|].
  replace (inflight_pkids (inflight run_waiting)) with [mkPacketIdentifier 1] by (vm_compute; reflexivity).
  by left.
Defined.

(** A session with a PUBREL in flight under identifier 1. *)
Definition run_pubrel : Session :=
  mkSession run_channels
    (mkPkidPool {[mkPacketIdentifier 1]} (pool_cycle (PkidPool_new (mkPacketIdentifier 10))) (mkPacketIdentifier 10))
    (set_pubrel [(mkPacketIdentifier 1,
      (Ack.mk (mkPacketIdentifier 1) PubRelReasonCode.Success ReasonProperties_default, 1%nat))] InflightTracker_default)
    [] Disconnected 0 (SessionExpiryInterval.Duration 0) None [].

Lemma run_pubrel_inv : pkids_inv run_pubrel.
Proof.
  assert (E : inflight_pkids (inflight run_pubrel) = [mkPacketIdentifier 1]) by (vm_compute; reflexivity).
  unfold pkids_inv. rewrite E. split; [|split; [apply NoDup_singleton|]].
  - destruct (pool_wf_new (mkPacketIdentifier 10)) as (H1 & H2 & _); [unfold pkid_wf; cbn; solve_range|].
    split; [exact H1|]. split; [exact H2|]. cbn [run_pubrel pkid_pool leased]. intros k ->%elem_of_singleton. unfold in_range. cbn. lia.
  - cbn [run_pubrel pkid_pool leased]. intros k ->%list_elem_of_singleton. by apply elem_of_singleton.
Qed.

