(* ===== verification/KeepAliveProps.v ===== *)
(** * Keeping a connection alive

    The keep-alive timer of client/session.rs over the life of a connection, in the
    transition system of SessionSystem with the times at which the session is polled:
    a connected session never stays silent for longer than the interval that was
    agreed on, and does not send a PINGREQ of its own before that. *)

From S2P Require Import SessionProps.
Local Open Scope Z_scope.

(** The interval that [incoming_connack] settles on, and the timer for it. *)
Definition negotiated (connack : ConnAck.t) (client_keep_alive : KeepAlive.t) : KeepAlive.t :=
  unwrap_or (ConnAck.server_keep_alive (ConnAck.other_properties connack)) client_keep_alive.

Definition timer_for (keep_alive : KeepAlive.t) (last : Z) : option Timer :=
  match keep_alive with
  | KeepAlive.Duration duration => Some (Timer_new last (duration * 1000))
  | KeepAlive.Infinite => None
  end.

(** ** One call of [next_outgoing_packet] *)

Definition due (now : Z) (timer : option Timer) : bool :=
  match timer with Some t => Timer_poll now t | None => false end.

(** Nothing is sent only if the timer is not due, and a PINGREQ only if it is due or the
    application asked for one. *)
Definition timely (now : Z) (c : Channels) (timer : option Timer) (r : poll OutgoingPacketRequest.t) : Prop :=
  (r = Pending -> due now timer = false) /\
  (forall n, r = Ready (OutgoingPacketRequest.PingReq n) -> due now timer = true \/ ping_rx c <> []).

Lemma poll_for_outgoing_request_timely now c timer pool r c' pool' :
  poll_for_outgoing_request now c timer pool = (r, c', pool') ->
  timely now c timer r /\ (forall a, r = Ready (OutgoingPacketRequest.Acknowledgement a) -> ping_rx c' = ping_rx c).
Proof.
  assert (Hk : timely now c timer (poll_keep_alive now timer) /\
    forall a, poll_keep_alive now timer <> Ready (OutgoingPacketRequest.Acknowledgement a)).
  { unfold timely, poll_keep_alive, due. destruct timer as [t|]; [|done].
    destruct (Timer_poll now t); [|done]. split; [|done]. split; [done|]. by left. }
  assert (Hd : ping_rx (snd (poll_disconnect c)) = ping_rx c)
    by (unfold poll_disconnect; by destruct (disconnect_rx c) as [[| |]|]).
  unfold poll_for_outgoing_request, poll_subscription, poll_publish, poll_publish_qos12. intros E.
  destruct (poll_disconnect c) as [[|] c1]; [by injection E as <- _ _|]. cbn [snd] in Hd.
  destruct (ack_rx c1); [|by injection E as <- <- _]. destruct (auth_rx c1); [|by injection E as <- _ _].
  destruct (ping_rx c1) as [|req rest] eqn:Ep.
  2: { injection E as <- _ _. split; [|done]. split; [done|]. intros n _. right. by rewrite <- Hd. }
  repeat match type of E with
  | context [match ?x with _ => _ end] => destruct x
  end; injection E as <- _ _; try done; (split; [apply Hk|]); by intros a ?%Hk.
Qed.

Lemma next_request_loop_timely fuel now s r s' :
  next_request_loop fuel now s = (r, s') -> timely now (ch s) (pingreq_timer s) r.
Proof.
  revert s. induction fuel as [|fuel IH]; intros s E; [by injection E as <- _|].
  rewrite next_request_loop_S in E.
  assert (Hpoll : poll_round (next_request_loop fuel now) now s = (r, s') ->
    timely now (ch s) (pingreq_timer s) r).
  { clear E. unfold poll_round. destruct (poll_for_outgoing_request _ _ _ _) as [[r1 c] pool] eqn:Ep.
    apply poll_for_outgoing_request_timely in Ep as [Ht Ha]. intros E.
    destruct r1 as [[|a| | | |]| | |]; try (injection E as <- _; done). specialize (Ha a eq_refl).
    destruct (route _ a) as [[k|]|]; [destruct (im_get k _)| |]; try (by injection E as <- _);
      apply IH in E; unfold timely in *; cbn in E; by rewrite Ha in E. }
  destruct (in_application s) as [|[k [|a]] rest]; [by apply Hpoll..|]. clear Hpoll.
  cbv zeta in E. destruct (current _ a); [by injection E as <- _|by apply IH in E].
Qed.

Lemma packet_of_request_timer now r s packet s' :
  packet_of_request now r s = Returns (packet, s') ->
  pingreq_timer s' = pingreq_timer s /\
  (packet = Packet.PingReq PingReq.mk -> exists n, r = OutgoingPacketRequest.PingReq n).
Proof.
  destruct r as [req|[]|[] k|[]|req|n]; cbn [packet_of_request packet_of_acknowledgement packet_of_subscription
    packet_of_publish]; intros E;
    try (unfold packet_of_reauth in E; destruct (Auth.authentication _); [|done]); injection E as <- <-;
    split; try done; eauto.
Qed.

(** Every packet starts the interval anew; waiting does not. A PINGREQ that the
    application did not ask for is sent only when it is due. *)
Lemma next_outgoing_packet_timer now s ts r s' :
  sys_inv s ts -> is_connected s = true -> next_outgoing_packet now s = (r, s') ->
  (forall p, r = Ready p -> pingreq_timer s' = option_map (Timer_reset now) (pingreq_timer s)) /\
  (r = Pending -> pingreq_timer s' = pingreq_timer s /\ due now (pingreq_timer s) = false) /\
  (r = Ready (Packet.PingReq PingReq.mk) -> ping_rx (ch s) = [] -> due now (pingreq_timer s) = true).
Proof.
  intros Hinv Hc. unfold next_outgoing_packet. rewrite Hc. cbn [negb].
  assert (Hreset : forall s1, pingreq_timer (reset_ping_timer now s1) = option_map (Timer_reset now) (pingreq_timer s1))
    by (intros s1; unfold reset_ping_timer; by destruct (pingreq_timer s1) eqn:E).
  destruct (packets_to_replay (inflight s)) as [|p rest] eqn:Er.
  2: { intros [= <- <-]. split; [intros _ _; by rewrite Hreset|]. split; [done|]. intros [= Hp] _.
    pose proof (inv_replay _ _ Hinv) as Hre. rewrite Er in Hre. apply Forall_cons in Hre as [Hre _].
    by destruct p. }
  pose proof (next_request_loop_spec (next_request_fuel s) now s ts) as Hspec. unfold next_outgoing_request.
  destruct (next_request_loop (next_request_fuel s) now s) as [q s1] eqn:El.
  apply next_request_loop_timely in El as [Hpend Hping].
  destruct Hspec as (_ & (_ & _ & _ & _ & Et & _) & _); [unfold next_request_fuel; lia|apply Hinv| |apply Hinv|].
  { pose proof (inv_acks _ _ Hinv) as Ha. by rewrite Hc in Ha. }
  destruct q as [req| | |]; try (intros [= <- <-]; split; [done|]; split; [by rewrite Et; auto|done]).
  destruct (packet_of_request now req s1) as [[packet s2]|m] eqn:Ep; intros [= <- <-]; [|done].
  apply packet_of_request_timer in Ep as [Et' Hpkt]. split; [intros _ _; by rewrite Hreset, Et', Et|].
  split; [done|]. intros [= Hp] Hnone. destruct (Hpkt Hp) as [n ->]. destruct (Hping n eq_refl); done.
Qed.

(** ** The other steps of a connection leave the timer alone *)

Lemma complete_inflight_timer op s r s' :
  complete_inflight op s = (r, s') -> pingreq_timer s' = pingreq_timer s.
Proof.
  intros E. destruct op as [a|a|a|a|a|a]; cbn in E;
    try (destruct (PubRec.is_success _));
    try (destruct (im_shift_remove _ _) as [[[q n]|] m]);
    try (destruct (subscribe (inflight s) !! _));
    try (destruct (unsubscribe (inflight s) !! _));
    try (destruct (pubrec (inflight s) !! _) as [[q n]|]); injection E as _ <-; done.
Qed.

Lemma incoming_publish_timer p s s' :
  incoming_publish p s = Returns s' -> pingreq_timer s' = pingreq_timer s.
Proof.
  unfold incoming_publish. intros E.
  repeat match type of E with context [match ?x with _ => _ end] => destruct x; try done end;
    injection E as <-; done.
Qed.

Lemma incoming_auth_timer allow a s r s' :
  incoming_auth allow a s = (r, s') -> pingreq_timer s' = pingreq_timer s.
Proof.
  unfold incoming_auth. intros E.
  repeat match type of E with context [match ?x with _ => _ end] => destruct x; try done end;
    injection E as _ <-; done.
Qed.

Lemma incoming_pingresp_timer now s : pingreq_timer (incoming_pingresp now s) = pingreq_timer s.
Proof. unfold incoming_pingresp. by destruct (pingreq (inflight s)) as [|[? [?|]] ?]. Qed.

(** The timer that a successful CONNACK starts. *)
Lemma incoming_connack_timer allow now connack ka am ex s s' :
  incoming_connack allow now connack ka am ex s = (Ok tt, s') -> connack_success connack = true ->
  pingreq_timer s' = timer_for (negotiated connack ka) now.
Proof.
  unfold incoming_connack, connack_success, negotiated. intros E Hok.
  destruct (negb _ && _) in E; [done|]. destruct (ConnAck.reason_code connack) as [b|]; [|done].
  injection E as <-.
  destruct (ConnAck.server_keep_alive _) as [[|d]|]; cbn; [done..|]. by destruct ka.
Qed.

(** ** The life of a connection *)

Section connection.
Context (allow : bool).

(** [alive ka last s ts]: the session is connected with the keep-alive interval [ka], and
    the last packet of this connection (or the CONNACK, if there was none yet) was
    at the time [last]. *)
Inductive alive (ka : KeepAlive.t) : Z -> Session -> list PubAckToken -> Prop :=
  | alive_connected now connack client_ka am ex s s' ts :
      reachable allow s ts -> is_connected s = false -> connection_epoch s + 1 < 2 ^ 64 ->
      incoming_connack allow now connack client_ka am ex s = (Ok tt, s') -> connack_success connack = true ->
      ka = negotiated connack client_ka -> alive ka now s' ts
  | alive_send last now s ts p s' :
      alive ka last s ts -> next_outgoing_packet now s = (Ready p, s') -> alive ka now s' ts
  | alive_step last s ts l s' ts' :
      alive ka last s ts -> step allow (s, ts) l (s', ts') -> (forall p, l <> Sent p) ->
      is_connected s' = true -> alive ka last s' ts'.

Lemma alive_inv ka last s ts :
  alive ka last s ts -> sys_inv s ts /\ is_connected s = true /\ pingreq_timer s = timer_for ka last.
Proof.
  induction 1 as [now connack ck am ex s s' ts Hr Hc He E Hok ->|last now s ts p s' _ (Hi & Hc & Ht) E
    |last s ts l s' ts' _ (Hi & Hc & Ht) Hs Hl Hc'].
  - split; [|split].
    + eapply step_preserves; [|by eapply reachable_inv]. by eapply step_connack.
    + unfold incoming_connack, connack_success in *. destruct (negb _ && _) in E; [done|].
      destruct (ConnAck.reason_code connack); [|done]. by injection E as <-.
    + by eapply incoming_connack_timer.
  - pose proof (next_outgoing_packet_inv now s ts Hi Hc) as Hn. rewrite E in Hn.
    destruct Hn as (_ & Hi' & Hc' & _). split; [done|]. split; [done|].
    apply (next_outgoing_packet_timer now s ts) in E as [E _]; [|done..].
    rewrite (E p eq_refl), Ht. by destruct ka.
  - split; [by eapply step_preserves|]. split; [done|]. rewrite <- Ht.
    inversion Hs; subst; try done.
    + by destruct (Hl p).
    + by eapply next_outgoing_packet_timer.
    + by eapply complete_inflight_timer.
    + by eapply incoming_publish_timer.
    + by eapply incoming_auth_timer.
    + apply incoming_pingresp_timer.
    + destruct (client_disconnect_inv d s ts' Hi). congruence.
    + destruct (transport_disconnect_inv s ts' Hi). unfold transport_disconnect, server_disconnect in *. congruence.
    + destruct (transport_disconnect_inv s ts' Hi). congruence.
    + congruence.
Qed.

(** C6: the keep-alive promise of the client. Over the whole life of a connection, whatever
    the application and the server do and at whatever times the session is polled: as long
    as the agreed interval is finite, [next_outgoing_packet] waits only if the last packet
    of the connection was less than that interval ago, so that a session that is polled
    in time never stays silent for longer; and it never panics. A PINGREQ that the application
    did not ask for is sent only when the whole interval has passed in silence, and never
    without a keep-alive interval. The interval is that of the server if the CONNACK has one. *)
Theorem keep_alive_met ka last s ts now :
  alive ka last s ts ->
  match next_outgoing_packet now s with
  | (Pending, _) => forall d, ka = KeepAlive.Duration d -> now < last + d * 1000
  | (Ready p, _) => p = Packet.PingReq PingReq.mk -> ping_rx (ch s) = [] ->
      exists d, ka = KeepAlive.Duration d /\ last + d * 1000 <= now
  | _ => False
  end.
Proof.
  intros (Hi & Hc & Ht)%alive_inv. pose proof (next_outgoing_packet_inv now s ts Hi Hc) as Hn.
  destruct (next_outgoing_packet now s) as [r s'] eqn:E.
  apply (next_outgoing_packet_timer now s ts) in E as (_ & Hpend & Hping); [|done..]. rewrite Ht in Hpend, Hping.
  destruct Hn as [Hset _]. destruct r as [p| | |]; try done.
  - intros -> Hp. specialize (Hping eq_refl Hp). destruct ka as [|d]; [done|].
    exists d. split; [done|]. by apply Z.leb_le in Hping.
  - intros d ->. destruct (Hpend eq_refl) as [_ Hd]. by apply Z.leb_gt in Hd.
Qed.
End connection.

(** ** Evaluation *)

(** Connected at 0 with an interval of a minute; a PUBLISH is sent after five
    milliseconds, and then there is silence. *)
Definition quiet_channels : Channels := mkChannels None [] [run_request 1%nat] [] [] [] [] [].
Definition quiet_opened : Session :=
  snd (incoming_connack false 0 (run_connack false) (KeepAlive.Duration 60) None
    (SessionExpiryInterval.Duration 100) (Session_new quiet_channels (mkPacketIdentifier 10))).
Definition quiet_session : Session := snd (next_outgoing_packet 5 quiet_opened).

Lemma quiet_alive : alive false (KeepAlive.Duration 60) 5 quiet_session [].
Proof.
  apply (alive_send false (KeepAlive.Duration 60) 0 5 quiet_opened [] (Packet.Publish (run_publish 1)));
    [|vm_compute; reflexivity].
  apply (alive_connected false (KeepAlive.Duration 60) 0 (run_connack false) (KeepAlive.Duration 60) None
    (SessionExpiryInterval.Duration 100) (Session_new quiet_channels (mkPacketIdentifier 10)));
    try (vm_compute; reflexivity).
  exists quiet_channels, (mkPacketIdentifier 10), []. split; [|constructor].
  split; [unfold pkid_wf; cbn; solve_range|by split].
Qed.

Lemma keep_alive_met_witness :
  fst (next_outgoing_packet 60004 quiet_session) = Pending /\ 60004 < 5 + 60 * 1000 /\
  fst (next_outgoing_packet 60005 quiet_session) = Ready (Packet.PingReq PingReq.mk) /\ 5 + 60 * 1000 <= 60005.
Proof.
  split; [vm_compute; reflexivity|]. split; [|split; [vm_compute; reflexivity|]].
  - pose proof (keep_alive_met false (KeepAlive.Duration 60) 5 quiet_session [] 60004 quiet_alive) as H.
    assert (E : fst (next_outgoing_packet 60004 quiet_session) = Pending) by (vm_compute; reflexivity).
    destruct (next_outgoing_packet 60004 quiet_session) as [r s]. cbn in E. subst r. exact (H 60 eq_refl).
  - pose proof (keep_alive_met false (KeepAlive.Duration 60) 5 quiet_session [] 60005 quiet_alive) as H.
    assert (E : fst (next_outgoing_packet 60005 quiet_session) = Ready (Packet.PingReq PingReq.mk))
      by (vm_compute; reflexivity).
    destruct (next_outgoing_packet 60005 quiet_session) as [r s]. cbn in E. subst r.
    destruct (H eq_refl eq_refl) as (d & [= <-] & Hd). exact Hd.
Defined.
