(* ===== verification/Notifiers.v ===== *)
(** * Completion notifiers are conserved

    Every operation the client accepts comes with a completion notifier. This
    file follows the notifiers through the session: each one stays in exactly
    one place until it is resolved, once, or discarded. *)

From stdpp Require Import gmap list_tactics.
From S2P Require Export SessionProps Tokens.
Local Open Scope Z_scope.
#[local] Set Warnings "-clear-no-such-hyp".

(** ** Where notifiers are held *)

Definition ack_notifier (req : AcknowledgementRequest.t) : Notifier :=
  match req with
  | AcknowledgementRequest.PubAck n _ _ | AcknowledgementRequest.PubRecAccept n _
  | AcknowledgementRequest.PubRecReject n _ | AcknowledgementRequest.PubRel n _
  | AcknowledgementRequest.PubComp n _ => n
  end.

Definition publish_notifier (req : PublishRequestQoS1QoS2.t) : Notifier :=
  match req with
  | PublishRequestQoS1QoS2.PublishQoS1 n _ _ _ _ | PublishRequestQoS1QoS2.PublishQoS2 n _ _ _ _ => n
  end.

Definition subscription_notifier (req : SubscriptionRequest.t) : Notifier :=
  match req with SubscriptionRequest.Subscribe n _ _ _ | SubscriptionRequest.Unsubscribe n _ _ => n end.

Definition pending_notifiers (v : PendingAcknowledgement) : list Notifier :=
  match v with NotReady => [] | AckReady req => [ack_notifier req] end.

Definition application_notifiers (m : IndexMap PacketIdentifier PendingAcknowledgement) : list Notifier :=
  flat_map (fun e => pending_notifiers (snd e)) m.

Definition channel_notifiers (c : Channels) : list Notifier :=
  map ack_notifier (ack_rx c) ++ map reauth_notifier (auth_rx c) ++ map ping_notifier (ping_rx c) ++
  map subscription_notifier (sub_rx c) ++ map q0_notifier (o_pub_q0_rx c) ++
  map publish_notifier (o_pub_q12_rx c).

Definition inflight_notifiers (i : InflightTracker) : list Notifier :=
  session_notifiers i ++ connection_notifiers i.

(** All notifiers the session holds. *)
Definition held (s : Session) : list Notifier :=
  channel_notifiers (ch s) ++ application_notifiers (in_application s) ++ inflight_notifiers (inflight s).

(** The notifiers a handler may drop without a result: those of acknowledgements,
    and that of a reauthentication. *)
Definition discardable (s : Session) : list Notifier :=
  map ack_notifier (ack_rx (ch s)) ++ application_notifiers (in_application s) ++
  option_list (option_map snd (inflight_auth (inflight s))).

(** From [s] to [s'], the notifiers that are no longer held were resolved by one
    event each, in this step, or discarded. *)
Definition conserves (s s' : Session) : Prop :=
  exists new dropped, events s' = events s ++ new /\
    held s ≡ₚ held s' ++ map event_notifier new ++ dropped /\ dropped ⊆ discardable s.

Lemma conserves_no_loss s s' new :
  events s' = events s ++ new -> held s ≡ₚ held s' ++ map event_notifier new -> conserves s s'.
Proof. intros E Hp. exists new, []. split; [done|]. split; [by rewrite app_nil_r|apply list_subseteq_nil]. Qed.

Lemma conserves_refl s s' : events s' = events s -> held s' = held s -> conserves s s'.
Proof. intros E Hh. apply (conserves_no_loss s s' []); [by rewrite app_nil_r|]. by rewrite Hh, app_nil_r. Qed.

(** ** The outgoing side *)

Definition request_notifiers (r : OutgoingPacketRequest.t) : list Notifier :=
  match r with
  | OutgoingPacketRequest.Disconnect _ => []
  | OutgoingPacketRequest.Acknowledgement req => [ack_notifier req]
  | OutgoingPacketRequest.Subscription req _ => [subscription_notifier req]
  | OutgoingPacketRequest.Publish (PublishRequestWithPkid.PublishQoS0 n _ _ _ _)
  | OutgoingPacketRequest.Publish (PublishRequestWithPkid.PublishQoS1 n _ _ _ _ _)
  | OutgoingPacketRequest.Publish (PublishRequestWithPkid.PublishQoS2 n _ _ _ _ _) => [n]
  | OutgoingPacketRequest.Reauth req => [reauth_notifier req]
  | OutgoingPacketRequest.PingReq n => option_list n
  end.

Definition poll_notifiers (r : poll OutgoingPacketRequest.t) : list Notifier :=
  match r with Ready r => request_notifiers r | _ => [] end.

(** Taking a request from the channels. *)
Definition takes (c : Channels) (res : poll OutgoingPacketRequest.t * Channels * PkidPool) : Prop :=
  let '(r, c', _) := res in
  channel_notifiers c ≡ₚ channel_notifiers c' ++ poll_notifiers r /\
  ack_rx c = option_list (is_ack r) ++ ack_rx c'.

Ltac chans := unfold takes, channel_notifiers; cbn [set_ack_rx set_auth_rx set_ping_rx set_sub_rx set_q0_rx
  set_q12_rx set_disconnect_rx ack_rx auth_rx ping_rx sub_rx o_pub_q0_rx o_pub_q12_rx map poll_notifiers
  request_notifiers is_ack option_list app].

Lemma takes_keep_alive now timer c pool : takes c (poll_keep_alive now timer, c, pool).
Proof.
  unfold poll_keep_alive. destruct timer as [t|]; [destruct (Timer_poll now t)|]; (split; [by rewrite app_nil_r|done]).
Qed.

Lemma takes_qos12 now timer c pool : takes c (poll_publish_qos12 now timer c pool).
Proof.
  unfold poll_publish_qos12. destruct (o_pub_q12_rx c) as [|req rest] eqn:E; [apply takes_keep_alive|].
  destruct (lease_next_pkid pool) as [[[[k|] p]|m]|]; [|apply takes_keep_alive|..];
    try (split; [by rewrite app_nil_r|done]).
  chans. rewrite E. split; [|done]. cbn [map]. destruct req; cbn; solve_Permutation.
Qed.

Lemma takes_publish now timer c pool : takes c (poll_publish now timer c pool).
Proof.
  unfold poll_publish. destruct (o_pub_q0_rx c) as [|req rest] eqn:E; [apply takes_qos12|].
  chans. rewrite E. split; [|done]. cbn [map]. solve_Permutation.
Qed.

Lemma takes_subscription now timer c pool : takes c (poll_subscription now timer c pool).
Proof.
  unfold poll_subscription. destruct (sub_rx c) as [|req rest] eqn:E; [apply takes_publish|].
  destruct (lease_next_pkid pool) as [[[[k|] p]|m]|]; [|apply takes_publish|..];
    try (split; [by rewrite app_nil_r|done]).
  chans. rewrite E. split; [|done]. cbn [map]. solve_Permutation.
Qed.

Lemma takes_ordered now timer c pool :
  takes c match ack_rx c with
    | req :: rest => (Ready (OutgoingPacketRequest.Acknowledgement req), set_ack_rx rest c, pool)
    | [] => match auth_rx c with
      | req :: rest => (Ready (OutgoingPacketRequest.Reauth req), set_auth_rx rest c, pool)
      | [] => match ping_rx c with
        | req :: rest =>
            (Ready (OutgoingPacketRequest.PingReq (Some (ping_notifier req))), set_ping_rx rest c, pool)
        | [] => poll_subscription now timer c pool
        end end end.
Proof.
  destruct (ack_rx c) as [|req rest] eqn:E1.
  - destruct (auth_rx c) as [|req rest] eqn:E2.
    + destruct (ping_rx c) as [|req rest] eqn:E3; [apply takes_subscription|].
      chans. rewrite E1, E2, E3. split; [|done]. cbn [map]. solve_Permutation.
    + chans. rewrite E1, E2. split; [|done]. cbn [map]. solve_Permutation.
  - chans. rewrite E1. split; [|done]. cbn [map]. solve_Permutation.
Qed.

Lemma takes_request now c timer pool : takes c (poll_for_outgoing_request now c timer pool).
Proof.
  unfold poll_for_outgoing_request, poll_disconnect. destruct (disconnect_rx c) as [[|v|]|].
  - apply takes_ordered.
  - split; [by rewrite app_nil_r|done].
  - apply (takes_ordered now timer (set_disconnect_rx None c)).
  - apply takes_ordered.
Qed.

(** Moving an acknowledgement to its turn. *)
Lemma application_insert k a v m :
  im_get k m = Some v ->
  ack_notifier a :: application_notifiers m ≡ₚ
    application_notifiers (snd (im_insert k (AckReady a) m)) ++ pending_notifiers v.
Proof.
  unfold application_notifiers. induction m as [|[k' v'] m IH]; cbn; [done|]. destruct (decide (k = k')).
  - intros [= ->]. cbn. solve_Permutation.
  - intros E. specialize (IH E). destruct (im_insert k (AckReady a) m) as [o m']. cbn in *.
    rewrite Permutation_middle, IH. solve_Permutation.
Qed.

Lemma application_get k v m : im_get k m = Some v -> pending_notifiers v ⊆ application_notifiers m.
Proof.
  unfold application_notifiers. induction m as [|[k' v'] m IH]; cbn; [done|]. destruct (decide (k = k')).
  - intros [= ->] x Hx. apply elem_of_app. by left.
  - intros E x Hx. apply elem_of_app. right. by apply IH.
Qed.

(** The notifiers of acknowledgements on their way. *)
Definition acks (s : Session) : list Notifier :=
  map ack_notifier (ack_rx (ch s)) ++ application_notifiers (in_application s).
Definition outer (s : Session) : list Notifier :=
  channel_notifiers (ch s) ++ application_notifiers (in_application s).

(** What the loop of [next_outgoing_request] does with the notifiers. *)
Definition loop_conserves (s : Session) (res : poll OutgoingPacketRequest.t * Session) : Prop :=
  let '(r, s') := res in
  exists dropped, outer s ≡ₚ outer s' ++ poll_notifiers r ++ dropped /\ dropped ⊆ acks s.

(** A round that discards [lost] and goes on. *)
Lemma loop_conserves_step s s1 lost res :
  outer s ≡ₚ outer s1 ++ lost -> lost ⊆ acks s -> acks s1 ⊆ acks s ->
  loop_conserves s1 res -> loop_conserves s res.
Proof.
  destruct res as [r s']. intros Hs Hl Ha (dropped & Hp & Hd). exists (dropped ++ lost). split.
  - rewrite Hs, Hp. solve_Permutation.
  - set_solver.
Qed.

Lemma poll_round_conserves loop now s :
  (forall s, loop_conserves s (loop s)) -> loop_conserves s (poll_round loop now s).
Proof.
  intros IH. unfold poll_round. pose proof (takes_request now (ch s) (pingreq_timer s) (pkid_pool s)) as Ht.
  destruct (poll_for_outgoing_request _ _ _ _) as [[r c] pool]. destruct Ht as [Hp Ha].
  assert (Hkeep : loop_conserves s (r, set_pool pool (set_ch c s))).
  { exists []. unfold outer, acks. fields. rewrite Hp. split; [solve_Permutation|set_solver]. }
  destruct r as [[req|a|sub k|pub|req|n]| | |]; try exact Hkeep. cbn in Hp, Ha.
  cbv zeta. fields. destruct (route (connection_epoch s) a) as [[pkid|u]|]; [|exact Hkeep|].
  - destruct (im_get pkid (in_application s)) as [v|] eqn:Eg.
    + eapply loop_conserves_step; [| | |apply IH]; unfold outer, acks; fields.
      * instantiate (1 := pending_notifiers v). rewrite Hp, <- app_assoc. cbn [app].
        rewrite (application_insert pkid a v _ Eg). solve_Permutation.
      * pose proof (application_get _ _ _ Eg). set_solver.
      * rewrite Ha. cbn [map]. pose proof (application_insert pkid a v _ Eg) as Hi.
        intros x [Hx|Hx]%elem_of_app; [set_solver|].
        assert (Hx' : x ∈ ack_notifier a :: application_notifiers (in_application s)).
        { rewrite Hi. apply elem_of_app. by left. }
        set_solver.
    + exists [ack_notifier a]. unfold outer, acks. fields. rewrite Hp, Ha. cbn. split; [solve_Permutation|set_solver].
  - eapply loop_conserves_step; [| | |apply IH]; unfold outer, acks; fields.
    + instantiate (1 := [ack_notifier a]). rewrite Hp. solve_Permutation.
    + rewrite Ha. set_solver.
    + rewrite Ha. set_solver.
Qed.

Lemma next_request_loop_conserves fuel now s : loop_conserves s (next_request_loop fuel now s).
Proof.
  revert s. induction fuel as [|fuel IH]; intros s.
  { exists []. split; [by rewrite app_nil_r|set_solver]. }
  rewrite next_request_loop_S. pose proof (poll_round_conserves _ now s IH) as Hpoll.
  destruct (in_application s) as [|[k [|a]] rest] eqn:Ei; [exact Hpoll|exact Hpoll|].
  cbv zeta. destruct (current _ a).
  - exists []. unfold outer, acks. fields. rewrite Ei. cbn. split; [solve_Permutation|set_solver].
  - eapply loop_conserves_step; [| | |apply IH]; unfold outer, acks; fields.
    + instantiate (1 := [ack_notifier a]). rewrite Ei. cbn. solve_Permutation.
    + rewrite Ei. set_solver.
    + rewrite Ei. set_solver.
Qed.

(** Turning a request into a packet resolves its notifier or moves it to the
    operations in flight. *)
Definition packet_conserves (r : OutgoingPacketRequest.t) (s s' : Session) : Prop :=
  exists new lost, events s' = events s ++ new /\
    inflight_notifiers (inflight s) ++ request_notifiers r ≡ₚ
      inflight_notifiers (inflight s') ++ map event_notifier new ++ lost /\
    lost ⊆ option_list (option_map snd (inflight_auth (inflight s))).

Ltac notifiers :=
  unfold inflight_notifiers, session_notifiers, connection_notifiers; fields.

Lemma packet_conserves_one r s s' new :
  events s' = events s ++ new ->
  inflight_notifiers (inflight s) ++ request_notifiers r ≡ₚ
    inflight_notifiers (inflight s') ++ map event_notifier new ->
  packet_conserves r s s'.
Proof.
  intros E Hp. exists new, []. split; [done|]. split; [by rewrite app_nil_r|apply list_subseteq_nil].
Qed.

Lemma values_insert_new {V} k (v : V * Notifier) (m : IndexMap PacketIdentifier (V * Notifier)) :
  k ∉ im_keys m -> (im_values (snd (im_insert k v m))).*2 = (im_values m).*2 ++ [snd v].
Proof. intros Hk. rewrite im_insert_new by done. cbn. unfold im_values. by rewrite map_app, fmap_app. Qed.

Lemma list_insert_notifier (k : PacketIdentifier) n (m : gmap PacketIdentifier Notifier) :
  m !! k = None -> (map_to_list (<[k := n]> m)).*2 ≡ₚ n :: (map_to_list m).*2.
Proof. intros Hk. by rewrite map_to_list_insert. Qed.

Lemma packet_of_request_conserves now r s packet s' :
  packet_of_request now r s = Returns (packet, s') ->
  (forall a, r = OutgoingPacketRequest.Acknowledgement a -> is_puback a) ->
  (forall k, request_pkid (Ready r) = Some k -> k ∉ inflight_pkids (inflight s)) ->
  packet_conserves r s s'.
Proof.
  intros E Ha Hk. destruct r as [req|a|sub k|pub|req|n]; cbn in E.
  - injection E as _ <-. apply (packet_conserves_one _ _ _ []); by rewrite !app_nil_r.
  - specialize (Ha a eq_refl). destruct a as [n p e| | | |]; try done. injection E as _ <-.
    by apply (packet_conserves_one _ _ _ [Complete n CompletedUnit]).
  - specialize (Hk k eq_refl). destruct sub as [n f o q|n f q]; injection E as _ <-;
      apply (packet_conserves_one _ _ _ []); fields; rewrite ?app_nil_r; try done; notifiers.
    + rewrite list_insert_notifier by (by apply subscribe_fresh). cbn. solve_Permutation.
    + rewrite list_insert_notifier by (by apply unsubscribe_fresh). cbn. solve_Permutation.
  - destruct pub as [n t p rt o|n t p rt o k|n t p rt o k]; injection E as _ <-.
    + by apply (packet_conserves_one _ _ _ [Complete n CompletedUnit]).
    + specialize (Hk k eq_refl). apply (packet_conserves_one _ _ _ []); fields; rewrite ?app_nil_r; try done.
      notifiers. unfold inflight_pkids in Hk. rewrite !elem_of_app in Hk.
      rewrite values_insert_new by tauto. cbn. solve_Permutation.
    + specialize (Hk k eq_refl). apply (packet_conserves_one _ _ _ []); fields; rewrite ?app_nil_r; try done.
      notifiers. unfold inflight_pkids in Hk. rewrite !elem_of_app in Hk.
      rewrite values_insert_new by tauto. cbn. solve_Permutation.
  - unfold packet_of_reauth in E. destruct (Auth.authentication _) as [au|]; [|done]. injection E as _ <-.
    exists [], (option_list (option_map snd (inflight_auth (inflight s)))). rewrite app_nil_r.
    split; [done|]. split; [|done]. notifiers. cbn. solve_Permutation.
  - injection E as _ <-. apply (packet_conserves_one _ _ _ []); fields; rewrite ?app_nil_r; try done. notifiers.
    rewrite omap_app. cbn. destruct n; cbn; [solve_Permutation|by rewrite !app_nil_r].
Qed.

(** [next_outgoing_packet]. *)
Lemma next_outgoing_packet_conserves now s ts :
  sys_inv s ts -> is_connected s = true -> conserves s (snd (next_outgoing_packet now s)).
Proof.
  intros Hinv Hc. pose proof Hinv as [(Hwf & _ & Hsub) Hau _ _ _ _ Hacks]. rewrite Hc in Hacks.
  unfold next_outgoing_packet. rewrite Hc. cbn [negb].
  assert (Hreset : forall s1, conserves s s1 -> conserves s (reset_ping_timer now s1)).
  { intros s1. unfold reset_ping_timer. by destruct (pingreq_timer s1). }
  destruct (packets_to_replay (inflight s)) as [|p rest]; [|by apply Hreset, conserves_refl].
  pose proof (next_request_loop_spec (next_request_fuel s) now s ts ltac:(unfold next_request_fuel; lia)
    Hwf Hacks Hau) as Hspec.
  pose proof (next_request_loop_conserves (next_request_fuel s) now s) as Hl. unfold next_outgoing_request.
  destruct (next_request_loop _ now s) as [r s1].
  destruct Hspec as (_ & (Ei & _ & _ & _ & _ & Ev) & [_ Hle] & Hro & _ & _ & _ & Hack).
  destruct Hl as (dropped & Hp & Hd).
  assert (Hdrop : dropped ⊆ discardable s) by (unfold discardable; set_solver).
  assert (Hheld : poll_notifiers r = [] -> conserves s s1).
  { intros Hr. rewrite Hr in Hp. exists [], dropped. rewrite app_nil_r. split; [done|]. split; [|done].
    unfold held, outer in *. rewrite Ei, app_assoc, Hp. solve_Permutation. }
  destruct r as [r| | |]; try (by apply Hheld).
  destruct (packet_of_request now r s1) as [[packet s']|m] eqn:Ep.
  2: { destruct r as [req|[]|[] k|[]|req|n]; cbn in Ep; try done. cbn in Hro. unfold auth_ok in Hro. unfold packet_of_reauth in Ep.
    by destruct (Auth.authentication _). }
  apply Hreset.
  assert (Hpk : packet_conserves r s1 s').
  { apply (packet_of_request_conserves now r s1 packet s' Ep).
    - intros a ->. cbn in Hack. by destruct Hack as (n & q & -> & _).
    - intros k Hk. rewrite Ei. rewrite Hk in Hle. destruct Hle as [Hn _]. auto. }
  destruct (packet_of_request_frame _ _ _ _ _ Ep) as (F1 & F2 & _).
  destruct Hpk as (new & lost & Ev' & Hp' & Hlost). exists new, (dropped ++ lost).
  split; [by rewrite Ev', Ev|]. split; [|unfold discardable; rewrite Ei in Hlost; set_solver].
  unfold held, outer in *. rewrite F1, F2, <- Ei, app_assoc, Hp. rewrite <- !app_assoc.
  cbn [poll_notifiers]. transitivity (channel_notifiers (ch s1) ++ application_notifiers (in_application s1) ++
    dropped ++ (inflight_notifiers (inflight s1) ++ request_notifiers r)); [solve_Permutation|].
  rewrite Hp'. solve_Permutation.
Qed.

(** ** The incoming side and the end of a connection *)

Lemma values_shift_remove {V} k (v : V) n (m m' : IndexMap PacketIdentifier (V * Notifier)) :
  im_shift_remove k m = (Some (v, n), m') -> (im_values m).*2 ≡ₚ n :: (im_values m').*2.
Proof.
  intros E. pose proof (im_shift_remove_spec k m) as Hm. rewrite E in Hm.
  destruct Hm as (m1 & m2 & -> & -> & _). unfold im_values. rewrite ?map_app, ?fmap_app. cbn [map fmap list_fmap snd fst].
  solve_Permutation.
Qed.

Lemma list_delete_notifier {V} k (v : V) (m : gmap PacketIdentifier V) :
  m !! k = Some v -> (map_to_list m).*2 ≡ₚ v :: (map_to_list (delete k m)).*2.
Proof. intros Hk. by rewrite <- (map_to_list_delete m k v Hk). Qed.

(** The table of the operation loses the notifier that completes. *)
Ltac complete_conserves lemma E n v :=
  apply lemma in E; apply (conserves_no_loss _ _ [Complete n v]); [done|];
  unfold held; notifiers; cbn [map event_notifier]; rewrite E; solve_Permutation.

Lemma complete_inflight_conserves op s : conserves s (snd (complete_inflight op s)).
Proof.
  destruct op as [a|a|a|a|a|a]; cbn.
  - destruct (im_shift_remove _ _) as [[[q n]|] m] eqn:E; [|by apply conserves_refl].
    complete_conserves @values_shift_remove E n (CompletedPubAck a).
  - assert (Hrel : forall s1, conserves s s1 -> conserves s (release (Ack.packet_identifier a) s1)) by done.
    destruct (PubRec.is_success _); cbn;
      (destruct (im_shift_remove _ _) as [[[q n]|] m] eqn:E; [|by apply conserves_refl]);
      apply values_shift_remove in E;
      eapply (conserves_no_loss _ _ [Complete n _]); try done;
      unfold held; notifiers; cbn [map event_notifier]; rewrite E; solve_Permutation.
  - destruct (pubrec (inflight s) !! _) as [[q n]|] eqn:E; [|by apply conserves_refl].
    apply list_delete_notifier in E. eapply (conserves_no_loss _ _ [Complete n _]); [done|].
    unfold held. notifiers. cbn [map event_notifier]. rewrite E. cbn [fmap list_fmap snd]. solve_Permutation.
  - destruct (im_shift_remove _ _) as [[[q n]|] m] eqn:E; [|by apply conserves_refl].
    complete_conserves @values_shift_remove E n (CompletedPubComp a).
  - destruct (subscribe (inflight s) !! _) as [n|] eqn:E; [|by apply conserves_refl].
    complete_conserves @list_delete_notifier E n (CompletedSubAck a).
  - destruct (unsubscribe (inflight s) !! _) as [n|] eqn:E; [|by apply conserves_refl].
    complete_conserves @list_delete_notifier E n (CompletedUnsubAck a).
Qed.

Lemma incoming_auth_conserves allow a s : conserves s (snd (incoming_auth allow a s)).
Proof.
  unfold incoming_auth. destruct (inflight_auth (inflight s)) as [[m n]|] eqn:E; [|by apply conserves_refl].
  case_match; [by apply conserves_refl|].
  destruct (Auth.reason_code a); try (by apply conserves_refl);
    (eapply (conserves_no_loss _ _ [Complete n _]); [done|]; unfold held; notifiers; rewrite E; cbn; solve_Permutation).
Qed.

Lemma incoming_pingresp_conserves now s : conserves s (incoming_pingresp now s).
Proof.
  unfold incoming_pingresp. destruct (pingreq (inflight s)) as [|[t [n|]] rest] eqn:E; [by apply conserves_refl|..].
  - eapply (conserves_no_loss _ _ [Complete n _]); [done|]. unfold held. notifiers. rewrite E. cbn. solve_Permutation.
  - apply conserves_refl; [done|]. unfold held. notifiers. by rewrite E.
Qed.

Lemma incoming_publish_conserves p s s' : incoming_publish p s = Returns s' -> conserves s s'.
Proof.
  unfold incoming_publish. intros E.
  destruct (Publish.packet_identifier_dup_qos p) as [|k d|k d]; [by injection E as <-; apply conserves_refl| |done].
  pose proof (im_insert_fst k NotReady (in_application s)) as Hf.
  destruct (im_insert k NotReady (in_application s)) as [r m] eqn:Em. cbn in Hf.
  destruct r; [done|]. injection E as <-. symmetry in Hf. apply im_get_None in Hf.
  rewrite im_insert_new in Em by done. injection Em as <-. apply conserves_refl; [done|].
  unfold held, send_incoming, application_notifiers. fields. rewrite flat_map_app. cbn. by rewrite app_nil_r.
Qed.

Lemma cancel_notifiers ns reason : map event_notifier (map (fun n => Cancel n reason) ns) = ns.
Proof. rewrite map_map. by apply map_id. Qed.

Lemma session_expired_held s :
  exists new, events (session_expired s) = events s ++ new /\
    held s ≡ₚ held (session_expired s) ++ map event_notifier new.
Proof.
  rewrite session_expired_eq. cbv zeta. eexists. split; [done|]. rewrite cancel_notifiers. unfold held.
  notifiers. rewrite map_to_list_empty. cbn. solve_Permutation.
Qed.

Lemma disconnected_conserves s : conserves s (disconnected s).
Proof.
  rewrite disconnected_eq. cbv zeta. eexists _, (application_notifiers (in_application s)).
  split; [done|]. split; [|unfold discardable; set_solver]. rewrite cancel_notifiers. unfold held. notifiers.
  rewrite !map_to_list_empty. cbn. solve_Permutation.
Qed.

(** Ending the session resolves all that is left of it. *)
Lemma conserves_expired s s1 : conserves s s1 -> conserves s (session_expired s1).
Proof.
  intros (new & dropped & Ev & Hp & Hd). destruct (session_expired_held s1) as (new' & Ev' & Hp').
  exists (new ++ new'), dropped. rewrite Ev', Ev, <- app_assoc. split; [done|]. split; [|done].
  rewrite Hp, Hp', map_app. solve_Permutation.
Qed.

Lemma conserves_expire_if_zero s s1 : conserves s s1 -> conserves s (expire_if_zero s1).
Proof.
  intros Hs. unfold expire_if_zero. destruct (expiry_interval s1) as [|[| |]]; try done. by apply conserves_expired.
Qed.

Lemma incoming_connack_conserves allow now connack ka am ex s :
  conserves s (snd (incoming_connack allow now connack ka am ex s)).
Proof.
  unfold incoming_connack. case_match; [by apply conserves_refl|].
  destruct (ConnAck.reason_code connack) as [present|]; [|by apply conserves_refl].
  assert (Hs : conserves s (if negb present then session_expired s else s)).
  { destruct present; [by apply conserves_refl|]. by apply conserves_expired, conserves_refl. }
  destruct (negb present); cbn; by destruct (match ConnAck.server_keep_alive _ with Some _ => _ | None => _ end).
Qed.

(** ** What the application observes *)

Definition resolved (s : Session) : list Notifier := map event_notifier (events s).

(** The result an event gives to the token. *)
Definition event_result (e : Event) : result CompletionError.t PublicCompletion :=
  match e with
  | Complete _ value => Ok (public_completion value)
  | Cancel _ reason => Err (CompletionError.Canceled reason)
  end.

Lemma deliver_other n c es : n ∉ map event_notifier es -> fold_left (deliver n) es c = c.
Proof.
  revert c. induction es as [|e es IH]; intros c Hn; cbn; [done|]. cbn in Hn.
  apply not_elem_of_cons in Hn as [He Hn]. rewrite IH by done.
  destruct e as [n' v|n' r]; cbn in *; by rewrite (proj2 (Nat.eqb_neq n' n)) by done.
Qed.

Lemma await_held n es : n ∉ map event_notifier es -> await_token n true es = Pending.
Proof. intros Hn. unfold await_token. by rewrite deliver_other. Qed.

Lemma await_dropped n es :
  n ∉ map event_notifier es -> await_token n false es = Ready (Err CompletionError.Detached).
Proof. intros Hn. unfold await_token. by rewrite deliver_other. Qed.

Lemma await_resolved e es :
  e ∈ es -> NoDup (map event_notifier es) -> await_token (event_notifier e) false es = Ready (event_result e).
Proof.
  intros (l1 & l2 & ->)%list_elem_of_split Hnd. unfold await_token. rewrite fold_left_app. cbn [fold_left].
  rewrite map_app in Hnd. cbn in Hnd. apply NoDup_app in Hnd as (_ & H1 & H2). apply NoDup_cons in H2 as [H2 _].
  rewrite (deliver_other _ CompletionEmpty l1), deliver_other; [|done|].
  - destruct e as [n v|n r]; cbn; by rewrite Nat.eqb_refl.
  - intros Hin. apply (H1 _ Hin). apply elem_of_cons. by left.
Qed.

(** Every accepted operation that the session [s] holds is, in [s'], still held
    and its token waits; or it was resolved, once, and its token returns that
    result; or it was an acknowledgement or a reauthentication that was
    discarded, whose token returns [Detached]. No notifier is in two places. *)
Definition settles_once (s s' : Session) : Prop :=
  NoDup (held s ++ resolved s) ->
  NoDup (held s' ++ resolved s') /\
  forall n, n ∈ held s ->
    (n ∈ held s' /\ await_token n true (events s') = Pending) \/
    (exists e, e ∈ events s' /\ event_notifier e = n /\ (n ∉ held s') /\
      await_token n false (events s') = Ready (event_result e)) \/
    (n ∈ discardable s /\ (n ∉ held s') /\
      await_token n false (events s') = Ready (Err CompletionError.Detached)).

Lemma conserves_settles s s' : conserves s s' -> settles_once s s'.
Proof.
  intros (new & dropped & Ev & Hp & Hd) Hnd.
  assert (Hperm : (held s' ++ resolved s') ++ dropped ≡ₚ held s ++ resolved s).
  { unfold resolved. rewrite Ev, map_app, Hp. solve_Permutation. }
  rewrite <- Hperm in Hnd. apply NoDup_app in Hnd as (Hnd & Hdisj & _). split; [done|].
  intros n Hn. rewrite Hp, !elem_of_app in Hn.
  pose proof Hnd as (_ & Hres & Hnd')%NoDup_app.
  destruct Hn as [Hn|[Hn|Hn]].
  - left. split; [done|]. by apply await_held, Hres.
  - right. left. apply list_elem_of_fmap in Hn as (e & -> & He). exists e.
    assert (Hin : e ∈ events s') by (rewrite Ev; apply elem_of_app; by right).
    split; [done|]. split; [done|]. split; [|by apply await_resolved].
    intros Hh. apply (Hres _ Hh). unfold resolved. apply list_elem_of_fmap. eauto.
  - right. right. split; [by apply Hd|].
    assert (Hno : n ∉ held s' ++ resolved s') by (intros Hin; by apply (Hdisj n Hin)).
    rewrite not_elem_of_app in Hno. destruct Hno as [Hh Hr]. split; [done|]. by apply await_dropped.
Qed.

(** C18: every operation is resolved once. Whatever the session does (sending,
    receiving an acknowledgement, an AUTH, a PUBLISH or a PINGRESP, losing the
    connection or beginning a new one), an operation it has accepted is
    afterwards either still held, or has been resolved by exactly one event,
    whose result is what the completion token returns, with the packets of the
    codec converted to those of the public API. Publishes, subscriptions,
    unsubscriptions and pings are never lost. Only acknowledgements and
    reauthentications can be discarded, when a connection ends, when they come
    from an earlier connection or when a second reauthentication begins; their
    tokens then return [Detached]. *)
Theorem operations_resolve_once allow now s ts :
  reachable allow s ts ->
  (is_connected s = true -> settles_once s (snd (next_outgoing_packet now s))) /\
  (forall op, settles_once s (snd (complete_inflight op s))) /\
  (forall a, settles_once s (snd (incoming_auth allow a s))) /\
  (forall p s', incoming_publish p s = Returns s' -> settles_once s s') /\
  settles_once s (incoming_pingresp now s) /\
  (forall d, settles_once s (client_disconnect d s)) /\
  (forall d, settles_once s (server_disconnect d s)) /\
  settles_once s (transport_disconnect s) /\
  (forall connack ka am ex, settles_once s (snd (incoming_connack allow now connack ka am ex s))).
Proof.
  intros Hr. apply reachable_inv in Hr. split_and!; intros; apply conserves_settles.
  - by apply (next_outgoing_packet_conserves now s ts).
  - apply complete_inflight_conserves.
  - apply incoming_auth_conserves.
  - by eapply incoming_publish_conserves.
  - apply incoming_pingresp_conserves.
  - unfold client_disconnect. apply conserves_expire_if_zero. pose proof (disconnected_conserves s).
    by destruct (Disconnect.session_expiry_interval _).
  - apply conserves_expire_if_zero, disconnected_conserves.
  - apply conserves_expire_if_zero, disconnected_conserves.
  - apply incoming_connack_conserves.
Qed.

(** A session with a publish in flight and two PUBACKs of the application on
    their way sends the first of them. *)
Lemma operations_resolve_once_witness :
  NoDup (held run_acked ++ resolved run_acked) /\
  NoDup (held (run_send run_acked) ++ resolved (run_send run_acked)) /\
  await_token 4%nat false (events (run_send run_acked)) = Ready (Ok PublicUnit).
Proof.
  assert (Hnd : NoDup (held run_acked ++ resolved run_acked)).
  { apply (bool_decide_unpack _). vm_compute. exact I. }
  destruct (operations_resolve_once false 0 run_acked [] run_acked_reachable) as (H & _).
  destruct (H eq_refl Hnd) as [Hnd' _]. split; [exact Hnd|]. split; [exact Hnd'|]. vm_compute. reflexivity.
Defined.
