(* ===== verification/Client.v ===== *)
(** * The client

    client.rs: the operations of [Client], the handles that connect and
    disconnect, and the loop that drives a connection.

    The session owns the receiving ends of all channels; a [Link] is what the
    handles of the application share with it. Futures are polled: a function that
    waits takes the times at which it is polled, and what other tasks do between
    two polls is not part of it. The reader is an instance of [PacketSource],
    which the network makes ready; the writer is [Writer] of Writer.v. *)

From S2P Require Export Tokens Writer.
Local Open Scope Z_scope.

(** ** Configuration *)

Module KeepAliveConfig.
(** [enum KeepAliveConfig]; the timeout is in milliseconds. *)
Inductive t : Set :=
  | Infinite
  | Duration (ping_after : u16) (response_timeout : Z).

(** [impl From<KeepAliveConfig> for KeepAlive]. *)
Definition into (value : t) : KeepAlive.t :=
  match value with
  | Infinite => KeepAlive.Infinite
  | Duration ping_after _ => KeepAlive.Duration ping_after
  end.

(** The [match] that gives [cfg_pingresp_timeout]. *)
Definition pingresp_timeout (value : t) : option Z :=
  match value with Duration _ response_timeout => Some response_timeout | Infinite => None end.
End KeepAliveConfig.

(** [struct ClientOptions] and [impl Default]. *)
Record ClientOptions : Set := mkClientOptions {
  client_id : option str;
  max_packet_identifier : PacketIdentifier;
  publish_qos0_queue_size : nat;
  publish_qos1_qos2_queue_size : nat;
}.

Definition ClientOptions_default : ClientOptions :=
  mkClientOptions None PacketIdentifier_MAX 100 100.

(** [struct ConnectHandle]; the pools are the buffers of the reader and writer. *)
Record ConnectHandle : Type := mkConnectHandle {
  handle_session : Session;
  cfg_client_id : option str;
}.

Definition empty_channels : Channels := mkChannels None [] [] [] [] [] [] [].

(** [new_client]: the channels are created empty, and the session is on them. *)
Definition new_client (options : ClientOptions) : ConnectHandle :=
  mkConnectHandle (Session_new empty_channels (max_packet_identifier options)) (client_id options).

(** ** [Client] *)

Section client_operations.
Context (options : ClientOptions).

(** [Client::publish_qos0]. *)
Definition Client_publish_qos0 (topic_name : TopicName) (payload : list u8) (retain : bool)
    (properties : PublishProperties.t) (l : Link) : poll (result DetachedError Notifier) * Link :=
  let '(notifier, l) := completion_pair l in
  match TopicName_into topic_name with
  | Panics m => (Panicked m, l)
  | Returns topic_name =>
      match PublishProperties.into properties with
      | Panics m => (Panicked m, l)
      | Returns properties =>
          let '(r, l) := send o_pub_q0_rx set_q0_rx (Some (publish_qos0_queue_size options))
            (mkPublishRequestQoS0 notifier topic_name payload retain properties) l in
          (token_of notifier r, l)
      end
  end.

(** [Client::publish_qos1]. *)
Definition Client_publish_qos1 (topic_name : TopicName) (payload : list u8) (retain : bool)
    (properties : PublishProperties.t) (l : Link) : poll (result DetachedError Notifier) * Link :=
  let '(notifier, l) := completion_pair l in
  match TopicName_into topic_name with
  | Panics m => (Panicked m, l)
  | Returns topic_name =>
      match PublishProperties.into properties with
      | Panics m => (Panicked m, l)
      | Returns properties =>
          let '(r, l) := send o_pub_q12_rx set_q12_rx (Some (publish_qos1_qos2_queue_size options))
            (PublishRequestQoS1QoS2.PublishQoS1 notifier topic_name payload retain properties) l in
          (token_of notifier r, l)
      end
  end.

(** [Client::publish_qos2]. *)
Definition Client_publish_qos2 (topic_name : TopicName) (payload : list u8) (retain : bool)
    (properties : PublishProperties.t) (l : Link) : poll (result DetachedError Notifier) * Link :=
  (Panicked "not implemented", l).

(** [Client::subscribe]. *)
Definition Client_subscribe (topic_filter : TopicFilter) (max_qos : packet_QoS.t) (no_local : bool)
    (retain_options : RetainOptions.t) (properties : SubscribeProperties.t) (l : Link) :
    poll (result DetachedError Notifier) * Link :=
  match max_qos with
  | packet_QoS.ExactlyOnce => (Panicked "not implemented: QoS 2 subscriptions are not yet supported", l)
  | _ =>
      let '(notifier, l) := completion_pair l in
      let options := SubscribeOptions.mk (packet_QoS.into max_qos)
        (SubscribeOptions.mkOther no_local (RetainOptions.retain_as_published retain_options)
          (RetainOptions.retain_handling retain_options)) in
      match TopicFilter_into topic_filter with
      | Panics m => (Panicked m, l)
      | Returns topic_filter =>
          match SubscribeProperties.into properties with
          | Panics m => (Panicked m, l)
          | Returns properties =>
              let '(r, l) := send sub_rx set_sub_rx (Some 1%nat)
                (SubscriptionRequest.Subscribe notifier topic_filter options properties) l in
              (token_of notifier r, l)
          end
      end
  end.

(** [Client::unsubscribe]. *)
Definition Client_unsubscribe (topic_filter : TopicFilter) (properties : UnsubscribeProperties.t) (l : Link) :
    poll (result DetachedError Notifier) * Link :=
  let '(notifier, l) := completion_pair l in
  match TopicFilter_into topic_filter with
  | Panics m => (Panicked m, l)
  | Returns topic_filter =>
      match UnsubscribeProperties.into properties with
      | Panics m => (Panicked m, l)
      | Returns properties =>
          let '(r, l) := send sub_rx set_sub_rx (Some 1%nat)
            (SubscriptionRequest.Unsubscribe notifier topic_filter properties) l in
          (token_of notifier r, l)
      end
  end.

(** [Client::ping]. *)
Definition Client_ping (l : Link) : poll (result DetachedError Notifier) * Link :=
  let '(notifier, l) := completion_pair l in
  let '(r, l) := send ping_rx set_ping_rx (Some 1%nat) (mkPingRequest notifier) l in
  (token_of notifier r, l).
End client_operations.

(** ** [Receiver] *)

Module ManualAcknowledgement.
Inductive t : Type :=
  | QoS0
  | QoS1 (token : buffered_PubAckToken.t)
  | QoS2 (token : PubRecToken).
End ManualAcknowledgement.

(** [impl From<IncomingPublishAndToken> for (Publish, ManualAcknowledgement)]. *)
Definition received_publish (inner : IncomingPublishAndToken.t) :
    packet_Publish.t * ManualAcknowledgement.t :=
  match inner with
  | IncomingPublishAndToken.QoS0 publish => (packet_Publish.from publish, ManualAcknowledgement.QoS0)
  | IncomingPublishAndToken.QoS1 publish token =>
      (packet_Publish.from publish, ManualAcknowledgement.QoS1
        (buffered_PubAckToken.new (token_pkid token) (token_epoch token)))
  | IncomingPublishAndToken.QoS2 publish token =>
      (packet_Publish.from publish, ManualAcknowledgement.QoS2 token)
  end.

(** [Receiver::recv]; [None] when the session is gone and nothing is queued. *)
Definition recv (l : Link) : poll (option (packet_Publish.t * ManualAcknowledgement.t)) * Link :=
  let c := link_ch l in
  match i_pub_tx c with
  | inner :: rest =>
      (Ready (Some (received_publish inner)),
       mkLink (mkChannels (disconnect_rx c) (o_pub_q0_rx c) (o_pub_q12_rx c) (sub_rx c) (ack_rx c)
         (auth_rx c) (ping_rx c) rest) (link_alive l) (link_next l))
  | [] => if link_alive l then (Pending, l) else (Ready None, l)
  end.

(** ** Errors *)

(** [enum InnerConnectionError]. *)
Inductive InnerConnectionError : Set :=
  | Io (e : IoError)
  | Protocol (e : ProtocolError).

(** [enum ConnectError] of error.rs. *)
Module ConnectError.
Inductive t : Set :=
  | Protocol (e : ProtocolError)
  | Io (e : IoError)
  | Rejected (connack : packet_ConnAck.t)
  | ResponseTimeout.

(** [impl From<InnerConnectionError> for ConnectError]. *)
Definition from (err : InnerConnectionError) : t :=
  match err with
  | Client.Io err => Io err
  | Client.Protocol err => Protocol err
  end.
End ConnectError.

(** The errors of [mqtt_receive], as [InnerConnectionError]. *)
Definition receive_error (e : ReceiveError) : InnerConnectionError :=
  match e with
  | ReceiveIo e => Io e
  | ReceiveProtocol e => Protocol (MalformedPacket e)
  end.

(** ** The two sides of the network *)

(** [mqtt_receive] polled at a time; an unfinished packet stays in the reader. *)
Class PacketSource (Rd : Type) := {
  receive : Z -> Rd -> poll (result InnerConnectionError Packet.t) * Rd;
}.

(** A reader on a stream whose bytes are always there. *)
#[export] Instance Reader_source {St Ow} `{ReadableStream St} `{Owned Ow} `{Unicode} :
  PacketSource (Reader St Ow) := {|
  receive _ reader :=
    match mqtt_receive reader with
    | None => (OutOfFuel, reader)
    | Some (reader, r) => (Ready (map_err receive_error r), reader)
    end;
|}.

(** What arrives, and when. *)
Record Script : Type := mkScript { script : list (Z * result InnerConnectionError Packet.t) }.

#[export] Instance Script_source : PacketSource Script := {|
  receive now r :=
    match script r with
    | (at_, packet) :: rest => if at_ <=? now then (Ready packet, mkScript rest) else (Pending, r)
    | [] => (Pending, r)
    end;
|}.

Section network.
Context {Rd St B : Type} `{PacketSource Rd} `{WritableStream St} `{LawfulAccumulator B} `{Unicode}.
Context (allow_omitted_auth_method : bool).

(** [maybe_timeout(timeout, mqtt_receive(reader))], polled at the times [polls];
    the future is polled before the timer. [None] is [Elapsed]; a packet comes
    with the time at which it was received. *)
Fixpoint maybe_timeout (deadline : option Z) (polls : list Z) (reader : Rd) :
    poll (option (Z * result InnerConnectionError Packet.t)) * Rd :=
  match polls with
  | [] => (Pending, reader)
  | now :: polls =>
      match receive now reader with
      | (Ready r, reader) => (Ready (Some (now, r)), reader)
      | (Panicked m, reader) => (Panicked m, reader)
      | (OutOfFuel, reader) => (OutOfFuel, reader)
      | (Pending, reader) =>
          if match deadline with Some d => d <=? now | None => false end then (Ready None, reader)
          else maybe_timeout deadline polls reader
      end
  end.

(** Calls of the writer, with enough fuel for what it holds
    ([writer_write_appends] and [writer_flush_all]). *)
Definition writer_result (w : Writer St B) (r : option (Writer St B * outcome (result IoError ()))) :
    poll (result IoError ()) * Writer St B :=
  match r with
  | Some (w, Returns r) => (Ready r, w)
  | Some (w, Panics m) => (Panicked m, w)
  | None => (OutOfFuel, w)
  end.
Definition writer_fuel (w : Writer St B) : nat := S (length (view (writer_buf w))).
Definition write (packet : Packet.t) (w : Writer St B) : poll (result IoError ()) * Writer St B :=
  writer_result w (Writer_write (writer_fuel w) packet V5 w).
Definition flush (w : Writer St B) : poll (result IoError ()) * Writer St B :=
  writer_result w (Writer_flush (writer_fuel w) w).

(** [writer.write(&packet).await?; writer.flush().await?;] *)
Definition write_and_flush (packet : Packet.t) (w : Writer St B) : poll (result IoError ()) * Writer St B :=
  match write packet w with
  | (Ready (Ok _), w) => flush w
  | (r, w) => (r, w)
  end.

(** The CONNECT packet of [mqtt_connect]. *)
Definition connect_packet (cfg_client_id : option str) (clean_start : bool) (keep_alive : KeepAlive.t)
    (will : option Will.t) (username : option str) (password : option (list u8))
    (properties : ConnectProperties.t) (authentication_info : option AuthenticationInfo.t) :
    outcome Packet.t :=
  let! o := ConnectProperties.into properties in
  let! authentication := opt_into AuthenticationInfo.into authentication_info in
  let properties := Connect.mkOther (Connect.session_expiry_interval o) (Connect.receive_maximum o)
    (Connect.maximum_packet_size o) (Connect.topic_alias_maximum o)
    (Connect.request_response_information o) (Connect.request_problem_information o)
    (Connect.user_properties o) authentication in
  let! username := opt_into ByteStr_from username in
  let! password := opt_into BinaryData_from password in
  let! will := opt_into Will.into will in
  let! client_id := opt_into ByteStr_from cfg_client_id in
  Returns (Packet.Connect (Connect.mk username password will client_id clean_start keep_alive properties)).

(** [ConnectHandle::mqtt_connect]. *)
Definition mqtt_connect (h : ConnectHandle) (writer : Writer St B) (clean_start : bool)
    (keep_alive : KeepAlive.t) (will : option Will.t) (username : option str)
    (password : option (list u8)) (properties : ConnectProperties.t)
    (authentication_info : option AuthenticationInfo.t) : poll (result IoError ()) * Writer St B :=
  match connect_packet (cfg_client_id h) clean_start keep_alive will username password properties
    authentication_info with
  | Panics m => (Panicked m, writer)
  | Returns connect => write_and_flush connect writer
  end.

(** ** Handles and results *)

(** [struct Connection]. *)
Record Connection : Type := mkConnection {
  session : Session;
  reader : Rd;
  writer : Writer St B;
  conn_client_id : option str;
  cfg_pingresp_timeout : option Z;
}.

(** [struct EnhancedAuthHandle]. *)
Record EnhancedAuthHandle : Type := mkEnhancedAuthHandle {
  auth_session : Session;
  auth_reader : Rd;
  auth_writer : Writer St B;
  auth_method : str;
  auth_client_id : option str;
  cfg_keep_alive : KeepAliveConfig.t;
  cfg_session_expiry_interval : SessionExpiryInterval.t;
}.

(** [DisconnectHandle], by the epoch of its connection: the receiving end of an
    earlier one was dropped when [disconnect_rx] was replaced. *)
Record DisconnectHandle : Set := mkDisconnectHandle { disconnect_epoch : u64 }.

(** [struct ReauthHandle]. *)
Record ReauthHandle : Set := mkReauthHandle { reauth_method : str }.

Inductive ConnectResult : Type :=
  | ConnectSuccess (c : Connection) (connack : packet_ConnAck.t) (h : DisconnectHandle)
  | ConnectFailure (h : ConnectHandle) (e : ConnectError.t).

Inductive ConnectEnhancedAuthResult : Type :=
  | AuthContinue (auth : packet_Auth.t) (h : EnhancedAuthHandle)
  | AuthSuccess (c : Connection) (connack : packet_ConnAck.t) (h : DisconnectHandle) (r : ReauthHandle)
  | AuthFailure (h : ConnectHandle) (e : ConnectError.t).

(** [let (disconnect_tx, disconnect_rx) = oneshot::channel();
     self.session.ch.disconnect_rx = Some(disconnect_rx);] *)
Definition open_disconnect (s : Session) : Session :=
  set_ch (set_disconnect_rx (Some OneshotWaiting) (ch s)) s.

(** ** Connecting *)

(** [ConnectHandle::connect] on the result of [transport_connect], at the time
    [now]; the response is polled at the times [polls]. *)
Definition connect (h : ConnectHandle) (now : Z) (polls : list Z)
    (transport : result IoError (Rd * Writer St B)) (clean_start : bool) (keep_alive : KeepAliveConfig.t)
    (will : option Will.t) (username : option str) (password : option (list u8))
    (properties : ConnectProperties.t) (response_timeout : option Z) : poll ConnectResult :=
  match transport with
  | Err err => Ready (ConnectFailure h (ConnectError.Io err))
  | Ok (reader, writer) =>
      let session_expiry_interval := ConnectProperties.session_expiry_interval properties in
      match mqtt_connect h writer clean_start (KeepAliveConfig.into keep_alive) will username password
        properties None with
      | (Ready (Err err), _) => Ready (ConnectFailure h (ConnectError.Io err))
      | (Pending, _) => Pending
      | (Panicked m, _) => Panicked m
      | (OutOfFuel, _) => OutOfFuel
      | (Ready (Ok _), writer) =>
          match maybe_timeout (option_map (Z.add now) response_timeout) polls reader with
          | (Pending, _) => Pending
          | (Panicked m, _) => Panicked m
          | (OutOfFuel, _) => OutOfFuel
          | (Ready None, _) => Ready (ConnectFailure h ConnectError.ResponseTimeout)
          | (Ready (Some (_, Err err)), _) => Ready (ConnectFailure h (ConnectError.from err))
          | (Ready (Some (now, Ok (Packet.ConnAck connack))), reader) =>
              let '(r, s) := incoming_connack allow_omitted_auth_method now connack
                (KeepAliveConfig.into keep_alive) None session_expiry_interval (handle_session h) in
              let h := mkConnectHandle s (cfg_client_id h) in
              match r with
              | Err err => Ready (ConnectFailure h (ConnectError.Protocol err))
              | Ok _ =>
                  if negb (connack_success connack) then
                    Ready (ConnectFailure h (ConnectError.Rejected (packet_ConnAck.from connack)))
                  else
                    Ready (ConnectSuccess
                      (mkConnection (open_disconnect s) reader writer (cfg_client_id h)
                        (KeepAliveConfig.pingresp_timeout keep_alive))
                      (packet_ConnAck.from connack) (mkDisconnectHandle (connection_epoch s)))
              end
          | (Ready (Some (_, Ok _)), _) =>
              Ready (ConnectFailure h (ConnectError.Protocol UnexpectedPacket))
          end
      end
  end.

(** [EnhancedAuthHandle::into_connect_handle]. *)
Definition into_connect_handle (h : EnhancedAuthHandle) : ConnectHandle :=
  mkConnectHandle (auth_session h) (auth_client_id h).

Definition set_auth_io (s : Session) (reader : Rd) (writer : Writer St B) (h : EnhancedAuthHandle) :
    EnhancedAuthHandle :=
  mkEnhancedAuthHandle s reader writer (auth_method h) (auth_client_id h) (cfg_keep_alive h)
    (cfg_session_expiry_interval h).

(** The [match packet] of [receive_response]. *)
Definition handle_response (now : Z) (packet : Packet.t) (h : EnhancedAuthHandle) :
    ConnectEnhancedAuthResult :=
  match packet with
  | Packet.ConnAck connack =>
      let '(r, s) := incoming_connack allow_omitted_auth_method now connack
        (KeepAliveConfig.into (cfg_keep_alive h)) (Some (auth_method h)) (cfg_session_expiry_interval h)
        (auth_session h) in
      let h := set_auth_io s (auth_reader h) (auth_writer h) h in
      match r with
      | Err err => AuthFailure (into_connect_handle h) (ConnectError.Protocol err)
      | Ok _ =>
          if connack_success connack then
            AuthSuccess
              (mkConnection (open_disconnect s) (auth_reader h) (auth_writer h) (auth_client_id h)
                (KeepAliveConfig.pingresp_timeout (cfg_keep_alive h)))
              (packet_ConnAck.from connack) (mkDisconnectHandle (connection_epoch s))
              (mkReauthHandle (auth_method h))
          else AuthFailure (into_connect_handle h) (ConnectError.Rejected (packet_ConnAck.from connack))
      end
  | Packet.Auth auth =>
      if authentication_method_matches (Auth.authentication auth) (Some (auth_method h)) then
        AuthContinue (packet_Auth.from auth) h
      else AuthFailure (into_connect_handle h) (ConnectError.Protocol AuthenticationMethodMismatch)
  | _ => AuthFailure (into_connect_handle h) (ConnectError.Protocol UnexpectedPacket)
  end.

(** [EnhancedAuthHandle::receive_response]. *)
Definition receive_response (now : Z) (polls : list Z) (response_timeout : option Z)
    (h : EnhancedAuthHandle) : poll ConnectEnhancedAuthResult :=
  match maybe_timeout (option_map (Z.add now) response_timeout) polls (auth_reader h) with
  | (Pending, _) => Pending
  | (Panicked m, _) => Panicked m
  | (OutOfFuel, _) => OutOfFuel
  | (Ready None, _) => Ready (AuthFailure (into_connect_handle h) ConnectError.ResponseTimeout)
  | (Ready (Some (_, Err err)), _) => Ready (AuthFailure (into_connect_handle h) (ConnectError.from err))
  | (Ready (Some (now, Ok packet)), reader) =>
      Ready (handle_response now packet (set_auth_io (auth_session h) reader (auth_writer h) h))
  end.

(** [ConnectHandle::connect_enhanced_auth], on the result of [transport_connect]. *)
Definition connect_enhanced_auth (h : ConnectHandle) (now : Z) (polls : list Z)
    (transport : result IoError (Rd * Writer St B)) (clean_start : bool) (keep_alive : KeepAliveConfig.t)
    (will : option Will.t) (username : option str) (password : option (list u8))
    (properties : ConnectProperties.t) (authentication_info : AuthenticationInfo.t)
    (response_timeout : option Z) : poll ConnectEnhancedAuthResult :=
  match transport with
  | Err err => Ready (AuthFailure h (ConnectError.Io err))
  | Ok (reader, writer) =>
      match mqtt_connect h writer clean_start (KeepAliveConfig.into keep_alive) will username password
        properties (Some authentication_info) with
      | (Ready (Err err), _) => Ready (AuthFailure h (ConnectError.Io err))
      | (Pending, _) => Pending
      | (Panicked m, _) => Panicked m
      | (OutOfFuel, _) => OutOfFuel
      | (Ready (Ok _), writer) =>
          receive_response now polls response_timeout
            (mkEnhancedAuthHandle (handle_session h) reader writer
              (AuthenticationInfo.method authentication_info) (cfg_client_id h) keep_alive
              (ConnectProperties.session_expiry_interval properties))
      end
  end.

(** [EnhancedAuthHandle::continue_auth]. *)
Definition continue_auth (h : EnhancedAuthHandle) (now : Z) (polls : list Z)
    (authentication_data : option (list u8)) (properties : AuthProperties.t)
    (response_timeout : option Z) : poll ConnectEnhancedAuthResult :=
  match packet_Auth.into (packet_Auth.mk AuthReason.ContinueAuthentication
    (Some (AuthenticationInfo.mk (auth_method h) authentication_data)) properties) with
  | Panics m => Panicked m
  | Returns auth =>
      match write_and_flush (Packet.Auth auth) (auth_writer h) with
      | (Ready (Err err), _) => Ready (AuthFailure (into_connect_handle h) (ConnectError.Io err))
      | (Pending, _) => Pending
      | (Panicked m, _) => Panicked m
      | (OutOfFuel, _) => OutOfFuel
      | (Ready (Ok _), writer) =>
          receive_response now polls response_timeout
            (set_auth_io (auth_session h) (auth_reader h) writer h)
      end
  end.

(** ** Driving a connection *)

(** [enum InnerDisconnect]. *)
Inductive InnerDisconnect : Type :=
  | Application (disconnect : Disconnect.t)
  | Server (disconnect : Disconnect.t)
  | PingTimeout.

(** Where [run_until_disconnect_inner] is between two polls: at the [select] of
    the outer loop, in the inner loop with a packet to write, or at the flush
    after it. *)
Inductive Phase : Type :=
  | Selecting
  | Writing (packet : Packet.t)
  | Flushing.

(** The local variables of the loop. *)
Record Driver : Type := mkDriver {
  connection : Connection;
  pingresp_timer : option Timer;
  phase : Phase;
}.

(** One step: go on, wait to be polled again, or return. *)
Inductive Drive : Type :=
  | Go (d : Driver)
  | Wait (d : Driver)
  | Done (r : result InnerConnectionError InnerDisconnect) (c : Connection)
  | Crash (msg : string)
  | Stuck.

Definition with_session (s : Session) (c : Connection) : Connection :=
  mkConnection s (reader c) (writer c) (conn_client_id c) (cfg_pingresp_timeout c).
Definition with_reader (r : Rd) (c : Connection) : Connection :=
  mkConnection (session c) r (writer c) (conn_client_id c) (cfg_pingresp_timeout c).
Definition with_writer (w : Writer St B) (c : Connection) : Connection :=
  mkConnection (session c) (reader c) w (conn_client_id c) (cfg_pingresp_timeout c).

(** The result of a handler, with [?]. *)
Definition handled (r : result ProtocolError () * Session) (timer : option Timer) (c : Connection) : Drive :=
  match r with
  | (Ok _, s) => Go (mkDriver (with_session s c) timer Selecting)
  | (Err e, s) => Done (Err (Protocol e)) (with_session s c)
  end.

(** The [match packet] on an incoming packet. *)
Definition handle_packet (now : Z) (packet : Packet.t) (timer : option Timer) (c : Connection) : Drive :=
  match packet with
  | Packet.Auth auth => handled (incoming_auth allow_omitted_auth_method auth (session c)) timer c
  | Packet.SubAck suback =>
      handled (complete_inflight (CompletedOperation.Subscribe suback) (session c)) timer c
  | Packet.UnsubAck unsuback =>
      handled (complete_inflight (CompletedOperation.Unsubscribe unsuback) (session c)) timer c
  | Packet.PubAck puback =>
      handled (complete_inflight (CompletedOperation.PublishQoS1 puback) (session c)) timer c
  | Packet.PubRec pubrec =>
      handled (complete_inflight (CompletedOperation.PublishQoS2 pubrec) (session c)) timer c
  | Packet.Disconnect disconnect => Done (Ok (Server disconnect)) c
  | Packet.Publish publish =>
      match incoming_publish publish (session c) with
      | Returns s => Go (mkDriver (with_session s c) timer Selecting)
      | Panics m => Crash m
      end
  | Packet.PingResp _ =>
      Go (mkDriver (with_session (incoming_pingresp now (session c)) c) None Selecting)
  | _ => Done (Err (Protocol UnexpectedPacket)) c
  end.

(** The [select] of the outgoing and the incoming side under the timeout of the
    PINGRESP timer. *)
Definition drive_select (now : Z) (timer : option Timer) (c : Connection) : Drive :=
  match next_outgoing_packet now (session c) with
  | (Ready packet, s) => Go (mkDriver (with_session s c) timer (Writing packet))
  | (Panicked m, _) => Crash m
  | (OutOfFuel, _) => Stuck
  | (Pending, s) =>
      let c := with_session s c in
      match receive now (reader c) with
      | (Ready (Ok packet), r) => handle_packet now packet timer (with_reader r c)
      | (Ready (Err err), r) => Done (Err err) (with_reader r c)
      | (Panicked m, _) => Crash m
      | (OutOfFuel, _) => Stuck
      | (Pending, r) =>
          let c := with_reader r c in
          if match timer with Some t => Timer_remaining_duration now t =? 0 | None => false end
          then Done (Ok PingTimeout) c
          else Wait (mkDriver c timer Selecting)
      end
  end.

(** [if let Packet::PingReq(_) = &packet && let Some(timeout) = self.cfg_pingresp_timeout] *)
Definition arm_timer (now : Z) (packet : Packet.t) (c : Connection) (timer : option Timer) : option Timer :=
  match packet, cfg_pingresp_timeout c with
  | Packet.PingReq _, Some timeout => Some (Timer_new now timeout)
  | _, _ => timer
  end.

(** The body of the inner loop. *)
Definition drive_write (now : Z) (packet : Packet.t) (timer : option Timer) (c : Connection) : Drive :=
  let timer := arm_timer now packet c timer in
  match write packet (writer c) with
  | (Ready (Err e), w) => Done (Err (Io e)) (with_writer w c)
  | (Pending, w) => Wait (mkDriver (with_writer w c) timer (Writing packet))
  | (Panicked m, _) => Crash m
  | (OutOfFuel, _) => Stuck
  | (Ready (Ok _), w) =>
      let c := with_writer w c in
      match packet with
      | Packet.Disconnect disconnect =>
          match flush (writer c) with
          | (Ready (Ok _), w) => Done (Ok (Application disconnect)) (with_writer w c)
          | (Ready (Err e), w) => Done (Err (Io e)) (with_writer w c)
          | (Panicked m, _) => Crash m
          | (_, _) => Stuck
          end
      | _ =>
          match next_outgoing_packet now (session c) with
          | (Ready packet, s) => Go (mkDriver (with_session s c) timer (Writing packet))
          | (Pending, s) => Go (mkDriver (with_session s c) timer Flushing)
          | (Panicked m, _) => Crash m
          | (OutOfFuel, _) => Stuck
          end
      end
  end.

Definition drive_flush (timer : option Timer) (c : Connection) : Drive :=
  match flush (writer c) with
  | (Ready (Ok _), w) => Go (mkDriver (with_writer w c) timer Selecting)
  | (Ready (Err e), w) => Done (Err (Io e)) (with_writer w c)
  | (Panicked m, _) => Crash m
  | (_, _) => Stuck
  end.

(** One step of [run_until_disconnect_inner]. *)
Definition drive (now : Z) (d : Driver) : Drive :=
  match phase d with
  | Selecting => drive_select now (pingresp_timer d) (connection d)
  | Writing packet => drive_write now packet (pingresp_timer d) (connection d)
  | Flushing => drive_flush (pingresp_timer d) (connection d)
  end.

(** [enum DisconnectedEvent]. *)
Inductive DisconnectedEvent : Type :=
  | ApplicationDisconnect
  | ServerDisconnect (disconnect : packet_Disconnect.t)
  | DisconnectedIoError (e : IoError)
  | DisconnectedProtocolError (e : ProtocolError)
  | DisconnectedPingTimeout.

(** The [match] of [run_until_disconnect] on how the loop ended. *)
Definition finish (r : result InnerConnectionError InnerDisconnect) (c : Connection) :
    ConnectHandle * DisconnectedEvent :=
  let '(s, event) :=
    match r with
    | Ok (Application disconnect) => (client_disconnect disconnect (session c), ApplicationDisconnect)
    | Ok (Server disconnect) =>
        (server_disconnect disconnect (session c), ServerDisconnect (packet_Disconnect.from disconnect))
    | Ok PingTimeout => (transport_disconnect (session c), DisconnectedPingTimeout)
    | Err (Io e) => (transport_disconnect (session c), DisconnectedIoError e)
    | Err (Protocol e) => (transport_disconnect (session c), DisconnectedProtocolError e)
    end in
  (mkConnectHandle s (conn_client_id c), event).

(** [Connection::run_until_disconnect], with a step at each of the times [nows]. *)
Fixpoint run (nows : list Z) (d : Driver) : poll (ConnectHandle * DisconnectedEvent) :=
  match nows with
  | [] => Pending
  | now :: nows =>
      match drive now d with
      | Go d | Wait d => run nows d
      | Done r c => Ready (finish r c)
      | Crash m => Panicked m
      | Stuck => OutOfFuel
      end
  end.

Definition run_until_disconnect (nows : list Z) (c : Connection) : poll (ConnectHandle * DisconnectedEvent) :=
  run nows (mkDriver c None Selecting).
End network.

(** ** [DisconnectHandle] and [ReauthHandle] *)

(** [DisconnectHandle::disconnect], on the session of [l]. *)
Definition DisconnectHandle_disconnect (h : DisconnectHandle) (properties : DisconnectProperties.t)
    (s : Session) : outcome (result DetachedError () * Session) :=
  let! reason_string := opt_into ByteStr_from (DisconnectProperties.reason_string properties) in
  let! user_properties := list_into (pair_into ByteStr_from) (DisconnectProperties.user_properties properties) in
  let! server_reference := opt_into ByteStr_from (DisconnectProperties.server_reference properties) in
  let req := mkDisconnectRequest (Disconnect.mk DisconnectReasonCode.Normal
    (Disconnect.mkOther (DisconnectProperties.session_expiry_interval properties) reason_string
      user_properties server_reference)) in
  Returns
    (if negb (disconnect_epoch h =? connection_epoch s) then (Err mkDetachedError, s)
     else
       match disconnect_rx (ch s) with
       | Some OneshotWaiting => (Ok tt, set_ch (set_disconnect_rx (Some (OneshotValue req)) (ch s)) s)
       | _ => (Err mkDetachedError, s)
       end).

(** [ReauthHandle::reauth]. *)
Definition reauth (h : ReauthHandle) (authentication_data : option (list u8))
    (properties : AuthProperties.t) (l : Link) : poll (result DetachedError Notifier) * Link :=
  let '(notifier, l) := completion_pair l in
  match packet_Auth.into (packet_Auth.mk AuthReason.Reauthenticate
    (Some (AuthenticationInfo.mk (reauth_method h) authentication_data)) properties) with
  | Panics m => (Panicked m, l)
  | Returns auth =>
      let '(r, l) := send auth_rx set_auth_rx (Some 1%nat) (mkReauthRequest notifier auth) l in
      (token_of notifier r, l)
  end.
