(* ===== verification/ClientProps.v ===== *)
(** * Correctness of the client

    The connection driver and the handles of client.rs refine the session's
    transition system; connecting, publishing end to end, and the keep-alive. *)

From Stdlib Require Import Sorted.
From stdpp Require Import gmap.
From S2P Require Export Client SessionProps.
Local Open Scope Z_scope.

(** ** What the driver relies on *)

(** A source whose reads end: what [Reader] promises to the driver. *)
Class LawfulSource (Rd : Type) `{PacketSource Rd} := {
  source_ok : Rd -> Prop;
  receive_settles : forall now r, source_ok r ->
    match receive now r with
    | (Ready (Err _), _) => True
    | (Ready (Ok _), r') | (Pending, r') => source_ok r'
    | _ => False
    end;
}.
Arguments LawfulSource Rd {_}.

(** [receives r p r']: the source [r], polled again while it waits, yields the packet [p] and
    becomes [r']. *)
Inductive receives {Rd} `{PacketSource Rd} : Rd -> Packet.t -> Rd -> Prop :=
  | receives_now now r p r' : receive now r = (Ready (Ok p), r') -> receives r p r'
  | receives_later now r r1 p r' : receive now r = (Pending, r1) -> receives r1 p r' -> receives r p r'.

#[export] Instance Script_lawful : LawfulSource Script.
Proof.
  refine {| source_ok _ := True |}. intros now [l] _. cbn. destruct l as [|[t p] l]; [done|].
  destruct (t <=? now); [|done]. by destruct p.
Defined.

#[export] Instance Reader_lawful {St Ow} `{LawfulReadable St} `{LawfulOwned Ow} `{Unicode} :
  LawfulSource (Reader St Ow).
Proof.
  refine {| source_ok r := reader_ok r |}. intros now r Hr. cbn. unfold mqtt_receive.
  destruct (Reader_read_ok r Hr) as (r' & res & -> & Hok). destruct res as [raw|e]; [|done].
  destruct (Hok raw eq_refl) as [Hb _]. cbn. by destruct (Packet.decode _ _ V5).
Defined.

(** The acknowledgement an incoming packet is. *)
Definition completed_by (packet : Packet.t) : option CompletedOperation.t :=
  match packet with
  | Packet.SubAck suback => Some (CompletedOperation.Subscribe suback)
  | Packet.UnsubAck unsuback => Some (CompletedOperation.Unsubscribe unsuback)
  | Packet.PubAck puback => Some (CompletedOperation.PublishQoS1 puback)
  | Packet.PubRec pubrec => Some (CompletedOperation.PublishQoS2 pubrec)
  | _ => None
  end.

(** A server that follows the protocol as far as the client relies on it: an
    acknowledgement has the type of the operation in flight under its
    identifier, if there is one; and a PUBLISH is of QoS 0, or of QoS 1 with an
    identifier that is not in use. *)
Definition complies (s : Session) (packet : Packet.t) : Prop :=
  (forall op, completed_by packet = Some op ->
    is_some (op_entry op (inflight s)) = true \/ op_pkid op ∉ inflight_pkids (inflight s)) /\
  (forall p, packet = Packet.Publish p ->
    match Publish.packet_identifier_dup_qos p with
    | PacketIdentifierDupQoS.AtMostOnce => True
    | PacketIdentifierDupQoS.AtLeastOnce k _ => k ∉ im_keys (in_application s)
    | PacketIdentifierDupQoS.ExactlyOnce _ _ => False
    end).

Section driver.
Context {Rd St B : Type} `{LawfulSource Rd} `{LawfulWritable St} `{LawfulQueue B} `{UnicodeLaws}.
Context (allow : bool).
Implicit Types (c : @Connection Rd St B) (d : @Driver Rd St B) (w : Writer St B).

(** What holds of a connection while it is driven. *)
Record driven (c : @Connection Rd St B) (ts : list PubAckToken) : Prop := mkDriven {
  driven_reachable : reachable allow (session c) ts;
  driven_connected : is_connected (session c) = true;
  driven_writer : acc_committed (writer_buf (writer c));
  driven_reader : source_ok (reader c);
}.

(** The packet the driver would handle at [now] comes from a compliant server. *)
Definition server_complies (now : Z) d : Prop :=
  forall s packet r,
    phase d = Selecting -> next_outgoing_packet now (session (connection d)) = (Pending, s) ->
    receive now (reader (connection d)) = (Ready (Ok packet), r) -> complies s packet.

Lemma write_ok packet w :
  acc_committed (writer_buf w) ->
  exists r w', write packet w = (Ready r, w') /\ (r = Ok tt -> acc_committed (writer_buf w') /\
    exists bs, Packet.encode packet V5 SingleAccumulator_new = Ok (mkSingle bs) /\
      output w' = output w ++ bs).
Proof.
  intros Hc. unfold write, writer_fuel.
  destruct (writer_write_appends (S (length (view (writer_buf w)))) packet V5 w Hc) as (w' & r & -> & Hok);
    [unfold len; lia|]. cbn. eauto.
Qed.

Lemma flush_ok w :
  acc_committed (writer_buf w) ->
  exists r w', flush w = (Ready r, w') /\ acc_committed (writer_buf w') /\
    (r = Ok tt -> sent (writer_inner w') = output w /\ view (writer_buf w') = []).
Proof.
  intros Hc. unfold flush, writer_fuel.
  destruct (Writer_flush_ok (S (length (view (writer_buf w)))) w Hc) as (w' & r & -> & Hc' & Hok);
    [unfold len; lia|]. cbn. do 2 eexists. split; [done|]. split; [done|]. by intros ->.
Qed.

(** *** Steps of the session *)

Lemma steps_one a l b : step allow a l b -> steps allow a [l] b.
Proof. intros Hs. eapply steps_cons; [done|constructor]. Qed.

Lemma reachable_steps s ts ls s' ts' :
  reachable allow s ts -> steps allow (s, ts) ls (s', ts') -> reachable allow s' ts'.
Proof.
  intros (c & m & l0 & Hi & Hl0) Hs. exists c, m, (l0 ++ ls). split; [done|]. by eapply steps_app.
Qed.

Lemma step_next now s ts s' r :
  is_connected s = true -> next_outgoing_packet now s = (r, s') -> settled r ->
  exists l, l <> ConnectionLost /\ step allow (s, ts) l (s', ts).
Proof.
  intros Hc E Hr. destruct r as [p| | |]; [..|done|done]; eexists;
    [split; [|by eapply step_send]|split; [|by eapply step_wait]]; done.
Qed.

(** Polling the session for a packet. *)
Lemma driven_next now c ts :
  driven c ts ->
  let '(r, s') := next_outgoing_packet now (session c) in
  settled r /\ driven (with_session s' c) ts /\
  exists l, l <> ConnectionLost /\ step allow (session c, ts) l (s', ts).
Proof.
  intros [Hr Hc Hw Hs]. pose proof (next_outgoing_packet_inv now _ ts (reachable_inv _ _ _ Hr) Hc) as Hn.
  destruct (next_outgoing_packet now (session c)) as [r s'] eqn:E. destruct Hn as (Hset & _ & Hc' & _).
  destruct (step_next now _ ts _ _ Hc E Hset) as (l & Hq & Hl). split; [done|]. split; [|eauto].
  split; try done. cbn. eapply reachable_steps; [done|by apply steps_one].
Qed.

(** What a result of the driver promises: the connection stays up, or it is lost
    once, by the last step. *)
Definition drive_ok c (ts : list PubAckToken) (r : Drive) : Prop :=
  match r with
  | Go d | Wait d => exists ls ts', (ConnectionLost ∉ ls) /\
      steps allow (session c, ts) ls (session (connection d), ts') /\ driven (connection d) ts'
  | Done r c' => let h := fst (finish r c') in
      is_connected (handle_session h) = false /\
      exists ls ts', (ConnectionLost ∉ ls) /\
        steps allow (session c, ts) (ls ++ [ConnectionLost]) (handle_session h, ts')
  | Crash _ | Stuck => False
  end.

Lemma finish_ok c ts c' ts' ls r :
  ConnectionLost ∉ ls -> steps allow (session c, ts) ls (session c', ts') -> sys_inv (session c') ts' ->
  is_connected (session c') = true -> drive_ok c ts (Done r c').
Proof.
  intros Hq Hs Hinv Hc. cbn.
  assert (Hend : step allow (session c', ts') ConnectionLost (handle_session (fst (finish r c')), ts')).
  { destruct r as [[dd|dd|]|[e|e]]; [by apply step_client_disconnect|by apply step_server_disconnect|
      by apply step_transport_disconnect..]. }
  split; [apply (step_preserves _ _ _ _ _ _ Hend Hinv)|]. exists ls, ts'. split; [done|].
  eapply steps_app; [done|]. by apply steps_one.
Qed.

(** A handler that takes a step of the session and keeps it connected. *)
Lemma go_ok c ts l s' ts' timer ph :
  driven c ts -> l <> ConnectionLost -> step allow (session c, ts) l (s', ts') -> is_connected s' = true ->
  drive_ok c ts (Go (mkDriver (with_session s' c) timer ph)).
Proof.
  intros [Hr Hc Hw Hs] Hq Hl Hc'. exists [l], ts'. split; [by intros <-%list_elem_of_singleton|].
  split; [by apply steps_one|]. split; try done.
  cbn. eapply reachable_steps; [done|by apply steps_one].
Qed.

Lemma handled_ok c ts l r s' timer :
  driven c ts -> l <> ConnectionLost -> step allow (session c, ts) l (s', ts) -> is_connected s' = true ->
  drive_ok c ts (handled (r, s') timer c).
Proof.
  intros Hd Hq Hl Hc. destruct r as [[]|e]; [by eapply go_ok|].
  apply (finish_ok c ts (with_session s' c) ts [l]); [by intros <-%list_elem_of_singleton|by apply steps_one| |done].
  destruct Hd as [Hr _ _ _]. apply (step_preserves _ _ _ _ _ _ Hl). by eapply reachable_inv.
Qed.

Lemma complete_ok c ts op timer :
  driven c ts ->
  is_some (op_entry op (inflight (session c))) = true \/ op_pkid op ∉ inflight_pkids (inflight (session c)) ->
  drive_ok c ts (handled (complete_inflight op (session c)) timer c).
Proof.
  intros Hd Hop. destruct (complete_inflight op (session c)) as [r s'] eqn:E.
  destruct (complete_inflight_frame _ _ _ _ E) as (_ & _ & Fc & _).
  apply (handled_ok c ts Silent); [done|done| |unfold is_connected; rewrite Fc; apply (driven_connected _ _ Hd)].
  apply (step_complete allow _ _ op r s'); [apply (driven_connected _ _ Hd)|done|].
  destruct Hop as [Hop|]; [left|by right]. destruct (op_entry op _) as [n|] eqn:En; [|done].
  destruct (inv_pkids _ _ (reachable_inv _ _ _ (driven_reachable _ _ Hd))) as (_ & Hnd & _).
  destruct (complete_inflight_some op n (session c) Hnd En) as (v & s1 & Hs & _). rewrite E in Hs.
  by injection Hs as -> _.
Qed.

Lemma incoming_auth_connected a s r s' :
  incoming_auth allow a s = (r, s') -> is_connected s' = is_connected s.
Proof.
  unfold incoming_auth. intros E. destruct (inflight_auth (inflight s)) as [[m n]|]; [|by injection E as _ <-].
  case_match; [by injection E as _ <-|]. destruct (Auth.reason_code a); by injection E as _ <-.
Qed.

Lemma incoming_pingresp_connected now s : is_connected (incoming_pingresp now s) = is_connected s.
Proof. unfold incoming_pingresp. by destruct (pingreq (inflight s)) as [|[? [?|]] ?]. Qed.

Lemma incoming_publish_complies p s :
  complies s (Packet.Publish p) ->
  exists s', incoming_publish p s = Returns s' /\ is_connected s' = is_connected s.
Proof.
  intros [_ Hp]. specialize (Hp p eq_refl). unfold incoming_publish.
  destruct (Publish.packet_identifier_dup_qos p) as [|k d|k d]; [by eexists| |done].
  rewrite (im_insert_new k NotReady _ Hp). cbn. by eexists.
Qed.

Lemma handle_packet_ok now packet timer c ts :
  driven c ts -> complies (session c) packet -> drive_ok c ts (handle_packet allow now packet timer c).
Proof.
  intros Hd Hp. pose proof Hd as [Hr Hc _ _].
  assert (Hend : forall r, drive_ok c ts (Done r c)).
  { intros r. apply (finish_ok c ts c ts []); [by apply not_elem_of_nil|constructor|by eapply reachable_inv|done]. }
  assert (Hcomplete : forall op, completed_by packet = Some op ->
    drive_ok c ts (handled (complete_inflight op (session c)) timer c)).
  { intros op Hop. apply complete_ok; [done|]. by apply (proj1 Hp). }
  destruct packet as [p|p|p|p|p|p|p|p|p|p|p|p|p|p|p]; cbn [handle_packet]; try apply Hend;
    try (apply Hcomplete; reflexivity).
  - destruct (incoming_auth allow p (session c)) as [r s'] eqn:E.
    apply (handled_ok c ts Silent); [done|done|by eapply step_auth|].
    by rewrite (incoming_auth_connected _ _ _ _ E).
  - eapply (go_ok c ts Silent); [done|done|by apply step_pingresp|]. by rewrite incoming_pingresp_connected.
  - destruct (incoming_publish_complies p (session c) Hp) as (s' & E & Hc'). cbn. rewrite E.
    eapply go_ok; [done| |by eapply step_publish|by rewrite Hc'].
    unfold received_label. by destruct (Publish.packet_identifier_dup_qos p).
Qed.

Lemma drive_ok_after c c1 ts l r :
  l <> ConnectionLost -> step allow (session c, ts) l (session c1, ts) -> drive_ok c1 ts r -> drive_ok c ts r.
Proof.
  intros Hq Hl. assert (Hq' : forall ls, ConnectionLost ∉ ls -> ConnectionLost ∉ l :: ls).
  { intros ls Hls. apply not_elem_of_cons. by split. }
  destruct r as [d|d|r c'|m|]; cbn; [intros (ls & ts' & Hls & Hs & Hd)..|intros (Hc & ls & ts' & Hls & Hs)|done|done];
    [exists (l :: ls), ts'; split_and!; [auto|by eapply steps_cons|done]..|].
  split; [done|]. exists (l :: ls), ts'. split; [auto|]. by eapply steps_cons.
Qed.

Lemma drive_ok_session c c1 ts r : session c1 = session c -> drive_ok c1 ts r -> drive_ok c ts r.
Proof. intros E. unfold drive_ok. by rewrite E. Qed.

Lemma driven_reader_with c ts r : driven c ts -> source_ok r -> driven (with_reader r c) ts.
Proof. intros [Hr Hc Hw _] Hs. by split. Qed.

Lemma driven_writer_with c ts w : driven c ts -> acc_committed (writer_buf w) -> driven (with_writer w c) ts.
Proof. intros [Hr Hc _ Hs] Hw. by split. Qed.

Lemma wait_ok c c' ts timer ph :
  session c' = session c -> driven c' ts -> drive_ok c ts (Go (mkDriver c' timer ph)) /\
    drive_ok c ts (Wait (mkDriver c' timer ph)).
Proof. intros E Hd. split; exists [], ts; cbn; (split_and!; [by apply not_elem_of_nil|rewrite E; constructor|done]). Qed.

Lemma end_ok c c' ts r : session c' = session c -> driven c ts -> drive_ok c ts (Done r c').
Proof.
  intros E [Hr Hc _ _]. apply (finish_ok c ts c' ts []); rewrite ?E; [by apply not_elem_of_nil|constructor|by eapply reachable_inv|done].
Qed.

Lemma drive_select_ok now timer c ts :
  driven c ts ->
  (forall s packet r, next_outgoing_packet now (session c) = (Pending, s) ->
    receive now (reader c) = (Ready (Ok packet), r) -> complies s packet) ->
  drive_ok c ts (drive_select allow now timer c).
Proof.
  intros Hd Hp. pose proof (driven_next now c ts Hd) as Hn. unfold drive_select.
  destruct (next_outgoing_packet now (session c)) as [[p| | |] s'] eqn:En; destruct Hn as (Hset & Hd' & l & Hq & Hl);
    [..|done|done].
  - eapply (drive_ok_after c (with_session s' c)); [done|done|]. by apply wait_ok.
  - eapply (drive_ok_after c (with_session s' c)); [done|done|]. cbn [reader with_session].
    pose proof (receive_settles now (reader c) (driven_reader _ _ Hd)) as Hs.
    destruct (receive now (reader c)) as [[[p|e]| | |] r] eqn:Er; [..|done|done].
    + apply (drive_ok_session _ (with_reader r (with_session s' c))); [done|].
      apply handle_packet_ok; [by apply driven_reader_with|by eapply Hp].
    + by apply end_ok.
    + destruct (match timer with Some _ => _ | None => _ end); [by apply end_ok|].
      apply wait_ok; [done|]. by apply driven_reader_with.
Qed.

Lemma drive_write_ok now packet timer c ts :
  driven c ts -> drive_ok c ts (drive_write now packet timer c).
Proof.
  intros Hd. unfold drive_write. destruct (write_ok packet (writer c) (driven_writer _ _ Hd)) as (r & w & -> & Hw).
  destruct r as [[]|e]; [|by apply end_ok]. destruct (Hw eq_refl) as [Hcom _]. clear Hw.
  pose proof (driven_writer_with c ts w Hd Hcom) as Hd1.
  assert (Hnext : drive_ok c ts
    match next_outgoing_packet now (session (with_writer w c)) with
    | (Ready packet0, s) => Go (mkDriver (with_session s (with_writer w c)) (arm_timer now packet c timer) (Writing packet0))
    | (Pending, s) => Go (mkDriver (with_session s (with_writer w c)) (arm_timer now packet c timer) Flushing)
    | (Panicked m, _) => Crash m
    | (OutOfFuel, _) => Stuck
    end).
  { apply (drive_ok_session _ (with_writer w c)); [done|]. pose proof (driven_next now _ ts Hd1) as Hn.
    destruct (next_outgoing_packet now _) as [[p| | |] s']; destruct Hn as (Hset & Hd' & l & Hq & Hl); [..|done|done];
      (eapply (drive_ok_after _ (with_session s' (with_writer w c))); [done|done|]; by apply wait_ok). }
  destruct packet; try exact Hnext.
  destruct (flush_ok w Hcom) as (r & w' & Ef & _). cbn [writer with_writer]. rewrite Ef.
  destruct r as [[]|e]; by apply end_ok.
Qed.

Lemma drive_flush_ok timer c ts : driven c ts -> drive_ok c ts (drive_flush timer c).
Proof.
  intros Hd. unfold drive_flush. destruct (flush_ok (writer c) (driven_writer _ _ Hd)) as (r & w & -> & Hw & _).
  destruct r as [[]|e]; [|by apply end_ok]. apply wait_ok; [done|]. by apply driven_writer_with.
Qed.

(** C15: driving a connection refines the session's transition system. From every
    reachable state of a connected session, whatever the application submitted
    between two steps, a step of [run_until_disconnect] never panics and its
    loops end, provided the server answers operations with acknowledgements of
    their type and does not reuse the identifier of a PUBLISH that is not
    acknowledged; it takes steps of the system, after which the connection can
    be driven on, or the loop returns and [run_until_disconnect] leaves a
    disconnected session, reached through exactly one of the transitions for
    the end of a connection. *)
Theorem driver_refines now d ts :
  driven (connection d) ts -> server_complies now d -> drive_ok (connection d) ts (drive allow now d).
Proof.
  intros Hd Hp. unfold drive. destruct (phase d) eqn:Eph.
  - apply drive_select_ok; [done|]. intros s packet r. by apply Hp.
  - by apply drive_write_ok.
  - by apply drive_flush_ok.
Qed.

(** *** Connecting *)

(** The server accepted the connection with the method the client asked for. *)
Definition accepted (p : ConnAck.t) (method : option str) : Prop :=
  connack_success p = true /\
  (authentication_method_matches (ConnAck.authentication (ConnAck.other_properties p)) method = true \/
   allow = true /\ ConnAck.authentication (ConnAck.other_properties p) = None).

Lemma incoming_connack_spec now p ka am ex s r s' :
  incoming_connack allow now p ka am ex s = (r, s') ->
  match r with
  | Err e => s' = s /\ e = AuthenticationMethodMismatch
  | Ok _ =>
      if connack_success p then connected s' = Connected p /\ accepted p am
      else s' = s
  end.
Proof.
  unfold incoming_connack, accepted, connack_success. intros E.
  destruct (negb _ && _) eqn:Em in E; [by injection E as <- <-|].
  destruct (ConnAck.reason_code p) as [b|]; [|by injection E as <- <-]. injection E as <- <-.
  split; [done|]. split; [done|].
  destruct (authentication_method_matches _ am); [by left|right]. destruct allow, am; cbn in Em; try done.
  by destruct (ConnAck.authentication _).
Qed.

(** The bytes of [packet] were sent on a connection that had sent [before]. *)
Definition flushed_packet (packet : Packet.t) (before : list u8) w : Prop :=
  exists bs, Packet.encode packet V5 SingleAccumulator_new = Ok (mkSingle bs) /\
    sent (writer_inner w) = before ++ bs /\ view (writer_buf w) = [] /\ acc_committed (writer_buf w).

Lemma write_and_flush_ok packet w :
  acc_committed (writer_buf w) ->
  exists r w', write_and_flush packet w = (Ready r, w') /\
    (r = Ok tt -> flushed_packet packet (output w) w').
Proof.
  intros Hc. unfold write_and_flush. destruct (write_ok packet w Hc) as (r & w1 & -> & Hw).
  destruct r as [[]|e]; [|err_case]. destruct (Hw eq_refl) as (Hc1 & bs & Hbs & Ho).
  destruct (flush_ok w1 Hc1) as (r & w2 & -> & Hc2 & Hf). do 2 eexists. split; [done|].
  intros ->. destruct (Hf eq_refl) as [Hs Hv]. exists bs. by rewrite Hs, Ho.
Qed.

Lemma maybe_timeout_ok deadline polls (r : Rd) :
  source_ok r ->
  match maybe_timeout deadline polls r with
  | (Ready (Some (_, Ok p)), r') => source_ok r' /\ receives r p r'
  | (Panicked _, _) | (OutOfFuel, _) => False
  | _ => True
  end.
Proof.
  revert r. induction polls as [|now polls IH]; intros r Hr; [done|]. cbn [maybe_timeout].
  pose proof (receive_settles now r Hr) as Hs. destruct (receive now r) as [[[p|e]| | |] r'] eqn:E; try done.
  { split; [done|]. by eapply receives_now. }
  destruct (match deadline with Some _ => _ | None => _ end); [done|]. specialize (IH r' Hs).
  destruct (maybe_timeout deadline polls r') as [[[[t [p|e]]|]| | |] r2]; try done.
  destruct IH as [Hs2 Hrec]. split; [done|]. by eapply receives_later.
Qed.

(** A connection established for the session [s0] by a CONNACK received from the source [r0],
    and the handle of a failed attempt. *)
Definition established (s0 : Session) (r0 : Rd) (ts : list PubAckToken) (method : option str) c
    (connack : packet_ConnAck.t) (h : DisconnectHandle) : Prop :=
  exists p, receives r0 (Packet.ConnAck p) (reader c) /\
    (exists now ka ex s, incoming_connack allow now p ka method ex s0 = (Ok tt, s) /\
      session c = open_disconnect s) /\
    connected (session c) = Connected p /\ accepted p method /\
    connack = packet_ConnAck.from p /\ driven c ts /\
    disconnect_rx (ch (session c)) = Some OneshotWaiting /\
    disconnect_epoch h = connection_epoch (session c).

Definition reusable (h h' : ConnectHandle) : Prop :=
  handle_session h' = handle_session h /\ cfg_client_id h' = cfg_client_id h.

Lemma established_ok s r0 ts now p ka am ex s' r w id timeout :
  reachable allow s ts -> is_connected s = false -> connection_epoch s + 1 < 2 ^ 64 ->
  incoming_connack allow now p ka am ex s = (Ok tt, s') -> connack_success p = true ->
  receives r0 (Packet.ConnAck p) r -> source_ok r -> acc_committed (writer_buf w) ->
  established s r0 ts am (mkConnection (open_disconnect s') r w id timeout) (packet_ConnAck.from p)
    (mkDisconnectHandle (connection_epoch s')).
Proof.
  intros Hr Hc He E Hok Hrec Hs Hw. pose proof (incoming_connack_spec _ _ _ _ _ _ _ _ E) as Hspec.
  cbn in Hspec. rewrite Hok in Hspec. destruct Hspec as [Hcon Hacc]. exists p. split_and!; try done.
  { by exists now, ka, ex, s'. }
  assert (Hr' : reachable allow s' ts).
  { eapply reachable_steps; [done|]. apply steps_one. by eapply step_connack. }
  split; try done; cbn; [|unfold is_connected, open_disconnect; fields; by rewrite Hcon].
  eapply reachable_steps; [exact Hr'|]. apply steps_one. apply step_submit; [done|].
  apply (inv_auth _ _ (reachable_inv _ _ _ Hr')).
Qed.

(** Between two rounds of an enhanced authentication. *)
Record authenticating (h : @EnhancedAuthHandle Rd St B) (ts : list PubAckToken) : Prop := mkAuthenticating {
  auth_reachable : reachable allow (auth_session h) ts;
  auth_disconnected : is_connected (auth_session h) = false;
  auth_epoch : connection_epoch (auth_session h) + 1 < 2 ^ 64;
  auth_writer_ok : acc_committed (writer_buf (auth_writer h));
  auth_reader_ok : source_ok (auth_reader h);
}.

(** What a round of an enhanced authentication promises once it has sent its packet: the
    server asks for another one with the method of the attempt, or it accepts, or the
    attempt fails and leaves the session as it was. The answer was received from the source
    [r0], and nothing was written since. *)
Definition round_ok (r0 : Rd) (h : @EnhancedAuthHandle Rd St B) (ts : list PubAckToken)
    (r : poll ConnectEnhancedAuthResult) : Prop :=
  match r with
  | Ready (AuthContinue auth h') =>
      authenticating h' ts /\ auth_session h' = auth_session h /\ auth_method h' = auth_method h /\
      auth_writer h' = auth_writer h /\
      (exists i, packet_Auth.authentication_info auth = Some i /\ AuthenticationInfo.method i = auth_method h) /\
      exists a, auth = packet_Auth.from a /\ receives r0 (Packet.Auth a) (auth_reader h')
  | Ready (AuthSuccess c connack dh rh) =>
      established (auth_session h) r0 ts (Some (auth_method h)) c connack dh /\
      reauth_method rh = auth_method h /\ writer c = auth_writer h
  | Ready (AuthFailure h' e) => reusable (into_connect_handle h) h'
  | Pending => True
  | Panicked _ | OutOfFuel => False
  end.

Lemma handle_response_ok r0 now packet h ts :
  authenticating h ts -> receives r0 packet (auth_reader h) ->
  round_ok r0 h ts (Ready (handle_response allow now packet h)).
Proof.
  intros Ha Hrec. pose proof Ha as [Hr Hc He Hw Hs]. destruct packet; try done; cbn [handle_response].
  - destruct (authentication_method_matches _ _) eqn:Em; [|done].
    split_and!; try done; [|by eexists]. destruct packet as [code [a|] rs up]; [|done]. cbn in *.
    eexists. split; [done|]. cbn. by apply str_eqb_eq.
  - destruct (incoming_connack _ _ _ _ _ _ _) as [r s'] eqn:E.
    pose proof (incoming_connack_spec _ _ _ _ _ _ _ _ E) as Hspec. destruct r as [[]|e].
    + destruct (connack_success packet) eqn:Eok; [|by subst]. split; [|done]. by eapply established_ok.
    + by destruct Hspec as [-> _].
Qed.

Lemma receive_response_ok now polls timeout h ts :
  authenticating h ts -> round_ok (auth_reader h) h ts (receive_response allow now polls timeout h).
Proof.
  intros Ha. pose proof Ha as [Hr Hc He Hw Hs]. unfold receive_response.
  pose proof (maybe_timeout_ok (option_map (Z.add now) timeout) polls _ Hs) as Ht.
  destruct (maybe_timeout _ polls (auth_reader h)) as [[[[t [packet|err]]|]| | |] r]; try done.
  destruct Ht as [Hs' Hrec].
  apply (handle_response_ok _ t packet (set_auth_io (auth_session h) r (auth_writer h) h)); [by split|done].
Qed.

Lemma continue_auth_ok now polls data properties timeout h ts :
  authenticating h ts ->
  match continue_auth allow h now polls data properties timeout with
  | Panicked _ => packet_Auth.fits (packet_Auth.mk AuthReason.ContinueAuthentication
      (Some (AuthenticationInfo.mk (auth_method h) data)) properties) = false
  | Ready (AuthFailure h' _) => reusable (into_connect_handle h) h'
  | r => exists w a, flushed_packet (Packet.Auth a) (output (auth_writer h)) w /\
      round_ok (auth_reader h) (set_auth_io (auth_session h) (auth_reader h) w h) ts r
  end.
Proof.
  intros Ha. pose proof Ha as [Hr Hc He Hw Hs]. unfold continue_auth.
  pose proof (into_spec (into := packet_Auth.into) (packet_Auth.mk AuthReason.ContinueAuthentication
    (Some (AuthenticationInfo.mk (auth_method h) data)) properties)) as Hi.
  destruct (packet_Auth.into _) as [auth|m]; [|done]. clear Hi.
  destruct (write_and_flush_ok (Packet.Auth auth) (auth_writer h) Hw) as (r & w & -> & Hf).
  destruct r as [[]|e]; [|done]. destruct (Hf eq_refl) as (bs & Hb1 & Hb2 & Hb3 & Hw').
  pose proof (receive_response_ok now polls timeout (set_auth_io (auth_session h) (auth_reader h) w h) ts
    ltac:(by split)) as Hround.
  assert (Hfl : flushed_packet (Packet.Auth auth) (output (auth_writer h)) w) by (by exists bs).
  destruct (receive_response _ _ _ _ _) as [[| |]| | |]; try done; by exists w, auth.
Qed.

Lemma mqtt_connect_ok h w clean_start keep_alive will username password properties info :
  acc_committed (writer_buf w) ->
  match mqtt_connect h w clean_start keep_alive will username password properties info with
  | (Ready (Ok _), w') => exists packet,
      connect_packet (cfg_client_id h) clean_start keep_alive will username password properties info =
        Returns packet /\ flushed_packet packet (output w) w'
  | (Panicked m, _) =>
      connect_packet (cfg_client_id h) clean_start keep_alive will username password properties info = Panics m
  | (Pending, _) | (OutOfFuel, _) => False
  | _ => True
  end.
Proof.
  intros Hc. unfold mqtt_connect. destruct (connect_packet _ _ _ _ _ _ _ _) as [packet|m]; [|done].
  destruct (write_and_flush_ok packet w Hc) as (r & w' & -> & Hok). destruct r as [[]|e]; [|done]. eauto.
Qed.

(** What [connect] and [connect_enhanced_auth] promise, for the packet they send, the source
    that they receive the answer from and what the connection had sent before. *)
Definition connect_outcome h ts packet (r0 : Rd) (before : list u8) (res : poll ConnectResult) : Prop :=
  match res with
  | Ready (ConnectSuccess c connack dh) =>
      established (handle_session h) r0 ts None c connack dh /\
      exists p, packet = Returns p /\ flushed_packet p before (writer c)
  | Ready (ConnectFailure h' _) => reusable h h'
  | Panicked m => packet = Panics m
  | Pending => True
  | OutOfFuel => False
  end.

Definition auth_outcome h ts info packet (r0 : Rd) (before : list u8) (res : poll ConnectEnhancedAuthResult) : Prop :=
  match res with
  | Ready (AuthSuccess c connack dh rh) =>
      established (handle_session h) r0 ts (Some (AuthenticationInfo.method info)) c connack dh /\
      reauth_method rh = AuthenticationInfo.method info /\
      exists p, packet = Returns p /\ flushed_packet p before (writer c)
  | Ready (AuthContinue auth h') =>
      authenticating h' ts /\ auth_session h' = handle_session h /\
      auth_method h' = AuthenticationInfo.method info /\
      (exists i, packet_Auth.authentication_info auth = Some i /\
        AuthenticationInfo.method i = AuthenticationInfo.method info) /\
      (exists a, auth = packet_Auth.from a /\ receives r0 (Packet.Auth a) (auth_reader h')) /\
      exists p, packet = Returns p /\ flushed_packet p before (auth_writer h')
  | Ready (AuthFailure h' _) => reusable h h'
  | Panicked m => packet = Panics m
  | Pending => True
  | OutOfFuel => False
  end.

Section attempt.
Context (h : ConnectHandle) (ts : list PubAckToken) (now : Z) (polls : list Z) (r : Rd) (w : Writer St B).
Context (clean_start : bool) (ka : KeepAliveConfig.t) (will : option Will.t) (username : option str).
Context (password : option (list u8)) (properties : ConnectProperties.t) (timeout : option Z).
Context (Hr : reachable allow (handle_session h) ts) (Hc : is_connected (handle_session h) = false).
Context (He : connection_epoch (handle_session h) + 1 < 2 ^ 64).
Context (Hw : acc_committed (writer_buf w)) (Hs : source_ok r).

Let packet info := connect_packet (cfg_client_id h) clean_start (KeepAliveConfig.into ka) will username
  password properties info.

Lemma connect_ok :
  connect_outcome h ts (packet None) r (output w)
    (connect allow h now polls (Ok (r, w)) clean_start ka will username password properties timeout).
Proof.
  unfold connect. pose proof (mqtt_connect_ok h w clean_start (KeepAliveConfig.into ka) will username
    password properties None Hw) as Hm.
  destruct (mqtt_connect _ _ _ _ _ _ _ _ _) as [[[[]|e]| | |] w']; try done.
  destruct Hm as (p & Ep & Hf). assert (Hw' : acc_committed (writer_buf w')) by (by destruct Hf as (? & ? & ? & ? & ?)).
  pose proof (maybe_timeout_ok (option_map (Z.add now) timeout) polls r Hs) as Ht.
  destruct (maybe_timeout _ polls r) as [[[[t [q|err]]|]| | |] r']; try done.
  destruct q; try done. destruct Ht as [Hs' Hrec]. destruct (incoming_connack _ _ _ _ _ _ _) as [res s'] eqn:E.
  pose proof (incoming_connack_spec _ _ _ _ _ _ _ _ E) as Hspec. destruct res as [[]|e].
  - destruct (connack_success _) eqn:Eok; [|by subst]. split; [by eapply established_ok|eauto].
  - by destruct Hspec as [-> _].
Qed.

Lemma connect_enhanced_auth_ok info :
  auth_outcome h ts info (packet (Some info)) r (output w)
    (connect_enhanced_auth allow h now polls (Ok (r, w)) clean_start ka will username password properties
      info timeout).
Proof.
  unfold connect_enhanced_auth. pose proof (mqtt_connect_ok h w clean_start
    (KeepAliveConfig.into ka) will username password properties (Some info) Hw) as Hm.
  destruct (mqtt_connect _ _ _ _ _ _ _ _ _) as [[[[]|e]| | |] w']; try done.
  destruct Hm as (p & Ep & Hf). assert (Hw' : acc_committed (writer_buf w')) by (by destruct Hf as (? & ? & ? & ? & ?)).
  set (h' := mkEnhancedAuthHandle _ _ _ _ _ _ _).
  pose proof (receive_response_ok now polls timeout h' ts ltac:(by split)) as Hround.
  destruct (receive_response _ _ _ _ h') as [[a h2|c k dh rh|h2 e]| | |]; try done.
  - destruct Hround as (? & ? & ? & Hwr & ? & ?). split_and!; try done. exists p. by rewrite Hwr.
  - destruct Hround as (? & ? & Hwr). split_and!; try done. exists p. by rewrite Hwr.
Qed.
End attempt.

End driver.

(** ** Submitting operations *)

(** What the operations of the application do to the channels of a session is a
    step of its system: they queue at most one request, and an AUTH request
    carries a method. *)
Definition submits (l l' : Link) : Prop :=
  ack_rx (link_ch l') = ack_rx (link_ch l) /\
  (Forall auth_ok (auth_rx (link_ch l)) -> Forall auth_ok (auth_rx (link_ch l'))).

Lemma submits_step allow s ts l l' :
  reachable allow s ts -> link_ch l = ch s -> submits l l' -> step allow (s, ts) Silent (set_ch (link_ch l') s, ts).
Proof.
  intros Hr El [Ha Hau]. rewrite El in *. apply step_submit; [done|]. apply Hau.
  apply (inv_auth _ _ (reachable_inv _ _ _ Hr)).
Qed.

Lemma send_submits {A} get set capacity (v : A) m l :
  (forall q c, ack_rx (set q c) = ack_rx c) ->
  (Forall auth_ok (auth_rx (link_ch l)) -> Forall auth_ok (auth_rx (set (get (link_ch l) ++ [v]) (link_ch l)))) ->
  submits l (snd (let '(r, l) := send get set capacity v l in (token_of m r, l))).
Proof.
  intros Hs Ha. unfold send. destruct (negb (link_alive l)); [done|].
  destruct (match capacity with Some _ => _ | None => _ end); [|done]. split; cbn; [by rewrite Hs|done].
Qed.

Lemma client_operations_submit options t f payload retain props qos no_local ro sp up l :
  submits l (snd (Client_publish_qos0 options t payload retain props l)) /\
  submits l (snd (Client_publish_qos1 options t payload retain props l)) /\
  submits l (snd (Client_publish_qos2 t payload retain props l)) /\
  submits l (snd (Client_subscribe f qos no_local ro sp l)) /\
  submits l (snd (Client_unsubscribe f up l)) /\
  submits l (snd (Client_ping l)).
Proof.
  split_and!.
  - unfold Client_publish_qos0. cbn [completion_pair].
    destruct (TopicName_into t); [|done]. destruct (PublishProperties.into props); [|done].
    by apply (send_submits _ _ _ _ _ (mkLink _ _ _)).
  - unfold Client_publish_qos1. cbn [completion_pair].
    destruct (TopicName_into t); [|done]. destruct (PublishProperties.into props); [|done].
    by apply (send_submits _ _ _ _ _ (mkLink _ _ _)).
  - done.
  - unfold Client_subscribe. cbn [completion_pair]. destruct qos; [..|done];
      (destruct (TopicFilter_into f); [|done]); (destruct (SubscribeProperties.into sp); [|done]);
      by apply (send_submits _ _ _ _ _ (mkLink _ _ _)).
  - unfold Client_unsubscribe. cbn [completion_pair].
    destruct (TopicFilter_into f); [|done]. destruct (UnsubscribeProperties.into up); [|done].
    by apply (send_submits _ _ _ _ _ (mkLink _ _ _)).
  - by apply (send_submits _ _ _ _ _ (mkLink _ _ _)).
Qed.

(** The two AUTH requests name the authentication method. *)
Lemma reauth_submits h data props l : submits l (snd (reauth h data props l)).
Proof.
  unfold reauth, packet_Auth.into. cbn [completion_pair packet_Auth.authentication_info opt_into].
  destruct (AuthenticationInfo.into _) as [a|]; [|done]. destruct (opt_into _ _); [|done].
  destruct (map_user_properties_to_bytestr _); [|done].
  apply (send_submits _ _ _ _ _ (mkLink _ _ _)); [done|]. intros Ha. apply Forall_app. split; [done|].
  by apply Forall_singleton.
Qed.

Lemma continue_reauth_submits t data props l r l' :
  continue_reauth t data props l = Returns (r, l') -> submits l l'.
Proof.
  unfold continue_reauth, buffered_continue_reauth. cbn [completion_pair].
  destruct (opt_into BinaryData_from _); [|done]. destruct (opt_into ByteStr_from _); [|done].
  destruct (map_user_properties_to_bytestr _); [|done]. intros [= E].
  match type of E with ?x = _ => replace l' with (snd x) by (by rewrite E) end.
  apply (send_submits _ _ _ _ _ (mkLink _ _ _)); [done|]. intros Ha. apply Forall_app. split; [done|].
  by apply Forall_singleton.
Qed.

(** ** Publishing from end to end *)

Section publish.
Context `{UnicodeLaws}.

(** Strings, data and topics that MQTT permits. A [TopicName] can only be made by
    [TopicName::new]. *)
Definition str_ok (s : str) : Prop := bytes_ok s /\ validate_mqtt_string s = Ok tt.
Definition topic_ok (t : TopicName) : Prop :=
  bytes_ok (TopicName_as_str t) /\ TopicName_new (TopicName_as_str t) = Ok t.
Definition publish_properties_ok (p : PublishProperties.t) : Prop :=
  opt_wf is_u32 (PublishProperties.message_expiry_interval p) /\
  opt_wf is_nonzero_u16 (PublishProperties.topic_alias p) /\
  opt_wf topic_ok (PublishProperties.response_topic p) /\
  opt_wf bytes_ok (PublishProperties.correlation_data p) /\
  Forall (fun u => str_ok (fst u) /\ str_ok (snd u)) (PublishProperties.user_properties p) /\
  Forall is_nonzero_u32 (PublishProperties.subscription_identifiers p) /\
  opt_wf str_ok (PublishProperties.content_type p).

Lemma opt_into_wf {U P} (into : U -> outcome P) (A : U -> Prop) (C : P -> Prop) o o' :
  (forall u p, into u = Returns p -> A u -> C p) -> opt_into into o = Returns o' -> opt_wf A o -> opt_wf C o'.
Proof.
  intros Hi E Ho. destruct o as [u|]; cbn in E; [|by injection E as <-].
  destruct (into u) as [p|] eqn:Eu; [|done]. injection E as <-. by apply (Hi u).
Qed.

Lemma list_into_wf {U P} (into : U -> outcome P) (A : U -> Prop) (C : P -> Prop) l l' :
  (forall u p, into u = Returns p -> A u -> C p) -> list_into into l = Returns l' -> Forall A l -> Forall C l'.
Proof.
  intros Hi. revert l'. induction l as [|u l IH]; intros l' E Hl; cbn in E; [by injection E as <-|].
  destruct (into u) as [p|] eqn:Eu; [|done]. destruct (list_into into l) as [ps|] eqn:El; [|done].
  injection E as <-. apply Forall_cons in Hl as [Hu Hl]. constructor; [by apply (Hi u)|by apply IH].
Qed.

Lemma str_into_wf s b : ByteStr_from s = Returns b -> str_ok s -> bs_wf b.
Proof. intros E [Hb Hv]. by eapply ByteStr_from_wf. Qed.

Lemma topic_into_wf t p : TopicName_into t = Returns p -> topic_ok t -> topic_wf p.
Proof.
  intros E [Hb Hn]. destruct (TopicName_into_wf _ t Hb Hn) as (p' & E' & Hp). rewrite E in E'.
  by injection E' as ->.
Qed.

Lemma user_into_wf u p :
  pair_into ByteStr_from u = Returns p -> str_ok (fst u) /\ str_ok (snd u) -> user_wf p.
Proof.
  unfold pair_into. intros E [H1 H2]. destruct (ByteStr_from (fst u)) as [a|] eqn:Ea; [|done].
  destruct (ByteStr_from (snd u)) as [b|] eqn:Eb; [|done]. injection E as <-.
  split; by eapply str_into_wf.
Qed.

Lemma publish_into_wf p o :
  PublishProperties.into p = Returns o -> publish_properties_ok p -> Publish.other_wf o.
Proof.
  intros E (H1 & H2 & H3 & H4 & H5 & H6 & H7). unfold PublishProperties.into in E.
  destruct (opt_into TopicName_into _) as [rt|] eqn:E1; [|done].
  destruct (opt_into BinaryData_from _) as [cd|] eqn:E2; [|done].
  destruct (map_user_properties_to_bytestr _) as [up|] eqn:E3; [|done].
  destruct (opt_into ByteStr_from _) as [ct|] eqn:E4; [|done]. injection E as <-.
  unfold Publish.other_wf. cbn. split_and!; try done.
  - by eapply opt_into_wf; [apply topic_into_wf|..].
  - eapply opt_into_wf; [|done..]. intros s b Eb Hs. by eapply BinaryData_from_wf.
  - by eapply list_into_wf; [apply user_into_wf|..].
  - by eapply opt_into_wf; [apply str_into_wf|..].
Qed.

(** A receiver of what [packet] is encoded to gets the publish [u]. *)
Definition delivers (packet : Packet.t) (u : packet_Publish.t) : Prop :=
  forall bs, Packet.encode packet V5 SingleAccumulator_new = Ok (mkSingle bs) ->
  exists q, Packet.decode_full bs V5 = Ok (Packet.Publish q) /\ packet_Publish.from q = u.

Lemma delivers_publish t p dup_qos retain payload props o :
  topic_ok t -> publish_properties_ok props -> PacketIdentifierDupQoS.wf dup_qos ->
  TopicName_into t = Returns p -> PublishProperties.into props = Returns o ->
  delivers (Packet.Publish (Publish.mk p dup_qos retain payload o))
    (packet_Publish.mk payload (DeliveryQoS.from dup_qos) retain t props).
Proof.
  intros Ht Hp Hq Et Eo bs Ebs.
  destruct (wp_single _ _ _ _ (Packet_encode_wp V5 _) Ebs) as (bs' & [= ->] & Hd).
  eexists. split; [apply Hd|].
  - split; [by eapply topic_into_wf|]. split; [done|]. by eapply publish_into_wf.
  - unfold packet_Publish.from. cbn. apply into_Returns in Et as (_ & _ & ->).
    by apply into_Returns in Eo as (_ & _ & ->).
Qed.

Lemma send_ready {A} get set capacity (v : A) l l' n m :
  (let '(r, l) := send get set capacity v l in (token_of m r, l)) = (Ready (Ok n), l') ->
  n = m /\ link_alive l = true /\ l' = mkLink (set (get (link_ch l) ++ [v]) (link_ch l)) (link_alive l) (link_next l).
Proof.
  unfold send. destruct (link_alive l); cbn [negb]; [|done].
  destruct (match capacity with Some _ => _ | None => _ end); [|done]. cbn. by intros [= <- <-].
Qed.

(** C17: a publish of values that MQTT permits arrives as it was submitted. Let the topic be one
    that [TopicName::new] accepts, the numbers of the properties be within the range of their
    types, and their strings be valid UTF-8 without the characters that MQTT forbids, which the
    client does not check: one with U+0000 is queued and refused by the peer. When
    [Client::publish_qos0] or [Client::publish_qos1] accepts such a publish, exactly one
    request is queued for the session; and whatever packet identifier the session gives it,
    when [Packet::encode] accepts the packet it is turned into, a peer of the same code
    decodes the bytes and receives a publish with the same topic, payload, retain flag and
    properties, with the quality of service that was asked for, and not marked as a
    duplicate. *)
Theorem publish_end_to_end options t payload retain props l :
  topic_ok t -> publish_properties_ok props ->
  (forall n l', Client_publish_qos0 options t payload retain props l = (Ready (Ok n), l') ->
    exists p o, o_pub_q0_rx (link_ch l') =
        o_pub_q0_rx (link_ch l) ++ [mkPublishRequestQoS0 n p payload retain o] /\
      forall s, delivers
        (fst (packet_of_publish (PublishRequestWithPkid.PublishQoS0 n p payload retain o) s))
        (packet_Publish.mk payload DeliveryQoS.AtMostOnce retain t props)) /\
  (forall n l', Client_publish_qos1 options t payload retain props l = (Ready (Ok n), l') ->
    exists p o, o_pub_q12_rx (link_ch l') =
        o_pub_q12_rx (link_ch l) ++ [PublishRequestQoS1QoS2.PublishQoS1 n p payload retain o] /\
      forall k s, pkid_wf k -> delivers
        (fst (packet_of_publish (PublishRequestWithPkid.of_request
          (PublishRequestQoS1QoS2.PublishQoS1 n p payload retain o) k) s))
        (packet_Publish.mk payload (DeliveryQoS.AtLeastOnce (DeliveryInfo.mk false k)) retain t props)).
Proof.
  intros Ht Hp. unfold Client_publish_qos0, Client_publish_qos1. cbn [completion_pair].
  destruct (TopicName_into t) as [p|] eqn:Et; [|split; by intros ? ? [=]].
  destruct (PublishProperties.into props) as [o|] eqn:Eo; [|split; by intros ? ? [=]].
  split; intros n l' E; apply send_ready in E as (-> & _ & ->); exists p, o; (split; [done|]); intros.
  - by apply (delivers_publish t p PacketIdentifierDupQoS.AtMostOnce).
  - by apply (delivers_publish t p (PacketIdentifierDupQoS.AtLeastOnce _ false)).
Qed.
End publish.

(** ** The keep-alive of an idle connection *)

(** Nothing to replay, no request, and no acknowledgement whose turn has come. *)
Record idle (s : Session) (kt : Timer) : Prop := mkIdle {
  idle_connected : is_connected s = true;
  idle_replay : packets_to_replay (inflight s) = [];
  idle_disconnect : disconnect_rx (ch s) = None \/ disconnect_rx (ch s) = Some OneshotWaiting;
  idle_q0 : o_pub_q0_rx (ch s) = [];
  idle_q12 : o_pub_q12_rx (ch s) = [];
  idle_sub : sub_rx (ch s) = [];
  idle_ack : ack_rx (ch s) = [];
  idle_auth : auth_rx (ch s) = [];
  idle_ping : ping_rx (ch s) = [];
  idle_pending : forall k a rest, in_application s <> (k, AckReady a) :: rest;
  idle_timer : pingreq_timer s = Some kt;
}.

(** An idle session only sends the PINGREQ of its keep-alive timer. *)
Lemma idle_next now s kt :
  idle s kt ->
  match next_outgoing_packet now s with
  | (Ready packet, s') => packet = Packet.PingReq PingReq.mk /\ timer_deadline kt <= now /\ idle s' (Timer_reset now kt)
  | (Pending, s') => now < timer_deadline kt /\ idle s' kt
  | _ => False
  end.
Proof.
  intros [Hc Hr Hd H0 H12 Hs Ha Hau Hp Hi Ht]. unfold next_outgoing_packet. rewrite Hc, Hr. cbn [negb].
  unfold next_outgoing_request, next_request_fuel. cbn [next_request_loop].
  assert (Hpoll : poll_for_outgoing_request now (ch s) (pingreq_timer s) (pkid_pool s) =
    (poll_keep_alive now (Some kt), ch s, pkid_pool s)).
  { unfold poll_for_outgoing_request, poll_disconnect, poll_subscription, poll_publish, poll_publish_qos12.
    by destruct Hd as [-> | ->]; rewrite Ha, Hau, Hp, Hs, H0, H12, Ht. }
  assert (Hsame : set_pool (pkid_pool s) (set_ch (ch s) s) = s) by (by destruct s).
  destruct (in_application s) as [|[k [|a]] rest] eqn:Ei; [..|by destruct (Hi k a rest)];
    rewrite Hpoll, Hsame; unfold poll_keep_alive, Timer_poll;
    destruct (timer_deadline kt <=? now) eqn:E; bool_to_prop; cbn [packet_of_request packet_of_ping];
    try (split; [lia|by split; rewrite ?Ei]);
    unfold reset_ping_timer; fields; rewrite Ht; (split; [done|]); (split; [lia|]); split; fields; cbn; try done;
    by rewrite Ei.
Qed.

Section keep_alive.
Context {Rd St B : Type} `{PacketSource Rd} `{LawfulWritable St} `{LawfulQueue B} `{UnicodeLaws}.
Context (allow : bool).
Implicit Types (c : @Connection Rd St B) (d : @Driver Rd St B).

(** The server sends nothing. *)
Definition unresponsive c : Prop := forall now, receive now (reader c) = (Pending, reader c).

(** The driver of an idle connection to an unresponsive server, at the time
    [last], whose keep-alive interval is at most the response timeout [rt]. *)
Record rearmed (rt last : Z) (kt : Timer) d : Prop := mkRearmed {
  rearmed_idle : idle (session (connection d)) kt;
  rearmed_config : cfg_pingresp_timeout (connection d) = Some rt;
  rearmed_interval : timer_duration kt <= rt;
  rearmed_server : unresponsive (connection d);
  rearmed_writer : acc_committed (writer_buf (writer (connection d)));
  rearmed_phase :
    match phase d with
    | Writing packet => packet = Packet.PingReq PingReq.mk /\ timer_deadline kt <= last + rt
    | _ => match pingresp_timer d with Some t => timer_deadline kt <= timer_deadline t | None => True end
    end;
}.

Lemma drive_rearmed rt last now kt d :
  rearmed rt last kt d -> last <= now ->
  match drive allow now d with
  | Go d' | Wait d' => exists kt', rearmed rt now kt' d'
  | Done r _ => exists e, r = Err (Io e)
  | Crash _ | Stuck => False
  end.
Proof.
  destruct d as [c timer ph]. intros [Hi Hrt Hdur Hu Hw Hph] Hnow. cbn in *. unfold drive. cbn [phase pingresp_timer connection].
  destruct ph as [|packet|].
  - unfold drive_select. pose proof (idle_next now _ kt Hi) as Hn.
    destruct (next_outgoing_packet now (session c)) as [[packet| | |] s']; try done.
    + destruct Hn as (-> & Hle & Hi'). exists (Timer_reset now kt). split; cbn; try done. split; [done|lia].
    + destruct Hn as (Hlt & Hi'). cbn [reader with_session]. rewrite Hu.
      assert (Hexp : match timer with Some t => Timer_remaining_duration now t =? 0 | None => false end = false).
      { destruct timer as [t|]; [|done]. apply Z.eqb_neq. unfold Timer_remaining_duration. lia. }
      rewrite Hexp. by exists kt.
  - destruct Hph as [-> Hle]. unfold drive_write, arm_timer. rewrite Hrt.
    destruct (write_ok (Packet.PingReq PingReq.mk) (writer c) Hw) as (r & w & -> & Hok).
    destruct r as [[]|e]; [|by eexists]. destruct (Hok eq_refl) as [Hw' _]. clear Hok.
    cbn [session with_writer]. pose proof (idle_next now _ kt Hi) as Hn.
    destruct (next_outgoing_packet now (session c)) as [[packet| | |] s']; try done.
    + destruct Hn as (-> & Hle' & Hi'). exists (Timer_reset now kt). split; cbn; try done. split; [done|lia].
    + destruct Hn as (Hlt & Hi'). exists kt. split; cbn; try done. lia.
  - unfold drive_flush. destruct (flush_ok (writer c) Hw) as (r & w & -> & Hw' & _).
    destruct r as [[]|e]; by eexists.
Qed.

Lemma run_rearmed rt kt d last nows :
  rearmed rt last kt d -> Sorted Z.le (last :: nows) ->
  match run allow nows d with
  | Pending => True
  | Ready (_, event) => exists e, event = DisconnectedIoError e
  | Panicked _ | OutOfFuel => False
  end.
Proof.
  revert last kt d. induction nows as [|now nows IH]; intros last kt d Hd Hs; [done|]. cbn [run].
  apply Sorted_inv in Hs as [Hs Hle]. apply HdRel_inv in Hle.
  pose proof (drive_rearmed rt last now kt d Hd Hle) as Hn.
  destruct (drive allow now d) as [d'|d'|r c'|m|]; try done; try (destruct Hn as [kt' Hd']; by eapply IH).
  destruct Hn as [e ->]. by exists e.
Qed.

End keep_alive.

(** ** Witnesses *)

#[local] Existing Instance Ascii.
#[local] Existing Instance Ascii_laws.

(** A new client, and the CONNACK of a server. *)
Definition demo_handle : ConnectHandle := new_client ClientOptions_default.
Definition demo_connack : ConnAck.t :=
  ConnAck.mk (ConnectReasonCode.Success false) ConnAck.OtherProperties_default.

Lemma demo_initial : initial empty_channels PacketIdentifier_MAX.
Proof. split; [unfold pkid_wf, PacketIdentifier_MAX; cbn; solve_range|by split]. Qed.

Lemma demo_reachable : reachable false (handle_session demo_handle) [].
Proof. exists empty_channels, PacketIdentifier_MAX, []. split; [apply demo_initial|constructor]. Qed.

Lemma fresh_committed : acc_committed (writer_buf fresh_writer).
Proof. by split; [split|]. Qed.


(** A connection in the middle of a run: a PUBLISH is queued, and the server sends
    another one with a new identifier. *)
Definition demo_connection : @Connection Script SlowSink (EitherAccumulator VecOwned) :=
  mkConnection run_waiting (mkScript [(0, Ok (Packet.Publish (run_publish 8)))]) fresh_writer None (Some 15000).
Definition demo_driver : @Driver Script SlowSink (EitherAccumulator VecOwned) :=
  mkDriver demo_connection None Selecting.

Lemma driver_refines_witness :
  driven false demo_connection [run_token 7; run_token 9] /\
  exists d, drive false 0 demo_driver = Go d /\ phase d <> Selecting /\
    exists ts, driven false (connection d) ts.
Proof.
  assert (Hd : driven false demo_connection [run_token 7; run_token 9]).
  { split; [exact run_waiting_reachable|reflexivity|exact fresh_committed|exact I]. }
  split; [exact Hd|]. assert (E : exists d, drive false 0 demo_driver = Go d /\ phase d <> Selecting)
    by (eexists; split; [vm_compute; reflexivity|discriminate]).
  destruct E as (d & E & Hph). exists d. split; [exact E|]. split; [exact Hph|].
  assert (Hp : server_complies 0 demo_driver).
  { intros s packet r _ En _. assert (En' : exists p s', next_outgoing_packet 0 run_waiting = (Ready p, s'))
      by (do 2 eexists; vm_compute; reflexivity). destruct En' as (p & s' & En').
    change (next_outgoing_packet 0 run_waiting = (Pending, s)) in En. rewrite En' in En. discriminate En. }
  pose proof (driver_refines false 0 demo_driver [run_token 7; run_token 9] Hd Hp) as H.
  rewrite E in H. destruct H as (ls & ts & _ & _ & H). by exists ts.
Defined.

(** Publishing to the topic "t" with a content type. *)
Definition demo_topic : TopicName := mkTopicName (mkTopic [116]).
Definition demo_properties : PublishProperties.t :=
  PublishProperties.mk PayloadFormatIndicator.UTF8 (Some 60) None (Some demo_topic) None
    [([107], [118])] [] (Some (lit "text/plain")).
Definition demo_link : Link := mkLink empty_channels true 1%nat.

Lemma demo_str_ok s : forallb (fun b => (0 <=? b) && (b <=? u8_MAX)) s = true ->
  validate_mqtt_string s = Ok tt -> str_ok s.
Proof.
  intros Hb Hv. split; [|exact Hv]. apply Forall_forall. intros b Hin%list_elem_of_In.
  rewrite forallb_forall in Hb. specialize (Hb b Hin). unfold is_u8. bool_to_prop. lia.
Qed.

Lemma publish_end_to_end_witness :
  exists p o l', Client_publish_qos1 ClientOptions_default demo_topic [104; 105] false demo_properties demo_link =
    (Ready (Ok 1%nat), l') /\
  o_pub_q12_rx (link_ch l') = [PublishRequestQoS1QoS2.PublishQoS1 1%nat p [104; 105] false o] /\
  delivers (Packet.Publish (Publish.mk p (PacketIdentifierDupQoS.AtLeastOnce (mkPacketIdentifier 5) false)
      false [104; 105] o))
    (packet_Publish.mk [104; 105]
      (DeliveryQoS.AtLeastOnce (DeliveryInfo.mk false (mkPacketIdentifier 5))) false demo_topic demo_properties).
Proof.
  assert (Ht : topic_ok demo_topic).
  { split; [|vm_compute; reflexivity]. apply (demo_str_ok [116]); vm_compute; reflexivity. }
  assert (Hp : publish_properties_ok demo_properties).
  { unfold publish_properties_ok. cbn. split_and!; try done; try (unfold is_u32, u32_MAX; lia).
    - apply Forall_singleton. split; apply demo_str_ok; vm_compute; reflexivity.
    - apply demo_str_ok; vm_compute; reflexivity. }
  destruct (publish_end_to_end ClientOptions_default demo_topic [104; 105] false demo_properties demo_link Ht Hp)
    as [_ H].
  assert (E : exists l', Client_publish_qos1 ClientOptions_default demo_topic [104; 105] false demo_properties
    demo_link = (Ready (Ok 1%nat), l')) by (eexists; vm_compute; reflexivity).
  destruct E as [l' E]. destruct (H 1%nat l' E) as (p & o & Hq & Hk). exists p, o, l'. split; [exact E|].
  split; [exact Hq|]. apply (Hk (mkPacketIdentifier 5) run_waiting). unfold pkid_wf. cbn. solve_range.
Defined.

(** A silent server, a keep-alive of ten seconds and a response timeout of
    fifteen: after a minute and a half and eight PINGREQs the loop still waits. *)
Definition demo_idle : Session :=
  snd (incoming_connack false 0 demo_connack (KeepAlive.Duration 10) None (SessionExpiryInterval.Duration 100)
    (Session_new empty_channels PacketIdentifier_MAX)).
Definition demo_silent (timeout : Z) : @Connection Script SlowSink (EitherAccumulator VecOwned) :=
  mkConnection demo_idle (mkScript []) fresh_writer None (Some timeout).
Definition demo_times : list Z :=
  flat_map (fun n => let t := Z.of_nat n * 10000 in [t; t; t; t + 1; t + 9999]) (seq 1 8).

