(* ===== verification/Connecting.v ===== *)
(** * Connecting over a transport

    [ConnectHandle::connect] and [ConnectHandle::connect_enhanced_auth] of client.rs as a
    whole: the transport is opened, the CONNECT packet sent on it and the response
    awaited. The parts are those of Transport and Client; the theorem composes what was
    shown about them. *)

From S2P Require Import Transport ClientProps.
Local Open Scope Z_scope.
Local Open Scope rust_scope.

Section attempt.
Context {W BP Ow : Type} `{NetIO W} `{Base64} `{LawfulOwned Ow} `{BufferPool BP Ow} `{Unicode}.
Context (allow_omitted_auth_method : bool).

Abbreviation Ends := (Reader (NetStream W) Ow * Writer (NetStream W) (EitherAccumulator Ow))%type (only parsing).

(** [match self.transport_connect(connection_transport).await { .. }]; what follows
    starts at the time at which the transport was established. *)
Definition on_transport {A} (config : ConnectionTransportConfig W) (reader_pool writer_pool : BP)
    (k : Z -> result IoError Ends -> poll A) (w : W) : poll A * W :=
  match transport_connect config reader_pool writer_pool w with
  | (Ready transport, w) => (k (clock w) transport, w)
  | (Pending, w) => (Pending, w)
  | (Panicked m, w) => (Panicked m, w)
  | (OutOfFuel, w) => (OutOfFuel, w)
  end.

(** [ConnectHandle::connect]. *)
Definition ConnectHandle_connect (h : ConnectHandle) (reader_pool writer_pool : BP) (polls : list Z)
    (connection_transport : ConnectionTransportConfig W) (clean_start : bool) (keep_alive : KeepAliveConfig.t)
    (will : option Will.t) (username : option str) (password : option (list u8))
    (properties : ConnectProperties.t) (response_timeout : option Z) :=
  on_transport connection_transport reader_pool writer_pool (fun now transport =>
    connect allow_omitted_auth_method h now polls transport clean_start keep_alive will username password
      properties response_timeout).

(** [ConnectHandle::connect_enhanced_auth]. *)
Definition ConnectHandle_connect_enhanced_auth (h : ConnectHandle) (reader_pool writer_pool : BP)
    (polls : list Z) (connection_transport : ConnectionTransportConfig W) (clean_start : bool)
    (keep_alive : KeepAliveConfig.t) (will : option Will.t) (username : option str)
    (password : option (list u8)) (properties : ConnectProperties.t)
    (authentication_info : AuthenticationInfo.t) (response_timeout : option Z) :=
  on_transport connection_transport reader_pool writer_pool (fun now transport =>
    connect_enhanced_auth allow_omitted_auth_method h now polls transport clean_start keep_alive will username
      password properties authentication_info response_timeout).
End attempt.

(** ** The ends of a new transport *)

Section composed.
Context {W BP Ow : Type} `{NetIO W} `{!NetworkLaws W} `{!WebSocketLaws W} `{Base64} `{LawfulOwned Ow}.
Context `{BufferPool BP Ow} `{UnicodeLaws}.
Context `{!LawfulReadable (TcpStream W)} `{!LawfulReadable (SslStream W (TcpStream W))}.
Context `{!LawfulReadable (SslStream W (TransportStream W))}.
Context `{!LawfulWritable (TcpStream W)} `{!LawfulWritable (SslStream W (TcpStream W))}.
Context `{!LawfulWritable (SslStream W (TransportStream W))}.
Context `{!MessageLaws (Tungstenite W (TransportStream W))}.
Context `{!MessageLaws (Tungstenite W (SslStream W (TransportStream W)))}.

(** [take_empty_owned] gives an empty buffer. *)
Context (pool_empty : forall pool : BP, filled (take_empty_owned pool) = []).

Implicit Types config : ConnectionTransportConfig W.

Definition fresh_ends (reader : Reader (NetStream W) Ow)
    (writer : Writer (NetStream W) (EitherAccumulator Ow)) : Prop :=
  filled (reader_buf reader) = [] /\ view (writer_buf writer) = [] /\ acc_committed (writer_buf writer).

Lemma transport_connect_fresh config (rp wp : BP) w reader writer w' :
  transport_connect config rp wp w = (Ready (Ok (reader, writer)), w') -> fresh_ends reader writer.
Proof.
  assert (Hs : forall s, fresh_ends (mkReader s (take_empty_owned rp)) (mkWriter s (EitherSingle SingleAccumulator_new))).
  { intros s. by split_and!; [apply pool_empty| |]. }
  unfold transport_connect. destruct (transport_type config) as [host port|host port tls|request tls];
    intros [E _]%maybe_timeout_io_ok.
  - unfold tokio_tcp_connect in E. inv_io E. split_and!; [apply pool_empty| |].
    + cbn. unfold iov_view. cbn. by rewrite pool_empty.
    + split; [by split|apply pool_empty].
  - unfold tokio_tls_connect in E. inv_io E. apply Hs.
  - unfold tokio_ws_connect in E. apply io_bind_ready in E as (? & ? & _ & E).
    apply io_bind_ready in E as (? & ? & _ & E). apply io_bind_ready in E as (? & ? & _ & E).
    destruct (negb _); [done|]. destruct (negb _); [done|]. destruct tls; inv_io E; apply Hs.
Qed.

(** The first packet on the stream of [r0] is [p]: the reads of the stream stored the bytes
    of one frame, which decodes to [p], and then those that wait in the buffer of [r]. *)
Definition answered (r0 : Reader (NetStream W) Ow) (p : Packet.t) (r : Reader (NetStream W) Ow) : Prop :=
  exists frame, Packet.decode_full frame V5 = Ok p /\
    stream_reads (reader_inner r0) (frame ++ filled (reader_buf r)) (reader_inner r).

Lemma receives_answered (r0 r : Reader (NetStream W) Ow) p :
  reader_ok r0 -> filled (reader_buf r0) = [] -> receives r0 p r -> answered r0 p r.
Proof.
  intros Hok Hf Hrec. destruct Hrec as [now r0 p r E|now r0 r1 p r E _].
  all: cbn in E; unfold mqtt_receive in E; destruct (Reader_read_ok r0 Hok) as (r' & res & Er & Hres);
    rewrite Er in E; destruct res as [raw|e]; try done.
  destruct (Hres raw eq_refl) as (_ & got & header & Hs & Hb & Hh).
  destruct (Packet.decode _ _ V5) as [q|e] eqn:Ed; [|done]. injection E as -> ->.
  exists (header ++ raw_rest raw). split; [by rewrite (decode_full_header _ _ _ _ Hh)|].
  rewrite Hf in Hb. rewrite <- app_assoc, <- Hb. exact Hs.
Qed.

(** What [connect] and [connect_enhanced_auth] promise on the ends of a new transport: the
    promise of the client, with the packet that decided the attempt as the first one that
    arrived on the stream. *)
Definition connect_answered (allow : bool) h ts packet (r0 : Reader (NetStream W) Ow) (before : list u8)
    (res : poll (@ConnectResult (Reader (NetStream W) Ow) (NetStream W) (EitherAccumulator Ow))) : Prop :=
  connect_outcome allow h ts packet r0 before res /\
  match res with
  | Ready (ConnectSuccess c _ _) =>
      exists p, connected (session c) = Connected p /\ answered r0 (Packet.ConnAck p) (reader c)
  | _ => True
  end.

Definition auth_answered (allow : bool) h ts info packet (r0 : Reader (NetStream W) Ow) (before : list u8)
    (res : poll (@ConnectEnhancedAuthResult (Reader (NetStream W) Ow) (NetStream W) (EitherAccumulator Ow))) : Prop :=
  auth_outcome allow h ts info packet r0 before res /\
  match res with
  | Ready (AuthSuccess c _ _ _) =>
      exists p, connected (session c) = Connected p /\ answered r0 (Packet.ConnAck p) (reader c)
  | Ready (AuthContinue auth h') =>
      exists a, auth = packet_Auth.from a /\ answered r0 (Packet.Auth a) (auth_reader h')
  | _ => True
  end.

Lemma established_answered allow s0 (r0 : Reader (NetStream W) Ow) ts method
    (c : @Connection (Reader (NetStream W) Ow) (NetStream W) (EitherAccumulator Ow)) connack dh :
  reader_ok r0 -> filled (reader_buf r0) = [] -> established allow s0 r0 ts method c connack dh ->
  exists p, connected (session c) = Connected p /\ answered r0 (Packet.ConnAck p) (reader c).
Proof. intros Hok Hf (p & Hrec & _ & Hc & _). exists p. split; [done|]. by apply receives_answered. Qed.

Lemma connect_outcome_answered allow h ts packet r0 before res :
  reader_ok r0 -> filled (reader_buf r0) = [] ->
  connect_outcome allow h ts packet r0 before res -> connect_answered allow h ts packet r0 before res.
Proof.
  intros Hok Hf Ho. split; [done|]. destruct res as [[c k dh|]| | |]; try done. destruct Ho as [He _].
  by eapply established_answered.
Qed.

Lemma auth_outcome_answered allow h ts info packet r0 before res :
  reader_ok r0 -> filled (reader_buf r0) = [] ->
  auth_outcome allow h ts info packet r0 before res -> auth_answered allow h ts info packet r0 before res.
Proof.
  intros Hok Hf Ho. split; [done|]. destruct res as [[a h'|c k dh rh|]| | |]; try done.
  - destruct Ho as (_ & _ & _ & _ & (a' & Ea & Hrec) & _). exists a'. split; [done|]. by apply receives_answered.
  - destruct Ho as [He _]. by eapply established_answered.
Qed.

(** The outcome [res] of an attempt on a transport, which is [failed] when the transport
    is not established, given the promise [P] of the client for the reader of the new
    transport and what its stream had sent. *)
Definition attempt_outcome {A} config (rp wp : BP) (w : W) (failed : IoError -> A)
    (P : Reader (NetStream W) Ow -> list u8 -> poll A -> Prop) (res : poll A * W) : Prop :=
  match transport_connect config rp wp w with
  | (Ready (Ok (reader, writer)), w') =>
      snd res = w' /\ reader_inner reader = writer_inner writer /\ leads config (writer_inner writer) /\
      match timeout config with Some d => clock w' - clock w <= d | None => True end /\
      P reader (sent (writer_inner writer)) (fst res)
  | (Ready (Err err), w') => res = (Ready (failed err), w')
  | (Pending, w') => res = (Pending, w')
  | (Panicked m, w') => res = (Panicked m, w')
  | (OutOfFuel, w') => res = (OutOfFuel, w')
  end.

Lemma on_transport_ok {A} config (rp wp : BP) k (w : W) (failed : IoError -> A)
    (P : Reader (NetStream W) Ow -> list u8 -> poll A -> Prop) :
  (forall now err, k now (Err err) = Ready (failed err)) ->
  (forall reader writer w', transport_connect config rp wp w = (Ready (Ok (reader, writer)), w') ->
    fresh_ends reader writer -> P reader (output writer) (k (clock w') (Ok (reader, writer)))) ->
  attempt_outcome config rp wp w failed P (on_transport config rp wp k w).
Proof.
  intros Herr Hok. unfold attempt_outcome, on_transport.
  destruct (transport_connect config rp wp w) as [[[[reader writer]|err]| | |] w'] eqn:E; try done.
  - pose proof (transport_connect_fresh _ _ _ _ _ _ _ E) as Hf.
    apply transport_connect_leads in E as Hl. destruct Hl as (Hi & Ht & Hl). specialize (Hok _ _ _ eq_refl Hf).
    unfold output in Hok. destruct Hf as (_ & Hv & _). rewrite Hv, app_nil_r in Hok. rewrite Hi in Hl.
    by split_and!.
  - by rewrite Herr.
Qed.

(** C16: connecting over a transport, as a whole, with [connect] and with
    [connect_enhanced_auth]. Either the transport cannot be opened, and then the attempt ends
    with that error and the handle as it was; or its stream leads where the configuration says
    (inside a TLS session with the configured host when TLS is configured, through the proxy if
    there is one) and was opened within its timeout. When the attempt succeeds, exactly the
    CONNECT packet with the given credentials was written to that stream once it was open,
    through the writer of the connection that is returned; the first frame that the stream delivered decodes to the
    CONNACK with which the session is connected, which accepts the connection and is the one
    that the application is given; and the connection can be driven. When an enhanced
    authentication goes on, the same holds of the CONNECT packet and of the AUTH packet that is
    returned. Every failure leaves the session as it was, and the client panics only if an
    argument does not fit in the packet. *)
Theorem connect_over_transport allow h ts (rp wp : BP) polls config clean_start ka will username password
    properties response_timeout w :
  reachable allow (handle_session h) ts -> is_connected (handle_session h) = false ->
  connection_epoch (handle_session h) + 1 < 2 ^ 64 ->
  (forall reader writer w', transport_connect config rp wp w = (Ready (Ok (reader, writer)), w') ->
    stream_ok (reader_inner reader)) ->
  let packet info := connect_packet (cfg_client_id h) clean_start (KeepAliveConfig.into ka) will username
    password properties info in
  attempt_outcome config rp wp w
    (fun err => ConnectFailure h (ConnectError.Io err))
    (connect_answered allow h ts (packet None))
    (ConnectHandle_connect allow h rp wp polls config clean_start ka will username password properties
      response_timeout w) /\
  forall info, attempt_outcome config rp wp w
    (fun err => AuthFailure h (ConnectError.Io err))
    (auth_answered allow h ts info (packet (Some info)))
    (ConnectHandle_connect_enhanced_auth allow h rp wp polls config clean_start ka will username password
      properties info response_timeout w).
Proof.
  intros Hr Hc He Hs packet. split; [|intros info]; apply on_transport_ok; try done;
    intros reader writer w' E (Hf & _ & Hw);
    assert (Hok : reader_ok reader) by (split; [by eapply Hs|rewrite Hf; constructor]).
  - apply connect_outcome_answered; [done..|]. by apply connect_ok.
  - apply auth_outcome_answered; [done..|]. by apply connect_enhanced_auth_ok.
Qed.
End composed.

(** ** Evaluation *)

(** A network whose proxies grant every tunnel, and on whose TLS streams a broker answers
    with a CONNACK. *)
Record Internet : Set := mkInternet { internet_clock : Z }.

Definition broker_reply : list u8 := [32; 3; 0; 0; 0].

#[export] Instance Internet_network : Network Internet := {|
  TcpStream := (str * u16 * bool * Pipe)%type;
  SslStream T := (list nat * str * T * Pipe)%type;
  TcpStream_connect host port w :=
    (Ready (Ok (host, port, false, granted)), mkInternet (internet_clock w + 1));
  set_nodelay b s := Ok (fst (fst s), b, snd s);
  SslStream_new T ssl s := Ok (ssl, s, mkPipe [] broker_reply);
  SslStream_connect T t w :=
    (Ready (Ok (fst t, mkPipe [] (pipe_inbox (snd t)))), mkInternet (internet_clock w + 1));
  clock := internet_clock;
|}.

#[export] Instance Internet_laws : NetworkLaws Internet.
Proof.
  unshelve refine {| tcp_laws := tagged_laws Internet _; ssl_laws := tagged_laws Internet _;
    tcp_peer := fst; Transport.session T t := fst t;
    tcp_ident := tagged_ident Internet _; ssl_ident := tagged_ident Internet _ |}; cbn.
  - intros host port w s w' E. by injection E as <- <-.
  - intros b s s' E. by injection E as <-.
  - intros T b c name ssl s t w t' w' E1 E2 E3 E4. injection E1 as ->. injection E2 as <-.
    injection E3 as <-. by injection E4 as <- <-.
  - intros t w t' w' E. by injection E as <- <-.
Defined.

(** A WebSocket on which nothing arrives. *)
#[export] Instance Internet_websockets : WebSockets Internet := {|
  WsRequest := DemoRequest;
  Tungstenite T := (DemoRequest * T * list Message)%type;
  into_client_request r := Ok r;
  insert_header name value r :=
    mkRequest (demo_scheme r) (demo_uri_host r) (demo_port r) (demo_headers r ++ [(name, value)]);
  uri_host r := Some (demo_uri_host r);
  uri_port_u16 r := demo_port r;
  uri_scheme_str r := Some (demo_scheme r);
  client_async T request s w := (Ready (Ok (request, s, [])), w);
|}.

#[export] Instance Internet_websocket_laws : WebSocketLaws Internet.
Proof.
  refine {| upgraded T t := fst (t : DemoRequest * T * list Message) |}. intros T request s w t w' E.
  by injection E as <- <-.
Defined.

#[export] Instance Pipe_read (A : Type) : ReadableStream (A * Pipe) := {|
  stream_read s n :=
    (fst s, mkPipe (pipe_sent (snd s)) (drop (Z.to_nat n) (pipe_inbox (snd s))),
     Ok (take (Z.to_nat n) (pipe_inbox (snd s))));
|}.

#[export] Instance Pipe_readable (A : Type) : LawfulReadable (A * Pipe).
Proof.
  refine {| stream_ok s := bytes_ok (pipe_inbox (snd s)) |}; cbn [stream_read Pipe_read].
  - intros s n s' bs Hn [= _ <-]. unfold len. rewrite length_take. lia.
  - intros s n s' bs Hs [= _ <-]. by apply Forall_take.
  - intros s n s' bs Hs [= <- _]. by apply Forall_drop.
Defined.

#[export] Instance Pipe_write (A : Type) : WritableStream (A * Pipe) := {|
  stream_write s bufs :=
    (fst s, mkPipe (pipe_sent (snd s) ++ concat bufs) (pipe_inbox (snd s)), Ok (len (concat bufs)));
  stream_flush s := (s, Ok tt);
|}.

#[export] Instance Pipe_writable (A : Type) : LawfulWritable (A * Pipe).
Proof.
  refine {| sent s := pipe_sent (snd s) |}; cbn [stream_write stream_flush Pipe_write].
  - intros s bufs s' n [= <- <-]. split; [pose proof (len_nonneg (concat bufs)); lia|]. cbn.
    unfold len. by rewrite Nat2Z.id, take_ge.
  - done.
  - intros s s' r [= <- _]. done.
Defined.

#[export] Instance Silent_messages (A : Type) : MessageStream (A * list Message) := {|
  poll_next t := (None, t);
  backlog _ := 0%nat;
  poll_ready t := (Ok tt, t);
  start_send m t := (Ok tt, (fst t, snd t ++ [m]));
  sink_flush t := (Ok tt, t);
  sink_close t := (Ok tt, t);
|}.

#[export] Instance Silent_laws (A : Type) : MessageLaws (A * list Message).
Proof. refine {| messages _ := []; outbox := snd |}; try done. intros t f. apply not_elem_of_nil. Defined.

#[export] Instance Internet_io : NetIO Internet := {|
  tcp_read := Pipe_read _; tcp_write := Pipe_write _;
  ssl_read := Pipe_read _; ssl_write := Pipe_write _;
  target_read := Pipe_read _; target_write := Pipe_write _;
  ws_messages := Silent_messages _; wss_messages := Silent_messages _;
|}.

#[local] Existing Instance Ascii.
#[local] Existing Instance Ascii_laws.

(** With a name and a password, by TLS through an HTTP proxy. *)
Definition tunnel_proxy : Proxy := mkProxy _ (ProxyEndpoint.Http (lit "proxy.example") 3128) demo_auth.
Definition tunnel_config : ConnectionTransportConfig Internet :=
  mkTransportConfig (ConnectionTransportType.Tls (lit "mqtt.example.com") 8883 demo_tls) (Some 10)
    (Some tunnel_proxy) true.
Definition tunnel_connect :=
  ConnectHandle_connect (BP := unit) (Ow := VecOwned) false demo_handle tt tt [3] tunnel_config true
    (KeepAliveConfig.Duration 10 15000) None (Some (lit "u")) (Some (lit "pw")) ConnectProperties.default
    (Some 20) (mkInternet 0).

Lemma Vec_pool_empty (pool : unit) : filled (take_empty_owned pool : VecOwned) = [].
Proof. reflexivity. Qed.

Lemma connect_over_transport_witness : exists c connack dh t r0 p,
  tunnel_connect = (Ready (ConnectSuccess c connack dh), mkInternet 2) /\
  reader_inner r0 = OpensslStreamHalf t /\
  established false (handle_session demo_handle) r0 [] None c connack dh /\
  connected (session c) = Connected p /\ answered r0 (Packet.ConnAck p) (reader c) /\
  secured t demo_tls (lit "mqtt.example.com") 8883 true (Some tunnel_proxy) /\
  sent t = [] /\
  sent (writer_inner (writer c)) =
    [16; 20; 0; 4; 77; 81; 84; 84; 5; 194; 0; 10; 0; 0; 0; 0; 1; 117; 0; 2; 112; 119].
Proof.
  assert (E : match tunnel_connect with (Ready (ConnectSuccess _ _ _), w) => w = mkInternet 2 | _ => False end)
    by (vm_compute; reflexivity).
  destruct tunnel_connect as [[[c connack dh|]| | |] w'] eqn:Ec; try contradiction. subst w'.
  set (tr := transport_connect (Ow := VecOwned) tunnel_config tt tt (mkInternet 0)).
  assert (T : match tr with
    | (Ready (Ok (r, w)), i) =>
        match reader_inner r with
        | OpensslStreamHalf t => snd t = mkPipe [] broker_reply
        | _ => False
        end
    | _ => False
    end) by (vm_compute; reflexivity).
  destruct tr as [[[[r w]|]| | |] i] eqn:Et; try contradiction.
  destruct (reader_inner r) as [|t| |] eqn:Tr; try contradiction. rename T into Tt. subst tr.
  destruct (connect_over_transport (BP := unit) (Ow := VecOwned) Vec_pool_empty false demo_handle [] tt tt [3]
    tunnel_config true (KeepAliveConfig.Duration 10 15000) None (Some (lit "u")) (Some (lit "pw"))
    ConnectProperties.default (Some 20) (mkInternet 0) demo_reachable eq_refl ltac:(vm_compute; reflexivity))
    as [H _].
  { intros r' w' ? T'. rewrite Et in T'. injection T' as <- <- <-. rewrite Tr. cbn. rewrite Tt.
    repeat constructor; solve_range. }
  unfold attempt_outcome in H. rewrite Et in H. fold tunnel_connect in H. rewrite Ec in H.
  destruct H as (_ & Tw & Hl & _ & (He & p & Ep & bs & Eb & Hs & _) & q & Hq & Ha).
  exists c, connack, dh, t, r, q. rewrite <- Tw, Tr in Hl, Hs.
  assert (Hsent : sent t = []) by (cbn; by rewrite Tt).
  split; [reflexivity|]. split; [exact Tr|]. split; [exact He|]. split; [exact Hq|]. split; [exact Ha|].
  split; [exact Hl|]. split; [exact Hsent|].
  rewrite Hs. change (sent (OpensslStreamHalf t)) with (sent t). rewrite Hsent.
  vm_compute in Ep. injection Ep as <-. vm_compute in Eb. injection Eb as <-. reflexivity.
Defined.
